(* ===== verification/_CoqProject ===== *)
-Q . S2P
Prelude.v
Text.v
Ring.v
Types.v
Seq.v
Packet.v
Rtt.v
Mpmc.v
MpmcSpec.v
Queue.v
Monitor.v
SendWindow.v
SendSpec.v
Send.v
RecvWindow.v
RecvSpec.v
Recv.v
Link.v
Recover.v
RecvSafe.v
Net.v
Kernel.v
Posix.v
Win32.v
Session.v
Sessions.v
Endpoint.v
Sockets.v
Win32Spec.v
Peer.v
Client.v
ClientSpec.v
ClientRun.v
Server.v
ServerSpec.v
ServerRun.v
ServerDrain.v
ServerTable.v
Worker.v
Connection.v
Stale.v
Emit.v
ClientWire.v
Pipe.v
ServerWire.v
Inbox.v
Stream.v
Duplex.v
Examples.v
