(* ===== verification/Prelude.v ===== *)
(** * rel4u: reliable messaging over UDP

    A model of the C library rel4u (sources under [src/]) with the theorems that
    make it correct.  A client and a server exchange messages over UDP in four
    delivery modes; each runs one worker thread and hands messages to the
    application through two queues.

    ** The program and its model

    - [include/rel4u.h]: public types, return codes, configuration.  File
      [Types]; the two configuration structures are in [Client] and [Server].
    - [src/core/rel4u_packet.{h,c}]: the 24-byte header.  File [Packet]; the
      byte order of the host is a parameter.
    - [src/core/rel4u_rtt.{h,c}]: the RTT estimator at 32-bit width.  File [Rtt].
    - [src/core/rel4u_mpmc.{h,c}]: the message queue, a ring (fixed mode) or a
      doubly linked list of heap blocks (dynamic mode).  [Mpmc] has the
      operations, [MpmcSpec] the bounded queue they refine and the refinement,
      [Queue] the theorems.  The allocator is the class [Malloc].  [Monitor] is
      the level below: any number of threads in the queue, statement by statement,
      with the mutex and the condition variable; an operation reads the queue in one
      step and writes it back in a later one.
    - [src/core/rel4u_window.{h,c}]: sequence arithmetic ([Seq]), the send window
      ([SendWindow]; [SendSpec] relates it to a list of entries; [Send] has the
      theorems) and the receive window ([RecvWindow]; [RecvSpec], [Recv] for the
      packets of an honest stream; [RecvSafe] for arbitrary packets).
    - [src/core/rel4u_session.{h,c}]: the server's session table.  [Session],
      [Sessions].
    - [src/core/rel4u_client.c]: [Client] (every public call and every part of
      the worker loop), [ClientSpec] (the invariant), [ClientRun] (theorems).
    - [src/core/rel4u_server.c]: [Server], [ServerSpec], [ServerRun] (the
      invariant over all interleavings), [ServerDrain] (the send queue),
      [ServerTable] (timers, isolation, resets, stop).
    - Code both workers have: [Endpoint] (a data packet on its way to the
      application, the platform interface), [Peer] (what both keep per peer).
    - [src/platform/rel4u_{net,time,threads}.c]: [Kernel] is the interface of the
      operating system and the programs that call it; [Posix] and [Win32] are the
      two branches, [Sockets] the functions they share and the theorems about
      both, [Win32Spec] those about Windows only.  [Net] and [Endpoint] have the
      values these functions compute, which is all the client and the server need
      of them (the class [Platform], [system], [poll_fun]).
    - [examples/server_echo.c], [examples/client_bench.c]: [Examples]; the text
      functions of the C library they and the addresses use are in [Text].
    - Composition: [Link] joins a send and a receive window by a network that
      loses, duplicates and reorders ([Recover] is its liveness); [Connection]
      joins a client and a server for the handshake and one message; [Stale] is a
      reconnect that meets an old session; [Worker] takes the loops of both worker
      threads apart into the steps that interleave here; [Emit], [ClientWire] and
      [ServerWire] say what every step of either endpoint puts on the wire and does
      to the windows, [Inbox] what it does to the receive queues: what is pushed,
      what a receive call takes, what the queue drops; [Pipe] is what both
      directions share; [Stream] runs both whole endpoints over such a network and
      refines the direction from the client to the server to [Link], and [Duplex]
      adds the way back.
    - [Prelude] and [Ring]: words, byte copies, record updates; ring buffers.

    ** How the code is represented

    A C integer of [w] bits is a [Z] with the conversion written at every
    operation that can leave its range ([u8] ... [u64], [s32]).  A struct is a
    record with the source's fields, an array a list read with [!.] and written
    with [arr_set], a payload array the prefix of it that has been written.  A
    pointer into an array is an index; heap nodes of the dynamic queue live in a
    map from addresses.  A function that writes through pointers returns the new
    values; a C return code is a [Z]; [NULL] is [None].

    Undefined behaviour: a send call that would copy a message past the end of
    [item.data] has no result ([memcpy_into]), and the invariants of the endpoints
    show that with an MTU of at most 9240 there is none.  A signed overflow in
    [rel4u_rtt_update_sample] is taken to wrap; [rtt_no_signed_overflow] shows that
    there is none for samples below 2^31 ms.

    Every queue operation runs under the queue's mutex and is one function, which
    [Monitor] justifies.  In [Stream] and [Duplex] a blocking receive call is a step
    at the moment at which it takes its message ([pop_wait_atomic]).  The server's worker and calls hold [table_mutex] while they use a session, so a
    datagram, a turn of the drain and a scan of the timers are atomic steps; the
    client's worker steps and calls interleave at the grain of [client_event].
    Calls that join the worker take what the worker still does as a function
    ([finish]).  A thread reads the clock and sends through a [world], which
    numbers the readings and keeps the datagrams sent.

    Loops are structural over what bounds them in the code, or have fuel: one
    unit per slot of the window ([advance_loop], [pop_ready_loop],
    [ack_cumulative], [drain_full], [drain_any]), per message of the queue
    ([client_drain], [server_drain], [pop_all], [mpmc_make_room]) or per wake-up
    ([pop_wait_loop]) or per read of the wakeup channel ([drain_loop]); the loops of
    the examples return [None] while they still run.  The lemmas about each show that the loop has ended by its
    own condition before the fuel has; [server_drain_terminates] states it for
    the server's drain.

    ** What is proved

    - Codec: round trip between hosts of any byte order, the wire layout, which
      datagrams are accepted, the types of what comes out ([Packet]).
    - Arithmetic: comparisons of wrapped sequence numbers ([Seq]), the bounds of
      the retransmission timeout ([Rtt]).
    - Queue: refinement of a bounded queue in both memory modes with memory
      safety, FIFO order, bounds, blocking pop ([Queue]); for interleaved threads
      mutual exclusion, FIFO order across threads, no lost wake-up, a blocking pop
      that equals the function, and a wake-all that reaches everybody ([Monitor]).
    - Platform: no descriptor, address list, Winsock start or thread context is
      lost whatever the system answers; draining a wakeup channel ends; the flags of
      [poll]; timed waits ask for the time they should; a port survives the way through an address; where the
      Windows clock wraps ([Sockets], [Win32Spec]).
    - Examples: a turn of the echo server puts what it has read back into the send
      queue, for its sender; it stops when told, and hangs on a message that does
      not fit a packet; the benchmark sends its numbered messages ([Examples]).
    - Windows: each operation does to the list of entries what it should;
      exactly-once in-order delivery of whatever arrives; what is acknowledged
      is exactly what has arrived ([Send], [Recv]).
    - One direction: over a network that loses, duplicates and reorders, nothing
      is forged, reordered or lost ([Link]), and when everything in transit is
      lost, retransmission still completes the delivery ([Recover]).
    - Sessions: the table's invariant, allocation with eviction ([Sessions]).
    - Endpoints: invariants of client and server over every interleaving and any
      input; drains lose nothing and terminate; strangers change nothing; clients
      are isolated; timers free exactly the idle sessions; a stop is clean
      ([ClientRun], [ServerRun], [ServerDrain], [ServerTable]).
    - Threads: a turn of a worker loop is a sequence of the atomic steps in the
      order of its body, with everything the socket has and everything of the send
      queue that can go ([Worker]).
    - Both: the handshake connects and messages cross ([Connection]); a repeated
      request resumes the session ([Stale]); over any network and in any
      interleaving, while a connection lasts, the reliable messages that receive
      calls take from the server's receive queue, or find in it, are messages the
      client has sent, each once at most, the ordered ones in order; and they are all
      of them when nothing is in flight and the queue has dropped none ([Stream]).
      The same holds of the server's messages to the client, in the same runs; and
      the condition is needed: a full receive queue drops acknowledged messages
      ([Duplex], [full_queue_loses]).

    ** Hypotheses

    Window capacities are below [2^31] and the MTU is at most 9240; the allocation
    of the windows of a session, which the code does not check, succeeds where a
    theorem says so ([server_event_ok], [turn_ok]), and so does that of queue nodes;
    a packet reaches a window while the stream is within [2^31]
    positions of it (in [Stream] and [Duplex]: a connection carries fewer than
    [2^31] reliable messages each way, queues of fewer than [2^32] messages, and
    nobody forges the address of the client or of the server); clock readings are below [2^64 - 1], in [Recover] by more
    than a timeout.  Of the operating system nothing is
    assumed but what a theorem names: [poll_reports], [NonblockingRead],
    [numeric_names], that [malloc] returns an unused block.

    ** Not modelled

    NULL arguments of the public calls; [memory_order] effects on plain fields
    that two threads use without a lock; the output of the example programs; the
    tests and the build. *)
From stdpp Require Import base numbers list gmap.
Open Scope Z_scope.

Declare Scope rel4u_scope.
Delimit Scope rel4u_scope with rel4u.
Open Scope rel4u_scope.

(** ** Fixed-width integers

    A C integer of [w] bits is the [Z] of its value; every operation that can
    leave the range is followed by the conversion the language prescribes. *)

Definition u8 (z : Z) : Z := z mod 2 ^ 8.
Definition u16 (z : Z) : Z := z mod 2 ^ 16.
Definition u32 (z : Z) : Z := z mod 2 ^ 32.
Definition u64 (z : Z) : Z := z mod 2 ^ 64.

(** The value of a 32-bit pattern read as [int32_t] (two's complement). *)
Definition s32 (z : Z) : Z := (z + 2 ^ 31) mod 2 ^ 32 - 2 ^ 31.

Definition is_u8 (z : Z) : Prop := 0 <= z < 2 ^ 8.
Definition is_u16 (z : Z) : Prop := 0 <= z < 2 ^ 16.
Definition is_u32 (z : Z) : Prop := 0 <= z < 2 ^ 32.
Definition is_u64 (z : Z) : Prop := 0 <= z < 2 ^ 64.

(** [word_lia] decides linear goals about wrapped integers: it exposes the
    moduli and turns each [mod] and [/] by a literal into its Euclidean
    equations. *)
Ltac word_unfold :=
  unfold u8, u16, u32, u64, s32, is_u8, is_u16, is_u32, is_u64 in *.
Ltac word_lia := word_unfold; Z.to_euclidean_division_equations; lia.

Create HintDb rel4u.
Create Rewrite HintDb rel4u.

Lemma u8_small z : is_u8 z -> u8 z = z.
Proof. intros. word_lia. Qed.
Lemma u16_small z : is_u16 z -> u16 z = z.
Proof. intros. word_lia. Qed.
Lemma u32_small z : is_u32 z -> u32 z = z.
Proof. intros. word_lia. Qed.
Lemma u64_small z : is_u64 z -> u64 z = z.
Proof. intros. word_lia. Qed.
Lemma u8_range z : is_u8 (u8 z).
Proof. word_lia. Qed.
Lemma u16_range z : is_u16 (u16 z).
Proof. word_lia. Qed.
Lemma u32_range z : is_u32 (u32 z).
Proof. word_lia. Qed.
Lemma u64_range z : is_u64 (u64 z).
Proof. word_lia. Qed.
#[export] Hint Resolve u8_range u16_range u32_range u64_range : rel4u.

Lemma u32_u32 z : u32 (u32 z) = u32 z.
Proof. apply u32_small, u32_range. Qed.

Lemma u32_add_l a b : u32 (u32 a + b) = u32 (a + b).
Proof. word_lia. Qed.
Lemma u32_add_r a b : u32 (a + u32 b) = u32 (a + b).
Proof. word_lia. Qed.
Lemma u32_sub_l a b : u32 (u32 a - b) = u32 (a - b).
Proof. word_lia. Qed.
Lemma u32_sub_r a b : u32 (a - u32 b) = u32 (a - b).
Proof. word_lia. Qed.
#[export] Hint Rewrite u32_u32 u32_add_l u32_add_r u32_sub_l u32_sub_r : rel4u.

(** ** Record update

    [r <| f := v |>] is the C assignment [r.f = v] on a value.  A record
    declares its eta-expansion once; the update of a field is derived from it. *)

Class Eta (R : Type) := eta : R -> R.
Class Upd {R E : Type} (proj : R -> E) := upd : (E -> E) -> R -> R.
Arguments upd {R E} proj {_} / f r.

Ltac derive_upd R proj :=
  let e0 := constr:(@eta R _) in
  let e := eval hnf in e0 in
  exact (fun f (r : R) => ltac:(
    let b := eval cbv beta in (e r) in
    lazymatch b with
    | context C [proj r] => let b' := context C [f (proj r)] in exact b'
    end)).

#[export] Hint Extern 1 (@Upd ?R _ ?proj) => derive_upd R proj : typeclass_instances.

Notation "r <| f := v |>" := (upd f (fun _ => v) r)
  (at level 1, left associativity, f at level 9, v at level 200) : rel4u_scope.

(** ** Arrays

    [arr !. i] reads and [arr_set arr i v] writes the element [i] of a C
    array.  Reading or writing out of range is undefined behaviour in C; here a
    read gives the default element and a write does nothing, and each component
    proves that its indices are in range. *)

Definition arr_get {A} `{Inhabited A} (l : list A) (i : Z) : A := l !!! Z.to_nat i.
Definition arr_set {A} (l : list A) (i : Z) (v : A) : list A := <[Z.to_nat i := v]> l.
Notation "l !. i" := (arr_get l i) (at level 20) : rel4u_scope.

(** [memcpy(dst, src, n)] into the front of the array [dst]. *)
Definition memcpy {A} (dst src : list A) (n : Z) : list A :=
  take (Z.to_nat n) src ++ drop (Z.to_nat n) dst.

Lemma memcpy_take {A} (dst src : list A) n :
  n <= Z.of_nat (length src) ->
  take (Z.to_nat n) (memcpy dst src n) = take (Z.to_nat n) src.
Proof.
  intros Hn. unfold memcpy.
  rewrite take_app_le by (rewrite length_take; lia).
  rewrite take_take. f_equal. lia.
Qed.

Lemma memcpy_length {A} (dst src : list A) n :
  n <= Z.of_nat (length src) -> n <= Z.of_nat (length dst) ->
  length (memcpy dst src n) = length dst.
Proof. intros. unfold memcpy. rewrite length_app, length_take, length_drop. lia. Qed.

(** [memcpy] into an array of [size] elements whose contents are not read before;
    [None] when it would write past the end of the array, which is undefined. *)
Definition memcpy_into {A} (size : Z) (src : list A) (n : Z) : option (list A) :=
  if n <=? size then Some (memcpy [] src n) else None.

(** ** Powers of two and ring indices *)

(** The test [(c & (c - 1)) == 0] the initialisers make on a capacity. *)
Definition is_pow2 (c : Z) : bool := Z.land c (c - 1) =? 0.

Lemma is_pow2_spec c : 0 < c -> is_pow2 c = true -> exists k, 0 <= k /\ c = 2 ^ k.
Proof.
  intros Hc Hp. unfold is_pow2 in Hp. apply Z.eqb_eq in Hp.
  set (k := Z.log2 c). exists k. split; [apply Z.log2_nonneg|].
  pose proof (Z.log2_spec c Hc) as [Hlo Hhi]. fold k in Hlo, Hhi.
  destruct (Z.eq_dec c (2 ^ k)) as [|Hne]; [done|exfalso].
  assert (Hk : Z.log2 (c - 1) = k).
  { apply Z.log2_unique; [apply Z.log2_nonneg|]. lia. }
  assert (Hb : Z.testbit (Z.land c (c - 1)) k = true).
  { rewrite Z.land_spec. unfold k at 1. rewrite Z.bit_log2 by done.
    rewrite <- Hk. apply Z.bit_log2. unfold k in *.
    pose proof (Z.pow_pos_nonneg 2 (Z.log2 c) ltac:(lia) (Z.log2_nonneg c)). lia. }
  rewrite Hp, Z.bits_0 in Hb. done.
Qed.

(** A usable window capacity: what the initialisers accept, and small enough
    that [(int32_t)capacity] is the capacity. *)
Definition cap_ok (c : Z) : Prop := 2 <= c < 2 ^ 31 /\ is_pow2 c = true.

Lemma cap_ok_pow c : cap_ok c -> exists k, 0 <= k < 31 /\ c = 2 ^ k.
Proof.
  intros [Hr Hp]. destruct (is_pow2_spec c ltac:(lia) Hp) as (k & Hk & ->).
  exists k. split; [|done]. split; [done|]. apply (Z.pow_lt_mono_r_iff 2); lia.
Qed.

Lemma cap_ok_divide c : cap_ok c -> (c | 2 ^ 32).
Proof.
  intros (k & Hk & ->)%cap_ok_pow. exists (2 ^ (32 - k)).
  rewrite <- Z.pow_add_r by lia. f_equal. lia.
Qed.

(** [seq & (capacity - 1)] is [seq mod capacity], and wrapping the sequence
    number at 32 bits does not change it. *)
Lemma land_mask c z : cap_ok c -> Z.land (u32 z) (c - 1) = z mod c.
Proof.
  intros Hc. destruct (cap_ok_pow c Hc) as (k & Hk & ->).
  replace (2 ^ k - 1) with (Z.ones k) by (rewrite Z.ones_equiv; lia).
  rewrite Z.land_ones by lia. unfold u32.
  apply Z.mod_mod_divide, cap_ok_divide, Hc.
Qed.

Lemma land_mask_u32 c z : cap_ok c -> is_u32 z -> Z.land z (c - 1) = z mod c.
Proof. intros Hc Hz. rewrite <- (u32_small z Hz) at 1. by apply land_mask. Qed.

Lemma mod_window_inj c s i j :
  0 < c -> 0 <= i < c -> 0 <= j < c -> (s + i) mod c = (s + j) mod c -> i = j.
Proof.
  intros Hc Hi Hj E.
  pose proof (Z.div_mod (s + i) c ltac:(lia)). pose proof (Z.div_mod (s + j) c ltac:(lia)).
  assert (i - j = c * ((s + i) / c - (s + j) / c)) by lia.
  assert ((s + i) / c - (s + j) / c = 0) by nia. nia.
Qed.

(** ** Lists *)

(** Filtering the images of a list. *)
Lemma filter_fmap {A B} (f : A -> B) (P : B -> Prop) `{!forall x, Decision (P x)} (Q : A -> Prop) `{!forall x, Decision (Q x)} (l : list A) :
  (forall x, Q x <-> P (f x)) -> filter P (f <$> l) = f <$> filter Q l.
Proof.
  intros HQ. induction l as [|x l IH]; [done|]. cbn [fmap list_fmap]. rewrite !filter_cons.
  destruct (decide (P (f x))), (decide (Q x)); cbn [fmap list_fmap]; rewrite ?IH; try done; by destruct (HQ x); tauto.
Qed.
