(* ===== verification/Text.v ===== *)
(** * Decimal text

    The conversions between numbers and text that the address functions and the
    example programs use: [snprintf] with ["%u"], ["%06d"] and ["%s"], [strlen]
    and [atoi]. *)
From S2P Require Import Prelude.
From Stdlib Require Import Ascii String.
From stdpp Require Import base numbers list.
Open Scope Z_scope.

(** ** Printing *)

Definition digit (d : Z) : ascii := ascii_of_nat (Z.to_nat (48 + d)).
Definition digit_val (c : ascii) : Z := Z.of_nat (nat_of_ascii c) - 48.
Definition is_digit (c : ascii) : bool := (0 <=? digit_val c) && (digit_val c <=? 9).

(** The digits of [n] in front of [acc]; twenty are enough for 64 bits. *)
Fixpoint dec_go (fuel : nat) (n : Z) (acc : string) : string :=
  match fuel with
  | O => acc
  | S fuel =>
      let acc := String (digit (n mod 10)) acc in
      if n <? 10 then acc else dec_go fuel (n / 10) acc
  end.

(** ["%u"]. *)
Definition print_u (n : Z) : string := dec_go 20 n EmptyString.

Fixpoint zeros (k : nat) (s : string) : string :=
  match k with O => s | S k => String "0" (zeros k s) end.

(** ["%06d"]: at least six characters, filled with zeros after the sign. *)
Definition print_06d (n : Z) : string :=
  if n <? 0 then String "-" (zeros (5 - String.length (print_u (- n))) (print_u (- n)))
  else zeros (6 - String.length (print_u n)) (print_u n).

(** What [snprintf(buf, size, ...)] leaves in [buf]: the text cut to [size - 1]
    characters. *)
Definition snprintf (size : nat) (text : string) : string := substring 0 (size - 1) text.

(** ** Reading *)

Definition is_space (c : ascii) : bool :=
  let n := nat_of_ascii c in (n =? 32)%nat || ((9 <=? n)%nat && (n <=? 13)%nat).

Fixpoint atoi_digits (acc : Z) (s : string) : Z :=
  match s with
  | EmptyString => acc
  | String c s => if is_digit c then atoi_digits (acc * 10 + digit_val c) s else acc
  end.

Fixpoint skip_space (s : string) : string :=
  match s with
  | String c s' => if is_space c then skip_space s' else s
  | EmptyString => EmptyString
  end.

(** [atoi]; its result is only defined by the language when it is an [int]. *)
Definition atoi (s : string) : Z :=
  match skip_space s with
  | String "-" s => - atoi_digits 0 s
  | String "+" s => atoi_digits 0 s
  | s => atoi_digits 0 s
  end.

(** ** Reading what was printed *)

Lemma digit_val_digit d : 0 <= d < 10 -> digit_val (digit d) = d.
Proof. intros H. unfold digit_val, digit. rewrite nat_ascii_embedding by lia. lia. Qed.

Lemma digit_is_digit d : 0 <= d < 10 -> is_digit (digit d) = true.
Proof. intros H. unfold is_digit. rewrite digit_val_digit by done. lia. Qed.

(** A digit is neither a space nor a sign, so [atoi] reads on from it. *)
Lemma atoi_digit c s : is_digit c = true -> atoi (String c s) = atoi_digits 0 (String c s).
Proof. destruct c as [[] [] [] [] [] [] [] []]; vm_compute is_digit; intros H; done. Qed.

Lemma dec_go_head fuel n acc : 0 <= n ->
  exists c s, dec_go (S fuel) n acc = String c s /\ is_digit c = true.
Proof.
  revert n acc. induction fuel as [|fuel IH]; intros n acc Hn; cbn [dec_go];
    pose proof (digit_is_digit (n mod 10) ltac:(apply Z.mod_pos_bound; lia)).
  - destruct (n <? 10); eauto.
  - destruct (n <? 10); [eauto|]. apply IH, Z.div_pos; lia.
Qed.

(** The digits of [n], read after [a], shift [a] by their number. *)
Lemma atoi_dec_go fuel n : 0 <= n < 10 ^ Z.of_nat fuel ->
  exists k, forall a s, atoi_digits a (dec_go fuel n s) = atoi_digits (a * k + n) s.
Proof.
  revert n. induction fuel as [|fuel IH]; intros n Hn.
  { exists 1. intros a s. simpl in *. f_equal. lia. }
  rewrite Nat2Z.inj_succ, Z.pow_succ_r in Hn by lia.
  assert (Hd : 0 <= n mod 10 < 10) by (apply Z.mod_pos_bound; lia).
  assert (Hs : forall a s, atoi_digits a (String (digit (n mod 10)) s) = atoi_digits (a * 10 + n mod 10) s).
  { intros a s. cbn [atoi_digits]. by rewrite digit_is_digit, digit_val_digit. }
  cbn [dec_go]. destruct (Z.ltb_spec n 10).
  - exists 10. intros a s. rewrite Hs, (Z.mod_small n 10) by lia. done.
  - destruct (IH (n / 10)) as [k Hk].
    { split; [apply Z.div_pos; lia|apply Z.div_lt_upper_bound; lia]. }
    exists (k * 10). intros a s. rewrite Hk, Hs. f_equal. pose proof (Z.div_mod n 10). lia.
Qed.

Lemma atoi_print_u n : 0 <= n < 10 ^ 20 -> atoi (print_u n) = n.
Proof.
  intros Hn. unfold print_u.
  destruct (dec_go_head 19 n EmptyString (proj1 Hn)) as (c & s & E & Hc).
  rewrite E, atoi_digit, <- E by done.
  destruct (atoi_dec_go 20 n) as [k Hk]; [by simpl Z.of_nat|].
  rewrite Hk. cbn [atoi_digits]. lia.
Qed.

Lemma atoi_digits_zeros k a s : atoi_digits a (zeros k s) = atoi_digits (a * 10 ^ Z.of_nat k) s.
Proof.
  revert a. induction k as [|k IH]; intros a; cbn [zeros atoi_digits].
  - by rewrite Z.mul_1_r.
  - change (is_digit "0") with true. change (digit_val "0") with 0. cbv iota.
    rewrite IH, Nat2Z.inj_succ, Z.pow_succ_r by lia. f_equal. lia.
Qed.

(** The digits of a padded number are read as that number. *)
Lemma atoi_print_06d n : 0 <= n < 10 ^ 20 -> atoi_digits 0 (print_06d n) = n.
Proof.
  intros Hn. unfold print_06d. rewrite (proj2 (Z.ltb_ge n 0)) by lia.
  rewrite atoi_digits_zeros. unfold print_u. destruct (atoi_dec_go 20 n) as [k Hk]; [by simpl Z.of_nat|].
  rewrite Hk. cbn [atoi_digits]. lia.
Qed.

(** At most [k] digits below [10 ^ k], and at least one. *)
Lemma dec_go_length fuel n k acc : 0 <= n < 10 ^ Z.of_nat (S k) -> (k < fuel)%nat ->
  (String.length acc < String.length (dec_go fuel n acc) <= S k + String.length acc)%nat.
Proof.
  revert n k acc. induction fuel as [|fuel IH]; intros n k acc Hn Hk; [lia|].
  cbn [dec_go]. destruct (Z.ltb_spec n 10); [simpl; lia|].
  destruct k as [|k]; [simpl in Hn; lia|].
  rewrite Nat2Z.inj_succ, Z.pow_succ_r in Hn by lia.
  specialize (IH (n / 10) k (String (digit (n mod 10)) acc)
    ltac:(split; [apply Z.div_pos; lia|apply Z.div_lt_upper_bound; lia]) ltac:(lia)).
  simpl in IH. lia.
Qed.

Lemma print_u_length n k : 0 <= n < 10 ^ Z.of_nat (S k) -> (k < 20)%nat ->
  (1 <= String.length (print_u n) <= S k)%nat.
Proof.
  intros Hn Hk. pose proof (dec_go_length 20 n k EmptyString Hn Hk) as H. fold (print_u n) in H.
  change (String.length EmptyString) with 0%nat in H. lia.
Qed.

Lemma zeros_length k s : String.length (zeros k s) = (k + String.length s)%nat.
Proof. induction k; simpl; lia. Qed.

Lemma substring_all n s : (String.length s <= n)%nat -> substring 0 n s = s.
Proof.
  revert n. induction s as [|c s IH]; intros n H; destruct n; simpl in *; try done; [lia|].
  rewrite IH by lia. done.
Qed.

(** Text that fits is stored whole. *)
Lemma snprintf_fits size s : (String.length s < size)%nat -> snprintf size s = s.
Proof. intros H. apply substring_all. lia. Qed.

Lemma substring_length n s : (String.length (substring 0 n s) <= n)%nat.
Proof.
  revert s. induction n as [|n IH]; intros [|c s]; simpl; try lia. specialize (IH s). lia.
Qed.
