(* ===== verification/Ring.v ===== *)
(** * Ring buffers

    The MPMC queue's fixed mode and both sliding windows keep a sequence of
    elements in an array of [c] slots, the element at position [p] in slot
    [p mod c].  This file states once what reading a run of positions and
    updating one slot do; the three components share it. *)
From S2P Require Import Prelude.
From stdpp Require Import base numbers list.
Open Scope Z_scope.
Open Scope rel4u_scope.

Section ring.
Context {A : Type} `{!Inhabited A}.
Implicit Types (l : list A) (c s p n : Z) (x : A).

(** The slot of position [p]. *)
Definition ring_at l c p : A := l !. (p mod c).
Definition ring_set l c p x : list A := arr_set l (p mod c) x.

(** The elements at positions [s], [s + 1], ..., [s + n - 1]. *)
Definition ring_view l c s n : list A := (fun k => ring_at l c (s + k)) <$> seqZ 0 n.

Lemma ring_set_length l c p x : length (ring_set l c p x) = length l.
Proof. apply length_insert. Qed.

Lemma ring_index l c p :
  0 < c -> Z.of_nat (length l) = c -> (Z.to_nat (p mod c) < length l)%nat.
Proof. intros Hc Hl. pose proof (Z.mod_pos_bound p c Hc). lia. Qed.

Lemma ring_at_set_eq l c p q x :
  0 < c -> Z.of_nat (length l) = c -> p mod c = q mod c ->
  ring_at (ring_set l c p x) c q = x.
Proof.
  intros Hc Hl E. unfold ring_at, ring_set, arr_get, arr_set. rewrite E.
  apply list_lookup_total_insert_eq. by apply ring_index.
Qed.

Lemma ring_at_set_ne l c p q x :
  0 < c -> p mod c <> q mod c -> ring_at (ring_set l c p x) c q = ring_at l c q.
Proof.
  intros Hc E. unfold ring_at, ring_set, arr_get, arr_set.
  apply list_lookup_total_insert_ne.
  pose proof (Z.mod_pos_bound p c Hc). pose proof (Z.mod_pos_bound q c Hc). lia.
Qed.

(** Writing back what a slot holds changes nothing. *)
Lemma ring_set_id l c p :
  0 < c -> Z.of_nat (length l) = c -> ring_set l c p (ring_at l c p) = l.
Proof.
  intros Hc Hl. apply list_insert_id. unfold ring_at, arr_get.
  apply list_lookup_lookup_total_lt. by apply ring_index.
Qed.

Lemma ring_view_length l c s n : length (ring_view l c s n) = Z.to_nat n.
Proof. unfold ring_view. by rewrite length_fmap, length_seqZ. Qed.

Lemma ring_view_nil l c s n : n <= 0 -> ring_view l c s n = [].
Proof. intros. unfold ring_view. by rewrite seqZ_nil. Qed.

Lemma ring_view_lookup l c s n k :
  0 <= k < n -> ring_view l c s n !! Z.to_nat k = Some (ring_at l c (s + k)).
Proof.
  intros Hk. unfold ring_view. rewrite list_lookup_fmap, lookup_seqZ_lt by lia.
  simpl. do 2 f_equal. lia.
Qed.

Lemma ring_view_lookup_Some l c s n i x :
  ring_view l c s n !! i = Some x ->
  0 <= Z.of_nat i < n /\ x = ring_at l c (s + Z.of_nat i).
Proof.
  intros Hx. assert (Hi : (i < length (ring_view l c s n))%nat) by eauto using lookup_lt_Some.
  rewrite ring_view_length in Hi. split; [lia|].
  rewrite <- (Nat2Z.id i) in Hx. rewrite ring_view_lookup in Hx by lia. congruence.
Qed.

Lemma ring_view_cons l c s n :
  0 < n -> ring_view l c s n = ring_at l c s :: ring_view l c (s + 1) (n - 1).
Proof.
  intros Hn. unfold ring_view. rewrite seqZ_cons by lia. simpl. rewrite Z.add_0_r. f_equal.
  change (Z.succ 0) with (1 + 0). rewrite <- fmap_add_seqZ, <- list_fmap_compose, Z.sub_1_r.
  apply list_fmap_ext. intros. simpl. f_equal. lia.
Qed.

Lemma ring_view_snoc l c s n :
  0 <= n -> ring_view l c s (n + 1) = ring_view l c s n ++ [ring_at l c (s + n)].
Proof.
  intros Hn. unfold ring_view. rewrite seqZ_app by lia. by rewrite fmap_app.
Qed.

Lemma ring_view_drop l c s n k :
  0 <= k <= n -> ring_view l c (s + k) (n - k) = drop (Z.to_nat k) (ring_view l c s n).
Proof.
  intros Hk. apply list_eq. intros i. rewrite lookup_drop.
  destruct (decide (Z.of_nat i < n - k)) as [Hi|Hi].
  - rewrite <- (Nat2Z.id i) at 1. rewrite ring_view_lookup by lia.
    replace (Z.to_nat k + i)%nat with (Z.to_nat (k + Z.of_nat i)) by lia.
    rewrite ring_view_lookup by lia. f_equal. f_equal. lia.
  - rewrite !lookup_ge_None_2; [done|rewrite ring_view_length; lia..].
Qed.

(** Updating a position inside the run updates that element of the run. *)
Lemma ring_view_set_in l c s n k x :
  0 < c -> Z.of_nat (length l) = c -> n <= c -> 0 <= k < n ->
  ring_view (ring_set l c (s + k) x) c s n = <[Z.to_nat k := x]> (ring_view l c s n).
Proof.
  intros Hc Hl Hn Hk. apply list_eq. intros i.
  destruct (decide (Z.of_nat i < n)) as [Hi|Hi].
  2:{ rewrite !lookup_ge_None_2; [done| |]; rewrite ?length_insert, ?ring_view_length; lia. }
  rewrite <- (Nat2Z.id i). rewrite ring_view_lookup by lia.
  destruct (decide (Z.of_nat i = k)) as [->|Hne].
  - rewrite list_lookup_insert_eq by (rewrite ring_view_length; lia).
    by rewrite ring_at_set_eq.
  - rewrite list_lookup_insert_ne by lia. rewrite ring_view_lookup by lia. f_equal.
    apply ring_at_set_ne; [done|]. intros E.
    apply mod_window_inj in E; lia.
Qed.

(** Updating a position outside the run leaves the run alone. *)
Lemma ring_view_set_out l c s n k x :
  0 < c -> n <= k < c -> 0 <= n ->
  ring_view (ring_set l c (s + k) x) c s n = ring_view l c s n.
Proof.
  intros Hc Hk Hn. unfold ring_view. apply list_fmap_ext. intros i j Hj.
  apply lookup_seqZ in Hj as [-> Hj]. apply ring_at_set_ne; [done|].
  intros E. apply mod_window_inj in E; lia.
Qed.

Lemma ring_at_mod l c p q : p mod c = q mod c -> ring_at l c p = ring_at l c q.
Proof. unfold ring_at. by intros ->. Qed.

(** A run depends only on where it starts modulo the capacity. *)
Lemma ring_view_mod l c s t n :
  0 < c -> s mod c = t mod c -> ring_view l c s n = ring_view l c t n.
Proof.
  intros Hc E. unfold ring_view. apply list_fmap_ext. intros i j _. apply ring_at_mod.
  by rewrite Zplus_mod, E, <- Zplus_mod.
Qed.
End ring.

(** The 32-bit wrap of a sequence number does not move its slot. *)
Lemma ring_at_u32 {A} `{!Inhabited A} (l : list A) c p :
  cap_ok c -> ring_at l c (u32 p) = ring_at l c p.
Proof.
  intros Hc. apply ring_at_mod. rewrite <- (land_mask c (u32 p) Hc), u32_u32.
  by apply land_mask.
Qed.

Lemma ring_set_u32 {A} (l : list A) c p x :
  cap_ok c -> ring_set l c (u32 p) x = ring_set l c p x.
Proof.
  intros Hc. unfold ring_set. f_equal.
  rewrite <- (land_mask c (u32 p) Hc), u32_u32. by apply land_mask.
Qed.

Lemma ring_view_u32 {A} `{!Inhabited A} (l : list A) c s n :
  cap_ok c -> ring_view l c (u32 s) n = ring_view l c s n.
Proof.
  intros Hc. apply ring_view_mod; [destruct Hc; lia|].
  rewrite <- (land_mask c (u32 s) Hc), u32_u32. by apply land_mask.
Qed.
