(* ===== verification/Types.v ===== *)
(** * Public types and constants

    The enumerations, error codes and statistics of [include/rel4u.h], and the
    sizes the core headers define.  A delivery mode travels as a [uint8_t] that
    the code casts to the enumeration without a range check, so it stays a
    number here; the enumerations that never leave the process are inductive
    types. *)
From S2P Require Import Prelude.
From stdpp Require Import base numbers list.
Open Scope Z_scope.
Open Scope rel4u_scope.

(** ** Return codes *)
Definition REL4U_OK : Z := 0.
Definition REL4U_ERR_INVALID_PARAM : Z := -1.
Definition REL4U_ERR_NO_MEMORY : Z := -2.
Definition REL4U_ERR_SOCKET : Z := -3.
Definition REL4U_ERR_QUEUE_FULL : Z := -4.
Definition REL4U_ERR_QUEUE_EMPTY : Z := -5.
Definition REL4U_ERR_TIMEOUT : Z := -6.
Definition REL4U_ERR_NOT_CONNECTED : Z := -7.
Definition REL4U_ERR_MSG_TOO_LARGE : Z := -8.
Definition REL4U_ERR_SERVER_FULL : Z := -9.
Definition REL4U_ERR_CLIENT_NOT_FOUND : Z := -10.
Definition REL4U_ERR_SYSTEM : Z := -11.

(** ** Default constants *)
Definition REL4U_DEFAULT_MTU : Z := 1400.
Definition REL4U_HEADER_SIZE : Z := 24.
Definition REL4U_MAX_PAYLOAD (mtu : Z) : Z :=
  if mtu >? REL4U_HEADER_SIZE then mtu - REL4U_HEADER_SIZE else 0.
Definition REL4U_MAX_PAYLOAD_SIZE : Z := 9216.
Definition REL4U_MAX_MSG_SIZE : Z := 9216.

(** ** Delivery modes *)
Definition REL4U_MODE_UNRELIABLE_UNORDERED : Z := 0.
Definition REL4U_MODE_UNRELIABLE_ORDERED : Z := 1.
Definition REL4U_MODE_RELIABLE_UNORDERED : Z := 2.
Definition REL4U_MODE_RELIABLE_ORDERED : Z := 3.

(** The test on a mode that the send window and the reclaim loop make. *)
Definition mode_reliable (m : Z) : bool :=
  (m =? REL4U_MODE_RELIABLE_ORDERED) || (m =? REL4U_MODE_RELIABLE_UNORDERED).

Lemma mode_reliable_true m :
  mode_reliable m = true <->
  m = REL4U_MODE_RELIABLE_ORDERED \/ m = REL4U_MODE_RELIABLE_UNORDERED.
Proof. unfold mode_reliable. rewrite orb_true_iff, !Z.eqb_eq. done. Qed.

(** ** Enumerations *)
Inductive rel4u_max_clients_policy := REL4U_MAX_CLIENTS_REJECT | REL4U_MAX_CLIENTS_DROP_OLD.
Inductive rel4u_memory_mode := REL4U_MEM_FIXED | REL4U_MEM_DYNAMIC.
Inductive rel4u_queue_full_policy := REL4U_QUEUE_FULL_DROP_NEW | REL4U_QUEUE_FULL_DROP_LAST.
Inductive rel4u_conn_state :=
  | REL4U_STATE_DISCONNECTED
  | REL4U_STATE_CONNECTING
  | REL4U_STATE_CONNECTED
  | REL4U_STATE_DISCONNECTING.

#[export] Instance rel4u_max_clients_policy_eq_dec : EqDecision rel4u_max_clients_policy.
Proof. solve_decision. Defined.
#[export] Instance rel4u_memory_mode_eq_dec : EqDecision rel4u_memory_mode.
Proof. solve_decision. Defined.
#[export] Instance rel4u_queue_full_policy_eq_dec : EqDecision rel4u_queue_full_policy.
Proof. solve_decision. Defined.
#[export] Instance rel4u_conn_state_eq_dec : EqDecision rel4u_conn_state.
Proof. solve_decision. Defined.

(** ** Statistics *)
Record rel4u_stats := mk_stats {
  st_bytes_sent : Z;
  st_bytes_recv : Z;
  st_packets_sent : Z;
  st_packets_recv : Z;
  st_packets_lost : Z;
  st_packets_retransmitted : Z;
  st_packets_dropped_queue_full : Z;
  st_current_rtt_ms : Z;
  st_current_rto_ms : Z;
  st_active_connections : Z;
  st_send_queue_occupancy : Z;
  st_recv_queue_occupancy : Z;
  st_send_queue_bytes : Z;
  st_recv_queue_bytes : Z
}.

#[export] Instance eta_stats : Eta rel4u_stats := fun s =>
  mk_stats (st_bytes_sent s) (st_bytes_recv s) (st_packets_sent s) (st_packets_recv s)
    (st_packets_lost s) (st_packets_retransmitted s) (st_packets_dropped_queue_full s)
    (st_current_rtt_ms s) (st_current_rto_ms s) (st_active_connections s)
    (st_send_queue_occupancy s) (st_recv_queue_occupancy s) (st_send_queue_bytes s)
    (st_recv_queue_bytes s).

(** [memset(&stats, 0, sizeof(stats))]. *)
Definition stats_zero : rel4u_stats := mk_stats 0 0 0 0 0 0 0 0 0 0 0 0 0 0.
