(* ===== verification/Seq.v ===== *)
(** * Sequence arithmetic

    The serial-number comparisons of [src/core/rel4u_window.h]: two 32-bit
    sequence numbers are compared by the sign of their wrapped difference. *)
From S2P Require Import Prelude.
From stdpp Require Import base numbers.
Open Scope Z_scope.
Open Scope rel4u_scope.

Definition rel4u_seq_lt (a b : Z) : bool := s32 (u32 (a - b)) <? 0.
Definition rel4u_seq_lte (a b : Z) : bool := s32 (u32 (a - b)) <=? 0.
Definition rel4u_seq_gt (a b : Z) : bool := s32 (u32 (a - b)) >? 0.
Definition rel4u_seq_gte (a b : Z) : bool := s32 (u32 (a - b)) >=? 0.
Definition rel4u_seq_diff (a b : Z) : Z := s32 (u32 (a - b)).

(** Two stream positions less than [2^31] apart: the numbers the wire carries
    for them compare as the positions do. *)
Definition near (p q : Z) : Prop := - 2 ^ 31 <= p - q < 2 ^ 31.

Lemma seq_diff_near p q : near p q -> rel4u_seq_diff (u32 p) (u32 q) = p - q.
Proof. unfold near, rel4u_seq_diff. intros. word_lia. Qed.

Lemma seq_lt_near p q : near p q -> rel4u_seq_lt (u32 p) (u32 q) = (p <? q).
Proof.
  intros H. unfold rel4u_seq_lt. fold (rel4u_seq_diff (u32 p) (u32 q)).
  rewrite seq_diff_near by done. lia.
Qed.
Lemma seq_lte_near p q : near p q -> rel4u_seq_lte (u32 p) (u32 q) = (p <=? q).
Proof.
  intros H. unfold rel4u_seq_lte. fold (rel4u_seq_diff (u32 p) (u32 q)).
  rewrite seq_diff_near by done. lia.
Qed.
Lemma seq_gt_near p q : near p q -> rel4u_seq_gt (u32 p) (u32 q) = (q <? p).
Proof.
  intros H. unfold rel4u_seq_gt. fold (rel4u_seq_diff (u32 p) (u32 q)).
  rewrite seq_diff_near by done. lia.
Qed.
Lemma seq_gte_near p q : near p q -> rel4u_seq_gte (u32 p) (u32 q) = (q <=? p).
Proof.
  intros H. unfold rel4u_seq_gte. fold (rel4u_seq_diff (u32 p) (u32 q)).
  rewrite seq_diff_near by done. lia.
Qed.

Lemma u32_near_inj p q : near p q -> u32 p = u32 q -> p = q.
Proof. unfold near. intros. word_lia. Qed.

Lemma seq_diff_u32 a b : is_u32 a -> is_u32 b -> exists d, near (b + d) b /\
  rel4u_seq_diff a b = d /\ a = u32 (b + d).
Proof.
  intros Ha Hb. exists (rel4u_seq_diff a b). unfold near, rel4u_seq_diff.
  repeat split; word_lia.
Qed.

(** C28. The comparisons are exact up to wrap-around: for any two stream positions
    less than [2^31] apart, each comparison of their 32-bit sequence numbers
    decides the order of the positions, however often the counter has wrapped. *)
Theorem seq_compare_correct p q : near p q ->
  rel4u_seq_lt (u32 p) (u32 q) = bool_decide (p < q) /\
  rel4u_seq_lte (u32 p) (u32 q) = bool_decide (p <= q) /\
  rel4u_seq_gt (u32 p) (u32 q) = bool_decide (p > q) /\
  rel4u_seq_gte (u32 p) (u32 q) = bool_decide (p >= q) /\
  rel4u_seq_diff (u32 p) (u32 q) = p - q.
Proof.
  intros H. rewrite seq_lt_near, seq_lte_near, seq_gt_near, seq_gte_near, seq_diff_near by done.
  repeat split; case_bool_decide; lia.
Qed.

Lemma seq_compare_correct_witness :
  near (2 ^ 32 + 3) (2 ^ 32 - 5) /\ rel4u_seq_lt (u32 (2 ^ 32 + 3)) (u32 (2 ^ 32 - 5)) = false.
Proof.
  assert (H : near (2 ^ 32 + 3) (2 ^ 32 - 5)) by (unfold near; lia).
  split; [exact H|]. rewrite (proj1 (seq_compare_correct _ _ H)). reflexivity.
Defined.

(** At distance exactly [2^31] the comparison is not antisymmetric: each of the
    two numbers precedes the other. This is why [near] excludes one endpoint. *)
Lemma seq_lt_antipodal a : is_u32 a ->
  rel4u_seq_lt a (u32 (a + 2 ^ 31)) = true /\ rel4u_seq_lt (u32 (a + 2 ^ 31)) a = true.
Proof. unfold rel4u_seq_lt. intros. rewrite !Z.ltb_lt. word_lia. Qed.
