(* ===== verification/Packet.v ===== *)
(** * Packet header codec

    [src/core/rel4u_packet.{h,c}]: the 24-byte header and its serialisation.
    The code converts each multi-byte field with [htons]/[htonl] and copies the
    object representation with [memcpy], so what it writes depends on the host's
    byte order; the model keeps both steps and is parameterised by that order. *)
From S2P Require Import Prelude.
From stdpp Require Import base numbers list.
Open Scope Z_scope.
Open Scope rel4u_scope.

Definition REL4U_MAGIC : Z := 0x3455.
Definition REL4U_VERSION : Z := 1.
Definition REL4U_HEADER_LEN : Z := 24.

(** ** Packet types *)
Definition REL4U_PKT_CONNECT_REQ : Z := 0x01.
Definition REL4U_PKT_CONNECT_RESP : Z := 0x02.
Definition REL4U_PKT_CONNECT_ACK : Z := 0x03.
Definition REL4U_PKT_DATA : Z := 0x04.
Definition REL4U_PKT_ACK : Z := 0x05.
Definition REL4U_PKT_HEARTBEAT : Z := 0x06.
Definition REL4U_PKT_HEARTBEAT_ACK : Z := 0x07.
Definition REL4U_PKT_DISCONNECT : Z := 0x08.
Definition REL4U_PKT_REJECT : Z := 0x09.
Definition REL4U_PKT_RESET : Z := 0x0A.

Record rel4u_header := mk_header {
  h_magic : Z;          (* uint16_t *)
  h_version : Z;        (* uint8_t *)
  h_packet_type : Z;    (* uint8_t *)
  h_delivery_mode : Z;  (* uint8_t *)
  h_flags : Z;          (* uint8_t *)
  h_payload_len : Z;    (* uint16_t *)
  h_session_id : Z;     (* uint32_t *)
  h_seq_num : Z;        (* uint32_t *)
  h_ack_num : Z;        (* uint32_t *)
  h_sack_mask : Z       (* uint32_t *)
}.

#[export] Instance eta_header : Eta rel4u_header := fun h =>
  mk_header (h_magic h) (h_version h) (h_packet_type h) (h_delivery_mode h) (h_flags h)
    (h_payload_len h) (h_session_id h) (h_seq_num h) (h_ack_num h) (h_sack_mask h).

(** [memset(&hdr, 0, sizeof(hdr))]. *)
Definition header_zero : rel4u_header := mk_header 0 0 0 0 0 0 0 0 0 0.

(** Every field is in the range of its C type. *)
Record header_wf (h : rel4u_header) : Prop := {
  wf_magic : is_u16 (h_magic h);
  wf_version : is_u8 (h_version h);
  wf_packet_type : is_u8 (h_packet_type h);
  wf_delivery_mode : is_u8 (h_delivery_mode h);
  wf_flags : is_u8 (h_flags h);
  wf_payload_len : is_u16 (h_payload_len h);
  wf_session_id : is_u32 (h_session_id h);
  wf_seq_num : is_u32 (h_seq_num h);
  wf_ack_num : is_u32 (h_ack_num h);
  wf_sack_mask : is_u32 (h_sack_mask h)
}.

(** ** Host byte order *)
Inductive endianness := LittleEndian | BigEndian.

(** Byte swaps: what [htons] and [htonl] (and their inverses) do on a
    little-endian host. *)
Definition bswap16 (v : Z) : Z := v mod 256 * 256 + v / 256 mod 256.
Definition bswap32 (v : Z) : Z :=
  v mod 256 * 16777216 + v / 256 mod 256 * 65536 + v / 65536 mod 256 * 256 + v / 16777216 mod 256.

Definition htons (e : endianness) (v : Z) : Z :=
  match e with LittleEndian => bswap16 v | BigEndian => v end.
Definition htonl (e : endianness) (v : Z) : Z :=
  match e with LittleEndian => bswap32 v | BigEndian => v end.
Definition ntohs : endianness -> Z -> Z := htons.
Definition ntohl : endianness -> Z -> Z := htonl.

(** Big-endian representation, most significant byte first. *)
Definition be16 (v : Z) : list Z := [v / 256 mod 256; v mod 256].
Definition be32 (v : Z) : list Z :=
  [v / 16777216 mod 256; v / 65536 mod 256; v / 256 mod 256; v mod 256].

(** The object representation of an integer in memory, and reading it back. *)
Definition repr16 (e : endianness) (v : Z) : list Z :=
  match e with LittleEndian => reverse (be16 v) | BigEndian => be16 v end.
Definition repr32 (e : endianness) (v : Z) : list Z :=
  match e with LittleEndian => reverse (be32 v) | BigEndian => be32 v end.
Definition of_repr (e : endianness) (bs : list Z) : Z :=
  foldl (fun a b => a * 256 + b) 0
    match e with LittleEndian => reverse bs | BigEndian => bs end.

(** [memcpy(buf + off, bs, |bs|)] and [memcpy(_, buf + off, n)]. *)
Definition write_at (buf : list Z) (off : nat) (bs : list Z) : list Z :=
  take off buf ++ bs ++ drop (off + length bs) buf.
Definition read_at (buf : list Z) (off n : nat) : list Z := take n (drop off buf).

(** ** The codec *)
Section codec.
Context (host : endianness).

Definition rel4u_packet_encode_header (hdr : rel4u_header) (out_buf : list Z) (buf_size : Z)
  : Z * list Z :=
  if buf_size <? REL4U_HEADER_LEN then (-1, out_buf) else
  let magic_net := htons host (h_magic hdr) in
  let len_net := htons host (h_payload_len hdr) in
  let session_net := htonl host (h_session_id hdr) in
  let seq_net := htonl host (h_seq_num hdr) in
  let ack_net := htonl host (h_ack_num hdr) in
  let sack_net := htonl host (h_sack_mask hdr) in
  let b := write_at out_buf 0 (repr16 host magic_net) in
  let b := write_at b 2 [h_version hdr] in
  let b := write_at b 3 [h_packet_type hdr] in
  let b := write_at b 4 [h_delivery_mode hdr] in
  let b := write_at b 5 [h_flags hdr] in
  let b := write_at b 6 (repr16 host len_net) in
  let b := write_at b 8 (repr32 host session_net) in
  let b := write_at b 12 (repr32 host seq_net) in
  let b := write_at b 16 (repr32 host ack_net) in
  let b := write_at b 20 (repr32 host sack_net) in
  (REL4U_HEADER_LEN, b).

(** The result code and [*out_hdr]; the caller's [out_hdr] is left untouched
    only by the first check. *)
Definition rel4u_packet_decode_header (in_buf : list Z) (buf_len : Z) (out_hdr : rel4u_header)
  : Z * rel4u_header :=
  if buf_len <? REL4U_HEADER_LEN then (-1, out_hdr) else
  let magic_net := of_repr host (read_at in_buf 0 2) in
  let len_net := of_repr host (read_at in_buf 6 2) in
  let session_net := of_repr host (read_at in_buf 8 4) in
  let seq_net := of_repr host (read_at in_buf 12 4) in
  let ack_net := of_repr host (read_at in_buf 16 4) in
  let sack_net := of_repr host (read_at in_buf 20 4) in
  let h := mk_header (ntohs host magic_net) (in_buf !. 2) (in_buf !. 3) (in_buf !. 4)
             (in_buf !. 5) (ntohs host len_net) (ntohl host session_net)
             (ntohl host seq_net) (ntohl host ack_net) (ntohl host sack_net) in
  if negb (h_magic h =? REL4U_MAGIC) then (-2, h)
  else if negb (h_version h =? REL4U_VERSION) then (-3, h)
  else if buf_len <? REL4U_HEADER_LEN + h_payload_len h then (-4, h)
  else (0, h).
End codec.

(** ** The wire format *)

(** The layout of docs/protocol.md, section 1: what the 24 bytes are meant to be. *)
Definition header_bytes (h : rel4u_header) : list Z :=
  be16 (h_magic h) ++ [h_version h; h_packet_type h; h_delivery_mode h; h_flags h] ++
  be16 (h_payload_len h) ++ be32 (h_session_id h) ++ be32 (h_seq_num h) ++
  be32 (h_ack_num h) ++ be32 (h_sack_mask h).

(** Reading the layout: the header in the first 24 bytes of a datagram. *)
Definition be_val (bs : list Z) : Z := of_repr BigEndian bs.
Definition parse_bytes (b : list Z) : rel4u_header :=
  mk_header (be_val (read_at b 0 2)) (b !. 2) (b !. 3) (b !. 4) (b !. 5) (be_val (read_at b 6 2))
    (be_val (read_at b 8 4)) (be_val (read_at b 12 4)) (be_val (read_at b 16 4))
    (be_val (read_at b 20 4)).

(** Byte strings that agree element by element. *)
Ltac bytes_eq := repeat (apply (f_equal2 cons); [word_lia|]); reflexivity.

Lemma repr16_htons e v : is_u16 v -> repr16 e (htons e v) = be16 v.
Proof.
  intros Hv. destruct e; [|done]. unfold repr16, htons, bswap16, be16, reverse. simpl.
  bytes_eq.
Qed.

Lemma repr32_htonl e v : is_u32 v -> repr32 e (htonl e v) = be32 v.
Proof.
  intros Hv. destruct e; [|done]. unfold repr32, htonl, bswap32, be32, reverse. simpl.
  bytes_eq.
Qed.

Lemma ntohs_of_repr e b0 b1 : is_u8 b0 -> is_u8 b1 ->
  ntohs e (of_repr e [b0; b1]) = be_val [b0; b1].
Proof.
  intros. destruct e; [|done]. unfold ntohs, htons, bswap16, be_val, of_repr, reverse. simpl.
  word_lia.
Qed.

Lemma ntohl_of_repr e b0 b1 b2 b3 : is_u8 b0 -> is_u8 b1 -> is_u8 b2 -> is_u8 b3 ->
  ntohl e (of_repr e [b0; b1; b2; b3]) = be_val [b0; b1; b2; b3].
Proof.
  intros. destruct e; [|done]. unfold ntohl, htonl, bswap32, be_val, of_repr, reverse. simpl.
  word_lia.
Qed.

Lemma be16_be_val b0 b1 : is_u8 b0 -> is_u8 b1 -> be16 (be_val [b0; b1]) = [b0; b1].
Proof. intros. unfold be_val, of_repr, be16. simpl. bytes_eq. Qed.
Lemma be32_be_val b0 b1 b2 b3 : is_u8 b0 -> is_u8 b1 -> is_u8 b2 -> is_u8 b3 ->
  be32 (be_val [b0; b1; b2; b3]) = [b0; b1; b2; b3].
Proof. intros. unfold be_val, of_repr, be32. simpl. bytes_eq. Qed.

(** Give the first 24 bytes of a buffer names. *)
Ltac spell_buffer b Hlen :=
  do 24 (destruct b as [|? b]; [simpl in Hlen; lia|]); clear Hlen.
Ltac spell_bytes H := repeat (apply Forall_cons in H as [? H]).

Lemma header_bytes_length h : length (header_bytes h) = 24%nat.
Proof. reflexivity. Qed.

Lemma parse_header_bytes h rest : header_wf h -> parse_bytes (header_bytes h ++ rest) = h.
Proof.
  intros []. destruct h. unfold parse_bytes, read_at, arr_get, be_val, of_repr.
  simpl in *. f_equal; word_lia.
Qed.

Lemma bytes_parse_header b : 24 <= Z.of_nat (length b) -> Forall is_u8 b ->
  header_bytes (parse_bytes b) = take 24 b.
Proof.
  intros Hlen Hb. spell_buffer b Hlen. spell_bytes Hb.
  unfold header_bytes, parse_bytes, read_at, arr_get. cbn -[be16 be32 be_val].
  by rewrite !be16_be_val, !be32_be_val.
Qed.

Lemma parse_bytes_wf b : 24 <= Z.of_nat (length b) -> Forall is_u8 b -> header_wf (parse_bytes b).
Proof.
  intros Hlen Hb. spell_buffer b Hlen. spell_bytes Hb.
  constructor; unfold parse_bytes, read_at, be_val, of_repr, arr_get; simpl; word_lia.
Qed.

(** What the decoder checks once it has the fields, in the code's order. *)
Definition header_check (h : rel4u_header) (buf_len : Z) : Z :=
  if negb (h_magic h =? REL4U_MAGIC) then -2
  else if negb (h_version h =? REL4U_VERSION) then -3
  else if buf_len <? REL4U_HEADER_LEN + h_payload_len h then -4 else 0.

Lemma decode_parse host b n out :
  REL4U_HEADER_LEN <= n <= Z.of_nat (length b) -> Forall is_u8 b ->
  rel4u_packet_decode_header host b n out = (header_check (parse_bytes b) n, parse_bytes b).
Proof.
  unfold REL4U_HEADER_LEN. intros Hn Hb. unfold rel4u_packet_decode_header, REL4U_HEADER_LEN.
  rewrite (proj2 (Z.ltb_ge n 24)) by lia.
  assert (Hlen : 24 <= Z.of_nat (length b)) by lia.
  spell_buffer b Hlen. spell_bytes Hb. unfold read_at. cbn -[ntohs ntohl of_repr].
  rewrite !ntohs_of_repr, !ntohl_of_repr by done.
  unfold header_check, parse_bytes, read_at, arr_get. cbn -[be_val Z.add].
  repeat (destruct (negb _)); [reflexivity..|]. destruct (_ <? _); reflexivity.
Qed.

Lemma encode_bytes host h b n :
  header_wf h -> REL4U_HEADER_LEN <= n <= Z.of_nat (length b) ->
  rel4u_packet_encode_header host h b n = (REL4U_HEADER_LEN, header_bytes h ++ drop 24 b).
Proof.
  unfold REL4U_HEADER_LEN. intros [] Hn. unfold rel4u_packet_encode_header, REL4U_HEADER_LEN.
  rewrite (proj2 (Z.ltb_ge n 24)) by lia.
  rewrite !repr16_htons, !repr32_htonl by done.
  assert (Hlen : 24 <= Z.of_nat (length b)) by lia.
  spell_buffer b Hlen. reflexivity.
Qed.

Lemma be_bytes16 v : Forall is_u8 (be16 v).
Proof. unfold be16. repeat constructor; word_lia. Qed.
Lemma be_bytes32 v : Forall is_u8 (be32 v).
Proof. unfold be32. repeat constructor; word_lia. Qed.

Lemma header_bytes_u8 h : header_wf h -> Forall is_u8 (header_bytes h).
Proof.
  intros []. unfold header_bytes. repeat apply Forall_app_2; auto using be_bytes16, be_bytes32.
Qed.

(** ** Properties *)

(** Serialising a header into a large enough buffer writes exactly the 24
    bytes of the documented network-byte-order layout, on a host of either byte
    order, leaves the rest of the buffer alone and returns the header length. *)
Theorem encode_header_layout host h b n :
  header_wf h -> REL4U_HEADER_LEN <= n <= Z.of_nat (length b) ->
  rel4u_packet_encode_header host h b n = (24, header_bytes h ++ drop 24 b) /\
  length (header_bytes h ++ drop 24 b) = length b.
Proof.
  intros Hwf Hn. split; [by apply encode_bytes|].
  unfold REL4U_HEADER_LEN in Hn. rewrite length_app, length_drop, header_bytes_length. lia.
Qed.

(** C26. Round trip between hosts of any two byte orders: what one endpoint
    encodes (with the protocol's magic and version) followed by the payload it
    announces decodes on the other to the same header, with code 0. *)
Theorem header_roundtrip host1 host2 h b payload out :
  header_wf h -> h_magic h = REL4U_MAGIC -> h_version h = REL4U_VERSION ->
  length b = 24%nat -> Forall is_u8 payload ->
  Z.of_nat (length payload) = h_payload_len h ->
  let datagram := snd (rel4u_packet_encode_header host1 h b 24) ++ payload in
  rel4u_packet_decode_header host2 datagram (24 + h_payload_len h) out = (0, h).
Proof.
  intros Hwf Hm Hv Hb Hp Hl. cbv zeta. rewrite encode_bytes by (unfold REL4U_HEADER_LEN; lia || done).
  cbn [snd]. rewrite drop_ge by lia. rewrite app_nil_r.
  assert (0 <= h_payload_len h) by (destruct Hwf; word_lia).
  rewrite decode_parse; [| |].
  - rewrite parse_header_bytes by done. f_equal. unfold header_check, REL4U_HEADER_LEN.
    rewrite Hm, Hv, !Z.eqb_refl. simpl. rewrite (proj2 (Z.ltb_ge _ _)) by lia. done.
  - unfold REL4U_HEADER_LEN. rewrite length_app, header_bytes_length. lia.
  - apply Forall_app_2; [by apply header_bytes_u8|done].
Qed.

Definition sample_header : rel4u_header :=
  mk_header REL4U_MAGIC REL4U_VERSION REL4U_PKT_DATA 3 0 2 0xDEADBEEF 0xFFFFFFFE 7 0x80000005.

Lemma sample_header_wf : header_wf sample_header.
Proof. constructor; vm_compute; intuition congruence. Qed.

Lemma header_roundtrip_witness :
  rel4u_packet_decode_header BigEndian
    (snd (rel4u_packet_encode_header LittleEndian sample_header (replicate 24 0) 24) ++ [7; 9])
    26 header_zero = (0, sample_header).
Proof.
  apply (header_roundtrip LittleEndian BigEndian sample_header (replicate 24 0) [7; 9] header_zero);
    [exact sample_header_wf | reflexivity | reflexivity | reflexivity | | reflexivity].
  repeat constructor; word_unfold; lia.
Defined.

Lemma encode_header_layout_witness :
  rel4u_packet_encode_header LittleEndian sample_header (replicate 26 0) 26 =
  (24, [0x34; 0x55; 1; 4; 3; 0; 0; 2; 0xDE; 0xAD; 0xBE; 0xEF; 0xFF; 0xFF; 0xFF; 0xFE;
        0; 0; 0; 7; 0x80; 0; 0; 5; 0; 0]).
Proof.
  rewrite (proj1 (encode_header_layout LittleEndian sample_header (replicate 26 0) 26
    sample_header_wf ltac:(unfold REL4U_HEADER_LEN; simpl; lia))). reflexivity.
Defined.

(** C27. The decoder accepts a datagram exactly when it is at least 24 bytes
    long, starts with the magic [34 55], has version 1 and holds the whole
    payload it announces; every other datagram gets the error code of the first
    check it fails. *)
Theorem decode_header_checks host b n out :
  n <= Z.of_nat (length b) -> Forall is_u8 b ->
  let r := fst (rel4u_packet_decode_header host b n out) in
  let h := parse_bytes b in
  (r = 0 <-> 24 <= n /\ h_magic h = 0x3455 /\ h_version h = 1 /\ 24 + h_payload_len h <= n) /\
  (r = -1 <-> n < 24) /\
  (r = -2 <-> 24 <= n /\ h_magic h <> 0x3455) /\
  (r = -3 <-> 24 <= n /\ h_magic h = 0x3455 /\ h_version h <> 1) /\
  (r = -4 <-> 24 <= n /\ h_magic h = 0x3455 /\ h_version h = 1 /\ n < 24 + h_payload_len h).
Proof.
  intros Hn Hb. destruct (decide (n < 24)) as [Hs|Hs].
  - unfold rel4u_packet_decode_header, REL4U_HEADER_LEN. rewrite (proj2 (Z.ltb_lt n 24)) by lia.
    simpl. lia.
  - rewrite decode_parse by (unfold REL4U_HEADER_LEN; lia || done). cbv zeta. cbn [fst].
    generalize (parse_bytes b) as h. intros h.
    unfold header_check, REL4U_MAGIC, REL4U_VERSION, REL4U_HEADER_LEN.
    destruct (Z.eqb_spec (h_magic h) 0x3455); cbn [negb]; [|lia].
    destruct (Z.eqb_spec (h_version h) 1); cbn [negb]; [|lia].
    destruct (Z.ltb_spec n (24 + h_payload_len h)); lia.
Qed.

Lemma decode_header_checks_witness :
  fst (rel4u_packet_decode_header LittleEndian (header_bytes sample_header ++ [1]) 25 header_zero)
  = -4.
Proof.
  refine (proj2 (proj2 (proj2 (proj2 (proj2 (decode_header_checks LittleEndian
    (header_bytes sample_header ++ [1]) 25 header_zero _ _))))) _);
    [simpl; lia | repeat constructor; vm_compute; intuition congruence | vm_compute; intuition congruence].
Defined.

(** Decoding loses nothing: the header decoded from any datagram encodes
    back to the datagram's first 24 bytes, also between different hosts. *)
Theorem decode_encode host1 host2 b n out b' :
  REL4U_HEADER_LEN <= n <= Z.of_nat (length b) -> Forall is_u8 b -> length b' = 24%nat ->
  let h := snd (rel4u_packet_decode_header host1 b n out) in
  rel4u_packet_encode_header host2 h b' 24 = (24, take 24 b).
Proof.
  intros Hn Hb Hb'. rewrite decode_parse by done. cbv zeta. cbn [snd].
  assert (Hlen : 24 <= Z.of_nat (length b)) by (unfold REL4U_HEADER_LEN in *; lia).
  rewrite encode_bytes; [| |unfold REL4U_HEADER_LEN; lia].
  - rewrite drop_ge, app_nil_r, bytes_parse_header by (lia || done). done.
  - by apply parse_bytes_wf.
Qed.

Lemma decode_encode_witness :
  rel4u_packet_encode_header BigEndian
    (snd (rel4u_packet_decode_header LittleEndian (replicate 30 200) 30 header_zero))
    (replicate 24 0) 24 = (24, replicate 24 200).
Proof.
  apply (decode_encode LittleEndian BigEndian (replicate 30 200) 30 header_zero (replicate 24 0));
    [unfold REL4U_HEADER_LEN; simpl; lia | repeat constructor; word_unfold; lia | reflexivity].
Defined.

(** C40. The codec is well typed.  On a host of either byte order the decoder turns any
    bytes whatsoever into a header whose ten fields are in the range of their C
    types, also when it reports an error, or leaves the header of the caller
    alone; the encoder turns such a header into bytes, never writes past the
    buffer it was given and never changes the length. *)
Theorem codec_typed host h b n :
  header_wf h -> Forall is_u8 b -> n <= Z.of_nat (length b) ->
  header_wf (snd (rel4u_packet_decode_header host b n h)) /\
  Forall is_u8 (snd (rel4u_packet_encode_header host h b n)) /\
  length (snd (rel4u_packet_encode_header host h b n)) = length b.
Proof.
  intros W Hb Hn. destruct (Z.ltb_spec n REL4U_HEADER_LEN) as [Hs|Hs].
  - unfold rel4u_packet_decode_header, rel4u_packet_encode_header. by rewrite (proj2 (Z.ltb_lt _ _) Hs).
  - rewrite decode_parse, encode_bytes by (done || lia). cbn [snd]. unfold REL4U_HEADER_LEN in Hs.
    split; [apply parse_bytes_wf; lia || done|]. split.
    + apply Forall_app. split; [by apply header_bytes_u8|by apply Forall_drop].
    + rewrite length_app, length_drop, header_bytes_length. lia.
Qed.

Lemma codec_typed_witness :
  header_wf (snd (rel4u_packet_decode_header LittleEndian (replicate 30 255) 30 header_zero)) /\
  fst (rel4u_packet_decode_header LittleEndian (replicate 30 255) 30 header_zero) = -2.
Proof.
  split; [|reflexivity].
  refine (proj1 (codec_typed LittleEndian header_zero (replicate 30 255) 30 _ _ _)).
  - constructor; vm_compute; intuition congruence.
  - apply Forall_replicate. vm_compute. intuition congruence.
  - simpl. lia.
Defined.

(** Memory safety of the payload copies: the worker threads receive into a
    buffer of [9216 + 24] bytes, so the payload length of every header the
    decoder accepts fits both the datagram and the 9216-byte payload arrays that
    the windows and queues copy it into. *)
Theorem decoded_payload_fits host b n out :
  n <= Z.of_nat (length b) -> Forall is_u8 b -> n <= 9216 + REL4U_HEADER_LEN ->
  fst (rel4u_packet_decode_header host b n out) = 0 ->
  let h := snd (rel4u_packet_decode_header host b n out) in
  0 <= h_payload_len h <= 9216 /\
  Z.to_nat (h_payload_len h) = length (take (Z.to_nat (h_payload_len h)) (drop 24 b)).
Proof.
  unfold REL4U_HEADER_LEN. intros Hn Hb Hmax Hr.
  destruct (decide (n < 24)) as [Hs|Hs].
  { unfold rel4u_packet_decode_header, REL4U_HEADER_LEN in Hr.
    rewrite (proj2 (Z.ltb_lt n 24)) in Hr by lia. done. }
  rewrite decode_parse in * by (unfold REL4U_HEADER_LEN; lia || done). cbv zeta. cbn [fst snd] in *.
  assert (Hp : 24 + h_payload_len (parse_bytes b) <= n).
  { unfold header_check, REL4U_HEADER_LEN in Hr. revert Hr.
    destruct (negb _); [lia|]. destruct (negb _); [lia|]. destruct (n <? _) eqn:E; lia. }
  assert (H0 : 0 <= h_payload_len (parse_bytes b)).
  { apply (wf_payload_len _ (parse_bytes_wf b ltac:(lia) Hb)). }
  rewrite length_take, length_drop. lia.
Qed.

Lemma decoded_payload_fits_witness :
  0 <= h_payload_len (snd (rel4u_packet_decode_header LittleEndian
    (header_bytes sample_header ++ [1; 2]) 26 header_zero)) <= 9216.
Proof.
  refine (proj1 (decoded_payload_fits LittleEndian (header_bytes sample_header ++ [1; 2]) 26
    header_zero _ _ _ _)); [simpl; lia | repeat constructor; vm_compute; intuition congruence
    | unfold REL4U_HEADER_LEN; lia | reflexivity].
Defined.
