(* ===== verification/Rtt.v ===== *)
(** * RTT and RTO estimation

    [src/core/rel4u_rtt.{h,c}]: the Jacobson-Karels estimator.  All fields are
    [uint32_t]; the multiplications and additions wrap at 32 bits as in C.  The
    signed difference of the update is computed in [int32_t], where C leaves an
    overflow undefined; the model lets it wrap.  [rtt_no_signed_overflow] shows that
    none occurs as long as samples are below 2^31 ms, which is 24 days. *)
From S2P Require Import Prelude.
From stdpp Require Import base numbers list.
Open Scope Z_scope.
Open Scope rel4u_scope.

Definition REL4U_RTT_DEFAULT_RTO_MS : Z := 200.
Definition REL4U_RTT_MIN_RTO_MS : Z := 20.
Definition REL4U_RTT_MAX_RTO_MS : Z := 2000.

Record rel4u_rtt := mk_rtt {
  r_srtt_ms : Z;
  r_rttvar_ms : Z;
  r_rto_ms : Z;
  r_min_rto_ms : Z;
  r_max_rto_ms : Z;
  r_has_sample : bool
}.

#[export] Instance eta_rtt : Eta rel4u_rtt := fun r =>
  mk_rtt (r_srtt_ms r) (r_rttvar_ms r) (r_rto_ms r) (r_min_rto_ms r) (r_max_rto_ms r)
    (r_has_sample r).

(** The two tests that end [rel4u_rtt_init] and [rel4u_rtt_update_sample]. *)
Definition rtt_clamp (r : rel4u_rtt) : rel4u_rtt :=
  let r := if r_rto_ms r <? r_min_rto_ms r then r <| r_rto_ms := r_min_rto_ms r |> else r in
  if r_rto_ms r >? r_max_rto_ms r then r <| r_rto_ms := r_max_rto_ms r |> else r.

Definition rel4u_rtt_init (initial_rto_ms min_rto_ms max_rto_ms : Z) : rel4u_rtt :=
  let min := if min_rto_ms >? 0 then min_rto_ms else REL4U_RTT_MIN_RTO_MS in
  let max := if max_rto_ms >? 0 then max_rto_ms else REL4U_RTT_MAX_RTO_MS in
  let rto := if initial_rto_ms >? 0 then initial_rto_ms else REL4U_RTT_DEFAULT_RTO_MS in
  rtt_clamp (mk_rtt 0 0 rto min max false).

Definition rel4u_rtt_update_sample (rtt : rel4u_rtt) (sample_rtt_ms : Z) : rel4u_rtt :=
  let rtt :=
    if negb (r_has_sample rtt) then
      let rtt := rtt <| r_srtt_ms := sample_rtt_ms |> <| r_rttvar_ms := sample_rtt_ms / 2 |> in
      let rtt := if r_rttvar_ms rtt <? 1 then rtt <| r_rttvar_ms := 1 |> else rtt in
      rtt <| r_has_sample := true |>
    else
      let diff := s32 (s32 (r_srtt_ms rtt) - s32 sample_rtt_ms) in
      let diff := if diff <? 0 then s32 (- diff) else diff in
      let rtt := rtt <| r_rttvar_ms := u32 (u32 (3 * r_rttvar_ms rtt) + u32 diff) / 4 |> in
      let rtt := if r_rttvar_ms rtt <? 1 then rtt <| r_rttvar_ms := 1 |> else rtt in
      rtt <| r_srtt_ms := u32 (u32 (7 * r_srtt_ms rtt) + sample_rtt_ms) / 8 |> in
  let k_var := u32 (4 * r_rttvar_ms rtt) in
  let k_var := if k_var <? 1 then 1 else k_var in
  rtt_clamp (rtt <| r_rto_ms := u32 (r_srtt_ms rtt + k_var) |>).

Definition rel4u_rtt_on_timeout (rtt : rel4u_rtt) : rel4u_rtt :=
  let rtt := rtt <| r_rto_ms := u32 (r_rto_ms rtt * 2) |> in
  if r_rto_ms rtt >? r_max_rto_ms rtt then rtt <| r_rto_ms := r_max_rto_ms rtt |> else rtt.

(** [rtt ? rtt->rto_ms : DEFAULT]: the callers may pass NULL. *)
Definition rel4u_rtt_get_rto (rtt : option rel4u_rtt) : Z :=
  match rtt with Some r => r_rto_ms r | None => REL4U_RTT_DEFAULT_RTO_MS end.

(** ** Invariant *)

(** The timeout stays between its bounds. The bounds are positive and the upper
    one leaves room for doubling; both hold of the constants every caller uses. *)
Record rtt_ok (r : rel4u_rtt) : Prop := {
  rtt_bounds : 0 < r_min_rto_ms r <= r_max_rto_ms r;
  rtt_max : r_max_rto_ms r < 2 ^ 31;
  rtt_rto : r_min_rto_ms r <= r_rto_ms r <= r_max_rto_ms r
}.

Lemma rtt_clamp_rto r :
  r_rto_ms (rtt_clamp r) = Z.min (Z.max (r_rto_ms r) (r_min_rto_ms r)) (r_max_rto_ms r).
Proof.
  unfold rtt_clamp. destruct (Z.ltb_spec (r_rto_ms r) (r_min_rto_ms r)); simpl;
    destruct (_ >? _) eqn:E; simpl; lia.
Qed.

Lemma rtt_clamp_frame r :
  r_min_rto_ms (rtt_clamp r) = r_min_rto_ms r /\ r_max_rto_ms (rtt_clamp r) = r_max_rto_ms r /\
  r_srtt_ms (rtt_clamp r) = r_srtt_ms r /\ r_rttvar_ms (rtt_clamp r) = r_rttvar_ms r /\
  r_has_sample (rtt_clamp r) = r_has_sample r.
Proof. unfold rtt_clamp. destruct (_ <? _); destruct (_ >? _); done. Qed.

Lemma rtt_clamp_ok r :
  0 < r_min_rto_ms r <= r_max_rto_ms r -> r_max_rto_ms r < 2 ^ 31 -> rtt_ok (rtt_clamp r).
Proof.
  intros. destruct (rtt_clamp_frame r) as (E1 & E2 & _).
  constructor; rewrite ?rtt_clamp_rto, ?E1, ?E2; lia.
Qed.

Lemma rtt_init_ok i mn mx :
  0 <= mn -> 0 <= mx < 2 ^ 31 ->
  (if mn >? 0 then mn else REL4U_RTT_MIN_RTO_MS) <= (if mx >? 0 then mx else REL4U_RTT_MAX_RTO_MS) ->
  rtt_ok (rel4u_rtt_init i mn mx).
Proof.
  unfold REL4U_RTT_MIN_RTO_MS, REL4U_RTT_MAX_RTO_MS. intros Hn Hx Hb. apply rtt_clamp_ok; simpl;
    unfold REL4U_RTT_MIN_RTO_MS, REL4U_RTT_MAX_RTO_MS;
    destruct (mn >? 0) eqn:?, (mx >? 0) eqn:?; lia.
Qed.

(** The initialisation every component of the library performs. *)
Definition rtt_default : rel4u_rtt :=
  rel4u_rtt_init REL4U_RTT_DEFAULT_RTO_MS REL4U_RTT_MIN_RTO_MS REL4U_RTT_MAX_RTO_MS.

Lemma rtt_default_ok : rtt_ok rtt_default.
Proof. constructor; vm_compute; intuition congruence. Qed.

Lemma rtt_update_frame r s :
  r_min_rto_ms (rel4u_rtt_update_sample r s) = r_min_rto_ms r /\
  r_max_rto_ms (rel4u_rtt_update_sample r s) = r_max_rto_ms r.
Proof.
  unfold rel4u_rtt_update_sample. cbv zeta.
  edestruct rtt_clamp_frame as (-> & -> & _). repeat case_match; done.
Qed.

Lemma rtt_update_ok r s : rtt_ok r -> rtt_ok (rel4u_rtt_update_sample r s).
Proof.
  intros []. unfold rel4u_rtt_update_sample. cbv zeta.
  apply rtt_clamp_ok; repeat case_match; simpl; lia.
Qed.

Lemma rtt_timeout_rto r : rtt_ok r ->
  r_rto_ms (rel4u_rtt_on_timeout r) = Z.min (2 * r_rto_ms r) (r_max_rto_ms r).
Proof.
  intros []. unfold rel4u_rtt_on_timeout. simpl.
  assert (u32 (r_rto_ms r * 2) = 2 * r_rto_ms r) as -> by word_lia.
  destruct (_ >? _) eqn:E; simpl; lia.
Qed.

Lemma rtt_timeout_ok r : rtt_ok r -> rtt_ok (rel4u_rtt_on_timeout r).
Proof.
  intros Hr. pose proof (rtt_timeout_rto r Hr) as E. destruct Hr.
  assert (r_min_rto_ms (rel4u_rtt_on_timeout r) = r_min_rto_ms r /\
          r_max_rto_ms (rel4u_rtt_on_timeout r) = r_max_rto_ms r) as [E1 E2]
    by (unfold rel4u_rtt_on_timeout; simpl; destruct (_ >? _); done).
  constructor; rewrite ?E, ?E1, ?E2; lia.
Qed.
#[export] Hint Resolve rtt_default_ok rtt_update_ok rtt_timeout_ok : rel4u.

(** ** Properties *)

(** One step of the estimator's life: an RTT sample or a retransmission timeout. *)
Inductive rtt_event := Sample (ms : Z) | Timeout.
Definition rtt_step (r : rel4u_rtt) (e : rtt_event) : rel4u_rtt :=
  match e with Sample ms => rel4u_rtt_update_sample r ms | Timeout => rel4u_rtt_on_timeout r end.

(** C30. From the default initialisation, after any sequence of samples (of any
    32-bit value, so also when the intermediate arithmetic wraps) and timeouts,
    the retransmission timeout is between 20 ms and 2000 ms. *)
Theorem rto_always_bounded (es : list rtt_event) :
  let r := foldl rtt_step rtt_default es in
  20 <= r_rto_ms r <= 2000 /\ rel4u_rtt_get_rto (Some r) = r_rto_ms r.
Proof.
  cbv zeta. split; [|done].
  assert (H : rtt_ok (foldl rtt_step rtt_default es) /\
    r_min_rto_ms (foldl rtt_step rtt_default es) = 20 /\
    r_max_rto_ms (foldl rtt_step rtt_default es) = 2000).
  { induction es as [|e es IH] using rev_ind.
    - split; [apply rtt_default_ok|done].
    - rewrite foldl_app. simpl. destruct IH as (H & E1 & E2). destruct e as [ms|]; simpl.
      + destruct (rtt_update_frame (foldl rtt_step rtt_default es) ms) as [-> ->].
        auto with rel4u.
      + unfold rel4u_rtt_on_timeout. split; [by apply rtt_timeout_ok|].
        simpl. destruct (_ >? _); done. }
  destruct H as ([] & E1 & E2). lia.
Qed.

(** No signed overflow: the smoothed value stays below 2^31 as long as the samples
    do, and then neither the difference nor its negation leaves [int32_t]. *)
Theorem rtt_no_signed_overflow (es : list rtt_event) s :
  Forall (fun e => match e with Sample ms => 0 <= ms < 2 ^ 31 | Timeout => True end) es -> 0 <= s < 2 ^ 31 ->
  let srtt := r_srtt_ms (foldl rtt_step rtt_default es) in
  0 <= srtt < 2 ^ 31 /\ s32 (s32 srtt - s32 s) = srtt - s /\ s32 (- (srtt - s)) = - (srtt - s).
Proof.
  intros He Hs. cbv zeta.
  assert (H : 0 <= r_srtt_ms (foldl rtt_step rtt_default es) < 2 ^ 31).
  { revert He. induction es as [|e es IH] using rev_ind; [intros _; vm_compute; intuition congruence|].
    intros [He [Hm _]%Forall_cons]%Forall_app. specialize (IH He). rewrite foldl_app. cbn [foldl].
    set (r := foldl rtt_step rtt_default es) in *. clearbody r. destruct e as [ms|]; cbn [rtt_step].
    - cbn in Hm. unfold rel4u_rtt_update_sample. cbv zeta. edestruct rtt_clamp_frame as (_ & _ & -> & _).
      destruct (r_has_sample r); cbn [negb]; repeat case_match; cbn; clear -IH Hm; word_lia.
    - unfold rel4u_rtt_on_timeout. case_match; exact IH. }
  split; [exact H|]. split; word_lia.
Qed.

Lemma rtt_no_signed_overflow_witness :
  let srtt := r_srtt_ms (foldl rtt_step rtt_default [Sample 100; Timeout; Sample 2147483647]) in
  s32 (s32 srtt - s32 7) = srtt - 7.
Proof.
  apply (rtt_no_signed_overflow [Sample 100; Timeout; Sample 2147483647] 7); [repeat constructor; lia|lia].
Defined.

(** Below 2^28 ms no intermediate value wraps, and a sample after the first
    computes exactly the documented recurrences, with the old smoothed value in
    the deviation: [RTTVAR = max(1, (3 RTTVAR + |SRTT - R|) / 4)],
    [SRTT = (7 SRTT + R) / 8], [RTO = clamp(SRTT + 4 RTTVAR)]. *)
Theorem rtt_update_recurrence r s :
  r_has_sample r = true -> 0 <= s < 2 ^ 28 ->
  0 <= r_srtt_ms r < 2 ^ 28 -> 0 <= r_rttvar_ms r < 2 ^ 28 ->
  let r' := rel4u_rtt_update_sample r s in
  r_rttvar_ms r' = Z.max 1 ((3 * r_rttvar_ms r + Z.abs (r_srtt_ms r - s)) / 4) /\
  r_srtt_ms r' = (7 * r_srtt_ms r + s) / 8 /\
  r_rto_ms r' = Z.min (Z.max (r_srtt_ms r' + 4 * r_rttvar_ms r') (r_min_rto_ms r)) (r_max_rto_ms r).
Proof.
  intros Hs Hr H1 H2. unfold rel4u_rtt_update_sample. rewrite Hs. cbn [negb].
  assert (Hd : s32 (s32 (r_srtt_ms r) - s32 s) = r_srtt_ms r - s) by word_lia.
  rewrite Hd. cbv zeta.
  assert (Ha : (if r_srtt_ms r - s <? 0 then s32 (- (r_srtt_ms r - s)) else r_srtt_ms r - s)
    = Z.abs (r_srtt_ms r - s)).
  { destruct (Z.ltb_spec (r_srtt_ms r - s) 0); word_lia. }
  rewrite Ha.
  assert (Hv : u32 (u32 (3 * r_rttvar_ms r) + u32 (Z.abs (r_srtt_ms r - s)))
    = 3 * r_rttvar_ms r + Z.abs (r_srtt_ms r - s)) by word_lia.
  edestruct rtt_clamp_frame as (_ & _ & Es & Ev & _).
  rewrite rtt_clamp_rto, Es, Ev. simpl. rewrite Hv. clear Es Ev Hv Ha Hd.
  remember ((3 * r_rttvar_ms r + Z.abs (r_srtt_ms r - s)) / 4) as v eqn:Ev.
  assert (0 <= v < 2 ^ 28) by word_lia.
  destruct (Z.ltb_spec v 1); simpl; clear Ev; (split; [lia|]); (split; [word_lia|]);
    destruct (Z.ltb_spec (u32 (4 * v)) 1); word_lia.
Qed.

Lemma rtt_update_recurrence_witness :
  r_rto_ms (rel4u_rtt_update_sample (rel4u_rtt_update_sample rtt_default 100) 180) = 338.
Proof.
  destruct (rtt_update_recurrence (rel4u_rtt_update_sample rtt_default 100) 180) as (_ & _ & E);
    [reflexivity | lia | vm_compute; intuition congruence | vm_compute; intuition congruence |].
  rewrite E. reflexivity.
Defined.

(** Exponential backoff: a timeout doubles the RTO up to its maximum, so
    [n] timeouts in a row from any state in bounds give [min(2^n RTO, max)]. *)
Theorem rto_backoff r (n : nat) : rtt_ok r ->
  r_rto_ms (Nat.iter n rel4u_rtt_on_timeout r) =
  Z.min (2 ^ Z.of_nat n * r_rto_ms r) (r_max_rto_ms r).
Proof.
  intros Hr.
  assert (H : rtt_ok (Nat.iter n rel4u_rtt_on_timeout r) /\
    r_max_rto_ms (Nat.iter n rel4u_rtt_on_timeout r) = r_max_rto_ms r /\
    r_rto_ms (Nat.iter n rel4u_rtt_on_timeout r) =
      Z.min (2 ^ Z.of_nat n * r_rto_ms r) (r_max_rto_ms r)).
  { induction n as [|n (IHok & IHm & IH)].
    - split; [done|]. split; [done|]. destruct Hr. simpl. lia.
    - simpl Nat.iter. split; [by apply rtt_timeout_ok|]. split.
      + rewrite <- IHm. unfold rel4u_rtt_on_timeout. simpl. destruct (_ >? _); done.
      + rewrite rtt_timeout_rto by done. rewrite IH, IHm.
        rewrite Nat2Z.inj_succ, Z.pow_succ_r by lia. destruct Hr.
        pose proof (Z.pow_pos_nonneg 2 (Z.of_nat n)). nia. }
  apply H.
Qed.

Lemma rto_backoff_witness :
  r_rto_ms (Nat.iter 3 rel4u_rtt_on_timeout rtt_default) = 1600 /\
  r_rto_ms (Nat.iter 5 rel4u_rtt_on_timeout rtt_default) = 2000.
Proof. split; rewrite (rto_backoff rtt_default _ rtt_default_ok); reflexivity. Defined.
