(* ===== verification/Mpmc.v ===== *)
(** * MPMC queue: definitions

    [src/core/rel4u_mpmc.{h,c}].  Every public operation takes the queue's
    mutex on entry and releases it before returning, so an operation is one
    atomic function on the queue's state; only [rel4u_mpmc_pop_wait] gives the
    mutex up in between, and it is a loop over the states it finds when the
    condition variable wakes it.

    Fixed mode is a ring buffer.  Dynamic mode is a doubly linked list of heap
    nodes: [q_heap] is the part of the C heap that holds this queue's nodes,
    [malloc] adds a node and [free] removes one.  An arena or mode is chosen once
    at initialisation. *)
From S2P Require Import Prelude Ring Types.
From stdpp Require Import base numbers list gmap.
Open Scope Z_scope.
Open Scope rel4u_scope.

Record rel4u_mpmc_item := mk_item {
  it_client_id : Z;
  it_mode : Z;
  it_len : Z;
  it_data : list Z
}.
Definition item_zero : rel4u_mpmc_item := mk_item 0 0 0 [].
#[export] Instance item_inhabited : Inhabited rel4u_mpmc_item := populate item_zero.

Definition loc := positive.

Record rel4u_mpmc_node := mk_node {
  nd_client_id : Z;
  nd_mode : Z;
  nd_len : Z;
  nd_allocated_size : Z;
  nd_prev : option loc;
  nd_next : option loc;
  nd_data : list Z
}.
#[export] Instance eta_node : Eta rel4u_mpmc_node := fun n =>
  mk_node (nd_client_id n) (nd_mode n) (nd_len n) (nd_allocated_size n) (nd_prev n) (nd_next n)
    (nd_data n).
#[export] Instance node_inhabited : Inhabited rel4u_mpmc_node :=
  populate (mk_node 0 0 0 0 None None []).

(** Object sizes of the LP64 ABI: [4 + 1 + 2 + 9216] bytes rounded up to a
    multiple of 4, and a header of 4 + 1 + 2 (padded to 8) + 8 + 8 + 8 bytes
    before the flexible array. *)
Definition sizeof_item : Z := 9224.
Definition sizeof_node : Z := 32.

Record rel4u_mpmc_queue := mk_queue {
  q_mode : rel4u_memory_mode;
  q_full_policy : rel4u_queue_full_policy;
  q_max_bytes : Z;
  q_current_bytes : Z;
  q_dropped_count : Z;
  q_items : list rel4u_mpmc_item;
  q_capacity : Z;
  q_head : Z;
  q_tail : Z;
  q_node_head : option loc;
  q_node_tail : option loc;
  q_heap : gmap loc rel4u_mpmc_node;
  q_count : Z;
  q_wake_generation : Z
}.
#[export] Instance eta_queue : Eta rel4u_mpmc_queue := fun q =>
  mk_queue (q_mode q) (q_full_policy q) (q_max_bytes q) (q_current_bytes q) (q_dropped_count q)
    (q_items q) (q_capacity q) (q_head q) (q_tail q) (q_node_head q) (q_node_tail q) (q_heap q)
    (q_count q) (q_wake_generation q).

(** The C allocator as the queue uses it: given the live nodes and a size it
    either fails or returns a block that is not in use. *)
Class Malloc := {
  malloc : gmap loc rel4u_mpmc_node -> Z -> option loc;
  malloc_fresh : forall h n l, malloc h n = Some l -> h !! l = None
}.

(** ** Initialisation and destruction *)

Definition queue_zero : rel4u_mpmc_queue :=
  mk_queue REL4U_MEM_FIXED REL4U_QUEUE_FULL_DROP_NEW 0 0 0 [] 0 0 0 None None ∅ 0 0.

(** [items_mem] is what [malloc(sizeof(item) * capacity)] returns: NULL, or
    [capacity] uninitialised items. *)
Definition rel4u_mpmc_init (mode : rel4u_memory_mode) (full_policy : rel4u_queue_full_policy)
    (capacity max_bytes : Z) (items_mem : option (list rel4u_mpmc_item)) : Z * rel4u_mpmc_queue :=
  let q := queue_zero <| q_mode := mode |> <| q_full_policy := full_policy |>
                      <| q_dropped_count := 0 |> <| q_count := 0 |> in
  match mode with
  | REL4U_MEM_FIXED =>
      if capacity <? 2 then (-1, q) else
      let q := q <| q_capacity := capacity |> in
      match items_mem with
      | None => (-1, q)
      | Some mem =>
          let q := q <| q_items := mem |> <| q_max_bytes := u64 (sizeof_item * capacity) |> in
          let q := q <| q_current_bytes := q_max_bytes q |> in
          (0, q <| q_head := 0 |> <| q_tail := 0 |>)
      end
  | REL4U_MEM_DYNAMIC =>
      let max_bytes := if max_bytes =? 0 then 1024 * 1024 else max_bytes in
      let q := q <| q_max_bytes := max_bytes |> <| q_current_bytes := 0 |> in
      (0, q <| q_node_head := None |> <| q_node_tail := None |>)
  end.

(** The freeing loop of [rel4u_mpmc_destroy]: [next] is read before [cur] is
    freed. *)
Fixpoint mpmc_free_nodes (fuel : nat) (h : gmap loc rel4u_mpmc_node) (cur : option loc)
  : gmap loc rel4u_mpmc_node :=
  match fuel, cur with
  | S fuel, Some l =>
      match h !! l with
      | Some nd => mpmc_free_nodes fuel (delete l h) (nd_next nd)
      | None => h
      end
  | _, _ => h
  end.

Definition rel4u_mpmc_destroy (q : rel4u_mpmc_queue) : rel4u_mpmc_queue :=
  let q := q <| q_wake_generation := u32 (q_wake_generation q + 1) |> in
  let q :=
    match q_mode q with
    | REL4U_MEM_DYNAMIC =>
        q <| q_heap := mpmc_free_nodes (size (q_heap q)) (q_heap q) (q_node_head q) |>
          <| q_node_head := None |> <| q_node_tail := None |>
    | REL4U_MEM_FIXED => q <| q_items := [] |>
    end in
  q <| q_capacity := 0 |> <| q_count := 0 |> <| q_current_bytes := 0 |>.

(** ** Locked helpers *)

Definition mpmc_drop (q : rel4u_mpmc_queue) : rel4u_mpmc_queue :=
  q <| q_dropped_count := u64 (q_dropped_count q + 1) |>.

(** [victim = node_head; node_head = victim->next; ...; free(victim)]: the head
    node and the queue without it. *)
Definition mpmc_unlink_head (q : rel4u_mpmc_queue) : option (rel4u_mpmc_node * rel4u_mpmc_queue) :=
  match q_node_head q with
  | None => None
  | Some l =>
      let victim := q_heap q !!! l in
      let q := q <| q_node_head := nd_next victim |> in
      let q := match q_node_head q with
               | Some n => q <| q_heap := alter (fun nd => nd <| nd_prev := None |>) n (q_heap q) |>
               | None => q <| q_node_tail := None |>
               end in
      let q := q <| q_current_bytes := u64 (q_current_bytes q - nd_allocated_size victim) |>
                 <| q_count := q_count q - 1 |> in
      Some (victim, q <| q_heap := delete l (q_heap q) |>)
  end.

(** The loop [while (current_bytes + needed > max_bytes)]: evict from the head
    under DROP_LAST, give up otherwise.  Each turn frees a node, so the number
    of nodes bounds the turns. *)
Fixpoint mpmc_make_room (fuel : nat) (q : rel4u_mpmc_queue) (needed : Z)
  : bool * rel4u_mpmc_queue :=
  if u64 (q_current_bytes q + needed) >? q_max_bytes q then
    match fuel, q_full_policy q, mpmc_unlink_head q with
    | S fuel, REL4U_QUEUE_FULL_DROP_LAST, Some (_, q') => mpmc_make_room fuel (mpmc_drop q') needed
    | _, _, _ => (false, mpmc_drop q)
    end
  else (true, q).

(** Fixed mode, queue full: evict the head under DROP_LAST, else reject. *)
Definition mpmc_fixed_room (q : rel4u_mpmc_queue) : bool * rel4u_mpmc_queue :=
  if q_count q >=? q_capacity q then
    match q_full_policy q with
    | REL4U_QUEUE_FULL_DROP_LAST =>
        (true, mpmc_drop (q <| q_head := (q_head q + 1) mod q_capacity q |>
                            <| q_count := q_count q - 1 |>))
    | REL4U_QUEUE_FULL_DROP_NEW => (false, mpmc_drop q)
    end
  else (true, q).

(** Filling a fresh node from an item. *)
Definition mpmc_new_node (item : rel4u_mpmc_item) (needed : Z) (prev next : option loc)
  : rel4u_mpmc_node :=
  mk_node (it_client_id item) (it_mode item) (it_len item) needed prev next
    (if it_len item >? 0 then take (Z.to_nat (it_len item)) (it_data item) else []).

Section locked.
Context {allocator : Malloc}.

Definition mpmc_push_back_locked (q : rel4u_mpmc_queue) (item : rel4u_mpmc_item)
  : bool * rel4u_mpmc_queue :=
  if it_len item >? REL4U_MAX_MSG_SIZE then (false, q) else
  match q_mode q with
  | REL4U_MEM_FIXED =>
      let '(ok, q) := mpmc_fixed_room q in
      if negb ok then (false, q) else
      let q := q <| q_items := arr_set (q_items q) (q_tail q) item |> in
      let q := q <| q_tail := (q_tail q + 1) mod q_capacity q |> in
      (true, q <| q_count := q_count q + 1 |>)
  | REL4U_MEM_DYNAMIC =>
      let needed := sizeof_node + it_len item in
      if needed >? q_max_bytes q then (false, mpmc_drop q) else
      let '(ok, q) := mpmc_make_room (size (q_heap q)) q needed in
      if negb ok then (false, q) else
      match malloc (q_heap q) needed with
      | None => (false, mpmc_drop q)
      | Some node =>
          let q := q <| q_heap :=
                     <[node := mpmc_new_node item needed (q_node_tail q) None]> (q_heap q) |> in
          let q := match q_node_tail q with
                   | Some t => q <| q_heap :=
                                 alter (fun nd => nd <| nd_next := Some node |>) t (q_heap q) |>
                   | None => q <| q_node_head := Some node |>
                   end in
          let q := q <| q_node_tail := Some node |> in
          let q := q <| q_count := q_count q + 1 |> in
          (true, q <| q_current_bytes := u64 (q_current_bytes q + needed) |>)
      end
  end.

Definition mpmc_push_front_locked (q : rel4u_mpmc_queue) (item : rel4u_mpmc_item)
  : bool * rel4u_mpmc_queue :=
  if it_len item >? REL4U_MAX_MSG_SIZE then (false, q) else
  match q_mode q with
  | REL4U_MEM_FIXED =>
      let '(ok, q) := mpmc_fixed_room q in
      if negb ok then (false, q) else
      let q := q <| q_head := if q_head q =? 0 then q_capacity q - 1 else q_head q - 1 |> in
      let q := q <| q_items := arr_set (q_items q) (q_head q) item |> in
      (true, q <| q_count := q_count q + 1 |>)
  | REL4U_MEM_DYNAMIC =>
      let needed := sizeof_node + it_len item in
      if needed >? q_max_bytes q then (false, mpmc_drop q) else
      let '(ok, q) := mpmc_make_room (size (q_heap q)) q needed in
      if negb ok then (false, q) else
      match malloc (q_heap q) needed with
      | None => (false, mpmc_drop q)
      | Some node =>
          let q := q <| q_heap :=
                     <[node := mpmc_new_node item needed None (q_node_head q)]> (q_heap q) |> in
          let q := match q_node_head q with
                   | Some t => q <| q_heap :=
                                 alter (fun nd => nd <| nd_prev := Some node |>) t (q_heap q) |>
                   | None => q <| q_node_tail := Some node |>
                   end in
          let q := q <| q_node_head := Some node |> in
          let q := q <| q_count := q_count q + 1 |> in
          (true, q <| q_current_bytes := u64 (q_current_bytes q + needed) |>)
      end
  end.

(** The popped message goes into the caller's [out_item]; in dynamic mode only
    the first [len] bytes of its data are overwritten. *)
Definition mpmc_pop_head_locked (q : rel4u_mpmc_queue) (out_item : rel4u_mpmc_item)
  : bool * rel4u_mpmc_queue * rel4u_mpmc_item :=
  if q_count q =? 0 then (false, q, out_item) else
  match q_mode q with
  | REL4U_MEM_FIXED =>
      let out_item := q_items q !. q_head q in
      let q := q <| q_head := (q_head q + 1) mod q_capacity q |> in
      (true, q <| q_count := q_count q - 1 |>, out_item)
  | REL4U_MEM_DYNAMIC =>
      match mpmc_unlink_head q with
      | None => (false, q, out_item)
      | Some (node, q) =>
          (true, q, mk_item (nd_client_id node) (nd_mode node) (nd_len node)
             (if nd_len node >? 0 then memcpy (it_data out_item) (nd_data node) (nd_len node)
              else it_data out_item))
      end
  end.

(** ** Public operations *)

(** What an operation does to the condition variable. *)
Inductive cond_effect := NoSignal | Signal | Broadcast.

Definition rel4u_mpmc_try_push (q : rel4u_mpmc_queue) (item : rel4u_mpmc_item)
  : bool * rel4u_mpmc_queue := mpmc_push_back_locked q item.

Definition rel4u_mpmc_try_pop (q : rel4u_mpmc_queue) (out_item : rel4u_mpmc_item)
  : bool * rel4u_mpmc_queue * rel4u_mpmc_item := mpmc_pop_head_locked q out_item.

Definition rel4u_mpmc_push_notify (q : rel4u_mpmc_queue) (item : rel4u_mpmc_item)
  : bool * rel4u_mpmc_queue * cond_effect :=
  let '(ok, q) := mpmc_push_back_locked q item in (ok, q, if ok then Signal else NoSignal).

Definition rel4u_mpmc_push_front (q : rel4u_mpmc_queue) (item : rel4u_mpmc_item)
  : bool * rel4u_mpmc_queue * cond_effect :=
  let '(ok, q) := mpmc_push_front_locked q item in (ok, q, if ok then Signal else NoSignal).

Definition rel4u_mpmc_wake_all (q : rel4u_mpmc_queue) : rel4u_mpmc_queue * cond_effect :=
  (q <| q_wake_generation := u32 (q_wake_generation q + 1) |>, Broadcast).

Definition rel4u_mpmc_size (q : rel4u_mpmc_queue) : Z := q_count q.
Definition rel4u_mpmc_bytes (q : rel4u_mpmc_queue) : Z := q_current_bytes q.
Definition rel4u_mpmc_dropped_count (q : rel4u_mpmc_queue) : Z := q_dropped_count q.

(** ** Blocking pop *)

(** Where [rel4u_mpmc_pop_wait] is: still blocked in the condition variable, or
    returned. *)
Inductive wait_result :=
  | Blocked (q : rel4u_mpmc_queue)
  | Returned (ok : bool) (q : rel4u_mpmc_queue) (out_item : rel4u_mpmc_item).

(** The loop [while (count == 0)], entered with the mutex held and [gen] saved.
    Each element of [wakes] is one return from the condition variable: whether
    the timed wait reports a signal (rather than the timeout), and the state of
    the queue that other threads have left.  With an empty list the caller is
    still waiting. *)
Fixpoint pop_wait_loop (gen : Z) (timeout_ms : Z) (q : rel4u_mpmc_queue)
    (out_item : rel4u_mpmc_item) (wakes : list (bool * rel4u_mpmc_queue)) : wait_result :=
  if q_count q =? 0 then
    if timeout_ms =? 0 then Returned false q out_item else
    match wakes with
    | [] => Blocked q
    | (signaled, q') :: wakes =>
        let no_more :=
          if timeout_ms <? 0 then negb (q_wake_generation q' =? gen)
          else negb signaled || negb (q_wake_generation q' =? gen) in
        if (q_count q' =? 0) && no_more then Returned false q' out_item
        else pop_wait_loop gen timeout_ms q' out_item wakes
    end
  else
    let '(ok, q, out_item) := mpmc_pop_head_locked q out_item in Returned ok q out_item.

Definition rel4u_mpmc_pop_wait (q : rel4u_mpmc_queue) (out_item : rel4u_mpmc_item) (timeout_ms : Z)
    (wakes : list (bool * rel4u_mpmc_queue)) : wait_result :=
  pop_wait_loop (q_wake_generation q) timeout_ms q out_item wakes.

End locked.
