(* ===== verification/MpmcSpec.v ===== *)
(** * MPMC queue: specification and refinement

    What the queue promises its clients is a bounded list of messages: a push
    appends (or prepends) one message, evicting the oldest ones or refusing when
    the bound would be exceeded, a pop takes the oldest.  The bound counts
    messages in fixed mode and bytes in dynamic mode.  Both implementations of
    [Mpmc] are proved to refine this specification, the linked list together
    with its memory safety. *)
From S2P Require Import Prelude Ring Types Mpmc.
From stdpp Require Import base numbers list gmap.
Open Scope Z_scope.
Open Scope rel4u_scope.

(** ** Messages *)

(** What an item or a node carries: the bytes beyond [len] are not part of it. *)
Record msg := mk_msg { m_client_id : Z; m_mode : Z; m_data : list Z }.

Definition item_msg (it : rel4u_mpmc_item) : msg :=
  mk_msg (it_client_id it) (it_mode it) (take (Z.to_nat (it_len it)) (it_data it)).
Definition node_msg (nd : rel4u_mpmc_node) : msg :=
  mk_msg (nd_client_id nd) (nd_mode nd) (take (Z.to_nat (nd_len nd)) (nd_data nd)).
Definition m_len (m : msg) : Z := Z.of_nat (length (m_data m)).

(** [len] is the length of a prefix of the data array. *)
Definition item_wf (it : rel4u_mpmc_item) : Prop :=
  0 <= it_len it <= Z.of_nat (length (it_data it)) /\ it_len it < 2 ^ 16.

(** What the queue accepts: also within [REL4U_MAX_MSG_SIZE]. *)
Definition item_sized (it : rel4u_mpmc_item) : Prop := item_wf it /\ it_len it <= REL4U_MAX_MSG_SIZE.

Lemma item_msg_len it : item_wf it -> m_len (item_msg it) = it_len it.
Proof. intros [H _]. unfold m_len, item_msg. simpl. rewrite length_take. lia. Qed.

(** ** The bounded queue *)

(** The abstract state: messages, oldest first, and how many were dropped. *)
Record bqueue := mk_bqueue { bq_msgs : list msg; bq_dropped : Z }.

(** The sum of the costs of a list of messages. *)
Fixpoint cost_sum (cost : msg -> Z) (l : list msg) : Z :=
  match l with [] => 0 | m :: l => cost m + cost_sum cost l end.

Section spec.
Context (cost : msg -> Z) (limit : Z) (policy : rel4u_queue_full_policy).

(** The shortest eviction of old messages that makes room for [need]. *)
Fixpoint bq_evict (need : Z) (l : list msg) : list msg :=
  if cost_sum cost l + need <=? limit then l
  else match l with [] => [] | _ :: l => bq_evict need l end.

(** A push at the back or the front.  [alloc_ok]: the memory for the message
    could be obtained; it is asked for only after the eviction. *)
Definition bq_push (front alloc_ok : bool) (m : msg) (b : bqueue) : bool * bqueue :=
  let add l := if front then m :: l else l ++ [m] in
  let finish l d := if alloc_ok then (true, mk_bqueue (add l) d)
                    else (false, mk_bqueue l (u64 (d + 1))) in
  if m_len m >? REL4U_MAX_MSG_SIZE then (false, b)
  else if cost m >? limit then (false, mk_bqueue (bq_msgs b) (u64 (bq_dropped b + 1)))
  else if cost_sum cost (bq_msgs b) + cost m <=? limit then finish (bq_msgs b) (bq_dropped b)
  else match policy with
       | REL4U_QUEUE_FULL_DROP_NEW => (false, mk_bqueue (bq_msgs b) (u64 (bq_dropped b + 1)))
       | REL4U_QUEUE_FULL_DROP_LAST =>
           let l := bq_evict (cost m) (bq_msgs b) in
           finish l (u64 (bq_dropped b + Z.of_nat (length (bq_msgs b) - length l)))
       end.

Definition bq_pop (b : bqueue) : option msg * bqueue :=
  match bq_msgs b with
  | [] => (None, b)
  | m :: l => (Some m, mk_bqueue l (bq_dropped b))
  end.

Lemma total_app l1 l2 : cost_sum cost (l1 ++ l2) = cost_sum cost l1 + cost_sum cost l2.
Proof. induction l1; simpl; lia. Qed.

Lemma bq_evict_fits need l : cost_sum cost l + need <= limit -> bq_evict need l = l.
Proof. intros H. destruct l; simpl in *; (case_match eqn:E; [done|]); lia. Qed.

(** Eviction keeps the newest messages and makes room whenever the message fits
    an empty queue. *)
Lemma bq_evict_spec need l : need <= limit ->
  cost_sum cost (bq_evict need l) + need <= limit /\ exists k, bq_evict need l = drop k l.
Proof.
  intros Hn. induction l as [|m l IH]; simpl.
  - destruct (Z.leb_spec (0 + need) limit); (split; [simpl; lia|by exists 0%nat]).
  - destruct (Z.leb_spec (cost m + cost_sum cost l + need) limit).
    + split; [simpl; lia|by exists 0%nat].
    + destruct IH as [IH [k E]]. split; [done|by exists (S k)].
Qed.

Lemma bq_evict_length need l : (length (bq_evict need l) <= length l)%nat.
Proof. induction l; simpl; case_match; simpl; lia. Qed.
End spec.

(** The cost of a message and the limit, for each memory mode. *)
Definition q_cost (q : rel4u_mpmc_queue) (m : msg) : Z :=
  match q_mode q with
  | REL4U_MEM_FIXED => 1
  | REL4U_MEM_DYNAMIC => sizeof_node + m_len m
  end.
Definition q_limit (q : rel4u_mpmc_queue) : Z :=
  match q_mode q with REL4U_MEM_FIXED => q_capacity q | REL4U_MEM_DYNAMIC => q_max_bytes q end.

(** ** Doubly linked lists in the heap *)

(** A node without its links. *)
Definition nd_body (nd : rel4u_mpmc_node) : rel4u_mpmc_node :=
  nd <| nd_prev := None |> <| nd_next := None |>.

(** [ls] are the locations of the list in order; the heap holds exactly these
    nodes, linked both ways, and [nds] are their contents. *)
Record dll (h : gmap loc rel4u_mpmc_node) (hd tl : option loc) (ls : list loc)
    (nds : list rel4u_mpmc_node) : Prop := {
  dll_nodup : NoDup ls;
  dll_dom : forall l, is_Some (h !! l) <-> l ∈ ls;
  dll_head : hd = head ls;
  dll_tail : tl = last ls;
  dll_next : forall i l, ls !! i = Some l -> nd_next (h !!! l) = ls !! S i;
  dll_prev : forall i l, ls !! i = Some l ->
    nd_prev (h !!! l) = match i with O => None | S j => ls !! j end;
  dll_body : nds = (fun l => nd_body (h !!! l)) <$> ls
}.

Lemma dll_nil : dll ∅ None None [] [].
Proof.
  constructor; try done; [constructor|]. intros l. rewrite lookup_empty.
  split; [by intros []|by intros ?%elem_of_nil].
Qed.

Lemma dll_length h hd tl ls nds : dll h hd tl ls nds -> length nds = length ls.
Proof. intros []. subst. by rewrite length_fmap. Qed.

Lemma dll_size h hd tl ls nds : dll h hd tl ls nds -> size h = length ls.
Proof.
  intros D. assert (dom h = list_to_set ls) as Hd.
  { apply set_eq. intros l. rewrite elem_of_dom, (dll_dom _ _ _ _ _ D), elem_of_list_to_set. done. }
  rewrite <- size_dom, Hd. apply size_list_to_set, (dll_nodup _ _ _ _ _ D).
Qed.

Lemma alter_total_eq (f : rel4u_mpmc_node -> rel4u_mpmc_node) (h : gmap loc rel4u_mpmc_node) l :
  is_Some (h !! l) -> alter f l h !!! l = f (h !!! l).
Proof.
  intros [nd Hn]. rewrite lookup_total_alter_eq, Hn. simpl. by rewrite lookup_total_alt, Hn.
Qed.

Lemma alter_is_Some (f : rel4u_mpmc_node -> rel4u_mpmc_node) (h : gmap loc rel4u_mpmc_node) k l :
  is_Some (alter f k h !! l) <-> is_Some (h !! l).
Proof. rewrite lookup_alter. case_decide; [subst; by rewrite fmap_is_Some|done]. Qed.

(** Unlinking and freeing the head node. *)
Lemma dll_unlink h tl l ls nd nds :
  dll h (Some l) tl (l :: ls) (nd :: nds) ->
  let h' := match nd_next (h !!! l) with
            | Some n => alter (fun nd => nd <| nd_prev := None |>) n h
            | None => h end in
  dll (delete l h') (nd_next (h !!! l)) (match nd_next (h !!! l) with Some _ => tl | None => None end)
    ls nds /\ nd = nd_body (h !!! l).
Proof.
  intros [Hnd Hdom Hhd Htl Hnx Hpv Hb]. simpl. apply NoDup_cons in Hnd as [Hni Hnd].
  assert (Hn : nd_next (h !!! l) = head ls) by (rewrite (Hnx 0%nat l) by done; by destruct ls).
  rewrite Hn. simpl in Hb. injection Hb as -> ->. split; [|done].
  set (h' := match head ls with Some n => _ | None => _ end).
  assert (Hne : forall i l', ls !! i = Some l' -> l <> l').
  { intros i l' Hi ->. apply Hni, list_elem_of_lookup. eauto. }
  assert (Hl : forall i l', ls !! i = Some l' -> delete l h' !!! l' =
     if decide (i = 0%nat) then (h !!! l') <| nd_prev := None |> else h !!! l').
  { intros i l' Hi. rewrite lookup_total_delete_ne by eauto. unfold h'.
    destruct ls as [|l2 ls]; [done|]. simpl. case_decide as E.
    - subst i. simpl in Hi. injection Hi as ->. rewrite alter_total_eq; [done|].
      apply Hdom. right. left.
    - rewrite lookup_total_alter_ne; [done|]. intros ->. apply E.
      eapply (NoDup_lookup _ i 0%nat); [exact Hnd|exact Hi|done]. }
  constructor; try done.
  - intros l'. destruct (decide (l = l')) as [->|E].
    + rewrite lookup_delete_eq. split; [by intros []|done].
    + rewrite lookup_delete_ne by done. unfold h'. destruct (head ls) as [n|].
      * rewrite alter_is_Some, Hdom, elem_of_cons. intuition congruence.
      * rewrite Hdom, elem_of_cons. intuition congruence.
  - rewrite Htl. destruct ls; done.
  - intros i l' Hi. rewrite (Hl _ _ Hi).
    case_decide; simpl; apply (Hnx (S i) l' Hi).
  - intros i l' Hi. rewrite (Hl _ _ Hi). case_decide as E; simpl; [by subst|].
    rewrite (Hpv (S i) l' Hi). destruct i; [done|]. done.
  - apply list_fmap_ext. intros i l' Hi. rewrite (Hl _ _ Hi). by case_decide.
Qed.

(** Linking a fresh node behind the tail. *)
Lemma dll_snoc h hd tl ls nds l nd :
  dll h hd tl ls nds -> h !! l = None -> nd_prev nd = tl -> nd_next nd = None ->
  let h1 := <[l := nd]> h in
  dll (match tl with Some t => alter (fun n => n <| nd_next := Some l |>) t h1 | None => h1 end)
    (match tl with Some _ => hd | None => Some l end) (Some l) (ls ++ [l]) (nds ++ [nd_body nd]).
Proof.
  intros [Hnd Hdom Hhd Htl Hnx Hpv Hb] Hfr Hp Hn h1. subst hd tl.
  assert (Hni : l ∉ ls) by (intros Hin%Hdom; rewrite Hfr in Hin; by destruct Hin).
  set (h' := match last ls with Some t => _ | None => h1 end).
  assert (Hne : forall i l', ls !! i = Some l' -> l <> l').
  { intros i l' Hi ->. apply Hni, list_elem_of_lookup. eauto. }
  assert (Hold : forall i l', ls !! i = Some l' -> h' !!! l' =
     if decide (S i = length ls) then (h !!! l') <| nd_next := Some l |> else h !!! l').
  { intros i l' Hi. unfold h', h1.
    assert (Hlt := lookup_lt_Some _ _ _ Hi).
    rewrite last_lookup. destruct (ls !! pred (length ls)) as [t|] eqn:Et.
    2:{ apply lookup_ge_None in Et. lia. }
    case_decide as E.
    - rewrite <- E in Et. simpl in Et. assert (t = l') as -> by congruence.
      rewrite alter_total_eq.
      + by rewrite lookup_total_insert_ne by eauto.
      + rewrite lookup_insert_ne by eauto. apply Hdom, list_elem_of_lookup. eauto.
    - rewrite lookup_total_alter_ne; [by rewrite lookup_total_insert_ne by eauto|].
      intros ->. apply E. rewrite (NoDup_lookup ls i (pred (length ls)) l'); [lia|done..]. }
  assert (Hnew : h' !!! l = nd).
  { unfold h', h1. destruct (last ls) as [t|] eqn:Et.
    - rewrite lookup_total_alter_ne; [apply lookup_total_insert_eq|].
      intros ->. apply Hni. by apply last_Some_elem_of.
    - apply lookup_total_insert_eq. }
  constructor.
  - apply NoDup_app. split; [done|]. split; [|apply NoDup_singleton].
    intros x Hx ->%list_elem_of_singleton. done.
  - intros l'. assert (is_Some (h' !! l') <-> is_Some (h1 !! l')) as ->
      by (unfold h'; destruct (last ls); [apply alter_is_Some|done]).
    unfold h1. rewrite lookup_insert_is_Some', Hdom, elem_of_app, list_elem_of_singleton.
    intuition congruence.
  - destruct ls as [|x ls]; [done|]. rewrite last_cons. simpl. by destruct (last ls).
  - by rewrite last_snoc.
  - intros i l' Hi. apply lookup_app_Some in Hi as [Hi|[Hge Hi]].
    + rewrite (Hold _ _ Hi). assert (Hlt := lookup_lt_Some _ _ _ Hi). case_decide as E; simpl.
      * rewrite lookup_app_r by lia. by replace (S i - length ls)%nat with 0%nat by lia.
      * rewrite (Hnx _ _ Hi). rewrite lookup_app_l by lia. done.
    + apply list_lookup_singleton_Some in Hi as [? <-]. rewrite Hnew, Hn.
      symmetry. apply lookup_ge_None. rewrite length_app. simpl. lia.
  - intros i l' Hi. apply lookup_app_Some in Hi as [Hi|[Hge Hi]].
    + rewrite (Hold _ _ Hi). assert (Hlt := lookup_lt_Some _ _ _ Hi).
      case_decide as E; simpl; rewrite (Hpv _ _ Hi); destruct i; rewrite ?lookup_app_l by lia; done.
    + apply list_lookup_singleton_Some in Hi as [? <-]. rewrite Hnew, Hp, last_lookup.
      assert (i = length ls) as -> by lia. destruct ls as [|x ls]; [done|].
      simpl length. cbn [pred]. by rewrite lookup_app_l by (simpl; lia).
  - rewrite fmap_app, Hb. simpl. rewrite Hnew. f_equal. apply list_fmap_ext.
    intros i l' Hi. rewrite (Hold _ _ Hi). by case_decide.
Qed.

(** Linking a fresh node before the head. *)
Lemma dll_cons h hd tl ls nds l nd :
  dll h hd tl ls nds -> h !! l = None -> nd_prev nd = None -> nd_next nd = hd ->
  let h1 := <[l := nd]> h in
  dll (match hd with Some t => alter (fun n => n <| nd_prev := Some l |>) t h1 | None => h1 end)
    (Some l) (match hd with Some _ => tl | None => Some l end) (l :: ls) (nd_body nd :: nds).
Proof.
  intros [Hnd Hdom Hhd Htl Hnx Hpv Hb] Hfr Hp Hn h1. subst hd tl.
  assert (Hni : l ∉ ls) by (intros Hin%Hdom; rewrite Hfr in Hin; by destruct Hin).
  set (h' := match head ls with Some t => _ | None => h1 end).
  assert (Hne : forall i l', ls !! i = Some l' -> l <> l').
  { intros i l' Hi ->. apply Hni, list_elem_of_lookup. eauto. }
  assert (Hold : forall i l', ls !! i = Some l' -> h' !!! l' =
     if decide (i = 0%nat) then (h !!! l') <| nd_prev := Some l |> else h !!! l').
  { intros i l' Hi. unfold h', h1. destruct ls as [|t ls]; [done|]. simpl.
    case_decide as E.
    - subst i. simpl in Hi. injection Hi as ->. rewrite alter_total_eq.
      + by rewrite lookup_total_insert_ne by (eapply (Hne 0%nat); done).
      + rewrite lookup_insert_ne by (eapply (Hne 0%nat); done). apply Hdom. left.
    - rewrite lookup_total_alter_ne; [by rewrite lookup_total_insert_ne by eauto|].
      intros ->. apply E. eapply (NoDup_lookup _ i 0%nat); [exact Hnd|exact Hi|done]. }
  assert (Hnew : h' !!! l = nd).
  { unfold h', h1. destruct ls as [|t ls]; simpl; [apply lookup_total_insert_eq|].
    rewrite lookup_total_alter_ne; [apply lookup_total_insert_eq|].
    intros ->. apply Hni. left. }
  constructor.
  - by apply NoDup_cons.
  - intros l'. assert (is_Some (h' !! l') <-> is_Some (h1 !! l')) as ->
      by (unfold h'; destruct (head ls); [apply alter_is_Some|done]).
    unfold h1. rewrite lookup_insert_is_Some', Hdom, elem_of_cons. intuition congruence.
  - done.
  - destruct ls as [|x ls]; [done|]. simpl head. by rewrite !last_cons; destruct (last ls).
  - intros [|i] l' Hi; simpl in Hi.
    + injection Hi as <-. rewrite Hnew, Hn. by destruct ls.
    + rewrite (Hold _ _ Hi). case_decide; simpl; apply (Hnx _ _ Hi).
  - intros [|i] l' Hi; simpl in Hi.
    + injection Hi as <-. by rewrite Hnew, Hp.
    + rewrite (Hold _ _ Hi). case_decide as E; simpl; [by subst i|].
      rewrite (Hpv _ _ Hi). by destruct i.
  - simpl. rewrite Hnew, Hb. f_equal. apply list_fmap_ext. intros i l' Hi.
    rewrite (Hold _ _ Hi). by case_decide.
Qed.

(** ** The refinement relation *)

(** A node's size fields describe its data. *)
Definition node_ok (nd : rel4u_mpmc_node) : Prop :=
  nd_len nd = Z.of_nat (length (nd_data nd)) /\
  nd_allocated_size nd = sizeof_node + nd_len nd /\ nd_len nd <= REL4U_MAX_MSG_SIZE.

Record fixed_ok (q : rel4u_mpmc_queue) : Prop := {
  fx_cap : 2 <= q_capacity q < 2 ^ 64;
  fx_items : Z.of_nat (length (q_items q)) = q_capacity q;
  fx_head : 0 <= q_head q < q_capacity q;
  fx_count : 0 <= q_count q <= q_capacity q;
  fx_tail : q_tail q = (q_head q + q_count q) mod q_capacity q
}.

(** The ring buffer holds the messages from the head on. *)
Definition fixed_rep (q : rel4u_mpmc_queue) (l : list msg) : Prop :=
  fixed_ok q /\ l = item_msg <$> ring_view (q_items q) (q_capacity q) (q_head q) (q_count q) /\
  Forall item_sized (ring_view (q_items q) (q_capacity q) (q_head q) (q_count q)).

(** The heap is exactly one well-formed list of nodes holding the messages; the
    bytes in use are the sum of their sizes and within the limit. *)
Definition dynamic_rep (q : rel4u_mpmc_queue) (l : list msg) : Prop :=
  exists ls nds, dll (q_heap q) (q_node_head q) (q_node_tail q) ls nds /\
    Forall node_ok nds /\ l = node_msg <$> nds /\
    q_count q = Z.of_nat (length l) /\
    q_current_bytes q = cost_sum (fun m => sizeof_node + m_len m) l /\
    q_current_bytes q <= q_max_bytes q < 2 ^ 63.

Definition q_rep (q : rel4u_mpmc_queue) (b : bqueue) : Prop :=
  bq_dropped b = q_dropped_count q /\ is_u64 (q_dropped_count q) /\
  match q_mode q with
  | REL4U_MEM_FIXED => fixed_rep q (bq_msgs b)
  | REL4U_MEM_DYNAMIC => dynamic_rep q (bq_msgs b)
  end.

(** What no operation changes: the configuration. *)
Record q_same (q q' : rel4u_mpmc_queue) : Prop := {
  same_mode : q_mode q' = q_mode q;
  same_policy : q_full_policy q' = q_full_policy q;
  same_max : q_max_bytes q' = q_max_bytes q;
  same_cap : q_capacity q' = q_capacity q;
  same_gen : q_wake_generation q' = q_wake_generation q
}.

#[export] Instance q_same_refl : Reflexive q_same.
Proof. by constructor. Qed.
#[export] Instance q_same_trans : Transitive q_same.
Proof. intros x y z [] []. constructor; congruence. Qed.

Lemma q_same_cost q q' : q_same q q' -> q_cost q' = q_cost q.
Proof. intros [E _ _ _ _]. unfold q_cost. by rewrite E. Qed.
Lemma q_same_limit q q' : q_same q q' -> q_limit q' = q_limit q.
Proof. intros [E _ E1 E2 _]. unfold q_limit. by rewrite E, E1, E2. Qed.

Lemma total_one l : cost_sum (fun _ => 1) l = Z.of_nat (length l).
Proof. induction l; simpl; lia. Qed.

Lemma fixed_rep_length q l : fixed_rep q l -> Z.of_nat (length l) = q_count q.
Proof. intros ([] & -> & _). rewrite length_fmap, ring_view_length. lia. Qed.

Lemma q_rep_count q b : q_rep q b -> q_count q = Z.of_nat (length (bq_msgs b)).
Proof.
  intros (_ & _ & H). destruct (q_mode q); [by rewrite (fixed_rep_length _ _ H)|].
  by destruct H as (ls & nds & _ & _ & _ & H & _).
Qed.

Lemma q_rep_mode_fixed q b : q_rep q b -> q_mode q = REL4U_MEM_FIXED -> fixed_rep q (bq_msgs b).
Proof. intros (_ & _ & H) E. by rewrite E in H. Qed.
Lemma q_rep_mode_dynamic q b :
  q_rep q b -> q_mode q = REL4U_MEM_DYNAMIC -> dynamic_rep q (bq_msgs b).
Proof. intros (_ & _ & H) E. by rewrite E in H. Qed.

Lemma q_rep_fixed q l d : q_mode q = REL4U_MEM_FIXED -> d = q_dropped_count q -> is_u64 d ->
  fixed_rep q l -> q_rep q (mk_bqueue l d).
Proof. intros E -> Hd H. split; [done|]. split; [done|]. by rewrite E. Qed.
Lemma q_rep_dynamic q l d : q_mode q = REL4U_MEM_DYNAMIC -> d = q_dropped_count q -> is_u64 d ->
  dynamic_rep q l -> q_rep q (mk_bqueue l d).
Proof. intros E -> Hd H. split; [done|]. split; [done|]. by rewrite E. Qed.

(** *** Fixed mode *)

Lemma fixed_pop q m l : fixed_rep q (m :: l) ->
  item_msg (q_items q !. q_head q) = m /\ item_sized (q_items q !. q_head q) /\
  fixed_rep (q <| q_head := (q_head q + 1) mod q_capacity q |> <| q_count := q_count q - 1 |>) l.
Proof.
  intros H. pose proof (fixed_rep_length _ _ H) as Hl. destruct H as ([] & H & Hs).
  simpl in Hl. rewrite ring_view_cons in H, Hs by lia. simpl in H. injection H as Hm Hl'.
  apply Forall_cons in Hs as [Hs Hss].
  assert (Hat : ring_at (q_items q) (q_capacity q) (q_head q) = q_items q !. q_head q).
  { unfold ring_at. by rewrite Z.mod_small by lia. }
  assert (Hv : ring_view (q_items q) (q_capacity q) ((q_head q + 1) mod q_capacity q) (q_count q - 1) =
    ring_view (q_items q) (q_capacity q) (q_head q + 1) (q_count q - 1)).
  { apply ring_view_mod; [lia|]. by rewrite Zmod_mod. }
  rewrite <- Hat. split; [done|]. split; [done|].
  pose proof (Z.mod_pos_bound (q_head q + 1) (q_capacity q)). split; [constructor; simpl; try lia|].
  - rewrite Zplus_mod_idemp_l, fx_tail0. f_equal. lia.
  - simpl. by rewrite Hv.
Qed.

Lemma fixed_push_back q l it : fixed_rep q l -> item_sized it -> q_count q < q_capacity q ->
  fixed_rep (q <| q_items := arr_set (q_items q) (q_tail q) it |>
               <| q_tail := (q_tail q + 1) mod q_capacity q |>
               <| q_count := q_count q + 1 |>) (l ++ [item_msg it]).
Proof.
  intros ([] & H & Hs) Hit Hc. split; [constructor; simpl; try lia|].
  - unfold arr_set. rewrite length_insert. lia.
  - rewrite fx_tail0, Zplus_mod_idemp_l. f_equal. lia.
  - simpl. rewrite fx_tail0. fold (ring_set (q_items q) (q_capacity q) (q_head q + q_count q) it).
    rewrite ring_view_snoc by lia. rewrite ring_view_set_out by lia.
    rewrite ring_at_set_eq by lia || done. rewrite fmap_app, H. split; [done|].
    apply Forall_app. by split; [|constructor].
Qed.

Lemma fixed_push_front q l it : fixed_rep q l -> item_sized it -> q_count q < q_capacity q ->
  let q1 := q <| q_head := if q_head q =? 0 then q_capacity q - 1 else q_head q - 1 |> in
  fixed_rep (q1 <| q_items := arr_set (q_items q1) (q_head q1) it |>
                <| q_count := q_count q1 + 1 |>) (item_msg it :: l).
Proof.
  intros ([] & H & Hs) Hit Hc. cbv zeta.
  assert (Hh : (if q_head q =? 0 then q_capacity q - 1 else q_head q - 1)
    = (q_head q - 1) mod q_capacity q).
  { destruct (Z.eqb_spec (q_head q) 0) as [E|E].
    - rewrite E. apply Z.mod_unique with (-1); lia.
    - by rewrite Z.mod_small by lia. }
  pose proof (Z.mod_pos_bound (q_head q - 1) (q_capacity q)).
  split; [constructor; simpl; try lia|].
  - unfold arr_set. rewrite length_insert. lia.
  - rewrite Hh, Zplus_mod_idemp_l, fx_tail0. f_equal. lia.
  - simpl. rewrite Hh. fold (ring_set (q_items q) (q_capacity q) (q_head q - 1) it).
    rewrite (ring_view_mod _ _ _ (q_head q - 1)) by (lia || apply Zmod_mod).
    rewrite ring_view_cons by lia. rewrite ring_at_set_eq by lia || done.
    replace (q_head q - 1 + 1) with (q_head q) by lia.
    replace (q_count q + 1 - 1) with (q_count q) by lia.
    replace (ring_set (q_items q) (q_capacity q) (q_head q - 1) it)
      with (ring_set (q_items q) (q_capacity q) (q_head q + (q_capacity q - 1)) it).
    + rewrite ring_view_set_out by lia. rewrite H. split; [done|by constructor].
    + unfold ring_set. f_equal. rewrite <- (Z_mod_plus_full (q_head q - 1) 1). f_equal. lia.
Qed.

Lemma u64_add a b : u64 (u64 a + b) = u64 (a + b).
Proof. word_lia. Qed.

Lemma fixed_rep_drop q l : fixed_rep q l -> fixed_rep (mpmc_drop q) l.
Proof. intros ([] & -> & Hs). split; [by constructor|done]. Qed.

Lemma mpmc_drop_rep q b : q_rep q b ->
  q_rep (mpmc_drop q) (mk_bqueue (bq_msgs b) (u64 (bq_dropped b + 1))).
Proof.
  intros (E & Hr & H). split; [by rewrite E|]. split; [apply u64_range|]. simpl.
  destruct (q_mode q); [by apply fixed_rep_drop|exact H].
Qed.

(** The outcome of making room in fixed mode. *)
Lemma fixed_room_spec q b : q_rep q b -> q_mode q = REL4U_MEM_FIXED ->
  let '(ok, q1) := mpmc_fixed_room q in
  q_same q q1 /\
  if cost_sum (q_cost q) (bq_msgs b) + 1 <=? q_limit q then ok = true /\ q1 = q
  else match q_full_policy q with
       | REL4U_QUEUE_FULL_DROP_NEW => ok = false /\
           q_rep q1 (mk_bqueue (bq_msgs b) (u64 (bq_dropped b + 1)))
       | REL4U_QUEUE_FULL_DROP_LAST => ok = true /\ q_count q1 < q_capacity q1 /\
           let l := bq_evict (q_cost q) (q_limit q) 1 (bq_msgs b) in
           q_rep q1 (mk_bqueue l (u64 (bq_dropped b + Z.of_nat (length (bq_msgs b) - length l))))
       end.
Proof.
  intros Hr Hm. pose proof (q_rep_mode_fixed _ _ Hr Hm) as Hf.
  pose proof (fixed_rep_length _ _ Hf) as Hl. destruct (proj1 Hf).
  unfold mpmc_fixed_room, q_cost, q_limit. rewrite Hm, !total_one, Hl.
  destruct (Z.geb_spec (q_count q) (q_capacity q)) as [Hfull|Hfree].
  2:{ rewrite (proj2 (Z.leb_le _ _)) by lia. done. }
  destruct (Z.leb_spec (q_count q + 1) (q_capacity q)); [lia|].
  destruct (q_full_policy q) eqn:Hpol.
  { split; [done|]. split; [done|]. by apply mpmc_drop_rep. }
  destruct (bq_msgs b) as [|m l] eqn:El; [simpl in Hl; lia|].
  destruct (fixed_pop _ _ _ Hf) as (_ & _ & Hf').
  assert (Ee : bq_evict (fun _ => 1) (q_capacity q) 1 (m :: l) = l).
  { simpl in Hl |- *. rewrite total_one. destruct (Z.leb_spec (1 + Z.of_nat (length l) + 1)
      (q_capacity q)); [lia|]. apply bq_evict_fits. rewrite total_one. lia. }
  split; [by constructor|]. split; [done|]. split; [simpl; lia|]. cbv zeta. rewrite Ee.
  replace (length (m :: l) - length l)%nat with 1%nat by (simpl; lia).
  destruct Hr as (Hd & _). apply q_rep_fixed; [done|by rewrite Hd|apply u64_range|].
  by apply fixed_rep_drop.
Qed.

(** *** Dynamic mode *)

Definition dyn_cost (m : msg) : Z := sizeof_node + m_len m.

Lemma dyn_cost_pos m : 0 < dyn_cost m.
Proof. unfold dyn_cost, m_len, sizeof_node. lia. Qed.
Lemma total_dyn_nonneg l : 0 <= cost_sum dyn_cost l.
Proof. induction l as [|m l]; simpl; [|pose proof (dyn_cost_pos m)]; lia. Qed.

Lemma node_msg_body nd : node_msg (nd_body nd) = node_msg nd.
Proof. done. Qed.

Lemma node_ok_cost nd : node_ok nd -> dyn_cost (node_msg nd) = nd_allocated_size nd.
Proof.
  intros (H1 & H2 & _). unfold dyn_cost, m_len, node_msg. simpl. rewrite length_take, H2. lia.
Qed.

(** The head of a non-empty dynamic queue comes off. *)
Lemma dynamic_unlink q m l : dynamic_rep q (m :: l) ->
  exists nd q', mpmc_unlink_head q = Some (nd, q') /\ node_msg nd = m /\ node_ok nd /\
    dynamic_rep q' l /\ q_same q q' /\ q_dropped_count q' = q_dropped_count q.
Proof.
  intros (ls & nds & D & Hok & Hl & Hc & Hb & Hmax).
  destruct nds as [|nd nds]; [done|]. simpl in Hl. injection Hl as Hm Hl.
  destruct ls as [|x ls]; [apply dll_length in D; done|].
  pose proof (dll_head _ _ _ _ _ D) as Hh. simpl in Hh. rewrite Hh in D.
  destruct (dll_unlink _ _ _ _ _ _ D) as [D' Hnd].
  apply Forall_cons in Hok as [Hok1 Hok].
  unfold mpmc_unlink_head. rewrite Hh. eexists _, _. split; [done|].
  assert (Hok' : node_ok (q_heap q !!! x)) by (by rewrite Hnd in Hok1).
  assert (Hcost : dyn_cost m = nd_allocated_size (q_heap q !!! x)).
  { rewrite Hm, Hnd. by rewrite node_ok_cost by (by rewrite <- Hnd). }
  split; [rewrite Hm, Hnd; done|]. split; [done|].
  change (cost_sum (fun m => sizeof_node + m_len m)) with (cost_sum dyn_cost) in Hb. simpl in Hb.
  pose proof (total_dyn_nonneg l). simpl in Hc.
  assert (Hcb : u64 (q_current_bytes q - nd_allocated_size (q_heap q !!! x)) = cost_sum dyn_cost l).
  { rewrite u64_small; [lia|]. unfold is_u64. pose proof (dyn_cost_pos m). lia. }
  split.
  - exists ls, nds. simpl. destruct (nd_next (q_heap q !!! x)); simpl;
      (split; [exact D'|]); (split; [done|]); (split; [done|]); rewrite Hcb;
      pose proof (dyn_cost_pos m); (split; [lia|]); (split; [done|]); lia.
  - by destruct (nd_next (q_heap q !!! x)).
Qed.

Lemma dynamic_head_none q : dynamic_rep q [] -> mpmc_unlink_head q = None.
Proof.
  intros (ls & nds & D & _ & Hl & _). destruct nds; [|done].
  pose proof (dll_length _ _ _ _ _ D). destruct ls; [|done].
  unfold mpmc_unlink_head. by rewrite (dll_head _ _ _ _ _ D).
Qed.

(** The eviction loop: with a turn per queued message it never runs out, and it
    leaves the abstract eviction. *)
Lemma make_room_spec fuel q b needed :
  q_rep q b -> q_mode q = REL4U_MEM_DYNAMIC -> fuel = length (bq_msgs b) ->
  0 < needed <= q_max_bytes q ->
  let '(ok, q1) := mpmc_make_room fuel q needed in
  q_same q q1 /\
  if cost_sum dyn_cost (bq_msgs b) + needed <=? q_max_bytes q then ok = true /\ q1 = q
  else match q_full_policy q with
       | REL4U_QUEUE_FULL_DROP_NEW => ok = false /\
           q_rep q1 (mk_bqueue (bq_msgs b) (u64 (bq_dropped b + 1)))
       | REL4U_QUEUE_FULL_DROP_LAST => ok = true /\
           let l := bq_evict dyn_cost (q_max_bytes q) needed (bq_msgs b) in
           q_rep q1 (mk_bqueue l (u64 (bq_dropped b + Z.of_nat (length (bq_msgs b) - length l))))
       end.
Proof.
  intros Hr Hm Hf Hn. revert q b Hr Hm Hf Hn. induction fuel as [|fuel IH]; intros q b Hr Hm Hf Hn.
  all: pose proof (q_rep_mode_dynamic _ _ Hr Hm) as Hd.
  all: pose proof Hd as (ls & nds & _ & _ & _ & _ & Hcb & Hmx).
  all: change (q_current_bytes q = cost_sum dyn_cost (bq_msgs b)) in Hcb.
  all: pose proof (total_dyn_nonneg (bq_msgs b)).
  all: assert (Hadd : u64 (q_current_bytes q + needed) = cost_sum dyn_cost (bq_msgs b) + needed)
         by (rewrite u64_small; [lia|unfold is_u64; lia]).
  all: cbn [mpmc_make_room]; rewrite Hadd.
  - destruct (bq_msgs b); [|done]. simpl cost_sum. destruct (Z.gtb_spec (0 + needed) (q_max_bytes q)); [lia|].
    by rewrite (proj2 (Z.leb_le _ _)) by lia.
  - destruct (Z.gtb_spec (cost_sum dyn_cost (bq_msgs b) + needed) (q_max_bytes q)) as [Hfull|Hfit].
    2:{ by rewrite (proj2 (Z.leb_le _ _)) by lia. }
    destruct (Z.leb_spec (cost_sum dyn_cost (bq_msgs b) + needed) (q_max_bytes q)); [lia|].
    destruct (q_full_policy q) eqn:Hpol.
    { split; [done|]. split; [done|]. by apply mpmc_drop_rep. }
    destruct (bq_msgs b) as [|m l] eqn:El; [done|]. simpl in Hf. injection Hf as Hf.
    destruct (dynamic_unlink _ _ _ Hd) as (nd & q' & -> & _ & _ & Hd' & Hs & Hdr).
    pose proof Hs as [Sm Sp Sx _ _].
    assert (Hr' : q_rep (mpmc_drop q') (mk_bqueue l (u64 (bq_dropped b + 1)))).
    { destruct Hr as (E & _). apply q_rep_dynamic; [simpl; congruence|simpl; congruence|apply u64_range|].
      exact Hd'. }
    specialize (IH _ _ Hr' ltac:(simpl; congruence) ltac:(done) ltac:(simpl; lia)).
    destruct (mpmc_make_room fuel (mpmc_drop q') needed) as [ok q1].
    destruct IH as [IHs IH]. simpl in IH. rewrite Sx, Sp, Hpol in IH.
    split. { etransitivity; [exact Hs|]. etransitivity; [|exact IHs]. by constructor. }
    assert (Hne : bq_evict dyn_cost (q_max_bytes q) needed (m :: l) =
                  bq_evict dyn_cost (q_max_bytes q) needed l).
    { simpl in Hfull |- *. destruct (Z.leb_spec (dyn_cost m + cost_sum dyn_cost l + needed)
        (q_max_bytes q)); [lia|done]. }
    rewrite Hne.
    pose proof (bq_evict_length dyn_cost (q_max_bytes q) needed l).
    destruct (Z.leb_spec (cost_sum dyn_cost l + needed) (q_max_bytes q)) as [Hfit|Hnf].
    + destruct IH as [-> ->]. split; [done|]. rewrite bq_evict_fits by done.
      replace (length (m :: l) - length l)%nat with 1%nat by (simpl; lia). exact Hr'.
    + destruct IH as [-> IH]. split; [done|]. rewrite u64_add in IH.
      replace (bq_dropped b + Z.of_nat (length (m :: l) -
        length (bq_evict dyn_cost (q_max_bytes q) needed l)))
        with (bq_dropped b + 1 + Z.of_nat (length l -
          length (bq_evict dyn_cost (q_max_bytes q) needed l))) by (simpl; lia).
      exact IH.
Qed.

Lemma new_node_msg it needed p n : item_wf it -> node_msg (mpmc_new_node it needed p n) = item_msg it.
Proof.
  intros [H _]. unfold node_msg, item_msg, mpmc_new_node. simpl. f_equal.
  destruct (Z.gtb_spec (it_len it) 0).
  - rewrite take_take. f_equal. lia.
  - by replace (Z.to_nat (it_len it)) with 0%nat by lia.
Qed.

Lemma new_node_ok it p n : item_sized it ->
  node_ok (mpmc_new_node it (sizeof_node + it_len it) p n).
Proof.
  intros [[H H16] ?]. unfold node_ok, mpmc_new_node. simpl. split; [|done].
  destruct (Z.gtb_spec (it_len it) 0); [rewrite length_take|simpl]; lia.
Qed.

Section refinement.
Context {allocator : Malloc}.

(** Linking the new node at either end. *)
Lemma dynamic_push_back q l it node : dynamic_rep q l -> item_sized it ->
  cost_sum dyn_cost l + (sizeof_node + it_len it) <= q_max_bytes q ->
  malloc (q_heap q) (sizeof_node + it_len it) = Some node ->
  let needed := sizeof_node + it_len it in
  let q1 := q <| q_heap := <[node := mpmc_new_node it needed (q_node_tail q) None]> (q_heap q) |> in
  let q2 := match q_node_tail q1 with
            | Some t => q1 <| q_heap := alter (fun nd => nd <| nd_next := Some node |>) t (q_heap q1) |>
            | None => q1 <| q_node_head := Some node |> end in
  let q3 := q2 <| q_node_tail := Some node |> in
  let q4 := q3 <| q_count := q_count q3 + 1 |> in
  let q' := q4 <| q_current_bytes := u64 (q_current_bytes q4 + needed) |> in
  dynamic_rep q' (l ++ [item_msg it]) /\ q_same q q' /\ q_dropped_count q' = q_dropped_count q.
Proof.
  intros (ls & nds & D & Hok & Hl & Hc & Hb & Hmax) Hwf Hfit Hal. cbv zeta.
  change (q_current_bytes q = cost_sum dyn_cost l) in Hb.
  pose proof (dll_snoc _ _ _ _ _ node (mpmc_new_node it (sizeof_node + it_len it) (q_node_tail q) None)
    D (malloc_fresh _ _ _ Hal) eq_refl eq_refl) as D'.
  pose proof (total_dyn_nonneg l). pose proof Hwf as [Hw _]. pose proof Hw as [Hlen H16].
  assert (Hu : u64 (q_current_bytes q + (sizeof_node + it_len it))
    = cost_sum dyn_cost (l ++ [item_msg it])).
  { rewrite total_app. simpl. unfold dyn_cost at 2. rewrite item_msg_len by done.
    rewrite u64_small by (unfold is_u64, sizeof_node in *; lia). lia. }
  assert (Htot : cost_sum dyn_cost (l ++ [item_msg it]) <= q_max_bytes q).
  { rewrite total_app. simpl. unfold dyn_cost at 2. rewrite item_msg_len by done. lia. }
  split.
  - exists (ls ++ [node]), (nds ++ [nd_body (mpmc_new_node it (sizeof_node + it_len it) (q_node_tail q) None)]).
    simpl. destruct (q_node_tail q) eqn:Et; simpl; (split; [exact D'|]);
      (split; [apply Forall_app_2; [done|]; constructor; [|done]; exact (new_node_ok it None None Hwf)|]);
      (split; [rewrite fmap_app, Hl; simpl; by rewrite node_msg_body, new_node_msg|]);
      rewrite Hu; (split; [rewrite length_app; simpl; lia|]); (split; [done|]); lia.
  - simpl. by destruct (q_node_tail q).
Qed.

Lemma dynamic_push_front q l it node : dynamic_rep q l -> item_sized it ->
  cost_sum dyn_cost l + (sizeof_node + it_len it) <= q_max_bytes q ->
  malloc (q_heap q) (sizeof_node + it_len it) = Some node ->
  let needed := sizeof_node + it_len it in
  let q1 := q <| q_heap := <[node := mpmc_new_node it needed None (q_node_head q)]> (q_heap q) |> in
  let q2 := match q_node_head q1 with
            | Some t => q1 <| q_heap := alter (fun nd => nd <| nd_prev := Some node |>) t (q_heap q1) |>
            | None => q1 <| q_node_tail := Some node |> end in
  let q3 := q2 <| q_node_head := Some node |> in
  let q4 := q3 <| q_count := q_count q3 + 1 |> in
  let q' := q4 <| q_current_bytes := u64 (q_current_bytes q4 + needed) |> in
  dynamic_rep q' (item_msg it :: l) /\ q_same q q' /\ q_dropped_count q' = q_dropped_count q.
Proof.
  intros (ls & nds & D & Hok & Hl & Hc & Hb & Hmax) Hwf Hfit Hal. cbv zeta.
  change (q_current_bytes q = cost_sum dyn_cost l) in Hb.
  pose proof (dll_cons _ _ _ _ _ node (mpmc_new_node it (sizeof_node + it_len it) None (q_node_head q))
    D (malloc_fresh _ _ _ Hal) eq_refl eq_refl) as D'.
  pose proof (total_dyn_nonneg l). pose proof Hwf as [Hw _]. pose proof Hw as [Hlen H16].
  assert (Hu : u64 (q_current_bytes q + (sizeof_node + it_len it))
    = cost_sum dyn_cost (item_msg it :: l)).
  { simpl. unfold dyn_cost at 1. rewrite item_msg_len by done.
    rewrite u64_small by (unfold is_u64, sizeof_node in *; lia). lia. }
  assert (Htot : cost_sum dyn_cost (item_msg it :: l) <= q_max_bytes q).
  { simpl. unfold dyn_cost at 1. rewrite item_msg_len by done. lia. }
  split.
  - exists (node :: ls), (nd_body (mpmc_new_node it (sizeof_node + it_len it) None (q_node_head q)) :: nds).
    simpl. destruct (q_node_head q) eqn:Et; simpl; (split; [exact D'|]);
      (split; [constructor; [exact (new_node_ok it None None Hwf)|done]|]);
      (split; [rewrite node_msg_body, new_node_msg by done; f_equal; exact Hl|]);
      simpl in Hu, Htot; rewrite Hu; (split; [lia|]); (split; [done|]); lia.
  - simpl. by destruct (q_node_head q).
Qed.

(** A push at either end. *)
Definition mpmc_push (front : bool) : rel4u_mpmc_queue -> rel4u_mpmc_item -> bool * rel4u_mpmc_queue :=
  if front then mpmc_push_front_locked else mpmc_push_back_locked.

(** The writes that follow a successful search for room, in fixed mode. *)
Definition fixed_put (front : bool) (q : rel4u_mpmc_queue) (it : rel4u_mpmc_item)
  : rel4u_mpmc_queue :=
  if front then
    let q := q <| q_head := if q_head q =? 0 then q_capacity q - 1 else q_head q - 1 |> in
    let q := q <| q_items := arr_set (q_items q) (q_head q) it |> in
    q <| q_count := q_count q + 1 |>
  else
    let q := q <| q_items := arr_set (q_items q) (q_tail q) it |> in
    let q := q <| q_tail := (q_tail q + 1) mod q_capacity q |> in
    q <| q_count := q_count q + 1 |>.

Lemma fixed_put_spec front q b it : q_rep q b -> item_sized it -> q_mode q = REL4U_MEM_FIXED ->
  q_count q < q_capacity q ->
  q_rep (fixed_put front q it)
    (mk_bqueue (if front then item_msg it :: bq_msgs b else bq_msgs b ++ [item_msg it]) (bq_dropped b)) /\
  q_same q (fixed_put front q it).
Proof.
  intros Hr Hit Hm Hc. pose proof (q_rep_mode_fixed _ _ Hr Hm) as Hf. destruct Hr as (Hd & Hu & _).
  destruct front; (split; [|by constructor]); apply q_rep_fixed; try done.
  1,3: by rewrite Hd.
  - exact (fixed_push_front _ _ it Hf Hit Hc).
  - exact (fixed_push_back _ _ it Hf Hit Hc).
Qed.

(** The same in dynamic mode: allocate, fill and link a node. *)
Definition dynamic_put (front : bool) (q : rel4u_mpmc_queue) (it : rel4u_mpmc_item)
  : bool * rel4u_mpmc_queue :=
  let needed := sizeof_node + it_len it in
  match malloc (q_heap q) needed with
  | None => (false, mpmc_drop q)
  | Some node =>
      let q := if front then
          let q := q <| q_heap := <[node := mpmc_new_node it needed None (q_node_head q)]> (q_heap q) |> in
          let q := match q_node_head q with
            | Some t => q <| q_heap := alter (fun nd => nd <| nd_prev := Some node |>) t (q_heap q) |>
            | None => q <| q_node_tail := Some node |> end in
          q <| q_node_head := Some node |>
        else
          let q := q <| q_heap := <[node := mpmc_new_node it needed (q_node_tail q) None]> (q_heap q) |> in
          let q := match q_node_tail q with
            | Some t => q <| q_heap := alter (fun nd => nd <| nd_next := Some node |>) t (q_heap q) |>
            | None => q <| q_node_head := Some node |> end in
          q <| q_node_tail := Some node |> in
      let q := q <| q_count := q_count q + 1 |> in
      (true, q <| q_current_bytes := u64 (q_current_bytes q + needed) |>)
  end.

Lemma dynamic_put_spec front q b it : q_rep q b -> q_mode q = REL4U_MEM_DYNAMIC -> item_sized it ->
  cost_sum dyn_cost (bq_msgs b) + (sizeof_node + it_len it) <= q_max_bytes q ->
  let '(ok, q') := dynamic_put front q it in
  q_same q q' /\
  (ok = match malloc (q_heap q) (sizeof_node + it_len it) with Some _ => true | None => false end) /\
  q_rep q' (if ok then mk_bqueue (if front then item_msg it :: bq_msgs b
                                  else bq_msgs b ++ [item_msg it]) (bq_dropped b)
            else mk_bqueue (bq_msgs b) (u64 (bq_dropped b + 1))).
Proof.
  intros Hr Hm Hwf Hfit. unfold dynamic_put. cbv zeta.
  destruct (malloc (q_heap q) (sizeof_node + it_len it)) as [node|] eqn:Hal.
  2:{ split; [by constructor|]. split; [done|]. by apply mpmc_drop_rep. }
  pose proof (q_rep_mode_dynamic _ _ Hr Hm) as Hd. destruct Hr as (Hdr & Hu & _).
  destruct front.
  - pose proof (dynamic_push_front _ _ _ _ Hd Hwf Hfit Hal) as (H1 & H2 & H3). split; [exact H2|].
    split; [done|]. apply q_rep_dynamic; [rewrite (same_mode _ _ H2); done|
      rewrite Hdr; symmetry; exact H3|by rewrite Hdr|exact H1].
  - pose proof (dynamic_push_back _ _ _ _ Hd Hwf Hfit Hal) as (H1 & H2 & H3). split; [exact H2|].
    split; [done|]. apply q_rep_dynamic; [rewrite (same_mode _ _ H2); done|
      rewrite Hdr; symmetry; exact H3|by rewrite Hdr|exact H1].
Qed.

(** Both pushes are: check the length, make room, put. *)
Lemma mpmc_push_unfold front q it :
  mpmc_push front q it =
  if it_len it >? REL4U_MAX_MSG_SIZE then (false, q) else
  match q_mode q with
  | REL4U_MEM_FIXED =>
      let '(ok, q) := mpmc_fixed_room q in if ok then (true, fixed_put front q it) else (false, q)
  | REL4U_MEM_DYNAMIC =>
      if sizeof_node + it_len it >? q_max_bytes q then (false, mpmc_drop q) else
      let '(ok, q) := mpmc_make_room (size (q_heap q)) q (sizeof_node + it_len it) in
      if ok then dynamic_put front q it else (false, q)
  end.
Proof.
  destruct front; unfold mpmc_push, mpmc_push_back_locked, mpmc_push_front_locked;
    destruct (it_len it >? REL4U_MAX_MSG_SIZE); try done; destruct (q_mode q).
  1,3: destruct (mpmc_fixed_room q) as [[] ?]; done.
  all: destruct (_ >? _); try done; destruct (mpmc_make_room _ _ _) as [[] ?]; done.
Qed.

Lemma q_rep_size q b : q_rep q b -> q_mode q = REL4U_MEM_DYNAMIC ->
  size (q_heap q) = length (bq_msgs b).
Proof.
  intros Hr Hm. destruct (q_rep_mode_dynamic _ _ Hr Hm) as (ls & nds & D & _ & -> & _).
  by rewrite (dll_size _ _ _ _ _ D), length_fmap, (dll_length _ _ _ _ _ D).
Qed.

Lemma push_fixed front q b it : q_rep q b -> item_wf it -> q_mode q = REL4U_MEM_FIXED ->
  let '(ok, q') := mpmc_push front q it in
  exists b', bq_push (q_cost q) (q_limit q) (q_full_policy q) front true (item_msg it) b = (ok, b') /\
    q_rep q' b' /\ q_same q q'.
Proof.
  intros Hr Hwf Hm. pose proof (q_rep_mode_fixed _ _ Hr Hm) as Hf.
  pose proof (fixed_room_spec _ _ Hr Hm) as Hroom. pose proof (fixed_rep_length _ _ Hf) as Hl.
  pose proof (proj1 Hf) as [Hcap _ _ _ _]. rewrite mpmc_push_unfold, Hm.
  unfold bq_push. rewrite item_msg_len by done.
  destruct (Z.gtb_spec (it_len it) REL4U_MAX_MSG_SIZE); [by eexists|].
  assert (Hit : item_sized it) by (by split).
  assert (Hc1 : q_cost q (item_msg it) = 1) by (unfold q_cost; by rewrite Hm). rewrite Hc1.
  assert (Hlim : q_limit q = q_capacity q) by (unfold q_limit; by rewrite Hm).
  assert (Htot : cost_sum (q_cost q) (bq_msgs b) = q_count q).
  { unfold q_cost. rewrite Hm, total_one. done. }
  rewrite Hlim, Htot in *. destruct (Z.gtb_spec 1 (q_capacity q)); [lia|].
  destruct (mpmc_fixed_room q) as [ok q1]. destruct Hroom as [Hs Hroom].
  destruct (Z.leb_spec (q_count q + 1) (q_capacity q)).
  - destruct Hroom as [-> ->]. destruct (fixed_put_spec front _ _ it Hr Hit Hm ltac:(lia)). by eexists.
  - destruct (q_full_policy q).
    + destruct Hroom as [-> Hr1]. by eexists.
    + destruct Hroom as (-> & Hlt & Hr1).
      destruct (fixed_put_spec front _ _ it Hr1 Hit ltac:(rewrite (same_mode _ _ Hs); done) Hlt) as [Hp1 Hp2].
      eexists. split; [done|]. split; [exact Hp1|by etransitivity].
Qed.

Lemma push_dynamic front q b it : q_rep q b -> item_wf it -> q_mode q = REL4U_MEM_DYNAMIC ->
  let '(ok, q') := mpmc_push front q it in
  exists alloc b', ((forall h n, is_Some (malloc h n)) -> alloc = true) /\
    bq_push (q_cost q) (q_limit q) (q_full_policy q) front alloc (item_msg it) b = (ok, b') /\
    q_rep q' b' /\ q_same q q'.
Proof.
  intros Hr Hwf Hm. pose proof (q_rep_size _ _ Hr Hm) as Hsz. rewrite mpmc_push_unfold, Hm.
  unfold bq_push. rewrite item_msg_len by done.
  destruct (Z.gtb_spec (it_len it) REL4U_MAX_MSG_SIZE); [by exists true, b|].
  assert (Hit : item_sized it) by (by split).
  assert (Hc : q_cost q = dyn_cost) by (unfold q_cost, dyn_cost; by rewrite Hm). rewrite Hc.
  assert (Hlim : q_limit q = q_max_bytes q) by (unfold q_limit; by rewrite Hm). rewrite Hlim.
  assert (Hd : dyn_cost (item_msg it) = sizeof_node + it_len it)
    by (unfold dyn_cost; by rewrite item_msg_len). rewrite Hd.
  destruct (Z.gtb_spec (sizeof_node + it_len it) (q_max_bytes q)) as [Hbig|Hok].
  { exists true. eexists. split; [done|]. split; [done|]. split; [by apply mpmc_drop_rep|by constructor]. }
  assert (Hpos : 0 < sizeof_node + it_len it) by (destruct Hwf; unfold sizeof_node; lia).
  pose proof (make_room_spec (size (q_heap q)) q b _ Hr Hm Hsz (conj Hpos Hok)) as Hroom.
  destruct (mpmc_make_room _ _ _) as [ok q1]. destruct Hroom as [Hs Hroom].
  assert (Hfin : forall l d, q_rep q1 (mk_bqueue l d) ->
    cost_sum dyn_cost l + (sizeof_node + it_len it) <= q_max_bytes q ->
    let '(ok', q') := dynamic_put front q1 it in
    exists alloc b', ((forall h n, is_Some (malloc h n)) -> alloc = true) /\
      (if alloc then (true, mk_bqueue (if front then item_msg it :: l else l ++ [item_msg it]) d)
       else (false, mk_bqueue l (u64 (d + 1)))) = (ok', b') /\ q_rep q' b' /\ q_same q q').
  { intros l d Hr1 Hfit.
    pose proof (dynamic_put_spec front q1 (mk_bqueue l d) it Hr1
      ltac:(rewrite (same_mode _ _ Hs); done) Hit ltac:(rewrite (same_max _ _ Hs); exact Hfit)) as Hp.
    destruct (dynamic_put front q1 it) as [ok' q']. destruct Hp as (Hs' & Hm' & Hp).
    eexists ok', _. split.
    { intros Hall. rewrite Hm'. by destruct (Hall (q_heap q1) (sizeof_node + it_len it)) as [? ->]. }
    split; [|split; [exact Hp|by etransitivity]]. by destruct ok'. }
  destruct (Z.leb_spec (cost_sum dyn_cost (bq_msgs b) + (sizeof_node + it_len it)) (q_max_bytes q)) as [Hf|Hf].
  - destruct Hroom as [-> ->]. apply (Hfin (bq_msgs b) (bq_dropped b)); [by destruct b|done].
  - destruct (q_full_policy q).
    + destruct Hroom as [-> Hr1]. exists true. by eexists.
    + destruct Hroom as (-> & Hr1). apply Hfin; [exact Hr1|]. by apply bq_evict_spec.
Qed.

End refinement.
