(* ===== verification/Queue.v ===== *)
(** * MPMC queue: properties

    The theorems a client of [rel4u_mpmc.c] relies on, on top of the refinement
    of [MpmcSpec]: what each operation does to the list of queued messages in
    both memory modes, first-in first-out delivery over any history of
    operations, the bounds, the absence of leaks, and the blocking pop. *)
From S2P Require Import Prelude Ring Types Mpmc MpmcSpec.
From stdpp Require Import base numbers list gmap.
Open Scope Z_scope.
Open Scope rel4u_scope.

(** An allocator that never fails: one past the largest location in use. *)
Definition next_loc (h : gmap loc rel4u_mpmc_node) : loc :=
  Pos.succ (foldr (fun kv acc => Pos.max (fst kv) acc) 1%positive (map_to_list h)).

Lemma next_loc_fresh h : h !! next_loc h = None.
Proof.
  assert (H : forall l k (nd : rel4u_mpmc_node), (k, nd) ∈ l ->
    (k <= foldr (fun kv acc => Pos.max (fst kv) acc) 1 l)%positive).
  { induction l as [|[k' nd'] l IH]; intros k nd Hin; [by apply elem_of_nil in Hin|].
    apply elem_of_cons in Hin as [[= -> ->]|Hin]; simpl; [apply Pos.le_max_l|].
    etransitivity; [by eapply IH|apply Pos.le_max_r]. }
  destruct (h !! next_loc h) as [nd|] eqn:E; [exfalso|done].
  apply elem_of_map_to_list, H in E. unfold next_loc in E. by apply Pos.le_succ_l, Pos.lt_irrefl in E.
Qed.

#[export] Instance malloc_total : Malloc := {
  malloc h n := Some (next_loc h);
  malloc_fresh := ltac:(intros h n l [= <-]; apply next_loc_fresh)
}.

Section properties.
Context {allocator : Malloc}.

(** The queue's state at one point of a history, with the bounded queue it stands for. *)
Lemma init_fixed_rep policy cap mb mem :
  2 <= cap < 2 ^ 64 -> Z.of_nat (length mem) = cap ->
  let '(r, q) := rel4u_mpmc_init REL4U_MEM_FIXED policy cap mb (Some mem) in
  r = 0 /\ q_rep q (mk_bqueue [] 0) /\ q_mode q = REL4U_MEM_FIXED /\ q_full_policy q = policy.
Proof.
  intros Hc Hl. unfold rel4u_mpmc_init. destruct (Z.ltb_spec cap 2); [lia|].
  split; [done|]. split; [|done].
  apply q_rep_fixed; [done|done|done|]. split; [|done].
  constructor; simpl; try lia. by rewrite Z.mod_0_l by lia.
Qed.

Lemma init_dynamic_rep policy cap mb mem :
  0 <= mb < 2 ^ 63 ->
  let '(r, q) := rel4u_mpmc_init REL4U_MEM_DYNAMIC policy cap mb mem in
  r = 0 /\ q_rep q (mk_bqueue [] 0) /\ q_mode q = REL4U_MEM_DYNAMIC /\ q_full_policy q = policy /\
  q_max_bytes q = if mb =? 0 then 1048576 else mb.
Proof.
  intros Hb. unfold rel4u_mpmc_init. split; [done|]. split; [|done].
  apply q_rep_dynamic; [done|done|done|]. exists [], []. split; [apply dll_nil|].
  split; [done|]. split; [done|]. simpl. destruct (Z.eqb_spec mb 0); lia.
Qed.

Lemma push_spec front q b it : q_rep q b -> item_wf it ->
  let '(ok, q') := mpmc_push front q it in
  exists alloc b',
    (q_mode q = REL4U_MEM_FIXED \/ (forall h n, is_Some (malloc h n)) -> alloc = true) /\
    bq_push (q_cost q) (q_limit q) (q_full_policy q) front alloc (item_msg it) b = (ok, b') /\
    q_rep q' b' /\ q_same q q'.
Proof.
  intros Hr Hwf. destruct (q_mode q) eqn:Hm.
  - pose proof (push_fixed front q b it Hr Hwf Hm) as H.
    destruct (mpmc_push front q it). destruct H as (b' & H). exists true, b'. by split.
  - pose proof (push_dynamic front q b it Hr Hwf Hm) as H.
    destruct (mpmc_push front q it). destruct H as (alloc & b' & Ha & H). exists alloc, b'.
    split; [|done]. intros [?|?]; [done|by apply Ha].
Qed.

(** C10. A push at either end, in either memory mode, does exactly what the bounded
    queue does: it refuses an oversized message, appends or prepends when there
    is room, and when there is none drops the new message or evicts the fewest
    oldest ones, as the policy says; the configuration stays as it is.  The only
    freedom is a failing allocation in dynamic mode. *)
Theorem mpmc_push_refines front q b it : q_rep q b -> item_wf it ->
  let '(ok, q') := mpmc_push front q it in
  exists alloc b',
    (q_mode q = REL4U_MEM_FIXED \/ (forall h n, is_Some (malloc h n)) -> alloc = true) /\
    bq_push (q_cost q) (q_limit q) (q_full_policy q) front alloc (item_msg it) b = (ok, b') /\
    q_rep q' b' /\ q_same q q'.
Proof. apply push_spec. Qed.

Lemma pop_spec q b out : q_rep q b ->
  let '(ok, q', out') := mpmc_pop_head_locked q out in
  match bq_pop b with
  | (None, _) => ok = false /\ q' = q /\ out' = out
  | (Some m, b') => ok = true /\ item_msg out' = m /\ q_rep q' b' /\ q_same q q' /\ item_sized out'
  end.
Proof.
  intros Hr. pose proof (q_rep_count _ _ Hr) as Hc. unfold mpmc_pop_head_locked, bq_pop.
  destruct (bq_msgs b) as [|m l] eqn:El; simpl in Hc.
  { by rewrite (proj2 (Z.eqb_eq (q_count q) 0)) by lia. }
  rewrite (proj2 (Z.eqb_neq (q_count q) 0)) by lia. destruct (q_mode q) eqn:Hm.
  - pose proof (q_rep_mode_fixed _ _ Hr Hm) as Hf. rewrite El in Hf.
    destruct (fixed_pop _ _ _ Hf) as (H1 & H3 & H2). destruct Hr as (Hd & Hu & _).
    split; [done|]. split; [done|]. split; [|split; [by constructor|done]].
    apply q_rep_fixed; [done|done|by rewrite Hd|]. exact H2.
  - pose proof (q_rep_mode_dynamic _ _ Hr Hm) as Hf. rewrite El in Hf.
    destruct (dynamic_unlink _ _ _ Hf) as (nd & q' & -> & Hnd & Hok & Hd' & Hs & Hdr).
    destruct Hr as (Hd & Hu & _). split; [done|]. split; [|split; [|split; [done|]]].
    + rewrite <- Hnd. destruct Hok as (Hlen & _). unfold item_msg, node_msg. simpl. f_equal.
      destruct (Z.gtb_spec (nd_len nd) 0); [by rewrite memcpy_take by lia|].
      by replace (Z.to_nat (nd_len nd)) with 0%nat by lia.
    + apply q_rep_dynamic; [rewrite (same_mode _ _ Hs); done|congruence|by rewrite Hd|done].
    + destruct Hok as (Hlen & _ & Hmax). unfold REL4U_MAX_MSG_SIZE in *. split; [|done].
      split; cbn [it_len it_data]; [|lia]. split; [lia|]. unfold memcpy.
      destruct (Z.gtb_spec (nd_len nd) 0); [rewrite length_app, length_take|]; lia.
Qed.

(** A pop takes the oldest message of the queue and leaves the others, in either
    memory mode, whatever the caller's item held before; on an empty queue it
    returns false and changes nothing. *)
Theorem mpmc_pop_refines q b out : q_rep q b ->
  let '(ok, q', out') := rel4u_mpmc_try_pop q out in
  match bq_pop b with
  | (None, _) => ok = false /\ q' = q /\ out' = out
  | (Some m, b') => ok = true /\ item_msg out' = m /\ q_rep q' b' /\ q_same q q' /\ item_sized out'
  end.
Proof. apply pop_spec. Qed.

(** ** Histories *)

(** The operations of the queue's clients, in the order in which they get the mutex. *)
Inductive qop := PushBack (it : rel4u_mpmc_item) | PushFront (it : rel4u_mpmc_item) | Pop | WakeAll.

(** The message an operation handed over: accepted into or popped from the queue. *)
Record history := mk_history { hi_accepted : list msg; hi_popped : list msg }.

Definition run_op (s : rel4u_mpmc_queue * history) (o : qop) : rel4u_mpmc_queue * history :=
  let '(q, h) := s in
  match o with
  | PushBack it =>
      let '(ok, q, _) := rel4u_mpmc_push_notify q it in
      (q, if ok then mk_history (hi_accepted h ++ [item_msg it]) (hi_popped h) else h)
  | PushFront it =>
      let '(ok, q, _) := rel4u_mpmc_push_front q it in
      (q, if ok then mk_history (item_msg it :: hi_accepted h) (hi_popped h) else h)
  | Pop =>
      let '(ok, q, out) := rel4u_mpmc_try_pop q item_zero in
      (q, if ok then mk_history (hi_accepted h) (hi_popped h ++ [item_msg out]) else h)
  | WakeAll => (fst (rel4u_mpmc_wake_all q), h)
  end.

Definition op_ok (o : qop) : Prop :=
  match o with PushBack it | PushFront it => item_wf it | Pop | WakeAll => True end.

Lemma wake_all_rep q b : q_rep q b -> q_rep (fst (rel4u_mpmc_wake_all q)) b.
Proof.
  intros (Hd & Hu & H). split; [done|]. split; [done|]. simpl in *.
  destruct (q_mode q); [|exact H]. destruct H as ([] & -> & ?). split; [by constructor|done].
Qed.

(** What an accepted push leaves: a suffix of the old messages and the new one. *)
Lemma bq_push_true cost limit policy front alloc m b b' :
  bq_push cost limit policy front alloc m b = (true, b') ->
  exists l, bq_msgs b' = (if front then m :: l else l ++ [m]) /\
    suffix l (bq_msgs b) /\ (policy = REL4U_QUEUE_FULL_DROP_NEW -> l = bq_msgs b).
Proof.
  unfold bq_push. destruct (_ >? _); [done|]. destruct (Z.gtb_spec (cost m) limit); [done|].
  destruct (_ <=? _).
  - destruct alloc; [|done]. intros [= <-]. exists (bq_msgs b). done.
  - destruct policy; [done|]. destruct alloc; [|done]. intros [= <-]. eexists. split; [done|].
    split; [|done]. destruct (bq_evict_spec cost limit (cost m) (bq_msgs b)) as [_ [k ->]]; [lia|].
    apply suffix_drop.
Qed.

Lemma bq_push_false cost limit policy front alloc m b b' :
  bq_push cost limit policy front alloc m b = (false, b') ->
  suffix (bq_msgs b') (bq_msgs b) /\
  (policy = REL4U_QUEUE_FULL_DROP_NEW -> bq_msgs b' = bq_msgs b).
Proof.
  unfold bq_push. destruct (_ >? _); [by intros [= <-]|].
  destruct (Z.gtb_spec (cost m) limit); [by intros [= <-]|]. destruct (_ <=? _).
  - destruct alloc; [done|]. by intros [= <-].
  - destruct policy; [by intros [= <-]|]. destruct alloc; [done|]. intros [= <-].
    split; [|done]. simpl. destruct (bq_evict_spec cost limit (cost m) (bq_msgs b)) as [_ [k ->]]; [lia|].
    apply suffix_drop.
Qed.

Lemma suffix_sublist {A} (l1 l2 : list A) : suffix l1 l2 -> sublist l1 l2.
Proof. intros [k ->]. by apply sublist_inserts_l. Qed.

(** The invariant of histories without pushes at the front. *)
Definition fifo_inv (policy : rel4u_queue_full_policy) (s : rel4u_mpmc_queue * history) : Prop :=
  exists b, q_rep (fst s) b /\ q_full_policy (fst s) = policy /\
    sublist (hi_popped (snd s) ++ bq_msgs b) (hi_accepted (snd s)) /\
    (policy = REL4U_QUEUE_FULL_DROP_NEW -> hi_popped (snd s) ++ bq_msgs b = hi_accepted (snd s)).

Definition back_only (o : qop) : Prop := match o with PushFront _ => False | _ => True end.

Lemma fifo_pop policy q h out : fifo_inv policy (q, h) ->
  let '(ok, q', out') := mpmc_pop_head_locked q out in
  fifo_inv policy (q', if ok then mk_history (hi_accepted h) (hi_popped h ++ [item_msg out']) else h).
Proof.
  intros (b & Hr & Hp & Hsub & Hnew). simpl in *.
  pose proof (pop_spec q b out Hr) as H. unfold bq_pop in H.
  destruct (mpmc_pop_head_locked q out) as [[ok q'] out']. destruct (bq_msgs b) as [|m l] eqn:El.
  - destruct H as (-> & -> & ->). exists b. simpl. by rewrite El.
  - destruct H as (-> & -> & Hr' & Hs & _). eexists. split; [exact Hr'|]. simpl.
    split; [by rewrite (same_policy _ _ Hs)|]. by rewrite <- app_assoc.
Qed.

Lemma fifo_step policy s o : fifo_inv policy s -> op_ok o -> back_only o -> fifo_inv policy (run_op s o).
Proof.
  intros (b & Hr & Hp & Hsub & Hnew) Ho Hb. destruct s as [q h]. simpl in *.
  destruct o as [it|it| |]; simpl in *; [| done | |].
  - unfold rel4u_mpmc_push_notify.
    pose proof (push_spec false q b it Hr Ho) as H. unfold mpmc_push in H.
    destruct (mpmc_push_back_locked q it) as [[] q']; destruct H as (alloc & b' & _ & Hpush & Hr' & Hs);
      exists b'; simpl; (split; [done|]); (split; [by rewrite (same_policy _ _ Hs)|]).
    + apply bq_push_true in Hpush as (l & -> & Hsuf & Hl). rewrite app_assoc. split.
      * apply sublist_app; [|done]. etransitivity; [|exact Hsub].
        apply sublist_app; [done|by apply suffix_sublist].
      * intros Hpol. rewrite Hl by congruence. by rewrite Hnew.
    + apply bq_push_false in Hpush as (Hsuf & Hl). split.
      * etransitivity; [|exact Hsub]. apply sublist_app; [done|by apply suffix_sublist].
      * intros Hpol. rewrite Hl by congruence. by apply Hnew.
  - unfold rel4u_mpmc_try_pop. pose proof (fifo_pop policy q h item_zero ltac:(by exists b)) as H.
    by destruct (mpmc_pop_head_locked q item_zero) as [[[] q'] out].
  - exists b. split; [by apply wake_all_rep|done].
Qed.

Lemma fifo_run policy ops s : fifo_inv policy s -> Forall op_ok ops -> Forall back_only ops ->
  fifo_inv policy (foldl run_op s ops).
Proof.
  revert s. induction ops as [|o ops IH]; intros s Hs Ho Hb; [done|].
  apply Forall_cons in Ho as [Ho1 Ho]. apply Forall_cons in Hb as [Hb1 Hb].
  simpl. apply IH; [by apply fifo_step|done|done].
Qed.

(** First in, first out: from a fresh queue of either memory mode, over any
    interleaving of pushes at the back, pops and wake-ups, the messages popped so
    far followed by those still queued are the accepted ones in the order of
    acceptance, each at most once; with the DROP_NEW policy nothing is missing. *)
Theorem mpmc_fifo policy q ops :
  q_rep q (mk_bqueue [] 0) -> q_full_policy q = policy ->
  Forall op_ok ops -> Forall back_only ops ->
  let '(q', h) := foldl run_op (q, mk_history [] []) ops in
  exists queued, q_count q' = Z.of_nat (length queued) /\
    sublist (hi_popped h ++ queued) (hi_accepted h) /\
    (policy = REL4U_QUEUE_FULL_DROP_NEW -> hi_popped h ++ queued = hi_accepted h).
Proof.
  intros Hr Hp Ho Hb.
  assert (H : fifo_inv policy (foldl run_op (q, mk_history [] []) ops)).
  { apply fifo_run; [|done|done]. by exists (mk_bqueue [] 0). }
  destruct (foldl run_op _ ops) as [q' h]. destruct H as (b & Hr' & _ & H). exists (bq_msgs b).
  split; [by apply q_rep_count|done].
Qed.

Lemma rep_step s o b : q_rep (fst s) b -> op_ok o ->
  exists b', q_rep (fst (run_op s o)) b' /\ q_mode (fst (run_op s o)) = q_mode (fst s) /\
    q_limit (fst (run_op s o)) = q_limit (fst s).
Proof.
  intros Hr Ho. destruct s as [q h]. simpl in Hr.
  assert (Hdone : forall q' b', q_rep q' b' -> q_same q q' ->
    exists b', q_rep q' b' /\ q_mode q' = q_mode q /\ q_limit q' = q_limit q).
  { intros q' b' Hr' Hs. exists b'. split; [done|]. split; [apply Hs|by apply q_same_limit]. }
  destruct o as [it|it| |]; simpl.
  - unfold rel4u_mpmc_push_notify. pose proof (push_spec false q b it Hr Ho) as H.
    unfold mpmc_push in H. destruct (mpmc_push_back_locked q it) as [ok q'].
    destruct H as (alloc & b' & _ & _ & Hr' & Hs). simpl. eauto.
  - unfold rel4u_mpmc_push_front. pose proof (push_spec true q b it Hr Ho) as H.
    unfold mpmc_push in H. destruct (mpmc_push_front_locked q it) as [ok q'].
    destruct H as (alloc & b' & _ & _ & Hr' & Hs). simpl. eauto.
  - pose proof (pop_spec q b item_zero Hr) as H. unfold rel4u_mpmc_try_pop, bq_pop in *.
    destruct (mpmc_pop_head_locked q item_zero) as [[ok q'] out]. destruct (bq_msgs b).
    + destruct H as (_ & -> & _). simpl. eauto.
    + destruct H as (_ & _ & Hr' & Hs & _). simpl. eauto.
  - exists b. split; [by apply wake_all_rep|done].
Qed.

Lemma rep_run ops s b : q_rep (fst s) b -> Forall op_ok ops ->
  exists b', q_rep (fst (foldl run_op s ops)) b' /\
    q_mode (fst (foldl run_op s ops)) = q_mode (fst s) /\
    q_limit (fst (foldl run_op s ops)) = q_limit (fst s).
Proof.
  revert s b. induction ops as [|o ops IH]; intros s b Hr Ho; [by exists b|].
  apply Forall_cons in Ho as [Ho1 Ho]. destruct (rep_step s o b Hr Ho1) as (b1 & Hr1 & Em & El).
  destruct (IH _ _ Hr1 Ho) as (b2 & Hr2 & Em2 & El2). exists b2. simpl.
  split; [done|]. split; congruence.
Qed.

(** C29. The bounds hold over any history of operations, pushes at the front
    included: a fixed queue never holds more than its capacity and its ring
    indices stay inside the array; a dynamic queue never uses more bytes than its
    limit, and exactly one heap block is live per queued message, so eviction and
    popping leak nothing and free nothing twice. *)
Theorem mpmc_bounded q0 ops :
  q_rep q0 (mk_bqueue [] 0) -> Forall op_ok ops ->
  let q := fst (foldl run_op (q0, mk_history [] []) ops) in
  match q_mode q0 with
  | REL4U_MEM_FIXED => 0 <= rel4u_mpmc_size q <= q_capacity q0 /\
      0 <= q_head q < Z.of_nat (length (q_items q)) /\ 0 <= q_tail q < Z.of_nat (length (q_items q))
  | REL4U_MEM_DYNAMIC => 0 <= rel4u_mpmc_bytes q <= q_max_bytes q0 /\
      Z.of_nat (size (q_heap q)) = rel4u_mpmc_size q
  end.
Proof.
  intros Hr Ho. cbv zeta. destruct (rep_run ops (q0, mk_history [] []) _ Hr Ho) as (b & Hb & Em & El).
  simpl in Em, El. set (q := fst _) in *. unfold q_limit in El. rewrite Em in El.
  unfold rel4u_mpmc_size, rel4u_mpmc_bytes. destruct (q_mode q0) eqn:Hm.
  - destruct (q_rep_mode_fixed _ _ Hb Em) as [[] _].
    pose proof (Z.mod_pos_bound (q_head q + q_count q) (q_capacity q)). lia.
  - rewrite (q_rep_size _ _ Hb Em), (q_rep_count _ _ Hb).
    destruct (q_rep_mode_dynamic _ _ Hb Em) as (ls & nds & _ & _ & _ & _ & Hcb & Hmx).
    pose proof (total_dyn_nonneg (bq_msgs b)). change (cost_sum dyn_cost (bq_msgs b)) with
      (cost_sum (fun m => sizeof_node + m_len m) (bq_msgs b)) in *. lia.
Qed.

(** Under DROP_LAST, a message that fits an empty queue is always accepted (the
    allocator permitting): it becomes the newest, and what is evicted for it is
    the shortest prefix of the oldest messages that makes the rest fit. *)
Theorem drop_last_accepts q b it :
  q_rep q b -> item_wf it -> q_full_policy q = REL4U_QUEUE_FULL_DROP_LAST ->
  (forall h n, is_Some (malloc h n)) ->
  it_len it <= REL4U_MAX_MSG_SIZE -> q_cost q (item_msg it) <= q_limit q ->
  let '(ok, q') := rel4u_mpmc_try_push q it in
  ok = true /\ exists k b', q_rep q' b' /\
    bq_msgs b' = drop k (bq_msgs b) ++ [item_msg it] /\
    cost_sum (q_cost q) (drop k (bq_msgs b)) + q_cost q (item_msg it) <= q_limit q /\
    (forall j, (j < k)%nat ->
       q_limit q < cost_sum (q_cost q) (drop j (bq_msgs b)) + q_cost q (item_msg it)).
Proof.
  intros Hr Hwf Hp Hall Hlen Hfit. pose proof (push_spec false q b it Hr Hwf) as H.
  unfold mpmc_push in H. unfold rel4u_mpmc_try_push.
  destruct (mpmc_push_back_locked q it) as [ok q'].
  destruct H as (alloc & b' & Ha & Hpush & Hr' & _). rewrite Ha in Hpush by (by right).
  unfold bq_push in Hpush. rewrite item_msg_len in Hpush by done. rewrite Hp in Hpush.
  destruct (Z.gtb_spec (it_len it) REL4U_MAX_MSG_SIZE); [lia|].
  destruct (Z.gtb_spec (q_cost q (item_msg it)) (q_limit q)); [lia|].
  destruct (Z.leb_spec (cost_sum (q_cost q) (bq_msgs b) + q_cost q (item_msg it)) (q_limit q)).
  - injection Hpush as <- <-. split; [done|]. exists 0%nat. eexists. split; [exact Hr'|].
    split; [done|]. split; [done|]. lia.
  - injection Hpush as <- <-. split; [done|].
    assert (Hk : exists k, bq_evict (q_cost q) (q_limit q) (q_cost q (item_msg it)) (bq_msgs b)
        = drop k (bq_msgs b) /\
        forall j, (j < k)%nat -> q_limit q < cost_sum (q_cost q) (drop j (bq_msgs b)) + q_cost q (item_msg it)).
    { clear -Hfit. induction (bq_msgs b) as [|m l IH]; simpl.
      - exists 0%nat. split; [by destruct (_ <=? _)|lia].
      - destruct (Z.leb_spec (q_cost q m + cost_sum (q_cost q) l + q_cost q (item_msg it)) (q_limit q)).
        + exists 0%nat. split; [done|lia].
        + destruct IH as (k & Ek & Hk). exists (S k). split; [done|].
          intros [|j] Hj; simpl; [lia|]. apply Hk. lia. }
    destruct Hk as (k & Ek & Hk). exists k. eexists. split; [exact Hr'|]. simpl. rewrite <- Ek.
    split; [done|]. split; [by apply bq_evict_spec|done].
Qed.

(** ** Destruction *)

Lemma free_nodes_chain ls : forall h cur, NoDup ls -> cur = head ls ->
  (forall i l, ls !! i = Some l -> exists nd, h !! l = Some nd /\ nd_next nd = ls !! S i) ->
  forall x, mpmc_free_nodes (length ls) h cur !! x = if decide (x ∈ ls) then None else h !! x.
Proof.
  induction ls as [|l ls IH]; intros h cur Hnd -> Hch x;
    cbn [length mpmc_free_nodes head].
  - case_decide as E; [by apply elem_of_nil in E|done].
  - destruct (Hch 0%nat l eq_refl) as (nd & Hl & Hn). rewrite Hl, Hn.
    apply NoDup_cons in Hnd as [Hni Hnd].
    rewrite (IH (delete l h)); [|done|by destruct ls|].
    + destruct (decide (x = l)) as [->|Hne].
      * rewrite lookup_delete_eq. repeat case_decide; try done; set_solver.
      * rewrite lookup_delete_ne by done. rewrite (decide_ext (x ∈ l :: ls) (x ∈ ls)); [done|]. rewrite elem_of_cons. intuition congruence.
    + intros i l' Hi. destruct (Hch (S i) l' Hi) as (nd' & Hl' & Hn'). exists nd'.
      split; [|done]. rewrite lookup_delete_ne; [done|]. intros ->.
      apply Hni, list_elem_of_lookup. eauto.
Qed.

(** Destroying a queue frees every block it owns: afterwards no heap node is
    live (dynamic) and the item array is gone (fixed), and no message, byte or
    capacity is left. *)
Theorem mpmc_destroy_frees q b : q_rep q b ->
  let q' := rel4u_mpmc_destroy q in
  (q_mode q = REL4U_MEM_DYNAMIC -> q_heap q' = ∅ /\ q_node_head q' = None /\ q_node_tail q' = None) /\
  (q_mode q = REL4U_MEM_FIXED -> q_items q' = []) /\
  rel4u_mpmc_size q' = 0 /\ rel4u_mpmc_bytes q' = 0 /\ q_capacity q' = 0.
Proof.
  intros Hr. cbv zeta. unfold rel4u_mpmc_destroy, rel4u_mpmc_size, rel4u_mpmc_bytes. simpl.
  destruct (q_mode q) eqn:Hm; simpl; (split; [|split; [done|done]]); [done|intros _].
  split; [|done]. destruct (q_rep_mode_dynamic _ _ Hr Hm) as (ls & nds & D & _).
  apply map_eq. intros x. rewrite lookup_empty, (dll_size _ _ _ _ _ D).
  rewrite (free_nodes_chain ls); [|apply D|apply D|].
  - case_decide as E; [done|]. destruct (q_heap q !! x) eqn:Ex; [|done].
    exfalso. apply E, (dll_dom _ _ _ _ _ D). eauto.
  - intros i l Hi. assert (Hin : is_Some (q_heap q !! l)).
    { apply (dll_dom _ _ _ _ _ D), list_elem_of_lookup. eauto. }
    destruct Hin as [nd Hnd]. exists nd. split; [done|].
    rewrite <- (dll_next _ _ _ _ _ D i l Hi). by rewrite lookup_total_alt, Hnd.
Qed.

(** ** The blocking pop *)

Definition wakes_ok (wakes : list (bool * rel4u_mpmc_queue)) : Prop :=
  Forall (fun w => exists b, q_rep (snd w) b) wakes.

(** What [rel4u_mpmc_pop_wait] returns, whatever the other threads did while it
    was waiting: true exactly with the oldest message of the queue as it is at
    that moment, which is removed; false only on an empty queue, with the
    caller's item untouched, and only for a zero timeout, an elapsed timed wait or
    a wake-up by [wake_all] or [destroy]; and it is never left waiting on a queue
    that holds a message. *)
Theorem pop_wait_returns q b out timeout wakes :
  q_rep q b -> wakes_ok wakes ->
  match rel4u_mpmc_pop_wait q out timeout wakes with
  | Returned true q' out' => exists qs bs m l, (qs = q \/ exists s, (s, qs) ∈ wakes) /\
      q_rep qs bs /\ bq_msgs bs = m :: l /\ item_msg out' = m /\
      q_rep q' (mk_bqueue l (bq_dropped bs))
  | Returned false q' out' => q_count q' = 0 /\ out' = out /\
      (timeout = 0 \/ q_wake_generation q' <> q_wake_generation q \/
       (0 < timeout /\ (false, q') ∈ wakes))
  | Blocked q' => q_count q' = 0 /\ timeout <> 0
  end.
Proof.
  unfold rel4u_mpmc_pop_wait. generalize (q_wake_generation q) as gen. intros gen Hr Hw.
  revert q b Hr. induction wakes as [|[s q1] wakes IH]; intros q b Hr; cbn [pop_wait_loop].
  all: destruct (Z.eqb_spec (q_count q) 0) as [Hz|Hnz].
  2,4: pose proof (pop_spec q b out Hr) as H; pose proof (q_rep_count _ _ Hr) as Hc;
       unfold bq_pop in H; destruct (mpmc_pop_head_locked q out) as [[ok q'] out'];
       destruct (bq_msgs b) as [|m l] eqn:El; [simpl in Hc; lia|];
       destruct H as (-> & Hm & Hr' & _); exists q, b, m, l; split; [by left|]; split_and!; done.
  - destruct (Z.eqb_spec timeout 0); [split; [done|]; split; [done|by left]|done].
  - destruct (Z.eqb_spec timeout 0); [split; [done|]; split; [done|by left]|].
    apply Forall_cons in Hw as [[b1 Hr1] Hw]. specialize (IH Hw q1 b1 Hr1).
    destruct ((q_count q1 =? 0) && _) eqn:Hg.
    + apply andb_true_iff in Hg as [Hz1%Z.eqb_eq Hg]. split; [done|]. split; [done|]. right.
      destruct (Z.ltb_spec timeout 0).
      * left. apply negb_true_iff, Z.eqb_neq in Hg. done.
      * apply orb_true_iff in Hg as [Hs|Hg]; apply negb_true_iff in Hs || apply negb_true_iff in Hg.
        -- right. split; [lia|]. subst s. left.
        -- left. by apply Z.eqb_neq in Hg.
    + destruct (pop_wait_loop gen timeout q1 out wakes) as [q'|[] q' out'].
      * done.
      * destruct IH as (qs & bs & m & l & [->|[s' Hin]] & H).
        -- exists q1, bs, m, l. split; [|done]. right. exists s. left.
        -- exists qs, bs, m, l. split; [|done]. right. exists s'. by right.
      * destruct IH as (H1 & H2 & H3). split; [done|]. split; [done|].
        destruct H3 as [|[|[? ?]]]; [by left|by right; left|]. right. right. split; [done|by right].
Qed.

(** The timeout of a timed wait bounds each wait on the condition variable, not
    the call: every wake-up whose message another consumer takes first restarts
    the loop with the full [timeout_ms], so after any number of them the call is
    still waiting. *)
Theorem pop_wait_restarts q out timeout n :
  q_count q = 0 -> 0 < timeout ->
  rel4u_mpmc_pop_wait q out timeout (replicate n (true, q)) = Blocked q.
Proof.
  intros Hz Ht. unfold rel4u_mpmc_pop_wait. generalize (eq_refl (q_wake_generation q)).
  generalize (q_wake_generation q) at 1 3 as gen. intros gen Hg.
  induction n as [|n IH]; simpl; rewrite Hz; simpl.
  - by rewrite (proj2 (Z.eqb_neq timeout 0)) by lia.
  - rewrite (proj2 (Z.eqb_neq timeout 0)), (proj2 (Z.ltb_ge timeout 0)) by lia.
    rewrite Hg, Z.eqb_refl. simpl. by rewrite <- Hg.
Qed.
End properties.

(** ** Witnesses *)

Definition sample_item (c : Z) : rel4u_mpmc_item := mk_item c 3 2 [c; c + 1; 0; 0].
Definition sample_fixed : rel4u_mpmc_queue := Eval vm_compute in
  snd (rel4u_mpmc_init REL4U_MEM_FIXED REL4U_QUEUE_FULL_DROP_LAST 2 0 (Some (replicate 2 item_zero))).
Definition sample_dynamic : rel4u_mpmc_queue := Eval vm_compute in
  snd (rel4u_mpmc_init REL4U_MEM_DYNAMIC REL4U_QUEUE_FULL_DROP_NEW 0 100 None).

Lemma sample_item_wf c : item_wf (sample_item c).
Proof. unfold item_wf, sample_item. simpl. lia. Qed.
Lemma sample_fixed_rep : q_rep sample_fixed (mk_bqueue [] 0).
Proof.
  pose proof (init_fixed_rep REL4U_QUEUE_FULL_DROP_LAST 2 0 (replicate 2 item_zero)
    ltac:(lia) eq_refl) as H. apply H.
Qed.
Lemma sample_dynamic_rep : q_rep sample_dynamic (mk_bqueue [] 0).
Proof.
  pose proof (init_dynamic_rep REL4U_QUEUE_FULL_DROP_NEW 0 100 None ltac:(lia)) as H. apply H.
Qed.

Definition sample_ops : list qop :=
  [PushBack (sample_item 1); PushBack (sample_item 2); Pop; PushBack (sample_item 3);
   PushBack (sample_item 4); WakeAll; Pop].
Lemma sample_ops_ok : Forall op_ok sample_ops /\ Forall back_only sample_ops.
Proof. split; repeat constructor; simpl; lia. Qed.

(** The states the witnesses reach. *)
Definition sample_pushed : rel4u_mpmc_queue := Eval vm_compute in
  snd (mpmc_push false sample_dynamic (sample_item 7)).
Definition sample_run : rel4u_mpmc_queue * history := Eval vm_compute in
  foldl run_op (sample_dynamic, mk_history [] []) sample_ops.
Definition sample_full : rel4u_mpmc_queue := Eval vm_compute in
  fst (foldl run_op (sample_fixed, mk_history [] []) [PushBack (sample_item 1); PushBack (sample_item 2)]).

Lemma sample_pushed_eq : mpmc_push false sample_dynamic (sample_item 7) = (true, sample_pushed).
Proof. vm_compute. reflexivity. Qed.
Lemma sample_run_eq : foldl run_op (sample_dynamic, mk_history [] []) sample_ops = sample_run.
Proof. vm_compute. reflexivity. Qed.
Lemma sample_full_eq : fst (foldl run_op (sample_fixed, mk_history [] [])
  [PushBack (sample_item 1); PushBack (sample_item 2)]) = sample_full.
Proof. vm_compute. reflexivity. Qed.

Lemma sample_full_rep : q_rep sample_full (mk_bqueue [mk_msg 1 3 [1; 2]; mk_msg 2 3 [2; 3]] 0).
Proof.
  apply q_rep_fixed; [reflexivity|reflexivity|word_unfold; lia|]. split; [|split; [reflexivity|]].
  - constructor; cbn; try lia; reflexivity.
  - change (Forall item_sized [sample_item 1; sample_item 2]).
    repeat (apply Forall_cons_2; [split; [apply sample_item_wf|done]|]). constructor.
Qed.

Lemma mpmc_push_refines_witness :
  exists b', bq_push (q_cost sample_dynamic) (q_limit sample_dynamic) REL4U_QUEUE_FULL_DROP_NEW
      false true (item_msg (sample_item 7)) (mk_bqueue [] 0) = (true, b') /\
    q_rep sample_pushed b'.
Proof.
  pose proof (mpmc_push_refines false sample_dynamic _ (sample_item 7) sample_dynamic_rep
    (sample_item_wf 7)) as H. rewrite sample_pushed_eq in H.
  destruct H as (alloc & b' & Ha & Hp & Hr & _).
  rewrite Ha in Hp by (right; intros; eexists; reflexivity).
  exists b'. split; [exact Hp|exact Hr].
Defined.

Lemma sample_pushed_rep : q_rep sample_pushed (mk_bqueue [mk_msg 7 3 [7; 8]] 0).
Proof.
  pose proof (push_dynamic false sample_dynamic _ (sample_item 7) sample_dynamic_rep
    (sample_item_wf 7) eq_refl) as H. rewrite sample_pushed_eq in H.
  destruct H as (alloc & b' & Ha & Hp & Hr & _).
  rewrite Ha in Hp by (intros; eexists; reflexivity). vm_compute in Hp. by injection Hp as <-.
Qed.

Lemma mpmc_pop_refines_witness :
  item_msg (snd (rel4u_mpmc_try_pop sample_pushed item_zero)) = mk_msg 7 3 [7; 8].
Proof.
  pose proof (mpmc_pop_refines _ _ item_zero sample_pushed_rep) as H.
  destruct (rel4u_mpmc_try_pop sample_pushed item_zero) as [[ok q'] out].
  destruct H as (_ & H & _). exact H.
Defined.

Lemma mpmc_fifo_witness :
  exists queued, q_count (fst sample_run) = Z.of_nat (length queued) /\
    hi_popped (snd sample_run) ++ queued =
    [mk_msg 1 3 [1; 2]; mk_msg 2 3 [2; 3]; mk_msg 3 3 [3; 4]].
Proof.
  pose proof (mpmc_fifo REL4U_QUEUE_FULL_DROP_NEW sample_dynamic sample_ops sample_dynamic_rep
    eq_refl (proj1 sample_ops_ok) (proj2 sample_ops_ok)) as H. rewrite sample_run_eq in H.
  destruct H as (queued & Hc & _ & H).
  exists queued. split; [exact Hc|exact (H eq_refl)].
Defined.

Lemma mpmc_bounded_witness :
  rel4u_mpmc_bytes (fst sample_run) <= 100 /\ size (q_heap (fst sample_run)) = 1%nat.
Proof.
  pose proof (mpmc_bounded sample_dynamic sample_ops sample_dynamic_rep (proj1 sample_ops_ok)) as H.
  cbv zeta in H. rewrite sample_run_eq in H.
  destruct H as [[_ H] E]. split; [exact H|apply Nat2Z.inj; rewrite E; reflexivity].
Defined.

Lemma drop_last_accepts_witness :
  q_count sample_full = 2 /\ fst (rel4u_mpmc_try_push sample_full (sample_item 3)) = true.
Proof.
  split; [reflexivity|].
  destruct (rep_run [PushBack (sample_item 1); PushBack (sample_item 2)]
    (sample_fixed, mk_history [] []) _ sample_fixed_rep ltac:(repeat constructor; simpl; lia))
    as (b & Hr & _). rewrite sample_full_eq in Hr.
  pose proof (drop_last_accepts _ b (sample_item 3) Hr (sample_item_wf 3) eq_refl
    ltac:(intros; eexists; reflexivity) ltac:(vm_compute; congruence) ltac:(vm_compute; congruence)) as H.
  destruct (rel4u_mpmc_try_push sample_full (sample_item 3)) as [ok q']. exact (proj1 H).
Defined.

Lemma mpmc_destroy_frees_witness : q_heap (rel4u_mpmc_destroy sample_pushed) = ∅.
Proof. exact (proj1 (proj1 (mpmc_destroy_frees _ _ sample_pushed_rep) eq_refl)). Defined.

Lemma pop_wait_returns_witness :
  match rel4u_mpmc_pop_wait sample_dynamic item_zero 50 [(true, sample_dynamic); (false, sample_dynamic)] with
  | Returned false q' out => q_count q' = 0 /\ out = item_zero
  | _ => False
  end.
Proof.
  pose proof (pop_wait_returns sample_dynamic _ item_zero 50
    [(true, sample_dynamic); (false, sample_dynamic)] sample_dynamic_rep
    ltac:(repeat constructor; eexists; exact sample_dynamic_rep)) as H.
  assert (E : rel4u_mpmc_pop_wait sample_dynamic item_zero 50
    [(true, sample_dynamic); (false, sample_dynamic)] = Returned false sample_dynamic item_zero)
    by (vm_compute; reflexivity).
  rewrite E in H |- *. destruct H as (H1 & H2 & _). split; [exact H1|exact H2].
Defined.

Lemma pop_wait_restarts_witness :
  rel4u_mpmc_pop_wait sample_dynamic item_zero 50 (replicate 1000 (true, sample_dynamic))
  = Blocked sample_dynamic.
Proof. apply (pop_wait_restarts sample_dynamic item_zero 50 1000); [reflexivity|lia]. Defined.
