(* ===== verification/Monitor.v ===== *)
(** * Threads on one queue

    [Mpmc] has each operation of the queue as one function, because it runs with
    the queue's mutex held.  Here is the level below: any number of threads, each
    at a statement of the operation it has called, with the mutex and the
    condition variable of [rel4u_threads.c].  The steps of different threads
    interleave freely; only the mutex keeps them apart.  The body of an operation is
    two steps, one that reads the queue and one that writes back what it has
    computed from what it read: another thread may run in between, and without the
    mutex its work would be overwritten.  Waits can time out or end for no reason,
    and a signal wakes any one of the waiting threads.

    Proved are mutual exclusion, that the blocking pop returns what the function of
    [Mpmc] returns for the wake-ups it has seen, first-in first-out delivery across
    all threads, and that no wake-up is lost. *)
From S2P Require Import Prelude Ring Types Mpmc MpmcSpec Queue.
From stdpp Require Import base numbers list gmap.
Open Scope Z_scope.
Open Scope rel4u_scope.

(** ** Where a thread is *)

Inductive call :=
  | DoTryPush (item : rel4u_mpmc_item)
  | DoPushNotify (item : rel4u_mpmc_item)
  | DoPushFront (item : rel4u_mpmc_item)
  | DoTryPop (out_item : rel4u_mpmc_item)
  | DoPopWait (out_item : rel4u_mpmc_item) (timeout_ms : Z)
  | DoWakeAll
  | DoSize.

Inductive result :=
  | Ok (ok : bool)
  | Popped (ok : bool) (out_item : rel4u_mpmc_item)
  | Done
  | Size (sz : Z).

(** The locals of [rel4u_mpmc_pop_wait]: arguments and [gen].  [w_entry] and
    [w_seen] are no variables of the code: the queue the call found, and how each
    wait has ended with the queue it then found. *)
Record waits := mk_waits {
  w_timeout : Z;
  w_gen : Z;
  w_out : rel4u_mpmc_item;
  w_entry : rel4u_mpmc_queue;
  w_seen : list (bool * rel4u_mpmc_queue)
}.

(** The next statement of a thread. *)
Inductive pc :=
  | Idle                                   (* outside the queue *)
  | Locking (c : call)                     (* rel4u_mutex_lock *)
  | Inside (c : call)                      (* the body, which reads the queue *)
  | Working (c : call) (q0 : rel4u_mpmc_queue) (* and writes it, having read [q0] *)
  | Notifying (e : cond_effect) (r : result) (* signal or broadcast *)
  | Testing (w : waits)                    (* while (q->count == 0) *)
  | Sleeping (w : waits)                   (* rel4u_cond_wait, before it releases *)
  | Waiting (w : waits)                    (* asleep in the condition variable *)
  | Waking (w : waits) (signaled : bool)   (* woken, needs the mutex again *)
  | Checking (w : waits) (signaled : bool) (* the test after the wait *)
  | Popping (w : waits)                    (* mpmc_pop_head_locked, which reads *)
  | Taking (w : waits) (q0 : rel4u_mpmc_queue) (* and writes, having read [q0] *)
  | Leaving (r : result) (w : option waits). (* rel4u_mutex_unlock *)

#[export] Instance pc_inhabited : Inhabited pc := populate Idle.

(** ** The mutex and the condition variable *)

(** A mutex is the thread that holds it. *)
Definition mutex := option nat.

Definition rel4u_mutex_init : Z * mutex := (0, None).

(** [None]: the caller blocks. *)
Definition rel4u_mutex_lock (t : nat) (m : mutex) : option mutex :=
  match m with None => Some (Some t) | Some _ => None end.
Definition rel4u_mutex_unlock (m : mutex) : mutex := None.

Definition is_waiting (p : pc) : bool := match p with Waiting _ => true | _ => false end.

(** The threads asleep in the condition variable are those at [Waiting]. *)
Definition rel4u_cond_wait (t : nat) (w : waits) (m : mutex) (threads : list pc) : mutex * list pc :=
  (rel4u_mutex_unlock m, <[t := Waiting w]> threads).

(** [choice]: the thread that is woken, one of those that wait if there is any. *)
Definition rel4u_cond_signal (choice : option nat) (threads : list pc) : option (list pc) :=
  match choice with
  | Some u =>
      match threads !! u with
      | Some (Waiting w) => Some (<[u := Waking w true]> threads)
      | _ => None
      end
  | None => if existsb is_waiting threads then None else Some threads
  end.

Definition rel4u_cond_broadcast (threads : list pc) : list pc :=
  (fun p => match p with Waiting w => Waking w true | p => p end) <$> threads.

(** ** Steps *)

(** [sh_history] collects what the operations report: the messages accepted and
    popped, in the order in which the mutex was held. *)
Record shared := mk_shared {
  sh_queue : rel4u_mpmc_queue;
  sh_mutex : mutex;
  sh_threads : list pc;
  sh_history : history
}.

Inductive label :=
  | Call (t : nat) (c : call)                (* the thread calls an operation *)
  | Run (t : nat) (choice : option nat)      (* its next statement *)
  | Wakeup (t : nat) (signaled : bool).      (* its wait ends unsignalled *)

Section steps.
Context {allocator : Malloc}.

(** The operations other than the blocking pop: queue, effect on the condition
    variable, result, history. *)
Definition operate (c : call) (q : rel4u_mpmc_queue) (h : history)
  : rel4u_mpmc_queue * cond_effect * result * history :=
  let accept ok it := if ok : bool then mk_history (hi_accepted h ++ [item_msg it]) (hi_popped h) else h in
  match c with
  | DoTryPush it => let '(ok, q) := rel4u_mpmc_try_push q it in (q, NoSignal, Ok ok, accept ok it)
  | DoPushNotify it => let '(ok, q, e) := rel4u_mpmc_push_notify q it in (q, e, Ok ok, accept ok it)
  | DoPushFront it =>
      let '(ok, q, e) := rel4u_mpmc_push_front q it in
      (q, e, Ok ok, if ok : bool then mk_history (item_msg it :: hi_accepted h) (hi_popped h) else h)
  | DoTryPop out =>
      let '(ok, q, out) := rel4u_mpmc_try_pop q out in
      (q, NoSignal, Popped ok out,
       if ok : bool then mk_history (hi_accepted h) (hi_popped h ++ [item_msg out]) else h)
  | DoWakeAll => let '(q, e) := rel4u_mpmc_wake_all q in (q, e, Done, h)
  | DoSize => (q, NoSignal, Size (rel4u_mpmc_size q), h)
  | DoPopWait _ _ => (q, NoSignal, Done, h)
  end.

(** The condition under which [rel4u_mpmc_pop_wait] gives up after a wait. *)
Definition gives_up (w : waits) (signaled : bool) (q : rel4u_mpmc_queue) : bool :=
  (q_count q =? 0) &&
  (if w_timeout w <? 0 then negb (q_wake_generation q =? w_gen w)
   else negb signaled || negb (q_wake_generation q =? w_gen w)).

Definition go (s : shared) (t : nat) (p : pc) : shared :=
  mk_shared (sh_queue s) (sh_mutex s) (<[t := p]> (sh_threads s)) (sh_history s).

Definition acquire (s : shared) (t : nat) (p : pc) : option shared :=
  match rel4u_mutex_lock t (sh_mutex s) with
  | Some m => Some (mk_shared (sh_queue s) m (<[t := p]> (sh_threads s)) (sh_history s))
  | None => None
  end.

(** One statement of thread [t], which is at [p]. *)
Definition statement (s : shared) (t : nat) (choice : option nat) (p : pc) : option shared :=
  let q := sh_queue s in
  match p with
  | Idle | Waiting _ => None
  | Locking c => acquire s t (Inside c)
  | Inside (DoPopWait out timeout) => Some (go s t (Testing (mk_waits timeout (q_wake_generation q) out q [])))
  | Inside c => Some (go s t (Working c q))
  | Working c q0 =>
      let '(q, e, r, h) := operate c q0 (sh_history s) in
      Some (mk_shared q (sh_mutex s) (<[t := Notifying e r]> (sh_threads s)) h)
  | Notifying e r =>
      let woken := match e with
                   | NoSignal => Some (sh_threads s)
                   | Signal => rel4u_cond_signal choice (sh_threads s)
                   | Broadcast => Some (rel4u_cond_broadcast (sh_threads s))
                   end in
      match woken with
      | Some ts => Some (mk_shared q (sh_mutex s) (<[t := Leaving r None]> ts) (sh_history s))
      | None => None
      end
  | Testing w =>
      if q_count q =? 0 then
        if w_timeout w =? 0 then Some (go s t (Leaving (Popped false (w_out w)) (Some w)))
        else Some (go s t (Sleeping w))
      else Some (go s t (Popping w))
  | Sleeping w =>
      let '(m, ts) := rel4u_cond_wait t w (sh_mutex s) (sh_threads s) in
      Some (mk_shared q m ts (sh_history s))
  | Waking w signaled =>
      acquire s t (Checking (mk_waits (w_timeout w) (w_gen w) (w_out w) (w_entry w)
                                      (w_seen w ++ [(signaled, q)])) signaled)
  | Checking w signaled =>
      if gives_up w signaled q then Some (go s t (Leaving (Popped false (w_out w)) (Some w)))
      else Some (go s t (Testing w))
  | Popping w => Some (go s t (Taking w q))
  | Taking w q0 =>
      let '(ok, q, out) := mpmc_pop_head_locked q0 (w_out w) in
      let h := sh_history s in
      Some (mk_shared q (sh_mutex s) (<[t := Leaving (Popped ok out) (Some w)]> (sh_threads s))
             (if ok : bool then mk_history (hi_accepted h) (hi_popped h ++ [item_msg out]) else h))
  | Leaving _ _ => Some (mk_shared q (rel4u_mutex_unlock (sh_mutex s)) (<[t := Idle]> (sh_threads s)) (sh_history s))
  end.

Definition step (s : shared) (l : label) : option shared :=
  match l with
  | Call t c =>
      match sh_threads s !! t with Some Idle => Some (go s t (Locking c)) | _ => None end
  | Run t choice =>
      match sh_threads s !! t with Some p => statement s t choice p | None => None end
  | Wakeup t signaled =>
      match sh_threads s !! t with
      | Some (Waiting w) =>
          if signaled || (0 <? w_timeout w) then Some (go s t (Waking w signaled)) else None
      | _ => None
      end
  end.

(** [n] threads outside a queue. *)
Definition initial (q : rel4u_mpmc_queue) (n : nat) : shared :=
  mk_shared q (snd rel4u_mutex_init) (replicate n Idle) (mk_history [] []).

Section reach.
Context (allowed : call -> Prop).

Definition label_ok (l : label) : Prop := match l with Call _ c => allowed c | _ => True end.

Inductive reach (s0 : shared) : shared -> Prop :=
  | reach_start : reach s0 s0
  | reach_step s l s' : reach s0 s -> label_ok l -> step s l = Some s' -> reach s0 s'.

Fixpoint steps (s : shared) (ls : list label) : option shared :=
  match ls with [] => Some s | l :: ls => match step s l with Some s => steps s ls | None => None end end.

Lemma steps_reach s0 s ls s' : reach s0 s -> Forall label_ok ls -> steps s ls = Some s' -> reach s0 s'.
Proof.
  revert s. induction ls as [|l ls IH]; intros s Hr Hf E; simpl in E; [by simplify_eq|].
  apply Forall_cons in Hf as [Hl Hf]. destruct (step s l) as [s1|] eqn:E1; [|done].
  eapply IH; [|done|done]. by eapply reach_step.
Qed.
End reach.
End steps.

(** ** Mutual exclusion *)

(** The statements that are executed with the mutex held. *)
Definition critical (p : pc) : bool :=
  match p with
  | Idle | Locking _ | Waiting _ | Waking _ _ => false
  | _ => true
  end.

(** The thread that has the mutex is exactly the one inside. *)
Definition exclusive (m : mutex) (ts : list pc) : Prop :=
  forall t, m = Some t <-> exists p, ts !! t = Some p /\ critical p = true.

Lemma exclusive_same m ts t p p' : exclusive m ts -> ts !! t = Some p -> critical p' = critical p ->
  exclusive m (<[t := p']> ts).
Proof.
  intros He Ht Hc u. rewrite (He u). split; intros (x & Hx & Cx).
  - destruct (decide (u = t)) as [->|Hne].
    + exists p'. rewrite list_lookup_insert_eq by (by eapply lookup_lt_Some). simplify_eq. split; [done|congruence].
    + exists x. by rewrite list_lookup_insert_ne.
  - apply list_lookup_insert_Some in Hx as [(<- & <- & _)|(Hne & Hx)]; [|by exists x].
    exists p. split; [done|congruence].
Qed.

Lemma exclusive_lock ts t p p' : exclusive None ts -> ts !! t = Some p -> critical p' = true ->
  exclusive (Some t) (<[t := p']> ts).
Proof.
  intros He Ht Hc u. split.
  - intros [= <-]. exists p'. by rewrite list_lookup_insert_eq by (by eapply lookup_lt_Some).
  - intros (x & Hx & Cx). apply list_lookup_insert_Some in Hx as [(<- & _)|(_ & Hx)]; [done|].
    by assert (None = Some u) by (apply He; eauto).
Qed.

Lemma exclusive_unlock m ts t p p' : exclusive m ts -> ts !! t = Some p -> critical p = true ->
  critical p' = false -> exclusive None (<[t := p']> ts).
Proof.
  intros He Ht Hc Hc' u. split; [done|]. intros (x & Hx & Cx).
  apply list_lookup_insert_Some in Hx as [(_ & <- & _)|(Hne & Hx)]; [congruence|].
  assert (m = Some t) by (apply He; eauto). assert (m = Some u) by (apply He; eauto). congruence.
Qed.

Lemma exclusive_broadcast m ts : exclusive m ts -> exclusive m (rel4u_cond_broadcast ts).
Proof.
  intros He u. rewrite (He u). unfold rel4u_cond_broadcast. rewrite list_lookup_fmap.
  destruct (ts !! u) as [p|]; simpl; [|split; by intros (x & Hx & _)].
  split; intros (x & [= <-] & Cx); eexists; (split; [reflexivity|]); by destruct p.
Qed.

Lemma exclusive_signal m ts choice ts' : rel4u_cond_signal choice ts = Some ts' ->
  exclusive m ts -> exclusive m ts'.
Proof.
  unfold rel4u_cond_signal. intros Hs He. destruct choice as [u|].
  - destruct (ts !! u) as [[]|] eqn:Hu; simplify_eq. by eapply exclusive_same.
  - destruct (existsb is_waiting ts); by simplify_eq.
Qed.

(** A woken thread was waiting, so the others are where they were. *)
Lemma signal_lookup choice ts ts' t p : rel4u_cond_signal choice ts = Some ts' ->
  ts !! t = Some p -> is_waiting p = false -> ts' !! t = Some p.
Proof.
  unfold rel4u_cond_signal. intros Hs Ht Hw. destruct choice as [u|].
  - destruct (ts !! u) as [[]|] eqn:Hu; simplify_eq.
    rewrite list_lookup_insert_ne; [done|]. intros ->. by simplify_eq.
  - destruct (existsb is_waiting ts); by simplify_eq.
Qed.
Lemma broadcast_lookup ts t p : ts !! t = Some p -> is_waiting p = false ->
  rel4u_cond_broadcast ts !! t = Some p.
Proof. intros Ht Hw. unfold rel4u_cond_broadcast. rewrite list_lookup_fmap, Ht. by destruct p. Qed.

(** ** Counting threads *)

Fixpoint tally (f : pc -> bool) (ts : list pc) : Z :=
  match ts with [] => 0 | p :: ts => (if f p then 1 else 0) + tally f ts end.

Lemma tally_nonneg f ts : 0 <= tally f ts.
Proof. induction ts as [|p ts IH]; simpl; [lia|destruct (f p); lia]. Qed.

Lemma tally_insert f ts t p p' : ts !! t = Some p ->
  tally f (<[t := p']> ts) = tally f ts - (if f p then 1 else 0) + (if f p' then 1 else 0).
Proof.
  revert t. induction ts as [|x ts IH]; intros t Ht; [done|]. destruct t as [|t]; simpl in *; [simplify_eq; lia|].
  rewrite IH by done. lia.
Qed.

Lemma tally_none f ts : existsb f ts = false -> tally f ts = 0.
Proof. induction ts as [|p ts IH]; simpl; [done|]. destruct (f p); [done|]. intros H. by rewrite IH. Qed.

Lemma tally_broadcast ts : tally is_waiting (rel4u_cond_broadcast ts) = 0.
Proof. induction ts as [|p ts IH]; simpl; [done|]. by destruct p; simpl. Qed.

Lemma tally_pos f ts : 0 < tally f ts -> exists t p, ts !! t = Some p /\ f p = true.
Proof.
  induction ts as [|p ts IH]; simpl; [lia|]. destruct (f p) eqn:Ep; [by exists 0%nat, p|].
  intros H. destruct IH as (t & x & Hx & Hf); [lia|]. by exists (S t), x.
Qed.

Lemma tally_lookup f ts t p : ts !! t = Some p -> f p = true -> 0 < tally f ts.
Proof.
  revert t. induction ts as [|x ts IH]; intros [|t] Ht Hf; simplify_eq/=.
  - rewrite Hf. pose proof (tally_nonneg f ts). lia.
  - specialize (IH _ Ht Hf). destruct (f x); lia.
Qed.

Section theorems.
Context {allocator : Malloc}.

(** Splits a step by label and statement. *)
Ltac step_cases E :=
  let Ep := fresh "Ep" in
  let p := fresh "p" in
  match type of E with step _ ?l = Some _ => destruct l as [t c|t choice|t signaled]; cbn [step] in E end;
  match type of E with context [sh_threads ?s !! ?t] => destruct (sh_threads s !! t) as [p|] eqn:Ep end;
  try discriminate E; destruct p as [|c0|c0|c0 q0|e r|w|w|w|w b|w b|w|w q0|r ow]; try discriminate E;
  cbn [statement] in E; try discriminate E.

Lemma step_exclusive s l s' : step s l = Some s' ->
  exclusive (sh_mutex s) (sh_threads s) -> exclusive (sh_mutex s') (sh_threads s').
Proof.
  intros E He. step_cases E.
  - simplify_eq/=. by eapply exclusive_same.
  - unfold acquire, rel4u_mutex_lock in E. destruct (sh_mutex s) eqn:Em; simplify_eq/=.
    by eapply exclusive_lock.
  - destruct c0; simplify_eq/=; by eapply exclusive_same.
  - destruct (operate _ _ _) as [[[q e] r] h]. simplify_eq/=. by eapply exclusive_same.
  - destruct e; simplify_eq/=.
    + by eapply exclusive_same.
    + destruct (rel4u_cond_signal choice (sh_threads s)) as [ts|] eqn:Es; simplify_eq/=.
      eapply exclusive_same; [by eapply exclusive_signal|by eapply signal_lookup|done].
    + eapply exclusive_same; [by apply exclusive_broadcast|by eapply broadcast_lookup|done].
  - repeat case_match; simplify_eq/=; by eapply exclusive_same.
  - simplify_eq/=. by eapply exclusive_unlock.
  - unfold acquire, rel4u_mutex_lock in E. destruct (sh_mutex s) eqn:Em; simplify_eq/=.
    by eapply exclusive_lock.
  - case_match; simplify_eq/=; by eapply exclusive_same.
  - simplify_eq/=. by eapply exclusive_same.
  - destruct (mpmc_pop_head_locked _ _) as [[ok q] out]. simplify_eq/=. by eapply exclusive_same.
  - simplify_eq/=. by eapply exclusive_unlock.
  - case_match; simplify_eq/=. by eapply exclusive_same.
Qed.
(** ** The moves of one thread *)

(** What a step does to the queue and to the thread that takes it. *)
Inductive move (q : rel4u_mpmc_queue) : pc -> rel4u_mpmc_queue -> pc -> Prop :=
  | move_call c : move q Idle q (Locking c)
  | move_lock c : move q (Locking c) q (Inside c)
  | move_enter out timeout :
      move q (Inside (DoPopWait out timeout)) q (Testing (mk_waits timeout (q_wake_generation q) out q []))
  | move_read c : (forall out timeout, c <> DoPopWait out timeout) -> move q (Inside c) q (Working c q)
  | move_operate c q0 h q' e r h' :
      operate c q0 h = (q', e, r, h') -> move q (Working c q0) q' (Notifying e r)
  | move_notify e r : move q (Notifying e r) q (Leaving r None)
  | move_at_once w : q_count q = 0 -> w_timeout w = 0 ->
      move q (Testing w) q (Leaving (Popped false (w_out w)) (Some w))
  | move_sleep w : q_count q = 0 -> w_timeout w <> 0 -> move q (Testing w) q (Sleeping w)
  | move_found w : q_count q <> 0 -> move q (Testing w) q (Popping w)
  | move_release w : move q (Sleeping w) q (Waiting w)
  | move_wakeup w signaled : move q (Waiting w) q (Waking w signaled)
  | move_relock w signaled : move q (Waking w signaled) q
      (Checking (mk_waits (w_timeout w) (w_gen w) (w_out w) (w_entry w) (w_seen w ++ [(signaled, q)])) signaled)
  | move_give_up w signaled : gives_up w signaled q = true ->
      move q (Checking w signaled) q (Leaving (Popped false (w_out w)) (Some w))
  | move_again w signaled : gives_up w signaled q = false -> move q (Checking w signaled) q (Testing w)
  | move_look w : move q (Popping w) q (Taking w q)
  | move_pop w q0 ok q' out : mpmc_pop_head_locked q0 (w_out w) = (ok, q', out) ->
      move q (Taking w q0) q' (Leaving (Popped ok out) (Some w))
  | move_leave r ow : move q (Leaving r ow) q Idle.

(** What it does to the threads that wait. *)
Definition wakes (p : pc) (choice : option nat) (ts ts' : list pc) : Prop :=
  match p with
  | Notifying Signal _ => rel4u_cond_signal choice ts = Some ts'
  | Notifying Broadcast _ => ts' = rel4u_cond_broadcast ts
  | _ => ts' = ts
  end.

(** A step that wakes nobody. *)
Ltac alone :=
  match goal with Ep : sh_threads ?s !! ?t = Some _ |- _ =>
    eexists t, _, _, None, (sh_threads s); split; [exact Ep|]; split; [exact Ep|]; split;
    [by econstructor|]; split; [done|]; split; [done|]; intros ? [=]; subst; eauto
  end.

Lemma step_move s l s' : step s l = Some s' -> exists t p p' choice ts,
  sh_threads s !! t = Some p /\ ts !! t = Some p /\ move (sh_queue s) p (sh_queue s') p' /\
  wakes p choice (sh_threads s) ts /\ sh_threads s' = <[t := p']> ts /\
  (forall c, p' = Locking c -> exists t, l = Call t c).
Proof.
  intros E. step_cases E.
  - injection E as <-. alone.
  - unfold acquire, rel4u_mutex_lock in E. destruct (sh_mutex s); [discriminate E|]. injection E as <-. alone.
  - destruct c0; injection E as <-; alone.
  - destruct (operate _ _ _) as [[[q e] r] h] eqn:Eo. injection E as <-. alone.
  - destruct (match e with NoSignal => _ | Signal => _ | Broadcast => _ end) as [ts|] eqn:Ew; [|discriminate E].
    injection E as <-. eexists t, _, _, choice, ts. split; [exact Ep|].
    destruct e; cbn [wakes]; simplify_eq; (split; [|split; [constructor|done]]).
    + done.
    + by eapply signal_lookup.
    + by apply broadcast_lookup.
  - destruct (Z.eqb_spec (q_count (sh_queue s)) 0); [destruct (Z.eqb_spec (w_timeout w) 0)|];
      injection E as <-; alone.
  - injection E as <-. alone.
  - unfold acquire, rel4u_mutex_lock in E. destruct (sh_mutex s); [discriminate E|]. injection E as <-. alone.
  - destruct (gives_up w b (sh_queue s)) eqn:Eg; injection E as <-; alone.
  - injection E as <-. alone.
  - destruct (mpmc_pop_head_locked _ _) as [[ok q] out] eqn:Eo. injection E as <-. alone.
  - injection E as <-. alone.
  - destruct (signaled || _); [|discriminate E]. injection E as <-. alone.
Qed.

(** After a wake the threads are as before, or woken from their wait. *)
Lemma wakes_lookup p choice ts ts' u x' : wakes p choice ts ts' -> ts' !! u = Some x' ->
  exists x, ts !! u = Some x /\ (x' = x \/ exists w, x = Waiting w /\ x' = Waking w true).
Proof.
  intros Hw Hu. assert (Hid : ts' = ts -> exists x, ts !! u = Some x /\ (x' = x \/ exists w, x = Waiting w /\ x' = Waking w true)).
  { intros ->. eauto. }
  destruct p as [| | | |[] r| | | | | | | |]; cbn [wakes] in Hw; try by apply Hid.
  - unfold rel4u_cond_signal in Hw. destruct choice as [v|].
    + destruct (ts !! v) as [[]|] eqn:Ev; simplify_eq.
      apply list_lookup_insert_Some in Hu as [(-> & <- & _)|(_ & Hu)]; eauto 8.
    + destruct (existsb is_waiting ts); simplify_eq. eauto.
  - subst ts'. unfold rel4u_cond_broadcast in Hu. rewrite list_lookup_fmap in Hu.
    destruct (ts !! u) as [x|]; simplify_eq/=. exists x. split; [done|]. destruct x; eauto.
Qed.

(** ** The blocking pop *)

(** What the call would return with the wake-ups seen so far and [wk] more. *)
Definition pop_wait_of (w : waits) (wk : list (bool * rel4u_mpmc_queue)) : wait_result :=
  rel4u_mpmc_pop_wait (w_entry w) (w_out w) (w_timeout w) (w_seen w ++ wk).

Definition at_loop (q : rel4u_mpmc_queue) (w : waits) : Prop :=
  forall wk, pop_wait_of w wk = pop_wait_loop (w_gen w) (w_timeout w) q (w_out w) wk.
Definition asleep (w : waits) : Prop := exists q0, q_count q0 = 0 /\ w_timeout w <> 0 /\ at_loop q0 w.

(** Where the call is, in terms of [pop_wait_loop]; and what a body has read is
    still what the queue holds when it writes. *)
Definition wait_ok (q : rel4u_mpmc_queue) (p : pc) : Prop :=
  match p with
  | Testing w => at_loop q w
  | Working _ q0 => q0 = q
  | Popping w => at_loop q w /\ q_count q <> 0
  | Taking w q0 => q0 = q /\ at_loop q w /\ q_count q <> 0
  | Sleeping w => asleep w /\ q_count q = 0
  | Waiting w | Waking w _ => asleep w
  | Checking w signaled => forall wk, pop_wait_of w wk =
      if gives_up w signaled q then Returned false q (w_out w)
      else pop_wait_loop (w_gen w) (w_timeout w) q (w_out w) wk
  | Leaving (Popped ok out) (Some w) => exists q', pop_wait_of w [] = Returned ok q' out
  | _ => True
  end.

(** The queue matters only to a thread that has the mutex. *)
Lemma wait_ok_frame q q' p : critical p = false -> wait_ok q p -> wait_ok q' p.
Proof. by destruct p. Qed.

Lemma move_wait_ok q p q' p' : move q p q' p' -> wait_ok q p -> wait_ok q' p'.
Proof.
  intros M W. destruct M; cbn [wait_ok] in *; try done.
  - by destruct r.
  - exists q. rewrite W. cbn [pop_wait_loop]. by rewrite H, H0.
  - split; [|done]. by exists q.
  - by destruct W.
  - destruct W as (q0 & H0 & Ht & W). intros wk. specialize (W ((signaled, q) :: wk)).
    unfold pop_wait_of in *. cbn [w_entry w_out w_timeout w_seen w_gen].
    rewrite <- app_assoc. cbn [app]. rewrite W. cbn [pop_wait_loop]. rewrite H0.
    rewrite (proj2 (Z.eqb_neq _ _) Ht). done.
  - exists q. by rewrite W, H.
  - intros wk. by rewrite W, H.
  - destruct W as (-> & W & Hc). exists q'. rewrite W. cbn [pop_wait_loop].
    rewrite (proj2 (Z.eqb_neq _ _) Hc), H. done.
Qed.

(** A move without the mutex leaves the queue alone. *)
Lemma move_queue q p q' p' : move q p q' p' -> critical p = false -> q' = q.
Proof. by destruct 1. Qed.

(** Lifting from one thread to all: the invariant of a thread holds of all threads
    after a step when a move keeps it, waking keeps it, and it does not depend on
    the queue for a thread without the mutex. *)
Lemma step_forall (P : rel4u_mpmc_queue -> pc -> Prop) s l s' :
  (forall q p q' p', move q p q' p' -> P q p -> P q' p') ->
  (forall q w, P q (Waiting w) -> P q (Waking w true)) ->
  (forall q q' p, critical p = false -> P q p -> P q' p) ->
  exclusive (sh_mutex s) (sh_threads s) -> step s l = Some s' ->
  Forall (P (sh_queue s)) (sh_threads s) -> Forall (P (sh_queue s')) (sh_threads s').
Proof.
  intros Hmove Hwake Hframe He E HP.
  apply step_move in E as (t & p & p' & choice & ts & Ht & Hts & M & Hw & -> & _).
  rewrite Forall_lookup in *. intros u x Hu.
  apply list_lookup_insert_Some in Hu as [(<- & <- & _)|(Hne & Hu)].
  { eapply Hmove; [exact M|]. by eapply HP. }
  destruct (wakes_lookup _ _ _ _ _ _ Hw Hu) as (y & Hy & Hxy).
  assert (HPy : P (sh_queue s') y).
  { destruct (critical p) eqn:Cp.
    - destruct (critical y) eqn:Cy; [|by eapply Hframe; [|by eapply HP]].
      assert (sh_mutex s = Some t) by (apply He; eauto). assert (sh_mutex s = Some u) by (apply He; eauto).
      congruence.
    - rewrite (move_queue _ _ _ _ M Cp). by eapply HP. }
  destruct Hxy as [->|(w & -> & ->)]; [done|by apply Hwake].
Qed.

(** ** First in, first out *)

Section calls.
Context (allowed : call -> Prop).

Definition calls_ok (p : pc) : Prop := match p with Locking c | Inside c | Working c _ => allowed c | _ => True end.

Lemma step_calls s l s' : label_ok allowed l -> step s l = Some s' ->
  Forall calls_ok (sh_threads s) -> Forall calls_ok (sh_threads s').
Proof.
  intros Hl E HP. apply step_move in E as (t & p & p' & choice & ts & Ht & Hts & M & Hw & -> & Hc).
  rewrite Forall_lookup in *. intros u x Hu.
  apply list_lookup_insert_Some in Hu as [(<- & <- & _)|(Hne & Hu)].
  - pose proof (HP _ _ Ht) as Hp. destruct M; cbn [calls_ok] in *; try done.
    destruct (Hc c eq_refl) as [t0 ->]. done.
  - destruct (wakes_lookup _ _ _ _ _ _ Hw Hu) as (y & Hy & [->|(w & -> & ->)]); [|done]. by eapply HP.
Qed.
End calls.

(** Calls of a queue that is filled at the back, and of one whose pushes notify. *)
Definition back_call (c : call) : Prop :=
  match c with DoPushFront _ => False | DoTryPush it | DoPushNotify it => item_wf it | _ => True end.
Definition notified_call (c : call) : Prop :=
  match c with DoTryPush _ => False | DoPushFront it | DoPushNotify it => item_wf it | _ => True end.

(** A pop takes one message from a queue that has any. *)
Lemma pop_count q b out : q_rep q b ->
  let '(ok, q', out') := mpmc_pop_head_locked q out in
  (exists b', q_rep q' b') /\
  ((q_count q = 0 /\ q_count q' = 0) \/ (ok = true /\ q_count q' = q_count q - 1)).
Proof.
  intros Hr. pose proof (pop_spec q b out Hr) as S. unfold bq_pop in S.
  destruct (mpmc_pop_head_locked q out) as [[ok q'] out']. pose proof (q_rep_count _ _ Hr) as Hc.
  destruct (bq_msgs b) as [|m l] eqn:El.
  - destruct S as (-> & -> & _). split; [by exists b|]. left. simpl in Hc. lia.
  - destruct S as (-> & _ & Hr' & _). split; [eauto|]. right.
    rewrite (q_rep_count _ _ Hr'), Hc. simpl. lia.
Qed.

Lemma pop_gen q b out : q_rep q b ->
  q_wake_generation (snd (fst (mpmc_pop_head_locked q out))) = q_wake_generation q.
Proof.
  intros Hr. pose proof (pop_spec q b out Hr) as S. unfold bq_pop in S.
  destruct (mpmc_pop_head_locked q out) as [[ok q'] out']. destruct (bq_msgs b) as [|m l].
  - by destruct S as (_ & -> & _).
  - destruct S as (_ & _ & _ & S & _). by apply MpmcSpec.same_gen.
Qed.

Lemma operate_fifo policy c q h q' e r h' : back_call c -> operate c q h = (q', e, r, h') ->
  fifo_inv policy (q, h) -> fifo_inv policy (q', h').
Proof.
  intros Hc E Hf. destruct c as [it|it|it|out|out timeout| |]; cbn [operate back_call] in *; try done.
  - pose proof (fifo_step policy (q, h) (PushBack it) Hf Hc I) as S. cbn [run_op] in S.
    unfold rel4u_mpmc_push_notify, rel4u_mpmc_try_push in *.
    destruct (mpmc_push_back_locked q it) as [[] q1]; by simplify_eq.
  - pose proof (fifo_step policy (q, h) (PushBack it) Hf Hc I) as S. cbn [run_op] in S.
    destruct (rel4u_mpmc_push_notify q it) as [[[] q1] e1]; by simplify_eq.
  - pose proof (fifo_pop policy q h out Hf) as S. unfold rel4u_mpmc_try_pop in E.
    destruct (mpmc_pop_head_locked q out) as [[[] q1] out1]; by simplify_eq.
  - by simplify_eq.
  - pose proof (fifo_step policy (q, h) WakeAll Hf I I) as S. by simplify_eq/=.
  - by simplify_eq.
Qed.

Lemma step_fifo policy s l s' : Forall (calls_ok back_call) (sh_threads s) ->
  Forall (wait_ok (sh_queue s)) (sh_threads s) -> step s l = Some s' ->
  fifo_inv policy (sh_queue s, sh_history s) -> fifo_inv policy (sh_queue s', sh_history s').
Proof.
  intros Hc Hw E Hf. rewrite Forall_lookup in Hc, Hw. step_cases E; unfold acquire in E.
  - by injection E as <-.
  - destruct (rel4u_mutex_lock _ _); [by injection E as <-|discriminate E].
  - destruct c0; by injection E as <-.
  - specialize (Hc _ _ Ep). specialize (Hw _ _ Ep). cbn [wait_ok] in Hw. subst q0.
    destruct (operate _ _ _) as [[[q e] r] h] eqn:Eo. injection E as <-.
    eapply operate_fifo; [exact Hc|exact Eo|exact Hf].
  - destruct (match e with NoSignal => _ | Signal => _ | Broadcast => _ end); [by injection E as <-|discriminate E].
  - repeat case_match; by injection E as <-.
  - by injection E as <-.
  - destruct (rel4u_mutex_lock _ _); [by injection E as <-|discriminate E].
  - case_match; by injection E as <-.
  - by injection E as <-.
  - specialize (Hw _ _ Ep). destruct Hw as [-> _].
    pose proof (fifo_pop policy (sh_queue s) (sh_history s) (w_out w) Hf) as S.
    destruct (mpmc_pop_head_locked _ _) as [[[] q] out]; by injection E as <-.
  - by injection E as <-.
  - case_match; [by injection E as <-|discriminate E].
Qed.

(** ** No lost wake-ups *)

(** The threads that will look at the queue, or wake one that will. *)
Definition awake (p : pc) : bool :=
  match p with
  | Notifying Signal _ | Testing _ | Waking _ _ | Checking _ _ | Popping _ | Taking _ _ => true
  | _ => false
  end.

(** While anybody waits, there is a thread awake for every queued message. *)
Definition wake_inv (q : rel4u_mpmc_queue) (ts : list pc) : Prop :=
  0 < tally is_waiting ts -> q_count q <= tally awake ts.

(** The number of messages grows only by a push that notifies. *)
Lemma operate_count c q h q' e r h' b : notified_call c -> operate c q h = (q', e, r, h') -> q_rep q b ->
  (exists b', q_rep q' b') /\ q_count q' <= q_count q + (match e with Signal => 1 | _ => 0 end).
Proof.
  intros Hc E Hr. assert (Hpush : forall front it, item_wf it ->
    let '(ok, q1) := mpmc_push front q it in
    (exists b', q_rep q1 b') /\ q_count q1 <= q_count q + (if ok then 1 else 0)).
  { intros front it Hit. pose proof (push_spec front q b it Hr Hit) as S.
    destruct (mpmc_push front q it) as [ok q1]. destruct S as (alloc & b' & _ & Hb & Hr' & _).
    split; [by exists b'|]. rewrite (q_rep_count _ _ Hr), (q_rep_count _ _ Hr').
    destruct ok.
    - apply bq_push_true in Hb as (l & -> & Hl & _). apply suffix_length in Hl.
      destruct front; [simpl; lia|rewrite length_app; simpl; lia].
    - apply bq_push_false in Hb as (Hl & _). apply suffix_length in Hl. lia. }
  destruct c as [it|it|it|out|out timeout| |]; cbn [operate notified_call] in *; try done.
  - specialize (Hpush false it Hc). unfold rel4u_mpmc_push_notify, mpmc_push in *.
    destruct (mpmc_push_back_locked q it) as [[] q1]; by simplify_eq/=.
  - specialize (Hpush true it Hc). unfold rel4u_mpmc_push_front, mpmc_push in *.
    destruct (mpmc_push_front_locked q it) as [[] q1]; by simplify_eq/=.
  - pose proof (pop_count q b out Hr) as Hp. unfold rel4u_mpmc_try_pop in E.
    destruct (mpmc_pop_head_locked q out) as [[ok q1] out1]. simplify_eq/=. split; [apply Hp|].
    destruct Hp as [_ [Hp|Hp]]; lia.
  - simplify_eq/=. split; [by exists b|lia].
  - simplify_eq/=. split; [exists b; by apply wake_all_rep|]. simpl. lia.
  - simplify_eq/=. split; [by exists b|lia].
Qed.

(** Everything known of a reachable state of a queue whose pushes notify. *)
Record notified_inv (s : shared) : Prop := {
  ni_exclusive : exclusive (sh_mutex s) (sh_threads s);
  ni_calls : Forall (calls_ok notified_call) (sh_threads s);
  ni_wait : Forall (wait_ok (sh_queue s)) (sh_threads s);
  ni_rep : exists b, q_rep (sh_queue s) b;
  ni_wake : wake_inv (sh_queue s) (sh_threads s)
}.

Lemma step_wake s l s' : notified_inv s -> step s l = Some s' ->
  (exists b, q_rep (sh_queue s') b) /\ wake_inv (sh_queue s') (sh_threads s').
Proof.
  intros [_ Hc Hw [b Hr] Hi] E. apply step_move in E as (t & p & p' & choice & ts & Ht & Hts & M & Hk & -> & _).
  rewrite Forall_lookup in Hc, Hw. specialize (Hc _ _ Ht). specialize (Hw _ _ Ht). unfold wake_inv in *.
  rewrite !(tally_insert _ _ _ _ _ Hts).
  pose proof (tally_lookup awake _ _ _ Ht) as Ha.
  destruct M; cbn [wakes calls_ok wait_ok] in *; try (subst ts); cbn [is_waiting awake] in *;
    try (split; [by exists b|]; try specialize (Ha eq_refl); lia).
  - subst q0. destruct (operate_count _ _ _ _ _ _ _ _ Hc H Hr) as [Hb Hq]. split; [done|]. destruct e; lia.
  - split; [by exists b|]. destruct e; [subst ts; lia| |subst ts; rewrite tally_broadcast; lia].
    unfold rel4u_cond_signal in Hk. destruct choice as [u|].
    + destruct (sh_threads s !! u) as [[]|] eqn:Hu; simplify_eq.
      rewrite !(tally_insert _ _ _ _ _ Hu). cbn [is_waiting awake]. lia.
    + destruct (existsb is_waiting (sh_threads s)) eqn:Hn; simplify_eq.
      rewrite (tally_none _ _ Hn). lia.
  - split; [by exists b|]. destruct Hw as [_ Hw]. pose proof (tally_nonneg awake (sh_threads s)). lia.
  - split; [by exists b|]. apply andb_true_iff in H as [H%Z.eqb_eq _]. specialize (Ha eq_refl). lia.
  - destruct Hw as (-> & _ & Hw). pose proof (pop_count _ _ (w_out w) Hr) as Hp.
    rewrite H in Hp. destruct Hp as [Hb Hp]. split; [done|]. lia.
Qed.

Lemma step_notified s l s' : label_ok notified_call l -> step s l = Some s' ->
  notified_inv s -> notified_inv s'.
Proof.
  intros Hl E Hi. destruct (step_wake _ _ _ Hi E) as [Hr Hw]. destruct Hi. constructor; [| | |done|done].
  - by eapply step_exclusive.
  - by eapply step_calls.
  - eapply step_forall; [apply move_wait_ok|done|apply wait_ok_frame|done|exact E|done].
Qed.

(** ** Generations *)

(** A thread that has decided to sleep has seen the current generation. *)
Definition gen_ok (q : rel4u_mpmc_queue) (p : pc) : Prop :=
  match p with
  | Testing w => w_gen w = q_wake_generation q \/ q_count q <> 0
  | Sleeping w => w_gen w = q_wake_generation q
  | _ => True
  end.

Lemma move_gen_ok q p q' p' : move q p q' p' -> gen_ok q p -> gen_ok q' p'.
Proof.
  intros M G. destruct M; cbn [gen_ok] in *; try done.
  - by left.
  - by destruct G.
  - unfold gives_up in H. destruct (Z.eqb_spec (q_count q) 0); [|by right]. left.
    destruct (Z.eqb_spec (q_wake_generation q) (w_gen w)); [done|]. cbn [negb andb] in H.
    rewrite orb_true_r in H. by destruct (w_timeout w <? 0).
Qed.

Lemma gen_ok_frame q q' p : critical p = false -> gen_ok q p -> gen_ok q' p.
Proof. by destruct p. Qed.

Definition broadcasting (ts : list pc) : Prop := exists u r, ts !! u = Some (Notifying Broadcast r).

(** Whoever waits has seen the current generation, or is about to be woken. *)
Definition gen_inv (q : rel4u_mpmc_queue) (ts : list pc) : Prop :=
  forall t w, ts !! t = Some (Waiting w) -> w_gen w = q_wake_generation q \/ broadcasting ts.

Lemma operate_gen c q h q' e r h' b : notified_call c -> operate c q h = (q', e, r, h') -> q_rep q b ->
  q_wake_generation q' = q_wake_generation q \/ e = Broadcast.
Proof.
  intros Hc E Hr. destruct c as [it|it|it|out|out timeout| |]; cbn [operate notified_call] in *; try done.
  - pose proof (push_spec false q b it Hr Hc) as S. unfold rel4u_mpmc_push_notify, mpmc_push in *.
    destruct (mpmc_push_back_locked q it) as [ok q1]. destruct S as (_ & _ & _ & _ & _ & S).
    simplify_eq/=. left. by apply MpmcSpec.same_gen.
  - pose proof (push_spec true q b it Hr Hc) as S. unfold rel4u_mpmc_push_front, mpmc_push in *.
    destruct (mpmc_push_front_locked q it) as [ok q1]. destruct S as (_ & _ & _ & _ & _ & S).
    simplify_eq/=. left. by apply MpmcSpec.same_gen.
  - left. pose proof (pop_gen q b out Hr) as S. unfold rel4u_mpmc_try_pop in E.
    destruct (mpmc_pop_head_locked q out) as [[ok q1] out1]. by simplify_eq/=.
  - simplify_eq/=. by left.
  - simplify_eq/=. by right.
  - simplify_eq/=. by left.
Qed.

Lemma wakes_broadcasting p choice ts ts' t p' : wakes p choice ts ts' -> ts !! t = Some p ->
  broadcasting ts -> (exists r, p = Notifying Broadcast r) \/ broadcasting (<[t := p']> ts').
Proof.
  intros Hw Ht (u & r & Hu). destruct (decide (u = t)) as [->|Hne]; [left; exists r; congruence|].
  right. exists u, r. rewrite list_lookup_insert_ne by done.
  destruct p as [| | | |[]| | | | | | | |]; cbn [wakes] in Hw; try (by subst ts').
  - by eapply signal_lookup.
  - subst ts'. by apply broadcast_lookup.
Qed.

Lemma step_gen s l s' : notified_inv s -> Forall (gen_ok (sh_queue s)) (sh_threads s) ->
  step s l = Some s' -> gen_inv (sh_queue s) (sh_threads s) -> gen_inv (sh_queue s') (sh_threads s').
Proof.
  intros [_ Hc Hw [b Hr] _] Hg E Hi. apply step_move in E as (t & p & p' & choice & ts & Ht & Hts & M & Hk & -> & _).
  rewrite Forall_lookup in Hc, Hw, Hg. specialize (Hc _ _ Ht). specialize (Hw _ _ Ht). specialize (Hg _ _ Ht).
  intros u w Hu.
  apply list_lookup_insert_Some in Hu as [(<- & Hp & _)|(Hne & Hu)].
  { subst p'. inversion M; subst; cbn [gen_ok] in Hg; by left. }
  destruct (wakes_lookup _ _ _ _ _ _ Hk Hu) as (y & Hy & [<-|(w' & _ & [=])]).
  assert (Hq : q_wake_generation (sh_queue s') = q_wake_generation (sh_queue s) \/
               exists r, p' = Notifying Broadcast r).
  { destruct M; try (by left); cbn [wait_ok] in Hw.
    - subst q0. destruct (operate_gen _ _ _ _ _ _ _ _ Hc H Hr) as [?| ->]; [by left|right; eauto].
    - left. destruct Hw as [-> _]. pose proof (pop_gen _ _ (w_out w0) Hr) as S. by rewrite H in S. }
  destruct Hq as [Hq|[r ->]].
  - rewrite Hq. destruct (Hi _ _ Hy) as [?|Hb]; [by left|].
    destruct (wakes_broadcasting _ _ _ _ _ p' Hk Ht Hb) as [[r ->]|?]; [|by right].
    cbn [wakes] in Hk. subst ts. unfold rel4u_cond_broadcast in Hu. rewrite list_lookup_fmap, Hy in Hu. done.
  - right. exists t, r. by rewrite list_lookup_insert_eq by (by eapply lookup_lt_Some).
Qed.

(** ** Reachable states *)

Lemma tally_idle f n : f Idle = false -> tally f (replicate n Idle) = 0.
Proof. intros H. induction n as [|n IH]; simpl; [done|]. by rewrite H, IH. Qed.

Lemma initial_exclusive q n : exclusive (sh_mutex (initial q n)) (sh_threads (initial q n)).
Proof. intros t. split; [done|]. intros (p & Hp & Cp). apply lookup_replicate in Hp as [-> _]. done. Qed.

Lemma initial_forall (P : pc -> Prop) q n : P Idle -> Forall P (sh_threads (initial q n)).
Proof. intros H. by apply Forall_replicate. Qed.

Lemma reach_notified q b n s : q_rep q b -> reach notified_call (initial q n) s ->
  notified_inv s /\ Forall (gen_ok (sh_queue s)) (sh_threads s) /\ gen_inv (sh_queue s) (sh_threads s).
Proof.
  intros Hr H. induction H as [|s l s' _ (IH1 & IH2 & IH3) Hl E].
  - split; [constructor|split].
    + apply initial_exclusive.
    + by apply initial_forall.
    + by apply initial_forall.
    + by exists b.
    + unfold wake_inv. simpl. rewrite tally_idle by done. lia.
    + by apply initial_forall.
    + intros t w Ht. simpl in Ht. apply lookup_replicate in Ht as [? _]. done.
  - split; [by eapply step_notified|]. split; [|by eapply step_gen].
    eapply step_forall; [apply move_gen_ok|done|apply gen_ok_frame|apply IH1|exact E|done].
Qed.

(** A thread that has the mutex can always go on. *)
Lemma critical_runs s t p : sh_threads s !! t = Some p -> critical p = true ->
  exists choice s', step s (Run t choice) = Some s'.
Proof.
  intros Ht Cp. cbn [step]. rewrite Ht.
  destruct p as [|c|c|c q0|e r|w|w|w|w b|w b|w|w q0|r ow]; try done; cbn [statement].
  1: destruct c; exists None; eauto.
  1: destruct (operate _ _ _) as [[[? ?] ?] ?]; exists None; eauto.
  2: destruct (q_count _ =? 0); [destruct (w_timeout w =? 0)|]; exists None; eauto.
  2: exists None; eauto.
  2: destruct (gives_up _ _ _); exists None; eauto.
  2: exists None; eauto.
  2: destruct (mpmc_pop_head_locked _ _) as [[? ?] ?]; exists None; eauto.
  2: exists None; eauto.
  destruct e; [exists None; eauto| |exists None; eauto].
  destruct (existsb is_waiting (sh_threads s)) eqn:Ew.
  - apply existsb_exists in Ew as (x & Hx & Wx). apply list_elem_of_In, list_elem_of_lookup in Hx as [u Hu].
    destruct x; try done. exists (Some u). cbn [rel4u_cond_signal]. rewrite Hu. eauto.
  - exists None. cbn [rel4u_cond_signal]. rewrite Ew. eauto.
Qed.

(** C34. No wake-up is lost.  On a queue whose pushes notify, used by any number of
    threads in any interleaving, with waits that time out or end for no reason:
    whenever a thread waits although messages are queued, at least one other
    thread per queued message is on its way to the queue or about to signal, and
    the program is not stuck: the thread that has the mutex, or a woken one, can
    go on. *)
Theorem no_lost_wakeup q b n s t w :
  q_rep q b -> reach notified_call (initial q n) s ->
  sh_threads s !! t = Some (Waiting w) -> 0 < q_count (sh_queue s) ->
  q_count (sh_queue s) <= tally awake (sh_threads s) /\
  exists u p choice s', sh_threads s !! u = Some p /\ (critical p = true \/ awake p = true) /\
    step s (Run u choice) = Some s'.
Proof.
  intros Hr H Ht Hc. destruct (reach_notified _ _ _ _ Hr H) as ([He _ _ _ Hi] & _).
  assert (Hn : q_count (sh_queue s) <= tally awake (sh_threads s)) by (apply Hi; by eapply tally_lookup).
  split; [done|]. destruct (sh_mutex s) as [u|] eqn:Em.
  - destruct (proj1 (He u) eq_refl) as (p & Hp & Cp).
    destruct (critical_runs _ _ _ Hp Cp) as (choice & s' & E). exists u, p, choice, s'. eauto.
  - destruct (tally_pos awake (sh_threads s)) as (u & p & Hp & Ap); [lia|].
    destruct (critical p) eqn:Cp; [by assert (None = Some u) by (apply He; eauto)|].
    destruct p as [|c|c|c q0|e r|w'|w'|w'|w' b'|w' b'|w'|w' q0|r ow]; try done.
    exists u, (Waking w' b'), None. eexists. split; [done|]. split; [by right|].
    cbn [step]. rewrite Hp. cbn [statement]. unfold acquire. rewrite Em. reflexivity.
Qed.

(** [rel4u_mpmc_wake_all] releases everybody who waits: in any interleaving a
    thread that waits has entered the queue since the last change of the
    generation, unless the broadcast that will wake it is still to come, and no
    thread with an older generation goes back to sleep. *)
Theorem wake_all_releases q b n s :
  q_rep q b -> reach notified_call (initial q n) s ->
  (forall t w, sh_threads s !! t = Some (Waiting w) ->
     w_gen w = q_wake_generation (sh_queue s) \/ broadcasting (sh_threads s)) /\
  (forall t w, sh_threads s !! t = Some (Sleeping w) -> w_gen w = q_wake_generation (sh_queue s)) /\
  (forall t r, sh_threads s !! t = Some (Notifying Broadcast r) ->
     exists s', step s (Run t None) = Some s' /\ tally is_waiting (sh_threads s') = 0).
Proof.
  intros Hr H. destruct (reach_notified _ _ _ _ Hr H) as (_ & Hg & Hi). split; [exact Hi|]. split.
  - intros t w Ht. rewrite Forall_lookup in Hg. exact (Hg _ _ Ht).
  - intros t r Ht. eexists. cbn [step]. rewrite Ht. split; [reflexivity|]. cbn [sh_threads].
    erewrite tally_insert by (by eapply broadcast_lookup). rewrite tally_broadcast. done.
Qed.

(** C35. The blocking pop of interleaved threads is the function of [Mpmc]: what a
    thread is about to return is what [rel4u_mpmc_pop_wait] returns on the queue
    the call found, for the wake-ups it has seen; and only the thread that has the
    mutex is inside. *)
Theorem pop_wait_atomic q b n s :
  q_rep q b -> reach notified_call (initial q n) s ->
  (forall t ok out w, sh_threads s !! t = Some (Leaving (Popped ok out) (Some w)) ->
     exists q', rel4u_mpmc_pop_wait (w_entry w) (w_out w) (w_timeout w) (w_seen w) = Returned ok q' out) /\
  (forall t u p p', sh_threads s !! t = Some p -> sh_threads s !! u = Some p' ->
     critical p = true -> critical p' = true -> t = u).
Proof.
  intros Hr H. destruct (reach_notified _ _ _ _ Hr H) as ([He _ Hw _ _] & _). split.
  - intros t ok out w Ht. rewrite Forall_lookup in Hw. destruct (Hw _ _ Ht) as [q' E].
    exists q'. unfold pop_wait_of in E. by rewrite app_nil_r in E.
  - intros t u p p' Ht Hu Ct Cu.
    assert (sh_mutex s = Some t) by (apply He; eauto). assert (sh_mutex s = Some u) by (apply He; eauto). congruence.
Qed.

Lemma reach_fifo policy q n s : q_rep q (mk_bqueue [] 0) -> q_full_policy q = policy ->
  reach back_call (initial q n) s ->
  exclusive (sh_mutex s) (sh_threads s) /\ Forall (wait_ok (sh_queue s)) (sh_threads s) /\
  Forall (calls_ok back_call) (sh_threads s) /\ fifo_inv policy (sh_queue s, sh_history s).
Proof.
  intros Hr Hp H. induction H as [|s l s' _ (IHe & IHw & IHc & IHf) Hl E].
  - split_and!; [apply initial_exclusive|by apply initial_forall|by apply initial_forall|].
    by exists (mk_bqueue [] 0).
  - split_and!; [by eapply step_exclusive| |by eapply step_calls|by eapply step_fifo].
    eapply step_forall; [apply move_wait_ok|done|apply wait_ok_frame|done|exact E|done].
Qed.

(** C33. First in, first out across threads: from a fresh queue filled at the back, over
    any interleaving of the statements of any number of threads that push, pop
    with and without waiting and wake each other, the messages handed to all the
    poppers together, in the order of their turns, followed by those still queued
    are the accepted ones in the order of acceptance, each once at most; with the
    DROP_NEW policy nothing is missing.  A thread reads the queue in one step and
    writes it back in a later one: it is the mutex that keeps a push or pop of
    another thread from being overwritten in between. *)
Theorem threads_fifo policy q n s :
  q_rep q (mk_bqueue [] 0) -> q_full_policy q = policy -> reach back_call (initial q n) s ->
  exists queued, q_count (sh_queue s) = Z.of_nat (length queued) /\
    sublist (hi_popped (sh_history s) ++ queued) (hi_accepted (sh_history s)) /\
    (policy = REL4U_QUEUE_FULL_DROP_NEW ->
     hi_popped (sh_history s) ++ queued = hi_accepted (sh_history s)).
Proof.
  intros Hr Hp H. destruct (reach_fifo _ _ _ _ Hr Hp H) as (_ & _ & _ & b & Hb & _ & S).
  exists (bq_msgs b). split; [by apply q_rep_count|exact S].
Qed.
End theorems.

(** ** Witnesses *)

(** Two consumers wait, a producer pushes a message and has not yet signalled. *)
Definition sample_labels : list label :=
  [Call 0 (DoPopWait item_zero (-1)); Run 0 None; Run 0 None; Run 0 None; Run 0 None;
   Call 1 (DoPopWait item_zero 5); Run 1 None; Run 1 None; Run 1 None; Run 1 None;
   Call 2 (DoPushNotify (sample_item 7)); Run 2 None; Run 2 None; Run 2 None].

(** The first consumer is woken and takes the message, the second wakes up, finds
    nothing and gives up. *)
Definition sample_rest : list label :=
  [Run 2 (Some 0%nat); Run 2 None; Run 0 None; Run 0 None; Run 0 None; Run 0 None; Run 0 None; Run 0 None;
   Wakeup 1 false; Run 1 None; Run 1 None].

Lemma sample_labels_ok : Forall (label_ok notified_call) (sample_labels ++ sample_rest) /\
  Forall (label_ok back_call) (sample_labels ++ sample_rest).
Proof. split; repeat constructor; apply sample_item_wf. Qed.

Definition sample_mid : shared := Eval vm_compute in
  default (initial sample_dynamic 3) (steps (initial sample_dynamic 3) sample_labels).
Definition sample_end : shared := Eval vm_compute in
  default (initial sample_dynamic 3) (steps (initial sample_dynamic 3) (sample_labels ++ sample_rest)).
Lemma sample_mid_eq : steps (initial sample_dynamic 3) sample_labels = Some sample_mid.
Proof. vm_compute. reflexivity. Qed.
Lemma sample_end_eq : steps (initial sample_dynamic 3) (sample_labels ++ sample_rest) = Some sample_end.
Proof. vm_compute. reflexivity. Qed.

Lemma sample_mid_reach : reach notified_call (initial sample_dynamic 3) sample_mid.
Proof.
  eapply steps_reach; [apply reach_start| |apply sample_mid_eq].
  destruct sample_labels_ok as [H _]. by apply Forall_app in H as [H _].
Qed.
Lemma sample_end_reach : reach notified_call (initial sample_dynamic 3) sample_end /\
  reach back_call (initial sample_dynamic 3) sample_end.
Proof.
  split; (eapply steps_reach; [apply reach_start| |apply sample_end_eq]); apply sample_labels_ok.
Qed.

Lemma no_lost_wakeup_witness :
  q_count (sh_queue sample_mid) = 1 /\ tally is_waiting (sh_threads sample_mid) = 2 /\
  q_count (sh_queue sample_mid) <= tally awake (sh_threads sample_mid).
Proof.
  split; [reflexivity|]. split; [reflexivity|].
  eapply (no_lost_wakeup sample_dynamic (mk_bqueue [] 0) 3 sample_mid 0);
    [apply sample_dynamic_rep|apply sample_mid_reach|reflexivity|reflexivity].
Defined.

Lemma wake_all_releases_witness : exists w,
  sh_threads sample_mid !! 1%nat = Some (Waiting w) /\
  (w_gen w = q_wake_generation (sh_queue sample_mid) \/ broadcasting (sh_threads sample_mid)).
Proof.
  eexists. split; [reflexivity|].
  eapply (proj1 (wake_all_releases sample_dynamic (mk_bqueue [] 0) 3 sample_mid sample_dynamic_rep sample_mid_reach)
    1%nat). reflexivity.
Defined.

Lemma pop_wait_atomic_witness : exists w q',
  sh_threads sample_end !! 1%nat = Some (Leaving (Popped false item_zero) (Some w)) /\ length (w_seen w) = 1%nat /\
  rel4u_mpmc_pop_wait (w_entry w) (w_out w) (w_timeout w) (w_seen w) = Returned false q' item_zero.
Proof.
  destruct (pop_wait_atomic sample_dynamic (mk_bqueue [] 0) 3 sample_end sample_dynamic_rep
    (proj1 sample_end_reach)) as [P _].
  specialize (P 1%nat false item_zero _ eq_refl). destruct P as [q' E].
  eexists _, q'. split; [reflexivity|]. split; [|exact E]. reflexivity.
Defined.

Lemma threads_fifo_witness :
  hi_popped (sh_history sample_end) = [mk_msg 7 3 [7; 8]] /\
  exists queued, hi_popped (sh_history sample_end) ++ queued = hi_accepted (sh_history sample_end).
Proof.
  split; [reflexivity|].
  destruct (threads_fifo REL4U_QUEUE_FULL_DROP_NEW sample_dynamic 3 sample_end sample_dynamic_rep eq_refl
    (proj2 sample_end_reach)) as (queued & _ & _ & H).
  exists queued. apply H. reflexivity.
Defined.
