(* ===== verification/SendWindow.v ===== *)
(** * Send window: definitions

    The sender half of [src/core/rel4u_window.{h,c}]: a ring of slots that keep
    every reliable packet until it is acknowledged.  A slot's payload array is
    represented by the prefix of it that has been written; the bytes after that
    are the zeros of [calloc] and are never read. *)
From S2P Require Import Prelude Ring Types Seq Rtt Mpmc.
From stdpp Require Import base numbers list gmap.
Open Scope Z_scope.
Open Scope rel4u_scope.

Record rel4u_send_slot := mk_send_slot {
  ss_seq_num : Z;
  ss_first_sent_time_ns : Z;
  ss_last_sent_time_ns : Z;
  ss_payload_len : Z;
  ss_retransmit_count : Z;
  ss_delivery_mode : Z;
  ss_in_use : bool;
  ss_acked : bool;
  ss_payload : list Z
}.
#[export] Instance eta_send_slot : Eta rel4u_send_slot := fun s =>
  mk_send_slot (ss_seq_num s) (ss_first_sent_time_ns s) (ss_last_sent_time_ns s)
    (ss_payload_len s) (ss_retransmit_count s) (ss_delivery_mode s) (ss_in_use s) (ss_acked s)
    (ss_payload s).

(** A zeroed slot, as [calloc] and [memset] leave it. *)
Definition send_slot_zero : rel4u_send_slot := mk_send_slot 0 0 0 0 0 0 false false [].
#[export] Instance send_slot_inhabited : Inhabited rel4u_send_slot := populate send_slot_zero.

Record rel4u_send_window := mk_send_window {
  sw_slots : list rel4u_send_slot;
  sw_capacity : Z;
  sw_head_seq : Z;
  sw_next_seq : Z;
  sw_next_unrel_seq : Z;
  sw_in_flight : Z
}.
#[export] Instance eta_send_window : Eta rel4u_send_window := fun w =>
  mk_send_window (sw_slots w) (sw_capacity w) (sw_head_seq w) (sw_next_seq w)
    (sw_next_unrel_seq w) (sw_in_flight w).

Definition send_window_zero : rel4u_send_window := mk_send_window [] 0 0 0 0 0.

(** [alloc_ok]: whether [calloc] gives the slots. *)
Definition rel4u_send_window_init (win : rel4u_send_window) (capacity initial_seq : Z)
    (alloc_ok : bool) : Z * rel4u_send_window :=
  if (capacity <? 2) || negb (is_pow2 capacity) then (-1, win) else
  if negb alloc_ok then (-1, win <| sw_slots := [] |>) else
  let win := win <| sw_slots := replicate (Z.to_nat capacity) send_slot_zero |> in
  let win := win <| sw_capacity := capacity |> in
  let win := win <| sw_head_seq := initial_seq |> <| sw_next_seq := initial_seq |> in
  (0, win <| sw_next_unrel_seq := initial_seq |> <| sw_in_flight := 0 |>).

Definition rel4u_send_window_destroy (win : rel4u_send_window) : rel4u_send_window :=
  win <| sw_slots := [] |> <| sw_capacity := 0 |> <| sw_in_flight := 0 |>.

Definition rel4u_send_window_can_send (win : rel4u_send_window) : bool :=
  (sw_in_flight win <? sw_capacity win) &&
  (rel4u_seq_diff (sw_next_seq win) (sw_head_seq win) <? s32 (sw_capacity win)).

(** The index of a sequence number's slot, [seq & (capacity - 1)]. *)
Definition send_slot_idx (win : rel4u_send_window) (seq : Z) : Z :=
  Z.land seq (u32 (sw_capacity win - 1)).

(** What a push writes to the slot it takes. *)
Definition push_fill (slot : rel4u_send_slot) (seq mode : Z) (data : list Z) (len now_ns : Z)
  : rel4u_send_slot :=
  let slot := slot <| ss_seq_num := seq |> <| ss_first_sent_time_ns := now_ns |>
                   <| ss_last_sent_time_ns := now_ns |> <| ss_payload_len := u16 len |>
                   <| ss_retransmit_count := 0 |> <| ss_delivery_mode := u8 mode |>
                   <| ss_in_use := true |> <| ss_acked := false |> in
  slot <| ss_payload := memcpy (ss_payload slot) data len |>.

(** The result code, the window and [*out_seq] (when it is written). *)
Definition rel4u_send_window_push (win : rel4u_send_window) (mode : Z) (data : list Z) (len : Z)
    (now_ns : Z) : Z * rel4u_send_window * option Z :=
  if len >? REL4U_MAX_PAYLOAD_SIZE then (-1, win, None) else
  if mode_reliable mode then
    if (sw_in_flight win >=? sw_capacity win) ||
       (rel4u_seq_diff (sw_next_seq win) (sw_head_seq win) >=? s32 (sw_capacity win))
    then (-2, win, None) else
    let seq := sw_next_seq win in
    let win := win <| sw_next_seq := u32 (sw_next_seq win + 1) |> in
    let slot_idx := send_slot_idx win seq in
    let slot := sw_slots win !. slot_idx in
    let slot := push_fill slot seq mode data len now_ns in
    let win := win <| sw_slots := arr_set (sw_slots win) slot_idx slot |> in
    (0, win <| sw_in_flight := u32 (sw_in_flight win + 1) |>, Some seq)
  else
    let seq := sw_next_unrel_seq win in
    (0, win <| sw_next_unrel_seq := u32 (sw_next_unrel_seq win + 1) |>, Some seq).

(** ** Acknowledgements *)

(** The RTT sample taken when a packet that was never retransmitted is
    acknowledged; [rtt] and [stats] may be NULL. *)
Definition ack_rtt_sample (slot : rel4u_send_slot) (now_ns : Z)
    (rtt : option rel4u_rtt) (stats : option rel4u_stats) : option rel4u_rtt * option rel4u_stats :=
  match rtt with
  | Some r =>
      if (ss_retransmit_count slot =? 0) && (now_ns >=? ss_first_sent_time_ns slot) then
        let rtt_sample_ns := u64 (now_ns - ss_first_sent_time_ns slot) in
        let rtt_sample_ms := u32 (rtt_sample_ns / 1000000) in
        let r := rel4u_rtt_update_sample r rtt_sample_ms in
        (Some r,
         match stats with
         | Some s => Some (s <| st_current_rtt_ms := r_srtt_ms r |> <| st_current_rto_ms := r_rto_ms r |>)
         | None => None
         end)
      else (rtt, stats)
  | None => (rtt, stats)
  end.

(** Marking the slot [slot_idx] acknowledged: the flag, the in-flight count and
    the RTT sample. *)
Definition ack_slot (win : rel4u_send_window) (slot_idx : Z) (now_ns : Z)
    (rtt : option rel4u_rtt) (stats : option rel4u_stats)
  : rel4u_send_window * option rel4u_rtt * option rel4u_stats :=
  let slot := sw_slots win !. slot_idx in
  let win := win <| sw_slots := arr_set (sw_slots win) slot_idx (slot <| ss_acked := true |>) |> in
  let win := if sw_in_flight win >? 0 then win <| sw_in_flight := sw_in_flight win - 1 |> else win in
  let '(rtt, stats) := ack_rtt_sample slot now_ns rtt stats in
  (win, rtt, stats).

(** One turn of the cumulative loop: the slot at the head. *)
Definition ack_head (win : rel4u_send_window) (now_ns : Z)
    (rtt : option rel4u_rtt) (stats : option rel4u_stats)
  : rel4u_send_window * option rel4u_rtt * option rel4u_stats :=
  let slot_idx := send_slot_idx win (sw_head_seq win) in
  let slot := sw_slots win !. slot_idx in
  let '(win, rtt, stats) :=
    if ss_in_use slot && (ss_seq_num slot =? sw_head_seq win) then
      let '(win, rtt, stats) :=
        if negb (ss_acked slot) then ack_slot win slot_idx now_ns rtt stats else (win, rtt, stats) in
      let slot := sw_slots win !. slot_idx in
      (win <| sw_slots := arr_set (sw_slots win) slot_idx (slot <| ss_in_use := false |>) |>, rtt, stats)
    else (win, rtt, stats) in
  (win <| sw_head_seq := u32 (sw_head_seq win + 1) |>, rtt, stats).

(** [while (seq_lte(head, ack) && head != next)]. *)
Fixpoint ack_cumulative (fuel : nat) (win : rel4u_send_window) (ack_num now_ns : Z)
    (rtt : option rel4u_rtt) (stats : option rel4u_stats)
  : rel4u_send_window * option rel4u_rtt * option rel4u_stats :=
  match fuel with
  | O => (win, rtt, stats)
  | S fuel =>
      if rel4u_seq_lte (sw_head_seq win) ack_num && negb (sw_head_seq win =? sw_next_seq win) then
        let '(win, rtt, stats) := ack_head win now_ns rtt stats in
        ack_cumulative fuel win ack_num now_ns rtt stats
      else (win, rtt, stats)
  end.

(** One turn of the SACK loop: bit [i] of the mask. *)
Definition ack_selective (ack_num sack_mask now_ns : Z)
    (s : rel4u_send_window * option rel4u_rtt * option rel4u_stats) (i : Z)
  : rel4u_send_window * option rel4u_rtt * option rel4u_stats :=
  let '(win, rtt, stats) := s in
  if Z.land sack_mask (Z.shiftl 1 i) =? 0 then (win, rtt, stats) else
  let sack_seq := u32 (u32 (ack_num + 1) + i) in
  if rel4u_seq_lt sack_seq (sw_next_seq win) && rel4u_seq_gte sack_seq (sw_head_seq win) then
    let slot_idx := send_slot_idx win sack_seq in
    let slot := sw_slots win !. slot_idx in
    if ss_in_use slot && (ss_seq_num slot =? sack_seq) && negb (ss_acked slot)
    then ack_slot win slot_idx now_ns rtt stats
    else (win, rtt, stats)
  else (win, rtt, stats).

(** The head moves towards [next_seq] and stops there, so [next - head] turns
    are enough for the cumulative loop. *)
Definition rel4u_send_window_on_ack (win : rel4u_send_window) (ack_num sack_mask now_ns : Z)
    (rtt : option rel4u_rtt) (stats : option rel4u_stats)
  : rel4u_send_window * option rel4u_rtt * option rel4u_stats :=
  let s := ack_cumulative (Z.to_nat (u32 (sw_next_seq win - sw_head_seq win))) win ack_num now_ns
             rtt stats in
  if negb (sack_mask =? 0) then foldl (ack_selective ack_num sack_mask now_ns) s (seqZ 0 32) else s.

(** ** Retransmission *)

(** [for (seq = head; seq_lt(seq, next); seq++)], from [seq]; the result is the
    indices of the slots that [out_slots] points to. *)
Fixpoint expired_loop (fuel : nat) (win : rel4u_send_window) (now_ns rto_ns max_slots seq : Z)
    (out : list Z) : list Z :=
  match fuel with
  | O => out
  | S fuel =>
      if rel4u_seq_lt seq (sw_next_seq win) then
        let slot_idx := send_slot_idx win seq in
        let slot := sw_slots win !. slot_idx in
        if ss_in_use slot && (ss_seq_num slot =? seq) && negb (ss_acked slot) &&
           ((now_ns >=? ss_last_sent_time_ns slot) &&
            (u64 (now_ns - ss_last_sent_time_ns slot) >=? rto_ns))
        then
          let out := out ++ [slot_idx] in
          if Z.of_nat (length out) >=? max_slots then out
          else expired_loop fuel win now_ns rto_ns max_slots (u32 (seq + 1)) out
        else expired_loop fuel win now_ns rto_ns max_slots (u32 (seq + 1)) out
      else out
  end.

Definition rel4u_send_window_get_expired (win : rel4u_send_window) (now_ns rto_ms max_slots : Z)
  : list Z :=
  if max_slots =? 0 then [] else
  let rto_ns := u64 (rto_ms * 1000000) in
  expired_loop (Z.to_nat (u32 (sw_next_seq win - sw_head_seq win))) win now_ns rto_ns max_slots
    (sw_head_seq win) [].

(** What both worker threads write to an expired slot before they resend it. *)
Definition send_slot_retransmit (win : rel4u_send_window) (slot_idx now_ns : Z) : rel4u_send_window :=
  let slot := sw_slots win !. slot_idx in
  win <| sw_slots := arr_set (sw_slots win) slot_idx
           (slot <| ss_last_sent_time_ns := now_ns |>
                 <| ss_retransmit_count := u8 (ss_retransmit_count slot + 1) |>) |>.

(** The retransmission loop of both worker threads: the slots are updated one by
    one, and each is sent as it is then. *)
Definition resend (now_ns : Z) (acc : rel4u_send_window * list rel4u_send_slot) (slot_idx : Z)
  : rel4u_send_window * list rel4u_send_slot :=
  let win := send_slot_retransmit (fst acc) slot_idx now_ns in
  (win, snd acc ++ [sw_slots win !. slot_idx]).
Definition retransmit_all (win : rel4u_send_window) (now_ns : Z) (expired : list Z)
  : rel4u_send_window * list rel4u_send_slot := foldl (resend now_ns) (win, []) expired.

(** ** Reset and reclaim *)

Definition rel4u_send_window_reset (win : rel4u_send_window) (initial_seq : Z)
  : Z * rel4u_send_window :=
  if (length (sw_slots win) =? 0)%nat || (sw_capacity win =? 0) then (-1, win) else
  let win := win <| sw_slots := replicate (Z.to_nat (sw_capacity win)) send_slot_zero |> in
  let win := win <| sw_head_seq := initial_seq |> <| sw_next_seq := initial_seq |> in
  (0, win <| sw_next_unrel_seq := initial_seq |> <| sw_in_flight := 0 |>).

Section reclaim.
Context {allocator : Malloc}.

(** [for (seq = next; seq_gt(seq, head); seq--)], from [seq]. *)
Fixpoint reclaim_loop (fuel : nat) (win : rel4u_send_window) (queue : rel4u_mpmc_queue)
    (seq reclaimed : Z) : Z * rel4u_mpmc_queue :=
  match fuel with
  | O => (reclaimed, queue)
  | S fuel =>
      if rel4u_seq_gt seq (sw_head_seq win) then
        let current_seq := u32 (seq - 1) in
        let slot := sw_slots win !. send_slot_idx win current_seq in
        let '(reclaimed, queue) :=
          if ss_in_use slot && (ss_seq_num slot =? current_seq) && negb (ss_acked slot) &&
             mode_reliable (ss_delivery_mode slot)
          then
            let item := mk_item 0 (ss_delivery_mode slot) (ss_payload_len slot)
                          (memcpy [] (ss_payload slot) (ss_payload_len slot)) in
            let '(ok, queue, _) := rel4u_mpmc_push_front queue item in
            (if ok then reclaimed + 1 else reclaimed, queue)
          else (reclaimed, queue) in
        reclaim_loop fuel win queue (u32 (seq - 1)) reclaimed
      else (reclaimed, queue)
  end.

Definition rel4u_send_window_reclaim_unacked (win : rel4u_send_window) (queue : rel4u_mpmc_queue)
  : Z * rel4u_mpmc_queue :=
  if (length (sw_slots win) =? 0)%nat then (0, queue) else
  if rel4u_seq_gt (sw_next_seq win) (sw_head_seq win) then
    reclaim_loop (Z.to_nat (u32 (sw_next_seq win - sw_head_seq win))) win queue (sw_next_seq win) 0
  else (0, queue).
End reclaim.
