(* ===== verification/SendSpec.v ===== *)
(** * Send window: representation and operations

    A send window holds the run of reliable packets that are not yet
    cumulatively acknowledged.  [send_rep w h es] says that [w] holds the
    entries [es], oldest first, of the stream positions [h], [h + 1], ...; the
    sequence number of position [p] is [u32 p].  Each operation is proved to do
    on [w] what a list operation does on [es]. *)
From S2P Require Import Prelude Ring Types Seq Rtt Mpmc MpmcSpec Queue SendWindow.
From stdpp Require Import base numbers list gmap.
Open Scope Z_scope.
Open Scope rel4u_scope.

(** ** The representation *)

(** The entry of position [p]: a slot filled by a push. *)
Record entry_ok (p : Z) (e : rel4u_send_slot) : Prop := {
  eo_in_use : ss_in_use e = true;
  eo_seq : ss_seq_num e = u32 p;
  eo_mode : mode_reliable (ss_delivery_mode e) = true;
  eo_last : is_u64 (ss_last_sent_time_ns e);
  eo_len : 0 <= ss_payload_len e <= REL4U_MAX_PAYLOAD_SIZE;
  eo_data : ss_payload_len e <= Z.of_nat (length (ss_payload e))
}.

(** The entries the peer has not acknowledged. *)
Definition unacked (es : list rel4u_send_slot) : list rel4u_send_slot :=
  filter (fun e => ss_acked e = false) es.

Record send_rep (w : rel4u_send_window) (h : Z) (es : list rel4u_send_slot) : Prop := {
  sr_cap : cap_ok (sw_capacity w);
  sr_slots : Z.of_nat (length (sw_slots w)) = sw_capacity w;
  sr_head : sw_head_seq w = u32 h;
  sr_next : sw_next_seq w = u32 (h + Z.of_nat (length es));
  sr_fits : Z.of_nat (length es) <= sw_capacity w;
  sr_view : es = ring_view (sw_slots w) (sw_capacity w) h (Z.of_nat (length es));
  sr_entries : forall i e, es !! i = Some e -> entry_ok (h + Z.of_nat i) e;
  sr_flight : sw_in_flight w = Z.of_nat (length (unacked es))
}.

Lemma unacked_length es : (length (unacked es) <= length es)%nat.
Proof. apply length_filter. Qed.

Lemma unacked_app l1 l2 : unacked (l1 ++ l2) = unacked l1 ++ unacked l2.
Proof. apply filter_app. Qed.

Lemma unacked_single e : unacked [e] = if ss_acked e then [] else [e].
Proof. unfold unacked. rewrite filter_cons, filter_nil. by destruct (ss_acked e); case_decide. Qed.

Lemma send_rep_cap_pos w h es : send_rep w h es -> 0 < sw_capacity w.
Proof. intros [[] _ _ _ _ _ _ _]. lia. Qed.

(** The slot that a wire sequence number selects is the one of its position. *)
Lemma send_slot_idx_mod w p : cap_ok (sw_capacity w) ->
  send_slot_idx w (u32 p) = p mod sw_capacity w.
Proof.
  intros Hc. unfold send_slot_idx. rewrite (u32_small (_ - 1)) by (destruct Hc; word_lia).
  by apply land_mask.
Qed.

(** Reading and writing the slot of an entry. *)
Lemma send_slot_get w h es k e : send_rep w h es -> 0 <= k -> es !! Z.to_nat k = Some e ->
  sw_slots w !. send_slot_idx w (u32 (h + k)) = e.
Proof.
  intros R Hk He. rewrite send_slot_idx_mod by apply R.
  assert (k < Z.of_nat (length es)) by (apply lookup_lt_Some in He; lia).
  rewrite (sr_view _ _ _ R), ring_view_lookup in He by lia. by injection He.
Qed.

Lemma send_slots_set w h es k e : send_rep w h es -> 0 <= k < Z.of_nat (length es) ->
  let l := arr_set (sw_slots w) (send_slot_idx w (u32 (h + k))) e in
  Z.of_nat (length l) = sw_capacity w /\
  <[Z.to_nat k := e]> es = ring_view l (sw_capacity w) h (Z.of_nat (length es)).
Proof.
  intros R Hk. cbv zeta. rewrite send_slot_idx_mod by apply R.
  change (arr_set ?l (?p mod ?c) ?x) with (ring_set l c p x).
  rewrite ring_set_length, (sr_slots _ _ _ R). split; [done|].
  rewrite ring_view_set_in, <- (sr_view _ _ _ R);
    [done|by eapply send_rep_cap_pos|apply R|apply R|done].
Qed.

(** Replacing an entry by another of the same position. *)
Lemma send_rep_set w h es k e n : send_rep w h es ->
  0 <= k < Z.of_nat (length es) -> entry_ok (h + k) e ->
  n = Z.of_nat (length (unacked (<[Z.to_nat k := e]> es))) ->
  send_rep (w <| sw_slots := arr_set (sw_slots w) (send_slot_idx w (u32 (h + k))) e |>
              <| sw_in_flight := n |>) h (<[Z.to_nat k := e]> es).
Proof.
  intros R Hk He Hn. destruct (send_slots_set w h es k e R Hk) as [Hl Hv].
  constructor; cbn; rewrite ?length_insert; try apply R; [done|done| |done].
  intros i x Hx. destruct (decide (i = Z.to_nat k)) as [->|Hne].
  - rewrite list_lookup_insert_eq in Hx by lia. injection Hx as <-. by rewrite Z2Nat.id by lia.
  - rewrite list_lookup_insert_ne in Hx by done. by apply R.
Qed.

(** ** Initialisation, reset and push *)

Lemma fresh_rep slots c s un : cap_ok c -> is_u32 s -> Z.of_nat (length slots) = c ->
  send_rep (mk_send_window slots c s s un 0) s [].
Proof. intros. constructor; cbn; try done; rewrite ?Z.add_0_r, ?u32_small; try done. destruct H. lia. Qed.

(** The loops and tests compare the ends of the window as positions. *)
Lemma send_diff w h es : send_rep w h es ->
  rel4u_seq_diff (sw_next_seq w) (sw_head_seq w) = Z.of_nat (length es).
Proof.
  intros R. rewrite (sr_head _ _ _ R), (sr_next _ _ _ R), seq_diff_near; [lia|].
  pose proof (sr_cap _ _ _ R) as [? _]. pose proof (sr_fits _ _ _ R). unfold near. lia.
Qed.

Lemma send_fuel w h es : send_rep w h es ->
  Z.to_nat (u32 (sw_next_seq w - sw_head_seq w)) = length es.
Proof.
  intros R. rewrite (sr_head _ _ _ R), (sr_next _ _ _ R).
  pose proof (sr_cap _ _ _ R) as [? _]. pose proof (sr_fits _ _ _ R).
  autorewrite with rel4u. rewrite u32_small; [lia|word_lia].
Qed.

Lemma send_flight_le w h es : send_rep w h es -> sw_in_flight w <= Z.of_nat (length es).
Proof. intros R. rewrite (sr_flight _ _ _ R). pose proof (unacked_length es). lia. Qed.

Lemma s32_cap w h es : send_rep w h es -> s32 (sw_capacity w) = sw_capacity w.
Proof. intros R. pose proof (sr_cap _ _ _ R) as [? _]. word_lia. Qed.

(** The full-window test of [push] is the negation of [can_send]. *)
Lemma can_send_spec w h es : send_rep w h es ->
  rel4u_send_window_can_send w = (Z.of_nat (length es) <? sw_capacity w).
Proof.
  intros R. unfold rel4u_send_window_can_send.
  rewrite (send_diff _ _ _ R), (s32_cap _ _ _ R). pose proof (send_flight_le _ _ _ R). lia.
Qed.

Lemma push_full_test w h es : send_rep w h es ->
  (sw_in_flight w >=? sw_capacity w) ||
  (rel4u_seq_diff (sw_next_seq w) (sw_head_seq w) >=? s32 (sw_capacity w))
  = (Z.of_nat (length es) >=? sw_capacity w).
Proof.
  intros R. rewrite (send_diff _ _ _ R), (s32_cap _ _ _ R). pose proof (send_flight_le _ _ _ R). lia.
Qed.

(** The entry that a push of [len] bytes of [data] leaves for position [p]. *)
Definition pushed_entry (p mode len now_ns : Z) (payload : list Z) : rel4u_send_slot :=
  mk_send_slot (u32 p) now_ns now_ns len 0 mode true false payload.

Lemma pushed_entry_ok p mode len now payload :
  mode_reliable mode = true -> is_u64 now -> 0 <= len <= REL4U_MAX_PAYLOAD_SIZE ->
  len <= Z.of_nat (length payload) -> entry_ok p (pushed_entry p mode len now payload).
Proof. by constructor. Qed.

(** Appending an entry at [next_seq]. *)
Lemma send_rep_snoc w h es e : send_rep w h es ->
  Z.of_nat (length es) < sw_capacity w -> entry_ok (h + Z.of_nat (length es)) e -> ss_acked e = false ->
  let p := h + Z.of_nat (length es) in
  send_rep (w <| sw_next_seq := u32 (p + 1) |>
              <| sw_slots := arr_set (sw_slots w) (send_slot_idx w (u32 p)) e |>
              <| sw_in_flight := u32 (sw_in_flight w + 1) |>) h (es ++ [e]).
Proof.
  intros R Hn He Ha. cbv zeta. set (n := Z.of_nat (length es)) in *.
  pose proof (sr_cap _ _ _ R) as [Hc _]. pose proof (send_rep_cap_pos _ _ _ R).
  constructor; cbn; rewrite ?length_app; cbn; rewrite ?Nat2Z.inj_add; change (Z.of_nat 1) with 1;
    fold n; try apply R; rewrite ?send_slot_idx_mod by apply R;
    change (arr_set ?l (?q mod ?c) ?x) with (ring_set l c q x).
  - by rewrite ring_set_length, (sr_slots _ _ _ R).
  - f_equal. lia.
  - lia.
  - rewrite ring_view_snoc by lia. rewrite ring_view_set_out by lia.
    rewrite ring_at_set_eq; [|lia|apply R|done]. f_equal. apply R.
  - intros i x [Hx|[Hi Hx]]%lookup_app_Some; [by apply R|].
    destruct (i - length es)%nat eqn:E; [|done]. injection Hx as <-.
    replace (Z.of_nat i) with n by lia. done.
  - rewrite unacked_app, length_app. unfold unacked at 2. rewrite filter_cons_True by done.
    cbn. pose proof (send_flight_le _ _ _ R). rewrite (sr_flight _ _ _ R) in *. rewrite u32_small; [lia|].
    word_lia.
Qed.

Lemma push_fill_eq slot p mode data len now :
  mode_reliable mode = true -> 0 <= len <= REL4U_MAX_PAYLOAD_SIZE ->
  push_fill slot (u32 p) mode data len now =
  pushed_entry p mode len now (memcpy (ss_payload slot) data len).
Proof.
  intros Hm Hl. assert (Hmode : u8 mode = mode).
  { apply mode_reliable_true in Hm as [->| ->]; reflexivity. }
  assert (Hlen : u16 len = len) by (unfold REL4U_MAX_PAYLOAD_SIZE in *; word_lia).
  unfold push_fill. rewrite Hmode, Hlen. by destruct slot.
Qed.

Lemma push_reliable w h es mode data len now :
  send_rep w h es -> mode_reliable mode = true -> is_u64 now -> 0 <= len <= Z.of_nat (length data) ->
  len <= REL4U_MAX_PAYLOAD_SIZE ->
  let p := h + Z.of_nat (length es) in
  if Z.of_nat (length es) <? sw_capacity w then
    exists w' payload, rel4u_send_window_push w mode data len now = (0, w', Some (u32 p)) /\
      send_rep w' h (es ++ [pushed_entry p mode len now payload]) /\
      take (Z.to_nat len) payload = take (Z.to_nat len) data /\
      sw_capacity w' = sw_capacity w /\ sw_next_unrel_seq w' = sw_next_unrel_seq w
  else rel4u_send_window_push w mode data len now = (-2, w, None).
Proof.
  intros R Hm Hnow Hl Hmax. cbv zeta. unfold rel4u_send_window_push.
  rewrite (push_full_test _ _ _ R), Hm. destruct (Z.gtb_spec len REL4U_MAX_PAYLOAD_SIZE); [lia|].
  destruct (Z.ltb_spec (Z.of_nat (length es)) (sw_capacity w)) as [Hn|Hn].
  2:{ by rewrite (proj2 (Z.geb_le _ _) Hn). }
  destruct (Z.geb_spec (Z.of_nat (length es)) (sw_capacity w)); [lia|].
  destruct w as [slots c hd nx un fl]. pose proof (sr_next _ _ _ R) as E. cbn in E. subst nx.
  cbn -[u32 send_slot_idx]. set (sl := slots !. _).
  rewrite push_fill_eq by (done || lia). eexists _, _. split; [reflexivity|].
  split; [|split; [apply memcpy_take; lia|done]]. rewrite u32_add_l.
  apply (send_rep_snoc _ h es _ R); [done| |done].
  apply pushed_entry_ok; [done|done|lia|]. unfold memcpy. rewrite length_app, length_take. lia.
Qed.

(** ** Round-trip samples *)

(** Karn's rule: an acknowledged entry gives a sample, in milliseconds since it
    was first sent, only when it was never sent again. *)
Definition rtt_sample (now_ns : Z) (e : rel4u_send_slot) : option Z :=
  if (ss_retransmit_count e =? 0) && (now_ns >=? ss_first_sent_time_ns e)
  then Some (u32 (u64 (now_ns - ss_first_sent_time_ns e) / 1000000)) else None.

Definition apply_sample (s : option rel4u_rtt * option rel4u_stats) (ms : Z)
  : option rel4u_rtt * option rel4u_stats :=
  match s with
  | (Some r, stats) =>
      let r := rel4u_rtt_update_sample r ms in
      (Some r, (fun s => s <| st_current_rtt_ms := r_srtt_ms r |>
                           <| st_current_rto_ms := r_rto_ms r |>) <$> stats)
  | (None, stats) => (None, stats)
  end.

(** The estimator and the statistics after the entries [es] are acknowledged. *)
Definition sampled (now_ns : Z) (es : list rel4u_send_slot)
    (s : option rel4u_rtt * option rel4u_stats) : option rel4u_rtt * option rel4u_stats :=
  foldl apply_sample s (omap (rtt_sample now_ns) es).

Lemma sampled_app now l1 l2 s : sampled now (l1 ++ l2) s = sampled now l2 (sampled now l1 s).
Proof. unfold sampled. by rewrite omap_app, foldl_app. Qed.

Lemma ack_rtt_sample_sampled e now rtt stats :
  ack_rtt_sample e now rtt stats = sampled now [e] (rtt, stats).
Proof.
  unfold ack_rtt_sample, sampled. simpl. unfold rtt_sample.
  by destruct rtt; destruct (_ && _).
Qed.

(** ** Acknowledging one entry *)

Definition ack_entry (e : rel4u_send_slot) : rel4u_send_slot := e <| ss_acked := true |>.

Lemma ack_entry_ok p e : entry_ok p e -> entry_ok p (ack_entry e).
Proof. intros []. by constructor. Qed.

Lemma unacked_insert es k e : es !! k = Some e -> ss_acked e = false ->
  S (length (unacked (<[k := ack_entry e]> es))) = length (unacked es).
Proof.
  intros He Ha. assert (k < length es)%nat by eauto using lookup_lt_Some.
  rewrite insert_take_drop by done. rewrite <- (take_drop_middle es k e He) at 3.
  rewrite !unacked_app, !length_app. unfold unacked at 2 4.
  rewrite filter_cons_False by done. rewrite filter_cons_True by done. cbn. lia.
Qed.

(** [frame w w']: the fields that acknowledgements never write. *)
Record send_frame (w w' : rel4u_send_window) : Prop := {
  sf_capacity : sw_capacity w' = sw_capacity w;
  sf_next : sw_next_seq w' = sw_next_seq w;
  sf_unrel : sw_next_unrel_seq w' = sw_next_unrel_seq w
}.
#[export] Instance send_frame_preorder : PreOrder send_frame.
Proof. split; [by constructor|]. intros ??? [] []. constructor; congruence. Qed.

Lemma ack_slot_spec w h es k e now rtt stats : send_rep w h es -> 0 <= k ->
  es !! Z.to_nat k = Some e -> ss_acked e = false ->
  exists w', ack_slot w (send_slot_idx w (u32 (h + k))) now rtt stats
      = (w', fst (sampled now [e] (rtt, stats)), snd (sampled now [e] (rtt, stats))) /\
    send_rep w' h (<[Z.to_nat k := ack_entry e]> es) /\ send_frame w w'.
Proof.
  intros R Hk He Ha. unfold ack_slot. rewrite (send_slot_get _ _ _ _ _ R Hk He).
  rewrite ack_rtt_sample_sampled. destruct (sampled now [e] (rtt, stats)) as [rtt' stats'].
  pose proof (unacked_insert _ _ _ He Ha) as Hu. pose proof (sr_flight _ _ _ R) as Hf.
  cbv zeta. cbn -[Z.gtb Z.sub arr_set]. rewrite (proj2 (Z.gtb_lt (sw_in_flight w) 0)) by lia.
  eexists. split; [reflexivity|]. split; [|by constructor]. apply send_rep_set; [done| | |lia].
  - apply lookup_lt_Some in He. lia.
  - apply ack_entry_ok. rewrite <- (Z2Nat.id k) at 1 by done. by apply R.
Qed.

(** Retiring the head entry, whatever is written to its slot. *)
Lemma send_rep_tail w h e es x : send_rep w h (e :: es) ->
  send_rep (w <| sw_slots := arr_set (sw_slots w) (send_slot_idx w (u32 h)) x |>
              <| sw_head_seq := u32 (h + 1) |>
              <| sw_in_flight := Z.of_nat (length (unacked es)) |>) (h + 1) es.
Proof.
  intros R. destruct (send_slots_set w h (e :: es) 0 x R) as [Hl Hv]; [cbn; lia|].
  rewrite Z.add_0_r in *. pose proof (sr_fits _ _ _ R) as Hf. pose proof (sr_next _ _ _ R) as Hx.
  rewrite length_cons in *. constructor; cbn; try apply R; try done; try lia.
  - rewrite Hx. f_equal. lia.
  - rewrite ring_view_cons in Hv by lia. cbn in Hv. injection Hv as _ Hv.
    rewrite Hv at 1. f_equal. lia.
  - intros i y Hy. replace (h + 1 + Z.of_nat i) with (h + Z.of_nat (S i)) by lia. by apply R.
Qed.

(** ** The cumulative loop *)

Lemma arr_set_set {A} (l : list A) i x y : arr_set (arr_set l i x) i y = arr_set l i y.
Proof. apply list_insert_insert_eq. Qed.

Lemma send_head_get w h e es : send_rep w h (e :: es) ->
  sw_slots w !. send_slot_idx w (u32 h) = e /\ entry_ok h e.
Proof.
  intros R. pose proof (send_slot_get w h (e :: es) 0 e R ltac:(lia) eq_refl) as E.
  pose proof (sr_entries _ _ _ R 0 e eq_refl) as O. change (Z.of_nat 0) with 0 in O.
  by rewrite Z.add_0_r in E, O.
Qed.

Lemma ack_head_spec w h e es now rtt stats : send_rep w h (e :: es) ->
  exists w', ack_head w now rtt stats =
      (w', fst (sampled now (unacked [e]) (rtt, stats)), snd (sampled now (unacked [e]) (rtt, stats))) /\
    send_rep w' (h + 1) es /\ send_frame w w'.
Proof.
  intros R. destruct (send_head_get _ _ _ _ R) as [He O]. unfold ack_head.
  rewrite (sr_head _ _ _ R), He, (eo_in_use _ _ O), (eo_seq _ _ O), Z.eqb_refl. cbn [andb].
  destruct (ss_acked e) eqn:Ha; cbn [negb].
  - unfold unacked. rewrite filter_cons_False, filter_nil by congruence. cbn [fst snd].
    eexists. split; [reflexivity|]. split; [|by constructor].
    cbn -[u32 send_slot_idx arr_set]. rewrite (sr_head _ _ _ R), u32_add_l.
    pose proof (send_rep_tail w h e es ((sw_slots w !. send_slot_idx w (u32 h)) <| ss_in_use := false |>) R) as T.
    cbn -[u32 send_slot_idx arr_set] in T. rewrite (sr_flight _ _ _ R).
    unfold unacked at 1. rewrite filter_cons_False by congruence. exact T.
  - unfold unacked. rewrite filter_cons_True, filter_nil by done.
    destruct (ack_slot_spec w h (e :: es) 0 e now rtt stats R ltac:(lia) eq_refl Ha)
      as (w1 & E & R1 & F). rewrite Z.add_0_r in E. rewrite E. cbn [fst snd] in *.
    change (<[Z.to_nat 0 := ack_entry e]> (e :: es)) with (ack_entry e :: es) in R1.
    eexists. split; [reflexivity|]. split; [|destruct F; by constructor].
    cbn -[u32 send_slot_idx arr_set]. rewrite (sr_head _ _ _ R1), u32_add_l.
    assert (Ei : send_slot_idx w (u32 h) = send_slot_idx w1 (u32 h)).
    { unfold send_slot_idx. by rewrite (sf_capacity _ _ F). }
    pose proof (send_rep_tail w1 h _ es ((sw_slots w1 !. send_slot_idx w (u32 h)) <| ss_in_use := false |>) R1) as T.
    cbn -[u32 send_slot_idx arr_set] in T. rewrite (sr_flight _ _ _ R1), Ei.
    unfold unacked at 1. rewrite filter_cons_False by done. rewrite Ei in T. exact T.
Qed.

(** How many entries an acknowledgement of the position [h + d - 1] retires. *)
Definition acked_upto (d : Z) (es : list rel4u_send_slot) : nat :=
  Z.to_nat (Z.min d (Z.of_nat (length es))).

Lemma ack_cumulative_spec es : forall w h d now rtt stats,
  send_rep w h es -> - 2 ^ 31 < d - 1 <= 2 ^ 31 ->
  exists w', ack_cumulative (length es) w (u32 (h + d - 1)) now rtt stats =
      (w', fst (sampled now (unacked (take (acked_upto d es) es)) (rtt, stats)),
           snd (sampled now (unacked (take (acked_upto d es) es)) (rtt, stats))) /\
    send_rep w' (h + Z.of_nat (acked_upto d es)) (drop (acked_upto d es) es) /\ send_frame w w'.
Proof.
  induction es as [|e es IH]; intros w h d now rtt stats R Hd.
  - unfold acked_upto. rewrite Z2Nat.nonpos by (cbn; lia). exists w. cbn [length take drop].
    rewrite Z.add_0_r. done.
  - cbn [length ack_cumulative]. pose proof (sr_cap _ _ _ R) as [Hc _]. pose proof (sr_fits _ _ _ R) as Hf.
    rewrite length_cons in Hf.
    rewrite (sr_head _ _ _ R), seq_lte_near by (unfold near; lia).
    assert (Hne : (u32 h =? sw_next_seq w) = false).
    { rewrite (sr_next _ _ _ R), length_cons. apply Z.eqb_neq. intros E%u32_near_inj; [lia|].
      unfold near. lia. }
    rewrite Hne, andb_true_r. destruct (Z.leb_spec h (h + d - 1)) as [Hle|Hle].
    + destruct (ack_head_spec w h e es now rtt stats R) as (w1 & -> & R1 & F1).
      destruct (sampled now (unacked [e]) (rtt, stats)) as [rtt1 stats1] eqn:Es. cbn [fst snd].
      destruct (IH w1 (h + 1) (d - 1) now rtt1 stats1 R1) as (w2 & E2 & R2 & F2); [lia|].
      replace (h + 1 + (d - 1) - 1) with (h + d - 1) in E2 by lia. rewrite E2.
      assert (Hk : acked_upto d (e :: es) = S (acked_upto (d - 1) es)).
      { unfold acked_upto. rewrite length_cons. lia. }
      exists w2. rewrite Hk. cbn [take drop].
      change (e :: take (acked_upto (d - 1) es) es) with ([e] ++ take (acked_upto (d - 1) es) es).
      rewrite unacked_app, sampled_app, Es. split; [done|].
      split; [|by etransitivity]. replace (h + _) with (h + 1 + Z.of_nat (acked_upto (d - 1) es)) by lia. done.
    + assert (Hk : acked_upto d (e :: es) = 0%nat) by (unfold acked_upto; lia).
      rewrite Hk. exists w. cbn [take drop]. rewrite Z.add_0_r. done.
Qed.

(** ** The selective loop *)

Lemma mask_bit_test a i : 0 <= i -> (Z.land a (Z.shiftl 1 i) =? 0) = negb (Z.testbit a i).
Proof.
  intros Hi. rewrite Z.shiftl_1_l, Z.land_comm. destruct (Z.testbit a i) eqn:E.
  - apply Z.eqb_neq. intros H.
    assert (Hb : Z.testbit (Z.land (2 ^ i) a) i = true).
    { by rewrite Z.land_spec, Z.pow2_bits_true by done. }
    by rewrite H, Z.bits_0 in Hb.
  - apply Z.eqb_eq, Z.bits_inj'. intros n Hn. rewrite Z.land_spec, Z.pow2_bits_eqb, Z.bits_0 by done.
    destruct (Z.eqb_spec i n) as [->|]; [by rewrite E|done].
Qed.

(** Bit [i] of a mask whose bit 0 stands for the entry at offset [x]: the entry
    it newly acknowledges, if any. *)
Definition sack_entry (sack x : Z) (es : list rel4u_send_slot) (i : Z) : option rel4u_send_slot :=
  if Z.testbit sack i && (0 <=? x + i) then
    match es !! Z.to_nat (x + i) with
    | Some e => if ss_acked e then None else Some e
    | None => None
    end
  else None.

(** The entries after the first [m] bits. *)
Definition sack_marked (m sack x : Z) (es : list rel4u_send_slot) : list rel4u_send_slot :=
  imap (fun j e => let y := Z.of_nat j - x in
    if (0 <=? y) && (y <? m) && Z.testbit sack y then ack_entry e else e) es.

Lemma sack_marked_length m sack x es : length (sack_marked m sack x es) = length es.
Proof. apply length_imap. Qed.

Lemma sack_marked_0 sack x es : sack_marked 0 sack x es = es.
Proof.
  apply list_eq. intros j. unfold sack_marked. rewrite list_lookup_imap.
  destruct (es !! j) as [e|]; [|done]. cbn. f_equal.
  destruct (Z.leb_spec 0 (Z.of_nat j - x)), (Z.ltb_spec (Z.of_nat j - x) 0); done || lia.
Qed.

Lemma ack_entry_id e : ss_acked e = true -> ack_entry e = e.
Proof. destruct e. cbn. by intros ->. Qed.

(** Bit [i] changes at most the entry at offset [x + i]. *)
Lemma sack_marked_succ i sack x es : 0 <= i ->
  sack_marked (i + 1) sack x es =
  match sack_entry sack x es i with
  | Some e => <[Z.to_nat (x + i) := ack_entry e]> (sack_marked i sack x es)
  | None => sack_marked i sack x es
  end.
Proof.
  intros Hi. apply list_eq. intros j. unfold sack_entry.
  destruct (decide (Z.of_nat j = x + i)) as [Ej|Ej].
  - replace (Z.to_nat (x + i)) with j by lia. rewrite <- Ej, (proj2 (Z.leb_le 0 (Z.of_nat j))), andb_true_r by lia.
    destruct (es !! j) as [e|] eqn:He.
    2:{ rewrite lookup_ge_None_2 by (rewrite sack_marked_length; by apply lookup_ge_None_1 in He).
        destruct (Z.testbit sack i); rewrite lookup_ge_None_2; try done;
          rewrite sack_marked_length; by apply lookup_ge_None_1 in He. }
    assert (Hlt : (j < length es)%nat) by eauto using lookup_lt_Some.
    assert (Hl : sack_marked (i + 1) sack x es !! j = Some (if Z.testbit sack i then ack_entry e else e)).
    { unfold sack_marked. rewrite list_lookup_imap, He. cbn. replace (Z.of_nat j - x) with i by lia.
      by rewrite (proj2 (Z.leb_le 0 i)), (proj2 (Z.ltb_lt i (i + 1))) by lia. }
    assert (Hl0 : sack_marked i sack x es !! j = Some e).
    { unfold sack_marked. rewrite list_lookup_imap, He. cbn. replace (Z.of_nat j - x) with i by lia.
      by rewrite Z.ltb_irrefl, andb_false_r. }
    rewrite Hl. destruct (Z.testbit sack i); [|by rewrite Hl0].
    destruct (ss_acked e) eqn:Ha; [by rewrite Hl0, ack_entry_id|].
    by rewrite list_lookup_insert_eq by (by rewrite sack_marked_length).
  - assert (Hl : sack_marked (i + 1) sack x es !! j = sack_marked i sack x es !! j).
    { unfold sack_marked. rewrite !list_lookup_imap. destruct (es !! j); [|done]. cbn.
      replace (Z.of_nat j - x <? i + 1) with (Z.of_nat j - x <? i) by lia. done. }
    rewrite Hl. destruct (Z.testbit sack i); [cbn|done].
    destruct (Z.leb_spec 0 (x + i)); [|done]. destruct (es !! Z.to_nat (x + i)) as [e|]; [|done].
    destruct (ss_acked e); [done|]. rewrite list_lookup_insert_ne by lia. done.
Qed.

Lemma sack_in_window w h es x i : send_rep w h es ->
  - 2 ^ 31 < x - 1 <= 2 ^ 31 -> 0 <= i < 32 ->
  rel4u_seq_lt (u32 (h + x + i)) (sw_next_seq w) && rel4u_seq_gte (u32 (h + x + i)) (sw_head_seq w)
  = (0 <=? x + i) && (x + i <? Z.of_nat (length es)).
Proof.
  intros R Hx Hi. pose proof (sr_cap _ _ _ R) as [Hc _]. pose proof (sr_fits _ _ _ R) as Hf.
  rewrite (sr_head _ _ _ R), (sr_next _ _ _ R). unfold rel4u_seq_lt, rel4u_seq_gte.
  autorewrite with rel4u. replace (h + x + i - h) with (x + i) by lia.
  replace (h + x + i - (h + Z.of_nat (length es))) with (x + i - Z.of_nat (length es)) by lia.
  assert (E : s32 (u32 (x + i)) = if x + i <? 2 ^ 31 then x + i else x + i - 2 ^ 32) by (destruct (Z.ltb_spec (x + i) (2 ^ 31)); word_lia).
  rewrite E. destruct (Z.ltb_spec (x + i) (2 ^ 31)).
  - destruct (Z.leb_spec 0 (x + i)).
    + rewrite (proj2 (Z.geb_le _ _)), andb_true_r by lia. cbn [andb].
      replace (s32 (u32 (x + i - Z.of_nat (length es)))) with (x + i - Z.of_nat (length es)) by word_lia. lia.
    + destruct (Z.geb_spec (x + i) 0); [lia|]. by rewrite andb_false_r.
  - destruct (Z.geb_spec (x + i - 2 ^ 32) 0); [lia|]. rewrite andb_false_r.
    destruct (Z.ltb_spec (x + i) (Z.of_nat (length es))); [lia|]. by rewrite andb_false_r.
Qed.

(** Up to bit [i] the entry at offset [x + i] is as it was. *)
Lemma sack_marked_at i sack x es : 0 <= x + i ->
  sack_marked i sack x es !! Z.to_nat (x + i) = es !! Z.to_nat (x + i).
Proof.
  intros Hx. unfold sack_marked. rewrite list_lookup_imap. destruct (es !! _); [|done]. cbn.
  replace (Z.of_nat (Z.to_nat (x + i)) - x) with i by lia. by rewrite Z.ltb_irrefl, andb_false_r.
Qed.

Definition sack_news (m : nat) (sack x : Z) (es : list rel4u_send_slot) : list rel4u_send_slot :=
  omap (sack_entry sack x es) (seqZ 0 (Z.of_nat m)).

Lemma ack_selective_spec w h es sack x i now rtt stats :
  send_rep w h (sack_marked i sack x es) -> - 2 ^ 31 < x - 1 <= 2 ^ 31 -> 0 <= i < 32 ->
  exists w', ack_selective (u32 (h + x - 1)) sack now (w, rtt, stats) i =
      (w', fst (sampled now (option_list (sack_entry sack x es i)) (rtt, stats)),
           snd (sampled now (option_list (sack_entry sack x es i)) (rtt, stats))) /\
    send_rep w' h (sack_marked (i + 1) sack x es) /\ send_frame w w'.
Proof.
  intros R Hx Hi. rewrite sack_marked_succ by lia. unfold ack_selective, sack_entry.
  rewrite mask_bit_test by lia. destruct (Z.testbit sack i); cbn [negb andb]; [|by exists w].
  cbv zeta. replace (u32 (u32 (u32 (h + x - 1) + 1) + i)) with (u32 (h + x + i)) by word_lia.
  rewrite (sack_in_window _ _ _ _ _ R) by done. rewrite sack_marked_length.
  destruct (Z.leb_spec 0 (x + i)) as [Hp|]; cbn [andb]; [|by exists w].
  destruct (Z.ltb_spec (x + i) (Z.of_nat (length es))) as [Hn|Hn].
  2:{ rewrite lookup_ge_None_2 by lia. by exists w. }
  destruct (lookup_lt_is_Some_2 es (Z.to_nat (x + i))) as [e He]; [lia|]. rewrite He.
  pose proof He as He'. rewrite <- (sack_marked_at i sack x es Hp) in He'.
  rewrite <- Z.add_assoc, (send_slot_get _ _ _ _ _ R Hp He').
  pose proof (sr_entries _ _ _ R _ _ He') as O. rewrite Z2Nat.id in O by done.
  rewrite (eo_in_use _ _ O), (eo_seq _ _ O), Z.eqb_refl. cbn [andb].
  destruct (ss_acked e) eqn:Ha; cbn [negb]; [by exists w|].
  destruct (ack_slot_spec w h _ (x + i) e now rtt stats R Hp He' Ha) as (w' & -> & R' & F).
  exists w'. done.
Qed.

Lemma sack_loop_spec m : forall w h es sack x now rtt stats,
  send_rep w h es -> - 2 ^ 31 < x - 1 <= 2 ^ 31 -> (m <= 32)%nat ->
  exists w', foldl (ack_selective (u32 (h + x - 1)) sack now) (w, rtt, stats) (seqZ 0 (Z.of_nat m)) =
      (w', fst (sampled now (sack_news m sack x es) (rtt, stats)),
           snd (sampled now (sack_news m sack x es) (rtt, stats))) /\
    send_rep w' h (sack_marked (Z.of_nat m) sack x es) /\ send_frame w w'.
Proof.
  induction m as [|m IH]; intros w h es sack x now rtt stats R Hx Hm.
  - exists w. rewrite sack_marked_0. done.
  - unfold sack_news. rewrite Nat2Z.inj_succ, <- Z.add_1_r, seqZ_app by lia. rewrite foldl_app.
    destruct (IH w h es sack x now rtt stats R Hx) as (w1 & -> & R1 & F1); [lia|].
    rewrite omap_app, sampled_app. fold (sack_news m sack x es).
    destruct (sampled now (sack_news m sack x es) (rtt, stats)) as [rtt1 stats1]. cbn [fst snd].
    destruct (ack_selective_spec w1 h es sack x (Z.of_nat m) now rtt1 stats1 R1 Hx)
      as (w2 & E2 & R2 & F2); [lia|].
    exists w2. change (seqZ (0 + Z.of_nat m) 1) with [Z.of_nat m]. cbn [foldl omap list_omap].
    rewrite E2. split; [|split; [done|by etransitivity]].
    by destruct (sack_entry sack x es (Z.of_nat m)).
Qed.

(** ** [rel4u_send_window_on_ack] *)

(** What an acknowledgement of [d] positions from [h] on, with the mask [sack]
    for the positions after them, leaves of the entries, and which entries it
    newly acknowledges. *)
Definition acked_entries (d sack : Z) (es : list rel4u_send_slot) : list rel4u_send_slot :=
  let k := acked_upto d es in sack_marked 32 sack (d - Z.of_nat k) (drop k es).
Definition acked_news (d sack : Z) (es : list rel4u_send_slot) : list rel4u_send_slot :=
  let k := acked_upto d es in
  unacked (take k es) ++ sack_news 32 sack (d - Z.of_nat k) (drop k es).

Lemma sack_zero x es : sack_marked 32 0 x es = es /\ sack_news 32 0 x es = [].
Proof.
  split.
  - apply list_eq. intros j. unfold sack_marked. rewrite list_lookup_imap.
    destruct (es !! j); [|done]. cbn. by rewrite Z.bits_0, andb_false_r.
  - unfold sack_news. assert (H : forall l, omap (sack_entry 0 x es) l = []); [|apply H].
    induction l; [done|]. cbn. unfold sack_entry at 1. by rewrite Z.bits_0.
Qed.

Lemma on_ack_rep w h es d sack now rtt stats :
  send_rep w h es -> - 2 ^ 31 < d - 1 <= 2 ^ 31 ->
  let '(w', rtt', stats') := rel4u_send_window_on_ack w (u32 (h + d - 1)) sack now rtt stats in
  send_rep w' (h + Z.of_nat (acked_upto d es)) (acked_entries d sack es) /\ send_frame w w' /\
  (rtt', stats') = sampled now (acked_news d sack es) (rtt, stats).
Proof.
  intros R Hd. unfold rel4u_send_window_on_ack, acked_entries, acked_news. rewrite (send_fuel _ _ _ R).
  destruct (ack_cumulative_spec es w h d now rtt stats R Hd) as (w1 & -> & R1 & F1).
  set (k := acked_upto d es) in *.
  rewrite sampled_app. destruct (sampled now (unacked (take k es)) (rtt, stats)) as [rtt1 stats1].
  cbn [fst snd]. destruct (Z.eqb_spec sack 0) as [->|Hs]; cbn [negb].
  - destruct (sack_zero (d - Z.of_nat k) (drop k es)) as [-> ->]. done.
  - pose proof (sr_cap _ _ _ R) as [Hc _]. pose proof (sr_fits _ _ _ R) as Hf.
    destruct (sack_loop_spec 32 w1 _ _ sack (d - Z.of_nat k) now rtt1 stats1 R1) as (w2 & E & R2 & F2);
      [unfold k, acked_upto in *; lia|lia|].
    replace (h + Z.of_nat k + (d - Z.of_nat k) - 1) with (h + d - 1) in E by lia.
    change (Z.of_nat 32) with 32 in *. rewrite E.
    split; [done|]. split; [by etransitivity|]. by destruct (sampled _ _ _).
Qed.

(** A send window that holds some packets. *)
Definition send_ok (w : rel4u_send_window) : Prop :=
  is_u32 (sw_next_unrel_seq w) /\ exists h es, send_rep w h es.
