(* ===== verification/Send.v ===== *)
(** * Send window: correctness

    What the sender half of the sliding window promises to the client and the
    server: packets enter in order with consecutive sequence numbers, leave when
    acknowledged, are found again when their timeout has passed and can be handed
    back to the queue.  The statements are about the entries of the window in
    the sense of [SendSpec.send_rep]. *)
From S2P Require Import Prelude Ring Types Seq Rtt Mpmc MpmcSpec Queue SendWindow SendSpec.
From stdpp Require Import base numbers list gmap.
Open Scope Z_scope.
Open Scope rel4u_scope.

(** ** Expiry and retransmission *)

(** The timeout of an entry has passed. *)
Definition expired (now_ns rto_ms : Z) (e : rel4u_send_slot) : bool :=
  negb (ss_acked e) && (ss_last_sent_time_ns e + rto_ms * 1000000 <=? now_ns).

(** The offsets of the expired entries among [es], the first of which has offset [k]. *)
Fixpoint expired_from (now_ns rto_ms k : Z) (es : list rel4u_send_slot) : list Z :=
  match es with
  | [] => []
  | e :: es => (if expired now_ns rto_ms e then [k] else []) ++ expired_from now_ns rto_ms (k + 1) es
  end.

Lemma expired_test p e now rto_ms : entry_ok p e -> is_u64 now -> is_u32 rto_ms ->
  negb (ss_acked e) && ((now >=? ss_last_sent_time_ns e) &&
    (u64 (now - ss_last_sent_time_ns e) >=? u64 (rto_ms * 1000000))) = expired now rto_ms e.
Proof.
  intros O Hn Hr. unfold expired. f_equal. pose proof (eo_last _ _ O).
  rewrite (u64_small (rto_ms * 1000000)) by word_lia.
  destruct (Z.geb_spec now (ss_last_sent_time_ns e)); [rewrite u64_small by word_lia|];
    word_unfold; lia.
Qed.

Lemma expired_loop_spec w h es now rto_ms max : send_rep w h es -> is_u64 now -> is_u32 rto_ms ->
  forall rest k out, 0 <= k -> rest = drop (Z.to_nat k) es -> (length out < max)%nat ->
  expired_loop (length rest) w now (u64 (rto_ms * 1000000)) (Z.of_nat max) (u32 (h + k)) out =
  take max (out ++ ((fun k => (h + k) mod sw_capacity w) <$> expired_from now rto_ms k rest)).
Proof.
  intros R Hn Hr. pose proof (sr_cap _ _ _ R) as [Hc _]. pose proof (sr_fits _ _ _ R) as Hf.
  induction rest as [|e rest IH]; intros k out Hk Hrest Hout.
  - cbn. rewrite app_nil_r, take_ge by lia. done.
  - assert (He : es !! Z.to_nat k = Some e).
    { rewrite <- (Nat.add_0_r (Z.to_nat k)), <- lookup_drop, <- Hrest. done. }
    assert (Hkn : k < Z.of_nat (length es)) by (apply lookup_lt_Some in He; lia).
    assert (Hrest' : rest = drop (Z.to_nat (k + 1)) es).
    { replace (Z.to_nat (k + 1)) with (Z.to_nat k + 1)%nat by lia.
      by rewrite <- drop_drop, <- Hrest. }
    pose proof (sr_entries _ _ _ R _ _ He) as O. rewrite Z2Nat.id in O by done.
    cbn [length expired_loop expired_from]. rewrite (sr_next _ _ _ R), seq_lt_near by (unfold near; lia).
    rewrite (proj2 (Z.ltb_lt _ _)) by lia. rewrite (send_slot_get _ _ _ _ _ R Hk He).
    rewrite (eo_in_use _ _ O), (eo_seq _ _ O), Z.eqb_refl. cbn [andb].
    rewrite (expired_test _ _ _ _ O Hn Hr).
    rewrite u32_add_l, <- Z.add_assoc, send_slot_idx_mod by apply R.
    destruct (expired now rto_ms e); [|by apply IH; [lia| |]].
    rewrite fmap_app, app_assoc. cbn [fmap list_fmap].
    rewrite length_app. cbn [length]. destruct (Z.geb_spec (Z.of_nat (length out + 1)) (Z.of_nat max)).
    + rewrite take_app_le by (rewrite length_app; cbn; lia). rewrite take_ge by (rewrite length_app; cbn; lia).
      done.
    + rewrite IH; [done|lia|done|]. rewrite length_app. cbn. lia.
Qed.

Lemma get_expired_spec w h es now rto_ms max :
  send_rep w h es -> is_u64 now -> is_u32 rto_ms ->
  rel4u_send_window_get_expired w now rto_ms (Z.of_nat max) =
  take max ((fun k => (h + k) mod sw_capacity w) <$> expired_from now rto_ms 0 es).
Proof.
  intros R Hn Hr. unfold rel4u_send_window_get_expired. rewrite (send_fuel _ _ _ R).
  destruct (Z.eqb_spec (Z.of_nat max) 0); [by replace max with 0%nat by lia|].
  rewrite (sr_head _ _ _ R). rewrite <- (Z.add_0_r h) at 1.
  rewrite (expired_loop_spec w h es now rto_ms max R Hn Hr es 0 []); [done|lia|done|cbn; lia].
Qed.

(** C25. The scan for expired packets returns exactly the slots of the
    unacknowledged packets last sent at least an RTO ago, in the order they were
    sent, cut off at [max_slots]; the loop ends within the window. *)
Theorem get_expired_exact w h es now rto_ms max :
  send_rep w h es -> is_u64 now -> is_u32 rto_ms ->
  rel4u_send_window_get_expired w now rto_ms (Z.of_nat max) =
  take max ((fun k => (h + k) mod sw_capacity w) <$> expired_from now rto_ms 0 es).
Proof. apply get_expired_spec. Qed.

Definition retransmit_entry (now_ns : Z) (e : rel4u_send_slot) : rel4u_send_slot :=
  e <| ss_last_sent_time_ns := now_ns |> <| ss_retransmit_count := u8 (ss_retransmit_count e + 1) |>.

Lemma retransmit_rep w h es k e now : send_rep w h es -> 0 <= k -> es !! Z.to_nat k = Some e ->
  is_u64 now ->
  send_rep (send_slot_retransmit w ((h + k) mod sw_capacity w) now) h
    (<[Z.to_nat k := retransmit_entry now e]> es).
Proof.
  intros R Hk He Hn. unfold send_slot_retransmit. rewrite <- send_slot_idx_mod by apply R.
  rewrite (send_slot_get _ _ _ _ _ R Hk He). fold (retransmit_entry now e).
  assert (Hlt : (Z.to_nat k < length es)%nat) by eauto using lookup_lt_Some.
  assert (Hu : length (unacked (<[Z.to_nat k := retransmit_entry now e]> es)) = length (unacked es)).
  { rewrite insert_take_drop by done. rewrite <- (take_drop_middle es _ _ He) at 3.
    rewrite !unacked_app, !length_app. f_equal. unfold unacked. rewrite !filter_cons. cbn.
    by repeat case_decide. }
  pose proof (send_rep_set w h es k (retransmit_entry now e) (sw_in_flight w) R) as T.
  destruct w. apply T; [lia| |by rewrite Hu, (sr_flight _ _ _ R)].
  pose proof (sr_entries _ _ _ R _ _ He) as []. rewrite Z2Nat.id in * by done. by constructor.
Qed.

(** Two versions of an entry that go out as the same packet. *)
Record same_packet (e e' : rel4u_send_slot) : Prop := {
  sp_seq : ss_seq_num e' = ss_seq_num e;
  sp_len : ss_payload_len e' = ss_payload_len e;
  sp_mode : ss_delivery_mode e' = ss_delivery_mode e;
  sp_acked : ss_acked e' = ss_acked e;
  sp_payload : ss_payload e' = ss_payload e
}.
#[export] Instance same_packet_preorder : PreOrder same_packet.
Proof. split; [by constructor|]. intros ??? [] []. constructor; congruence. Qed.

Lemma retransmit_same now e : same_packet e (retransmit_entry now e).
Proof. by constructor. Qed.

(** Retransmitting any entries of the window: the entries stay the same packets,
    and those are what is sent. *)
Lemma resend_rep now ks : is_u64 now -> forall w h es sent, send_rep w h es ->
  Forall (fun k => 0 <= k < Z.of_nat (length es)) ks ->
  let '(w', sent') := foldl (resend now) (w, sent) ((fun k => (h + k) mod sw_capacity w) <$> ks) in
  exists es' more, send_rep w' h es' /\ send_frame w w' /\ Forall2 same_packet es es' /\
    sent' = sent ++ more /\
    Forall (fun s => exists k e, es !! k = Some e /\ same_packet e s) more.
Proof.
  intros Hn. induction ks as [|k ks IH]; intros w h es sent R Hk; cbn [fmap list_fmap foldl].
  - exists es, []. rewrite app_nil_r. split; [done|]. split; [done|].
    split; [reflexivity|]. split; [done|constructor].
  - apply Forall_cons in Hk as [Hk0 Hk]. destruct (lookup_lt_is_Some_2 es (Z.to_nat k)) as [e He]; [lia|].
    pose proof (retransmit_rep w h es k e now R ltac:(lia) He Hn) as R1.
    set (es1 := <[Z.to_nat k := retransmit_entry now e]> es) in *.
    assert (Hs1 : Forall2 same_packet es es1).
    { unfold es1. rewrite <- (list_insert_id es (Z.to_nat k) e He) at 1.
      apply Forall2_insert; [reflexivity|apply retransmit_same]. }
    set (w1 := send_slot_retransmit w _ now) in *.
    assert (Hsl : sw_slots w1 !. ((h + k) mod sw_capacity w) = retransmit_entry now e).
    { pose proof (send_slot_get w1 h es1 k (retransmit_entry now e) R1 ltac:(lia)) as G.
      rewrite send_slot_idx_mod in G by apply R1. apply G. apply list_lookup_insert_eq. lia. }
    specialize (IH w1 h es1 (sent ++ [retransmit_entry now e]) R1).
    change (resend now (w, sent) ((h + k) mod sw_capacity w)) with
      (w1, sent ++ [sw_slots w1 !. ((h + k) mod sw_capacity w)]). rewrite Hsl.
    change (sw_capacity w1) with (sw_capacity w) in IH.
    destruct (foldl (resend now) _ _) as [w' sent'].
    destruct IH as (es' & more & R' & F' & Hs' & -> & Hm).
    { unfold es1. rewrite length_insert. done. }
    exists es', (retransmit_entry now e :: more). split; [done|]. split.
    { destruct F'. constructor; done. }
    split; [by etransitivity|]. split; [by rewrite <- app_assoc|]. constructor.
    + exists (Z.to_nat k), e. split; [done|apply retransmit_same].
    + eapply Forall_impl; [exact Hm|]. intros s (i & e1 & Hi & He1).
      destruct (Forall2_lookup_r _ _ _ _ _ Hs1 Hi) as (e0 & He0 & Hsame).
      exists i, e0. split; [done|by etransitivity].
Qed.

Lemma expired_from_range now rto es : forall k,
  Forall (fun i => k <= i < k + Z.of_nat (length es)) (expired_from now rto k es).
Proof.
  induction es as [|e es IH]; intros k; cbn [expired_from length]; [constructor|].
  apply Forall_app. split; [destruct (expired _ _ _); repeat constructor; lia|].
  eapply Forall_impl; [apply IH|]. cbn. lia.
Qed.

(** ** Opening, pushing, acknowledging *)

(** Initialisation accepts exactly the powers of two from 2 on (when memory is
    available) and, like a reset, leaves an empty window at the initial sequence
    number that accepts the next packet. *)
Theorem send_window_fresh w c s : is_u32 s -> 0 <= c < 2 ^ 31 ->
  let '(r, w') := rel4u_send_window_init w c s true in
  (r = 0 <-> cap_ok c) /\ (r <> 0 -> w' = w) /\
  (r = 0 -> send_rep w' s [] /\ rel4u_send_window_can_send w' = true /\
    forall v h es t, send_rep v h es -> sw_capacity v = c -> is_u32 t ->
      fst (rel4u_send_window_reset v t) = 0 /\ send_rep (snd (rel4u_send_window_reset v t)) t []).
Proof.
  intros Hs Hc. unfold rel4u_send_window_init. destruct (_ || _) eqn:E.
  - split; [split; [done|]|done]. intros [Hr Hp]. rewrite Hp in E. cbn in E. lia.
  - apply orb_false_iff in E as [E1 E2]. apply negb_false_iff in E2. cbn [negb].
    assert (Hok : cap_ok c) by (split; [lia|done]).
    assert (R : forall un, send_rep (mk_send_window (replicate (Z.to_nat c) send_slot_zero) c s s un 0) s []).
    { intros un. apply fresh_rep; [done|done|]. rewrite length_replicate. lia. }
    split; [done|]. split; [done|]. intros _. split; [apply R|]. split.
    + erewrite can_send_spec by apply R. apply Z.ltb_lt. change (0 < c). destruct Hok. lia.
    + intros v h es t Rv Hv Ht. unfold rel4u_send_window_reset.
      pose proof (sr_slots _ _ _ Rv). rewrite (proj2 (Nat.eqb_neq _ _)) by lia.
      rewrite (proj2 (Z.eqb_neq _ _)) by lia. cbn [orb fst snd]. split; [done|].
      apply fresh_rep; [cbn; by rewrite Hv|done|]. cbn. rewrite length_replicate. lia.
Qed.

(** A push of a reliable message succeeds exactly when [can_send] says so: it
    takes the next sequence number and appends the message to the window with its
    bytes, mode and time; a full window answers -2, a message over 9216 bytes -1,
    both without a change.  An unreliable message only draws a number of the
    separate unreliable counter. *)
Theorem send_push_spec w h es mode data len now :
  send_rep w h es -> is_u64 now -> 0 <= len <= Z.of_nat (length data) ->
  match rel4u_send_window_push w mode data len now with
  | (r, w', seq) =>
      if len >? REL4U_MAX_PAYLOAD_SIZE then r = -1 /\ w' = w /\ seq = None
      else if negb (mode_reliable mode) then
        r = 0 /\ seq = Some (sw_next_unrel_seq w) /\
        w' = w <| sw_next_unrel_seq := u32 (sw_next_unrel_seq w + 1) |>
      else if rel4u_send_window_can_send w then
        r = 0 /\ seq = Some (u32 (h + Z.of_nat (length es))) /\
        exists payload, take (Z.to_nat len) payload = take (Z.to_nat len) data /\
          send_rep w' h (es ++ [pushed_entry (h + Z.of_nat (length es)) mode len now payload])
      else r = -2 /\ w' = w /\ seq = None
  end.
Proof.
  intros R Hn Hl. destruct (Z.gtb_spec len REL4U_MAX_PAYLOAD_SIZE) as [Hbig|Hlen].
  { unfold rel4u_send_window_push. by rewrite (proj2 (Z.gtb_lt _ _)) by done. }
  destruct (mode_reliable mode) eqn:Hm; cbn [negb].
  - pose proof (push_reliable w h es mode data len now R Hm Hn Hl Hlen) as P. cbv zeta in P.
    rewrite (can_send_spec _ _ _ R). destruct (_ <? _).
    + destruct P as (w' & payload & -> & R' & Hp & _). eauto.
    + by rewrite P.
  - unfold rel4u_send_window_push. rewrite Hm.
    destruct (Z.gtb_spec len REL4U_MAX_PAYLOAD_SIZE); [lia|done].
Qed.

(** The distance of an acknowledgement from the head of the window. *)
Lemma ack_distance w h es ack : send_rep w h es -> is_u32 ack ->
  let d := 1 - rel4u_seq_diff (sw_head_seq w) ack in
  - 2 ^ 31 < d - 1 <= 2 ^ 31 /\ ack = u32 (h + d - 1).
Proof. intros R Ha. unfold rel4u_seq_diff. rewrite (sr_head _ _ _ R). word_lia. Qed.

(** C9. An acknowledgement, whatever 32-bit numbers a peer puts into it, retires
    exactly the entries up to the acknowledged position, marks exactly the
    entries whose bit is set in the mask, and keeps the window consistent: the
    in-flight count is the number of unacknowledged entries that remain.  [d] is
    the signed distance the code computes; the loop ends within the window. *)
Theorem on_ack_spec w h es ack sack now rtt stats :
  send_rep w h es -> is_u32 ack ->
  let d := 1 - rel4u_seq_diff (sw_head_seq w) ack in
  let k := Z.to_nat (Z.min d (Z.of_nat (length es))) in
  let '(w', _, _) := rel4u_send_window_on_ack w ack sack now rtt stats in
  send_rep w' (h + Z.of_nat k) (acked_entries d sack es) /\
  length (acked_entries d sack es) = (length es - k)%nat /\
  forall j e, es !! (k + j)%nat = Some e ->
    let bit := Z.of_nat (k + j) - d in
    acked_entries d sack es !! j =
    Some (if (0 <=? bit) && (bit <? 32) && Z.testbit sack bit then ack_entry e else e).
Proof.
  intros R Ha d k.
  pose proof (ack_distance _ _ _ _ R Ha : - 2 ^ 31 < d - 1 <= 2 ^ 31 /\ ack = u32 (h + d - 1)) as Hd.
  clearbody d. destruct Hd as [Hd ->]. pose proof (on_ack_rep w h es d sack now rtt stats R Hd) as H.
  destruct (rel4u_send_window_on_ack _ _ _ _ _ _) as [[w' rtt'] stats']. destruct H as (R' & _ & _).
  split; [exact R'|]. unfold acked_entries, acked_upto. fold k. split.
  - by rewrite sack_marked_length, length_drop.
  - intros j e He. cbv zeta. unfold sack_marked. rewrite list_lookup_imap, lookup_drop, He. cbn.
    do 2 f_equal. replace (Z.of_nat j - (d - Z.of_nat k)) with (Z.of_nat (k + j) - d) by lia. done.
Qed.

Lemma sack_news_in m sack x es e : e ∈ sack_news m sack x es -> e ∈ es /\ ss_acked e = false.
Proof.
  unfold sack_news. rewrite list_elem_of_omap. intros (i & _ & He). unfold sack_entry in He.
  destruct (_ && _); [|done]. destruct (es !! _) as [y|] eqn:Hy; [|done].
  destruct (ss_acked y) eqn:Hu; [done|]. injection He as ->. split; [|done].
  by eapply list_elem_of_lookup_2.
Qed.

Lemma acked_news_in d sack es e : e ∈ acked_news d sack es -> e ∈ es /\ ss_acked e = false.
Proof.
  unfold acked_news. rewrite elem_of_app. intros [He|He].
  - apply list_elem_of_filter in He as [Hu He]. split; [|done]. by eapply subseteq_take.
  - apply sack_news_in in He as [He Hu]. split; [|done]. by eapply subseteq_drop.
Qed.

Lemma apply_samples l : forall r stats, rtt_ok r -> exists stats',
  foldl apply_sample (Some r, stats) l = (Some (foldl rel4u_rtt_update_sample r l), stats') /\
  rtt_ok (foldl rel4u_rtt_update_sample r l).
Proof.
  induction l as [|x l IH]; intros r s Hr; [by eexists|].
  cbn [foldl apply_sample]. apply IH. by apply rtt_update_ok.
Qed.

(** Acknowledgements feed the estimator by Karn's rule: it sees one sample per
    newly acknowledged entry whose retransmission counter is zero, in the order
    the entries are acknowledged, and nothing else; its bounds are kept. *)
Theorem on_ack_samples w h es ack sack now r stats :
  send_rep w h es -> is_u32 ack -> rtt_ok r ->
  let d := 1 - rel4u_seq_diff (sw_head_seq w) ack in
  let '(_, rtt', _) := rel4u_send_window_on_ack w ack sack now (Some r) stats in
  exists r', rtt' = Some r' /\ rtt_ok r' /\
    r' = foldl rel4u_rtt_update_sample r
           (omap (rtt_sample now) (acked_news d sack es)) /\
    (forall e, e ∈ acked_news d sack es -> e ∈ es /\ ss_acked e = false).
Proof.
  intros R Ha Hr d.
  pose proof (ack_distance _ _ _ _ R Ha : - 2 ^ 31 < d - 1 <= 2 ^ 31 /\ ack = u32 (h + d - 1)) as Hd.
  clearbody d. destruct Hd as [Hd ->]. pose proof (on_ack_rep w h es d sack now (Some r) stats R Hd) as H.
  destruct (rel4u_send_window_on_ack _ _ _ _ _ _) as [[w' rtt'] stats']. destruct H as (_ & _ & E).
  destruct (apply_samples (omap (rtt_sample now) (acked_news d sack es)) r stats Hr) as (s' & E' & Hok).
  unfold sampled in E. rewrite E' in E. apply pair_equal_spec in E as [-> _].
  exists (foldl rel4u_rtt_update_sample r (omap (rtt_sample now) (acked_news d sack es))).
  split; [reflexivity|]. split; [exact Hok|]. split; [reflexivity|]. apply acked_news_in.
Qed.

(** ** Reclaiming after a reconnect *)

(** The message an entry carries. *)
Definition entry_msg (e : rel4u_send_slot) : msg :=
  mk_msg 0 (ss_delivery_mode e) (take (Z.to_nat (ss_payload_len e)) (ss_payload e)).

(** Pushing messages to the front of a bounded queue, the last one first, and
    counting the accepted ones. *)
Definition bq_push_all (cost : msg -> Z) (limit : Z) (policy : rel4u_queue_full_policy)
    (ms : list msg) (s : Z * bqueue) : Z * bqueue :=
  foldr (fun m s => let '(ok, b) := bq_push cost limit policy true true m (snd s) in
                    (if ok then fst s + 1 else fst s, b)) s ms.

Section reclaim.
Context {allocator : Malloc}.

Lemma reclaim_item_ok p e : entry_ok p e ->
  let it := mk_item 0 (ss_delivery_mode e) (ss_payload_len e)
              (memcpy [] (ss_payload e) (ss_payload_len e)) in
  item_wf it /\ item_msg it = entry_msg e.
Proof.
  intros O. cbv zeta. pose proof (eo_len _ _ O) as Hl. pose proof (eo_data _ _ O).
  unfold REL4U_MAX_PAYLOAD_SIZE in Hl. split.
  - split; cbn -[memcpy]; [|lia]. unfold memcpy. rewrite length_app, length_take. lia.
  - unfold item_msg, entry_msg. cbn -[memcpy]. f_equal. by apply memcpy_take.
Qed.

Lemma reclaim_loop_spec w h es cost limit policy : send_rep w h es ->
  forall j q b n, (j <= length es)%nat -> q_rep q b ->
  (q_mode q = REL4U_MEM_FIXED \/ (forall hp z, is_Some (malloc hp z))) ->
  q_cost q = cost -> q_limit q = limit -> q_full_policy q = policy ->
  let '(n', q') := reclaim_loop j w q (u32 (h + Z.of_nat j)) n in
  q_rep q' (snd (bq_push_all cost limit policy (entry_msg <$> unacked (take j es)) (n, b))) /\
  n' = fst (bq_push_all cost limit policy (entry_msg <$> unacked (take j es)) (n, b)) /\ q_same q q'.
Proof.
  intros R. pose proof (sr_cap _ _ _ R) as [Hc _]. pose proof (sr_fits _ _ _ R) as Hf.
  induction j as [|j IH]; intros q b n Hj Hr Hall Ec El Ep; [done|].
  cbn [reclaim_loop]. rewrite (sr_head _ _ _ R), seq_gt_near by (unfold near; lia).
  rewrite (proj2 (Z.ltb_lt _ _)) by lia.
  replace (u32 (u32 (h + Z.of_nat (S j)) - 1)) with (u32 (h + Z.of_nat j)) by word_lia.
  destruct (lookup_lt_is_Some_2 es j) as [e He]; [lia|].
  pose proof (sr_entries _ _ _ R _ _ He) as O. pose proof He as He'.
  rewrite <- (Nat2Z.id j) in He'. cbv zeta.
  rewrite (send_slot_get _ _ _ _ _ R (Nat2Z.is_nonneg j) He').
  rewrite (eo_in_use _ _ O), (eo_seq _ _ O), (eo_mode _ _ O), Z.eqb_refl, andb_true_r. cbn [andb].
  rewrite (take_S_r _ _ _ He), unacked_app, fmap_app. unfold bq_push_all. rewrite foldr_app.
  fold (bq_push_all cost limit policy). rewrite unacked_single.
  destruct (ss_acked e) eqn:Ha; cbn [negb fmap list_fmap foldr fst snd]; [apply IH; [lia|done..]|].
  destruct (reclaim_item_ok _ _ O) as [Hwf Em]. unfold rel4u_mpmc_push_front.
  pose proof (push_spec true q b _ Hr Hwf) as P. unfold mpmc_push in P. rewrite Em in P.
  destruct (mpmc_push_front_locked q _) as [ok q1]. destruct P as (alloc & b1 & Halloc & P & Hr1 & Hs).
  rewrite Halloc, Ec, El, Ep in P by done. rewrite P.
  specialize (IH q1 b1 (if ok then n + 1 else n) ltac:(lia) Hr1).
  rewrite (same_mode _ _ Hs), (q_same_cost _ _ Hs), (q_same_limit _ _ Hs), (same_policy _ _ Hs) in IH.
  specialize (IH Hall Ec El Ep). destruct (reclaim_loop _ _ _ _ _) as [n' q'].
  destruct IH as (IH1 & IH2 & IH3). split; [done|]. split; [done|]. by etransitivity.
Qed.

Lemma reclaim_rep w h es q b : send_rep w h es -> q_rep q b ->
  (q_mode q = REL4U_MEM_FIXED \/ (forall hp z, is_Some (malloc hp z))) ->
  let r := bq_push_all (q_cost q) (q_limit q) (q_full_policy q) (entry_msg <$> unacked es) (0, b) in
  fst (rel4u_send_window_reclaim_unacked w q) = fst r /\
  q_rep (snd (rel4u_send_window_reclaim_unacked w q)) (snd r).
Proof.
  intros R Hr Hall. cbv zeta. unfold rel4u_send_window_reclaim_unacked.
  pose proof (sr_cap _ _ _ R) as [Hc _]. pose proof (sr_fits _ _ _ R) as Hf. pose proof (sr_slots _ _ _ R).
  rewrite (proj2 (Nat.eqb_neq _ _)) by lia. rewrite (send_fuel _ _ _ R).
  rewrite (sr_head _ _ _ R), (sr_next _ _ _ R), seq_gt_near by (unfold near; lia).
  destruct (Z.ltb_spec h (h + Z.of_nat (length es))) as [Hn|Hn].
  - pose proof (reclaim_loop_spec w h es _ _ _ R (length es) q b 0 ltac:(done) Hr Hall
      eq_refl eq_refl eq_refl) as L. rewrite firstn_all in L.
    destruct (reclaim_loop _ _ _ _ _). destruct L as (L1 & L2 & _). done.
  - destruct es; [done|]. cbn in Hn. lia.
Qed.

(** The cost of a message is positive. *)
Lemma q_cost_pos q m : 0 < q_cost q m.
Proof. unfold q_cost. destruct (q_mode q); [lia|]. unfold sizeof_node, m_len. lia. Qed.

Lemma cost_sum_nonneg q ms : 0 <= cost_sum (q_cost q) ms.
Proof. induction ms as [|m ms]; cbn; [lia|]. pose proof (q_cost_pos q m). lia. Qed.

Lemma bq_push_all_fits q policy ms n b :
  Forall (fun m => m_len m <= REL4U_MAX_MSG_SIZE) ms ->
  cost_sum (q_cost q) (ms ++ bq_msgs b) <= q_limit q ->
  bq_push_all (q_cost q) (q_limit q) policy ms (n, b) =
  (n + Z.of_nat (length ms), mk_bqueue (ms ++ bq_msgs b) (bq_dropped b)).
Proof.
  unfold bq_push_all. induction ms as [|m ms IH]; intros Hm Hfit; cbn [foldr].
  - destruct b. f_equal. cbn. lia.
  - apply Forall_cons in Hm as [Hm1 Hm]. cbn [app cost_sum] in Hfit.
    pose proof (q_cost_pos q m). pose proof (cost_sum_nonneg q (ms ++ bq_msgs b)).
    rewrite IH by (done || lia). unfold bq_push. cbn [fst snd bq_msgs bq_dropped length].
    destruct (Z.gtb_spec (m_len m) REL4U_MAX_MSG_SIZE); [lia|].
    destruct (Z.gtb_spec (q_cost q m) (q_limit q)); [lia|].
    rewrite (proj2 (Z.leb_le _ _)) by lia. f_equal. lia.
Qed.

Lemma entry_msgs_len w h es : send_rep w h es ->
  Forall (fun m => m_len m <= REL4U_MAX_MSG_SIZE) (entry_msg <$> unacked es).
Proof.
  intros R. apply Forall_fmap, Forall_forall. intros e He. apply list_elem_of_filter in He as [_ He].
  apply list_elem_of_lookup in He as [i He]. destruct (sr_entries _ _ _ R _ _ He).
  unfold m_len, entry_msg, REL4U_MAX_MSG_SIZE, REL4U_MAX_PAYLOAD_SIZE in *. cbn.
  rewrite length_take. lia.
Qed.

Lemma reclaim_fits_rep w h es q b :
  send_rep w h es -> q_rep q b ->
  (q_mode q = REL4U_MEM_FIXED \/ (forall hp z, is_Some (malloc hp z))) ->
  cost_sum (q_cost q) ((entry_msg <$> unacked es) ++ bq_msgs b) <= q_limit q ->
  let '(n, q') := rel4u_send_window_reclaim_unacked w q in
  n = sw_in_flight w /\
  q_rep q' (mk_bqueue ((entry_msg <$> unacked es) ++ bq_msgs b) (bq_dropped b)).
Proof.
  intros R Hr Hall Hfit. pose proof (reclaim_rep w h es q b R Hr Hall) as H. cbv zeta in H.
  rewrite bq_push_all_fits in H by eauto using entry_msgs_len.
  destruct (rel4u_send_window_reclaim_unacked w q) as [n q']. cbn [fst snd] in H.
  destruct H as [-> H]. split; [|done]. by rewrite length_fmap, (sr_flight _ _ _ R).
Qed.

(** When the send queue has room, reclaiming puts every unacknowledged message
    back in front of the queued ones, in the order of their sequence numbers, and
    returns their number: nothing that was sent reliably and not acknowledged is
    lost or reordered by a reconnect. *)
Theorem reclaim_in_order w h es q b :
  send_rep w h es -> q_rep q b ->
  (q_mode q = REL4U_MEM_FIXED \/ (forall hp z, is_Some (malloc hp z))) ->
  cost_sum (q_cost q) ((entry_msg <$> unacked es) ++ bq_msgs b) <= q_limit q ->
  let '(n, q') := rel4u_send_window_reclaim_unacked w q in
  n = sw_in_flight w /\
  q_rep q' (mk_bqueue ((entry_msg <$> unacked es) ++ bq_msgs b) (bq_dropped b)).
Proof. apply reclaim_fits_rep. Qed.

Lemma cost_sum_one (l : list msg) : cost_sum (fun _ => 1) l = Z.of_nat (length l).
Proof. induction l; cbn -[Z.of_nat]; lia. Qed.

(** A push at the front of a full list under DROP_LAST replaces its front. *)
Lemma bq_push_front_full m y l d : m_len m <= REL4U_MAX_MSG_SIZE -> exists d',
  bq_push (fun _ => 1) (Z.of_nat (S (length l))) REL4U_QUEUE_FULL_DROP_LAST true true m
    (mk_bqueue (y :: l) d) = (true, mk_bqueue (m :: l) d').
Proof.
  intros Hm. unfold bq_push. cbn [bq_msgs bq_dropped bq_evict]. rewrite !cost_sum_one. cbn [length].
  destruct (Z.gtb_spec (m_len m) REL4U_MAX_MSG_SIZE); [lia|].
  destruct (Z.gtb_spec 1 (Z.of_nat (S (length l)))); [lia|].
  destruct (Z.leb_spec (Z.of_nat (S (length l)) + 1) (Z.of_nat (S (length l)))); [lia|].
  rewrite bq_evict_fits by (rewrite cost_sum_one; lia). by eexists.
Qed.

Lemma bq_push_all_full x l d ms : forall m, Forall (fun m => m_len m <= REL4U_MAX_MSG_SIZE) (m :: ms) ->
  exists d', bq_push_all (fun _ => 1) (Z.of_nat (S (length l))) REL4U_QUEUE_FULL_DROP_LAST (m :: ms)
    (0, mk_bqueue (x :: l) d) = (Z.of_nat (length (m :: ms)), mk_bqueue (m :: l) d').
Proof.
  induction ms as [|m1 ms IH]; intros m Hall; apply Forall_cons in Hall as [H0 Hall].
  - destruct (bq_push_front_full m x l d H0) as [d' E]. exists d'.
    unfold bq_push_all. cbn [foldr snd fst]. by rewrite E.
  - destruct (IH m1 Hall) as [d1 E]. destruct (bq_push_front_full m m1 l d1 H0) as [d' E']. exists d'.
    unfold bq_push_all in *. cbn [foldr] in *. rewrite E. cbn [snd fst]. rewrite E'. f_equal.
    cbn [length]. lia.
Qed.

(** Reclaiming into a full fixed queue under DROP_LAST loses messages it counts
    as reclaimed: each push at the front evicts the message at the front, which
    is the one reclaimed just before, so only the oldest unacknowledged message
    and all but one of the queued ones are left, while the result counts all. *)
Theorem reclaim_full_drop_last w h es q b m ms x l :
  send_rep w h es -> q_rep q b -> q_mode q = REL4U_MEM_FIXED ->
  q_full_policy q = REL4U_QUEUE_FULL_DROP_LAST ->
  bq_msgs b = x :: l -> Z.of_nat (length (x :: l)) = q_capacity q ->
  entry_msg <$> unacked es = m :: ms ->
  let '(n, q') := rel4u_send_window_reclaim_unacked w q in
  n = Z.of_nat (length (m :: ms)) /\ exists dropped, q_rep q' (mk_bqueue (m :: l) dropped).
Proof.
  intros R Hr Hm Hp Hb Hcap Hms. pose proof (reclaim_rep w h es q b R Hr (or_introl Hm)) as H.
  cbv zeta in H. pose proof (entry_msgs_len _ _ _ R) as Hlen. rewrite Hms in H, Hlen.
  destruct b as [bl d]. cbn in Hb. subst bl.
  destruct (bq_push_all_full x l d ms m Hlen) as [d' E].
  assert (Hcost : q_cost q = fun _ => 1) by (unfold q_cost; by rewrite Hm).
  assert (Hlim : q_limit q = Z.of_nat (S (length l))) by (unfold q_limit; by rewrite Hm).
  rewrite Hcost, Hlim, Hp, E in H.
  destruct (rel4u_send_window_reclaim_unacked w q) as [n q']. cbn [fst snd] in H. destruct H as [-> H]. eauto.
Qed.
End reclaim.

(** ** The retransmission counter *)

Lemma iter_retransmit w i n now : 0 <= i < Z.of_nat (length (sw_slots w)) ->
  is_u8 (ss_retransmit_count (sw_slots w !. i)) ->
  let w' := Nat.iter n (fun w => send_slot_retransmit w i now) w in
  length (sw_slots w') = length (sw_slots w) /\
  ss_retransmit_count (sw_slots w' !. i) = u8 (ss_retransmit_count (sw_slots w !. i) + Z.of_nat n) /\
  ss_first_sent_time_ns (sw_slots w' !. i) = ss_first_sent_time_ns (sw_slots w !. i).
Proof.
  intros Hi Hc. cbv zeta. induction n as [|n IH].
  - rewrite Z.add_0_r, u8_small by done. done.
  - destruct IH as (Hl & IH1 & IH2). cbn [Nat.iter nat_rect]. set (w' := Nat.iter n _ w) in *.
    change (nat_rect _ _ _ _) with w'. unfold send_slot_retransmit. cbn [sw_slots upd].
    unfold arr_get, arr_set in *. rewrite length_insert, list_lookup_total_insert_eq by lia.
    split; [done|]. cbn [ss_retransmit_count ss_first_sent_time_ns]. rewrite IH1, IH2.
    split; [word_lia|done].
Qed.

(** The 8-bit retransmission counter wraps: after 256 retransmissions a packet
    counts as never retransmitted, and its acknowledgement feeds the estimator
    the time since its first transmission, against Karn's rule. *)
Theorem karn_counter_wraps (w : rel4u_send_window) i now ack_ns r stats :
  0 <= i < Z.of_nat (length (sw_slots w)) ->
  ss_retransmit_count (sw_slots w !. i) = 0 -> ss_first_sent_time_ns (sw_slots w !. i) <= ack_ns ->
  let w' := Nat.iter 256 (fun w => send_slot_retransmit w i now) w in
  let ms := u32 (u64 (ack_ns - ss_first_sent_time_ns (sw_slots w !. i)) / 1000000) in
  fst (ack_rtt_sample (sw_slots w' !. i) ack_ns (Some r) stats) = Some (rel4u_rtt_update_sample r ms).
Proof.
  intros Hi Hc Hf. cbv zeta.
  destruct (iter_retransmit w i 256 now Hi) as (_ & E1 & E2); [rewrite Hc; word_lia|].
  set (w' := Nat.iter _ _ _) in *. clearbody w'. unfold ack_rtt_sample. rewrite E1, E2, Hc.
  change (u8 (0 + Z.of_nat 256) =? 0) with true.
  by rewrite (proj2 (Z.geb_le _ _)) by done.
Qed.

(** ** Witnesses *)

Definition sample_push (w : rel4u_send_window) (b : Z) : rel4u_send_window :=
  snd (fst (rel4u_send_window_push w REL4U_MODE_RELIABLE_ORDERED [b; b + 1] 2 (b * 1000000))).
(** Three packets, at the positions [2^32 - 2], [2^32 - 1] and [2^32]: the
    sequence numbers wrap inside the window. *)
Definition sample_window : rel4u_send_window := Eval vm_compute in
  foldl sample_push (snd (rel4u_send_window_init send_window_zero 4 (2 ^ 32 - 2) true)) [10; 20; 30].
Definition sample_entries : list rel4u_send_slot := Eval vm_compute in
  ring_view (sw_slots sample_window) 4 (2 ^ 32 - 2) 3.

Lemma sample_window_rep : send_rep sample_window (2 ^ 32 - 2) sample_entries.
Proof.
  constructor; [|reflexivity|reflexivity|reflexivity| |reflexivity| |reflexivity].
  - split; [cbn; lia|reflexivity].
  - cbn. lia.
  - intros [|[|[|i]]] e He; try discriminate He; injection He as <-;
      (constructor; [reflexivity|reflexivity|reflexivity| | |]); cbn; word_unfold;
      unfold REL4U_MAX_PAYLOAD_SIZE; lia.
Qed.

Lemma get_expired_exact_witness :
  rel4u_send_window_get_expired sample_window 225000000 200 (Z.of_nat 8) = [2; 3].
Proof.
  rewrite (get_expired_exact sample_window _ _ 225000000 200 8 sample_window_rep)
    by (word_unfold; lia). vm_compute. reflexivity.
Defined.

Lemma send_window_fresh_witness :
  send_rep (snd (rel4u_send_window_init send_window_zero 4 7 true)) 7 [].
Proof.
  pose proof (send_window_fresh send_window_zero 4 7 ltac:(word_unfold; lia) ltac:(lia)) as H.
  destruct (rel4u_send_window_init send_window_zero 4 7 true) as [r w'] eqn:E.
  assert (Hr : r = 0) by (vm_compute in E; congruence). destruct H as (_ & _ & H). exact (proj1 (H Hr)).
Defined.

Lemma send_push_spec_witness : exists payload,
  take 1 payload = [9] /\
  send_rep (snd (fst (rel4u_send_window_push sample_window 3 [9] 1 5))) (2 ^ 32 - 2)
    (sample_entries ++ [pushed_entry (2 ^ 32 + 1) 3 1 5 payload]).
Proof.
  pose proof (send_push_spec sample_window _ _ 3 [9] 1 5 sample_window_rep ltac:(word_unfold; lia)
    ltac:(cbn; lia)) as H.
  destruct (rel4u_send_window_push sample_window 3 [9] 1 5) as [[r w'] seq].
  change (1 >? REL4U_MAX_PAYLOAD_SIZE) with false in H. change (mode_reliable 3) with true in H.
  change (rel4u_send_window_can_send sample_window) with true in H. cbv iota beta in H.
  destruct H as (_ & _ & payload & Hp & R). exists payload. split; [exact Hp|exact R].
Defined.

(** The peer acknowledges position [2^32 - 2] and, by bit 1, position [2^32]. *)
Definition sample_acked : rel4u_send_window * option rel4u_rtt * option rel4u_stats := Eval vm_compute in
  rel4u_send_window_on_ack sample_window (2 ^ 32 - 2) 2 40000000 (Some rtt_default) None.
Lemma sample_acked_eq :
  rel4u_send_window_on_ack sample_window (2 ^ 32 - 2) 2 40000000 (Some rtt_default) None = sample_acked.
Proof. vm_compute. reflexivity. Qed.

Lemma on_ack_spec_witness :
  exists es, send_rep (fst (fst sample_acked)) (2 ^ 32 - 1) es /\ map ss_acked es = [false; true] /\
    sw_in_flight (fst (fst sample_acked)) = 1.
Proof.
  pose proof (on_ack_spec sample_window _ _ (2 ^ 32 - 2) 2 40000000 (Some rtt_default) None
    sample_window_rep ltac:(word_unfold; lia)) as H.
  rewrite sample_acked_eq in H. cbv zeta in H. destruct sample_acked as [[w' rtt'] stats'] eqn:E.
  destruct H as (R & _ & _). eexists. split; [exact R|]. split; [vm_compute; reflexivity|].
  cbn [fst]. rewrite (sr_flight _ _ _ R). vm_compute. reflexivity.
Defined.

Lemma on_ack_samples_witness :
  exists r, snd (fst sample_acked) = Some r /\ rtt_ok r /\
    r = foldl rel4u_rtt_update_sample rtt_default [30; 10].
Proof.
  pose proof (on_ack_samples sample_window _ _ (2 ^ 32 - 2) 2 40000000 rtt_default None
    sample_window_rep ltac:(word_unfold; lia) rtt_default_ok) as H.
  rewrite sample_acked_eq in H. cbv zeta in H. destruct sample_acked as [[w' rtt'] stats'].
  destruct H as (r & E & Hok & Hr & _). exists r. split; [exact E|]. split; [exact Hok|].
  rewrite Hr. vm_compute. reflexivity.
Defined.

Definition sample_queue : rel4u_mpmc_queue := Eval vm_compute in
  snd (rel4u_mpmc_init REL4U_MEM_DYNAMIC REL4U_QUEUE_FULL_DROP_NEW 0 1000 None).
Lemma sample_queue_rep : q_rep sample_queue (mk_bqueue [] 0).
Proof.
  pose proof (init_dynamic_rep REL4U_QUEUE_FULL_DROP_NEW 0 1000 None ltac:(lia)) as H. apply H.
Qed.

Lemma reclaim_in_order_witness :
  exists b, q_rep (snd (rel4u_send_window_reclaim_unacked sample_window sample_queue)) b /\
    bq_msgs b = [mk_msg 0 3 [10; 11]; mk_msg 0 3 [20; 21]; mk_msg 0 3 [30; 31]].
Proof.
  pose proof (reclaim_in_order sample_window _ _ sample_queue _ sample_window_rep
    sample_queue_rep ltac:(right; intros; eexists; reflexivity) ltac:(vm_compute; congruence)) as H.
  destruct (rel4u_send_window_reclaim_unacked sample_window sample_queue) as [n q'].
  destruct H as [_ H]. eexists. split; [exact H|]. vm_compute. reflexivity.
Defined.

Lemma reclaim_full_drop_last_witness :
  exists b, bq_msgs b = [item_msg (sample_item 1); item_msg (sample_item 2)] /\
    q_rep sample_full b /\
    exists d, q_rep (snd (rel4u_send_window_reclaim_unacked sample_window sample_full))
      (mk_bqueue [mk_msg 0 3 [10; 11]; item_msg (sample_item 2)] d) /\
    fst (rel4u_send_window_reclaim_unacked sample_window sample_full) = 3.
Proof.
  eexists. split; [|split; [exact sample_full_rep|]]; [reflexivity|].
  pose proof (reclaim_full_drop_last sample_window _ _ sample_full _ (mk_msg 0 3 [10; 11]) [mk_msg 0 3 [20; 21]; mk_msg 0 3 [30; 31]]
    _ _ sample_window_rep sample_full_rep eq_refl eq_refl eq_refl eq_refl eq_refl) as H.
  destruct (rel4u_send_window_reclaim_unacked sample_window sample_full) as [n q'].
  destruct H as [-> [d H]]. exists d. split; [exact H|reflexivity].
Defined.

Lemma karn_counter_wraps_witness :
  fst (ack_rtt_sample (sw_slots (Nat.iter 256 (fun w => send_slot_retransmit w 2 99000000) sample_window) !. 2)
    110000000 (Some rtt_default) None) = Some (rel4u_rtt_update_sample rtt_default 100).
Proof.
  pose proof (karn_counter_wraps sample_window 2 99000000 110000000 rtt_default None
    ltac:(cbn; lia) eq_refl ltac:(vm_compute; congruence)) as H. exact H.
Defined.
