(* ===== verification/RecvWindow.v ===== *)
(** * Receive window: definitions

    The receiver half of [src/core/rel4u_window.{h,c}]: duplicate detection,
    reassembly and acknowledgement information.  As in the send window a slot's
    payload array is represented by the prefix of it that has been written. *)
From S2P Require Import Prelude Ring Types Seq Packet.
From stdpp Require Import base numbers list.
Open Scope Z_scope.
Open Scope rel4u_scope.

Record rel4u_recv_slot := mk_recv_slot {
  rs_seq_num : Z;
  rs_payload_len : Z;
  rs_delivery_mode : Z;
  rs_received : bool;
  rs_payload : list Z
}.
#[export] Instance eta_recv_slot : Eta rel4u_recv_slot := fun s =>
  mk_recv_slot (rs_seq_num s) (rs_payload_len s) (rs_delivery_mode s) (rs_received s) (rs_payload s).

(** A zeroed slot, as [calloc] and [memset] leave it. *)
Definition recv_slot_zero : rel4u_recv_slot := mk_recv_slot 0 0 0 false [].
#[export] Instance recv_slot_inhabited : Inhabited rel4u_recv_slot := populate recv_slot_zero.

Record rel4u_recv_window := mk_recv_window {
  rw_slots : list rel4u_recv_slot;
  rw_capacity : Z;
  rw_expected_seq : Z;
  rw_highest_unrel_seq : Z;
  rw_has_highest_unrel : bool
}.
#[export] Instance eta_recv_window : Eta rel4u_recv_window := fun w =>
  mk_recv_window (rw_slots w) (rw_capacity w) (rw_expected_seq w) (rw_highest_unrel_seq w)
    (rw_has_highest_unrel w).

Definition recv_window_zero : rel4u_recv_window := mk_recv_window [] 0 0 0 false.

(** [alloc_ok]: whether [calloc] gives the slots. *)
Definition rel4u_recv_window_init (win : rel4u_recv_window) (capacity initial_seq : Z)
    (alloc_ok : bool) : Z * rel4u_recv_window :=
  if (capacity <? 2) || negb (is_pow2 capacity) then (-1, win) else
  if negb alloc_ok then (-1, win <| rw_slots := [] |>) else
  let win := win <| rw_slots := replicate (Z.to_nat capacity) recv_slot_zero |> in
  let win := win <| rw_capacity := capacity |> <| rw_expected_seq := initial_seq |> in
  (0, win <| rw_highest_unrel_seq := 0 |> <| rw_has_highest_unrel := false |>).

Definition rel4u_recv_window_destroy (win : rel4u_recv_window) : rel4u_recv_window :=
  win <| rw_slots := [] |> <| rw_capacity := 0 |>.

Definition rel4u_recv_window_reset (win : rel4u_recv_window) (initial_seq : Z)
  : Z * rel4u_recv_window :=
  if (length (rw_slots win) =? 0)%nat || (rw_capacity win =? 0) then (-1, win) else
  let win := win <| rw_slots := replicate (Z.to_nat (rw_capacity win)) recv_slot_zero |> in
  let win := win <| rw_expected_seq := initial_seq |> in
  (0, win <| rw_highest_unrel_seq := 0 |> <| rw_has_highest_unrel := false |>).

(** The index of a sequence number's slot, [seq & (capacity - 1)]. *)
Definition recv_slot_idx (win : rel4u_recv_window) (seq : Z) : Z :=
  Z.land seq (u32 (rw_capacity win - 1)).

(** [if (hdr->payload_len > 0 && payload) memcpy(dst, payload, hdr->payload_len)];
    [payload] may be NULL. *)
Definition copy_payload (dst : list Z) (hdr : rel4u_header) (payload : option (list Z)) : list Z :=
  match payload with
  | Some p => if h_payload_len hdr >? 0 then memcpy dst p (h_payload_len hdr) else dst
  | None => dst
  end.

(** The slot that a packet fills: the header fields, the flag and the payload. *)
Definition fill_slot (slot : rel4u_recv_slot) (hdr : rel4u_header) (mode : Z)
    (payload : option (list Z)) : rel4u_recv_slot :=
  mk_recv_slot (h_seq_num hdr) (h_payload_len hdr) (u8 mode) true
    (copy_payload (rs_payload slot) hdr payload).

(** The loop of [rel4u_recv_window_pop_ready].  A turn clears a received slot, so
    as many turns as there are slots are enough. *)
Fixpoint pop_ready_loop (fuel : nat) (win : rel4u_recv_window) (out : list rel4u_recv_slot)
    (max_ready ready_count : Z) : rel4u_recv_window * list rel4u_recv_slot * Z :=
  match fuel with
  | O => (win, out, ready_count)
  | S fuel =>
      if ready_count <? max_ready then
        let exp_idx := recv_slot_idx win (rw_expected_seq win) in
        let exp_slot := rw_slots win !. exp_idx in
        if rs_received exp_slot && (rs_seq_num exp_slot =? rw_expected_seq win) then
          let '(out, ready_count) :=
            if rs_delivery_mode exp_slot =? REL4U_MODE_RELIABLE_ORDERED
            then (arr_set out ready_count exp_slot, ready_count + 1) else (out, ready_count) in
          let win := win <| rw_slots :=
                       arr_set (rw_slots win) exp_idx (exp_slot <| rs_received := false |>) |> in
          let win := win <| rw_expected_seq := u32 (rw_expected_seq win + 1) |> in
          pop_ready_loop fuel win out max_ready ready_count
        else (win, out, ready_count)
      else (win, out, ready_count)
  end.

(** The result code, the window, [out_ready_slots] and [*out_ready_count]. *)
Definition rel4u_recv_window_pop_ready (win : rel4u_recv_window) (out_ready_slots : list rel4u_recv_slot)
    (max_ready out_ready_count : Z) : Z * rel4u_recv_window * list rel4u_recv_slot * Z :=
  if max_ready =? 0 then (-1, win, out_ready_slots, out_ready_count) else
  let '(win, out, ready_count) := pop_ready_loop (length (rw_slots win)) win out_ready_slots max_ready 0 in
  (0, win, out, ready_count).

(** The loop [while (1)] that follows an accepted packet of mode 2. *)
Fixpoint advance_loop (fuel : nat) (win : rel4u_recv_window) (out : list rel4u_recv_slot)
    (max_ready ready_count : Z) : rel4u_recv_window * list rel4u_recv_slot * Z :=
  match fuel with
  | O => (win, out, ready_count)
  | S fuel =>
      let exp_idx := recv_slot_idx win (rw_expected_seq win) in
      let exp_slot := rw_slots win !. exp_idx in
      if rs_received exp_slot && (rs_seq_num exp_slot =? rw_expected_seq win) then
        let advanced := win <| rw_slots :=
                          arr_set (rw_slots win) exp_idx (exp_slot <| rs_received := false |>) |>
                          <| rw_expected_seq := u32 (rw_expected_seq win + 1) |> in
        if rs_delivery_mode exp_slot =? REL4U_MODE_RELIABLE_UNORDERED then
          advance_loop fuel advanced out max_ready ready_count
        else if rs_delivery_mode exp_slot =? REL4U_MODE_RELIABLE_ORDERED then
          if ready_count <? max_ready then
            advance_loop fuel advanced (arr_set out ready_count exp_slot) max_ready (ready_count + 1)
          else (win, out, ready_count)
        else (win, out, ready_count)
      else (win, out, ready_count)
  end.

Definition rel4u_recv_window_on_packet (win : rel4u_recv_window) (hdr : rel4u_header)
    (payload : option (list Z)) (out_ready_slots : list rel4u_recv_slot)
    (max_ready out_ready_count : Z) : Z * rel4u_recv_window * list rel4u_recv_slot * Z :=
  if max_ready =? 0 then (-1, win, out_ready_slots, out_ready_count) else
  let out := out_ready_slots in
  let mode := h_delivery_mode hdr in
  let deliver_first := arr_set out 0 (fill_slot (out !. 0) hdr mode payload) in
  if mode =? REL4U_MODE_UNRELIABLE_UNORDERED then (0, win, deliver_first, 1)
  else if mode =? REL4U_MODE_UNRELIABLE_ORDERED then
    if negb (rw_has_highest_unrel win) || rel4u_seq_gt (h_seq_num hdr) (rw_highest_unrel_seq win) then
      let win := win <| rw_highest_unrel_seq := h_seq_num hdr |> <| rw_has_highest_unrel := true |> in
      (0, win, deliver_first, 1)
    else (1, win, out, 0)
  else if mode =? REL4U_MODE_RELIABLE_UNORDERED then
    if rel4u_seq_lt (h_seq_num hdr) (rw_expected_seq win) then (1, win, out, 0) else
    let diff := rel4u_seq_diff (h_seq_num hdr) (rw_expected_seq win) in
    if diff >=? s32 (rw_capacity win) then (-2, win, out, 0) else
    let slot_idx := recv_slot_idx win (h_seq_num hdr) in
    let slot := rw_slots win !. slot_idx in
    if rs_received slot && (rs_seq_num slot =? h_seq_num hdr) then (1, win, out, 0) else
    let win := win <| rw_slots := arr_set (rw_slots win) slot_idx
                        (mk_recv_slot (h_seq_num hdr) (h_payload_len hdr) (u8 mode) true
                           (rs_payload slot)) |> in
    let '(win, out, ready_count) := advance_loop (length (rw_slots win)) win deliver_first max_ready 1 in
    (0, win, out, ready_count)
  else if mode =? REL4U_MODE_RELIABLE_ORDERED then
    if rel4u_seq_lt (h_seq_num hdr) (rw_expected_seq win) then (1, win, out, 0) else
    let diff := rel4u_seq_diff (h_seq_num hdr) (rw_expected_seq win) in
    if diff >=? s32 (rw_capacity win) then (-2, win, out, 0) else
    let slot_idx := recv_slot_idx win (h_seq_num hdr) in
    let slot := rw_slots win !. slot_idx in
    if rs_received slot && (rs_seq_num slot =? h_seq_num hdr) then (1, win, out, 0) else
    let win := win <| rw_slots := arr_set (rw_slots win) slot_idx (fill_slot slot hdr mode payload) |> in
    rel4u_recv_window_pop_ready win out max_ready 0
  else (-1, win, out, 0).

(** [*out_ack_num] and [*out_sack_mask]. *)
Definition rel4u_recv_window_get_ack_info (win : rel4u_recv_window) : Z * Z :=
  (u32 (rw_expected_seq win - 1),
   foldl (fun mask i =>
            let target_seq := u32 (rw_expected_seq win + i) in
            let slot := rw_slots win !. recv_slot_idx win target_seq in
            if rs_received slot && (rs_seq_num slot =? target_seq)
            then Z.lor mask (u32 (Z.shiftl 1 i)) else mask)
         0 (seqZ 0 32)).
