(* ===== verification/RecvSpec.v ===== *)
(** * Receive window: representation and loops

    The peer numbers its reliable messages by stream positions; [content p] is
    the mode and the payload of the message at position [p].  [recv_rep w p] says
    that the window [w] expects position [p] next and that every buffered slot
    belongs to a position of [[p, p + capacity)] and agrees with [content]. *)
From S2P Require Import Prelude Ring Types Seq Packet RecvWindow.
From stdpp Require Import base numbers list.
Open Scope Z_scope.
Open Scope rel4u_scope.

(** What a delivered slot hands to the application. *)
Definition slot_view (s : rel4u_recv_slot) : Z * Z * list Z :=
  (rs_seq_num s, rs_delivery_mode s, take (Z.to_nat (rs_payload_len s)) (rs_payload s)).

Lemma recv_slot_idx_mod w q : cap_ok (rw_capacity w) ->
  recv_slot_idx w (u32 q) = q mod rw_capacity w.
Proof.
  intros Hc. unfold recv_slot_idx. rewrite (u32_small (_ - 1)) by (destruct Hc; word_lia).
  by apply land_mask.
Qed.

Section content.
Context (content : Z -> Z * list Z).
Definition mode_of (q : Z) : Z := fst (content q).
Definition data_of (q : Z) : list Z := snd (content q).

(** The messages that must be delivered in order. *)
Definition ordered (q : Z) : Prop := mode_of q = REL4U_MODE_RELIABLE_ORDERED.
#[local] Instance ordered_dec q : Decision (ordered q).
Proof. unfold ordered. apply _. Defined.

Definition pkt (q : Z) : Z * Z * list Z := (u32 q, mode_of q, data_of q).

(** A buffered slot of position [q]; the payload of an unordered message was
    delivered on arrival and is not kept. *)
Record slot_ok (q : Z) (s : rel4u_recv_slot) : Prop := {
  so_seq : rs_seq_num s = u32 q;
  so_mode : rs_delivery_mode s = mode_of q;
  so_reliable : mode_reliable (mode_of q) = true;
  so_data : ordered q -> slot_view s = pkt q
}.

Record recv_rep (w : rel4u_recv_window) (p : Z) : Prop := {
  rr_cap : cap_ok (rw_capacity w);
  rr_length : Z.of_nat (length (rw_slots w)) = rw_capacity w;
  rr_expected : rw_expected_seq w = u32 p;
  rr_slots : forall q, p <= q < p + rw_capacity w ->
    rs_received (ring_at (rw_slots w) (rw_capacity w) q) = true ->
    slot_ok q (ring_at (rw_slots w) (rw_capacity w) q)
}.

(** Position [q] is in the window and buffered. *)
Definition held (w : rel4u_recv_window) (p q : Z) : Prop :=
  p <= q < p + rw_capacity w /\ rs_received (ring_at (rw_slots w) (rw_capacity w) q) = true.

#[local] Instance held_dec w p q : Decision (held w p q).
Proof. unfold held. apply _. Defined.

(** The duplicate test [slot->received && slot->seq_num == seq] finds exactly the
    held positions. *)
Lemma held_test w p q : recv_rep w p -> p <= q < p + rw_capacity w ->
  rs_received (ring_at (rw_slots w) (rw_capacity w) q) &&
  (rs_seq_num (ring_at (rw_slots w) (rw_capacity w) q) =? u32 q) = bool_decide (held w p q).
Proof.
  intros R Hq. case_bool_decide as Hh.
  - destruct Hh as [_ Hr]. rewrite Hr, (so_seq _ _ (rr_slots _ _ R _ Hq Hr)). apply Z.eqb_refl.
  - apply andb_false_intro1, not_true_is_false. intros Hr. by apply Hh.
Qed.

Lemma window_mod w p q : recv_rep w p -> p < q < p + rw_capacity w ->
  p mod rw_capacity w <> q mod rw_capacity w.
Proof.
  intros R Hq E. pose proof (rr_cap _ _ R) as [? _].
  rewrite <- (Z.add_0_r p) in E at 1. replace q with (p + (q - p)) in E by lia.
  apply mod_window_inj in E; lia.
Qed.

Lemma window_mod_ne w p q x : recv_rep w p -> p <= q < p + rw_capacity w ->
  p <= x < p + rw_capacity w -> q <> x -> q mod rw_capacity w <> x mod rw_capacity w.
Proof.
  intros R Hq Hx Hne E. pose proof (rr_cap _ _ R) as [? _].
  replace q with (p + (q - p)) in E by lia. replace x with (p + (x - p)) in E by lia.
  apply mod_window_inj in E; lia.
Qed.

(** ** Storing and advancing *)

Definition same_config (w w' : rel4u_recv_window) : Prop :=
  rw_capacity w' = rw_capacity w /\ rw_highest_unrel_seq w' = rw_highest_unrel_seq w /\
  rw_has_highest_unrel w' = rw_has_highest_unrel w.

Lemma store_rep w p q s : recv_rep w p -> p <= q < p + rw_capacity w ->
  slot_ok q s -> rs_received s = true ->
  let w' := w <| rw_slots := arr_set (rw_slots w) (recv_slot_idx w (u32 q)) s |> in
  recv_rep w' p /\ (forall x, held w' p x <-> held w p x \/ x = q).
Proof.
  intros R Hq Hs Hr. cbv zeta. rewrite recv_slot_idx_mod by apply R.
  change (arr_set ?l (?x mod ?c) ?y) with (ring_set l c x y).
  pose proof (rr_cap _ _ R) as [Hc _].
  assert (Hat : forall x, p <= x < p + rw_capacity w ->
    ring_at (ring_set (rw_slots w) (rw_capacity w) q s) (rw_capacity w) x =
    if decide (x = q) then s else ring_at (rw_slots w) (rw_capacity w) x).
  { intros x Hx. case_decide as E; [subst; apply ring_at_set_eq; [lia|apply R|done]|].
    apply ring_at_set_ne; [lia|]. by eapply window_mod_ne. }
  split.
  - constructor; cbn; try apply R; [by rewrite ring_set_length; apply R|].
    intros x Hx. rewrite Hat by done. case_decide as E; [by subst|by apply R].
  - intros x. unfold held. cbn. split.
    + intros [Hx Hrx]. rewrite Hat in Hrx by done. case_decide; [by right|by left].
    + intros [[Hx Hrx]| ->]; (split; [done|]); rewrite Hat by done; by case_decide.
Qed.

(** Clearing the expected slot and moving on, as both loops do. *)
Definition advance (w : rel4u_recv_window) : rel4u_recv_window :=
  let i := recv_slot_idx w (rw_expected_seq w) in
  w <| rw_slots := arr_set (rw_slots w) i ((rw_slots w !. i) <| rs_received := false |>) |>
    <| rw_expected_seq := u32 (rw_expected_seq w + 1) |>.

Lemma advance_rep w p : recv_rep w p ->
  recv_rep (advance w) (p + 1) /\ same_config w (advance w) /\
  forall x, held (advance w) (p + 1) x <-> held w p x /\ p + 1 <= x.
Proof.
  intros R. unfold advance. rewrite (rr_expected _ _ R), recv_slot_idx_mod by apply R.
  change (arr_set ?l (?x mod ?c) ?y) with (ring_set l c x y). set (s := _ <| rs_received := false |>).
  pose proof (rr_cap _ _ R) as [Hc _]. pose proof (rr_length _ _ R) as Hl.
  assert (Hlast : ring_at (ring_set (rw_slots w) (rw_capacity w) p s) (rw_capacity w)
    (p + rw_capacity w) = s).
  { apply ring_at_set_eq; [lia|done|]. rewrite <- (Z.mul_1_l (rw_capacity w)) at 2.
    by rewrite Z.mod_add by lia. }
  assert (Hat : forall x, p < x < p + rw_capacity w ->
    ring_at (ring_set (rw_slots w) (rw_capacity w) p s) (rw_capacity w) x =
    ring_at (rw_slots w) (rw_capacity w) x).
  { intros x Hx. apply ring_at_set_ne; [lia|]. by eapply window_mod. }
  split; [|split; [done|]].
  - constructor; cbn; [apply R|by rewrite ring_set_length|by rewrite u32_add_l|].
    intros x Hx. destruct (decide (x = p + rw_capacity w)) as [->|Hne].
    + by rewrite Hlast.
    + rewrite Hat by lia. apply R. lia.
  - intros x. unfold held. cbn. split.
    + intros [Hx Hr]. destruct (decide (x = p + rw_capacity w)) as [->|Hne]; [by rewrite Hlast in Hr|].
      rewrite Hat in Hr by lia. split; [split; [lia|done]|lia].
    + intros [[Hx Hr] Hp]. split; [lia|]. by rewrite Hat by lia.
Qed.

(** ** Draining *)

(** The ordered positions among [p], ..., [p + m - 1]. *)
Definition ordered_run (p m : Z) : list Z := filter ordered (seqZ p m).

Lemma ordered_run_cons p m : 0 < m ->
  ordered_run p m = (if decide (ordered p) then [p] else []) ++ ordered_run (p + 1) (m - 1).
Proof.
  intros Hm. unfold ordered_run. rewrite seqZ_cons, filter_cons by lia.
  rewrite <- Z.add_1_r, Z.sub_1_r. by case_decide.
Qed.

Lemma ordered_run_app p a b : 0 <= a -> 0 <= b ->
  ordered_run p (a + b) = ordered_run p a ++ ordered_run (p + a) b.
Proof. intros. unfold ordered_run. by rewrite seqZ_app, filter_app by done. Qed.

Lemma elem_of_ordered_run p m q : q ∈ ordered_run p m <-> ordered q /\ p <= q < p + m.
Proof. unfold ordered_run. by rewrite list_elem_of_filter, elem_of_seqZ. Qed.

(** [drained m]: from the window [w] at [p] with [rc] messages in [out], [m]
    buffered positions were taken and the ordered ones among them appended. *)
Record drained (w : rel4u_recv_window) (p : Z) (out : list rel4u_recv_slot) (rc m : Z)
    (w' : rel4u_recv_window) (out' : list rel4u_recv_slot) (rc' : Z) : Prop := {
  dr_pos : 0 <= m;
  dr_rep : recv_rep w' (p + m);
  dr_config : same_config w w';
  dr_taken : forall q, p <= q < p + m -> held w p q;
  dr_held : forall q, held w' (p + m) q <-> held w p q /\ p + m <= q;
  dr_length : length out' = length out;
  dr_count : rc <= rc';
  dr_out : slot_view <$> take (Z.to_nat rc') out' =
           (slot_view <$> take (Z.to_nat rc) out) ++ (pkt <$> ordered_run p m)
}.

Lemma drained_refl w p out rc : recv_rep w p -> drained w p out rc 0 w out rc.
Proof.
  intros R. constructor; rewrite ?Z.add_0_r; try done; try lia.
  - intros q. split; [|by intros []]. intros H. split; [done|]. apply H.
  - unfold ordered_run. by rewrite app_nil_r.
Qed.

(** The messages in [out] after writing one more. *)
Lemma out_snoc (out : list rel4u_recv_slot) rc s : 0 <= rc < Z.of_nat (length out) ->
  take (Z.to_nat (rc + 1)) (arr_set out rc s) = take (Z.to_nat rc) out ++ [s].
Proof.
  intros H. replace (Z.to_nat (rc + 1)) with (S (Z.to_nat rc)) by lia. unfold arr_set.
  erewrite take_S_r by (apply list_lookup_insert_eq; lia). by rewrite take_insert_ge by lia.
Qed.

(** One turn of either loop followed by the rest of it. *)
Lemma drained_step w p out rc m out1 rc1 w' out' rc' :
  recv_rep w p -> held w p p -> 0 <= rc ->
  (if decide (ordered p)
   then rc < Z.of_nat (length out) /\
        out1 = arr_set out rc (ring_at (rw_slots w) (rw_capacity w) p) /\ rc1 = rc + 1
   else out1 = out /\ rc1 = rc) ->
  drained (advance w) (p + 1) out1 rc1 m w' out' rc' ->
  drained w p out rc (m + 1) w' out' rc'.
Proof.
  intros R Hh Hrc Hout D. destruct (advance_rep w p R) as (R1 & (C1 & C2 & C3) & H1).
  destruct D as [Hm Rm (Cm1 & Cm2 & Cm3) Ht Hhm Hlen Hcnt Ho].
  replace (p + 1 + m) with (p + (m + 1)) in * by lia.
  constructor; [lia|done|split; [congruence|split; congruence]| | | | |].
  - intros q Hq. destruct (decide (q = p)) as [->|Hne]; [done|].
    apply (H1 q), Ht. lia.
  - intros q. rewrite Hhm, H1. split; [by intros [[? ?] ?]|].
    intros [? ?]. split; [split; [done|lia]|done].
  - case_decide; [|by destruct Hout as [-> _]]. destruct Hout as (_ & -> & _).
    rewrite Hlen. apply length_insert.
  - case_decide; [destruct Hout as (_ & _ & ->); lia|destruct Hout as [_ ->]; lia].
  - rewrite Ho, (ordered_run_cons p (m + 1)) by lia. replace (m + 1 - 1) with m by lia.
    case_decide as Eo.
    + destruct Hout as (Hlt & -> & ->). rewrite out_snoc, fmap_app, <- app_assoc by lia.
      rewrite fmap_app. do 2 f_equal. cbn. f_equal.
      destruct Hh as [Hq Hr]. by apply (so_data _ _ (rr_slots _ _ R p Hq Hr)).
    + by destruct Hout as [-> ->].
Qed.

(** Why a loop ends: the room for messages is used up, or the expected position
    is not there. *)
Definition drain_done (w : rel4u_recv_window) (p rc max : Z) : Prop := rc = max \/ ~ held w p p.

(** All held positions are among the next [fuel]. *)
Definition enough (fuel : nat) (w : rel4u_recv_window) (p : Z) : Prop :=
  forall q, held w p q -> q < p + Z.of_nat fuel.

Lemma enough_capacity w p : recv_rep w p -> enough (length (rw_slots w)) w p.
Proof. intros R q [Hq _]. rewrite (rr_length _ _ R). lia. Qed.

Lemma enough_advance fuel w p : recv_rep w p -> enough (S fuel) w p -> enough fuel (advance w) (p + 1).
Proof.
  intros R He q Hq. apply (advance_rep w p R) in Hq as [Hq _]. specialize (He q Hq). lia.
Qed.

Lemma expected_slot w p : recv_rep w p ->
  rw_slots w !. recv_slot_idx w (rw_expected_seq w) = ring_at (rw_slots w) (rw_capacity w) p.
Proof. intros R. rewrite (rr_expected _ _ R), recv_slot_idx_mod by apply R. done. Qed.

Lemma expected_test w p : recv_rep w p ->
  rs_received (ring_at (rw_slots w) (rw_capacity w) p) &&
  (rs_seq_num (ring_at (rw_slots w) (rw_capacity w) p) =? rw_expected_seq w)
  = bool_decide (held w p p).
Proof.
  intros R. pose proof (rr_cap _ _ R) as [Hc _]. rewrite (rr_expected _ _ R). apply held_test; [done|lia].
Qed.

Lemma expected_mode w p : recv_rep w p -> held w p p ->
  rs_delivery_mode (ring_at (rw_slots w) (rw_capacity w) p) = mode_of p
  /\ mode_reliable (mode_of p) = true.
Proof. intros R [Hq Hr]. destruct (rr_slots _ _ R p Hq Hr). done. Qed.

Lemma drained_bound w p out rc m w' out' rc' : recv_rep w p -> drained w p out rc m w' out' rc' ->
  0 <= m <= rw_capacity w.
Proof.
  intros R D. pose proof (dr_pos _ _ _ _ _ _ _ _ D). pose proof (rr_cap _ _ R) as [? _].
  destruct (decide (m = 0)) as [->|Hm]; [lia|].
  assert (Hh : held w p (p + m - 1)) by (apply (dr_taken _ _ _ _ _ _ _ _ D); lia).
  destruct Hh. lia.
Qed.

(** A loop that stops, and one that goes on. *)
Lemma drained_stop w p out rc max : recv_rep w p -> rc <= max -> drain_done w p rc max ->
  exists m, drained w p out rc m w out rc /\ rc <= max /\ drain_done w (p + m) rc max.
Proof. intros R Hle Hd. exists 0. rewrite Z.add_0_r. split; [by apply drained_refl|done]. Qed.

Lemma drained_more w p out rc out1 rc1 max w' out' rc' :
  recv_rep w p -> held w p p -> 0 <= rc ->
  (if decide (ordered p)
   then rc < Z.of_nat (length out) /\
        out1 = arr_set out rc (ring_at (rw_slots w) (rw_capacity w) p) /\ rc1 = rc + 1
   else out1 = out /\ rc1 = rc) ->
  (exists m, drained (advance w) (p + 1) out1 rc1 m w' out' rc' /\ rc' <= max /\
     drain_done w' (p + 1 + m) rc' max) ->
  exists m, drained w p out rc m w' out' rc' /\ rc' <= max /\ drain_done w' (p + m) rc' max.
Proof.
  intros R Hh Hrc Hout (m & D & Hle & Hd). exists (m + 1).
  replace (p + (m + 1)) with (p + 1 + m) by lia. split; [|done].
  by eapply drained_step.
Qed.

(** The state both loops build in a turn. *)
Lemma advance_fold w p : recv_rep w p ->
  w <| rw_slots := arr_set (rw_slots w) (recv_slot_idx w (rw_expected_seq w))
         ((ring_at (rw_slots w) (rw_capacity w) p) <| rs_received := false |>) |>
    <| rw_expected_seq := u32 (rw_expected_seq w + 1) |> = advance w.
Proof. intros R. unfold advance. by rewrite (expected_slot w p R). Qed.

Lemma pop_ready_loop_spec max fuel : forall w p out rc,
  recv_rep w p -> enough fuel w p -> 0 <= rc <= max -> max <= Z.of_nat (length out) ->
  let '(w', out', rc') := pop_ready_loop fuel w out max rc in
  exists m, drained w p out rc m w' out' rc' /\ rc' <= max /\ drain_done w' (p + m) rc' max.
Proof.
  induction fuel as [|fuel IH]; intros w p out rc R He Hrc Hmax; cbn [pop_ready_loop].
  - apply drained_stop; [done|lia|]. right. intros Hh. specialize (He p Hh). lia.
  - destruct (Z.ltb_spec rc max) as [Hlt|Hge].
    2:{ apply drained_stop; [done|lia|]. left. lia. }
    rewrite (expected_slot w p R), (expected_test w p R). case_bool_decide as Hh.
    2:{ apply drained_stop; [done|lia|by right]. }
    destruct (expected_mode w p R Hh) as [Em _]. rewrite Em.
    destruct (advance_rep w p R) as (R1 & _ & _). pose proof (enough_advance _ _ _ R He) as He1.
    change (rw_expected_seq (w <| rw_slots := _ |>)) with (rw_expected_seq w).
    rewrite (advance_fold w p R).
    destruct (Z.eqb_spec (mode_of p) REL4U_MODE_RELIABLE_ORDERED) as [Eo|Eo].
    + specialize (IH (advance w) (p + 1) (arr_set out rc (ring_at (rw_slots w) (rw_capacity w) p))
        (rc + 1) R1 He1 ltac:(lia) ltac:(unfold arr_set; rewrite length_insert; lia)).
      destruct (pop_ready_loop fuel _ _ _ _) as [[w' out'] rc'].
      eapply drained_more; [done|done|lia| |exact IH]. rewrite decide_True by done. split; [lia|done].
    + specialize (IH (advance w) (p + 1) out rc R1 He1 Hrc Hmax).
      destruct (pop_ready_loop fuel _ _ _ _) as [[w' out'] rc'].
      eapply drained_more; [done|done|lia| |exact IH]. by rewrite decide_False.
Qed.

Lemma advance_loop_spec max fuel : forall w p out rc,
  recv_rep w p -> enough fuel w p -> 0 <= rc <= max -> max <= Z.of_nat (length out) ->
  let '(w', out', rc') := advance_loop fuel w out max rc in
  exists m, drained w p out rc m w' out' rc' /\ rc' <= max /\ drain_done w' (p + m) rc' max.
Proof.
  induction fuel as [|fuel IH]; intros w p out rc R He Hrc Hmax; cbn [advance_loop].
  - apply drained_stop; [done|lia|]. right. intros Hh. specialize (He p Hh). lia.
  - rewrite (expected_slot w p R), (expected_test w p R). case_bool_decide as Hh.
    2:{ apply drained_stop; [done|lia|by right]. }
    destruct (expected_mode w p R Hh) as [Em Hrel]. rewrite Em.
    destruct (advance_rep w p R) as (R1 & _ & _). pose proof (enough_advance _ _ _ R He) as He1.
    rewrite (advance_fold w p R).
    destruct (Z.eqb_spec (mode_of p) REL4U_MODE_RELIABLE_UNORDERED) as [Eu|Eu].
    + specialize (IH (advance w) (p + 1) out rc R1 He1 Hrc Hmax).
      destruct (advance_loop fuel _ _ _ _) as [[w' out'] rc'].
      eapply drained_more; [done|done|lia| |exact IH].
      rewrite decide_False; [done|]. unfold ordered. rewrite Eu. done.
    + assert (Eo : mode_of p = REL4U_MODE_RELIABLE_ORDERED) by (apply mode_reliable_true in Hrel; tauto).
      rewrite (proj2 (Z.eqb_eq _ _)) by done.
      destruct (Z.ltb_spec rc max) as [Hlt|Hge].
      2:{ apply drained_stop; [done|lia|]. left. lia. }
      specialize (IH (advance w) (p + 1) (arr_set out rc (ring_at (rw_slots w) (rw_capacity w) p))
        (rc + 1) R1 He1 ltac:(lia) ltac:(unfold arr_set; rewrite length_insert; lia)).
      destruct (advance_loop fuel _ _ _ _) as [[w' out'] rc'].
      eapply drained_more; [done|done|lia| |exact IH]. rewrite decide_True by done. split; [lia|done].
Qed.

(** ** Packets *)

(** A packet with the message of position [q]: its header, and a buffer that
    starts with the payload. *)
Record carries (hdr : rel4u_header) (payload : list Z) (q : Z) : Prop := {
  ca_seq : h_seq_num hdr = u32 q;
  ca_mode : h_delivery_mode hdr = mode_of q;
  ca_reliable : mode_reliable (mode_of q) = true;
  ca_len : h_payload_len hdr = Z.of_nat (length (data_of q));
  ca_data : take (length (data_of q)) payload = data_of q
}.

Lemma carries_length hdr payload q : carries hdr payload q -> h_payload_len hdr <= Z.of_nat (length payload).
Proof.
  intros C. rewrite (ca_len _ _ _ C). pose proof (f_equal length (ca_data _ _ _ C)) as E.
  rewrite length_take in E. lia.
Qed.

Lemma mode_u8 q : mode_reliable (mode_of q) = true -> u8 (mode_of q) = mode_of q.
Proof. intros [->| ->]%mode_reliable_true; done. Qed.

Lemma fill_slot_view s hdr payload q : carries hdr payload q ->
  slot_view (fill_slot s hdr (h_delivery_mode hdr) (Some payload)) = pkt q.
Proof.
  intros C. unfold slot_view, fill_slot, pkt. cbn [rs_seq_num rs_delivery_mode rs_payload_len rs_payload].
  rewrite (ca_seq _ _ _ C), (ca_mode _ _ _ C), mode_u8 by apply C. f_equal.
  unfold copy_payload. pose proof (carries_length _ _ _ C) as Hl. pose proof (ca_data _ _ _ C) as Hd.
  rewrite (ca_len _ _ _ C) in *. destruct (Z.gtb_spec (Z.of_nat (length (data_of q))) 0).
  - rewrite memcpy_take, Nat2Z.id by done. done.
  - rewrite Nat2Z.id. destruct (data_of q); [done|]. cbn in *. lia.
Qed.

Lemma fill_slot_ok s hdr payload q : carries hdr payload q ->
  slot_ok q (fill_slot s hdr (h_delivery_mode hdr) (Some payload)).
Proof.
  intros C. constructor; cbn [fill_slot rs_seq_num rs_delivery_mode]; try apply C.
  - rewrite (ca_mode _ _ _ C). apply mode_u8, C.
  - intros _. by apply fill_slot_view.
Qed.

(** The outcome of a reliable packet of position [q] that arrives at a window
    expecting [p]. *)
Inductive accepted (w : rel4u_recv_window) (p q : Z) (out : list rel4u_recv_slot) (max : Z)
    (w' : rel4u_recv_window) (out' : list rel4u_recv_slot) (rc' : Z) : Prop :=
  | accepted_intro w1 out1 rc1 m :
      recv_rep w1 p -> same_config w w1 -> (forall x, held w1 p x <-> held w p x \/ x = q) ->
      length out1 = length out -> 0 <= rc1 <= max ->
      slot_view <$> take (Z.to_nat rc1) out1 = (if decide (ordered q) then [] else [pkt q]) ->
      drained w1 p out1 rc1 m w' out' rc' -> rc' <= max -> drain_done w' (p + m) rc' max ->
      accepted w p q out max w' out' rc'.

(** [rel4u_recv_window_pop_ready] on any window. *)
Lemma pop_ready_spec w p out max rc0 : recv_rep w p -> 0 < max <= Z.of_nat (length out) ->
  let '(r, w', out', rc') := rel4u_recv_window_pop_ready w out max rc0 in
  r = 0 /\ exists m, drained w p out 0 m w' out' rc' /\ rc' <= max /\ drain_done w' (p + m) rc' max.
Proof.
  intros R Hmax. unfold rel4u_recv_window_pop_ready. rewrite (proj2 (Z.eqb_neq max 0)) by lia.
  pose proof (pop_ready_loop_spec max _ w p out 0 R (enough_capacity w p R) ltac:(lia) ltac:(lia)) as H.
  destruct (pop_ready_loop _ _ _ _ _) as [[w' out'] rc']. done.
Qed.

Lemma accept_ordered w p q hdr payload out max :
  recv_rep w p -> carries hdr payload q -> ordered q -> p <= q < p + rw_capacity w ->
  0 < max <= Z.of_nat (length out) ->
  let w1 := w <| rw_slots := arr_set (rw_slots w) (recv_slot_idx w (u32 q))
    (fill_slot (ring_at (rw_slots w) (rw_capacity w) q) hdr (h_delivery_mode hdr) (Some payload)) |> in
  let '(r, w', out', rc') := rel4u_recv_window_pop_ready w1 out max 0 in
  r = 0 /\ accepted w p q out max w' out' rc'.
Proof.
  intros R C Eo Hpq Hmax. cbv zeta.
  destruct (store_rep w p q _ R Hpq (fill_slot_ok (ring_at (rw_slots w) (rw_capacity w) q)
    hdr payload q C) eq_refl) as [R1 H1].
  set (w1 := w <| rw_slots := _ |>) in *.
  assert (Hcfg : same_config w w1) by done. clearbody w1.
  pose proof (pop_ready_spec w1 p out max 0 R1 Hmax) as H.
  destruct (rel4u_recv_window_pop_ready w1 out max 0) as [[[r w'] out'] rc'].
  destruct H as (-> & m & D & Hle & Hd). split; [done|].
  apply (accepted_intro _ _ _ _ _ _ _ _ w1 out 0 m); try done; [lia|]. by rewrite decide_True.
Qed.

Lemma accept_unordered w p q hdr payload out max :
  recv_rep w p -> carries hdr payload q -> ~ ordered q -> p <= q < p + rw_capacity w ->
  0 < max <= Z.of_nat (length out) ->
  let s := mk_recv_slot (u32 q) (h_payload_len hdr) (u8 (h_delivery_mode hdr)) true
             (rs_payload (ring_at (rw_slots w) (rw_capacity w) q)) in
  let w1 := w <| rw_slots := arr_set (rw_slots w) (recv_slot_idx w (u32 q)) s |> in
  let out1 := arr_set out 0 (fill_slot (out !. 0) hdr (h_delivery_mode hdr) (Some payload)) in
  let '(w', out', rc') := advance_loop (length (rw_slots w1)) w1 out1 max 1 in
  accepted w p q out max w' out' rc'.
Proof.
  intros R C Eo Hpq Hmax. cbv zeta. set (s := mk_recv_slot _ _ _ _ _).
  assert (Hs : slot_ok q s).
  { constructor; [done| |apply C|done]. cbn. rewrite (ca_mode _ _ _ C). apply mode_u8, C. }
  destruct (store_rep w p q s R Hpq Hs eq_refl) as [R1 H1].
  set (w1 := w <| rw_slots := _ |>) in *. assert (Hcfg : same_config w w1) by done. clearbody w1.
  set (f := fill_slot _ _ _ _). set (out1 := arr_set out 0 f).
  assert (Hl : length out1 = length out) by apply length_insert.
  assert (Hv : slot_view <$> take (Z.to_nat 1) out1 = [pkt q]).
  { unfold out1. change 1 with (0 + 1). rewrite out_snoc by lia.
    change (slot_view <$> _) with [slot_view f]. f_equal. by apply fill_slot_view. }
  pose proof (advance_loop_spec max _ w1 p out1 1 R1 (enough_capacity w1 p R1) ltac:(lia) ltac:(lia)) as H.
  destruct (advance_loop _ _ _ _ _) as [[w' out'] rc']. destruct H as (m & D & Hle & Hd).
  apply (accepted_intro _ _ _ _ _ _ _ _ w1 out1 1 m); try done; [lia|]. by rewrite decide_False.
Qed.

Lemma on_packet_reliable w p q hdr payload out max rc0 :
  recv_rep w p -> carries hdr payload q -> near q p -> 0 < max <= Z.of_nat (length out) ->
  let '(r, w', out', rc') := rel4u_recv_window_on_packet w hdr (Some payload) out max rc0 in
  if decide (q < p \/ held w p q) then r = 1 /\ w' = w /\ out' = out /\ rc' = 0
  else if decide (p + rw_capacity w <= q) then r = -2 /\ w' = w /\ out' = out /\ rc' = 0
  else r = 0 /\ accepted w p q out max w' out' rc'.
Proof.
  intros R C Hn Hmax. unfold rel4u_recv_window_on_packet.
  pose proof (rr_cap _ _ R) as [Hc _]. rewrite (proj2 (Z.eqb_neq max 0)) by lia.
  assert (Hs32 : s32 (rw_capacity w) = rw_capacity w) by word_lia.
  rewrite Hs32, (ca_seq _ _ _ C), (rr_expected _ _ R), seq_lt_near, seq_diff_near by done.
  cbv zeta.
  assert (Hsl : rw_slots w !. recv_slot_idx w (u32 q) = ring_at (rw_slots w) (rw_capacity w) q).
  { by rewrite recv_slot_idx_mod by apply R. }
  rewrite Hsl.
  pose proof (proj1 (mode_reliable_true _) (ca_reliable _ _ _ C)) as Hm.
  destruct (decide (q < p \/ held w p q)) as [Hd|Hd].
  { destruct (Z.ltb_spec q p) as [Hlt|Hge]; [by destruct Hm as [Em|Em]; rewrite (ca_mode _ _ _ C), Em|].
    destruct Hd as [?|Hh]; [lia|]. pose proof (proj1 Hh). destruct (Z.geb_spec (q - p) (rw_capacity w)); [lia|].
    rewrite (held_test w p q R), (bool_decide_eq_true_2 _ Hh) by lia.
    by destruct Hm as [Em|Em]; rewrite (ca_mode _ _ _ C), Em. }
  rewrite (proj2 (Z.ltb_ge q p)) by (destruct (decide (q < p)); [tauto|lia]).
  destruct (decide (p + rw_capacity w <= q)) as [Hbig|Hin].
  { rewrite (proj2 (Z.geb_le _ _)) by lia. by destruct Hm as [Em|Em]; rewrite (ca_mode _ _ _ C), Em. }
  assert (Hpq : p <= q < p + rw_capacity w) by (destruct (decide (q < p)); [tauto|lia]).
  rewrite (held_test w p q R), bool_decide_eq_false_2 by tauto.
  destruct (Z.geb_spec (q - p) (rw_capacity w)); [lia|].
  destruct Hm as [Em|Em].
  - pose proof (accept_ordered w p q hdr payload out max R C Em Hpq Hmax) as A. cbv zeta in A.
    replace (h_delivery_mode hdr) with REL4U_MODE_RELIABLE_ORDERED in *
      by (by rewrite (ca_mode _ _ _ C)). exact A.
  - assert (Eo : ~ ordered q) by (unfold ordered; by rewrite Em).
    pose proof (accept_unordered w p q hdr payload out max R C Eo Hpq Hmax) as A. cbv zeta in A.
    replace (h_delivery_mode hdr) with REL4U_MODE_RELIABLE_UNORDERED in *
      by (by rewrite (ca_mode _ _ _ C)).
    change (REL4U_MODE_RELIABLE_UNORDERED =? REL4U_MODE_UNRELIABLE_UNORDERED) with false.
    change (REL4U_MODE_RELIABLE_UNORDERED =? REL4U_MODE_UNRELIABLE_ORDERED) with false.
    cbv iota. rewrite Z.eqb_refl. by destruct (advance_loop _ _ _ _ _) as [[w' out'] rc'].
Qed.
End content.
