(* ===== verification/Recv.v ===== *)
(** * Receive window: correctness

    Whatever the network does to the packets (loss, duplication, reordering),
    the window hands each message to the application at most once, ordered
    messages in the order of their positions and without gaps, and reports to
    the peer exactly what it has.  The statements quantify over the stream
    [content] the peer sends. *)
From S2P Require Import Prelude Ring Types Seq Packet RecvWindow RecvSpec.
From Stdlib Require Import Sorted.
From stdpp Require Import base numbers list sets.
Open Scope Z_scope.
Open Scope rel4u_scope.

#[export] Existing Instances ordered_dec held_dec.

Section stream.
Context (content : Z -> Z * list Z).
#[local] Abbreviation recv_rep := (recv_rep content).
#[local] Abbreviation ordered := (ordered content).
#[local] Abbreviation ordered_run := (ordered_run content).
#[local] Abbreviation pkt := (pkt content).
#[local] Abbreviation carries := (carries content).

(** ** Histories *)

(** What the application has been given when the window is at [p]: the positions
    [ds], in order of delivery. *)
Record recv_hist (p0 : Z) (w : rel4u_recv_window) (p : Z) (ds : list Z) : Prop := {
  rh_rep : recv_rep w p;
  rh_from : p0 <= p;
  rh_once : NoDup ds;
  rh_ordered : filter ordered ds = ordered_run p0 (p - p0);
  rh_unordered : forall q, ~ ordered q -> q ∈ ds <-> (p0 <= q < p \/ held w p q)
}.

Lemma init_rep w0 cap s : cap_ok cap ->
  recv_rep (snd (rel4u_recv_window_init w0 cap (u32 s) true)) s /\
  forall q, ~ held (snd (rel4u_recv_window_init w0 cap (u32 s) true)) s q.
Proof.
  intros Hc. unfold rel4u_recv_window_init. destruct Hc as [Hr Hp]. rewrite Hp.
  destruct (Z.ltb_spec cap 2); [lia|]. cbn [orb negb snd].
  assert (Hz : forall q, rs_received (ring_at (replicate (Z.to_nat cap) recv_slot_zero) cap q) = false).
  { intros q. unfold ring_at, arr_get. rewrite lookup_total_replicate_2; [done|].
    pose proof (Z.mod_pos_bound q cap ltac:(lia)). lia. }
  split.
  - constructor; cbn -[Z.to_nat]; [done|rewrite length_replicate; lia|done|].
    intros q _ Hq. by rewrite Hz in Hq.
  - intros q [_ Hq]. cbn -[Z.to_nat] in Hq. by rewrite Hz in Hq.
Qed.

(** Draining the window delivers the next ordered positions. *)
Lemma hist_drained p0 w p ds out rc m w' out' rc' :
  recv_hist p0 w p ds -> drained content w p out rc m w' out' rc' ->
  recv_hist p0 w' (p + m) (ds ++ ordered_run p m).
Proof.
  intros [R Hf Hnd Ho Hu] D. pose proof (dr_pos _ _ _ _ _ _ _ _ _ D) as Hm.
  constructor.
  - apply D.
  - lia.
  - apply NoDup_app. split; [done|]. split.
    + intros q Hq [Hoq Hr]%elem_of_ordered_run.
      assert (q ∈ ordered_run p0 (p - p0)) as [_ ?]%elem_of_ordered_run; [|lia].
      rewrite <- Ho. by apply list_elem_of_filter.
    + apply NoDup_filter, NoDup_seqZ.
  - rewrite filter_app, Ho. replace (p + m - p0) with (p - p0 + m) by lia.
    rewrite ordered_run_app by lia. f_equal. replace (p0 + (p - p0)) with p by lia.
    unfold RecvSpec.ordered_run. by rewrite list_filter_filter_l.
  - intros q Hq. rewrite elem_of_app, (Hu q Hq), (dr_held _ _ _ _ _ _ _ _ _ D), elem_of_ordered_run.
    split.
    + intros [[?|Hh]|[? _]]; [left; lia| |done].
      destruct (decide (p + m <= q)); [by right|left; destruct Hh; lia].
    + intros [Hr|[Hh _]]; [|tauto]. left. destruct (decide (q < p)); [left; lia|right].
      apply (dr_taken _ _ _ _ _ _ _ _ _ D). lia.
Qed.

(** Buffering a new position: an unordered message is delivered at once. *)
Lemma hist_store p0 w p ds q w1 : recv_hist p0 w p ds -> recv_rep w1 p ->
  (forall x, held w1 p x <-> held w p x \/ x = q) -> p <= q -> ~ held w p q ->
  recv_hist p0 w1 p (ds ++ (if decide (ordered q) then [] else [q])).
Proof.
  intros [R Hf Hnd Ho Hu] R1 H1 Hpq Hnh. case_decide as Eo.
  - rewrite app_nil_r. constructor; try done. intros x Hx. rewrite H1, (Hu x Hx).
    assert (x <> q) by congruence. tauto.
  - constructor; try done.
    + apply NoDup_app. split; [done|]. split; [|apply NoDup_singleton].
      intros x Hx Hxq%list_elem_of_singleton. subst x. apply (Hu q Eo) in Hx as [?|?]; [lia|done].
    + by rewrite filter_app, Ho, filter_cons_False, filter_nil, app_nil_r.
    + intros x Hx. rewrite elem_of_app, list_elem_of_singleton, H1, (Hu x Hx). tauto.
Qed.

(** A position has arrived: it is behind the expected one or buffered. *)
Definition arrived (w : rel4u_recv_window) (p q : Z) : Prop := q < p \/ held w p q.

Lemma drained_arrived w p out rc m w' out' rc' q : drained content w p out rc m w' out' rc' ->
  arrived w' (p + m) q <-> arrived w p q.
Proof.
  intros D. unfold arrived. rewrite (dr_held _ _ _ _ _ _ _ _ _ D).
  pose proof (dr_pos _ _ _ _ _ _ _ _ _ D). split.
  - intros [Hq|[Hq _]]; [|by right]. destruct (decide (q < p)); [by left|right].
    apply (dr_taken _ _ _ _ _ _ _ _ _ D). lia.
  - intros [Hq|Hq]; [left; lia|]. destruct (decide (q < p + m)); [by left|right; split; [done|lia]].
Qed.

Lemma hist_moved p0 w p ds p' w' ds' : recv_hist p0 w p ds -> recv_hist p0 w' p' ds' ->
  0 <= p' - p <= rw_capacity w -> p + u32 (rw_expected_seq w' - rw_expected_seq w) = p'.
Proof.
  intros H H' Hm. rewrite (rr_expected _ _ _ (rh_rep _ _ _ _ H)), (rr_expected _ _ _ (rh_rep _ _ _ _ H')).
  pose proof (rr_cap _ _ _ (rh_rep _ _ _ _ H)) as [? _].
  autorewrite with rel4u. rewrite u32_small; [lia|word_unfold; lia].
Qed.

(** A packet of position [q] extends the history, and exactly [q] arrives, or
    nothing when the window is too small for it. *)
Lemma hist_packet p0 w p ds q hdr payload out max rc0 r w' out' rc' :
  recv_hist p0 w p ds -> carries hdr payload q -> near q p -> 0 < max <= Z.of_nat (length out) ->
  rel4u_recv_window_on_packet w hdr (Some payload) out max rc0 = (r, w', out', rc') ->
  let p' := p + u32 (rw_expected_seq w' - rw_expected_seq w) in
  exists ds', recv_hist p0 w' p' (ds ++ ds') /\ slot_view <$> take (Z.to_nat rc') out' = pkt <$> ds' /\
    p <= p' /\ (forall x, arrived w' p' x <-> arrived w p x \/ (x = q /\ q < p + rw_capacity w)) /\
    (r = 0 /\ drain_done w' p' rc' max \/ r <> 0 /\ w' = w /\ rc' = 0) /\
    length out' = length out /\ 0 <= rc' <= max.
Proof.
  intros H C Hn Hmax E. cbv zeta.
  pose proof (on_packet_reliable content w p q hdr payload out max rc0 (rh_rep _ _ _ _ H) C Hn Hmax) as P.
  rewrite E in P. destruct (decide (q < p \/ held w p q)) as [Hd|Hd].
  { destruct P as (-> & -> & -> & ->). exists []. rewrite Z.sub_diag, Z.add_0_r, app_nil_r.
    split; [done|]. split; [done|]. split; [done|]. split; [|split; [by right|split; [done|lia]]].
    intros x. split; [tauto|]. by intros [?|[-> _]]. }
  destruct (decide (p + rw_capacity w <= q)) as [Hb|Hb].
  { destruct P as (-> & -> & -> & ->). exists []. rewrite Z.sub_diag, Z.add_0_r, app_nil_r.
    split; [done|]. split; [done|]. split; [done|]. split; [|split; [by right|split; [done|lia]]].
    intros x. split; [tauto|]. intros [?|[_ ?]]; [done|lia]. }
  destruct P as [-> [w1 out1 rc1 m R1 Hcfg H1 Hl Hrc Hv D Hle Hdd]].
  assert (Hpq : p <= q) by (destruct (decide (q < p)); [tauto|lia]).
  pose proof (hist_store _ _ _ _ _ _ H R1 H1 Hpq ltac:(tauto)) as Hs.
  pose proof (hist_drained _ _ _ _ _ _ _ _ _ _ Hs D) as Hs'. rewrite <- app_assoc in Hs'.
  pose proof (drained_bound _ _ _ _ _ _ _ _ _ R1 D) as Hm. rewrite (proj1 Hcfg) in Hm.
  rewrite (hist_moved _ _ _ _ _ _ _ H Hs') by lia.
  eexists. split; [exact Hs'|]. split; [|split; [lia|split; [|split; [by left|]]]].
  - rewrite (dr_out _ _ _ _ _ _ _ _ _ D), Hv, fmap_app. f_equal. by case_decide.
  - intros x. rewrite (drained_arrived _ _ _ _ _ _ _ _ x D). unfold arrived. rewrite H1.
    split; [|tauto]. intros [?|[?| ->]]; [tauto|tauto|]. right. split; [done|lia].
  - rewrite (dr_length _ _ _ _ _ _ _ _ _ D). split; [done|].
    pose proof (dr_count _ _ _ _ _ _ _ _ _ D). lia.
Qed.

Lemma hist_pop p0 w p ds out max rc0 r w' out' rc' :
  recv_hist p0 w p ds -> 0 < max <= Z.of_nat (length out) ->
  rel4u_recv_window_pop_ready w out max rc0 = (r, w', out', rc') ->
  let p' := p + u32 (rw_expected_seq w' - rw_expected_seq w) in
  exists ds', recv_hist p0 w' p' (ds ++ ds') /\ slot_view <$> take (Z.to_nat rc') out' = pkt <$> ds' /\
    p <= p' /\ (forall x, arrived w' p' x <-> arrived w p x) /\ r = 0 /\ drain_done w' p' rc' max /\
    length out' = length out /\ 0 <= rc' <= max /\ (0 < rc' -> p < p').
Proof.
  intros H Hmax E. cbv zeta.
  pose proof (pop_ready_spec content w p out max rc0 (rh_rep _ _ _ _ H) Hmax) as P. rewrite E in P.
  destruct P as (-> & m & D & Hle & Hd). pose proof (hist_drained _ _ _ _ _ _ _ _ _ _ H D) as H'.
  pose proof (drained_bound _ _ _ _ _ _ _ _ _ (rh_rep _ _ _ _ H) D) as Hm.
  rewrite (hist_moved _ _ _ _ _ _ _ H H') by lia. exists (ordered_run p m).
  split; [done|]. split; [by rewrite (dr_out _ _ _ _ _ _ _ _ _ D)|]. split; [lia|].
  split; [intros x; by eapply drained_arrived|]. split; [done|]. split; [done|].
  split; [apply D|]. pose proof (dr_count _ _ _ _ _ _ _ _ _ D). split; [lia|].
  intros Hrc. destruct (decide (m = 0)) as [->|]; [exfalso|lia].
  pose proof (f_equal length (dr_out _ _ _ _ _ _ _ _ _ D)) as El.
  change (ordered_run p 0) with (@nil Z) in El. change (Z.to_nat 0) with 0%nat in El.
  rewrite length_app, !length_fmap, !length_take, (dr_length _ _ _ _ _ _ _ _ _ D) in El.
  cbn [length] in El. lia.
Qed.

(** Everything that can happen to a receive window after its initialisation at
    position [p0]: reliable packets of the stream arrive in any order and any
    number of times, packets of the unreliable modes come in between, and the
    caller drains the window.  The first index is the window, the second the
    position it expects (the distance [expected_seq] has moved, without
    wrapping), the third what the reliable modes have delivered.  A packet is
    less than [2^31] positions away from the expected one: the network does not
    hold a packet back while the peer sends two thousand million others. *)
Inductive recv_reach (p0 : Z) : rel4u_recv_window -> Z -> list (Z * Z * list Z) -> Prop :=
  | reach_init w0 cap w :
      rel4u_recv_window_init w0 cap (u32 p0) true = (0, w) -> cap < 2 ^ 31 ->
      recv_reach p0 w p0 []
  | reach_packet w p outs q hdr payload out max rc0 r w' out' rc' :
      recv_reach p0 w p outs -> carries hdr payload q -> near q p ->
      0 < max <= Z.of_nat (length out) ->
      rel4u_recv_window_on_packet w hdr (Some payload) out max rc0 = (r, w', out', rc') ->
      recv_reach p0 w' (p + u32 (rw_expected_seq w' - rw_expected_seq w))
        (outs ++ (slot_view <$> take (Z.to_nat rc') out'))
  | reach_unreliable w p outs hdr payload out max rc0 r w' out' rc' :
      recv_reach p0 w p outs -> mode_reliable (h_delivery_mode hdr) = false ->
      rel4u_recv_window_on_packet w hdr payload out max rc0 = (r, w', out', rc') ->
      recv_reach p0 w' p outs
  | reach_pop w p outs out max rc0 r w' out' rc' :
      recv_reach p0 w p outs -> 0 < max <= Z.of_nat (length out) ->
      rel4u_recv_window_pop_ready w out max rc0 = (r, w', out', rc') ->
      recv_reach p0 w' (p + u32 (rw_expected_seq w' - rw_expected_seq w))
        (outs ++ (slot_view <$> take (Z.to_nat rc') out')).

(** An unreliable packet leaves the reliable part of the window alone. *)
Lemma on_packet_unreliable w hdr payload out max rc0 :
  mode_reliable (h_delivery_mode hdr) = false ->
  let '(r, w', out', rc') := rel4u_recv_window_on_packet w hdr payload out max rc0 in
  rw_slots w' = rw_slots w /\ rw_capacity w' = rw_capacity w /\ rw_expected_seq w' = rw_expected_seq w.
Proof.
  intros Hm. unfold mode_reliable in Hm. apply orb_false_iff in Hm as [H3 H2].
  unfold rel4u_recv_window_on_packet. rewrite H2, H3. clear H2 H3. destruct (max =? 0); [done|].
  destruct (_ =? _); [done|]. destruct (_ =? _); [|done]. by destruct (_ || _).
Qed.

(** The reliable part alone determines the history. *)
Lemma hist_same p0 w w' p ds :
  rw_slots w' = rw_slots w -> rw_capacity w' = rw_capacity w -> rw_expected_seq w' = rw_expected_seq w ->
  recv_hist p0 w p ds -> recv_hist p0 w' p ds /\ (forall q, held w' p q <-> held w p q).
Proof.
  intros E1 E2 E3 [[] ? ? ? Hu]. assert (Hh : forall q, held w' p q <-> held w p q).
  { intros q. unfold held. by rewrite E1, E2. }
  split; [|done]. constructor; try done; [constructor; rewrite ?E1, ?E2, ?E3; done|].
  intros q Hq. by rewrite Hh, Hu.
Qed.

(** Every reachable window has a consistent delivery history. *)
Lemma reach_hist p0 w p outs : recv_reach p0 w p outs ->
  exists ds, recv_hist p0 w p ds /\ outs = pkt <$> ds.
Proof.
  induction 1 as [w0 cap w E Hc|w p outs q hdr payload out max rc0 r w' out' rc' _ (ds & H & ->) C Hn Hmax E
    |w p outs hdr payload out max rc0 r w' out' rc' _ (ds & H & ->) Hm E
    |w p outs out max rc0 r w' out' rc' _ (ds & H & ->) Hmax E].
  - assert (Hok : cap_ok cap).
    { unfold rel4u_recv_window_init in E. destruct (Z.ltb_spec cap 2); [by cbn in E|].
      destruct (is_pow2 cap) eqn:Ep; [|by cbn in E]. split; [lia|done]. }
    destruct (init_rep w0 cap p0 Hok) as [R Hh]. rewrite E in R, Hh. cbn [snd] in R, Hh.
    exists []. split; [|done]. constructor; [done|lia|constructor|by rewrite Z.sub_diag|].
    intros q _. split; [by intros ?%elem_of_nil|]. intros [?|?]; [lia|by apply Hh in H].
  - destruct (hist_packet _ _ _ _ _ _ _ _ _ _ _ _ _ _ H C Hn Hmax E) as (ds' & H' & Hv & _).
    exists (ds ++ ds'). by rewrite Hv, fmap_app.
  - pose proof (on_packet_unreliable w hdr payload out max rc0 Hm) as P. rewrite E in P.
    destruct P as (E1 & E2 & E3). exists ds. split; [|done]. by eapply hist_same.
  - destruct (hist_pop _ _ _ _ _ _ _ _ _ _ _ H Hmax E) as (ds' & H' & Hv & _).
    exists (ds ++ ds'). by rewrite Hv, fmap_app.
Qed.

(** C8. Exactly-once, in-order delivery: whatever packets of a reliable stream
    arrive, in whatever order and however often, what the window has delivered is
    a list of distinct messages of the stream with their own bytes; the ordered
    messages are exactly those before the expected position, in stream order and
    without a gap; an unordered message is delivered if and only if it lies
    before the expected position or is buffered. *)
Theorem recv_exactly_once p0 w p outs : recv_reach p0 w p outs ->
  exists ds, outs = pkt <$> ds /\ NoDup ds /\ p0 <= p /\
    filter ordered ds = filter ordered (seqZ p0 (p - p0)) /\
    forall q, ~ ordered q -> q ∈ ds <-> (p0 <= q < p \/ held w p q).
Proof. intros (ds & [] & ->)%reach_hist. by exists ds. Qed.

(** The answer to a reliable packet: 1 without effect for a position already
    delivered or buffered, -2 without effect for one beyond the window, else 0
    and the position is from then on held or behind the expected one. *)
Theorem recv_packet_codes w p q hdr payload out max rc0 :
  recv_rep w p -> carries hdr payload q -> near q p -> 0 < max <= Z.of_nat (length out) ->
  let '(r, w', out', rc') := rel4u_recv_window_on_packet w hdr (Some payload) out max rc0 in
  (r = 1 <-> q < p \/ held w p q) /\
  (r = -2 <-> p + rw_capacity w <= q) /\
  (r = 1 \/ r = -2 -> w' = w /\ out' = out /\ rc' = 0) /\
  (r = 0 -> exists p', recv_rep w' p' /\ p <= p' /\ (held w' p' q \/ q < p')).
Proof.
  intros R C Hn Hmax. pose proof (on_packet_reliable content w p q hdr payload out max rc0 R C Hn Hmax) as P.
  destruct (rel4u_recv_window_on_packet _ _ _ _ _ _) as [[[r w'] out'] rc'].
  destruct (decide (q < p \/ held w p q)) as [Hd|Hd].
  { destruct P as (-> & -> & -> & ->). pose proof (rr_cap _ _ _ R) as [? _].
    split; [done|]. split; [|done]. split; [done|]. intros ?. destruct Hd as [?|[? _]]; lia. }
  destruct (decide (p + rw_capacity w <= q)) as [Hb|Hb]; [by destruct P as (-> & -> & -> & ->)|].
  destruct P as [-> [w1 out1 rc1 m R1 Hcfg H1 Hl Hrc Hv D Hle Hdd]].
  split; [done|]. split; [split; [done|lia]|]. split; [by intros [?|?]|]. intros _.
  exists (p + m). split; [apply D|]. split; [pose proof (dr_pos _ _ _ _ _ _ _ _ _ D); lia|].
  rewrite (dr_held _ _ _ _ _ _ _ _ _ D), H1. destruct (decide (p + m <= q)); [left; tauto|right; lia].
Qed.

(** Progress: when the expected packet arrives, the window moves on, past it and
    every buffered position that follows it without a gap as far as the output
    array has room. *)
Theorem recv_progress w p hdr payload out max rc0 :
  recv_rep w p -> carries hdr payload p -> ~ held w p p -> 1 < max <= Z.of_nat (length out) ->
  let '(r, w', out', rc') := rel4u_recv_window_on_packet w hdr (Some payload) out max rc0 in
  r = 0 /\ exists m, 0 < m /\ recv_rep w' (p + m) /\ (rc' = max \/ ~ held w' (p + m) (p + m)) /\
    forall q, p < q < p + m -> held w p q.
Proof.
  intros R C Hnh Hmax. pose proof (rr_cap _ _ _ R) as [Hc _].
  pose proof (on_packet_reliable content w p p hdr payload out max rc0 R C ltac:(unfold near; lia) ltac:(lia)) as P.
  destruct (rel4u_recv_window_on_packet _ _ _ _ _ _) as [[[r w'] out'] rc'].
  destruct (decide (p < p \/ held w p p)) as [[?|?]|_]; [lia|done|].
  destruct (decide (p + rw_capacity w <= p)); [lia|].
  destruct P as [-> [w1 out1 rc1 m R1 Hcfg H1 Hl Hrc Hv D Hle Hdd]]. split; [done|].
  exists m. split; [|split; [apply D|split; [done|]]].
  - pose proof (dr_pos _ _ _ _ _ _ _ _ _ D). destruct (decide (m = 0)) as [->|]; [exfalso|lia].
    rewrite Z.add_0_r in Hdd. destruct Hdd as [->|Hno].
    + pose proof (f_equal length (dr_out _ _ _ _ _ _ _ _ _ D)) as E. rewrite Hv in E.
      cbn [RecvSpec.ordered_run] in E. unfold RecvSpec.ordered_run in E.
      change (seqZ p 0) with (@nil Z) in E. rewrite filter_nil, app_nil_r, length_fmap, length_take in E.
      rewrite (dr_length _ _ _ _ _ _ _ _ _ D), Hl in E. case_decide; cbn in E; lia.
    + apply Hno. pose proof (dr_held _ _ _ _ _ _ _ _ _ D p) as Hp. rewrite Z.add_0_r in Hp.
      apply Hp. split; [|lia]. apply H1. by right.
  - intros q Hq. assert (Hh : held w1 p q) by (apply (dr_taken _ _ _ _ _ _ _ _ _ D); lia).
    apply H1 in Hh as [?|?]; [done|lia].
Qed.

(** ** Acknowledgement information *)

Lemma sack_fold (P : Z -> bool) n i : 0 <= i -> (n <= 32)%nat ->
  Z.testbit (foldl (fun mask i => if P i then Z.lor mask (u32 (Z.shiftl 1 i)) else mask) 0
    (seqZ 0 (Z.of_nat n))) i = (i <? Z.of_nat n) && P i.
Proof.
  intros Hi. induction n as [|n IH]; intros Hn.
  - change (seqZ 0 (Z.of_nat 0)) with (@nil Z). cbn [foldl]. rewrite Z.bits_0. change (Z.of_nat 0) with 0.
    by destruct (Z.ltb_spec i 0); [lia|].
  - rewrite Nat2Z.inj_succ, <- Z.add_1_r, seqZ_app, foldl_app by lia.
    change (seqZ (0 + Z.of_nat n) 1) with [Z.of_nat n]. cbn [foldl].
    set (acc := foldl _ _ _) in *. specialize (IH ltac:(lia)).
    assert (Hs : u32 (Z.shiftl 1 (Z.of_nat n)) = 2 ^ Z.of_nat n).
    { rewrite Z.shiftl_1_l. apply u32_small. split; [lia|]. apply Z.pow_lt_mono_r; lia. }
    destruct (P (Z.of_nat n)) eqn:En.
    + rewrite Z.lor_spec, IH, Hs, Z.pow2_bits_eqb by lia.
      destruct (Z.eqb_spec (Z.of_nat n) i) as [<-|Hne].
      * rewrite En. destruct (Z.ltb_spec (Z.of_nat n) (Z.of_nat n + 1)); [by rewrite orb_true_r|lia].
      * rewrite orb_false_r. f_equal. lia.
    + rewrite IH. destruct (Z.eqb_spec (Z.of_nat n) i) as [<-|Hne]; [by rewrite En, !andb_false_r|].
      f_equal. lia.
Qed.

Lemma ack_info_rep w p i : recv_rep w p -> 0 <= i ->
  fst (rel4u_recv_window_get_ack_info w) = u32 (p - 1) /\
  Z.testbit (snd (rel4u_recv_window_get_ack_info w)) i = bool_decide (i < 32 /\ held w p (p + i)).
Proof.
  intros R Hi. unfold rel4u_recv_window_get_ack_info. cbn [fst snd]. pose proof (rr_cap _ _ _ R) as [Hc _].
  rewrite (rr_expected _ _ _ R), u32_sub_l. split; [done|].
  change (seqZ 0 32) with (seqZ 0 (Z.of_nat 32)). cbv zeta.
  rewrite (sack_fold (fun i => rs_received (rw_slots w !. recv_slot_idx w (u32 (u32 p + i))) &&
    (rs_seq_num (rw_slots w !. recv_slot_idx w (u32 (u32 p + i))) =? u32 (u32 p + i)))) by done.
  change (Z.of_nat 32) with 32. destruct (Z.ltb_spec i 32) as [H32|H32].
  2:{ symmetry. apply bool_decide_eq_false_2. intros [? _]. lia. }
  rewrite u32_add_l, recv_slot_idx_mod by apply R.
  change (rw_slots w !. ?x) with (ring_at (rw_slots w) (rw_capacity w) (p + i)).
  cbn [andb]. destruct (Z.ltb_spec i (rw_capacity w)) as [Hin|Hout].
  - rewrite (held_test content w p (p + i) R) by lia. apply bool_decide_ext. intuition lia.
  - rewrite bool_decide_eq_false_2 by (intros [_ [? _]]; lia).
    destruct (rs_received _) eqn:Er; [|done]. cbn [andb]. apply Z.eqb_neq. intros E.
    pose proof (Z.mod_pos_bound i (rw_capacity w) ltac:(lia)) as Hb.
    assert (Hat : ring_at (rw_slots w) (rw_capacity w) (p + i) =
      ring_at (rw_slots w) (rw_capacity w) (p + i mod rw_capacity w)).
    { apply ring_at_mod. by rewrite Zplus_mod_idemp_r. }
    rewrite Hat in E, Er. rewrite (so_seq _ _ _ (rr_slots _ _ _ R (p + i mod rw_capacity w) ltac:(lia) Er)) in E.
    apply u32_near_inj in E; [|unfold near; lia]. lia.
Qed.

(** C24. The acknowledgement a window reports is exact: the number is that of the last
    position before the expected one, and bit [i] of the mask is set if and only
    if position [expected + i] is buffered, also when the window is smaller than
    the 32 positions the mask describes. *)
Theorem ack_info_exact w p i : recv_rep w p -> 0 <= i ->
  let '(ack, sack) := rel4u_recv_window_get_ack_info w in
  ack = u32 (p - 1) /\ Z.testbit sack i = bool_decide (i < 32 /\ held w p (p + i)).
Proof.
  intros R Hi. destruct (ack_info_rep w p i R Hi). by destruct (rel4u_recv_window_get_ack_info w).
Qed.
End stream.

(** ** Unreliable ordered messages *)

Definition newer (best : option Z) (q : Z) : bool :=
  match best with Some b => b <? q | None => true end.

(** The positions that are newer than everything before them. *)
Fixpoint newest (best : option Z) (qs : list Z) : list Z :=
  match qs with
  | [] => []
  | q :: qs =>
      if newer best q
      then q :: newest (Some q) qs else newest best qs
  end.

(** Handling packets one after the other with one output array; the sequence
    numbers delivered. *)
Fixpoint run_packets (w : rel4u_recv_window) (out : list rel4u_recv_slot)
    (pks : list (rel4u_header * option (list Z))) : rel4u_recv_window * list Z :=
  match pks with
  | [] => (w, [])
  | (hdr, payload) :: pks =>
      let '(_, w, out, rc) := rel4u_recv_window_on_packet w hdr payload out 64 0 in
      let '(w, rest) := run_packets w out pks in
      (w, (rs_seq_num <$> take (Z.to_nat rc) out) ++ rest)
  end.

Lemma newest_sorted qs : forall best, StronglySorted Z.lt (newest best qs) /\
  Forall (fun q => newer best q = true) (newest best qs).
Proof.
  induction qs as [|q qs IH]; intros best; cbn; [split; constructor|].
  destruct (newer best q) eqn:Hb; [|apply IH]. destruct (IH (Some q)) as [Hs Hf]. split.
  - constructor; [done|]. eapply Forall_impl; [exact Hf|]. cbn. lia.
  - constructor; [done|]. eapply Forall_impl; [exact Hf|]. cbn. intros x Hx. destruct best; [cbn in *; lia|done].
Qed.

Lemma unrel_run qs : forall pks w out best,
  Forall2 (fun pk q => h_seq_num (fst pk) = u32 q /\
             h_delivery_mode (fst pk) = REL4U_MODE_UNRELIABLE_ORDERED) pks qs ->
  (forall a b, a ∈ option_list best ++ qs -> b ∈ option_list best ++ qs -> near a b) ->
  (0 < length out)%nat ->
  rw_has_highest_unrel w = match best with Some _ => true | None => false end ->
  (forall b, best = Some b -> rw_highest_unrel_seq w = u32 b) ->
  snd (run_packets w out pks) = u32 <$> newest best qs.
Proof.
  induction qs as [|q qs IH]; intros pks w out best Hpk Hn Hl Hh Hb.
  { apply Forall2_nil_inv_r in Hpk as ->. done. }
  apply Forall2_cons_inv_r in Hpk as ([hdr payload] & pks' & [Hseq Hm] & Hpk & ->).
  cbn [fst] in *. cbn [run_packets newest]. unfold rel4u_recv_window_on_packet.
  rewrite Hm. change (64 =? 0) with false.
  change (REL4U_MODE_UNRELIABLE_ORDERED =? REL4U_MODE_UNRELIABLE_UNORDERED) with false.
  rewrite Z.eqb_refl. cbv iota zeta. rewrite Hh, Hseq.
  assert (Ht : (negb (match best with Some _ => true | None => false end) ||
      rel4u_seq_gt (u32 q) (rw_highest_unrel_seq w)) =
    newer best q).
  { destruct best as [b|]; [|done]. rewrite (Hb b eq_refl), seq_gt_near.
    - done.
    - apply Hn; cbn; set_solver. }
  rewrite Ht. destruct (newer best q).
  - set (w1 := _ <| rw_has_highest_unrel := true |>). set (out1 := arr_set out 0 _).
    specialize (IH pks' w1 out1 (Some q) Hpk). destruct (run_packets w1 out1 pks') as [w2 rest] eqn:Er.
    cbn [snd] in *. change 1 with (0 + 1). unfold out1. rewrite out_snoc by lia.
    change (rs_seq_num <$> _) with [h_seq_num hdr]. rewrite Hseq. cbn [app fmap list_fmap]. f_equal.
    apply IH; [|unfold out1, arr_set; by rewrite length_insert|done|by intros b [= <-]].
    intros a b Ha Hb'. apply Hn; cbn in *; set_solver.
  - specialize (IH pks' w out best Hpk).
    destruct (run_packets w out pks') as [w2 rest]. cbn [snd] in *. change (take (Z.to_nat 0) out) with (@nil rel4u_recv_slot).
    cbn [app fmap list_fmap]. apply IH; try done. intros a b Ha Hb'. apply Hn; cbn in *; set_solver.
Qed.

(** Unreliable ordered messages: from a fresh window, of any arrivals pairwise
    less than [2^31] apart exactly those newer than all before them are delivered,
    so the application sees strictly increasing positions and never an old
    message after a newer one. *)
Theorem unreliable_ordered_newest pks qs w out :
  rw_has_highest_unrel w = false -> (0 < length out)%nat ->
  Forall2 (fun pk q => h_seq_num (fst pk) = u32 q /\
             h_delivery_mode (fst pk) = REL4U_MODE_UNRELIABLE_ORDERED) pks qs ->
  (forall a b, a ∈ qs -> b ∈ qs -> near a b) ->
  snd (run_packets w out pks) = u32 <$> newest None qs /\ StronglySorted Z.lt (newest None qs).
Proof.
  intros Hh Hl Hpk Hn. split; [|apply newest_sorted]. by apply unrel_run.
Qed.

(** ** Witnesses *)

(** A stream of one-byte messages: even positions ordered, odd ones unordered. *)
Definition sample_content (q : Z) : Z * list Z :=
  (if Z.even q then REL4U_MODE_RELIABLE_ORDERED else REL4U_MODE_RELIABLE_UNORDERED, [q mod 256]).
Definition sample_pkt_header (q : Z) : rel4u_header :=
  mk_header REL4U_MAGIC REL4U_VERSION REL4U_PKT_DATA (fst (sample_content q)) 0 1 0 (u32 q) 0 0.
Lemma sample_carries q : carries sample_content (sample_pkt_header q) [q mod 256] q.
Proof. constructor; try done. unfold mode_of, sample_content. by destruct (Z.even q). Qed.

Definition sample_recv (w : rel4u_recv_window) (q : Z) :=
  rel4u_recv_window_on_packet w (sample_pkt_header q) (Some [q mod 256])
    (replicate 64 recv_slot_zero) 64 0.

(** Positions [2^32 - 1], [2^32], [2^32 + 1]; the second arrives first. *)
Definition sample_w0 : rel4u_recv_window := Eval vm_compute in
  snd (rel4u_recv_window_init recv_window_zero 4 (2 ^ 32 - 1) true).
Definition sample_r1 := Eval vm_compute in sample_recv sample_w0 (2 ^ 32).
Definition sample_w1 : rel4u_recv_window := Eval vm_compute in snd (fst (fst sample_r1)).
Definition sample_r2 := Eval vm_compute in sample_recv sample_w1 (2 ^ 32 - 1).
Definition sample_w2 : rel4u_recv_window := Eval vm_compute in snd (fst (fst sample_r2)).

Lemma sample_r1_eq : sample_recv sample_w0 (2 ^ 32) = sample_r1.
Proof. vm_compute. reflexivity. Qed.
Lemma sample_r2_eq : sample_recv sample_w1 (2 ^ 32 - 1) = sample_r2.
Proof. vm_compute. reflexivity. Qed.

Lemma sample_reach1 : recv_reach sample_content (2 ^ 32 - 1) sample_w1 (2 ^ 32 - 1) [].
Proof.
  assert (H0 : recv_reach sample_content (2 ^ 32 - 1) sample_w0 (2 ^ 32 - 1) []).
  { apply (reach_init _ _ recv_window_zero 4); [vm_compute; reflexivity|lia]. }
  pose proof (reach_packet _ _ _ _ _ (2 ^ 32) (sample_pkt_header (2 ^ 32)) [2 ^ 32 mod 256] (replicate 64 recv_slot_zero)
    64 0 _ _ _ _ H0 (sample_carries _) ltac:(unfold near; lia) ltac:(cbn; lia) sample_r1_eq) as H. exact H.
Qed.

Lemma sample_reach2 : recv_reach sample_content (2 ^ 32 - 1) sample_w2 (2 ^ 32 + 1)
  [(2 ^ 32 - 1, 2, [255]); (0, 3, [0])].
Proof.
  pose proof (reach_packet _ _ _ _ _ (2 ^ 32 - 1) (sample_pkt_header (2 ^ 32 - 1)) [(2 ^ 32 - 1) mod 256] (replicate 64 recv_slot_zero)
    64 0 _ _ _ _ sample_reach1 (sample_carries _) ltac:(unfold near; lia) ltac:(cbn; lia) sample_r2_eq) as H. exact H.
Qed.

Lemma recv_exactly_once_witness :
  exists ds, [(2 ^ 32 - 1, 2, [255]); (0, 3, [0])] = pkt sample_content <$> ds /\ NoDup ds.
Proof.
  destruct (recv_exactly_once _ _ _ _ _ sample_reach2) as (ds & E & Hnd & _).
  exists ds. split; [exact E|exact Hnd].
Defined.

Lemma sample_w1_rep : recv_rep sample_content sample_w1 (2 ^ 32 - 1).
Proof. destruct (reach_hist _ _ _ _ _ sample_reach1) as (ds & H & _). apply H. Qed.
Lemma sample_w1_held q : held sample_w1 (2 ^ 32 - 1) q <-> q = 2 ^ 32.
Proof.
  unfold held. split.
  - intros [Hq Hr]. cbn in Hq. assert (Hc : q = 2 ^ 32 - 1 \/ q = 2 ^ 32 \/ q = 2 ^ 32 + 1 \/ q = 2 ^ 32 + 2) by lia.
    destruct Hc as [->|[->|[->| ->]]]; [discriminate Hr|lia|discriminate Hr|discriminate Hr].
  - intros ->. split; [cbn; lia|reflexivity].
Qed.

Lemma recv_packet_codes_witness :
  exists r w' out' rc', sample_recv sample_w1 (2 ^ 32) = (r, w', out', rc') /\ r = 1 /\ w' = sample_w1.
Proof.
  pose proof (recv_packet_codes sample_content sample_w1 (2 ^ 32 - 1) (2 ^ 32) (sample_pkt_header (2 ^ 32)) [2 ^ 32 mod 256]
    (replicate 64 recv_slot_zero) 64 0 sample_w1_rep (sample_carries _) ltac:(unfold near; lia)
    ltac:(cbn; lia)) as H. unfold sample_recv.
  destruct (rel4u_recv_window_on_packet _ _ _ _ _ _) as [[[r w'] out'] rc'].
  destruct H as (H1 & _ & H2 & _). exists r, w', out', rc'. split; [reflexivity|].
  assert (E : r = 1) by (apply H1; right; apply sample_w1_held; reflexivity).
  split; [exact E|]. apply H2. left. exact E.
Defined.

Lemma recv_progress_witness :
  exists r w' out' rc' m, sample_recv sample_w1 (2 ^ 32 - 1) = (r, w', out', rc') /\ r = 0 /\ 0 < m /\
    recv_rep sample_content w' (2 ^ 32 - 1 + m).
Proof.
  pose proof (recv_progress sample_content sample_w1 (2 ^ 32 - 1) (sample_pkt_header (2 ^ 32 - 1)) [(2 ^ 32 - 1) mod 256]
    (replicate 64 recv_slot_zero) 64 0 sample_w1_rep (sample_carries _)
    ltac:(rewrite sample_w1_held; lia) ltac:(cbn; lia)) as H. unfold sample_recv.
  destruct (rel4u_recv_window_on_packet _ _ _ _ _ _) as [[[r w'] out'] rc'].
  destruct H as (E & m & Hm & R & _). exists r, w', out', rc', m.
  split; [reflexivity|]. split; [exact E|]. split; [exact Hm|exact R].
Defined.

Lemma ack_info_exact_witness :
  fst (rel4u_recv_window_get_ack_info sample_w1) = 2 ^ 32 - 2 /\
  Z.testbit (snd (rel4u_recv_window_get_ack_info sample_w1)) 1 = true.
Proof.
  pose proof (ack_info_exact sample_content sample_w1 (2 ^ 32 - 1) 1 sample_w1_rep ltac:(lia)) as H.
  destruct (rel4u_recv_window_get_ack_info sample_w1) as [ack sack]. destruct H as [H1 H2].
  split; [rewrite H1; reflexivity|]. cbn [snd]. rewrite H2. apply bool_decide_eq_true_2.
  split; [lia|]. apply sample_w1_held. reflexivity.
Defined.

Definition sample_unrel (q : Z) : rel4u_header * option (list Z) :=
  (mk_header REL4U_MAGIC REL4U_VERSION REL4U_PKT_DATA REL4U_MODE_UNRELIABLE_ORDERED 0 0 0 (u32 q) 0 0, None).
Lemma unreliable_ordered_newest_witness :
  snd (run_packets sample_w0 [recv_slot_zero] (map sample_unrel [2 ^ 32 - 1; 2 ^ 32 + 4; 2 ^ 32; 2 ^ 32 + 5]))
  = [2 ^ 32 - 1; 4; 5].
Proof.
  rewrite (proj1 (unreliable_ordered_newest (map sample_unrel [2 ^ 32 - 1; 2 ^ 32 + 4; 2 ^ 32; 2 ^ 32 + 5])
    [2 ^ 32 - 1; 2 ^ 32 + 4; 2 ^ 32; 2 ^ 32 + 5] sample_w0 [recv_slot_zero] eq_refl ltac:(cbn; lia)
    ltac:(repeat constructor) ltac:(intros a b; rewrite !elem_of_cons, !elem_of_nil; unfold near; lia))).
  vm_compute. reflexivity.
Defined.
