(* ===== verification/Link.v ===== *)
(** * One direction of a connection

    A sender window and a receiver window joined by a network that loses,
    duplicates, delays and reorders packets in both directions.  The steps are
    the calls the worker threads of [src/core/rel4u_client.c] and
    [src/core/rel4u_server.c] make on the two windows: send, retransmit, receive,
    drain, acknowledge.  The invariant of all reachable states gives the
    end-to-end guarantee of the reliable modes.

    The message of stream position [q] is [content q]; the application's messages
    are the positions from [p0] on.  Positions are history variables: the program
    keeps only their lowest 32 bits. *)
From S2P Require Import Prelude Ring Types Seq Packet Rtt Mpmc SendWindow SendSpec Send RecvWindow RecvSpec Recv.
From stdpp Require Import base numbers list.
Open Scope Z_scope.
Open Scope rel4u_scope.

(** The header both endpoints put in front of a payload ([client_send_packet],
    [server_send_packet]). *)
Definition make_header (type mode session_id seq payload_len ack_num sack_mask : Z) : rel4u_header :=
  mk_header REL4U_MAGIC REL4U_VERSION (u8 type) (u8 mode) 0 (u16 payload_len) session_id seq
    ack_num sack_mask.

(** A data packet in the network with the position it carries, and an
    acknowledgement with the position that was expected when it was made. *)
Record data_packet := mk_data { dp_pos : Z; dp_header : rel4u_header; dp_payload : list Z }.
Record ack_packet := mk_ack { ap_pos : Z; ap_ack : Z; ap_sack : Z }.

Record link := mk_link {
  lk_send : rel4u_send_window;
  lk_rtt : rel4u_rtt;
  lk_recv : rel4u_recv_window;
  lk_data : list data_packet;
  lk_acks : list ack_packet;
  lk_delivered : list (Z * Z * list Z);
  lk_head : Z;
  lk_next : Z;
  lk_expected : Z
}.

Section link.
Context (content : Z -> Z * list Z) (session_id p0 : Z).
Hypothesis content_ok : forall q, mode_reliable (fst (content q)) = true /\
  Z.of_nat (length (snd (content q))) <= REL4U_MAX_PAYLOAD_SIZE.

(** The packet a slot of the window [w] goes out as, [h] being the position of the head. *)
Definition slot_packet (h : Z) (w : rel4u_send_window) (s : rel4u_send_slot) : data_packet :=
  mk_data (h + u32 (ss_seq_num s - sw_head_seq w))
    (make_header REL4U_PKT_DATA (ss_delivery_mode s) session_id (ss_seq_num s) (ss_payload_len s) 0 0)
    (take (Z.to_nat (ss_payload_len s)) (ss_payload s)).

(** The network keeps every packet it has been given: delivering one leaves it
    there (duplication), delivering in any order is reordering, and never
    delivering one is loss.  A packet reaches its endpoint while the stream is
    within [2^31] positions of it. *)
Inductive link_step : link -> link -> Prop :=
  | step_send w rtt rv ds acks out h n p now w' seq :
      is_u64 now ->
      rel4u_send_window_push w (fst (content n)) (snd (content n))
        (Z.of_nat (length (snd (content n)))) now = (0, w', Some seq) ->
      link_step (mk_link w rtt rv ds acks out h n p)
        (mk_link w' rtt rv
           (mk_data n (make_header REL4U_PKT_DATA (fst (content n)) session_id seq
              (Z.of_nat (length (snd (content n)))) 0 0) (snd (content n)) :: ds)
           acks out h (n + 1) p)
  | step_retransmit w rtt rv ds acks out h n p now max w' sent :
      is_u64 now ->
      retransmit_all w now (rel4u_send_window_get_expired w now (rel4u_rtt_get_rto (Some rtt))
        (Z.of_nat max)) = (w', sent) ->
      link_step (mk_link w rtt rv ds acks out h n p)
        (mk_link w' (rel4u_rtt_on_timeout rtt) rv ((slot_packet h w <$> sent) ++ ds) acks out h n p)
  | step_receive w rtt rv ds acks out h n p d scratch max rc0 r rv' scratch' rc :
      d ∈ ds -> near (dp_pos d) p -> 0 < max <= Z.of_nat (length scratch) ->
      rel4u_recv_window_on_packet rv (dp_header d) (Some (dp_payload d)) scratch max rc0
        = (r, rv', scratch', rc) ->
      link_step (mk_link w rtt rv ds acks out h n p)
        (mk_link w rtt rv' ds acks (out ++ (slot_view <$> take (Z.to_nat rc) scratch'))
           h n (p + u32 (rw_expected_seq rv' - rw_expected_seq rv)))
  | step_drain w rtt rv ds acks out h n p scratch max rc0 r rv' scratch' rc :
      0 < max <= Z.of_nat (length scratch) ->
      rel4u_recv_window_pop_ready rv scratch max rc0 = (r, rv', scratch', rc) ->
      link_step (mk_link w rtt rv ds acks out h n p)
        (mk_link w rtt rv' ds acks (out ++ (slot_view <$> take (Z.to_nat rc) scratch'))
           h n (p + u32 (rw_expected_seq rv' - rw_expected_seq rv)))
  | step_acknowledge w rtt rv ds acks out h n p :
      let info := rel4u_recv_window_get_ack_info rv in
      link_step (mk_link w rtt rv ds acks out h n p)
        (mk_link w rtt rv ds (mk_ack p (fst info) (snd info) :: acks) out h n p)
  | step_ack_arrives w rtt rv ds acks out h n p a now w' rtt' stats' :
      a ∈ acks -> near h (ap_pos a - 1) ->
      rel4u_send_window_on_ack w (ap_ack a) (ap_sack a) now (Some rtt) None = (w', Some rtt', stats') ->
      link_step (mk_link w rtt rv ds acks out h n p)
        (mk_link w' rtt' rv ds acks out (h + u32 (sw_head_seq w' - sw_head_seq w)) n p).

Inductive link_reach : link -> Prop :=
  | link_init w0 rv0 c c' w rv :
      rel4u_send_window_init w0 c (u32 p0) true = (0, w) -> c < 2 ^ 31 ->
      rel4u_recv_window_init rv0 c' (u32 p0) true = (0, rv) -> c' < 2 ^ 31 ->
      link_reach (mk_link w rtt_default rv [] [] [] p0 p0 p0)
  | link_next s s' : link_reach s -> link_step s s' -> link_reach s'.

(** ** The invariant *)

(** The entry of position [q] holds the message of that position. *)
Record entry_content (q : Z) (e : rel4u_send_slot) : Prop := {
  ec_mode : ss_delivery_mode e = mode_of content q;
  ec_len : ss_payload_len e = Z.of_nat (length (data_of content q));
  ec_data : take (Z.to_nat (ss_payload_len e)) (ss_payload e) = data_of content q
}.

(** An acknowledgement claims only what the receiver has. *)
Definition ack_sound (rv : rel4u_recv_window) (p : Z) (a : ack_packet) : Prop :=
  ap_ack a = u32 (ap_pos a - 1) /\ ap_pos a <= p /\
  forall i, 0 <= i < 32 -> Z.testbit (ap_sack a) i = true -> arrived rv p (ap_pos a + i).

Record link_inv (s : link) (es : list rel4u_send_slot) (dl : list Z) : Prop := {
  li_send : send_rep (lk_send s) (lk_head s) es;
  li_next : lk_next s = lk_head s + Z.of_nat (length es);
  li_content : forall i e, es !! i = Some e -> entry_content (lk_head s + Z.of_nat i) e;
  li_rtt : rtt_ok (lk_rtt s);
  li_recv : recv_hist content p0 (lk_recv s) (lk_expected s) dl;
  li_out : lk_delivered s = pkt content <$> dl;
  li_behind : lk_head s <= lk_expected s;
  li_arrived : forall q, lk_expected s <= q -> arrived (lk_recv s) (lk_expected s) q -> q < lk_next s;
  li_ahead : lk_expected s <= lk_next s;
  li_acked : forall i e, es !! i = Some e -> ss_acked e = true ->
    arrived (lk_recv s) (lk_expected s) (lk_head s + Z.of_nat i);
  li_data : forall d, d ∈ lk_data s ->
    dp_pos d < lk_next s /\ carries content (dp_header d) (dp_payload d) (dp_pos d);
  li_acks : forall a, a ∈ lk_acks s -> ack_sound (lk_recv s) (lk_expected s) a
}.

Lemma make_header_carries q seq data session ack sack : seq = u32 q ->
  take (length (data_of content q)) data = data_of content q ->
  carries content (make_header REL4U_PKT_DATA (mode_of content q) session seq
    (Z.of_nat (length (data_of content q))) ack sack) data q.
Proof.
  intros -> Hd. destruct (content_ok q) as [Hm Hl]. constructor; try done; cbn.
  - exact (mode_u8 content q Hm).
  - unfold data_of, REL4U_MAX_PAYLOAD_SIZE in *. apply u16_small. word_unfold. lia.
Qed.

Lemma entry_content_same q e e' : entry_content q e -> same_packet e e' -> entry_content q e'.
Proof. intros [] []. constructor; congruence. Qed.

Lemma inv_init w0 rv0 c c' w rv :
  rel4u_send_window_init w0 c (u32 p0) true = (0, w) -> c < 2 ^ 31 ->
  rel4u_recv_window_init rv0 c' (u32 p0) true = (0, rv) -> c' < 2 ^ 31 ->
  link_inv (mk_link w rtt_default rv [] [] [] p0 p0 p0) [] [].
Proof.
  intros E Hc E' Hc'. pose proof (reach_init content p0 rv0 c' rv E' Hc') as Hr.
  apply reach_hist in Hr as (ds & Hr & Hds). destruct ds; [clear Hds|done].
  unfold rel4u_send_window_init in E. destruct (c <? 2) eqn:E2; [by cbn in E|].
  destruct (is_pow2 c) eqn:Ep; [|by cbn in E]. cbn [orb negb] in E. injection E as <-.
  assert (Hnone : forall q, p0 <= q -> ~ arrived rv p0 q).
  { intros q Hq [?|Hh]; [lia|]. destruct (decide (ordered content q)) as [Ho|Ho].
    - pose proof (init_rep content rv0 c' p0) as I. rewrite E' in I. cbn in I.
      unfold rel4u_recv_window_init in E'. destruct (c' <? 2) eqn:E3; [by cbn in E'|].
      destruct (is_pow2 c') eqn:Ep'; [|by cbn in E'].
      destruct I as [_ I]; [split; [lia|done]|]. by apply (I q).
    - pose proof (proj2 (rh_unordered _ _ _ _ _ Hr q Ho) (or_intror Hh)) as Hin.
      by apply elem_of_nil in Hin. }
  assert (R : send_rep (mk_send_window (replicate (Z.to_nat c) send_slot_zero) c (u32 p0) (u32 p0) (u32 p0) 0) p0 []).
  { constructor; cbn -[Z.to_nat]; try done; [split; [lia|done]|rewrite length_replicate; lia|by rewrite Z.add_0_r|lia]. }
  constructor; cbn -[Z.of_nat]; [exact R|lia|done|apply rtt_default_ok|done|done|lia| |lia|done| |].
  - intros q Hq Ha. by apply Hnone in Ha.
  - by intros d ?%elem_of_nil.
  - by intros d ?%elem_of_nil.
Qed.

Ltac link_fields := cbn [lk_send lk_rtt lk_recv lk_data lk_acks lk_delivered lk_head lk_next lk_expected] in *.

(** New messages at the end of the window. *)
Lemma inv_append s es dl w' new : link_inv s es dl -> send_rep w' (lk_head s) (es ++ new) ->
  Forall (fun e => ss_acked e = false) new ->
  (forall i e, new !! i = Some e -> entry_content (lk_next s + Z.of_nat i) e) ->
  link_inv (mk_link w' (lk_rtt s) (lk_recv s) (lk_data s) (lk_acks s) (lk_delivered s) (lk_head s)
    (lk_next s + Z.of_nat (length new)) (lk_expected s)) (es ++ new) dl.
Proof.
  intros I R' Hf Hc. destruct I. constructor; link_fields; try done.
  - rewrite length_app. lia.
  - intros i e [He|[Hi He]]%lookup_app_Some; [by apply li_content0|]. specialize (Hc _ _ He).
    replace (lk_head s + Z.of_nat i) with (lk_next s + Z.of_nat (i - length es)) by lia. done.
  - intros q Hq Ha. specialize (li_arrived0 q Hq Ha). lia.
  - lia.
  - intros i e [He|[Hi He]]%lookup_app_Some Ha; [by eapply li_acked0|].
    rewrite Forall_lookup in Hf. specialize (Hf _ _ He). congruence.
  - intros d Hd. specialize (li_data0 d Hd). split; [lia|apply li_data0].
Qed.

Lemma inv_send s es dl now w' seq : link_inv s es dl -> is_u64 now ->
  rel4u_send_window_push (lk_send s) (fst (content (lk_next s))) (snd (content (lk_next s)))
    (Z.of_nat (length (snd (content (lk_next s))))) now = (0, w', Some seq) ->
  exists e, link_inv (mk_link w' (lk_rtt s) (lk_recv s)
    (mk_data (lk_next s) (make_header REL4U_PKT_DATA (fst (content (lk_next s))) session_id seq
       (Z.of_nat (length (snd (content (lk_next s))))) 0 0) (snd (content (lk_next s))) :: lk_data s)
    (lk_acks s) (lk_delivered s) (lk_head s) (lk_next s + 1) (lk_expected s)) (es ++ [e]) dl.
Proof.
  intros I Hn E. set (n := lk_next s) in *. destruct (content_ok n) as [Hm Hl].
  pose proof (push_reliable (lk_send s) (lk_head s) es (fst (content n)) (snd (content n))
    (Z.of_nat (length (snd (content n)))) now (li_send _ _ _ I) Hm Hn ltac:(lia) Hl) as P.
  cbv zeta in P. destruct (_ <? _); [|congruence].
  destruct P as (w1 & payload & E1 & R1 & Hp & _). rewrite E in E1. injection E1 as <- Hseq.
  rewrite <- (li_next _ _ _ I) in Hseq. fold n in Hseq.
  set (e := pushed_entry _ _ _ _ _) in R1. exists e. assert (Hc : entry_content n e).
  { constructor; cbn; [done|done|]. rewrite Hp, Nat2Z.id. exact (take_ge _ _ (Nat.le_refl _)). }
  assert (I' := inv_append s es dl w' [e] I R1 ltac:(by repeat constructor)). fold n in I'. clearbody n e.
  destruct I'; [intros [|i] ? [= <-]; by rewrite Z.add_0_r|]. constructor; link_fields; try done.
  intros d [->|Hd]%elem_of_cons; [|by apply li_data0].
  cbn. split; [lia|]. apply make_header_carries; [done|]. by apply take_ge.
Qed.

(** The same packets in another window. *)
Lemma inv_entries s es dl w' rtt' es' : link_inv s es dl -> send_rep w' (lk_head s) es' ->
  Forall2 same_packet es es' -> rtt_ok rtt' ->
  link_inv (mk_link w' rtt' (lk_recv s) (lk_data s) (lk_acks s) (lk_delivered s) (lk_head s) (lk_next s)
    (lk_expected s)) es' dl.
Proof.
  intros I R' Hs Hr. pose proof (Forall2_length _ _ _ Hs) as Hlen. destruct I.
  constructor; link_fields; try done.
  - congruence.
  - intros i e He. destruct (Forall2_lookup_r _ _ _ _ _ Hs He) as (e0 & He0 & Hsame).
    eapply entry_content_same; [by apply li_content0|done].
  - intros i e He Ha. destruct (Forall2_lookup_r _ _ _ _ _ Hs He) as (e0 & He0 & Hsame).
    apply (li_acked0 i e0 He0). by rewrite <- (sp_acked _ _ Hsame).
Qed.

Lemma inv_retransmit s es dl now max w' sent : link_inv s es dl -> is_u64 now ->
  retransmit_all (lk_send s) now (rel4u_send_window_get_expired (lk_send s) now
    (rel4u_rtt_get_rto (Some (lk_rtt s))) (Z.of_nat max)) = (w', sent) ->
  exists es', link_inv (mk_link w' (rel4u_rtt_on_timeout (lk_rtt s)) (lk_recv s)
    ((slot_packet (lk_head s) (lk_send s) <$> sent) ++ lk_data s) (lk_acks s) (lk_delivered s)
    (lk_head s) (lk_next s) (lk_expected s)) es' dl.
Proof.
  intros I Hn E. pose proof (li_send _ _ _ I) as R.
  assert (Hr : is_u32 (rel4u_rtt_get_rto (Some (lk_rtt s)))).
  { destruct (li_rtt _ _ _ I). cbn. word_unfold. lia. }
  rewrite (get_expired_spec _ _ _ _ _ _ R Hn Hr) in E. rewrite <- fmap_take in E.
  set (ks := take max _) in E. unfold retransmit_all in E.
  assert (Hks : Forall (fun k => 0 <= k < Z.of_nat (length es)) ks).
  { apply Forall_take. eapply Forall_impl; [apply (expired_from_range now _ es 0)|]. cbn. lia. }
  pose proof (resend_rep now ks Hn _ _ _ [] R Hks) as P. rewrite E in P.
  destruct P as (es' & more & R' & _ & Hs & -> & Hm). rewrite app_nil_l in *.
  exists es'. pose proof (inv_entries s es dl w' (rel4u_rtt_on_timeout (lk_rtt s)) es' I R' Hs
    ltac:(apply rtt_timeout_ok, I)) as I'. destruct I'. pose proof (li_next _ _ _ I). pose proof (li_content _ _ _ I) as Hcon.
  constructor; link_fields; try done.
  - intros d [Hd|Hd]%elem_of_app; [|by apply li_data0].
    apply list_elem_of_fmap in Hd as (sl & -> & Hsl). rewrite Forall_forall in Hm.
    destruct (Hm sl Hsl) as (k & e & He & Hsame).
    pose proof (entry_content_same _ _ _ (Hcon k e He) Hsame) as Hc.
    pose proof (sr_entries _ _ _ R _ _ He) as O. pose proof (sr_cap _ _ _ R) as [Hcap _].
    pose proof (sr_fits _ _ _ R) as Hf. assert (k < length es)%nat by eauto using lookup_lt_Some.
    assert (Hpos : dp_pos (slot_packet (lk_head s) (lk_send s) sl) = lk_head s + Z.of_nat k).
    { cbn. rewrite (sp_seq _ _ Hsame), (eo_seq _ _ O), (sr_head _ _ _ R). autorewrite with rel4u.
      rewrite u32_small; [lia|word_unfold; lia]. }
    rewrite Hpos. split; [lia|]. unfold slot_packet. cbn [dp_header dp_payload].
    rewrite (ec_mode _ _ Hc), (ec_data _ _ Hc), (ec_len _ _ Hc).
    apply make_header_carries; [by rewrite (sp_seq _ _ Hsame), (eo_seq _ _ O)|].
    by apply take_ge.
Qed.

(** A receiver step: more positions have arrived, all of them sent. *)
Lemma inv_receiver s es dl rv' p' more outs : link_inv s es dl ->
  recv_hist content p0 rv' p' (dl ++ more) -> outs = pkt content <$> more -> lk_expected s <= p' ->
  (forall x, arrived (lk_recv s) (lk_expected s) x -> arrived rv' p' x) ->
  (forall x, arrived rv' p' x -> arrived (lk_recv s) (lk_expected s) x \/ x < lk_next s) ->
  link_inv (mk_link (lk_send s) (lk_rtt s) rv' (lk_data s) (lk_acks s) (lk_delivered s ++ outs)
    (lk_head s) (lk_next s) p') es (dl ++ more).
Proof.
  intros I Hh -> Hp Hmono Hnew. destruct I.
  assert (Hlt : forall q, lk_expected s <= q -> arrived rv' p' q -> q < lk_next s).
  { intros q Hq Ha. destruct (Hnew q Ha) as [?|?]; [by apply li_arrived0|done]. }
  constructor; link_fields; try done.
  - by rewrite li_out0, fmap_app.
  - lia.
  - intros q Hq Ha. apply Hlt; [lia|done].
  - destruct (decide (p' = lk_expected s)) as [->|]; [done|].
    assert (p' - 1 < lk_next s); [|lia]. apply Hlt; [lia|]. left. lia.
  - intros i e He Ha. apply Hmono. by eapply li_acked0.
  - intros a Ha. destruct (li_acks0 a Ha) as (Ea & Hle & Hb). split; [done|]. split; [lia|].
    intros i Hi Hbit. apply Hmono. by apply Hb.
Qed.

Lemma inv_receive s es dl d scratch max rc0 r rv' scratch' rc : link_inv s es dl ->
  d ∈ lk_data s -> near (dp_pos d) (lk_expected s) -> 0 < max <= Z.of_nat (length scratch) ->
  rel4u_recv_window_on_packet (lk_recv s) (dp_header d) (Some (dp_payload d)) scratch max rc0
    = (r, rv', scratch', rc) ->
  exists dl', link_inv (mk_link (lk_send s) (lk_rtt s) rv' (lk_data s) (lk_acks s)
    (lk_delivered s ++ (slot_view <$> take (Z.to_nat rc) scratch')) (lk_head s) (lk_next s)
    (lk_expected s + u32 (rw_expected_seq rv' - rw_expected_seq (lk_recv s)))) es dl'.
Proof.
  intros I Hd Hn Hmax E. destruct (li_data _ _ _ I d Hd) as [Hlt C].
  destruct (hist_packet content p0 _ _ _ _ _ _ _ _ _ _ _ _ _ (li_recv _ _ _ I) C Hn Hmax E)
    as (ds' & H' & Hv & Hp & Ha & _).
  exists (dl ++ ds'). apply inv_receiver; try done.
  - intros x Hx. apply Ha. by left.
  - intros x Hx. apply Ha in Hx as [?|[-> _]]; [by left|by right].
Qed.

Lemma inv_drain s es dl scratch max rc0 r rv' scratch' rc : link_inv s es dl ->
  0 < max <= Z.of_nat (length scratch) ->
  rel4u_recv_window_pop_ready (lk_recv s) scratch max rc0 = (r, rv', scratch', rc) ->
  exists dl', link_inv (mk_link (lk_send s) (lk_rtt s) rv' (lk_data s) (lk_acks s)
    (lk_delivered s ++ (slot_view <$> take (Z.to_nat rc) scratch')) (lk_head s) (lk_next s)
    (lk_expected s + u32 (rw_expected_seq rv' - rw_expected_seq (lk_recv s)))) es dl'.
Proof.
  intros I Hmax E.
  destruct (hist_pop content p0 _ _ _ _ _ _ _ _ _ _ (li_recv _ _ _ I) Hmax E) as (ds' & H' & Hv & Hp & Ha & _).
  exists (dl ++ ds'). apply inv_receiver; try done.
  - intros x Hx. by apply Ha.
  - intros x Hx. left. by apply Ha.
Qed.

Lemma inv_acknowledge s es dl : link_inv s es dl ->
  link_inv (mk_link (lk_send s) (lk_rtt s) (lk_recv s) (lk_data s)
    (mk_ack (lk_expected s) (fst (rel4u_recv_window_get_ack_info (lk_recv s)))
       (snd (rel4u_recv_window_get_ack_info (lk_recv s))) :: lk_acks s)
    (lk_delivered s) (lk_head s) (lk_next s) (lk_expected s)) es dl.
Proof.
  intros I. pose proof (rh_rep _ _ _ _ _ (li_recv _ _ _ I)) as R. destruct I.
  constructor; link_fields; try done. intros a [->|Ha]%elem_of_cons; [|by apply li_acks0].
  pose proof (ack_info_rep content (lk_recv s) (lk_expected s)) as A.
  unfold ack_sound. cbn [ap_pos ap_ack ap_sack]. split; [by apply (A 0)|]. split; [lia|]. intros i Hi Hb.
  destruct (A i R ltac:(lia)) as [_ Hbit]. rewrite Hbit in Hb. apply bool_decide_eq_true in Hb as [_ Hh].
  by right.
Qed.

(** An entry after an acknowledgement of [d] positions comes from one before it;
    if it is marked, it was so before or by its bit of the mask. *)
Lemma acked_entries_lookup d sack es j e' : acked_entries d sack es !! j = Some e' ->
  exists e, es !! (acked_upto d es + j)%nat = Some e /\
    (e' = e \/ (e' = ack_entry e /\ let bit := Z.of_nat (acked_upto d es + j) - d in
       0 <= bit < 32 /\ Z.testbit sack bit = true)).
Proof.
  unfold acked_entries, sack_marked. rewrite list_lookup_imap, lookup_drop.
  destruct (es !! _) as [e|]; [|done]. cbn [fmap option_fmap option_map]. intros [= <-].
  exists e. split; [done|].
  replace (Z.of_nat j - (d - Z.of_nat (acked_upto d es))) with (Z.of_nat (acked_upto d es + j) - d) by lia.
  destruct (_ && _) eqn:E; [right|by left]. apply andb_true_iff in E as [E Hb].
  apply andb_true_iff in E as [E1 E2]. split; [done|]. apply Z.leb_le in E1. apply Z.ltb_lt in E2. done.
Qed.

Lemma entry_content_ack q e : entry_content q e -> entry_content q (ack_entry e).
Proof. intros []. by constructor. Qed.

Lemma acked_upto_le d es : (acked_upto d es <= length es)%nat.
Proof. unfold acked_upto. lia. Qed.

Lemma sampled_rtt_ok now es r stats : rtt_ok r -> exists r' stats',
  sampled now es (Some r, stats) = (Some r', stats') /\ rtt_ok r'.
Proof.
  intros Hr. destruct (apply_samples (omap (rtt_sample now) es) r stats Hr) as (stats' & E & Hok).
  unfold sampled. rewrite E. eauto.
Qed.

Lemma inv_ack_arrives s es dl a now stats w' rtt' stats' : link_inv s es dl ->
  a ∈ lk_acks s -> near (lk_head s) (ap_pos a - 1) ->
  rel4u_send_window_on_ack (lk_send s) (ap_ack a) (ap_sack a) now (Some (lk_rtt s)) stats
    = (w', Some rtt', stats') ->
  exists es', link_inv (mk_link w' rtt' (lk_recv s) (lk_data s) (lk_acks s) (lk_delivered s)
    (lk_head s + u32 (sw_head_seq w' - sw_head_seq (lk_send s))) (lk_next s) (lk_expected s)) es' dl.
Proof.
  intros I Ha Hn E. pose proof (li_send _ _ _ I) as R. destruct (li_acks _ _ _ I a Ha) as (Ea & Hle & Hbits).
  set (h := lk_head s) in *. set (d := ap_pos a - h).
  assert (Hack : ap_ack a = u32 (h + d - 1)) by (rewrite Ea; f_equal; unfold d; lia).
  rewrite Hack in E. pose proof (on_ack_rep (lk_send s) h es d (ap_sack a) now (Some (lk_rtt s)) stats R
    ltac:(unfold near, d in *; lia)) as P. rewrite E in P. destruct P as (R' & _ & Es).
  destruct (sampled_rtt_ok now (acked_news d (ap_sack a) es) (lk_rtt s) stats (li_rtt _ _ _ I)) as (r' & st' & Er & Hr').
  rewrite Er in Es. injection Es as -> _. set (k := acked_upto d es) in *.
  pose proof (acked_upto_le d es) as Hk. fold k in Hk.
  pose proof (sr_cap _ _ _ R) as [Hc _]. pose proof (sr_fits _ _ _ R) as Hf.
  assert (Hh : h + u32 (sw_head_seq w' - sw_head_seq (lk_send s)) = h + Z.of_nat k).
  { rewrite (sr_head _ _ _ R), (sr_head _ _ _ R'). autorewrite with rel4u.
    rewrite u32_small; [lia|word_unfold; lia]. }
  rewrite Hh. exists (acked_entries d (ap_sack a) es).
  assert (Hlen : length (acked_entries d (ap_sack a) es) = (length es - k)%nat).
  { unfold acked_entries. by rewrite sack_marked_length, length_drop. }
  assert (Hkp : h + Z.of_nat k <= lk_expected s).
  { pose proof (li_behind _ _ _ I). unfold k, acked_upto, d. fold h in H. lia. }
  pose proof (li_next _ _ _ I) as Hnx. fold h in Hnx.
  constructor; link_fields; try apply I; try done; try lia.
  - intros j e' He'. apply acked_entries_lookup in He' as (e & He & Hor). fold k in He.
    pose proof (li_content _ _ _ I _ _ He) as Hec. fold h in Hec. replace (h + Z.of_nat k + Z.of_nat j) with
      (h + Z.of_nat (k + j)) by lia.
    destruct Hor as [->|[-> _]]; [done|by apply entry_content_ack].
  - intros j e' He' Hacked. apply acked_entries_lookup in He' as (e & He & Hor). fold k in He, Hor.
    replace (h + Z.of_nat k + Z.of_nat j) with (h + Z.of_nat (k + j)) by lia.
    destruct Hor as [->|[_ [Hb Hbit]]]; [by apply (li_acked _ _ _ I _ _ He)|].
    replace (h + Z.of_nat (k + j)) with (ap_pos a + (Z.of_nat (k + j) - d)) by (unfold d; lia).
    by apply Hbits.
Qed.

Lemma link_step_inv s s' es dl : link_inv s es dl -> link_step s s' -> exists es' dl', link_inv s' es' dl'.
Proof.
  intros I St. destruct St.
  - destruct (inv_send _ _ _ _ _ _ I H H0). eauto.
  - destruct (inv_retransmit _ _ _ _ _ _ _ I H H0). eauto.
  - destruct (inv_receive _ _ _ _ _ _ _ _ _ _ _ I H H0 H1 H2). eauto.
  - destruct (inv_drain _ _ _ _ _ _ _ _ _ _ I H H0). eauto.
  - exists es, dl. exact (inv_acknowledge _ _ _ I).
  - destruct (inv_ack_arrives _ _ _ _ _ _ _ _ _ I H H0 H1). eauto.
Qed.

Lemma link_reach_inv s : link_reach s -> exists es dl, link_inv s es dl.
Proof.
  induction 1 as [w0 rv0 c c' w rv E Hc E' Hc'|s s' _ (es & dl & I) St].
  - exists [], []. by eapply inv_init.
  - by eapply link_step_inv.
Qed.

(** What an invariant state has delivered. *)
Lemma inv_safety s es dl : link_inv s es dl ->
  NoDup dl /\ Forall (fun q => p0 <= q < lk_next s) dl /\
  filter (ordered content) dl = filter (ordered content) (seqZ p0 (lk_expected s - p0)) /\
  p0 <= lk_expected s <= lk_next s.
Proof.
  intros I. destruct (li_recv _ _ _ I) as [R Hf Hnd Ho Hu].
  pose proof (li_ahead _ _ _ I). split; [done|]. split; [|done].
  apply Forall_forall. intros q Hq. destruct (decide (ordered content q)) as [Eo|Eo].
  - assert (q ∈ ordered_run content p0 (lk_expected s - p0)) as [_ ?]%elem_of_ordered_run; [|lia].
    rewrite <- Ho. by apply list_elem_of_filter.
  - apply (Hu q Eo) in Hq as [?|Hh]; [lia|]. pose proof (proj1 Hh).
    pose proof (li_arrived _ _ _ I q ltac:(lia) (or_intror Hh)). lia.
Qed.

(** When nothing is in flight and the receiver has drained its window, everything
    has been delivered. *)
Lemma inv_no_loss s es dl : link_inv s es dl ->
  sw_in_flight (lk_send s) = 0 -> ~ held (lk_recv s) (lk_expected s) (lk_expected s) ->
  filter (ordered content) dl = filter (ordered content) (seqZ p0 (lk_next s - p0)) /\
  dl ≡ₚ seqZ p0 (lk_next s - p0).
Proof.
  intros I Hfl Hnh. pose proof (li_send _ _ _ I) as R.
  assert (Hall : unacked es = []).
  { rewrite (sr_flight _ _ _ R) in Hfl. destruct (unacked es); [done|]. cbn in Hfl. lia. }
  assert (Hp : lk_expected s = lk_next s).
  { pose proof (li_ahead _ _ _ I). pose proof (li_behind _ _ _ I). pose proof (li_next _ _ _ I).
    destruct (decide (lk_expected s = lk_next s)); [done|exfalso].
    set (k := lk_expected s - lk_head s).
    destruct (lookup_lt_is_Some_2 es (Z.to_nat k)) as [e He]; [unfold k; lia|].
    assert (Ha : ss_acked e = true).
    { destruct (ss_acked e) eqn:Ha; [done|]. assert (Hin : e ∈ unacked es).
      { apply list_elem_of_filter. split; [done|]. by eapply list_elem_of_lookup_2. }
      rewrite Hall in Hin. by apply elem_of_nil in Hin. }
    pose proof (li_acked _ _ _ I _ _ He Ha) as Harr.
    replace (lk_head s + Z.of_nat (Z.to_nat k)) with (lk_expected s) in Harr by (unfold k; lia).
    destruct Harr as [?|?]; [lia|done]. }
  destruct (li_recv _ _ _ I) as [Rr Hf Hnd Ho Hu].   rewrite <- Hp. split; [done|]. apply NoDup_Permutation; [done|apply NoDup_seqZ|].
  intros q. rewrite elem_of_seqZ. destruct (decide (ordered content q)) as [Eo|Eo].
  - assert (Hiff : q ∈ dl <-> q ∈ ordered_run content p0 (lk_expected s - p0)).
    { rewrite <- Ho, list_elem_of_filter. tauto. }
    rewrite Hiff, elem_of_ordered_run. split; [intros [_ ?]; lia|intros; split; [done|lia]].
  - rewrite (Hu q Eo). split; [|intros; left; lia]. intros [?|Hh]; [lia|].
    pose proof (proj1 Hh). pose proof (li_arrived _ _ _ I q ltac:(lia) (or_intror Hh)). lia.
Qed.

(** End-to-end safety: over any network, what the receiving application has been
    given are distinct messages that were sent, each with its own bytes; the
    ordered ones are the ordered messages of a prefix of the stream, in the order
    they were sent. *)
Theorem link_safety s : link_reach s ->
  exists dl, lk_delivered s = pkt content <$> dl /\ NoDup dl /\
    Forall (fun q => p0 <= q < lk_next s) dl /\
    filter (ordered content) dl = filter (ordered content) (seqZ p0 (lk_expected s - p0)) /\
    p0 <= lk_expected s <= lk_next s.
Proof. intros (es & dl & I)%link_reach_inv. exists dl. split; [apply I|]. by eapply inv_safety. Qed.

(** C11. Acknowledgements are honest: the sender forgets a message only after the
    receiver has it; the positions before the head of the send window and those
    marked in it have all arrived. *)
Theorem link_acked_arrived s : link_reach s ->
  lk_head s <= lk_expected s /\ lk_head s + sw_in_flight (lk_send s) <= lk_next s /\
  forall k, 0 <= k < lk_next s - lk_head s ->
    ss_acked (sw_slots (lk_send s) !. send_slot_idx (lk_send s) (u32 (lk_head s + k))) = true ->
    arrived (lk_recv s) (lk_expected s) (lk_head s + k).
Proof.
  intros (es & dl & I)%link_reach_inv. pose proof (li_send _ _ _ I) as R. pose proof (li_next _ _ _ I).
  split; [apply I|]. split; [pose proof (send_flight_le _ _ _ R); lia|].
  intros k Hk Ha. destruct (lookup_lt_is_Some_2 es (Z.to_nat k)) as [e He]; [lia|].
  rewrite (send_slot_get _ _ _ k _ R ltac:(lia) He) in Ha.
  rewrite <- (Z2Nat.id k) by lia. by eapply li_acked.
Qed.

(** C6. No loss: when the sender has nothing in flight and the receiver has drained
    its window, every message ever sent has been delivered, the ordered ones in
    the order of sending, the unordered ones exactly once. *)
Theorem link_no_loss s : link_reach s ->
  sw_in_flight (lk_send s) = 0 -> ~ held (lk_recv s) (lk_expected s) (lk_expected s) ->
  exists dl, lk_delivered s = pkt content <$> dl /\ NoDup dl /\
    filter (ordered content) dl = filter (ordered content) (seqZ p0 (lk_next s - p0)) /\
    dl ≡ₚ seqZ p0 (lk_next s - p0).
Proof.
  intros (es & dl & I)%link_reach_inv Hfl Hnh. exists dl. split; [apply I|].
  split; [apply I|]. by eapply inv_no_loss.
Qed.
End link.

(** ** Witnesses *)

Lemma sample_content_ok q : mode_reliable (fst (sample_content q)) = true /\
  Z.of_nat (length (snd (sample_content q))) <= REL4U_MAX_PAYLOAD_SIZE.
Proof. unfold sample_content, REL4U_MAX_PAYLOAD_SIZE. cbn. destruct (Z.even q); split; done. Qed.

Definition sample_scratch : list rel4u_recv_slot := replicate 2 recv_slot_zero.

(** A run in which the messages [2^32 - 1] (unordered) and [2^32] (ordered) are
    sent, arrive in the opposite order, are acknowledged and retired. *)
Definition demo_w0 : rel4u_send_window := Eval vm_compute in
  snd (rel4u_send_window_init send_window_zero 4 (2 ^ 32 - 1) true).
Definition demo_push (w : rel4u_send_window) (q : Z) : rel4u_send_window :=
  snd (fst (rel4u_send_window_push w (fst (sample_content q)) (snd (sample_content q))
    (Z.of_nat (length (snd (sample_content q)))) 0)).
Definition demo_w1 : rel4u_send_window := Eval vm_compute in demo_push demo_w0 (2 ^ 32 - 1).
Definition demo_w2 : rel4u_send_window := Eval vm_compute in demo_push demo_w1 (2 ^ 32).
Definition demo_data (q : Z) : data_packet :=
  mk_data q (make_header REL4U_PKT_DATA (fst (sample_content q)) 7 (u32 q) 1 0 0) (snd (sample_content q)).
Definition demo_receive (rv : rel4u_recv_window) (q : Z) :=
  rel4u_recv_window_on_packet rv (dp_header (demo_data q)) (Some (dp_payload (demo_data q))) sample_scratch 2 0.
Definition demo_r1 := Eval vm_compute in demo_receive sample_w0 (2 ^ 32).
Definition demo_r2 := Eval vm_compute in demo_receive (snd (fst (fst demo_r1))) (2 ^ 32 - 1).
Definition demo_rv : rel4u_recv_window := Eval vm_compute in snd (fst (fst demo_r2)).
Definition demo_ack : ack_packet := Eval vm_compute in
  mk_ack (2 ^ 32 + 1) (fst (rel4u_recv_window_get_ack_info demo_rv)) (snd (rel4u_recv_window_get_ack_info demo_rv)).
Definition demo_acked := Eval vm_compute in
  rel4u_send_window_on_ack demo_w2 (ap_ack demo_ack) (ap_sack demo_ack) 0 (Some rtt_default) None.
Definition demo_rtt : rel4u_rtt := Eval vm_compute in default rtt_default (snd (fst demo_acked)).

Definition demo_final : link :=
  mk_link (fst (fst demo_acked)) demo_rtt demo_rv [demo_data (2 ^ 32); demo_data (2 ^ 32 - 1)]
    [demo_ack] [(2 ^ 32 - 1, 2, [255]); (0, 3, [0])] (2 ^ 32 + 1) (2 ^ 32 + 1) (2 ^ 32 + 1).

(** The next state of a step, compared by evaluation. *)
Ltac link_by c :=
  let T := type of c in let T := eval cbv zeta in T in
  lazymatch T with
  | link_step _ _ _ ?t =>
      lazymatch goal with
      | |- link_step _ _ _ ?s => replace s with t by (vm_compute; reflexivity); exact c
      end
  end.

Lemma demo_sent : link_reach sample_content 7 (2 ^ 32 - 1)
  (mk_link demo_w2 rtt_default sample_w0 [demo_data (2 ^ 32); demo_data (2 ^ 32 - 1)] [] []
     (2 ^ 32 - 1) (2 ^ 32 + 1) (2 ^ 32 - 1)).
Proof.
  apply (link_next _ _ _ (mk_link demo_w1 rtt_default sample_w0 [demo_data (2 ^ 32 - 1)] [] []
    (2 ^ 32 - 1) (2 ^ 32) (2 ^ 32 - 1))).
  - apply (link_next _ _ _ (mk_link demo_w0 rtt_default sample_w0 [] [] []
      (2 ^ 32 - 1) (2 ^ 32 - 1) (2 ^ 32 - 1))).
    + apply (link_init _ _ _ send_window_zero recv_window_zero 4 4); vm_compute; reflexivity.
    + assert (E : rel4u_send_window_push demo_w0 (fst (sample_content (2 ^ 32 - 1))) (snd (sample_content (2 ^ 32 - 1)))
        (Z.of_nat (length (snd (sample_content (2 ^ 32 - 1))))) 0 = (0, demo_w1, Some (2 ^ 32 - 1)))
        by (vm_compute; reflexivity).
      link_by (step_send sample_content 7 demo_w0 rtt_default sample_w0 [] [] [] (2 ^ 32 - 1) (2 ^ 32 - 1)
        (2 ^ 32 - 1) 0 demo_w1 (2 ^ 32 - 1) ltac:(word_unfold; lia) E).
  - assert (E : rel4u_send_window_push demo_w1 (fst (sample_content (2 ^ 32))) (snd (sample_content (2 ^ 32)))
      (Z.of_nat (length (snd (sample_content (2 ^ 32))))) 0 = (0, demo_w2, Some 0))
      by (vm_compute; reflexivity).
    link_by (step_send sample_content 7 demo_w1 rtt_default sample_w0 [demo_data (2 ^ 32 - 1)] [] []
      (2 ^ 32 - 1) (2 ^ 32) (2 ^ 32 - 1) 0 demo_w2 0 ltac:(word_unfold; lia) E).
Qed.

Definition demo_net : list data_packet := [demo_data (2 ^ 32); demo_data (2 ^ 32 - 1)].
Definition demo_rv1 : rel4u_recv_window := Eval vm_compute in snd (fst (fst demo_r1)).
Lemma demo_r1_eq : demo_receive sample_w0 (2 ^ 32) = (0, demo_rv1, snd (fst demo_r1), 0).
Proof. vm_compute. reflexivity. Qed.
Lemma demo_r2_eq : demo_receive demo_rv1 (2 ^ 32 - 1) = (0, demo_rv, snd (fst demo_r2), 2).
Proof. vm_compute. reflexivity. Qed.

Lemma demo_received : link_reach sample_content 7 (2 ^ 32 - 1)
  (mk_link demo_w2 rtt_default demo_rv demo_net []
     [(2 ^ 32 - 1, 2, [255]); (0, 3, [0])] (2 ^ 32 - 1) (2 ^ 32 + 1) (2 ^ 32 + 1)).
Proof.
  apply (link_next _ _ _ (mk_link demo_w2 rtt_default demo_rv1 demo_net [] [] (2 ^ 32 - 1) (2 ^ 32 + 1) (2 ^ 32 - 1))).
  - apply (link_next _ _ _ _ _ demo_sent).
    link_by (step_receive sample_content 7 demo_w2 rtt_default sample_w0 demo_net [] [] (2 ^ 32 - 1) (2 ^ 32 + 1)
      (2 ^ 32 - 1) (demo_data (2 ^ 32)) sample_scratch 2 0 0 demo_rv1 (snd (fst demo_r1)) 0
      ltac:(left) ltac:(unfold near; cbn; lia) ltac:(cbn; lia) demo_r1_eq).
  - link_by (step_receive sample_content 7 demo_w2 rtt_default demo_rv1 demo_net [] [] (2 ^ 32 - 1) (2 ^ 32 + 1)
      (2 ^ 32 - 1) (demo_data (2 ^ 32 - 1)) sample_scratch 2 0 0 demo_rv (snd (fst demo_r2)) 2
      ltac:(right; left) ltac:(unfold near; cbn; lia) ltac:(cbn; lia) demo_r2_eq).
Qed.

Lemma demo_reach : link_reach sample_content 7 (2 ^ 32 - 1) demo_final.
Proof.
  apply (link_next _ _ _ (mk_link demo_w2 rtt_default demo_rv demo_net [demo_ack]
    [(2 ^ 32 - 1, 2, [255]); (0, 3, [0])] (2 ^ 32 - 1) (2 ^ 32 + 1) (2 ^ 32 + 1))).
  - apply (link_next _ _ _ _ _ demo_received).
    link_by (step_acknowledge sample_content 7 demo_w2 rtt_default demo_rv demo_net []
      [(2 ^ 32 - 1, 2, [255]); (0, 3, [0])] (2 ^ 32 - 1) (2 ^ 32 + 1) (2 ^ 32 + 1)).
  - assert (E : rel4u_send_window_on_ack demo_w2 (ap_ack demo_ack) (ap_sack demo_ack) 0 (Some rtt_default) None
      = (fst (fst demo_acked), Some demo_rtt, None)) by (vm_compute; reflexivity).
    link_by (step_ack_arrives sample_content 7 demo_w2 rtt_default demo_rv demo_net [demo_ack]
      [(2 ^ 32 - 1, 2, [255]); (0, 3, [0])] (2 ^ 32 - 1) (2 ^ 32 + 1) (2 ^ 32 + 1) demo_ack 0
      (fst (fst demo_acked)) demo_rtt None ltac:(left) ltac:(unfold near; cbn; lia) E).
Qed.

Lemma link_safety_witness : exists dl, lk_delivered demo_final = pkt sample_content <$> dl /\ NoDup dl.
Proof.
  destruct (link_safety sample_content 7 (2 ^ 32 - 1) sample_content_ok _ demo_reach) as (dl & E & Hn & _).
  exists dl. split; [exact E|exact Hn].
Defined.

Lemma link_acked_arrived_witness : lk_head demo_final <= lk_expected demo_final.
Proof. exact (proj1 (link_acked_arrived sample_content 7 (2 ^ 32 - 1) sample_content_ok _ demo_reach)). Defined.

Lemma link_no_loss_witness : exists dl, lk_delivered demo_final = pkt sample_content <$> dl /\
  dl ≡ₚ [2 ^ 32 - 1; 2 ^ 32].
Proof.
  destruct (link_no_loss sample_content 7 (2 ^ 32 - 1) sample_content_ok _ demo_reach eq_refl
    ltac:(intros [_ Hr]; discriminate Hr)) as (dl & E & _ & _ & Hp).
  exists dl. split; [exact E|exact Hp].
Defined.
