(* ===== verification/Recover.v ===== *)
(** * Recovery from loss

    The liveness side of [Link]: whatever has been sent and lost, retransmission
    completes the delivery.  From every reachable pair of windows, with nothing
    left in the network, a run without new messages empties the send window; by
    then every message has been delivered. *)
From S2P Require Import Prelude Ring Types Seq Packet Rtt Mpmc SendWindow SendSpec Send RecvWindow RecvSpec Recv Link.
From stdpp Require Import base numbers list relations.
Open Scope Z_scope.
Open Scope rel4u_scope.

(** Everything in transit is lost. *)
Definition all_lost (s : link) : link :=
  mk_link (lk_send s) (lk_rtt s) (lk_recv s) [] [] (lk_delivered s) (lk_head s) (lk_next s) (lk_expected s).

Section recover.
Context (content : Z -> Z * list Z) (session_id p0 : Z).
Hypothesis content_ok : forall q, mode_reliable (fst (content q)) = true /\
  Z.of_nat (length (snd (content q))) <= REL4U_MAX_PAYLOAD_SIZE.

#[local] Abbreviation inv := (link_inv content p0).
#[local] Abbreviation runs := (rtc (link_step content session_id)).
Ltac link_fields := cbn [lk_send lk_rtt lk_recv lk_data lk_acks lk_delivered lk_head lk_next lk_expected] in *.

Lemma lost_inv s es dl : inv s es dl -> inv (all_lost s) es dl.
Proof. intros []. constructor; unfold all_lost; link_fields; try done; by intros ? ?%elem_of_nil. Qed.

(** The receiver has moved on in a run that leaves the sender's window where it is. *)
Definition advances (s : link) (es : list rel4u_send_slot) : Prop :=
  exists s' dl', runs s s' /\ inv s' es dl' /\ lk_head s' = lk_head s /\ lk_next s' = lk_next s /\
    lk_expected s < lk_expected s'.

(** The caller drains a window that has the next message. *)
Lemma drain_advances s es dl : inv s es dl -> held (lk_recv s) (lk_expected s) (lk_expected s) -> advances s es.
Proof.
  intros I Hh. destruct (rel4u_recv_window_pop_ready (lk_recv s) [recv_slot_zero] 1 0) as [[[r rv'] out'] rc] eqn:E.
  destruct (hist_pop content p0 _ _ _ [recv_slot_zero] 1 0 _ _ _ _ (li_recv _ _ _ _ _ I) ltac:(cbn; lia) E) as (ds & _ & _ & Hp & Ha & _ & Hd & _ & _ & Hrc).
  destruct (inv_drain content p0 s es dl [recv_slot_zero] 1 0 r rv' out' rc I ltac:(cbn; lia) E) as (dl' & I').
  eexists _, dl'. split; [|split; [exact I'|]]; link_fields.
  - destruct s. apply rtc_once. eapply step_drain; [|exact E]. cbn. lia.
  - split; [done|]. split; [done|]. destruct Hd as [->|Hno]; [apply Hrc; lia|]. destruct (proj2 (Ha (lk_expected s)) (or_intror Hh)) as [Hlt|Hx]; [done|].
    pose proof (proj1 Hx). set (p' := lk_expected s + _) in *. replace (lk_expected s) with p' in Hx by lia. by destruct Hno.
Qed.

(** The packet of the expected position arrives. *)
Lemma packet_advances s es dl d : inv s es dl -> d ∈ lk_data s -> dp_pos d = lk_expected s -> advances s es.
Proof.
  intros I Hd Hpos. set (out := [recv_slot_zero]).
  destruct (rel4u_recv_window_on_packet (lk_recv s) (dp_header d) (Some (dp_payload d)) out 1 0) as [[[r rv'] out'] rc] eqn:E.
  assert (Hn : near (dp_pos d) (lk_expected s)) by (rewrite Hpos; unfold near; lia).
  destruct (inv_receive content p0 s es dl d out 1 0 r rv' out' rc I Hd Hn ltac:(cbn; lia) E) as (dl' & I').
  destruct (li_data _ _ _ _ _ I d Hd) as [_ C].
  destruct (hist_packet content p0 _ _ _ _ _ _ out 1 0 _ _ _ _ (li_recv _ _ _ _ _ I) C Hn ltac:(cbn; lia) E) as (ds & _ & _ & Hp & Ha & _).
  pose proof (rr_cap _ _ _ (rh_rep _ _ _ _ _ (li_recv _ _ _ _ _ I))) as [Hc _].
  assert (St : link_step content session_id s (mk_link (lk_send s) (lk_rtt s) rv' (lk_data s) (lk_acks s)
    (lk_delivered s ++ (slot_view <$> take (Z.to_nat rc) out')) (lk_head s) (lk_next s)
    (lk_expected s + u32 (rw_expected_seq rv' - rw_expected_seq (lk_recv s))))).
  { destruct s. link_fields. eapply step_receive; [exact Hd|exact Hn| |exact E]. cbn. lia. }
  destruct (proj2 (Ha (lk_expected s)) ltac:(right; lia)) as [Hlt|Hx].
  - eexists _, dl'. split; [by apply rtc_once|]. split; [exact I'|]. by link_fields.
  - pose proof (proj1 Hx). set (p' := lk_expected s + _) in *. replace (lk_expected s) with p' in Hx by lia.
    destruct (drain_advances _ _ _ I' Hx) as (s' & dl2 & Hr & I2 & Eh & En & He). link_fields.
    exists s', dl2. split; [by eapply rtc_l|]. split; [done|]. split; [done|]. split; [done|]. lia.
Qed.

(** A window has one list of entries. *)
Lemma send_rep_unique w h es es' : send_rep w h es -> send_rep w h es' -> es = es'.
Proof.
  intros R R'. pose proof (sr_cap _ _ _ R) as [Hc _]. pose proof (sr_fits _ _ _ R). pose proof (sr_fits _ _ _ R').
  assert (El : length es = length es').
  { pose proof (sr_next _ _ _ R) as E. rewrite (sr_next _ _ _ R') in E.
    assert (Ed : u32 (u32 (h + Z.of_nat (length es')) - u32 (h + Z.of_nat (length es))) = 0) by (by rewrite E, Z.sub_diag).
    autorewrite with rel4u in Ed. word_lia. }
  rewrite (sr_view _ _ _ R), (sr_view _ _ _ R'). by rewrite El.
Qed.

(** The clock can still pass the timeout of the entry, which is below [2^31]
    milliseconds. *)
Definition time_left (e : rel4u_send_slot) : Prop := ss_last_sent_time_ns e + 2 ^ 31 * 1000000 < 2 ^ 64.

(** The head of the window is sent again once its timeout has passed. *)
Lemma retransmit_head s e es dl : inv s (e :: es) dl -> ss_acked e = false -> time_left e ->
  exists s' e', link_step content session_id s s' /\ inv s' (e' :: es) dl /\ lk_head s' = lk_head s /\ lk_next s' = lk_next s /\
    lk_expected s' = lk_expected s /\ exists d, d ∈ lk_data s' /\ dp_pos d = lk_head s.
Proof.
  intros I Ha Ht. pose proof (li_send _ _ _ _ _ I) as R. pose proof (sr_entries _ _ _ R 0 e eq_refl) as O. rewrite Z.add_0_r in O.
  set (rto := rel4u_rtt_get_rto (Some (lk_rtt s))).
  assert (Hr : 0 <= rto < 2 ^ 31) by (destruct (li_rtt _ _ _ _ _ I); unfold rto; cbn; lia).
  assert (exists now, is_u64 now /\ expired now rto e = true) as (now & Hn & Hexp).
  { exists (ss_last_sent_time_ns e + rto * 1000000). pose proof (eo_last _ _ O) as Hl. unfold time_left in Ht. unfold expired.
    rewrite Ha. clearbody rto. word_unfold. split; [lia|]. apply andb_true_iff. split; [done|]. by apply Z.leb_le. }
  assert (Eg : rel4u_send_window_get_expired (lk_send s) now rto (Z.of_nat 1) = [(lk_head s + 0) mod sw_capacity (lk_send s)]).
  { rewrite (get_expired_spec _ _ _ now rto 1 R Hn) by (word_unfold; lia). cbn [expired_from]. by rewrite Hexp. }
  destruct (retransmit_all (lk_send s) now (rel4u_send_window_get_expired (lk_send s) now rto (Z.of_nat 1))) as [w' sent] eqn:E.
  destruct (inv_retransmit content session_id p0 content_ok s (e :: es) dl now 1 w' sent I Hn E) as (es' & I').
  pose proof (retransmit_rep _ _ _ 0 e now R ltac:(lia) eq_refl Hn) as R1. cbn -[Z.modulo] in R1.
  assert (Es : w' = send_slot_retransmit (lk_send s) ((lk_head s + 0) mod sw_capacity (lk_send s)) now /\
    sent = [sw_slots w' !. ((lk_head s + 0) mod sw_capacity (lk_send s))]).
  { rewrite Eg in E. unfold retransmit_all, resend in E. cbn [foldl fst snd app] in E. by injection E as <- <-. }
  destruct Es as [Ew ->]. rewrite <- Ew in R1. rewrite (send_rep_unique _ _ _ _ (li_send _ _ _ _ _ I') R1) in I'.
  eexists _, _. split; [|split; [exact I'|]]; link_fields.
  - destruct s. link_fields. eapply step_retransmit; [exact Hn|exact E].
  - do 3 (split; [done|]). eexists. split; [by left|].
    pose proof (send_slot_get _ _ _ 0 _ R1 ltac:(lia) eq_refl) as G. rewrite send_slot_idx_mod in G by apply R1.
    replace (sw_capacity w') with (sw_capacity (lk_send s)) in G by (by rewrite Ew). unfold slot_packet. rewrite G. cbn.
    rewrite (eo_seq _ _ O), (sr_head _ _ _ R), Z.sub_diag. change (u32 0) with 0. lia.
Qed.

(** The receiver gets past the head of the send window. *)
Lemma head_arrives s es dl : inv s es dl -> lk_head s < lk_next s -> Forall time_left es ->
  exists s' es' dl', runs s s' /\ inv s' es' dl' /\ lk_head s' = lk_head s /\ lk_next s' = lk_next s /\
    lk_head s' < lk_expected s' /\ Forall time_left (drop 1 es').
Proof.
  intros I Hlt Ht. pose proof (li_behind _ _ _ _ _ I). destruct (decide (lk_head s < lk_expected s)) as [|He].
  { exists s, es, dl. split_and!; try done. by apply Forall_drop. }
  assert (Ee : lk_expected s = lk_head s) by lia.
  destruct (decide (held (lk_recv s) (lk_expected s) (lk_expected s))) as [Hh|Hh].
  { destruct (drain_advances s es dl I Hh) as (s' & dl' & ? & ? & ? & ? & ?).
    exists s', es, dl'. split_and!; try done; [lia|by apply Forall_drop]. }
  pose proof (li_next _ _ _ _ _ I). destruct es as [|e es]; [cbn in *; lia|].
  assert (Ha : ss_acked e = false).
  { destruct (ss_acked e) eqn:Ha; [exfalso|done]. destruct (li_acked _ _ _ _ _ I 0 e eq_refl Ha) as [?|Hx]; [lia|].
    rewrite Z.add_0_r, <- Ee in Hx. done. }
  apply Forall_cons in Ht as [Hte Ht].
  destruct (retransmit_head s e es dl I Ha Hte) as (s1 & e1 & St & I1 & Eh & En & Ex & d & Hd & Hp).
  destruct (packet_advances s1 (e1 :: es) dl d I1 Hd ltac:(congruence)) as (s2 & dl2 & Hr & I2 & Eh2 & En2 & Hx).
  exists s2, (e1 :: es), dl2. split_and!; [by eapply rtc_l|done|congruence|congruence|lia|done].
Qed.

(** An acknowledgement of what has arrived moves the head there. *)
Lemma ack_advances s es dl : inv s es dl -> lk_head s < lk_expected s -> Forall time_left (drop 1 es) ->
  exists s' es', runs s s' /\ inv s' es' dl /\ lk_head s < lk_head s' /\ lk_next s' = lk_next s /\ Forall time_left es'.
Proof.
  intros I Hlt Ht. pose proof (inv_acknowledge content p0 s es dl I) as I1. pose proof (li_send _ _ _ _ _ I) as R.
  assert (St : link_step content session_id s (mk_link (lk_send s) (lk_rtt s) (lk_recv s) (lk_data s)
    (mk_ack (lk_expected s) (fst (rel4u_recv_window_get_ack_info (lk_recv s)))
       (snd (rel4u_recv_window_get_ack_info (lk_recv s))) :: lk_acks s)
    (lk_delivered s) (lk_head s) (lk_next s) (lk_expected s))) by (destruct s; apply step_acknowledge).
  set (a := mk_ack _ _ _) in *. pose proof (sr_cap _ _ _ R) as [Hc _]. pose proof (sr_fits _ _ _ R) as Hf.
  pose proof (li_ahead _ _ _ _ _ I). pose proof (li_next _ _ _ _ _ I).
  assert (Hn : near (lk_head s) (ap_pos a - 1)) by (unfold near, a; cbn; lia).
  assert (Ea : ap_ack a = u32 (lk_head s + (lk_expected s - lk_head s) - 1)).
  { destruct (li_acks _ _ _ _ _ I1 a ltac:(by left)) as (-> & _). unfold a. cbn. f_equal. lia. }
  pose proof (on_ack_rep (lk_send s) (lk_head s) es (lk_expected s - lk_head s) (ap_sack a) 0 (Some (lk_rtt s)) None R ltac:(lia)) as P.
  destruct (sampled_rtt_ok 0 (acked_news (lk_expected s - lk_head s) (ap_sack a) es) (lk_rtt s) None (li_rtt _ _ _ _ _ I)) as (r' & st' & Er & _).
  rewrite Er, <- Ea in P. destruct (rel4u_send_window_on_ack _ _ _ _ _ _) as [[w' rtt'] stats'] eqn:E.
  destruct P as (R' & _ & [= -> ->]).
  destruct (inv_ack_arrives content p0 _ es dl a 0 None w' r' st' I1 ltac:(by left) Hn E) as (es' & I'). link_fields.
  assert (Eh : lk_head s + u32 (sw_head_seq w' - sw_head_seq (lk_send s)) =
    lk_head s + Z.of_nat (acked_upto (lk_expected s - lk_head s) es)).
  { rewrite (sr_head _ _ _ R), (sr_head _ _ _ R'). autorewrite with rel4u. unfold acked_upto. rewrite u32_small; [lia|word_unfold; lia]. }
  rewrite Eh in I'. rewrite (send_rep_unique _ _ _ _ (li_send _ _ _ _ _ I') R') in I'.
  eexists _, _. split; [|split; [exact I'|]]; link_fields.
  - eapply rtc_l; [exact St|]. apply rtc_once. rewrite <- Eh. eapply step_ack_arrives; [|exact Hn|exact E]. by left.
  - split; [unfold acked_upto; lia|]. split; [done|]. apply Forall_lookup. intros i e' He'.
    apply acked_entries_lookup in He' as (e & He & Hor). rewrite Forall_lookup in Ht.
    assert (time_left e) by (apply (Ht (acked_upto (lk_expected s - lk_head s) es + i - 1)%nat); rewrite lookup_drop, <- He; f_equal; unfold acked_upto; lia).
    by destruct Hor as [->|[-> _]].
Qed.

(** A message of the window at a time. *)
Lemma window_empties n : forall s es dl, inv s es dl -> Forall time_left es -> lk_next s - lk_head s <= Z.of_nat n ->
  exists s' dl', runs s s' /\ inv s' [] dl' /\ lk_next s' = lk_next s.
Proof.
  induction n as [|n IH]; intros s es dl I Ht Hn; pose proof (li_next _ _ _ _ _ I).
  { destruct es as [|e es]; [|cbn in *; lia]. by exists s, dl. }
  destruct (decide (lk_head s < lk_next s)) as [Hlt|Hge].
  2: { destruct es as [|e es]; [|cbn in *; lia]. by exists s, dl. }
  destruct (head_arrives s es dl I Hlt Ht) as (s1 & es1 & dl1 & Hr1 & I1 & Eh & En & Hx & Ht1).
  destruct (ack_advances s1 es1 dl1 I1 Hx Ht1) as (s2 & es2 & Hr2 & I2 & Hh2 & En2 & Ht2).
  destruct (IH s2 es2 dl1 I2 Ht2 ltac:(lia)) as (s3 & dl3 & Hr3 & I3 & En3).
  exists s3, dl3. split; [|split; [done|congruence]]. by repeat (etransitivity; [eassumption|]).
Qed.

Lemma entries_time w h es : send_rep w h es -> Forall time_left (sw_slots w) -> Forall time_left es.
Proof.
  intros R Hf. apply Forall_lookup. intros i e He. pose proof (send_slot_get w h es (Z.of_nat i) e R ltac:(lia) ltac:(by rewrite Nat2Z.id)) as <-.
  unfold arr_get. destruct (sw_slots w !! Z.to_nat (send_slot_idx w (u32 (h + Z.of_nat i)))) as [x|] eqn:E.
  - rewrite (list_lookup_total_correct _ _ _ E). by eapply Forall_lookup_1.
  - by rewrite list_lookup_total_alt, E.
Qed.

(** C7. Recovery: from every reachable state, with every packet and every
    acknowledgement in transit lost, the connection can go on without a new
    message until nothing is in flight; then every message ever sent has been
    delivered, each exactly once and the ordered ones in the order of sending.
    Timeouts, resent packets and acknowledgements are enough, as long as the
    64-bit clock is not within a timeout of its end. *)
Theorem link_recovers s : link_reach content session_id p0 s -> Forall time_left (sw_slots (lk_send s)) ->
  exists s' dl, rtc (link_step content session_id) (all_lost s) s' /\ lk_next s' = lk_next s /\
    sw_in_flight (lk_send s') = 0 /\ lk_delivered s' = pkt content <$> dl /\
    filter (ordered content) dl = filter (ordered content) (seqZ p0 (lk_next s - p0)) /\
    dl ≡ₚ seqZ p0 (lk_next s - p0).
Proof.
  intros (es & dl & I)%link_reach_inv Ht; [|done].
  destruct (window_empties (length es) _ _ _ (lost_inv _ _ _ I) (entries_time _ _ _ (li_send _ _ _ _ _ I) Ht)) as (s' & dl' & Hr & I' & En).
  { pose proof (li_next _ _ _ _ _ I). cbn. lia. }
  exists s', dl'. cbn [all_lost lk_next] in En. rewrite <- En. split; [done|]. split; [done|].
  assert (Hfl : sw_in_flight (lk_send s') = 0) by (by rewrite (sr_flight _ _ _ (li_send _ _ _ _ _ I'))).
  split; [done|]. split; [apply I'|]. apply (inv_no_loss content p0 s' [] dl' I' Hfl). intros Hh.
  pose proof (li_behind _ _ _ _ _ I'). pose proof (li_next _ _ _ _ _ I'). cbn in *.
  pose proof (li_arrived _ _ _ _ _ I' (lk_expected s') ltac:(lia) (or_intror Hh)). lia.
Qed.
End recover.

(** ** Witness *)

(** Both messages of [Link]'s run are sent and lost. *)
Lemma link_recovers_witness : exists s' dl, sw_in_flight (lk_send s') = 0 /\ lk_delivered s' = pkt sample_content <$> dl /\
  dl ≡ₚ [2 ^ 32 - 1; 2 ^ 32].
Proof.
  destruct (link_recovers sample_content 7 (2 ^ 32 - 1) sample_content_ok _ demo_sent
    ltac:(repeat (apply Forall_cons_2; [vm_compute; reflexivity|]); apply Forall_nil_2)) as (s' & dl & _ & _ & Hf & Hd & _ & Hp).
  exists s', dl. exact (conj Hf (conj Hd Hp)).
Defined.
