(* ===== verification/RecvSafe.v ===== *)
(** * Receive window: safety against any packet

    [Recv] is about the packets of one honest stream.  Here the headers are
    arbitrary, as far as the decoder lets them through: the window stays well
    formed, every index is in range and every length it hands out fits the
    arrays it is copied to. *)
From S2P Require Import Prelude Ring Types Seq Packet RecvWindow RecvSpec.
From stdpp Require Import base numbers list.
Open Scope Z_scope.
Open Scope rel4u_scope.

(** The payload has the announced length. *)
Definition slot_full (s : rel4u_recv_slot) : Prop := rs_payload_len s <= Z.of_nat (length (rs_payload s)).

(** A slot whose length fits the payload arrays of slots and queue items, and
    which has its payload if it waits for its turn (the payload of an unordered
    message is not kept). *)
Definition slot_bound (s : rel4u_recv_slot) : Prop :=
  0 <= rs_payload_len s <= REL4U_MAX_PAYLOAD_SIZE /\ is_u8 (rs_delivery_mode s) /\
  (rs_received s = true -> rs_delivery_mode s = REL4U_MODE_RELIABLE_ORDERED -> slot_full s).

Record recv_safe (w : rel4u_recv_window) : Prop := {
  rv_cap : cap_ok (rw_capacity w);
  rv_len : Z.of_nat (length (rw_slots w)) = rw_capacity w;
  rv_exp : is_u32 (rw_expected_seq w);
  rv_bound : Forall slot_bound (rw_slots w)
}.

(** A header the decoder accepts, and the bytes after it. *)
Definition header_bound (hdr : rel4u_header) (payload : list Z) : Prop :=
  h_payload_len hdr <= Z.of_nat (length payload) /\ 0 <= h_payload_len hdr <= REL4U_MAX_PAYLOAD_SIZE /\ is_u8 (h_delivery_mode hdr) /\ is_u32 (h_seq_num hdr).

Lemma slot_zero_bound : slot_bound recv_slot_zero.
Proof. unfold slot_bound, REL4U_MAX_PAYLOAD_SIZE. cbn. word_unfold. lia. Qed.

Lemma get_bound l i : Forall slot_bound l -> slot_bound (l !. i).
Proof.
  intros H. unfold arr_get. rewrite list_lookup_total_alt. destruct (l !! _) as [s|] eqn:E; cbn.
  - rewrite Forall_lookup in H. by apply (H _ _ E).
  - apply slot_zero_bound.
Qed.

Lemma set_bound l i s : Forall slot_bound l -> slot_bound s -> Forall slot_bound (arr_set l i s).
Proof. intros. by apply Forall_insert. Qed.

Lemma clear_bound s : slot_bound s -> slot_bound (s <| rs_received := false |>).
Proof. intros (? & ? & _). by split; [|split]. Qed.

Lemma slots_safe w s i : recv_safe w -> slot_bound s ->
  recv_safe (w <| rw_slots := arr_set (rw_slots w) i s |>).
Proof.
  intros [] Hs. constructor; cbn; try done; [|by apply set_bound].
  unfold arr_set. by rewrite length_insert.
Qed.

Lemma expected_safe w z : recv_safe w -> recv_safe (w <| rw_expected_seq := u32 z |>).
Proof. intros []. constructor; try done. apply u32_range. Qed.

(** Initialisation and reset give a safe window. *)
Lemma fresh_safe c s hi has : cap_ok c -> is_u32 s ->
  recv_safe (mk_recv_window (replicate (Z.to_nat c) recv_slot_zero) c s hi has).
Proof.
  intros Hc Hs. constructor; try done; cbn [rw_slots rw_capacity].
  - rewrite length_replicate. destruct Hc. lia.
  - apply Forall_replicate, slot_zero_bound.
Qed.

Lemma recv_init_safe w c s : cap_ok c -> is_u32 s ->
  fst (rel4u_recv_window_init w c s true) = 0 /\ recv_safe (snd (rel4u_recv_window_init w c s true)).
Proof.
  intros Hc Hs. unfold rel4u_recv_window_init. destruct Hc as [Hr Hp] eqn:E. rewrite Hp.
  destruct (Z.ltb_spec c 2); [lia|]. split; [done|]. by apply fresh_safe.
Qed.

Lemma recv_reset_safe w s : recv_safe w -> is_u32 s ->
  fst (rel4u_recv_window_reset w s) = 0 /\ recv_safe (snd (rel4u_recv_window_reset w s)).
Proof.
  intros [Hc Hl He Hb] Hs. pose proof Hc as [? _]. unfold rel4u_recv_window_reset.
  rewrite (proj2 (Nat.eqb_neq _ _)), (proj2 (Z.eqb_neq _ _)) by lia. split; [done|]. by apply fresh_safe.
Qed.

(** What the caller gets: an array of the same size with bounded slots, of which
    at most [max] are used; the used ones have their payload. *)
Record ready_ok (max : Z) (n : nat) (out : list rel4u_recv_slot) (rc : Z) : Prop := {
  ry_length : length out = n;
  ry_bound : Forall slot_bound out;
  ry_count : 0 <= rc <= max;
  ry_full : Forall slot_full (take (Z.to_nat rc) out)
}.

Lemma ready_none max n out rc : ready_ok max n out rc -> 0 <= max -> ready_ok max n out 0.
Proof. intros [] ?. constructor; [done|done|lia|constructor]. Qed.

(** Writing one more message. *)
Lemma ready_push max n out rc s : ready_ok max n out rc -> rc < max -> max <= Z.of_nat n ->
  slot_bound s -> slot_full s -> ready_ok max n (arr_set out rc s) (rc + 1).
Proof.
  intros [Hl Hb Hc Hf] Hlt Hn Hs Hfs. constructor.
  - unfold arr_set. by rewrite length_insert.
  - by apply set_bound.
  - lia.
  - rewrite out_snoc by lia. apply Forall_app. by split; [|constructor].
Qed.

Lemma pop_ready_loop_safe max n fuel : max <= Z.of_nat n ->
  forall w out rc, recv_safe w -> ready_ok max n out rc ->
  let '(w', out', rc') := pop_ready_loop fuel w out max rc in
  recv_safe w' /\ rw_capacity w' = rw_capacity w /\ ready_ok max n out' rc'.
Proof.
  intros Hn. induction fuel as [|fuel IH]; intros w out rc S Ho; cbn [pop_ready_loop]; [done|].
  destruct (Z.ltb_spec rc max); [|done]. destruct (_ && _) eqn:Et; [|done].
  set (s := rw_slots w !. _) in *. assert (Hs : slot_bound s) by apply get_bound, S.
  set (w1 := _ <| rw_expected_seq := _ |>).
  assert (S1 : recv_safe w1) by (apply expected_safe, slots_safe; [done|by apply clear_bound]).
  assert (E1 : rw_capacity w1 = rw_capacity w) by done. clearbody w1.
  apply andb_true_iff in Et as [Er _]. destruct (Z.eqb_spec (rs_delivery_mode s) REL4U_MODE_RELIABLE_ORDERED) as [Em|].
  - specialize (IH w1 (arr_set out rc s) (rc + 1) S1 ltac:(apply ready_push; [done|done|done|done|by apply Hs])).
    destruct (pop_ready_loop _ _ _ _ _) as [[w' out'] rc']. by rewrite E1 in IH.
  - specialize (IH w1 out rc S1 Ho).
    destruct (pop_ready_loop _ _ _ _ _) as [[w' out'] rc']. by rewrite E1 in IH.
Qed.

Lemma advance_loop_safe max n fuel : max <= Z.of_nat n ->
  forall w out rc, recv_safe w -> ready_ok max n out rc ->
  let '(w', out', rc') := advance_loop fuel w out max rc in
  recv_safe w' /\ rw_capacity w' = rw_capacity w /\ ready_ok max n out' rc'.
Proof.
  intros Hn. induction fuel as [|fuel IH]; intros w out rc S Ho; cbn [advance_loop]; [done|].
  destruct (_ && _) eqn:Et; [|done]. set (s := rw_slots w !. _) in *.
  assert (Hs : slot_bound s) by apply get_bound, S.
  set (w1 := _ <| rw_expected_seq := _ |>).
  assert (S1 : recv_safe w1) by (apply expected_safe, slots_safe; [done|by apply clear_bound]).
  assert (E1 : rw_capacity w1 = rw_capacity w) by done. clearbody w1.
  apply andb_true_iff in Et as [Er _]. destruct (_ =? _).
  - specialize (IH w1 out rc S1 Ho).
    destruct (advance_loop _ _ _ _ _) as [[w' out'] rc']. by rewrite E1 in IH.
  - destruct (Z.eqb_spec (rs_delivery_mode s) REL4U_MODE_RELIABLE_ORDERED) as [Em|]; [|done].
    destruct (Z.ltb_spec rc max); [|done].
    specialize (IH w1 (arr_set out rc s) (rc + 1) S1 ltac:(apply ready_push; [done|done|done|done|by apply Hs])).
    destruct (advance_loop _ _ _ _ _) as [[w' out'] rc']. by rewrite E1 in IH.
Qed.

Lemma pop_ready_safe w max n out rc rc0 : recv_safe w -> ready_ok max n out rc -> 0 < max <= Z.of_nat n ->
  let '(r, w', out', rc') := rel4u_recv_window_pop_ready w out max rc0 in
  r = 0 /\ recv_safe w' /\ rw_capacity w' = rw_capacity w /\ ready_ok max n out' rc'.
Proof.
  intros S Ho Hmax. unfold rel4u_recv_window_pop_ready. rewrite (proj2 (Z.eqb_neq max 0)) by lia.
  pose proof (pop_ready_loop_safe max n (length (rw_slots w)) ltac:(lia) w out 0 S
    ltac:(apply (ready_none _ _ _ rc); [done|lia])) as H.
  by destruct (pop_ready_loop _ _ _ _ _) as [[w' out'] rc'].
Qed.

Lemma fill_full s hdr payload mode : header_bound hdr payload ->
  slot_full (fill_slot s hdr mode (Some payload)).
Proof.
  intros (Hl & Hb & _). unfold slot_full, fill_slot, copy_payload. cbn [rs_payload_len rs_payload].
  destruct (Z.gtb_spec (h_payload_len hdr) 0); [|lia].
  unfold memcpy. rewrite length_app, length_take. lia.
Qed.

Lemma fill_bound s hdr payload : header_bound hdr payload ->
  slot_bound (fill_slot s hdr (h_delivery_mode hdr) (Some payload)).
Proof.
  intros H. pose proof H as (_ & Hl & _). split; [done|]. split; [apply u8_range|]. intros _ _.
  by apply fill_full.
Qed.

Lemma on_packet_safe w hdr payload max n out rc rc0 :
  recv_safe w -> header_bound hdr payload -> ready_ok max n out rc -> 0 < max <= Z.of_nat n ->
  let '(r, w', out', rc') := rel4u_recv_window_on_packet w hdr (Some payload) out max rc0 in
  recv_safe w' /\ rw_capacity w' = rw_capacity w /\ ready_ok max n out' rc'.
Proof.
  intros S Hh Ho0 Hmax. pose proof (ready_none _ _ _ _ Ho0 ltac:(lia)) as Ho. clear Ho0.
  pose proof Hh as (_ & Hl & _). unfold rel4u_recv_window_on_packet.
  rewrite (proj2 (Z.eqb_neq max 0)) by lia. cbv zeta.
  set (first := arr_set out 0 _).
  assert (Hf : ready_ok max n first (0 + 1)).
  { apply ready_push; [done|lia|lia|by apply fill_bound|by apply fill_full]. }
  change (0 + 1) with 1 in Hf. clearbody first.
  destruct (_ =? _); [done|]. destruct (_ =? _).
  { destruct (_ || _); [|done]. split; [|done]. destruct S. by constructor. }
  destruct (Z.eqb_spec (h_delivery_mode hdr) REL4U_MODE_RELIABLE_UNORDERED) as [Eu|_].
  - destruct (rel4u_seq_lt _ _); [done|]. destruct (_ >=? _); [done|]. destruct (_ && _); [done|].
    set (s := mk_recv_slot _ _ _ _ _). set (w1 := w <| rw_slots := _ |>).
    assert (Hs : slot_bound s).
    { split; [done|]. split; [apply u8_range|]. cbn [s rs_delivery_mode]. by rewrite Eu. }
    assert (S1 : recv_safe w1) by (by apply slots_safe).
    assert (E1 : rw_capacity w1 = rw_capacity w) by done. clearbody w1.
    pose proof (advance_loop_safe max n (length (rw_slots w1)) ltac:(lia) w1 first 1 S1 Hf) as H.
    destruct (advance_loop _ _ _ _ _) as [[w' out'] rc']. by rewrite E1 in H.
  - destruct (_ =? _); [|done].
    destruct (rel4u_seq_lt _ _); [done|]. destruct (_ >=? _); [done|]. destruct (_ && _); [done|].
    set (w1 := w <| rw_slots := _ |>).
    assert (S1 : recv_safe w1) by (apply slots_safe; [done|by apply fill_bound]).
    assert (E1 : rw_capacity w1 = rw_capacity w) by done. clearbody w1.
    pose proof (pop_ready_safe w1 max n out 0 0 S1 Ho Hmax) as H.
    destruct (rel4u_recv_window_pop_ready _ _ _ _) as [[[r w'] out'] rc']. rewrite E1 in H. tauto.
Qed.
