(* ===== verification/Net.v ===== *)
(** * Platform layer: addresses, time and polling

    The parts of [src/platform] that compute: the comparison of socket addresses
    ([rel4u_net.c]), the clock conversions ([rel4u_time.c]), the deadline of a
    timed wait ([rel4u_threads.c]) and the bookkeeping around [poll].  The system
    calls themselves are parameters. *)
From S2P Require Import Prelude.
From stdpp Require Import base numbers list strings.
Open Scope Z_scope.
Open Scope rel4u_scope.

(** ** Socket addresses *)

(** A [sockaddr_storage] by its family: the fields [rel4u_net_addr_equal] reads,
    and those it does not ([sin6_flowinfo], [sin6_scope_id]). *)
Inductive sockaddr_storage :=
  | AF_INET (sin_port s_addr : Z)
  | AF_INET6 (sin6_port sin6_flowinfo : Z) (sin6_addr : list Z) (sin6_scope_id : Z)
  | AF_OTHER (ss_family : Z).

Record rel4u_net_addr := mk_addr { na_addr : sockaddr_storage; na_len : Z }.

#[export] Instance sockaddr_storage_eq_dec : EqDecision sockaddr_storage.
Proof. solve_decision. Defined.
#[export] Instance rel4u_net_addr_eq_dec : EqDecision rel4u_net_addr.
Proof. solve_decision. Defined.

(** [memset(out_addr, 0, ...)]: family [AF_UNSPEC]. *)
Definition addr_zero : rel4u_net_addr := mk_addr (AF_OTHER 0) 0.
#[export] Instance addr_inhabited : Inhabited rel4u_net_addr := populate addr_zero.

Definition rel4u_net_addr_equal (a b : rel4u_net_addr) : bool :=
  match na_addr a, na_addr b with
  | AF_INET pa aa, AF_INET pb ab => (pa =? pb) && (aa =? ab)
  | AF_INET6 pa _ aa _, AF_INET6 pb _ ab _ => (pa =? pb) && bool_decide (aa = ab)
  | _, _ => false
  end.

(** [getaddrinfo] is a parameter: the first address it lists for a host and a
    port, if it finds one. *)
Definition rel4u_net_addr_from_string (getaddrinfo : option String.string -> Z -> option rel4u_net_addr)
    (host : option String.string) (port : Z) : Z * rel4u_net_addr :=
  match getaddrinfo host port with
  | None => (-1, addr_zero)
  | Some res => (0, res)
  end.

(** [addr.ss_family == AF_INET6], and the address bound when none is given. *)
Definition addr_is_ipv6 (a : rel4u_net_addr) : bool :=
  match na_addr a with AF_INET6 _ _ _ _ => true | _ => false end.
Definition any_address : String.string := "0.0.0.0"%string.

(** What the operating system answers while a socket, a pipe and a thread are set
    up. *)
Record system := mk_system {
  sy_getaddrinfo : option String.string -> Z -> option rel4u_net_addr;
  sy_socket : bool -> Z;
  sy_bind : Z -> rel4u_net_addr -> Z;
  sy_pipe : option (Z * Z);
  sy_thread_ok : bool
}.

(** The addresses an IP socket reports. *)
Definition ip_addr (a : rel4u_net_addr) : Prop :=
  match na_addr a with AF_OTHER _ => False | _ => True end.

(** Same peer. *)
Definition addr_eq (a b : rel4u_net_addr) : Prop := rel4u_net_addr_equal a b = true.

#[export] Instance addr_eq_sym : Symmetric addr_eq.
Proof.
  intros [[]?] [[]?]; unfold addr_eq, rel4u_net_addr_equal; cbn; try done;
    rewrite !andb_true_iff, ?bool_decide_eq_true; intuition (try lia; try congruence).
Qed.
#[export] Instance addr_eq_trans : Transitive addr_eq.
Proof.
  intros [[]?] [[]?] [[]?]; unfold addr_eq, rel4u_net_addr_equal; cbn; try done;
    rewrite !andb_true_iff, ?bool_decide_eq_true; intuition (try lia; try congruence).
Qed.
#[export] Instance addr_eq_per : RelationClasses.PER addr_eq.
Proof. split; apply _. Qed.

(** The comparison depends only on the peer an address stands for. *)
#[export] Instance addr_equal_proper : Proper (addr_eq ==> addr_eq ==> eq) rel4u_net_addr_equal.
Proof.
  intros a a' Ha b b' Hb. destruct (rel4u_net_addr_equal a b) eqn:E, (rel4u_net_addr_equal a' b') eqn:E'; try done.
  - assert (H : addr_eq a' b') by (etransitivity; [symmetry; exact Ha|etransitivity; [exact E|exact Hb]]).
    unfold addr_eq in H. congruence.
  - assert (H : addr_eq a b) by (etransitivity; [exact Ha|etransitivity; [exact E'|symmetry; exact Hb]]).
    unfold addr_eq in H. congruence.
Qed.

Lemma addr_eq_refl a : ip_addr a -> addr_eq a a.
Proof.
  destruct a as [[]?]; unfold addr_eq, rel4u_net_addr_equal; cbn; try done; intros _;
    rewrite !Z.eqb_refl; [done|]. by rewrite bool_decide_eq_true_2.
Qed.

(** ** Time *)

(** [(uint64_t)ts.tv_sec * 1000000000 + (uint64_t)ts.tv_nsec] of the monotonic clock. *)
Definition rel4u_time_now_ns (tv_sec tv_nsec : Z) : Z := u64 (u64 (u64 tv_sec * 1000000000) + u64 tv_nsec).
Definition rel4u_time_now_ms (tv_sec tv_nsec : Z) : Z := rel4u_time_now_ns tv_sec tv_nsec / 1000000.

(** The interval [nanosleep] gets: seconds and nanoseconds. *)
Definition rel4u_time_sleep_ms (ms : Z) : Z * Z := (ms / 1000, (ms mod 1000) * 1000000).

(** The absolute deadline [pthread_cond_timedwait] gets, from the wall clock. *)
Definition rel4u_cond_timedwait_ms (tv_sec tv_usec timeout_ms : Z) : Z * Z :=
  let ns := u64 (u64 (u64 tv_usec * 1000) + u64 (timeout_ms * 1000000)) in
  (tv_sec + ns / 1000000000, ns mod 1000000000).

Lemma deadline_exact sec usec ms s ns : rel4u_cond_timedwait_ms sec usec ms = (s, ns) ->
  0 <= usec < 1000000 -> is_u32 ms ->
  0 <= ns < 1000000000 /\ s * 1000000000 + ns = sec * 1000000000 + usec * 1000 + ms * 1000000.
Proof.
  intros E Hu Hm. unfold rel4u_cond_timedwait_ms in E. injection E as <- <-.
  rewrite (u64_small usec), (u64_small (usec * 1000)), (u64_small (ms * 1000000)) by (word_unfold; lia).
  rewrite u64_small by (word_unfold; lia). Z.to_euclidean_division_equations. lia.
Qed.

(** The deadline of a timed wait is exactly the current time plus the timeout, as
    a normalised [timespec], for every 32-bit timeout: the microseconds and the
    timeout are added in 64 bits, where they cannot wrap.  The sleep of
    [rel4u_time_sleep_ms] is a normalised [timespec] of exactly [ms]
    milliseconds. *)
Theorem timedwait_deadline sec usec ms :
  0 <= usec < 1000000 -> is_u32 ms ->
  let '(s, ns) := rel4u_cond_timedwait_ms sec usec ms in
  let '(ss, sns) := rel4u_time_sleep_ms ms in
  0 <= ns < 1000000000 /\ s * 1000000000 + ns = sec * 1000000000 + usec * 1000 + ms * 1000000 /\
  0 <= sns < 1000000000 /\ ss * 1000000000 + sns = ms * 1000000.
Proof.
  intros Hu Hm. unfold rel4u_time_sleep_ms. destruct (rel4u_cond_timedwait_ms sec usec ms) as [s ns] eqn:Ed.
  apply deadline_exact in Ed as [Hn Hs]; [|done|done]. do 2 (split; [done|]).
  Z.to_euclidean_division_equations. lia.
Qed.

Lemma timedwait_deadline_witness :
  rel4u_cond_timedwait_ms 100 999999 4294967295 = (4295068, 294999000).
Proof.
  pose proof (timedwait_deadline 100 999999 4294967295 ltac:(lia) ltac:(word_unfold; lia)) as H.
  destruct (rel4u_cond_timedwait_ms 100 999999 4294967295) as [s ns].
  destruct (rel4u_time_sleep_ms 4294967295) as [ss sns]. destruct H as (H1 & H2 & _).
  f_equal; lia.
Defined.

(** ** The wakeup pipe *)

Record rel4u_wakeup_pipe := mk_pipe { wp_read_fd : Z; wp_write_fd : Z }.

(** [fds]: the two descriptors [pipe] returns, if it succeeds. *)
Definition rel4u_wakeup_pipe_create (pipe_obj : rel4u_wakeup_pipe) (fds : option (Z * Z))
  : Z * rel4u_wakeup_pipe :=
  match fds with
  | Some (read_fd, write_fd) => (0, mk_pipe read_fd write_fd)
  | None => (-1, pipe_obj)
  end.

(** The result, and the descriptors that are closed, in order. *)
Definition rel4u_wakeup_pipe_close (pipe_obj : rel4u_wakeup_pipe) : rel4u_wakeup_pipe * list Z :=
  let '(pipe_obj, closed) :=
    if wp_write_fd pipe_obj =? -1 then (pipe_obj, [])
    else (mk_pipe (wp_read_fd pipe_obj) (-1), [wp_write_fd pipe_obj]) in
  if wp_read_fd pipe_obj =? -1 then (pipe_obj, closed)
  else (mk_pipe (-1) (wp_write_fd pipe_obj), closed ++ [wp_read_fd pipe_obj]).

(** ** Polling *)

Definition REL4U_INVALID_SOCKET : Z := -1.
Definition POLLIN : Z := 1.

(** [poll] of the descriptors given: its result and their [revents]. *)
Definition poll_fun := list Z -> Z * list Z.

(** The result and the two flags; a descriptor of -1 is left out of the set, so
    the pipe's entry is the first one when there is no socket. *)
Definition rel4u_net_poll (poll : poll_fun) (sock pipe_read_fd : Z) : Z * bool * bool :=
  let fds := (if sock =? REL4U_INVALID_SOCKET then [] else [sock]) ++
             (if pipe_read_fd =? -1 then [] else [pipe_read_fd]) in
  if (length fds =? 0)%nat then (0, false, false) else
  let '(ret, revents) := poll fds in
  if ret >? 0 then
    let readable idx := negb (Z.land (revents !!! idx) POLLIN =? 0) in
    let '(out_sock, idx) :=
      if sock =? REL4U_INVALID_SOCKET then (false, 0%nat) else (readable 0%nat, 1%nat) in
    let out_pipe := if pipe_read_fd =? -1 then false else readable idx in
    (ret, out_sock, out_pipe)
  else (ret, false, false).
