(* ===== verification/Kernel.v ===== *)
(** * The operating system under the platform layer

    The platform functions of [src/platform] are short sequences of system calls.
    Here is the interface they call: the calls as an inductive family indexed by
    the type of their answers, an operating system as any function that answers
    them (the class [Kernel]), and the programs that make them as functions on a
    [machine], which keeps the trace of the calls made with their answers, the
    static variables of the platform files and the thread contexts they have
    allocated.

    What a program owns can be read off its trace: [balance r] counts how often
    it has been given the resource [r] less how often it has given it back. *)
From S2P Require Import Prelude Net.
From Stdlib Require Import String.
From stdpp Require Import base numbers list gmap.
Open Scope Z_scope.

(** ** System calls *)

Inductive socket_option := SO_REUSEADDR | SO_SNDBUF | SO_RCVBUF.

(** A descriptor, a socket, a handle or a pointer is a number.  A call that
    writes through a pointer has what it writes in its answer; [close] and
    [closesocket], [write] and [send], [read] and [recv] are one call each, and so
    are the calls of pthreads and of Windows on mutexes and condition variables;
    a timed wait differs, pthreads takes a deadline and Windows an interval. *)
Inductive syscall : Type -> Type :=
  | sys_socket (ipv6 : bool) : syscall Z
  | sys_close (fd : Z) : syscall Z
  | sys_pipe : syscall (option (Z * Z))
  | sys_fcntl_getfl (fd : Z) : syscall Z
  | sys_fcntl_setfl (fd flags : Z) : syscall Z
  | sys_ioctlsocket (fd mode : Z) : syscall Z
  | sys_bind (fd : Z) (addr : rel4u_net_addr) : syscall Z
  | sys_getsockname (fd : Z) : syscall (option rel4u_net_addr)
  | sys_connect (fd : Z) (addr : rel4u_net_addr) : syscall Z
  | sys_setsockopt (fd : Z) (opt : socket_option) (val : Z) : syscall Z
  | sys_write (fd : Z) (buf : list Z) : syscall Z
  | sys_read (fd size : Z) : syscall (Z * list Z)
  | sys_sendto (fd : Z) (buf : list Z) (dest : rel4u_net_addr) : syscall Z
  | sys_recvfrom (fd size : Z) : syscall (Z * list Z * rel4u_net_addr)
  | sys_poll (fds : list Z) (timeout_ms : Z) : syscall (Z * list Z)
  | sys_getaddrinfo (host : option string) (port : string) : syscall (Z * option (Z * rel4u_net_addr))
  | sys_freeaddrinfo (res : Z) : syscall unit
  | sys_getnameinfo (addr : rel4u_net_addr) : syscall (Z * string * string)
  | sys_WSAStartup : syscall Z
  | sys_WSACleanup : syscall Z
  | sys_malloc (size : Z) : syscall Z
  | sys_free (ptr : Z) : syscall unit
  | sys_CreateThread (ctx : Z) : syscall Z
  | sys_WaitForSingleObject (handle : Z) : syscall unit
  | sys_CloseHandle (handle : Z) : syscall Z
  | sys_pthread_create (func arg : Z) : syscall (Z * Z)
  | sys_pthread_join (thread : Z) : syscall Z
  | sys_QueryPerformanceFrequency : syscall Z
  | sys_QueryPerformanceCounter : syscall Z
  | sys_Sleep (ms : Z) : syscall unit
  | sys_thread_body (func arg : Z) : syscall unit
  | sys_mutex_init (mutex : Z) : syscall Z
  | sys_mutex_destroy (mutex : Z) : syscall Z
  | sys_mutex_lock (mutex : Z) : syscall Z
  | sys_mutex_unlock (mutex : Z) : syscall Z
  | sys_cond_init (cond : Z) : syscall Z
  | sys_cond_destroy (cond : Z) : syscall Z
  | sys_cond_wait (cond mutex : Z) : syscall Z
  | sys_cond_timedwait (cond mutex tv_sec tv_nsec : Z) : syscall Z
  | sys_SleepConditionVariableCS (cond mutex ms : Z) : syscall Z
  | sys_cond_signal (cond : Z) : syscall Z
  | sys_cond_broadcast (cond : Z) : syscall Z
  | sys_gettimeofday : syscall (Z * Z).

(** An operating system: a state and an answer to every call.  Nothing else is
    assumed of it; the theorems that rely on documented behaviour say which. *)
Class Kernel := {
  ker_state : Type;
  ker_call : forall {A}, syscall A -> ker_state -> A * ker_state
}.

Inductive event :=
  | Event {A : Type} (c : syscall A) (answer : A).

(** ** Programs *)

(** [g_net_initialized] of rel4u_net.c, [g_perf_frequency] and [g_perf_init] of
    rel4u_time.c (the Windows branches). *)
Record statics := mk_statics {
  g_net_initialized : Z;
  g_perf_frequency : Z;
  g_perf_init : bool
}.

(** Static storage starts as zero. *)
Definition statics_zero : statics := mk_statics 0 0 false.

(** [ma_contexts]: the heap blocks of type [rel4u_win32_thread_context_t], as
    function and argument. *)
Record machine `{Kernel} := mk_machine {
  ma_kernel : ker_state;
  ma_trace : list event;
  ma_statics : statics;
  ma_contexts : gmap Z (Z * Z)
}.
Arguments mk_machine {_}.

Declare Scope sys_scope.
Delimit Scope sys_scope with sys.

Section programs.
Context `{Kernel}.

Definition sys (A : Type) : Type := machine -> A * machine.

Definition sys_ret {A} (a : A) : sys A := fun m => (a, m).
Definition sys_seq {A B} (e : sys A) (k : A -> sys B) : sys B := fun m =>
  let '(a, m) := e m in k a m.

Definition invoke {A} (c : syscall A) : sys A := fun m =>
  let '(a, k) := ker_call c (ma_kernel m) in
  (a, mk_machine k (ma_trace m ++ [Event c a]) (ma_statics m) (ma_contexts m)).

Definition get_statics : sys statics := fun m => (ma_statics m, m).
Definition put_statics (s : statics) : sys unit := fun m =>
  (tt, mk_machine (ma_kernel m) (ma_trace m) s (ma_contexts m)).

(** [*ptr] and [*ptr = ctx] for a thread context, and the end of its life. *)
Definition load_context (ptr : Z) : sys (option (Z * Z)) := fun m => (ma_contexts m !! ptr, m).
Definition store_context (ptr : Z) (ctx : Z * Z) : sys unit := fun m =>
  (tt, mk_machine (ma_kernel m) (ma_trace m) (ma_statics m) (<[ptr := ctx]> (ma_contexts m))).
Definition drop_context (ptr : Z) : sys unit := fun m =>
  (tt, mk_machine (ma_kernel m) (ma_trace m) (ma_statics m) (delete ptr (ma_contexts m))).
End programs.

Notation "'let!' x ':=' e 'in' k" := (sys_seq e (fun x => k))
  (at level 10, x name, e at level 100, k at level 200) : sys_scope.
Notation "'do!' e 'in' k" := (sys_seq e (fun _ => k)) (at level 10, e at level 100, k at level 200) : sys_scope.

(** Runs a program symbolically: every call becomes an unknown answer. *)
Ltac sys_run :=
  repeat first
    [ progress cbn [sys_seq sys_ret invoke get_statics put_statics load_context store_context drop_context
        fst snd ma_kernel ma_trace ma_statics ma_contexts]
    | progress unfold sys_seq, sys_ret, invoke, get_statics, put_statics, load_context, store_context,
        drop_context
    | match goal with
      | |- context [ker_call ?c ?k] => let E := fresh "Ecall" in destruct (ker_call c k) as [?a ?k'] eqn:E
      end ].

(** ** Reading until nothing is left *)

Section drain.
Context `{Kernel}.

(** [while (read(fd, buf, sizeof(buf)) > 0) {}] with a buffer of 64 bytes:
    whether the loop has ended, within [fuel] calls. *)
Fixpoint drain_loop (fuel : nat) (fd : Z) : sys bool :=
  match fuel with
  | O => sys_ret false
  | S fuel =>
      sys_seq (invoke (sys_read fd 64)) (fun r =>
        if fst r >? 0 then drain_loop fuel fd else sys_ret true)
  end.
End drain.

(** ** What a trace owns *)

Inductive resource :=
  | Descriptor (fd : Z)
  | AddrInfo (res : Z)
  | Winsock
  | Block (ptr : Z)
  | Handle (handle : Z).

Definition one (b : bool) : Z := if b then 1 else 0.

(** How one answered call changes the number of times [r] is owned. *)
Definition event_balance (r : resource) (e : event) : Z :=
  match e with
  | Event c answer =>
      match c in syscall A return A -> Z with
      | sys_socket _ => fun s => match r with Descriptor fd => one (s =? fd) | _ => 0 end
      | sys_pipe => fun fds =>
          match r, fds with
          | Descriptor fd, Some (a, b) => one (a =? fd) + one (b =? fd)
          | _, _ => 0
          end
      | sys_close s => fun _ => match r with Descriptor fd => - one (s =? fd) | _ => 0 end
      | sys_getaddrinfo _ _ => fun answer =>
          match r, snd answer with AddrInfo p, Some (q, _) => one (q =? p) | _, _ => 0 end
      | sys_freeaddrinfo q => fun _ => match r with AddrInfo p => - one (q =? p) | _ => 0 end
      | sys_WSAStartup => fun res => match r with Winsock => one (res =? 0) | _ => 0 end
      | sys_WSACleanup => fun _ => match r with Winsock => -1 | _ => 0 end
      | sys_malloc _ => fun q => match r with Block p => one (q =? p) | _ => 0 end
      | sys_free q => fun _ => match r with Block p => - one (q =? p) | _ => 0 end
      | sys_CreateThread _ => fun h => match r with Handle x => one (h =? x) | _ => 0 end
      | sys_CloseHandle h => fun _ => match r with Handle x => - one (h =? x) | _ => 0 end
      | _ => fun _ => 0
      end answer
  end.

Fixpoint balance (r : resource) (tr : list event) : Z :=
  match tr with [] => 0 | e :: tr => event_balance r e + balance r tr end.

Lemma balance_app r tr tr' : balance r (tr ++ tr') = balance r tr + balance r tr'.
Proof. induction tr; simpl; lia. Qed.

(** The calls made by a program from a state on. *)
Definition owns `{Kernel} {A} (p : sys A) (m : machine) (r : resource) : Z :=
  balance r (ma_trace (snd (p m))) - balance r (ma_trace m).

Lemma owns_bind `{Kernel} {A B} (e : sys A) (k : A -> sys B) m r :
  owns (sys_seq e k) m r = owns e m r + owns (k (fst (e m))) (snd (e m)) r.
Proof. unfold owns, sys_seq. destruct (e m) as [a m']. simpl. lia. Qed.

Lemma owns_ret `{Kernel} {A} (a : A) m r : owns (sys_ret a) m r = 0.
Proof. unfold owns, sys_ret. simpl. lia. Qed.

Lemma owns_invoke `{Kernel} {A} (c : syscall A) m r :
  owns (invoke c) m r = event_balance r (Event c (fst (ker_call c (ma_kernel m)))).
Proof.
  unfold owns, invoke. destruct (ker_call c (ma_kernel m)) as [a k]. simpl.
  rewrite balance_app. simpl. lia.
Qed.

Create Rewrite HintDb sys.
#[export] Hint Rewrite @owns_bind @owns_ret @owns_invoke balance_app : sys.
