(* ===== verification/Posix.v ===== *)
(** * Platform layer: the POSIX branches of [rel4u_net.c] and [rel4u_threads.c]

    Every function of the branch as the system calls it makes.  [Net] has the
    values these functions compute, which is what the client and the server need
    of them; [Sockets] relates the two. *)
From S2P Require Import Prelude Net Kernel.
From stdpp Require Import base numbers list gmap.
Open Scope Z_scope.
Open Scope rel4u_scope.
Open Scope sys_scope.

(** The flag of [fcntl] on Linux. *)
Definition O_NONBLOCK : Z := 2048.

Section posix.
Context `{Kernel}.

Definition rel4u_net_init : sys Z := sys_ret 0.
Definition rel4u_net_cleanup : sys unit := sys_ret tt.

Definition rel4u_net_socket_set_nonblocking (sock : Z) (nonblocking : bool) : sys Z :=
  let! flags := invoke (sys_fcntl_getfl sock) in
  if flags <? 0 then sys_ret (-1) else
  let flags := if nonblocking then Z.lor flags O_NONBLOCK else Z.land flags (Z.lnot O_NONBLOCK) in
  invoke (sys_fcntl_setfl sock flags).

Definition rel4u_net_socket_close (sock : Z) : sys unit :=
  if sock =? REL4U_INVALID_SOCKET then sys_ret tt
  else do! invoke (sys_close sock) in sys_ret tt.

(** The result and the pipe, which is not written when [pipe] fails. *)
Definition rel4u_wakeup_pipe_create (pipe_obj : rel4u_wakeup_pipe) : sys (Z * rel4u_wakeup_pipe) :=
  let! fds := invoke sys_pipe in
  match fds with
  | None => sys_ret (-1, pipe_obj)
  | Some (fd0, fd1) =>
      do! rel4u_net_socket_set_nonblocking fd0 true in
      do! rel4u_net_socket_set_nonblocking fd1 true in
      sys_ret (0, mk_pipe fd0 fd1)
  end.

Definition rel4u_wakeup_pipe_signal (pipe_obj : rel4u_wakeup_pipe) : sys unit :=
  if wp_write_fd pipe_obj =? -1 then sys_ret tt
  else do! invoke (sys_write (wp_write_fd pipe_obj) [1]) in sys_ret tt.

(** [fuel]: a bound on the turns of the loop; the result says that it has ended. *)
Definition rel4u_wakeup_pipe_drain (fuel : nat) (pipe_obj : rel4u_wakeup_pipe) : sys bool :=
  if wp_read_fd pipe_obj =? -1 then sys_ret true else drain_loop fuel (wp_read_fd pipe_obj).

Definition rel4u_wakeup_pipe_close (pipe_obj : rel4u_wakeup_pipe) : sys rel4u_wakeup_pipe :=
  let! pipe_obj :=
    if wp_write_fd pipe_obj =? -1 then sys_ret pipe_obj
    else do! invoke (sys_close (wp_write_fd pipe_obj)) in sys_ret (mk_pipe (wp_read_fd pipe_obj) (-1)) in
  if wp_read_fd pipe_obj =? -1 then sys_ret pipe_obj
  else do! invoke (sys_close (wp_read_fd pipe_obj)) in sys_ret (mk_pipe (-1) (wp_write_fd pipe_obj)).

(** The result and the two flags; [None] is no pipe. *)
Definition rel4u_net_poll (sock : Z) (pipe_obj : option rel4u_wakeup_pipe) (timeout_ms : Z)
  : sys (Z * bool * bool) :=
  let has_pipe := match pipe_obj with Some p => negb (wp_read_fd p =? -1) | None => false end in
  let has_sock := negb (sock =? REL4U_INVALID_SOCKET) in
  let fds := (if has_sock then [sock] else []) ++
             match pipe_obj with Some p => if has_pipe then [wp_read_fd p] else [] | None => [] end in
  if (length fds =? 0)%nat then sys_ret (0, false, false) else
  let! polled := invoke (sys_poll fds timeout_ms) in
  let '(ret, revents) := polled in
  if ret >? 0 then
    let readable idx := negb (Z.land (revents !!! idx) POLLIN =? 0) in
    let '(socket_readable, idx) := if has_sock then (readable 0%nat, 1%nat) else (false, 0%nat) in
    let pipe_readable := if has_pipe then readable idx else false in
    sys_ret (ret, socket_readable, pipe_readable)
  else sys_ret (ret, false, false).

(** ** Threads *)

(** The result and what [pthread_create] stores in the thread. *)
Definition rel4u_thread_create (func arg : Z) : sys (Z * Z) := invoke (sys_pthread_create func arg).
Definition rel4u_thread_join (thread : Z) : sys Z := invoke (sys_pthread_join thread).

(** ** Mutexes and condition variables *)

Definition rel4u_mutex_init (mutex : Z) : sys Z := invoke (sys_mutex_init mutex).
Definition rel4u_mutex_destroy (mutex : Z) : sys unit := do! invoke (sys_mutex_destroy mutex) in sys_ret tt.
Definition rel4u_mutex_lock (mutex : Z) : sys unit := do! invoke (sys_mutex_lock mutex) in sys_ret tt.
Definition rel4u_mutex_unlock (mutex : Z) : sys unit := do! invoke (sys_mutex_unlock mutex) in sys_ret tt.

Definition rel4u_cond_init (cond : Z) : sys Z := invoke (sys_cond_init cond).
Definition rel4u_cond_destroy (cond : Z) : sys unit := do! invoke (sys_cond_destroy cond) in sys_ret tt.
Definition rel4u_cond_wait (cond mutex : Z) : sys unit := do! invoke (sys_cond_wait cond mutex) in sys_ret tt.
Definition rel4u_cond_signal (cond : Z) : sys unit := do! invoke (sys_cond_signal cond) in sys_ret tt.
Definition rel4u_cond_broadcast (cond : Z) : sys unit := do! invoke (sys_cond_broadcast cond) in sys_ret tt.

(** The deadline is computed by the function of the same name in [Net]. *)
Definition rel4u_cond_timedwait_ms (cond mutex timeout_ms : Z) : sys bool :=
  let! tv := invoke sys_gettimeofday in
  let '(tv_sec, tv_nsec) := Net.rel4u_cond_timedwait_ms (fst tv) (snd tv) timeout_ms in
  let! res := invoke (sys_cond_timedwait cond mutex tv_sec tv_nsec) in
  sys_ret (res =? 0).
End posix.
