(* ===== verification/Win32.v ===== *)
(** * Platform layer: the Windows branches

    The Windows branches of [rel4u_net.c], [rel4u_time.c] and [rel4u_threads.c]
    as the system calls they make.  The wakeup channel is a pair of UDP sockets
    on the loopback interface instead of a pipe, Winsock is started once per
    process, the clock is the performance counter, and a thread starts in a
    trampoline that takes its function and argument from a heap block. *)
From S2P Require Import Prelude Packet Net Kernel.
From stdpp Require Import base numbers list gmap.
Open Scope Z_scope.
Open Scope rel4u_scope.
Open Scope sys_scope.

(** [INVALID_SOCKET], all ones in an unsigned 64-bit [SOCKET]. *)
Definition REL4U_INVALID_SOCKET : Z := 2 ^ 64 - 1.
(** [POLLRDNORM | POLLRDBAND] in winsock2.h. *)
Definition POLLIN : Z := 768.
Definition INADDR_LOOPBACK : Z := 2130706433.

Record rel4u_wakeup_pipe := mk_pipe { wp_send_sock : Z; wp_recv_sock : Z }.

Section win32.
Context `{Kernel}.

(** ** Sockets *)

Definition rel4u_net_init : sys Z :=
  let! s := get_statics in
  if g_net_initialized s =? 0 then
    let! res := invoke sys_WSAStartup in
    if negb (res =? 0) then sys_ret (-1) else
    do! put_statics (mk_statics 1 (g_perf_frequency s) (g_perf_init s)) in
    sys_ret 0
  else sys_ret 0.

Definition rel4u_net_cleanup : sys unit :=
  let! s := get_statics in
  if negb (g_net_initialized s =? 0) then
    do! invoke sys_WSACleanup in
    put_statics (mk_statics 0 (g_perf_frequency s) (g_perf_init s))
  else sys_ret tt.

Definition rel4u_net_socket_set_nonblocking (sock : Z) (nonblocking : bool) : sys Z :=
  let mode := if nonblocking then 1 else 0 in
  invoke (sys_ioctlsocket sock mode).

Definition rel4u_net_socket_close (sock : Z) : sys unit :=
  if sock =? REL4U_INVALID_SOCKET then sys_ret tt
  else do! invoke (sys_close sock) in sys_ret tt.

(** Port 0 of the loopback address; Windows runs on little-endian hosts. *)
Definition loopback : rel4u_net_addr := mk_addr (AF_INET 0 (htonl LittleEndian INADDR_LOOPBACK)) 16.

Definition rel4u_wakeup_pipe_create (pipe_obj : rel4u_wakeup_pipe) : sys (Z * rel4u_wakeup_pipe) :=
  do! rel4u_net_init in
  let! listener := invoke (sys_socket false) in
  if listener =? REL4U_INVALID_SOCKET then sys_ret (-1, pipe_obj) else
  let! bound := invoke (sys_bind listener loopback) in
  if negb (bound =? 0) then
    do! invoke (sys_close listener) in sys_ret (-1, pipe_obj) else
  let! name := invoke (sys_getsockname listener) in
  match name with
  | None => do! invoke (sys_close listener) in sys_ret (-1, pipe_obj)
  | Some addr =>
      let! sender := invoke (sys_socket false) in
      if sender =? REL4U_INVALID_SOCKET then
        do! invoke (sys_close listener) in sys_ret (-1, pipe_obj) else
      let! connected := invoke (sys_connect sender addr) in
      if negb (connected =? 0) then
        do! invoke (sys_close sender) in
        do! invoke (sys_close listener) in sys_ret (-1, pipe_obj) else
      do! rel4u_net_socket_set_nonblocking listener true in
      do! rel4u_net_socket_set_nonblocking sender true in
      sys_ret (0, mk_pipe sender listener)
  end.

Definition rel4u_wakeup_pipe_signal (pipe_obj : rel4u_wakeup_pipe) : sys unit :=
  if wp_send_sock pipe_obj =? REL4U_INVALID_SOCKET then sys_ret tt
  else do! invoke (sys_write (wp_send_sock pipe_obj) [1]) in sys_ret tt.

Definition rel4u_wakeup_pipe_drain (fuel : nat) (pipe_obj : rel4u_wakeup_pipe) : sys bool :=
  if wp_recv_sock pipe_obj =? REL4U_INVALID_SOCKET then sys_ret true
  else drain_loop fuel (wp_recv_sock pipe_obj).

Definition rel4u_wakeup_pipe_close (pipe_obj : rel4u_wakeup_pipe) : sys rel4u_wakeup_pipe :=
  let! pipe_obj :=
    if wp_send_sock pipe_obj =? REL4U_INVALID_SOCKET then sys_ret pipe_obj
    else do! invoke (sys_close (wp_send_sock pipe_obj)) in
         sys_ret (mk_pipe REL4U_INVALID_SOCKET (wp_recv_sock pipe_obj)) in
  if wp_recv_sock pipe_obj =? REL4U_INVALID_SOCKET then sys_ret pipe_obj
  else do! invoke (sys_close (wp_recv_sock pipe_obj)) in
       sys_ret (mk_pipe (wp_send_sock pipe_obj) REL4U_INVALID_SOCKET).

Definition rel4u_net_poll (sock : Z) (pipe_obj : option rel4u_wakeup_pipe) (timeout_ms : Z)
  : sys (Z * bool * bool) :=
  let has_pipe := match pipe_obj with
                  | Some p => negb (wp_recv_sock p =? REL4U_INVALID_SOCKET)
                  | None => false
                  end in
  let has_sock := negb (sock =? REL4U_INVALID_SOCKET) in
  let fds := (if has_sock then [sock] else []) ++
             match pipe_obj with Some p => if has_pipe then [wp_recv_sock p] else [] | None => [] end in
  if (length fds =? 0)%nat then sys_ret (0, false, false) else
  let! polled := invoke (sys_poll fds timeout_ms) in
  let '(ret, revents) := polled in
  if ret >? 0 then
    let readable idx := negb (Z.land (revents !!! idx) POLLIN =? 0) in
    let '(socket_readable, idx) := if has_sock then (readable 0%nat, 1%nat) else (false, 0%nat) in
    let pipe_readable := if has_pipe then readable idx else false in
    sys_ret (ret, socket_readable, pipe_readable)
  else sys_ret (ret, false, false).

(** ** Time *)

Definition init_perf_counter : sys unit :=
  let! s := get_statics in
  if g_perf_init s then sys_ret tt else
  let! freq := invoke sys_QueryPerformanceFrequency in
  put_statics (mk_statics (g_net_initialized s) freq true).

(** [counter.QuadPart * 1000000000ULL]: the signed counter is converted to 64
    bits unsigned, and so is the product; the division is unsigned too. *)
Definition counter_ns (counter freq : Z) : Z := u64 (u64 counter * 1000000000) / u64 freq.

Definition rel4u_time_now_ns : sys Z :=
  do! init_perf_counter in
  let! counter := invoke sys_QueryPerformanceCounter in
  let! s := get_statics in
  sys_ret (counter_ns counter (g_perf_frequency s)).

Definition rel4u_time_now_ms : sys Z :=
  let! ns := rel4u_time_now_ns in
  sys_ret (ns / 1000000).

Definition rel4u_time_sleep_ms (ms : Z) : sys unit := invoke (sys_Sleep ms).

(** ** Threads *)

Definition sizeof_context : Z := 16.

(** What a thread started by [CreateThread] with [lpParam] does. *)
Definition rel4u_win32_thread_trampoline (lpParam : Z) : sys Z :=
  let! ctx := load_context lpParam in
  do! invoke (sys_free lpParam) in
  do! drop_context lpParam in
  do! match ctx with
      | Some (func, arg) => invoke (sys_thread_body func arg)
      | None => sys_ret tt
      end in
  sys_ret 0.

(** The result and the thread handle, which is not written when there is no
    memory. *)
Definition rel4u_thread_create (thread func arg : Z) : sys (Z * Z) :=
  let! ctx := invoke (sys_malloc sizeof_context) in
  if ctx =? 0 then sys_ret (-1, thread) else
  do! store_context ctx (func, arg) in
  let! thread := invoke (sys_CreateThread ctx) in
  if thread =? 0 then
    do! invoke (sys_free ctx) in
    do! drop_context ctx in
    sys_ret (-1, thread)
  else sys_ret (0, thread).

Definition rel4u_thread_join (thread : Z) : sys Z :=
  if thread =? 0 then sys_ret 0 else
  do! invoke (sys_WaitForSingleObject thread) in
  do! invoke (sys_CloseHandle thread) in
  sys_ret 0.

(** ** Mutexes and condition variables *)

Definition rel4u_mutex_init (mutex : Z) : sys Z := do! invoke (sys_mutex_init mutex) in sys_ret 0.
Definition rel4u_mutex_destroy (mutex : Z) : sys unit := do! invoke (sys_mutex_destroy mutex) in sys_ret tt.
Definition rel4u_mutex_lock (mutex : Z) : sys unit := do! invoke (sys_mutex_lock mutex) in sys_ret tt.
Definition rel4u_mutex_unlock (mutex : Z) : sys unit := do! invoke (sys_mutex_unlock mutex) in sys_ret tt.

Definition rel4u_cond_init (cond : Z) : sys Z := do! invoke (sys_cond_init cond) in sys_ret 0.
(** A condition variable of Windows is not destroyed. *)
Definition rel4u_cond_destroy (cond : Z) : sys unit := sys_ret tt.

Definition INFINITE : Z := 4294967295.
Definition rel4u_cond_wait (cond mutex : Z) : sys unit :=
  do! invoke (sys_SleepConditionVariableCS cond mutex INFINITE) in sys_ret tt.
Definition rel4u_cond_timedwait_ms (cond mutex timeout_ms : Z) : sys bool :=
  let! result := invoke (sys_SleepConditionVariableCS cond mutex timeout_ms) in
  sys_ret (negb (result =? 0)).
Definition rel4u_cond_signal (cond : Z) : sys unit := do! invoke (sys_cond_signal cond) in sys_ret tt.
Definition rel4u_cond_broadcast (cond : Z) : sys unit := do! invoke (sys_cond_broadcast cond) in sys_ret tt.
End win32.
