(* ===== verification/Session.v ===== *)
(** * Session table

    [src/core/rel4u_session.{h,c}]: the server's fixed array of client sessions.
    A pointer to a session is its index in the array, which is also its
    [client_id]. *)
From S2P Require Import Prelude Types Rtt SendWindow RecvWindow Net.
From stdpp Require Import base numbers list.
Open Scope Z_scope.
Open Scope rel4u_scope.

Record rel4u_client_session := mk_session {
  cs_client_id : Z;
  cs_session_id : Z;
  cs_addr : rel4u_net_addr;
  cs_state : rel4u_conn_state;
  cs_send_win : rel4u_send_window;
  cs_recv_win : rel4u_recv_window;
  cs_rtt : rel4u_rtt;
  cs_stats : rel4u_stats;
  cs_last_activity_ns : Z;
  cs_last_heartbeat_sent_ns : Z;
  cs_last_ack_sent_ns : Z;
  cs_ack_pending : bool
}.
#[export] Instance eta_session : Eta rel4u_client_session := fun s =>
  mk_session (cs_client_id s) (cs_session_id s) (cs_addr s) (cs_state s) (cs_send_win s)
    (cs_recv_win s) (cs_rtt s) (cs_stats s) (cs_last_activity_ns s) (cs_last_heartbeat_sent_ns s)
    (cs_last_ack_sent_ns s) (cs_ack_pending s).

(** A zeroed session; the zero of [rel4u_conn_state_t] is DISCONNECTED. *)
Definition session_zero : rel4u_client_session :=
  mk_session 0 0 addr_zero REL4U_STATE_DISCONNECTED send_window_zero recv_window_zero
    (mk_rtt 0 0 0 0 0 false) stats_zero 0 0 0 false.
#[export] Instance session_inhabited : Inhabited rel4u_client_session := populate session_zero.

Record rel4u_session_table := mk_table {
  tb_sessions : list rel4u_client_session;
  tb_max_clients : Z;
  tb_active_count : Z;
  tb_full_policy : rel4u_max_clients_policy
}.
#[export] Instance eta_table : Eta rel4u_session_table := fun t =>
  mk_table (tb_sessions t) (tb_max_clients t) (tb_active_count t) (tb_full_policy t).

Definition table_zero : rel4u_session_table := mk_table [] 0 0 REL4U_MAX_CLIENTS_REJECT.

(** [s->state != REL4U_STATE_DISCONNECTED]. *)
Definition session_active (s : rel4u_client_session) : bool :=
  negb (bool_decide (cs_state s = REL4U_STATE_DISCONNECTED)).

(** ** Operations *)

Definition rel4u_session_table_destroy (table : rel4u_session_table) : rel4u_session_table :=
  table <| tb_sessions := [] |> <| tb_max_clients := 0 |> <| tb_active_count := 0 |>.

(** The initialisation of [sessions[i]]; [ok] says whether the two window
    allocations succeed. *)
Definition session_init (window_size : Z) (i : nat) (ok : bool * bool) : option rel4u_client_session :=
  let s := session_zero <| cs_client_id := Z.of_nat i |> <| cs_state := REL4U_STATE_DISCONNECTED |> in
  let '(r, sw) := rel4u_send_window_init (cs_send_win s) window_size 1 (fst ok) in
  if negb (r =? 0) then None else
  let '(r, rw) := rel4u_recv_window_init (cs_recv_win s) window_size 1 (snd ok) in
  if negb (r =? 0) then None else
  Some (s <| cs_send_win := sw |> <| cs_recv_win := rw |>
          <| cs_rtt := rel4u_rtt_init REL4U_RTT_DEFAULT_RTO_MS REL4U_RTT_MIN_RTO_MS REL4U_RTT_MAX_RTO_MS |>).

(** [table_ok]: the allocation of the array; [win_ok i]: those of slot [i]. *)
Definition rel4u_session_table_init (table : rel4u_session_table) (max_clients : Z)
    (policy : rel4u_max_clients_policy) (window_size : Z) (table_ok : bool) (win_ok : nat -> bool * bool)
  : Z * rel4u_session_table :=
  if (max_clients =? 0) || (window_size <? 2) || negb (is_pow2 window_size) then (-1, table) else
  let table := table <| tb_max_clients := max_clients |> <| tb_active_count := 0 |>
                     <| tb_full_policy := policy |> in
  if negb table_ok then (-1, table <| tb_sessions := [] |>) else
  match mapM (fun i => session_init window_size i (win_ok i)) (seq 0 (Z.to_nat max_clients)) with
  | Some sessions => (0, table <| tb_sessions := sessions |>)
  | None => (-1, rel4u_session_table_destroy table)
  end.

(** The first active session with the address. *)
Definition rel4u_session_find_by_addr (table : rel4u_session_table) (addr : rel4u_net_addr) : option nat :=
  fst <$> list_find (fun s => session_active s = true /\ rel4u_net_addr_equal (cs_addr s) addr = true)
            (tb_sessions table).

Definition rel4u_session_find_by_id (table : rel4u_session_table) (client_id : Z) : option nat :=
  if ((length (tb_sessions table) =? 0)%nat || (client_id >=? tb_max_clients table)) then None else
  if session_active (tb_sessions table !. client_id) then Some (Z.to_nat client_id) else None.

Definition UINT64_MAX : Z := 2 ^ 64 - 1.

(** One turn of the LRU scan, on [oldest_time] and [slot_idx]. *)
Definition lru_step (acc : Z * option nat) (p : nat * rel4u_client_session) : Z * option nat :=
  let '(oldest_time, slot_idx) := acc in
  let '(i, s) := p in
  if session_active s then
    if cs_last_activity_ns s <? oldest_time then (cs_last_activity_ns s, Some i)
    else (oldest_time, slot_idx)
  else (oldest_time, slot_idx).

(** What [allocate] writes to the session it takes; [ok]: whether the windows
    could be allocated again. *)
Definition session_assign (s : rel4u_client_session) (addr : rel4u_net_addr) (session_id : Z)
    (ok : bool * bool) : rel4u_client_session :=
  let s := s <| cs_session_id := session_id |> <| cs_addr := addr |>
             <| cs_state := REL4U_STATE_CONNECTING |> <| cs_ack_pending := false |>
             <| cs_stats := stats_zero |> in
  let win_cap := if sw_capacity (cs_send_win s) =? 0 then 64 else sw_capacity (cs_send_win s) in
  let sw := rel4u_send_window_destroy (cs_send_win s) in
  let rw := rel4u_recv_window_destroy (cs_recv_win s) in
  let sw := snd (rel4u_send_window_init sw win_cap 1 (fst ok)) in
  let rw := snd (rel4u_recv_window_init rw win_cap 1 (snd ok)) in
  s <| cs_send_win := sw |> <| cs_recv_win := rw |>
    <| cs_rtt := rel4u_rtt_init REL4U_RTT_DEFAULT_RTO_MS REL4U_RTT_MIN_RTO_MS REL4U_RTT_MAX_RTO_MS |>.

(** The slot to use, whether its session is evicted, and the new active count. *)
Definition session_pick (table : rel4u_session_table) : option nat * bool * Z :=
  if tb_active_count table <? tb_max_clients table then
    (fst <$> list_find (fun s => session_active s = false) (tb_sessions table), false, tb_active_count table)
  else
    match tb_full_policy table with
    | REL4U_MAX_CLIENTS_REJECT => (None, false, tb_active_count table)
    | REL4U_MAX_CLIENTS_DROP_OLD =>
        match snd (foldl lru_step (UINT64_MAX, None) (imap pair (tb_sessions table))) with
        | Some i => (Some i, true, u32 (tb_active_count table - 1))
        | None => (None, false, tb_active_count table)
        end
    end.

(** The session's index, [*out_was_evicted] and the table. *)
Definition rel4u_session_allocate (table : rel4u_session_table) (addr : rel4u_net_addr) (session_id : Z)
    (ok : bool * bool) : option nat * bool * rel4u_session_table :=
  if (length (tb_sessions table) =? 0)%nat then (None, false, table) else
  let '(slot_idx, evicted, count) := session_pick table in
  match slot_idx with
  | None => (None, evicted, table)
  | Some i =>
      let s := session_assign (tb_sessions table !!! i) addr session_id ok in
      (Some i, evicted, table <| tb_sessions := <[i := s]> (tb_sessions table) |>
                              <| tb_active_count := u32 (count + 1) |>)
  end.

(** Updating the session with index [i] in place. *)
Definition session_upd (table : rel4u_session_table) (i : nat)
    (f : rel4u_client_session -> rel4u_client_session) : rel4u_session_table :=
  table <| tb_sessions := <[i := f (tb_sessions table !!! i)]> (tb_sessions table) |>.

Definition rel4u_session_touch_lru (table : rel4u_session_table) (i : nat) (now_ns : Z)
  : rel4u_session_table := session_upd table i (fun s => s <| cs_last_activity_ns := now_ns |>).

Definition rel4u_session_free (table : rel4u_session_table) (i : nat) : rel4u_session_table :=
  if negb (session_active (tb_sessions table !!! i)) then table else
  let table := session_upd table i (fun s => s <| cs_state := REL4U_STATE_DISCONNECTED |>
                                               <| cs_session_id := 0 |>) in
  if tb_active_count table >? 0 then table <| tb_active_count := tb_active_count table - 1 |> else table.
