(* ===== verification/Sessions.v ===== *)
(** * Session table: correctness

    The invariant of the server's session table and what allocation, lookup and
    release do: the active count is exact, a session's id is its index, no two
    active sessions have the same peer, eviction takes the least recently active
    session, and a slot that is taken over starts with fresh windows. *)
From S2P Require Import Prelude Ring Types Seq Rtt SendWindow SendSpec RecvWindow RecvSpec RecvSafe Net Session.
From stdpp Require Import base numbers list sets.
Open Scope Z_scope.
Open Scope rel4u_scope.

(** ** Invariant *)

(** The windows and the estimator of a session are well formed, and its last
    activity is a clock reading. *)
Record session_ok (i : nat) (s : rel4u_client_session) : Prop := {
  se_id : cs_client_id s = Z.of_nat i;
  se_send : send_ok (cs_send_win s);
  se_recv : recv_safe (cs_recv_win s);
  se_rtt : rtt_ok (cs_rtt s);
  se_time : 0 <= cs_last_activity_ns s < UINT64_MAX;
  se_session : is_u32 (cs_session_id s)
}.

Definition active_count (l : list rel4u_client_session) : Z :=
  Z.of_nat (length (filter (fun s => session_active s = true) l)).

Record table_inv (t : rel4u_session_table) : Prop := {
  ti_max : 0 < tb_max_clients t < 2 ^ 31;
  ti_length : Z.of_nat (length (tb_sessions t)) = tb_max_clients t;
  ti_count : tb_active_count t = active_count (tb_sessions t);
  ti_sessions : forall i s, tb_sessions t !! i = Some s -> session_ok i s;
  ti_distinct : forall i j s s', tb_sessions t !! i = Some s -> tb_sessions t !! j = Some s' ->
    session_active s = true -> session_active s' = true -> addr_eq (cs_addr s) (cs_addr s') -> i = j
}.

Definition b2z (b : bool) : Z := if b then 1 else 0.

Lemma active_count_app l1 l2 : active_count (l1 ++ l2) = active_count l1 + active_count l2.
Proof. unfold active_count. rewrite filter_app, length_app. lia. Qed.

Lemma active_count_one s : active_count [s] = b2z (session_active s).
Proof. unfold active_count. rewrite filter_cons, filter_nil. destruct (session_active s); by case_decide. Qed.

Lemma active_count_insert l i s s' : l !! i = Some s ->
  active_count (<[i := s']> l) = active_count l - b2z (session_active s) + b2z (session_active s').
Proof.
  intros Hi. assert (i < length l)%nat by eauto using lookup_lt_Some.
  rewrite insert_take_drop by done. rewrite <- (take_drop_middle l i s Hi) at 3.
  change (s' :: ?x) with ([s'] ++ x). change (s :: ?x) with ([s] ++ x).
  rewrite !active_count_app, !active_count_one. lia.
Qed.

Lemma active_count_le l : 0 <= active_count l <= Z.of_nat (length l).
Proof. unfold active_count. pose proof (length_filter (fun s => session_active s = true) l). lia. Qed.

Lemma active_count_pos l i s : l !! i = Some s -> session_active s = true -> 0 < active_count l.
Proof.
  intros Hi Ha. pose proof (active_count_le (<[i := session_zero]> l)) as H.
  rewrite (active_count_insert _ _ _ _ Hi), Ha in H. change (session_active session_zero) with false in H.
  cbn [b2z] in H. lia.
Qed.

(** A slot is free exactly when the count is below the maximum. *)
Lemma active_count_full l : active_count l = Z.of_nat (length l) <-> Forall (fun s => session_active s = true) l.
Proof.
  induction l as [|s l IH]; [split; [constructor|done]|].
  change (s :: l) with ([s] ++ l). rewrite active_count_app, active_count_one, length_app, Forall_app, Forall_singleton, <- IH.
  pose proof (active_count_le l). cbn [length]. destruct (session_active s); cbn; split.
  - intros. split; [done|lia].
  - intros [_ ?]. lia.
  - lia.
  - by intros [? _].
Qed.

(** Replacing the session of a slot. *)
Lemma table_set t i s s' count : table_inv t -> tb_sessions t !! i = Some s -> session_ok i s' ->
  count = tb_active_count t - b2z (session_active s) + b2z (session_active s') ->
  (session_active s' = true -> forall j x, j <> i -> tb_sessions t !! j = Some x ->
     session_active x = true -> ~ addr_eq (cs_addr x) (cs_addr s')) ->
  table_inv (t <| tb_sessions := <[i := s']> (tb_sessions t) |> <| tb_active_count := count |>).
Proof.
  intros [Hm Hl Hc Hs Hd] Hi Hok -> Hnew. assert (i < length (tb_sessions t))%nat by eauto using lookup_lt_Some.
  constructor; cbn [tb_sessions tb_max_clients tb_active_count upd]; cbn; rewrite ?length_insert; try done.
  - by rewrite (active_count_insert _ _ _ _ Hi), Hc.
  - intros j x Hx. destruct (decide (j = i)) as [->|Hne].
    + rewrite list_lookup_insert_eq in Hx by done. by injection Hx as <-.
    + rewrite list_lookup_insert_ne in Hx by done. by apply Hs.
  - intros a b x y Ha Hb Hax Hay E.
    destruct (decide (a = i)) as [->|Hna], (decide (b = i)) as [->|Hnb]; [done| | |].
    + rewrite list_lookup_insert_eq in Ha by done. injection Ha as <-.
      rewrite list_lookup_insert_ne in Hb by done.
      exfalso. eapply (Hnew Hax b y Hnb Hb Hay). by symmetry.
    + rewrite list_lookup_insert_eq in Hb by done. injection Hb as <-.
      rewrite list_lookup_insert_ne in Ha by done.
      exfalso. by eapply (Hnew Hay a x Hna Ha Hax).
    + rewrite list_lookup_insert_ne in Ha, Hb by done. by eapply Hd.
Qed.

(** Updating a session without changing whether it is active or its peer. *)
Lemma session_upd_inv t i f : table_inv t ->
  (forall s, tb_sessions t !! i = Some s -> session_ok i s ->
     session_ok i (f s) /\ session_active (f s) = session_active s /\ cs_addr (f s) = cs_addr s) ->
  table_inv (session_upd t i f).
Proof.
  intros T Hf. unfold session_upd. destruct (tb_sessions t !! i) as [s|] eqn:Hi.
  - destruct (Hf s eq_refl (ti_sessions _ T _ _ Hi)) as (Hok & Ha & Haddr).
    rewrite (list_lookup_total_correct _ _ _ Hi).
    assert (E : t <| tb_sessions := <[i := f s]> (tb_sessions t) |> =
      t <| tb_sessions := <[i := f s]> (tb_sessions t) |> <| tb_active_count := tb_active_count t |>) by (by destruct t).
    rewrite E. eapply table_set; [done|done|done|rewrite Ha; lia|].
    intros Hact j x Hne Hx Hax Heq. apply Hne. rewrite Haddr in Heq. rewrite Ha in Hact.
    by eapply (ti_distinct _ T).
  - rewrite list_insert_ge by (by apply lookup_ge_None_1 in Hi). by destruct t.
Qed.

(** ** Initialisation, release *)

Lemma rtt_fresh_ok : rtt_ok (rel4u_rtt_init REL4U_RTT_DEFAULT_RTO_MS REL4U_RTT_MIN_RTO_MS REL4U_RTT_MAX_RTO_MS).
Proof. apply rtt_default_ok. Qed.

Lemma send_init_rep w c : cap_ok c ->
  fst (rel4u_send_window_init w c 1 true) = 0 /\ send_rep (snd (rel4u_send_window_init w c 1 true)) 1 [] /\
  send_ok (snd (rel4u_send_window_init w c 1 true)).
Proof.
  intros Hc. unfold rel4u_send_window_init. pose proof Hc as [Hr Hp]. rewrite Hp.
  destruct (Z.ltb_spec c 2); [lia|]. cbn [orb negb fst snd]. split; [done|].
  match goal with |- send_rep ?w' _ _ /\ _ => assert (R : send_rep w' 1 []) end.
  2: { split; [exact R|]. split; [word_unfold; cbn; lia|by exists 1, []]. }
  apply (fresh_rep (replicate (Z.to_nat c) send_slot_zero) c 1 1); [done|word_unfold; lia|].
  rewrite length_replicate. lia.
Qed.

Lemma session_init_ok c i : cap_ok c ->
  exists s, session_init c i (true, true) = Some s /\ session_ok i s /\ session_active s = false.
Proof.
  intros Hc. unfold session_init. cbn [fst snd].
  set (s0 := session_zero <| cs_client_id := _ |> <| cs_state := _ |>).
  destruct (send_init_rep (cs_send_win s0) c Hc) as (E1 & _ & R1).
  destruct (rel4u_send_window_init _ _ _ _) as [r sw]. cbn [fst snd] in *. subst r. cbn [Z.eqb negb].
  destruct (recv_init_safe (cs_recv_win s0) c 1 Hc ltac:(word_unfold; lia)) as [E2 R2].
  destruct (rel4u_recv_window_init _ _ _ _) as [r rw]. cbn [fst snd] in *. subst r. cbn [Z.eqb negb].
  eexists. split; [reflexivity|]. split; [|done].
  constructor; [done|done|done|apply rtt_fresh_ok|unfold UINT64_MAX; cbn; lia|word_unfold; cbn; lia].
Qed.

Lemma table_init_inv t n policy c : 0 < n < 2 ^ 31 -> cap_ok c ->
  fst (rel4u_session_table_init t n policy c true (fun _ => (true, true))) = 0 /\
  table_inv (snd (rel4u_session_table_init t n policy c true (fun _ => (true, true)))).
Proof.
  intros Hn Hc. unfold rel4u_session_table_init. pose proof Hc as [Hr Hp]. rewrite Hp.
  rewrite (proj2 (Z.eqb_neq n 0)), (proj2 (Z.ltb_ge c 2)) by lia. cbn [orb negb].
  assert (H : forall k i, exists l, mapM (fun i => session_init c i (true, true)) (seq i k) = Some l /\
    length l = k /\ forall j s, l !! j = Some s -> session_ok (i + j) s /\ session_active s = false).
  { induction k as [|k IH]; intros i; cbn [seq mapM].
    - exists []. split; [done|]. split; [done|]. by intros j s Hj%lookup_nil_Some || (intros j s Hj; by rewrite lookup_nil in Hj).
    - destruct (session_init_ok c i Hc) as (s & -> & Hok & Ha). destruct (IH (S i)) as (l & -> & Hl & Hls).
      exists (s :: l). split; [done|]. split; [cbn; by rewrite Hl|].
      intros [|j] x Hx; cbn in Hx; [injection Hx as <-; by rewrite Nat.add_0_r|].
      rewrite <- Nat.add_succ_comm. by apply Hls. }
  destruct (H (Z.to_nat n) 0%nat) as (l & -> & Hl & Hls). cbn [fst snd]. split; [done|].
  assert (Hz : active_count l = 0).
  { unfold active_count. assert (filter (fun s => session_active s = true) l = []) as ->; [|done].
    apply list_eq_nil_filter_2 || (apply elem_of_nil_inv; intros s [Hs Hin]%list_elem_of_filter;
      apply list_elem_of_lookup in Hin as [j Hj]; destruct (Hls j s Hj) as [_ ?]; congruence). }
  constructor; cbn; rewrite ?Hl; try lia.
  - intros i s Hs. by apply (Hls i s).
  - intros i j s s' Hi _ Ha _. destruct (Hls i s Hi) as [_ ?]. congruence.
Qed.

Lemma session_free_inv t i : table_inv t -> table_inv (rel4u_session_free t i).
Proof.
  intros T. unfold rel4u_session_free. destruct (session_active (tb_sessions t !!! i)) eqn:Ha; cbn [negb]; [|done].
  destruct (tb_sessions t !! i) as [s|] eqn:Hi.
  2:{ rewrite list_lookup_total_alt, Hi in Ha. done. }
  rewrite (list_lookup_total_correct _ _ _ Hi) in Ha.
  unfold session_upd. rewrite (list_lookup_total_correct _ _ _ Hi). cbn [tb_active_count upd].
  assert (Hpos : 0 < tb_active_count t).
  { rewrite (ti_count _ T). by eapply active_count_pos. }
  cbn. rewrite (proj2 (Z.gtb_lt _ _)) by done.
  eapply table_set; [done|done| |rewrite Ha; change (session_active _) with false; cbn [b2z]; lia|done].
  destruct (ti_sessions _ T _ _ Hi). by constructor.
Qed.

(** ** Least recently active *)

Lemma lru_spec l : Forall (fun s => cs_last_activity_ns s <= UINT64_MAX) l ->
  let '(t, o) := foldl lru_step (UINT64_MAX, None) (imap pair l) in
  (forall j s, l !! j = Some s -> session_active s = true -> t <= cs_last_activity_ns s) /\
  match o with
  | Some i => exists s, l !! i = Some s /\ session_active s = true /\ cs_last_activity_ns s = t
  | None => t = UINT64_MAX
  end.
Proof.
  induction l as [|s l IH] using rev_ind; intros Hb; [by split|].
  apply Forall_app in Hb as [Hb Hs%Forall_singleton]. specialize (IH Hb).
  rewrite imap_app, foldl_app. cbn [imap foldl]. rewrite Nat.add_0_r.
  destruct (foldl lru_step _ (imap pair l)) as [t o]. destruct IH as [Hmin Ho]. cbn [lru_step].
  assert (Hold : match o with Some i => exists x, (l ++ [s]) !! i = Some x /\ session_active x = true /\
    cs_last_activity_ns x = t | None => t = UINT64_MAX end).
  { destruct o as [i|]; [|done]. destruct Ho as (x & Hx & ?). exists x.
    split; [by apply lookup_app_l_Some|done]. }
  assert (Hm : forall t', t' <= t -> (session_active s = true -> t' <= cs_last_activity_ns s) ->
    forall j x, (l ++ [s]) !! j = Some x -> session_active x = true -> t' <= cs_last_activity_ns x).
  { intros t' Ht Hts j x [Hx|[_ Hx]]%lookup_app_Some Hax; [specialize (Hmin j x Hx Hax); lia|].
    destruct (j - length l)%nat; [|done]. injection Hx as <-. by apply Hts. }
  destruct (session_active s) eqn:Ha; [|split; [by apply Hm|done]].
  destruct (Z.ltb_spec (cs_last_activity_ns s) t).
  - split; [apply Hm; [lia|done]|]. exists s. split; [|done]. by apply list_lookup_middle.
  - split; [apply Hm; [done|by intros]|done].
Qed.

(** ** Allocation *)

(** A session that has just been taken over by [addr]. *)
Record session_fresh (addr : rel4u_net_addr) (session_id : Z) (s : rel4u_client_session) : Prop := {
  sf_id : cs_session_id s = session_id;
  sf_addr : cs_addr s = addr;
  sf_state : cs_state s = REL4U_STATE_CONNECTING;
  sf_send : send_rep (cs_send_win s) 1 [];
  sf_expected : rw_expected_seq (cs_recv_win s) = 1;
  sf_empty : Forall (fun x => rs_received x = false) (rw_slots (cs_recv_win s));
  sf_stats : cs_stats s = stats_zero;
  sf_pending : cs_ack_pending s = false
}.

Lemma session_assign_eq s addr session_id ok :
  session_assign s addr session_id ok =
  let c := if sw_capacity (cs_send_win s) =? 0 then 64 else sw_capacity (cs_send_win s) in
  mk_session (cs_client_id s) session_id addr REL4U_STATE_CONNECTING
    (snd (rel4u_send_window_init (rel4u_send_window_destroy (cs_send_win s)) c 1 (fst ok)))
    (snd (rel4u_recv_window_init (rel4u_recv_window_destroy (cs_recv_win s)) c 1 (snd ok)))
    rtt_default stats_zero (cs_last_activity_ns s) (cs_last_heartbeat_sent_ns s) (cs_last_ack_sent_ns s) false.
Proof. by destruct s. Qed.

Lemma session_assign_ok i s addr session_id : session_ok i s -> is_u32 session_id ->
  session_ok i (session_assign s addr session_id (true, true)) /\
  session_fresh addr session_id (session_assign s addr session_id (true, true)).
Proof.
  intros [Hid (_ & h & es & R) Hr Ht Hn _] Hsid. rewrite session_assign_eq. cbn [fst snd]. cbv zeta.
  pose proof (sr_cap _ _ _ R) as Hc. pose proof Hc as [Hc2 Hp].
  rewrite (proj2 (Z.eqb_neq (sw_capacity _) 0)) by lia. set (c := sw_capacity _) in *.
  set (sw := rel4u_send_window_destroy _). set (rw := rel4u_recv_window_destroy _).
  destruct (send_init_rep sw c Hc) as (_ & R1 & R0). destruct (recv_init_safe rw c 1 Hc ltac:(word_unfold; lia)) as [_ R2].
  assert (Hfresh : rw_expected_seq (snd (rel4u_recv_window_init rw c 1 true)) = 1 /\
    Forall (fun x => rs_received x = false) (rw_slots (snd (rel4u_recv_window_init rw c 1 true)))).
  { unfold rel4u_recv_window_init. rewrite Hp, (proj2 (Z.ltb_ge _ _)) by lia.
    split; [done|]. by apply Forall_replicate. }
  destruct Hfresh. set (sw' := snd (rel4u_send_window_init _ _ _ _)) in *.
  set (rw' := snd (rel4u_recv_window_init _ _ _ _)) in *. clearbody sw' rw'.
  split; constructor; cbn; done.
Qed.

Lemma find_none t addr : rel4u_session_find_by_addr t addr = None ->
  forall j s, tb_sessions t !! j = Some s -> session_active s = true -> ~ addr_eq (cs_addr s) addr.
Proof.
  unfold rel4u_session_find_by_addr. intros H%fmap_None%list_find_None j s Hj Ha He.
  rewrite Forall_lookup in H. by apply (H j s Hj).
Qed.

Lemma session_pick_spec t : table_inv t ->
  let '(o, ev, count) := session_pick t in
  match o with
  | None => ev = false /\ tb_active_count t = tb_max_clients t /\ tb_full_policy t = REL4U_MAX_CLIENTS_REJECT
  | Some i => exists s, tb_sessions t !! i = Some s /\ count = tb_active_count t - b2z (session_active s) /\
      0 <= count < tb_max_clients t /\ ev = session_active s /\
      (ev = true -> tb_active_count t = tb_max_clients t /\ tb_full_policy t = REL4U_MAX_CLIENTS_DROP_OLD /\
         forall j x, tb_sessions t !! j = Some x -> session_active x = true ->
           cs_last_activity_ns s <= cs_last_activity_ns x)
  end.
Proof.
  intros T. pose proof (active_count_le (tb_sessions t)) as Hle. rewrite <- (ti_count _ T), (ti_length _ T) in Hle.
  unfold session_pick. destruct (Z.ltb_spec (tb_active_count t) (tb_max_clients t)) as [Hlt|Hge].
  - destruct (list_find _ (tb_sessions t)) as [[i s]|] eqn:E; cbn [fmap option_fmap option_map fst].
    + apply list_find_Some in E as (Hi & Ha & _). exists s. rewrite Ha. cbn. split; [done|]. split; [lia|].
      split; [lia|]. done.
    + exfalso. apply list_find_None in E. assert (active_count (tb_sessions t) = Z.of_nat (length (tb_sessions t))).
      { apply active_count_full. eapply Forall_impl; [exact E|]. cbn. intros s. by destruct (session_active s). }
      rewrite (ti_length _ T), <- (ti_count _ T) in *. lia.
  - assert (Hfull : tb_active_count t = tb_max_clients t) by lia.
    destruct (tb_full_policy t) eqn:Ep; [done|].
    assert (Hall : Forall (fun s => session_active s = true) (tb_sessions t)).
    { apply active_count_full. rewrite <- (ti_count _ T), (ti_length _ T). done. }
    pose proof (ti_max _ T) as Hmax. pose proof (ti_length _ T) as Hlen.
    assert (Htm : Forall (fun s => cs_last_activity_ns s <= UINT64_MAX) (tb_sessions t)).
    { apply Forall_lookup. intros i s Hs. pose proof (se_time _ _ (ti_sessions _ T _ _ Hs)). lia. }
    pose proof (lru_spec (tb_sessions t) Htm) as L.
    destruct (foldl lru_step _ _) as [tm o]. cbn [snd]. destruct L as [Hmin Ho]. destruct o as [i|].
    + destruct Ho as (s & Hs & Ha & <-). exists s. rewrite Ha. cbn [b2z].
      rewrite u32_small by (word_unfold; lia). split; [done|]. split; [done|]. split; [lia|]. done.
    + exfalso. destruct (tb_sessions t) as [|s l] eqn:El; [cbn in Hlen; lia|].
      apply Forall_cons in Hall as [Ha _]. specialize (Hmin 0%nat s eq_refl Ha).
      assert (Hs : tb_sessions t !! 0%nat = Some s) by (by rewrite El).
      pose proof (se_time _ _ (ti_sessions _ T _ _ Hs)). lia.
Qed.

Lemma allocate_spec t addr sid : table_inv t -> is_u32 sid -> rel4u_session_find_by_addr t addr = None ->
  let '(o, ev, t') := rel4u_session_allocate t addr sid (true, true) in
  match o with
  | None => t' = t /\ ev = false /\ tb_active_count t = tb_max_clients t /\
      tb_full_policy t = REL4U_MAX_CLIENTS_REJECT
  | Some i => exists s, tb_sessions t !! i = Some s /\ ev = session_active s /\
      table_inv t' /\ session_fresh addr sid (tb_sessions t' !!! i) /\
      (forall j, j <> i -> tb_sessions t' !! j = tb_sessions t !! j) /\
      tb_active_count t' = tb_active_count t + 1 - b2z ev /\
      (ev = true -> tb_active_count t = tb_max_clients t /\ tb_full_policy t = REL4U_MAX_CLIENTS_DROP_OLD /\
         forall j x, tb_sessions t !! j = Some x -> session_active x = true ->
           cs_last_activity_ns s <= cs_last_activity_ns x)
  end.
Proof.
  intros T Hsid Hf. unfold rel4u_session_allocate. pose proof (ti_length _ T) as Hlen. pose proof (ti_max _ T) as Hmax.
  rewrite (proj2 (Nat.eqb_neq _ _)) by lia. pose proof (session_pick_spec t T) as P.
  destruct (session_pick t) as [[o ev] count]. destruct o as [i|]; [|tauto].
  destruct P as (s & Hi & -> & Hr & -> & He). exists s.
  rewrite (list_lookup_total_correct _ _ _ Hi).
  destruct (session_assign_ok i s addr sid (ti_sessions _ T _ _ Hi) Hsid) as [Hok Hfr].
  set (s' := session_assign s addr sid (true, true)) in *. clearbody s'.
  assert (Ha' : session_active s' = true) by (unfold session_active; by rewrite (sf_state _ _ _ Hfr)).
  assert (Hlt : (i < length (tb_sessions t))%nat) by eauto using lookup_lt_Some.
  split; [done|]. split; [done|]. split; [|split; [|split; [|split; [|done]]]].
  - eapply table_set; [done|done|done| |].
    + rewrite Ha', u32_small by (word_unfold; lia). cbn. lia.
    + intros _ j x Hne Hx Hax. rewrite (sf_addr _ _ _ Hfr). by eapply find_none.
  - cbn. rewrite list_lookup_total_insert_eq by done. done.
  - intros j Hj. cbn. by apply list_lookup_insert_ne.
  - cbn. rewrite u32_small by (word_unfold; lia). lia.
Qed.

(** ** Properties *)

(** What the server does to the table, in the order it takes the table's mutex: a
    connect request of [addr] (allocation unless the peer has a session, then the
    activity time), a packet of a session, the release of a session. *)
Inductive table_op :=
  | OpConnect (addr : rel4u_net_addr) (session_id now_ns : Z)
  | OpTouch (i : nat) (now_ns : Z)
  | OpFree (i : nat).

Definition table_op_ok (o : table_op) : Prop :=
  match o with
  | OpConnect _ sid now => is_u32 sid /\ 0 <= now < UINT64_MAX
  | OpTouch _ now => 0 <= now < UINT64_MAX
  | OpFree _ => True
  end.

Definition run_table_op (t : rel4u_session_table) (o : table_op) : rel4u_session_table :=
  match o with
  | OpConnect addr session_id now =>
      match rel4u_session_find_by_addr t addr with
      | Some i => rel4u_session_touch_lru t i now
      | None =>
          let '(i, _, t) := rel4u_session_allocate t addr session_id (true, true) in
          match i with Some i => rel4u_session_touch_lru t i now | None => t end
      end
  | OpTouch i now => rel4u_session_touch_lru t i now
  | OpFree i => rel4u_session_free t i
  end.

Lemma touch_inv t i now : table_inv t -> 0 <= now < UINT64_MAX -> table_inv (rel4u_session_touch_lru t i now).
Proof. intros T Hn. apply session_upd_inv; [done|]. intros s _ []. split; [by constructor|done]. Qed.

Lemma run_table_op_inv t o : table_inv t -> table_op_ok o -> table_inv (run_table_op t o).
Proof.
  intros T Ho. destruct o as [addr sid now|i now|i]; cbn [run_table_op table_op_ok] in *.
  - destruct Ho as [Hsid Ho]. destruct (rel4u_session_find_by_addr t addr) as [i|] eqn:Hf; [by apply touch_inv|].
    pose proof (allocate_spec t addr sid T Hsid Hf) as A.
    destruct (rel4u_session_allocate t addr sid (true, true)) as [[[i|] ev] t'].
    + destruct A as (s & _ & _ & T' & _). by apply touch_inv.
    + destruct A as (-> & _). done.
  - by apply touch_inv.
  - by apply session_free_inv.
Qed.

Lemma run_table_ops_inv ops : Forall table_op_ok ops -> forall t, table_inv t ->
  table_inv (foldl run_table_op t ops).
Proof. induction 1 as [|o ops Ho _ IH]; intros t T; [done|]. by apply IH, run_table_op_inv. Qed.

(** The table is consistent after any sequence of connects, packets and
    releases: the active count is the number of active sessions and at most the
    maximum, a session's id is its index, no two active sessions belong to the
    same peer, and all windows and estimators are well formed. *)
Theorem session_table_invariant n policy c ops t :
  0 < n < 2 ^ 31 -> cap_ok c -> Forall table_op_ok ops ->
  t = foldl run_table_op (snd (rel4u_session_table_init table_zero n policy c true (fun _ => (true, true)))) ops ->
  table_inv t /\ tb_active_count t <= tb_max_clients t.
Proof.
  intros Hn Hc Ho ->. match goal with |- table_inv ?t /\ _ => assert (T : table_inv t) end.
  { apply run_table_ops_inv; [done|]. by apply table_init_inv. }
  split; [done|]. rewrite (ti_count _ T), <- (ti_length _ T). apply active_count_le.
Qed.

(** The slot that is picked while there is a free one is the first free one. *)
Lemma session_pick_first t i count : session_pick t = (Some i, false, count) ->
  forall j x, (j < i)%nat -> tb_sessions t !! j = Some x -> session_active x = true.
Proof.
  unfold session_pick. destruct (tb_active_count t <? tb_max_clients t).
  - destruct (list_find _ _) as [[k s]|] eqn:E; intros [= <- _]. intros j x Hj Hx.
    apply list_find_Some in E as (_ & _ & H). specialize (H j x Hx Hj). by destruct (session_active x).
  - destruct (tb_full_policy t); [done|]. by destruct (snd _).
Qed.

(** What allocation does whether or not the windows can be allocated. *)
Lemma allocate_any t addr sid ok : table_inv t ->
  let '(o, ev, t') := rel4u_session_allocate t addr sid ok in
  match o with
  | None => t' = t /\ ev = false /\ tb_active_count t = tb_max_clients t /\
      tb_full_policy t = REL4U_MAX_CLIENTS_REJECT
  | Some i => exists s, tb_sessions t !! i = Some s /\ ev = session_active s /\
      tb_sessions t' = <[i := session_assign s addr sid ok]> (tb_sessions t) /\
      tb_active_count t' = tb_active_count t + 1 - b2z ev /\
      (ev = false -> forall j x, (j < i)%nat -> tb_sessions t !! j = Some x -> session_active x = true) /\
      (ev = true -> tb_active_count t = tb_max_clients t /\ tb_full_policy t = REL4U_MAX_CLIENTS_DROP_OLD /\
         forall j x, tb_sessions t !! j = Some x -> session_active x = true ->
           cs_last_activity_ns s <= cs_last_activity_ns x)
  end.
Proof.
  intros T. unfold rel4u_session_allocate. pose proof (ti_length _ T) as Hlen. pose proof (ti_max _ T) as Hmax.
  rewrite (proj2 (Nat.eqb_neq _ _)) by lia. pose proof (session_pick_spec t T) as P.
  pose proof (session_pick_first t) as F.
  destruct (session_pick t) as [[o ev] count]. destruct o as [i|]; [|tauto].
  destruct P as (s & Hi & -> & Hr & -> & He). exists s.
  rewrite (list_lookup_total_correct _ _ _ Hi). split; [done|]. split; [done|]. split; [done|]. split; [|split; [|done]].
  - cbn. rewrite u32_small by (word_unfold; lia). lia.
  - intros Ha. eapply F. by rewrite Ha.
Qed.

(** C32. Allocation: while a slot is free the first free one is used; when all are
    taken the REJECT policy refuses without a change, and DROP_OLD evicts a session
    that has been inactive longest.  The slot then has the new peer, the new number
    and state CONNECTING, the other sessions are untouched and the count stays
    exact, whether or not the slot's new windows could be allocated, which the code
    does not test.  When they could be ([ok] is [(true, true)]) and the peer had no
    session, the slot is fresh (empty windows at sequence number 1, zeroed
    statistics) and the table stays consistent. *)
Theorem session_allocate_spec t addr sid ok : table_inv t ->
  let '(o, ev, t') := rel4u_session_allocate t addr sid ok in
  match o with
  | None => t' = t /\ ev = false /\ tb_active_count t = tb_max_clients t /\
      tb_full_policy t = REL4U_MAX_CLIENTS_REJECT
  | Some i => exists s, tb_sessions t !! i = Some s /\ ev = session_active s /\
      (let s' := tb_sessions t' !!! i in
       cs_addr s' = addr /\ cs_session_id s' = sid /\ cs_state s' = REL4U_STATE_CONNECTING) /\
      (forall j, j <> i -> tb_sessions t' !! j = tb_sessions t !! j) /\
      tb_active_count t' = tb_active_count t + 1 - b2z ev /\
      (ev = false -> forall j x, (j < i)%nat -> tb_sessions t !! j = Some x -> session_active x = true) /\
      (ev = true -> tb_active_count t = tb_max_clients t /\ tb_full_policy t = REL4U_MAX_CLIENTS_DROP_OLD /\
         forall j x, tb_sessions t !! j = Some x -> session_active x = true ->
           cs_last_activity_ns s <= cs_last_activity_ns x) /\
      (ok = (true, true) -> is_u32 sid -> rel4u_session_find_by_addr t addr = None ->
         table_inv t' /\ session_fresh addr sid (tb_sessions t' !!! i))
  end.
Proof.
  intros T. pose proof (allocate_any t addr sid ok T) as A. pose proof (allocate_spec t addr sid T) as S.
  destruct (rel4u_session_allocate t addr sid ok) as [[[i|] ev] t'] eqn:E; [|exact A].
  destruct A as (s & Hi & Hev & Ht & Hcount & Hfirst & Hlru). exists s. rewrite Ht.
  rewrite list_lookup_total_insert_eq by eauto using lookup_lt_Some.
  split; [exact Hi|]. split; [exact Hev|]. split; [by rewrite session_assign_eq|].
  split; [intros j Hj; by apply list_lookup_insert_ne|]. split; [exact Hcount|]. split; [exact Hfirst|].
  split; [exact Hlru|]. intros -> Hsid Hf. rewrite E in S. destruct (S Hsid Hf) as (_ & _ & _ & T' & Hfr & _).
  rewrite Ht in Hfr. rewrite list_lookup_total_insert_eq in Hfr by eauto using lookup_lt_Some. done.
Qed.

Lemma find_by_addr_spec t addr i : table_inv t ->
  rel4u_session_find_by_addr t addr = Some i <->
  exists s, tb_sessions t !! i = Some s /\ session_active s = true /\ addr_eq (cs_addr s) addr.
Proof.
  intros T. unfold rel4u_session_find_by_addr. split.
  - intros H. apply fmap_Some in H as ([j s] & H & ->). apply list_find_Some in H as (Hs & [Ha He] & _).
    by exists s.
  - intros (s & Hs & Ha & He). destruct (list_find _ _) as [[j x]|] eqn:E.
    + apply list_find_Some in E as (Hx & [Hax Hex] & _). cbn. f_equal.
      eapply (ti_distinct _ T); [done|done|done|done|]. etransitivity; [exact Hex|]. by symmetry.
    + apply list_find_None in E. rewrite Forall_lookup in E. exfalso. by apply (E i s Hs).
Qed.

(** Lookup finds exactly the active session of the peer, which is unique, however
    the address is represented; the id of the session found by address finds the
    same session again. *)
Theorem session_lookup_spec t addr addr' i : table_inv t -> addr_eq addr addr' ->
  (rel4u_session_find_by_addr t addr = Some i <->
   exists s, tb_sessions t !! i = Some s /\ session_active s = true /\ addr_eq (cs_addr s) addr) /\
  rel4u_session_find_by_addr t addr = rel4u_session_find_by_addr t addr' /\
  (rel4u_session_find_by_addr t addr = Some i ->
   rel4u_session_find_by_id t (cs_client_id (tb_sessions t !!! i)) = Some i).
Proof.
  intros T He. split; [by apply find_by_addr_spec|]. split.
  - unfold rel4u_session_find_by_addr. f_equal. apply list_find_ext. intros s.
    change (session_active s = true /\ addr_eq (cs_addr s) addr <->
      session_active s = true /\ addr_eq (cs_addr s) addr').
    split; intros [Ha Hs]; (split; [done|]); [by etransitivity|]. etransitivity; [exact Hs|by symmetry].
  - intros (s & Hs & Ha & _)%find_by_addr_spec; [|done]. rewrite (list_lookup_total_correct _ _ _ Hs).
    rewrite (se_id _ _ (ti_sessions _ T _ _ Hs)). unfold rel4u_session_find_by_id.
    assert (Hlt : (i < length (tb_sessions t))%nat) by eauto using lookup_lt_Some.
    rewrite (proj2 (Nat.eqb_neq _ _)) by lia. pose proof (ti_length _ T).
    destruct (Z.geb_spec (Z.of_nat i) (tb_max_clients t)); [lia|]. cbn [orb].
    unfold arr_get. rewrite Nat2Z.id, (list_lookup_total_correct _ _ _ Hs), Ha. done.
Qed.

(** ** Witnesses *)

Definition sample_addr (port : Z) : rel4u_net_addr := mk_addr (AF_INET port 16777343) 16.
(** Two slots, both taken, the second less recently active. *)
Definition sample_table0 : rel4u_session_table := Eval vm_compute in
  snd (rel4u_session_table_init table_zero 2 REL4U_MAX_CLIENTS_DROP_OLD 4 true (fun _ => (true, true))).
Definition sample_table_ops : list table_op :=
  [OpConnect (sample_addr 1) 11 5; OpConnect (sample_addr 2) 12 6; OpTouch 0 9].
Definition sample_table : rel4u_session_table := Eval vm_compute in
  foldl run_table_op sample_table0 sample_table_ops.

Lemma cap_ok_4 : cap_ok 4.
Proof. split; [lia|reflexivity]. Qed.
Lemma sample_table_ops_ok : Forall table_op_ok sample_table_ops.
Proof. repeat constructor; cbn; unfold UINT64_MAX; word_unfold; lia. Qed.
Lemma sample_table_eq : sample_table = foldl run_table_op
  (snd (rel4u_session_table_init table_zero 2 REL4U_MAX_CLIENTS_DROP_OLD 4 true (fun _ => (true, true)))) sample_table_ops.
Proof. vm_compute. reflexivity. Qed.

Lemma session_table_invariant_witness : table_inv sample_table.
Proof.
  exact (proj1 (session_table_invariant 2 REL4U_MAX_CLIENTS_DROP_OLD 4 sample_table_ops sample_table
    ltac:(lia) cap_ok_4 sample_table_ops_ok sample_table_eq)).
Defined.

Lemma sample_table_inv : table_inv sample_table.
Proof.
  rewrite sample_table_eq. apply run_table_ops_inv; [apply sample_table_ops_ok|]. apply table_init_inv; [lia|apply cap_ok_4].
Qed.

Lemma session_allocate_spec_witness :
  exists t', rel4u_session_allocate sample_table (sample_addr 3) 13 (true, true) = (Some 1%nat, true, t') /\
    table_inv t' /\ session_fresh (sample_addr 3) 13 (tb_sessions t' !!! 1%nat).
Proof.
  pose proof (session_allocate_spec sample_table (sample_addr 3) 13 (true, true) sample_table_inv) as H.
  assert (E : fst (rel4u_session_allocate sample_table (sample_addr 3) 13 (true, true)) = (Some 1%nat, true))
    by (vm_compute; reflexivity).
  destruct (rel4u_session_allocate sample_table (sample_addr 3) 13 (true, true)) as [[o ev] t'].
  cbn [fst] in E. injection E as -> ->. exists t'. split; [reflexivity|].
  destruct H as (s & _ & _ & _ & _ & _ & _ & _ & F). apply F; [reflexivity|word_unfold; lia|reflexivity].
Defined.

Lemma session_lookup_spec_witness :
  rel4u_session_find_by_addr sample_table (sample_addr 2) = Some 1%nat /\
  rel4u_session_find_by_id sample_table (cs_client_id (tb_sessions sample_table !!! 1%nat)) = Some 1%nat.
Proof.
  pose proof (session_lookup_spec sample_table (sample_addr 2) (sample_addr 2) 1 sample_table_inv eq_refl) as H.
  assert (E : rel4u_session_find_by_addr sample_table (sample_addr 2) = Some 1%nat) by (vm_compute; reflexivity).
  split; [exact E|]. apply (proj2 (proj2 H)). exact E.
Defined.
