(* ===== verification/Endpoint.v ===== *)
(** * What the client and the server worker share

    Both worker threads hand received slots to the application's queue and drain
    the receive window with the same code ([rel4u_client.c] 470-512,
    [rel4u_server.c] 435-477); it is modelled once, with the [client_id] of the
    queue items as a parameter.  The file also has the interface to the platform:
    the clock, the socket and the byte order of the host. *)
From S2P Require Import Prelude Ring Types Seq Packet Mpmc MpmcSpec Queue RecvWindow RecvSpec Recv RecvSafe Net Link.
From stdpp Require Import base numbers list gmap.
Open Scope Z_scope.
Open Scope rel4u_scope.

(** ** The platform *)

(** What the library needs of the system: the byte order, the readings of the
    monotonic clock and the results of the [sendto] calls, each in the order of
    the calls.  Clock readings are 64-bit nanoseconds that do not reach the
    largest one in any run (585 years). *)
Class Platform := {
  pf_host : endianness;
  pf_clock : nat -> Z;
  pf_sendto : nat -> Z -> Z;
  pf_clock_range : forall n, 0 <= pf_clock n < 2 ^ 64 - 1
}.

(** What a thread has done to the outside: how often it has read the clock and
    called [sendto], the datagrams the socket has accepted, oldest first, and
    whether the wakeup pipe has anything to read. *)
Record world := mk_world {
  wd_ticks : nat;
  wd_calls : nat;
  wd_sent : list (rel4u_net_addr * list Z);
  wd_wakeup : bool
}.

(** [rel4u_wakeup_pipe_signal] and [rel4u_wakeup_pipe_drain]. *)
Definition rel4u_wakeup_pipe_signal (pipe : rel4u_wakeup_pipe) (w : world) : world :=
  if wp_write_fd pipe =? -1 then w else mk_world (wd_ticks w) (wd_calls w) (wd_sent w) true.
Definition rel4u_wakeup_pipe_drain (pipe : rel4u_wakeup_pipe) (w : world) : world :=
  if wp_read_fd pipe =? -1 then w else mk_world (wd_ticks w) (wd_calls w) (wd_sent w) false.

Section platform.
Context {platform : Platform}.

Definition time_now_ns (w : world) : Z * world :=
  (pf_clock (wd_ticks w), mk_world (S (wd_ticks w)) (wd_calls w) (wd_sent w) (wd_wakeup w)).

(** [rel4u_net_sendto]: -1 without a socket, else what the system call returns. *)
Definition rel4u_net_sendto (w : world) (sock : Z) (buf : list Z) (dest : rel4u_net_addr) : Z * world :=
  if sock =? REL4U_INVALID_SOCKET then (-1, w) else
  let sent := pf_sendto (wd_calls w) (Z.of_nat (length buf)) in
  (sent, mk_world (wd_ticks w) (S (wd_calls w))
           (if sent >? 0 then wd_sent w ++ [(dest, buf)] else wd_sent w) (wd_wakeup w)).

(** The bytes [header, payload] that [client_send_packet] and
    [server_send_packet] build in [raw_buf]; [None] when encoding fails. *)
Definition encode_packet (hdr : rel4u_header) (payload : option (list Z)) (payload_len : Z)
  : option (list Z) :=
  let '(hdr_len, raw_buf) :=
    rel4u_packet_encode_header pf_host hdr (replicate 24 0) (REL4U_MAX_PAYLOAD_SIZE + REL4U_HEADER_LEN) in
  if hdr_len <=? 0 then None else
  Some (raw_buf ++ match payload with
                   | Some p => if payload_len >? 0 then take (Z.to_nat payload_len) p else []
                   | None => []
                   end).
End platform.

(** ** Statistics *)

(** The statistics after a successful [sendto]. *)
Definition stats_sent (stats : rel4u_stats) (sent : Z) : rel4u_stats :=
  stats <| st_packets_sent := u64 (st_packets_sent stats + 1) |>
        <| st_bytes_sent := u64 (st_bytes_sent stats + u64 sent) |>.

(** The statistics after a datagram of [bytes_read] bytes was accepted. *)
Definition stats_recv (stats : rel4u_stats) (bytes_read : Z) : rel4u_stats :=
  stats <| st_packets_recv := u64 (st_packets_recv stats + 1) |>
        <| st_bytes_recv := u64 (st_bytes_recv stats + bytes_read) |>.

(** ** Handing received messages to the application *)

Section data.
Context {allocator : Malloc}.

(** The queue item of a ready slot. *)
Definition ready_item (client_id : Z) (slot : rel4u_recv_slot) : rel4u_mpmc_item :=
  mk_item client_id (rs_delivery_mode slot) (rs_payload_len slot)
    (memcpy [] (rs_payload slot) (rs_payload_len slot)).

(** [for (k = 0; k < ready_count; k++) rel4u_mpmc_push_notify(...)]. *)
Definition deliver_ready (client_id : Z) (queue : rel4u_mpmc_queue) (ready : list rel4u_recv_slot)
    (ready_count : Z) : rel4u_mpmc_queue :=
  foldl (fun q slot => snd (fst (rel4u_mpmc_push_notify q (ready_item client_id slot)))) queue
    (take (Z.to_nat ready_count) ready).

(** The loop after an accepted packet: as long as the array comes back full.
    A turn that goes on has cleared a slot, so one turn per slot and one more are
    enough. *)
Fixpoint drain_full (fuel : nat) (client_id : Z) (win : rel4u_recv_window) (queue : rel4u_mpmc_queue)
    (ready : list rel4u_recv_slot) (ready_count : Z)
  : rel4u_recv_window * rel4u_mpmc_queue * list rel4u_recv_slot :=
  match fuel with
  | O => (win, queue, ready)
  | S fuel =>
      if ready_count =? 64 then
        let '(r, win, ready, ready_count) := rel4u_recv_window_pop_ready win ready 64 ready_count in
        if (r =? 0) && (ready_count >? 0)
        then drain_full fuel client_id win (deliver_ready client_id queue ready ready_count) ready ready_count
        else (win, queue, ready)
      else (win, queue, ready)
  end.

(** The loop after a duplicate: as long as anything is ready. *)
Fixpoint drain_any (fuel : nat) (client_id : Z) (win : rel4u_recv_window) (queue : rel4u_mpmc_queue)
    (ready : list rel4u_recv_slot) (ready_count : Z)
  : rel4u_recv_window * rel4u_mpmc_queue * list rel4u_recv_slot :=
  match fuel with
  | O => (win, queue, ready)
  | S fuel =>
      let '(r, win, ready, ready_count) := rel4u_recv_window_pop_ready win ready 64 ready_count in
      if (r =? 0) && (ready_count >? 0)
      then drain_any fuel client_id win (deliver_ready client_id queue ready ready_count) ready ready_count
      else (win, queue, ready)
  end.

(** A data packet: the window, the queue, the scratch array, and whether an
    acknowledgement is due. *)
Definition handle_data (client_id : Z) (win : rel4u_recv_window) (queue : rel4u_mpmc_queue)
    (ready : list rel4u_recv_slot) (hdr : rel4u_header) (payload : list Z)
  : rel4u_recv_window * rel4u_mpmc_queue * list rel4u_recv_slot * bool :=
  let '(res, win, ready, ready_count) :=
    rel4u_recv_window_on_packet win hdr (Some payload) ready 64 0 in
  if res =? 0 then
    let queue := deliver_ready client_id queue ready ready_count in
    let '(win, queue, ready) :=
      drain_full (S (length (rw_slots win))) client_id win queue ready ready_count in
    (win, queue, ready, true)
  else if res =? 1 then
    let '(win, queue, ready) :=
      drain_any (S (length (rw_slots win))) client_id win queue ready ready_count in
    (win, queue, ready, true)
  else (win, queue, ready, false).
End data.

(** ** What a data packet hands over *)

(** The slots that the calls of [rel4u_mpmc_push_notify] of a drain are made for,
    in their order. *)
Fixpoint drain_full_log (fuel : nat) (win : rel4u_recv_window) (ready : list rel4u_recv_slot) (ready_count : Z)
  : list rel4u_recv_slot :=
  match fuel with
  | O => []
  | S fuel =>
      if ready_count =? 64 then
        let '(r, win, ready, ready_count) := rel4u_recv_window_pop_ready win ready 64 ready_count in
        if (r =? 0) && (ready_count >? 0)
        then take (Z.to_nat ready_count) ready ++ drain_full_log fuel win ready ready_count else []
      else []
  end.

Fixpoint drain_any_log (fuel : nat) (win : rel4u_recv_window) (ready : list rel4u_recv_slot) (ready_count : Z)
  : list rel4u_recv_slot :=
  match fuel with
  | O => []
  | S fuel =>
      let '(r, win, ready, ready_count) := rel4u_recv_window_pop_ready win ready 64 ready_count in
      if (r =? 0) && (ready_count >? 0)
      then take (Z.to_nat ready_count) ready ++ drain_any_log fuel win ready ready_count else []
  end.

(** The slots a data packet hands to the application. *)
Definition data_log (win : rel4u_recv_window) (ready : list rel4u_recv_slot) (hdr : rel4u_header)
    (payload : list Z) : list rel4u_recv_slot :=
  let '(res, win, ready, ready_count) :=
    rel4u_recv_window_on_packet win hdr (Some payload) ready 64 0 in
  if res =? 0 then
    take (Z.to_nat ready_count) ready ++ drain_full_log (S (length (rw_slots win))) win ready ready_count
  else if res =? 1 then drain_any_log (S (length (rw_slots win))) win ready ready_count
  else [].

(** ** What handling a data packet does *)

Section data_spec.
Context {allocator : Malloc}.
Context (content : Z -> Z * list Z) (p0 client_id : Z).

(** The queue after pushing items one by one. *)
Definition push_all (q : rel4u_mpmc_queue) (items : list rel4u_mpmc_item) : rel4u_mpmc_queue :=
  foldl (fun q it => snd (fst (rel4u_mpmc_push_notify q it))) q items.

(** The message of position [q] as the application's queue carries it. *)
Definition queue_msg (q : Z) : msg := mk_msg client_id (mode_of content q) (data_of content q).

Lemma push_all_app q l1 l2 : push_all q (l1 ++ l2) = push_all (push_all q l1) l2.
Proof. apply foldl_app. Qed.

Lemma deliver_ready_push queue ready rc : deliver_ready client_id queue ready rc =
  push_all queue (ready_item client_id <$> take (Z.to_nat rc) ready).
Proof.
  unfold deliver_ready, push_all. generalize (take (Z.to_nat rc) ready) as l. intros l. revert queue.
  induction l as [|s l IH]; intros queue; [done|]. cbn [fmap list_fmap foldl]. apply IH.
Qed.

Lemma ready_item_msg s : item_msg (ready_item client_id s) =
  mk_msg client_id (snd (fst (slot_view s))) (snd (slot_view s)).
Proof.
  unfold item_msg, ready_item, slot_view, memcpy. cbn [it_client_id it_mode it_len it_data fst snd]. f_equal.
  rewrite drop_nil, app_nil_r, take_take. f_equal. lia.
Qed.

Lemma ready_items_msgs (ready : list rel4u_recv_slot) (ds : list Z) : slot_view <$> ready = pkt content <$> ds ->
  item_msg <$> (ready_item client_id <$> ready) = queue_msg <$> ds.
Proof.
  revert ds. induction ready as [|s ready IH]; intros [|q ds] H; cbn [fmap list_fmap] in *; [done|done|done|].
  assert (Hs : slot_view s = pkt content q) by congruence.
  assert (Hr : slot_view <$> ready = pkt content <$> ds) by congruence.
  f_equal; [|by apply IH]. by rewrite ready_item_msg, Hs.
Qed.

(** The queue gets exactly the logged slots. *)
Lemma drain_full_queue fuel : forall win queue ready rc,
  snd (fst (drain_full fuel client_id win queue ready rc)) =
  push_all queue (ready_item client_id <$> drain_full_log fuel win ready rc).
Proof.
  induction fuel as [|fuel IH]; intros win queue ready rc; cbn [drain_full drain_full_log]; [done|].
  destruct (rc =? 64); [|done]. destruct (rel4u_recv_window_pop_ready _ _ _ _) as [[[r win'] ready'] rc'].
  destruct (_ && _); [|done]. by rewrite IH, fmap_app, push_all_app, deliver_ready_push.
Qed.

Lemma drain_any_queue fuel : forall win queue ready rc,
  snd (fst (drain_any fuel client_id win queue ready rc)) =
  push_all queue (ready_item client_id <$> drain_any_log fuel win ready rc).
Proof.
  induction fuel as [|fuel IH]; intros win queue ready rc; cbn [drain_any drain_any_log]; [done|].
  destruct (rel4u_recv_window_pop_ready _ _ _ _) as [[[r win'] ready'] rc'].
  destruct (_ && _); [|done]. by rewrite IH, fmap_app, push_all_app, deliver_ready_push.
Qed.

Lemma handle_data_queue win queue ready hdr payload :
  snd (fst (fst (handle_data client_id win queue ready hdr payload))) =
  push_all queue (ready_item client_id <$> data_log win ready hdr payload).
Proof.
  unfold handle_data, data_log. destruct (rel4u_recv_window_on_packet _ _ _ _ _ _) as [[[r win1] ready1] rc].
  destruct (r =? 0); [|destruct (r =? 1); [|done]].
  - rewrite fmap_app, push_all_app, <- deliver_ready_push, <- drain_full_queue.
    by destruct (drain_full _ _ _ _ _ _) as [[? ?] ?].
  - rewrite <- drain_any_queue. by destruct (drain_any _ _ _ _ _ _) as [[? ?] ?].
Qed.

(** A run of drains from a window at [p]: the window ends at [p'] with the
    positions [ds'] newly delivered, which are those of the slots [log]. *)
Record delivered (win : rel4u_recv_window) (p : Z) (ds : list Z)
    (win' : rel4u_recv_window) (p' : Z) (ds' : list Z) (log : list rel4u_recv_slot) : Prop := {
  de_hist : recv_hist content p0 win' p' (ds ++ ds');
  de_pos : p <= p';
  de_log : slot_view <$> log = pkt content <$> ds';
  de_arrived : forall x, arrived win' p' x <-> arrived win p x
}.

Lemma delivered_refl win p ds : recv_hist content p0 win p ds -> delivered win p ds win p [] [].
Proof. intros H. constructor; rewrite ?app_nil_r; done. Qed.

Lemma delivered_trans win p ds win1 p1 ds1 log1 win2 p2 ds2 log2 :
  delivered win p ds win1 p1 ds1 log1 -> delivered win1 p1 (ds ++ ds1) win2 p2 ds2 log2 ->
  delivered win p ds win2 p2 (ds1 ++ ds2) (log1 ++ log2).
Proof.
  intros [H1 Hp1 E1 A1] [H2 Hp2 E2 A2]. constructor.
  - by rewrite app_assoc.
  - lia.
  - by rewrite !fmap_app, E1, E2.
  - intros x. by rewrite A2, A1.
Qed.

(** Popping once. *)
Lemma pop_delivered win p ds ready rc0 r win' ready' rc :
  recv_hist content p0 win p ds -> length ready = 64%nat ->
  rel4u_recv_window_pop_ready win ready 64 rc0 = (r, win', ready', rc) ->
  exists p' ds', delivered win p ds win' p' ds' (take (Z.to_nat rc) ready') /\
    r = 0 /\ length ready' = 64%nat /\ 0 <= rc /\ drain_done win' p' rc 64 /\ (0 < rc -> p < p').
Proof.
  intros H Hl E. destruct (hist_pop content p0 win p ds ready 64 rc0 r win' ready' rc H ltac:(lia) E)
    as (ds' & H' & Hv & Hp & Ha & Hr & Hd & Hl' & Hrc & Hlt).
  eexists _, ds'. split; [by constructor|]. split; [done|]. split; [congruence|]. split; [lia|]. by split.
Qed.

(** Moving on by a pop uses up one unit of [enough]. *)
Lemma enough_pop fuel win p ds win' p' ds' log : delivered win p ds win' p' ds' log ->
  enough fuel win p -> p < p' -> exists fuel', fuel = S fuel' /\ enough fuel' win' p'.
Proof.
  intros D He Hlt. destruct fuel as [|fuel].
  - assert (arrived win p p) as [?|Hh]; [|lia|specialize (He p Hh); lia].
    apply (de_arrived _ _ _ _ _ _ _ D). left. lia.
  - exists fuel. split; [done|]. intros x Hx. pose proof (proj1 Hx).
    assert (arrived win p x) as [?|Hh]; [|lia|specialize (He x Hh); lia].
    apply (de_arrived _ _ _ _ _ _ _ D). by right.
Qed.

(** A pop that finds nothing ends a drain. *)
Lemma pop_nothing win p ds win' p' ds' (ready : list rel4u_recv_slot) rc :
  delivered win p ds win' p' ds' (take (Z.to_nat rc) ready) -> rc <= 0 -> drain_done win' p' rc 64 ->
  delivered win p ds win' p' ds' [] /\ ~ held win' p' p'.
Proof.
  intros D Hrc Hd. replace (Z.to_nat rc) with 0%nat in D by lia. split; [exact D|]. destruct Hd; [lia|done].
Qed.

Lemma drain_any_spec fuel : forall win p ds queue ready rc0,
  recv_hist content p0 win p ds -> enough fuel win p -> length ready = 64%nat ->
  let '(win', queue', ready') := drain_any (S fuel) client_id win queue ready rc0 in
  exists p' ds', delivered win p ds win' p' ds' (drain_any_log (S fuel) win ready rc0) /\
    length ready' = 64%nat /\ ~ held win' p' p'.
Proof.
  induction fuel as [|fuel IH]; intros win p ds queue ready rc0 H He Hl; [|set (n := S fuel) in IH |- *];
    cbn [drain_any drain_any_log];
    destruct (rel4u_recv_window_pop_ready win ready 64 rc0) as [[[r win1] ready1] rc] eqn:E;
    destruct (pop_delivered win p ds _ _ _ _ _ _ H Hl E) as (p1 & ds1 & D1 & -> & Hl1 & Hrc & Hd & Hlt);
    cbn [Z.eqb andb]; destruct (Z.gtb_spec rc 0) as [Hpos|Hz].
  1: { destruct (enough_pop _ _ _ _ _ _ _ _ D1 He (Hlt Hpos)) as (? & ? & _). done. }
  2: { destruct (enough_pop _ _ _ _ _ _ _ _ D1 He (Hlt Hpos)) as (f & [= <-] & He1).
       specialize (IH win1 p1 (ds ++ ds1) (deliver_ready client_id queue ready1 rc) ready1 rc (de_hist _ _ _ _ _ _ _ D1) He1 Hl1).
       destruct (drain_any n _ _ _ _ _) as [[win' queue'] ready'].
       destruct IH as (p' & ds' & D' & Hl' & Hn). exists p', (ds1 ++ ds'). split; [by eapply delivered_trans|done]. }
  all: destruct (pop_nothing _ _ _ _ _ _ _ _ D1 Hz Hd); by exists p1, ds1.
Qed.

Lemma drain_full_spec fuel : forall win p ds queue ready rc0,
  recv_hist content p0 win p ds -> enough fuel win p -> length ready = 64%nat ->
  drain_done win p rc0 64 ->
  let '(win', queue', ready') := drain_full (S fuel) client_id win queue ready rc0 in
  exists p' ds', delivered win p ds win' p' ds' (drain_full_log (S fuel) win ready rc0) /\
    length ready' = 64%nat /\ ~ held win' p' p'.
Proof.
  assert (Hstop : forall win p ds (ready : list rel4u_recv_slot) rc0, recv_hist content p0 win p ds ->
    length ready = 64%nat -> drain_done win p rc0 64 -> rc0 <> 64 ->
    exists p' ds', delivered win p ds win p' ds' [] /\ length ready = 64%nat /\ ~ held win p' p').
  { intros win p ds ready rc0 H Hl [?|?] ?; [done|]. exists p, []. split; [by apply delivered_refl|done]. }
  induction fuel as [|fuel IH]; intros win p ds queue ready rc0 H He Hl Hdd; [|set (n := S fuel) in IH |- *];
    cbn [drain_full drain_full_log];
    (destruct (Z.eqb_spec rc0 64) as [->|Hne]; [|by eapply Hstop]);
    destruct (rel4u_recv_window_pop_ready win ready 64 64) as [[[r win1] ready1] rc] eqn:E;
    destruct (pop_delivered win p ds _ _ _ _ _ _ H Hl E) as (p1 & ds1 & D1 & -> & Hl1 & Hrc & Hd & Hlt);
    cbn [Z.eqb andb]; destruct (Z.gtb_spec rc 0) as [Hpos|Hz].
  1: { destruct (enough_pop _ _ _ _ _ _ _ _ D1 He (Hlt Hpos)) as (? & ? & _). done. }
  2: { destruct (enough_pop _ _ _ _ _ _ _ _ D1 He (Hlt Hpos)) as (f & [= <-] & He1).
       specialize (IH win1 p1 (ds ++ ds1) (deliver_ready client_id queue ready1 rc) ready1 rc
         (de_hist _ _ _ _ _ _ _ D1) He1 Hl1 Hd).
       destruct (drain_full n _ _ _ _ _) as [[win' queue'] ready'].
       destruct IH as (p' & ds' & D' & Hl' & Hn). exists p', (ds1 ++ ds'). split; [by eapply delivered_trans|done]. }
  all: destruct (pop_nothing _ _ _ _ _ _ _ _ D1 Hz Hd); by exists p1, ds1.
Qed.

(** The return code of a reliable packet. *)
Lemma packet_code win p q hdr payload ready r win' ready' rc :
  recv_rep content win p -> carries content hdr payload q -> near q p -> length ready = 64%nat ->
  rel4u_recv_window_on_packet win hdr (Some payload) ready 64 0 = (r, win', ready', rc) ->
  (arrived win p q /\ r = 1) \/ (p + rw_capacity win <= q /\ r = -2) \/ (q < p + rw_capacity win /\ r = 0).
Proof.
  intros R C Hn Hl E.
  pose proof (on_packet_reliable content win p q hdr payload ready 64 0 R C Hn ltac:(lia)) as P. rewrite E in P.
  destruct (decide _) as [Hd|Hd]; [left; split; [exact Hd|apply P]|].
  destruct (decide _); [right; left; split; [done|apply P]|]. right. right. split; [lia|apply P].
Qed.

(** A data packet of the stream: what arrives, what is delivered, and that the
    window is drained whenever an acknowledgement is due. *)
Lemma handle_data_log win p ds queue ready q hdr payload :
  recv_hist content p0 win p ds -> carries content hdr payload q -> near q p -> length ready = 64%nat ->
  let '(win', _, ready', ack) := handle_data client_id win queue ready hdr payload in
  exists p' ds', recv_hist content p0 win' p' (ds ++ ds') /\ p <= p' /\
    slot_view <$> data_log win ready hdr payload = pkt content <$> ds' /\ length ready' = 64%nat /\
    (forall x, arrived win' p' x <-> arrived win p x \/ (ack = true /\ x = q)) /\
    (ack = true <-> q < p + rw_capacity win) /\ (ack = true -> ~ held win' p' p') /\
    (ack = false -> win' = win /\ p' = p).
Proof.
  intros H C Hn Hl. unfold handle_data, data_log.
  destruct (rel4u_recv_window_on_packet _ _ _ _ _ _) as [[[r win1] ready1] rc] eqn:E.
  pose proof (packet_code _ _ _ _ _ _ _ _ _ _ (rh_rep _ _ _ _ _ H) C Hn Hl E) as Hcode.
  destruct (hist_packet content p0 win p ds q hdr payload ready 64 0 r win1 ready1 rc H C Hn ltac:(lia) E)
    as (ds1 & H1 & Hv & Hp & Ha & Hr & Hl1 & Hrc).
  set (p1 := p + u32 _) in *. assert (E1 : win1 = win -> p1 = p).
  { intros ->. unfold p1. rewrite Z.sub_diag. change (u32 0) with 0. lia. }
  clearbody p1. pose proof (enough_capacity content win1 p1 (rh_rep _ _ _ _ _ H1)) as He.
  assert (Harr : arrived win p q -> q < p + rw_capacity win).
  { pose proof (rr_cap _ _ _ (rh_rep _ _ _ _ _ H)) as [? _]. intros [?|[? _]]; lia. }
  destruct Hcode as [[Hq ->]|[[Hq ->]|[Hq ->]]]; cbn [Z.eqb].
  - destruct Hr as [[? _]|(_ & -> & ->)]; [done|].
    assert (ds1 = []) as -> by (by destruct ds1). rewrite app_nil_r in H1.
    pose proof (drain_any_spec (length (rw_slots win)) win p1 ds queue ready1 0 H1 He ltac:(congruence)) as D.
    destruct (drain_any _ _ _ _ _ _) as [[win' queue'] ready'].
    destruct D as (p' & ds' & [Dh Dp Dl Da] & Hl' & Hnh).
    exists p', ds'. split; [done|]. split; [lia|]. split; [done|]. split; [done|].
    split; [|split; [|done]].
    + intros x. rewrite Da, Ha. intuition.
    + split; [intros _; by apply Harr|done].
  - destruct Hr as [[? _]|(_ & -> & ->)]; [done|].
    assert (ds1 = []) as -> by (by destruct ds1).
    exists p1, []. split; [done|]. split; [done|]. split; [done|].
    split; [congruence|]. split; [|split; [split; [done|lia]|split; [done|intros _; split; [done|by apply E1]]]].
    intros x. rewrite Ha. split; [intros [?|[_ ?]]; [by left|lia]|intros [?|[? _]]; [by left|done]].
  - destruct Hr as [[_ Hdd]|(? & _)]; [|done].
    pose proof (drain_full_spec (length (rw_slots win1)) win1 p1 (ds ++ ds1)
      (deliver_ready client_id queue ready1 rc) ready1 rc H1 He ltac:(congruence) Hdd) as D.
    destruct (drain_full _ _ _ _ _ _) as [[win' queue'] ready'].
    destruct D as (p' & ds' & [Dh Dp Dl Da] & Hl' & Hnh).
    exists p', (ds1 ++ ds'). split; [by rewrite app_assoc|]. split; [lia|].
    split; [by rewrite !fmap_app, Hv, Dl|]. split; [done|].
    split; [|split; [split; done|done]]. intros x. rewrite Da, Ha. intuition.
Qed.

Lemma handle_data_rep win p ds queue ready q hdr payload :
  recv_hist content p0 win p ds -> carries content hdr payload q -> near q p -> length ready = 64%nat ->
  let '(win', queue', ready', ack) := handle_data client_id win queue ready hdr payload in
  exists p' ds' items, recv_hist content p0 win' p' (ds ++ ds') /\ p <= p' /\
    queue' = push_all queue items /\ item_msg <$> items = queue_msg <$> ds' /\ length ready' = 64%nat /\
    (forall x, arrived win' p' x <-> arrived win p x \/ (ack = true /\ x = q)) /\
    (ack = true <-> q < p + rw_capacity win) /\ (ack = true -> ~ held win' p' p').
Proof.
  intros H C Hn Hl. pose proof (handle_data_log win p ds queue ready q hdr payload H C Hn Hl) as D.
  pose proof (handle_data_queue win queue ready hdr payload) as Q.
  destruct (handle_data _ _ _ _ _ _) as [[[win' queue'] ready'] ack]. cbn [fst snd] in Q.
  destruct D as (p' & ds' & D1 & D2 & D3 & D4 & D5 & D6 & D7 & _).
  exists p', ds', (ready_item client_id <$> data_log win ready hdr payload). split_and!; try done; [|apply D6..].
  by apply ready_items_msgs.
Qed.

(** A pop when the expected position is not buffered. *)
Lemma pop_ready_none win p ds ready rc0 : recv_hist content p0 win p ds -> ~ held win p p ->
  rel4u_recv_window_pop_ready win ready 64 rc0 = (0, win, ready, 0).
Proof.
  intros H Hnh. unfold rel4u_recv_window_pop_ready. cbn [Z.eqb]. destruct (length (rw_slots win)); [done|].
  cbn [pop_ready_loop Z.ltb Z.compare]. pose proof (rh_rep _ _ _ _ _ H) as R.
  by rewrite (expected_slot _ _ _ R), (expected_test _ _ _ R), bool_decide_eq_false_2.
Qed.

(** An unreliable packet leaves the stream alone and hands over nothing of it. *)
Lemma handle_data_unreliable win p ds queue ready hdr payload :
  recv_hist content p0 win p ds -> ~ held win p p -> length ready = 64%nat ->
  mode_reliable (h_delivery_mode hdr) = false -> is_u8 (h_delivery_mode hdr) ->
  let '(win', _, ready', ack) := handle_data client_id win queue ready hdr payload in
  recv_hist content p0 win' p ds /\ (forall x, held win' p x <-> held win p x) /\ length ready' = 64%nat /\
  Forall (fun s => mode_reliable (rs_delivery_mode s) = false) (data_log win ready hdr payload).
Proof.
  intros H Hnh Hl Hm H8. unfold handle_data, data_log.
  assert (Hone : forall w', rw_slots w' = rw_slots win -> rw_capacity w' = rw_capacity win ->
    rw_expected_seq w' = rw_expected_seq win ->
    let out := arr_set ready 0 (fill_slot (ready !. 0) hdr (h_delivery_mode hdr) (Some payload)) in
    recv_hist content p0 w' p ds /\ (forall x, held w' p x <-> held win p x) /\ length out = 64%nat /\
    Forall (fun s => mode_reliable (rs_delivery_mode s) = false) (take 1 out ++ [])).
  { intros w' E1 E2 E3 out. destruct (hist_same content p0 win w' p ds E1 E2 E3 H). split; [done|]. split; [done|].
    split; [unfold out, arr_set; by rewrite length_insert|]. unfold out, arr_set. destruct ready; [done|]. cbn.
    repeat constructor. cbn. by rewrite u8_small. }
  pose proof Hm as Hm'. unfold mode_reliable in Hm'. apply orb_false_iff in Hm' as [H3 H2].
  unfold rel4u_recv_window_on_packet. cbn [Z.eqb]. rewrite H2, H3.
  destruct (_ =? REL4U_MODE_UNRELIABLE_UNORDERED); [by apply Hone|].
  destruct (_ =? REL4U_MODE_UNRELIABLE_ORDERED); [|done].
  destruct (_ || _); [by apply Hone|]. cbn [Z.eqb drain_any drain_any_log].
  rewrite (pop_ready_none _ _ _ _ _ H Hnh). done.
Qed.
End data_spec.

(** ** Safety against any packet *)

(** A queue that holds some list of messages. *)
Definition queue_ok (q : rel4u_mpmc_queue) : Prop := exists b, q_rep q b.

Section data_safe.
Context {allocator : Malloc} (client_id : Z).

Lemma push_notify_ok q it : queue_ok q -> item_wf it ->
  let q' := snd (fst (rel4u_mpmc_push_notify q it)) in queue_ok q' /\ q_same q q'.
Proof.
  intros [b Hb] Hw. pose proof (push_spec false q b it Hb Hw) as H. unfold rel4u_mpmc_push_notify.
  unfold mpmc_push in H. destruct (mpmc_push_back_locked q it) as [ok q'].
  destruct H as (alloc & b' & _ & _ & Hb' & Hs). cbn [fst snd]. split; [by exists b'|done].
Qed.

Lemma push_all_ok items : forall q, queue_ok q -> Forall item_wf items ->
  queue_ok (push_all q items) /\ q_same q (push_all q items).
Proof.
  induction items as [|it items IH]; intros q Hq Hf; [done|]. apply Forall_cons in Hf as [Hw Hf].
  destruct (push_notify_ok q it Hq Hw) as [Hq1 Hs1]. destruct (IH _ Hq1 Hf) as [Hq2 Hs2].
  split; [done|]. by etransitivity.
Qed.

Lemma ready_item_wf s : slot_bound s -> slot_full s -> item_wf (ready_item client_id s).
Proof.
  intros ([H1 H2] & _) Hf. unfold slot_full, REL4U_MAX_PAYLOAD_SIZE in *.
  unfold item_wf, ready_item, memcpy. cbn [it_len it_data]. rewrite drop_nil, app_nil_r, length_take. lia.
Qed.

Lemma deliver_ready_ok max n ready rc q : ready_ok max n ready rc -> queue_ok q ->
  queue_ok (deliver_ready client_id q ready rc) /\ q_same q (deliver_ready client_id q ready rc).
Proof.
  intros [_ Hb _ Hf] Hq. rewrite deliver_ready_push. apply push_all_ok; [done|]. apply Forall_fmap.
  eapply Forall_impl; [apply Forall_and; split; [exact Hf|exact (Forall_take _ _ _ Hb)]|].
  intros s [? ?]. by apply ready_item_wf.
Qed.

(** What the loops keep: the window, the scratch array and the queue. *)
Record data_ok (win : rel4u_recv_window) (queue : rel4u_mpmc_queue) (ready : list rel4u_recv_slot)
    (win' : rel4u_recv_window) (queue' : rel4u_mpmc_queue) (ready' : list rel4u_recv_slot) : Prop := {
  do_win : recv_safe win';
  do_cap : rw_capacity win' = rw_capacity win;
  do_queue : queue_ok queue';
  do_same : q_same queue queue';
  do_ready : ready_ok 64 64 ready' 0
}.

Lemma pop_data_ok win queue ready rc rc0 : recv_safe win -> queue_ok queue -> ready_ok 64 64 ready rc ->
  let '(r, win', ready', rc') := rel4u_recv_window_pop_ready win ready 64 rc0 in
  data_ok win queue ready win' queue ready' /\ ready_ok 64 64 ready' rc' /\
  data_ok win queue ready win' (deliver_ready client_id queue ready' rc') ready'.
Proof.
  intros S Hq Ho. pose proof (pop_ready_safe win 64 64 ready rc rc0 S Ho ltac:(lia)) as H.
  destruct (rel4u_recv_window_pop_ready _ _ _ _) as [[[r win'] ready'] rc'].
  destruct H as (_ & S' & Hc & Ho'). destruct (deliver_ready_ok _ _ _ _ _ Ho' Hq).
  pose proof (ready_none _ _ _ _ Ho' ltac:(lia)). split; [by constructor|split; [done|by constructor]].
Qed.

Lemma data_ok_trans win queue ready win1 queue1 ready1 win2 queue2 ready2 :
  data_ok win queue ready win1 queue1 ready1 -> data_ok win1 queue1 ready1 win2 queue2 ready2 ->
  data_ok win queue ready win2 queue2 ready2.
Proof. intros [] []. constructor; try done; [congruence|by etransitivity]. Qed.

Lemma drain_full_ok fuel : forall win queue ready rc0 rc,
  recv_safe win -> queue_ok queue -> ready_ok 64 64 ready rc ->
  let '(win', queue', ready') := drain_full fuel client_id win queue ready rc0 in
  data_ok win queue ready win' queue' ready'.
Proof.
  induction fuel as [|fuel IH]; intros win queue ready rc0 rc S Hq Ho; cbn [drain_full];
    pose proof (ready_none _ _ _ _ Ho ltac:(lia)); [done|].
  destruct (_ =? _); [|done]. pose proof (pop_data_ok win queue ready rc rc0 S Hq Ho) as D.
  destruct (rel4u_recv_window_pop_ready _ _ _ _) as [[[r win1] ready1] rc1]. destruct D as (D0 & Ho1 & D1).
  destruct (_ && _); [|done].
  specialize (IH win1 (deliver_ready client_id queue ready1 rc1) ready1 rc1 rc1 (do_win _ _ _ _ _ _ D1) (do_queue _ _ _ _ _ _ D1) Ho1).
  destruct (drain_full _ _ _ _ _ _) as [[win' queue'] ready']. by eapply data_ok_trans.
Qed.

Lemma drain_any_ok fuel : forall win queue ready rc0 rc,
  recv_safe win -> queue_ok queue -> ready_ok 64 64 ready rc ->
  let '(win', queue', ready') := drain_any fuel client_id win queue ready rc0 in
  data_ok win queue ready win' queue' ready'.
Proof.
  induction fuel as [|fuel IH]; intros win queue ready rc0 rc S Hq Ho; cbn [drain_any];
    pose proof (ready_none _ _ _ _ Ho ltac:(lia)); [done|].
  pose proof (pop_data_ok win queue ready rc rc0 S Hq Ho) as D.
  destruct (rel4u_recv_window_pop_ready _ _ _ _) as [[[r win1] ready1] rc1]. destruct D as (D0 & Ho1 & D1).
  destruct (_ && _); [|done].
  specialize (IH win1 (deliver_ready client_id queue ready1 rc1) ready1 rc1 rc1 (do_win _ _ _ _ _ _ D1) (do_queue _ _ _ _ _ _ D1) Ho1).
  destruct (drain_any _ _ _ _ _ _) as [[win' queue'] ready']. by eapply data_ok_trans.
Qed.

Lemma handle_data_ok win queue ready rc hdr payload :
  recv_safe win -> queue_ok queue -> ready_ok 64 64 ready rc -> header_bound hdr payload ->
  let '(win', queue', ready', ack) := handle_data client_id win queue ready hdr payload in
  data_ok win queue ready win' queue' ready'.
Proof.
  intros S Hq Ho Hh. unfold handle_data.
  pose proof (on_packet_safe win hdr payload 64 64 ready rc 0 S Hh Ho ltac:(lia)) as H.
  destruct (rel4u_recv_window_on_packet _ _ _ _ _ _) as [[[r win1] ready1] rc1].
  destruct H as (S1 & Hc1 & Ho1). destruct (deliver_ready_ok _ _ _ _ _ Ho1 Hq) as [Hq1 Hs1].
  pose proof (ready_none _ _ _ _ Ho1 ltac:(lia)) as Hn. destruct (_ =? _).
  - pose proof (drain_full_ok (Datatypes.S (length (rw_slots win1))) win1
      (deliver_ready client_id queue ready1 rc1) ready1 rc1 rc1 S1 Hq1 Ho1) as D.
    destruct (drain_full _ _ _ _ _ _) as [[win' queue'] ready'].
    eapply (data_ok_trans _ _ _ win1 _ ready1); [|exact D]. by constructor.
  - destruct (_ =? _).
    + pose proof (drain_any_ok (Datatypes.S (length (rw_slots win1))) win1 queue ready1 rc1 rc1 S1 Hq Ho1) as D.
      destruct (drain_any _ _ _ _ _ _) as [[win' queue'] ready'].
      eapply (data_ok_trans _ _ _ win1 _ ready1); [|exact D]. by constructor.
    + by constructor.
Qed.
End data_safe.

(** Handling one datagram of a reliable stream: the messages pushed to the
    application's queue are exactly the newly delivered positions, in delivery
    order and with their own bytes, the delivery history stays exactly-once and
    in order, and an acknowledgement is due if and only if the position is within
    the window; then nothing deliverable is left behind in the window. *)
Theorem handle_data_delivers {allocator : Malloc} (content : Z -> Z * list Z) (p0 client_id : Z)
    win p ds queue ready q hdr payload :
  recv_hist content p0 win p ds -> carries content hdr payload q -> near q p -> length ready = 64%nat ->
  let '(win', queue', ready', ack) := handle_data client_id win queue ready hdr payload in
  exists p' ds' items, recv_hist content p0 win' p' (ds ++ ds') /\ p <= p' /\
    queue' = push_all queue items /\ item_msg <$> items = queue_msg content client_id <$> ds' /\
    length ready' = 64%nat /\
    (forall x, arrived win' p' x <-> arrived win p x \/ (ack = true /\ x = q)) /\
    (ack = true <-> q < p + rw_capacity win) /\ (ack = true -> ~ held win' p' p').
Proof. apply handle_data_rep. Qed.

Lemma sample_w1_hist : exists ds, recv_hist sample_content (2 ^ 32 - 1) sample_w1 (2 ^ 32 - 1) ds.
Proof. destruct (reach_hist _ _ _ _ _ sample_reach1) as (ds & H & _). by exists ds. Qed.

Lemma handle_data_delivers_witness : exists ds ds',
  recv_hist sample_content (2 ^ 32 - 1)
    (fst (fst (fst (handle_data 5 sample_w1 sample_fixed (replicate 64 recv_slot_zero)
       (sample_pkt_header (2 ^ 32 - 1)) [(2 ^ 32 - 1) mod 256])))) (2 ^ 32 + 1) (ds ++ ds') /\
  snd (handle_data 5 sample_w1 sample_fixed (replicate 64 recv_slot_zero)
       (sample_pkt_header (2 ^ 32 - 1)) [(2 ^ 32 - 1) mod 256]) = true.
Proof.
  destruct sample_w1_hist as [ds H]. exists ds.
  pose proof (handle_data_delivers sample_content (2 ^ 32 - 1) 5 sample_w1 (2 ^ 32 - 1) ds sample_fixed
    (replicate 64 recv_slot_zero) (2 ^ 32 - 1) (sample_pkt_header (2 ^ 32 - 1)) [(2 ^ 32 - 1) mod 256] H
    (sample_carries _) ltac:(unfold near; lia) eq_refl) as P.
  destruct (handle_data _ _ _ _ _ _) as [[[win' queue'] ready'] ack] eqn:E.
  destruct P as (p' & ds' & items & H' & _ & _ & _ & _ & Ha & Hk & Hn). exists ds'. cbn [fst snd].
  assert (Eack : ack = true) by (apply Hk; cbn; lia). split; [|exact Eack].
  assert (arrived sample_w1 (2 ^ 32 - 1) (2 ^ 32)) as A1 by (right; by apply sample_w1_held).
  assert (p' = 2 ^ 32 + 1) as <-; [|exact H'].
  apply (f_equal (fun t => rw_expected_seq (fst (fst (fst t))))) in E. cbn [fst] in E.
  rewrite (rr_expected _ _ _ (rh_rep _ _ _ _ _ H')) in E.
  assert (u32 p' = 1) as E1 by (rewrite <- E; vm_compute; reflexivity).
  pose proof (rr_cap _ _ _ (rh_rep _ _ _ _ _ H')) as [Hc _].
  assert (~ arrived sample_w1 (2 ^ 32 - 1) (2 ^ 32 + 1)) as A2.
  { intros [?|Hh]; [lia|]. apply sample_w1_held in Hh. lia. }
  pose proof (Ha (2 ^ 32 + 1)) as B. destruct (decide (p' <= 2 ^ 32 + 1)).
  - assert (~ arrived win' p' (2 ^ 32 + 1)) by (rewrite B; intros [?|[_ ?]]; [done|lia]).
    assert (arrived win' p' (2 ^ 32)) as [?|[? _]] by (apply Ha; by left); [lia|].
    apply (u32_near_inj p' (2 ^ 32 + 1)); [unfold near; lia|]. by rewrite E1.
  - exfalso. assert (arrived win' p' (2 ^ 32 + 1)) as C by (left; lia). apply B in C as [?|[_ ?]]; [done|lia].
Defined.
