(* ===== verification/Sockets.v ===== *)
(** * Platform layer: sockets and addresses on either system

    The functions of [rel4u_net.c] that both branches share, over the interface
    [NetBranch] of what the branches differ in, and the theorems about the
    platform layer: no path loses a descriptor, an address list, a heap block or
    a thread handle, Winsock is started at most once, draining a wakeup channel
    ends, and both polls compute what [Net] says. *)
From S2P Require Import Prelude Text Packet Net Endpoint Kernel Posix Win32.
From Stdlib Require Import String.
From stdpp Require Import base numbers list gmap.
Open Scope Z_scope.
Open Scope rel4u_scope.
Open Scope sys_scope.

(** ** What the branches provide *)

Class NetBranch `{Kernel} := {
  invalid_socket : Z;
  net_init : sys Z;
  socket_set_nonblocking : Z -> bool -> sys Z
}.

(** What the shared functions rely on: neither call takes or returns a
    descriptor, an address list, a block or a thread handle. *)
Definition lasting (r : resource) : Prop := r <> Winsock.
Class NetBranchSpec `{NetBranch} := {
  net_init_owns : forall m r, lasting r -> owns net_init m r = 0;
  set_nonblocking_owns : forall sock b m r, owns (socket_set_nonblocking sock b) m r = 0
}.

Definition posix_branch `{Kernel} : NetBranch := {|
  invalid_socket := Net.REL4U_INVALID_SOCKET;
  net_init := Posix.rel4u_net_init;
  socket_set_nonblocking := Posix.rel4u_net_socket_set_nonblocking
|}.
Definition win32_branch `{Kernel} : NetBranch := {|
  invalid_socket := Win32.REL4U_INVALID_SOCKET;
  net_init := Win32.rel4u_net_init;
  socket_set_nonblocking := Win32.rel4u_net_socket_set_nonblocking
|}.

(** ** The shared functions *)

Section shared.
Context `{NetBranch}.

(** A pointer is an option; the result has the return code and what the pointers
    point to afterwards. *)
Definition rel4u_net_addr_from_string (out_addr : option rel4u_net_addr) (host : option string) (port : Z)
  : sys (Z * option rel4u_net_addr) :=
  match out_addr with
  | None => sys_ret (-1, None)
  | Some _ =>
      do! net_init in
      let port_str := snprintf 16 (print_u port) in
      let! answer := invoke (sys_getaddrinfo host port_str) in
      let '(err, res) := answer in
      match res with
      | None => sys_ret (-1, Some addr_zero)
      | Some (ptr, addr) =>
          if negb (err =? 0) then
            do! invoke (sys_freeaddrinfo ptr) in sys_ret (-1, Some addr_zero)
          else
            do! invoke (sys_freeaddrinfo ptr) in sys_ret (0, Some addr)
      end
  end.

Definition rel4u_net_addr_to_string (addr : option rel4u_net_addr) (out_str : option string) (str_len : Z)
    (out_port : option Z) : sys (Z * option string * option Z) :=
  match addr, out_str with
  | Some addr, Some _ =>
      if str_len =? 0 then sys_ret (-1, out_str, out_port) else
      do! net_init in
      let! answer := invoke (sys_getnameinfo addr) in
      let '(err, host_buf, serv_buf) := answer in
      if negb (err =? 0) then sys_ret (-1, out_str, out_port) else
      sys_ret (0, Some (snprintf (Z.to_nat str_len) host_buf),
               match out_port with Some _ => Some (u16 (atoi serv_buf)) | None => None end)
  | _, _ => sys_ret (-1, out_str, out_port)
  end.

Definition rel4u_net_socket_create_udp (ipv6 : bool) : sys Z :=
  do! net_init in
  let! sock := invoke (sys_socket ipv6) in
  if negb (sock =? invalid_socket) then
    do! socket_set_nonblocking sock true in sys_ret sock
  else sys_ret sock.

Definition rel4u_net_socket_bind (sock : Z) (addr : option rel4u_net_addr) : sys Z :=
  match addr with
  | Some addr => if sock =? invalid_socket then sys_ret (-1) else invoke (sys_bind sock addr)
  | None => sys_ret (-1)
  end.

Definition rel4u_net_socket_set_reuseaddr (sock : Z) (reuse : bool) : sys Z :=
  let val := if reuse then 1 else 0 in
  invoke (sys_setsockopt sock SO_REUSEADDR val).

Definition rel4u_net_socket_set_buffer_sizes (sock send_size recv_size : Z) : sys Z :=
  do! (if send_size >? 0 then do! invoke (sys_setsockopt sock SO_SNDBUF send_size) in sys_ret tt
       else sys_ret tt) in
  do! (if recv_size >? 0 then do! invoke (sys_setsockopt sock SO_RCVBUF recv_size) in sys_ret tt
       else sys_ret tt) in
  sys_ret 0.

(** The lengths pass through [int]; the bytes received overwrite the front of the
    buffer. *)
Definition rel4u_net_recvfrom (sock : Z) (buf : option (list Z)) (max_len : Z)
    (src_addr : option rel4u_net_addr) : sys (Z * option (list Z) * option rel4u_net_addr) :=
  match buf with
  | None => sys_ret (-1, None, src_addr)
  | Some old =>
      if sock =? invalid_socket then sys_ret (-1, buf, src_addr) else
      let! answer := invoke (sys_recvfrom sock (s32 max_len)) in
      let '(n, bytes, from) := answer in
      let res := s32 n in
      if res >=? 0 then
        sys_ret (res, Some (bytes ++ drop (length bytes) old),
                 match src_addr with Some _ => Some from | None => None end)
      else sys_ret (res, buf, src_addr)
  end.
End shared.

(** ** What the functions own *)

(** Symbolic execution of a platform function: each call an unknown answer, each
    branch a case, the trace summed up. *)
Ltac sys_cases :=
  repeat first [ progress sys_run | progress simplify_eq/= | case_match ].
Ltac owns_solve :=
  unfold owns; sys_cases; rewrite ?balance_app; cbn [balance event_balance fst snd]; unfold one in *;
  repeat case_match;
  repeat match goal with
  | H : (_ =? _) = true |- _ => apply Z.eqb_eq in H
  | H : (_ =? _) = false |- _ => apply Z.eqb_neq in H
  end; simplify_eq/=; try lia; try done.

#[export] Instance posix_spec `{Kernel} : @NetBranchSpec _ posix_branch.
Proof.
  constructor; cbn; intros.
  - apply owns_ret.
  - unfold Posix.rel4u_net_socket_set_nonblocking. owns_solve.
Qed.

#[export] Instance win32_spec `{Kernel} : @NetBranchSpec _ win32_branch.
Proof.
  constructor; cbn; intros.
  - unfold Win32.rel4u_net_init. owns_solve.
  - unfold Win32.rel4u_net_socket_set_nonblocking. owns_solve.
Qed.

Section ownership.
Context `{Kernel}.

(** A life of a wakeup channel: created and, when that succeeds, closed. *)
Definition channel_life {P} (create : sys (Z * P)) (close : P -> sys P) : sys (Z * P) :=
  let! created := create in
  let '(res, p) := created in
  if res =? 0 then let! p := close p in sys_ret (res, p) else sys_ret (res, p).

Lemma posix_pipe_create_owns p m fd : fd <> Net.REL4U_INVALID_SOCKET ->
  owns (Posix.rel4u_wakeup_pipe_create p) m (Descriptor fd) =
  let '(res, p') := fst (Posix.rel4u_wakeup_pipe_create p m) in
  if res =? 0 then one (wp_read_fd p' =? fd) + one (wp_write_fd p' =? fd) else 0.
Proof.
  intros Hfd. unfold owns, Posix.rel4u_wakeup_pipe_create, Posix.rel4u_net_socket_set_nonblocking.
  owns_solve.
Qed.

Lemma win32_pipe_create_owns p m fd : fd <> Win32.REL4U_INVALID_SOCKET ->
  owns (Win32.rel4u_wakeup_pipe_create p) m (Descriptor fd) =
  let '(res, p') := fst (Win32.rel4u_wakeup_pipe_create p m) in
  if res =? 0 then one (wp_send_sock p' =? fd) + one (wp_recv_sock p' =? fd) else 0.
Proof.
  intros Hfd. unfold owns, Win32.rel4u_wakeup_pipe_create, Win32.rel4u_net_init,
    Win32.rel4u_net_socket_set_nonblocking.
  owns_solve.
Qed.

Lemma posix_pipe_close_owns p m fd : fd <> Net.REL4U_INVALID_SOCKET ->
  owns (Posix.rel4u_wakeup_pipe_close p) m (Descriptor fd) =
  - (one (wp_read_fd p =? fd) + one (wp_write_fd p =? fd)) /\
  fst (Posix.rel4u_wakeup_pipe_close p m) = Net.mk_pipe (-1) (-1).
Proof.
  intros Hfd. destruct p as [r w]. unfold Net.REL4U_INVALID_SOCKET in Hfd.
  unfold owns, Posix.rel4u_wakeup_pipe_close. split; owns_solve.
Qed.

Lemma win32_pipe_close_owns p m fd : fd <> Win32.REL4U_INVALID_SOCKET ->
  owns (Win32.rel4u_wakeup_pipe_close p) m (Descriptor fd) =
  - (one (wp_send_sock p =? fd) + one (wp_recv_sock p =? fd)) /\
  fst (Win32.rel4u_wakeup_pipe_close p m) =
  Win32.mk_pipe Win32.REL4U_INVALID_SOCKET Win32.REL4U_INVALID_SOCKET.
Proof.
  intros Hfd. destruct p as [r w].
  unfold owns, Win32.rel4u_wakeup_pipe_close. split; owns_solve.
Qed.

Lemma channel_life_owns {P} (create : sys (Z * P)) (close : P -> sys P) (count : P -> Z) m r :
  owns create m r = (let '(res, p) := fst (create m) in if res =? 0 then count p else 0) ->
  (forall p m, owns (close p) m r = - count p) ->
  owns (channel_life create close) m r = 0.
Proof.
  intros Hc Hd. unfold channel_life. rewrite owns_bind, Hc. destruct (create m) as [[res p] m'].
  cbn [fst snd]. destruct (res =? 0).
  - rewrite owns_bind, Hd, owns_ret. lia.
  - by rewrite owns_ret.
Qed.

(** C36. No path of the wakeup channel loses a descriptor or closes a foreign one:
    whatever the system answers, a creation that fails has closed every socket it
    had opened, one that succeeds has opened exactly the two ends, and closing
    the channel gives both back. *)
Theorem wakeup_channel_no_leak p pw m fd :
  fd <> Net.REL4U_INVALID_SOCKET -> fd <> Win32.REL4U_INVALID_SOCKET ->
  owns (channel_life (Posix.rel4u_wakeup_pipe_create p) Posix.rel4u_wakeup_pipe_close) m (Descriptor fd) = 0 /\
  owns (channel_life (Win32.rel4u_wakeup_pipe_create pw) Win32.rel4u_wakeup_pipe_close) m (Descriptor fd) = 0 /\
  (fst (fst (Posix.rel4u_wakeup_pipe_create p m)) <> 0 ->
   owns (Posix.rel4u_wakeup_pipe_create p) m (Descriptor fd) = 0) /\
  (fst (fst (Win32.rel4u_wakeup_pipe_create pw m)) <> 0 ->
   owns (Win32.rel4u_wakeup_pipe_create pw) m (Descriptor fd) = 0).
Proof.
  intros Hp Hw. split_and!; [ | | | ].
  - apply (channel_life_owns _ _ (fun p => one (wp_read_fd p =? fd) + one (wp_write_fd p =? fd))).
    + by apply posix_pipe_create_owns.
    + intros q m'. by apply posix_pipe_close_owns.
  - apply (channel_life_owns _ _ (fun p => one (wp_send_sock p =? fd) + one (wp_recv_sock p =? fd))).
    + by apply win32_pipe_create_owns.
    + intros q m'. by apply win32_pipe_close_owns.
  - intros Hres. rewrite posix_pipe_create_owns by done.
    destruct (Posix.rel4u_wakeup_pipe_create p m) as [[res p'] m']. simpl in *.
    by rewrite (proj2 (Z.eqb_neq res 0)).
  - intros Hres. rewrite win32_pipe_create_owns by done.
    destruct (Win32.rel4u_wakeup_pipe_create pw m) as [[res p'] m']. simpl in *.
    by rewrite (proj2 (Z.eqb_neq res 0)).
Qed.

(** A UDP socket is the one descriptor its creation opens. *)
Lemma create_udp_owns `{!NetBranch, !NetBranchSpec} ipv6 m fd :
  owns (rel4u_net_socket_create_udp ipv6) m (Descriptor fd) =
  one (fst (rel4u_net_socket_create_udp ipv6 m) =? fd).
Proof.
  pose proof (net_init_owns m (Descriptor fd) ltac:(done)) as N. unfold owns in *.
  unfold rel4u_net_socket_create_udp, sys_seq, sys_ret, invoke. destruct (net_init m) as [a m1]. simpl in N.
  destruct (ker_call (sys_socket ipv6) (ma_kernel m1)) as [sock k].
  set (m2 := mk_machine _ _ _ _). assert (Hm2 : balance (Descriptor fd) (ma_trace m2) =
    balance (Descriptor fd) (ma_trace m1) + one (sock =? fd)).
  { simpl. rewrite balance_app. simpl. lia. }
  clearbody m2. destruct (negb (sock =? invalid_socket)); [|simpl; lia].
  pose proof (set_nonblocking_owns sock true m2 (Descriptor fd)) as B. unfold owns in B.
  destruct (socket_set_nonblocking sock true m2) as [b m3]. simpl in *. lia.
Qed.

(** The list of addresses is freed on every path. *)
Lemma addr_from_string_owns `{!NetBranch, !NetBranchSpec} out host port m r : lasting r ->
  owns (rel4u_net_addr_from_string out host port) m r = 0.
Proof.
  intros Hr. unfold rel4u_net_addr_from_string. destruct out; [|apply owns_ret].
  rewrite owns_bind, net_init_owns by done. destruct (net_init m) as [a m1]. cbn [fst snd].
  destruct r; owns_solve.
Qed.
End ownership.

(** ** Options *)

(** [rel4u_net_socket_set_nonblocking] of the POSIX branch rewrites one flag: when
    the flags can be read it stores them with [O_NONBLOCK] as asked and every other
    bit as it was, in that order and nothing else, and returns the verdict; when
    they cannot it stores nothing. *)
Theorem nonblocking_exact `{Kernel} sock nonblocking m :
  let '(res, m') := Posix.rel4u_net_socket_set_nonblocking sock nonblocking m in
  exists flags,
  (flags < 0 /\ res = -1 /\ ma_trace m' = ma_trace m ++ [Event (sys_fcntl_getfl sock) flags]) \/
  (0 <= flags /\ exists flags',
   ma_trace m' = ma_trace m ++ [Event (sys_fcntl_getfl sock) flags; Event (sys_fcntl_setfl sock flags') res] /\
   Z.testbit flags' 11 = nonblocking /\
   (forall i, 0 <= i -> i <> 11 -> Z.testbit flags' i = Z.testbit flags i)).
Proof.
  unfold Posix.rel4u_net_socket_set_nonblocking. sys_run. destruct (Z.ltb_spec a 0).
  - sys_run. exists a. by left.
  - sys_run. exists a. right. split; [done|]. eexists. rewrite <- app_assoc. split; [done|].
    change Posix.O_NONBLOCK with (2 ^ 11). split.
    + destruct nonblocking; [rewrite Z.lor_spec|rewrite Z.land_spec, Z.lnot_spec by lia];
        rewrite Z.pow2_bits_true by lia; [apply orb_true_r|apply andb_false_r].
    + intros i Hi Hne. destruct nonblocking; [rewrite Z.lor_spec|rewrite Z.land_spec, Z.lnot_spec by lia];
        rewrite Z.pow2_bits_false by lia; [apply orb_false_r|apply andb_true_r].
Qed.

(** ** Polling *)

(** [poll] reports on each descriptor of its set on its own. *)
Definition poll_reports `{Kernel} (revents : Z -> Z) (timeout_ms : Z) (k : ker_state) : Prop :=
  forall fds, snd (fst (ker_call (sys_poll fds timeout_ms) k)) = revents <$> fds.

Definition flag (revents : Z -> Z) (pollin : Z) (fd : Z) : bool := negb (Z.land (revents fd) pollin =? 0).

(** On both systems the two flags of [rel4u_net_poll] are what was reported on the
    socket and on the wakeup channel, whichever of them are there; both are
    false when nothing was reported or there is nothing to poll. *)
Theorem poll_flags `{Kernel} revents timeout m :
  poll_reports revents timeout (ma_kernel m) ->
  (forall sock p, let '(ret, s, w) := fst (Posix.rel4u_net_poll sock p timeout m) in
     let ps := negb (sock =? Net.REL4U_INVALID_SOCKET) in
     let fd := from_option wp_read_fd (-1) p in
     s = (ret >? 0) && ps && flag revents Net.POLLIN sock /\
     w = (ret >? 0) && negb (fd =? -1) && flag revents Net.POLLIN fd) /\
  (forall sock p, let '(ret, s, w) := fst (Win32.rel4u_net_poll sock p timeout m) in
     let ps := negb (sock =? Win32.REL4U_INVALID_SOCKET) in
     let fd := from_option wp_recv_sock Win32.REL4U_INVALID_SOCKET p in
     s = (ret >? 0) && ps && flag revents Win32.POLLIN sock /\
     w = (ret >? 0) && negb (fd =? Win32.REL4U_INVALID_SOCKET) && flag revents Win32.POLLIN fd).
Proof.
  intros Hp. unfold poll_reports in Hp. unfold flag. split; intros sock p.
  - unfold Posix.rel4u_net_poll.
    destruct (sock =? Net.REL4U_INVALID_SOCKET), p as [[fd w]|]; cbn [negb from_option wp_read_fd].
    all: try destruct (fd =? -1); cbn [negb app length Nat.eqb]; try done; sys_run.
    all: match goal with E : ker_call (sys_poll ?fds _) _ = _ |- _ => specialize (Hp fds); rewrite E in Hp end.
    all: destruct a as [ret rv]; simpl in Hp; subst rv; destruct (ret >? 0) eqn:R; cbn; rewrite ?R; done.
  - unfold Win32.rel4u_net_poll.
    destruct (sock =? Win32.REL4U_INVALID_SOCKET), p as [[w fd]|]; cbn [negb from_option wp_recv_sock].
    all: try destruct (fd =? Win32.REL4U_INVALID_SOCKET); cbn [negb app length Nat.eqb]; try done; sys_run.
    all: match goal with E : ker_call (sys_poll ?fds _) _ = _ |- _ => specialize (Hp fds); rewrite E in Hp end.
    all: destruct a as [ret rv]; simpl in Hp; subst rv; destruct (ret >? 0) eqn:R; cbn; rewrite ?R; done.
Qed.

(** The poll of the POSIX branch computes the function the endpoints use. *)
Lemma posix_poll_net `{Kernel} sock p timeout m :
  fst (Posix.rel4u_net_poll sock (Some p) timeout m) =
  Net.rel4u_net_poll (fun fds => fst (ker_call (sys_poll fds timeout) (ma_kernel m))) sock (wp_read_fd p).
Proof.
  unfold Posix.rel4u_net_poll, Net.rel4u_net_poll. destruct p as [fd w]. cbn [wp_read_fd].
  destruct (sock =? Net.REL4U_INVALID_SOCKET), (fd =? -1); cbn [negb app length Nat.eqb]; sys_run; try done.
  all: destruct a as [ret rv]; destruct (ret >? 0); done.
Qed.

(** ** Draining the wakeup channel *)

(** What is documented of reading a non-blocking descriptor: [level] is how much
    there is to read; a read takes something out of it, and fails when there is
    nothing. *)
Class NonblockingRead `{Kernel} (read_fd : Z) (level : ker_state -> nat) := {
  channel_read : forall k, let '(r, k') := ker_call (sys_read read_fd 64) k in
    (level k = 0%nat -> fst r <= 0 /\ level k' = 0%nat) /\
    (level k <> 0%nat -> 0 < fst r /\ (level k' < level k)%nat)
}.

(** The drain loop of either system ends within one read more than the channel
    holds, by its own condition, and leaves it empty. *)
Theorem wakeup_drain_ends `{Kernel} fuel read_fd level m :
  NonblockingRead read_fd level -> (level (ma_kernel m) < fuel)%nat ->
  fst (drain_loop fuel read_fd m) = true /\
  level (ma_kernel (snd (drain_loop fuel read_fd m))) = 0%nat.
Proof.
  intros channel. revert m. induction fuel as [|fuel IH]; intros m Hf; [lia|]. cbn [drain_loop].
  pose proof (channel_read (ma_kernel m)) as R. unfold sys_seq, invoke.
  destruct (ker_call (sys_read read_fd 64) (ma_kernel m)) as [r k']. destruct R as [R0 R1].
  destruct (decide (level (ma_kernel m) = 0%nat)) as [Hz|Hz].
  - destruct (R0 Hz) as [Hr Hk]. destruct (Z.gtb_spec (fst r) 0); [lia|]. done.
  - destruct (R1 Hz) as [Hr Hk]. destruct (Z.gtb_spec (fst r) 0); [|lia]. apply IH. simpl. lia.
Qed.

(** ** Addresses *)

(** The numeric service name of an address is the port it was looked up with. *)
Definition numeric_names `{Kernel} : Prop := forall host port k k' ptr a, is_u16 port ->
  fst (ker_call (sys_getaddrinfo host (print_u port)) k) = (0, Some (ptr, a)) ->
  exists name, fst (ker_call (sys_getnameinfo a) k') = (0, name, print_u port).

(** A port survives the way through an address: looked up as text, printed back
    as text and read again, it is the same 16-bit number; the name is cut to the
    buffer.  So is the failure of the lookup: no address, code -1. *)
Theorem addr_port_roundtrip `{NetBranch} host port m buf len x :
  numeric_names -> is_u16 port -> 0 < len ->
  let '(res, a, m') := rel4u_net_addr_from_string (Some addr_zero) host port m in
  (res = -1 /\ a = Some addr_zero) \/
  (res = 0 /\ exists name, (String.length name < Z.to_nat len)%nat /\
   fst (rel4u_net_addr_to_string a (Some buf) len (Some x) m') = (0, Some name, Some port)).
Proof.
  intros Hn Hp Hl. unfold rel4u_net_addr_from_string, sys_seq. destruct (net_init m) as [i m1].
  assert (Hport : snprintf 16 (print_u port) = print_u port).
  { apply snprintf_fits. pose proof (print_u_length port 4 ltac:(word_unfold; simpl; lia) ltac:(lia)). lia. }
  rewrite Hport. unfold invoke.
  destruct (ker_call (sys_getaddrinfo host (print_u port)) (ma_kernel m1)) as [[err res] k1] eqn:E1.
  destruct res as [[ptr a]|]; [|by left].
  destruct (Z.eqb_spec err 0) as [->|Herr]; cbn [negb]; destruct (ker_call (sys_freeaddrinfo ptr) _) as [u k2];
    [right|by left].
  split; [done|]. unfold rel4u_net_addr_to_string, sys_seq. rewrite (proj2 (Z.eqb_neq len 0)) by lia.
  unfold sys_ret at 1. cbn [snd fst]. set (m2 := mk_machine _ _ _ _). destruct (net_init m2) as [j m3].
  unfold invoke. destruct (Hn host port (ma_kernel m1) (ma_kernel m3) ptr a Hp) as [name E2].
  { by rewrite E1. }
  destruct (ker_call (sys_getnameinfo a) (ma_kernel m3)) as [ans k3]. simpl in E2. subst ans. cbn [negb Z.eqb].
  exists (snprintf (Z.to_nat len) name). unfold sys_ret. cbn [fst]. split.
  - unfold snprintf. pose proof (substring_length (Z.to_nat len - 1) name). lia.
  - rewrite atoi_print_u by (word_unfold; lia). by rewrite u16_small.
Qed.

(** ** Witnesses *)

(** A small system: descriptors are numbered, the wakeup channel holds at most
    four bytes, [connect] fails when asked to, ports are kept in host order. *)
Record toy := mk_toy { toy_next : Z; toy_level : nat; toy_refuse : bool }.

Definition toy_call {A} (c : syscall A) (k : toy) : A * toy :=
  let open n := mk_toy (toy_next k + n) (toy_level k) (toy_refuse k) in
  let hold n := mk_toy (toy_next k) n (toy_refuse k) in
  match c in syscall A return A * toy with
  | sys_socket _ => (toy_next k, open 1)
  | sys_pipe => (Some (toy_next k, toy_next k + 1), open 2)
  | sys_close _ => (0, k)
  | sys_fcntl_getfl _ => (2, k)
  | sys_fcntl_setfl _ _ => (0, k)
  | sys_ioctlsocket _ _ => (0, k)
  | sys_bind _ _ => (0, k)
  | sys_getsockname _ => (Some addr_zero, k)
  | sys_connect _ _ => (if toy_refuse k then -1 else 0, k)
  | sys_setsockopt _ _ _ => (0, k)
  | sys_write _ _ => if (toy_level k <? 4)%nat then (1, hold (S (toy_level k))) else (-1, k)
  | sys_read _ _ => if (toy_level k =? 0)%nat then ((-1, []), k)
                    else ((Z.of_nat (toy_level k), replicate (toy_level k) 1), hold 0%nat)
  | sys_sendto _ buf _ => (Z.of_nat (length buf), k)
  | sys_recvfrom _ _ => ((-1, [], addr_zero), k)
  | sys_poll fds _ => ((1, (fun fd => if fd =? 4 then 1 else 0) <$> fds), k)
  | sys_getaddrinfo _ port => ((0, Some (7, mk_addr (AF_INET (atoi port) 0) 16)), k)
  | sys_freeaddrinfo _ => (tt, k)
  | sys_getnameinfo a =>
      ((0, "127.0.0.1"%string, match na_addr a with AF_INET p _ => print_u p | _ => "0"%string end), k)
  | sys_WSAStartup => (0, k)
  | sys_WSACleanup => (0, k)
  | sys_malloc _ => (toy_next k, open 1)
  | sys_free _ => (tt, k)
  | sys_CreateThread _ => (if toy_refuse k then 0 else toy_next k, open 1)
  | sys_WaitForSingleObject _ => (tt, k)
  | sys_CloseHandle _ => (1, k)
  | sys_pthread_create _ _ => ((0, toy_next k), open 1)
  | sys_pthread_join _ => (0, k)
  | sys_QueryPerformanceFrequency => (10000000, k)
  | sys_QueryPerformanceCounter => (toy_next k, k)
  | sys_Sleep _ => (tt, k)
  | sys_thread_body _ _ => (tt, k)
  | sys_mutex_init _ | sys_mutex_destroy _ | sys_mutex_lock _ | sys_mutex_unlock _ => (0, k)
  | sys_cond_init _ | sys_cond_destroy _ | sys_cond_wait _ _ | sys_cond_signal _ | sys_cond_broadcast _ => (0, k)
  | sys_cond_timedwait _ _ _ _ | sys_SleepConditionVariableCS _ _ _ => (0, k)
  | sys_gettimeofday => ((100, 999999), k)
  end.

Definition toy_kernel : Kernel := {| ker_state := toy; ker_call := @toy_call |}.
Definition toy_machine (level : nat) (refuse : bool) : @machine toy_kernel :=
  @mk_machine toy_kernel (mk_toy 3 level refuse) [] statics_zero ∅.

(** The call of the last socket fails: both sockets are closed again. *)
Definition toy_pipe : Win32.rel4u_wakeup_pipe := Win32.mk_pipe 0 0.

Lemma wakeup_channel_no_leak_witness :
  fst (fst (@Win32.rel4u_wakeup_pipe_create toy_kernel toy_pipe (toy_machine 0 true))) <> 0 /\
  length (ma_trace (snd (@Win32.rel4u_wakeup_pipe_create toy_kernel toy_pipe (toy_machine 0 true)))) = 8%nat /\
  @owns toy_kernel _ (Win32.rel4u_wakeup_pipe_create toy_pipe) (toy_machine 0 true) (Descriptor 3) = 0.
Proof.
  assert (Hf : fst (fst (@Win32.rel4u_wakeup_pipe_create toy_kernel toy_pipe (toy_machine 0 true))) <> 0)
    by (vm_compute; discriminate).
  split; [exact Hf|split; [vm_compute; reflexivity|]].
  apply (wakeup_channel_no_leak (H := toy_kernel) (Net.mk_pipe 0 0) toy_pipe (toy_machine 0 true) 3);
    [discriminate|discriminate|exact Hf].
Defined.

Lemma poll_flags_witness :
  fst (@Posix.rel4u_net_poll toy_kernel 3 (Some (Net.mk_pipe 4 5)) 10 (toy_machine 0 false)) = (1, false, true).
Proof.
  pose proof (proj1 (poll_flags (H := toy_kernel) (fun fd => if fd =? 4 then 1 else 0) 10 (toy_machine 0 false)
    ltac:(intros fds; reflexivity)) 3 (Some (Net.mk_pipe 4 5))) as P.
  destruct (fst (@Posix.rel4u_net_poll toy_kernel 3 (Some (Net.mk_pipe 4 5)) 10 (toy_machine 0 false)))
    as [[ret s] w] eqn:E. vm_compute in E. injection E as <- _ _. destruct P as [-> ->]. reflexivity.
Defined.

#[export] Instance toy_channel : @NonblockingRead toy_kernel 4 toy_level.
Proof.
  constructor; intros [n l r]; cbn [ker_call toy_kernel toy_call toy_level toy_next toy_refuse].
  destruct (Nat.eqb_spec l 0); cbn [toy_level fst]; lia.
Qed.

Lemma wakeup_drain_ends_witness :
  fst (@drain_loop toy_kernel 5 4 (toy_machine 4 false)) = true /\
  toy_level (ma_kernel (snd (@drain_loop toy_kernel 5 4 (toy_machine 4 false)))) = 0%nat.
Proof.
  apply (wakeup_drain_ends (H := toy_kernel) 5 4 toy_level (toy_machine 4 false) toy_channel). simpl. lia.
Defined.

Lemma toy_numeric : @numeric_names toy_kernel.
Proof.
  intros host port k k' ptr a Hp E. cbn [ker_call toy_kernel toy_call fst] in E |- *. injection E as _ <-. cbn [na_addr].
  eexists. rewrite atoi_print_u by (word_unfold; lia). reflexivity.
Qed.

Definition toy_lookup : sys (H := toy_kernel) (Z * option rel4u_net_addr) :=
  @rel4u_net_addr_from_string toy_kernel posix_branch (Some addr_zero) None 9000.

Lemma addr_port_roundtrip_witness :
  fst (fst (toy_lookup (toy_machine 0 false))) = 0 /\
  exists name, (String.length name < 4)%nat /\
  fst (@rel4u_net_addr_to_string toy_kernel posix_branch (snd (fst (toy_lookup (toy_machine 0 false))))
         (Some EmptyString) 4 (Some 0) (snd (toy_lookup (toy_machine 0 false)))) = (0, Some name, Some 9000).
Proof.
  assert (H0 : fst (fst (toy_lookup (toy_machine 0 false))) = 0) by (vm_compute; reflexivity).
  split; [exact H0|].
  pose proof (addr_port_roundtrip (H := toy_kernel) (H0 := posix_branch) None 9000 (toy_machine 0 false)
    EmptyString 4 0 toy_numeric ltac:(word_unfold; lia) ltac:(lia)) as R.
  fold toy_lookup in R. destruct (toy_lookup (toy_machine 0 false)) as [[res a] m'].
  destruct R as [[R _]|[_ R]]; [cbn [fst] in H0; rewrite H0 in R; discriminate R|exact R].
Defined.
