(* ===== verification/Win32Spec.v ===== *)
(** * Platform layer: theorems about the Windows branches

    Winsock is started at most once and every start is paired with a cleanup, a
    thread context is allocated and freed exactly once, and the clock is exact as
    long as the counter in nanoseconds fits 64 bits, which on usual hardware it
    does for half an hour. *)
From S2P Require Import Prelude Text Net Endpoint Kernel Posix Win32 Sockets.
From Stdlib Require Import String.
From stdpp Require Import base numbers list gmap.
Open Scope Z_scope.
Open Scope rel4u_scope.
Open Scope sys_scope.

(** ** Winsock *)

Section winsock.
Context `{Kernel}.
#[local] Existing Instance win32_branch.

(** The calls that start or stop Winsock. *)
Inductive net_call :=
  | CallInit
  | CallCleanup
  | CallCreateUdp (ipv6 : bool)
  | CallPipeCreate (p : Win32.rel4u_wakeup_pipe)
  | CallAddrFromString (host : option string) (port : Z)
  | CallAddrToString (addr : rel4u_net_addr) (str_len : Z).

Definition net_run (c : net_call) : sys unit :=
  match c with
  | CallInit => do! Win32.rel4u_net_init in sys_ret tt
  | CallCleanup => Win32.rel4u_net_cleanup
  | CallCreateUdp ipv6 => do! rel4u_net_socket_create_udp ipv6 in sys_ret tt
  | CallPipeCreate p => do! Win32.rel4u_wakeup_pipe_create p in sys_ret tt
  | CallAddrFromString host port => do! rel4u_net_addr_from_string (Some addr_zero) host port in sys_ret tt
  | CallAddrToString addr len =>
      do! rel4u_net_addr_to_string (Some addr) (Some EmptyString) len (Some 0) in sys_ret tt
  end.

(** Winsock is started exactly when the variable says so, and then once. *)
Definition winsock_inv (m : machine) : Prop :=
  balance Winsock (ma_trace m) = g_net_initialized (ma_statics m) /\
  (g_net_initialized (ma_statics m) = 0 \/ g_net_initialized (ma_statics m) = 1).

Ltac winsock_solve :=
  sys_cases; rewrite ?balance_app; cbn [balance event_balance fst snd]; unfold one in *;
  repeat case_match; rewrite ?Z.eqb_eq, ?Z.eqb_neq, ?negb_true_iff, ?negb_false_iff in *; simplify_eq/=;
  try lia; try done.

Lemma net_init_winsock m : winsock_inv m -> winsock_inv (snd (Win32.rel4u_net_init m)).
Proof. unfold winsock_inv, Win32.rel4u_net_init. intros [Hb Hg]. winsock_solve. Qed.

Lemma net_cleanup_winsock m : winsock_inv m -> winsock_inv (snd (Win32.rel4u_net_cleanup m)).
Proof. unfold winsock_inv, Win32.rel4u_net_cleanup. intros [Hb Hg]. winsock_solve. Qed.

(** What comes after the start leaves Winsock alone. *)
Definition winsock_quiet {A} (p : sys A) : Prop := forall m,
  balance Winsock (ma_trace (snd (p m))) = balance Winsock (ma_trace m) /\
  ma_statics (snd (p m)) = ma_statics m.

Lemma quiet_ret {A} (a : A) : winsock_quiet (sys_ret a).
Proof. done. Qed.
Lemma quiet_seq {A B} (e : sys A) (k : A -> sys B) :
  winsock_quiet e -> (forall a, winsock_quiet (k a)) -> winsock_quiet (sys_seq e k).
Proof.
  intros He Hk m. destruct (He m) as [E1 E2]. unfold sys_seq. destruct (e m) as [a m1].
  destruct (Hk a m1) as [K1 K2]. simpl in *. split; congruence.
Qed.
Lemma quiet_invoke {A} (c : syscall A) :
  (forall a, event_balance Winsock (Event c a) = 0) -> winsock_quiet (invoke c).
Proof.
  intros Hc m. unfold invoke. destruct (ker_call c (ma_kernel m)) as [a k]. simpl.
  rewrite balance_app. cbn [balance]. rewrite (Hc a). split; [lia|done].
Qed.
Ltac quiet_solve :=
  repeat first [ apply quiet_ret | apply quiet_seq; [|intros ?] | apply quiet_invoke; done | case_match ].

Lemma winsock_after {A} (p : sys A) m : winsock_quiet p -> winsock_inv m ->
  winsock_inv (snd (sys_seq Win32.rel4u_net_init (fun _ => p) m)).
Proof.
  intros Hq Hm%net_init_winsock. unfold sys_seq. destruct (Win32.rel4u_net_init m) as [a m1].
  destruct (Hq m1) as [Hb Hs]. unfold winsock_inv in *. by rewrite Hb, Hs.
Qed.

Lemma winsock_discard {A} (p : sys A) m : snd (sys_seq p (fun _ => sys_ret tt) m) = snd (p m).
Proof. unfold sys_seq. by destruct (p m). Qed.

Lemma net_run_winsock c m : winsock_inv m -> winsock_inv (snd (net_run c m)).
Proof.
  intros Hm. destruct c as [| |ipv6|p|host port|addr len]; cbn [net_run]; rewrite ?winsock_discard.
  - by apply net_init_winsock.
  - by apply net_cleanup_winsock.
  - apply winsock_after; [|done]. cbn [socket_set_nonblocking win32_branch]. unfold Win32.rel4u_net_socket_set_nonblocking. quiet_solve.
  - apply winsock_after; [|done]. unfold Win32.rel4u_net_socket_set_nonblocking. quiet_solve.
  - apply winsock_after; [|done]. quiet_solve.
  - unfold rel4u_net_addr_to_string. destruct (len =? 0); [done|].
    apply winsock_after; [|done]. quiet_solve.
Qed.

(** After any sequence of calls that start or stop it, whatever the system
    answers, Winsock is started at most once at a time and exactly as
    [g_net_initialized] says; once it is cleaned up, starts and cleanups are
    paired. *)
Theorem winsock_once calls m : winsock_inv m ->
  let m' := foldl (fun m c => snd (net_run c m)) m calls in
  0 <= balance Winsock (ma_trace m') <= 1 /\
  balance Winsock (ma_trace m') = g_net_initialized (ma_statics m') /\
  balance Winsock (ma_trace (snd (Win32.rel4u_net_cleanup m'))) = 0.
Proof.
  intros Hm. cbv zeta. assert (Hi : winsock_inv (foldl (fun m c => snd (net_run c m)) m calls)).
  { revert m Hm. induction calls as [|c calls IH]; intros m Hm; simpl; [done|]. by apply IH, net_run_winsock. }
  set (m' := foldl _ _ _) in *. clearbody m'. destruct Hi as [Hb Hg].
  split; [lia|]. split; [done|]. unfold Win32.rel4u_net_cleanup. winsock_solve.
Qed.

(** ** Threads *)

(** A thread that is created runs the function it was given on the argument it
    was given, once; its context is freed exactly once, by the new thread, or by
    the creator when the thread could not be made.  [malloc] returns a block that
    is not in use, or NULL. *)
Theorem thread_context_once thread func arg m :
  (forall k, fst (ker_call (sys_malloc Win32.sizeof_context) k) <> 0 ->
     ma_contexts m !! fst (ker_call (sys_malloc Win32.sizeof_context) k) = None) ->
  let '(res, handle, m1) := Win32.rel4u_thread_create thread func arg m in
  (res = -1 /\ ma_contexts m1 = ma_contexts m /\
   forall p, p <> 0 -> balance (Block p) (ma_trace m1) = balance (Block p) (ma_trace m)) \/
  (res = 0 /\ handle <> 0 /\ exists ctx tr,
   ma_trace m1 = tr ++ [Event (sys_CreateThread ctx) handle] /\
   let m2 := snd (Win32.rel4u_win32_thread_trampoline ctx m1) in
   ma_contexts m2 = ma_contexts m /\
   ma_trace m2 = ma_trace m1 ++ [Event (sys_free ctx) tt; Event (sys_thread_body func arg) tt] /\
   forall p, p <> 0 -> balance (Block p) (ma_trace m2) = balance (Block p) (ma_trace m)).
Proof.
  intros Hfresh. specialize (Hfresh (ma_kernel m)). unfold Win32.rel4u_thread_create. sys_run.
  simpl in Hfresh. destruct (Z.eqb_spec a 0) as [->|Ha].
  { sys_run. left. split; [done|]. split; [done|]. intros p Hp. rewrite balance_app. cbn [balance event_balance]. unfold one.
    destruct (Z.eqb_spec 0 p); lia. }
  specialize (Hfresh Ha). sys_run. destruct (Z.eqb_spec a0 0) as [->|Ha0].
  - sys_run. left. split; [done|]. split; [by apply delete_insert_id|].
    intros p Hp. rewrite !balance_app. cbn [balance event_balance]. lia.
  - sys_run. right. split; [done|]. split; [done|]. eexists a, _. split; [reflexivity|].
    unfold Win32.rel4u_win32_thread_trampoline. sys_run. rewrite lookup_insert_eq. sys_run.
    repeat match goal with u : unit |- _ => destruct u end.
    split; [by apply delete_insert_id|]. split; [by rewrite <- (app_assoc _ [_] [_])|].
    intros p Hp. rewrite !balance_app. cbn [balance event_balance]. lia.
Qed.

(** ** Handles *)

Lemma thread_join_owns thread m h : h <> 0 ->
  owns (Win32.rel4u_thread_join thread) m (Handle h) = - one (thread =? h).
Proof. intros Hh. unfold Win32.rel4u_thread_join. owns_solve. Qed.
End winsock.

(** ** The clock *)

(** The performance counter is converted exactly, and so never goes back, as long
    as it is below [2^64 / 10^9] ticks. *)
Lemma counter_ns_exact counter freq : 0 <= counter -> counter * 1000000000 < 2 ^ 64 -> 0 < freq < 2 ^ 63 ->
  counter_ns counter freq = counter * 1000000000 / freq.
Proof.
  intros Hc Hb Hf. unfold counter_ns.
  rewrite (u64_small counter), (u64_small freq), u64_small by (word_unfold; lia). done.
Qed.

Lemma counter_ns_mono c c' freq : 0 <= c <= c' -> c' * 1000000000 < 2 ^ 64 -> 0 < freq < 2 ^ 63 ->
  counter_ns c freq <= counter_ns c' freq.
Proof. intros H Hb Hf. rewrite !counter_ns_exact by lia. apply Z.div_le_mono; lia. Qed.

(** The tick at which the product leaves 64 bits: 1845 seconds at 10 MHz. *)
Definition wrap_tick : Z := 18446744073.

(** C37. For a counter whose frequency is between 2 Hz and 10 GHz, the Windows clock
    is the exact time up to [wrap_tick] and jumps back to less than 0.3 s at the
    next tick; the time elapsed between these two ticks, as the endpoints compute it
    in 64 bits, is at least every inactivity timeout a configuration can have. *)
Theorem windows_clock_wraps freq timeout_ms : 2 <= freq <= 10 ^ 10 -> is_u32 timeout_ms ->
  (forall c c', 0 <= c <= c' -> c' <= wrap_tick ->
     counter_ns c' freq = c' * 1000000000 / freq /\ counter_ns c freq <= counter_ns c' freq) /\
  counter_ns (wrap_tick + 1) freq = 290448384 / freq /\
  u64 (counter_ns (wrap_tick + 1) freq - counter_ns wrap_tick freq) >= timeout_ms * 1000000.
Proof.
  intros Hf Ht. unfold wrap_tick.
  assert (E : counter_ns (18446744073 + 1) freq = 290448384 / freq).
  { unfold counter_ns. rewrite (u64_small freq) by (word_unfold; lia). reflexivity. }
  split; [|split; [exact E|]].
  - intros c c' Hc Hc'. split; [apply counter_ns_exact; lia|apply counter_ns_mono; lia].
  - rewrite E, counter_ns_exact by lia.
    assert (H1 : 0 <= 290448384 / freq <= 145224192).
    { split; [apply Z.div_pos; lia|]. apply Z.div_le_upper_bound; lia. }
    assert (H2 : 1844674407 <= 18446744073 * 1000000000 / freq <= 9223372036500000000).
    { split; [apply Z.div_le_lower_bound; lia|apply Z.div_le_upper_bound; lia]. }
    unfold u64. rewrite <- (Z.mod_add _ 1) by lia. rewrite Z.mod_small by (word_unfold; lia).
    word_unfold. lia.
Qed.

(** ** Timed waits *)

Section timed_wait.
Context `{Kernel}.

(** The two branches of a timed wait ask for the same time.  The POSIX one calls
    [pthread_cond_timedwait] with the deadline that lies exactly [timeout_ms]
    milliseconds after the time of day it has read, normalised; the Windows one
    hands the interval over, and no timeout that was a positive [int] is taken
    for the endless wait.  Both answer whether the wait ended before the time. *)
Theorem timed_wait_calls cond mutex timeout_ms m sec usec k :
  0 < timeout_ms < 2 ^ 31 -> 0 <= usec < 1000000 ->
  ker_call sys_gettimeofday (ma_kernel m) = ((sec, usec), k) ->
  (exists s ns res, 0 <= ns < 1000000000 /\
     s * 1000000000 + ns = sec * 1000000000 + usec * 1000 + timeout_ms * 1000000 /\
     ma_trace (snd (Posix.rel4u_cond_timedwait_ms cond mutex timeout_ms m)) =
       ma_trace m ++ [Event sys_gettimeofday (sec, usec); Event (sys_cond_timedwait cond mutex s ns) res] /\
     fst (Posix.rel4u_cond_timedwait_ms cond mutex timeout_ms m) = (res =? 0)) /\
  (exists res, timeout_ms <> INFINITE /\
     ma_trace (snd (Win32.rel4u_cond_timedwait_ms cond mutex timeout_ms m)) =
       ma_trace m ++ [Event (sys_SleepConditionVariableCS cond mutex timeout_ms) res] /\
     fst (Win32.rel4u_cond_timedwait_ms cond mutex timeout_ms m) = negb (res =? 0)).
Proof.
  intros Ht Hu Ek. split.
  - unfold Posix.rel4u_cond_timedwait_ms, sys_seq, sys_ret, invoke. rewrite Ek. cbn [fst snd].
    destruct (Net.rel4u_cond_timedwait_ms sec usec timeout_ms) as [s ns] eqn:Ed.
    apply deadline_exact in Ed as [Hn Hs]; [|done|word_unfold; lia]. sys_run.
    eexists s, ns, _. do 2 (split; [done|]). split; [by rewrite <- app_assoc|done].
  - unfold Win32.rel4u_cond_timedwait_ms. sys_run. eexists. split; [unfold INFINITE; lia|]. by split.
Qed.
End timed_wait.

(** ** Witnesses *)

Lemma timed_wait_calls_witness :
  fst (Posix.rel4u_cond_timedwait_ms (H := toy_kernel) 1 2 1500 (toy_machine 0 false)) = true /\
  ma_trace (snd (Posix.rel4u_cond_timedwait_ms (H := toy_kernel) 1 2 1500 (toy_machine 0 false))) =
    [Event sys_gettimeofday (100, 999999); Event (sys_cond_timedwait 1 2 102 499999000) 0].
Proof.
  destruct (timed_wait_calls (H := toy_kernel) 1 2 1500 (toy_machine 0 false) 100 999999 (mk_toy 3 0 false)
    ltac:(lia) ltac:(lia) eq_refl) as [(s & ns & res & Hn & Hs & Et & Er) _].
  split; [reflexivity|]. rewrite Et. assert (s = 102 /\ ns = 499999000) as [-> ->] by lia.
  change (true = (res =? 0)) in Er. symmetry in Er. apply Z.eqb_eq in Er. rewrite Er. reflexivity.
Defined.

Lemma winsock_once_witness :
  let calls := [CallCreateUdp false; CallPipeCreate toy_pipe; CallCleanup; CallInit] in
  balance Winsock (ma_trace (foldl (fun m c => snd (net_run (H := toy_kernel) c m)) (toy_machine 0 false) calls))
  = 1.
Proof.
  pose proof (winsock_once (H := toy_kernel) [CallCreateUdp false; CallPipeCreate toy_pipe; CallCleanup; CallInit]
    (toy_machine 0 false) ltac:(split; [reflexivity|left; reflexivity])) as (_ & W & _).
  cbv zeta. rewrite W. vm_compute. reflexivity.
Defined.

Lemma thread_context_once_witness :
  let r := @Win32.rel4u_thread_create toy_kernel 0 11 12 (toy_machine 0 true) in
  fst (fst r) = -1 /\ balance (Block 3) (ma_trace (snd r)) = 0.
Proof.
  pose proof (thread_context_once (H := toy_kernel) 0 11 12 (toy_machine 0 true)
    ltac:(intros; reflexivity)) as T.
  assert (E : fst (fst (@Win32.rel4u_thread_create toy_kernel 0 11 12 (toy_machine 0 true))) = -1)
    by (vm_compute; reflexivity).
  cbv zeta. destruct (Win32.rel4u_thread_create 0 11 12 (toy_machine 0 true)) as [[res h] m1].
  cbn [fst snd] in *. split; [exact E|]. destruct T as [(_ & _ & T)|(T & _)].
  - apply T. discriminate.
  - rewrite E in T. discriminate T.
Defined.

Lemma windows_clock_wraps_witness :
  counter_ns wrap_tick 10000000 = 1844674407300 /\ counter_ns (wrap_tick + 1) 10000000 = 29 /\
  u64 (counter_ns (wrap_tick + 1) 10000000 - counter_ns wrap_tick 10000000) >= 30000 * 1000000.
Proof.
  destruct (windows_clock_wraps 10000000 30000 ltac:(lia) ltac:(word_unfold; lia)) as (_ & E & T).
  split; [reflexivity|]. split; [rewrite E; reflexivity|exact T].
Defined.
