(* ===== verification/Peer.v ===== *)
(** * The state of one connection under any input

    Both endpoints keep, per peer, a send window, a receive window and an RTT
    estimator, and hand messages over through two queues.  Whatever a peer sends
    and whatever the application does, these stay well formed; this file has the
    lemma for each call that the worker threads make on them. *)
From S2P Require Import Prelude Ring Types Seq Packet Rtt Mpmc MpmcSpec Queue SendWindow SendSpec Send RecvWindow RecvSpec RecvSafe Net Link Endpoint.
From stdpp Require Import base numbers list gmap.
Open Scope Z_scope.
Open Scope rel4u_scope.

Lemma send_init_ok w c s : cap_ok c -> is_u32 s ->
  fst (rel4u_send_window_init w c s true) = 0 /\ send_ok (snd (rel4u_send_window_init w c s true)) /\
  sw_capacity (snd (rel4u_send_window_init w c s true)) = c.
Proof.
  intros Hc Hs. unfold rel4u_send_window_init. pose proof Hc as [Hr Hp]. rewrite Hp.
  destruct (Z.ltb_spec c 2); [lia|]. cbn [orb negb fst snd]. split; [done|]. split; [|done].
  split; [done|]. exists s, []. apply (fresh_rep (replicate (Z.to_nat c) send_slot_zero) c); [done|done|].
  rewrite length_replicate. lia.
Qed.

Lemma send_reset_ok w s : send_ok w -> is_u32 s ->
  send_rep (snd (rel4u_send_window_reset w s)) s [] /\ send_ok (snd (rel4u_send_window_reset w s)) /\
  sw_capacity (snd (rel4u_send_window_reset w s)) = sw_capacity w.
Proof.
  intros (_ & h & es & R) Hs. pose proof (sr_cap _ _ _ R) as [Hc _]. pose proof (sr_slots _ _ _ R) as Hl.
  assert (R' : send_rep (snd (rel4u_send_window_reset w s)) s []); [|split; [done|]].
  2: { split; [split|]; [| by exists s, [] |]; unfold rel4u_send_window_reset; destruct (_ || _) eqn:E; try done;
       apply orb_true_iff in E as [?%Nat.eqb_eq|?%Z.eqb_eq]; lia. }
  unfold rel4u_send_window_reset. rewrite (proj2 (Nat.eqb_neq _ _)), (proj2 (Z.eqb_neq _ _)) by lia.
  cbn [orb snd]. apply (fresh_rep (replicate (Z.to_nat (sw_capacity w)) send_slot_zero) (sw_capacity w)); [apply R|done|].
  rewrite length_replicate. lia.
Qed.

(** A push of a queued message. *)
Lemma send_push_ok w mode data len now : send_ok w -> is_u64 now ->
  0 <= len <= Z.of_nat (length data) -> len <= REL4U_MAX_PAYLOAD_SIZE ->
  let '(r, w', seq) := rel4u_send_window_push w mode data len now in
  send_ok w' /\ (rel4u_send_window_can_send w = true -> r = 0 /\ exists n, seq = Some n /\ is_u32 n).
Proof.
  intros (Hu & h & es & R) Hnow Hlen Hmax. destruct (mode_reliable mode) eqn:Hm.
  - pose proof (push_reliable w h es mode data len now R Hm Hnow Hlen Hmax) as P. cbv zeta in P.
    rewrite (can_send_spec _ _ _ R). destruct (_ <? _).
    + destruct P as (w' & payload & -> & R' & _ & _ & Eu). split; [split; [by rewrite Eu|by eexists _, _]|].
      split; [done|]. eexists. split; [done|apply u32_range].
    + rewrite P. split; [split; [done|by exists h, es]|done].
  - unfold rel4u_send_window_push. rewrite Hm.
    destruct (Z.gtb_spec len REL4U_MAX_PAYLOAD_SIZE); [lia|].
    split; [|intros _; split; [done|by eexists]]. split; [apply u32_range|].
    exists h, es. destruct R. by constructor.
Qed.

(** What a message or a window entry carries to the peer. *)
Definition msg_view (m : msg) : Z * list Z := (m_mode m, m_data m).
Definition entry_view (e : rel4u_send_slot) : Z * list Z :=
  (ss_delivery_mode e, take (Z.to_nat (ss_payload_len e)) (ss_payload e)).
Definition reliable_msg (m : msg) : Prop := mode_reliable (m_mode m) = true.
#[export] Instance reliable_msg_dec m : Decision (reliable_msg m).
Proof. unfold reliable_msg. apply _. Defined.

(** Pushing a queued message into a window with room. *)
Lemma push_queued w h es it now : send_rep w h es -> is_u32 (sw_next_unrel_seq w) -> is_u64 now -> item_sized it ->
  Z.of_nat (length es) < sw_capacity w ->
  exists w' seq es', rel4u_send_window_push w (it_mode it) (it_data it) (it_len it) now = (0, w', Some seq) /\
    is_u32 seq /\ send_rep w' h (es ++ es') /\
    entry_view <$> es' = msg_view <$> filter reliable_msg [item_msg it].
Proof.
  intros R Hu Hn [[Hl _] Hmax] Hroom. destruct (mode_reliable (it_mode it)) eqn:Hm.
  - pose proof (push_reliable w h es (it_mode it) (it_data it) (it_len it) now R Hm Hn Hl Hmax) as P. cbv zeta in P.
    rewrite (proj2 (Z.ltb_lt _ _) Hroom) in P. destruct P as (w' & payload & -> & R' & Ht & _).
    exists w'. eexists _, _. split; [done|]. split; [apply u32_range|]. split; [exact R'|].
    rewrite filter_cons_True, filter_nil by done. cbn [fmap list_fmap]. f_equal.
    unfold entry_view, msg_view, item_msg, pushed_entry. cbn [ss_delivery_mode ss_payload_len ss_payload m_mode m_data].
    by rewrite Ht.
  - unfold rel4u_send_window_push. rewrite Hm.
    destruct (Z.gtb_spec (it_len it) REL4U_MAX_PAYLOAD_SIZE) as [Hbig|_].
    { unfold REL4U_MAX_PAYLOAD_SIZE, REL4U_MAX_MSG_SIZE in *. lia. }
    eexists _, _, []. split; [done|]. split; [done|]. rewrite app_nil_r. split; [destruct R; by constructor|].
    rewrite filter_cons_False; [done|]. unfold reliable_msg. cbn. by rewrite Hm.
Qed.

(** Any number is an offset of the head of the window. *)
Lemma ack_offset h ack : is_u32 ack -> exists d, - 2 ^ 31 < d - 1 <= 2 ^ 31 /\ ack = u32 (h + d - 1).
Proof.
  intros Ha. destruct (decide (u32 (ack - h) <= 2 ^ 31)).
  - exists (u32 (ack - h) + 1). split; word_lia.
  - exists (u32 (ack - h) - 2 ^ 32 + 1). split; word_lia.
Qed.

(** An acknowledgement with any numbers. *)
Lemma on_ack_ok w ack sack now rtt stats : send_ok w -> rtt_ok rtt -> is_u32 ack ->
  let '(w', rtt', stats') := rel4u_send_window_on_ack w ack sack now (Some rtt) (Some stats) in
  send_ok w' /\ exists r s, rtt' = Some r /\ stats' = Some s /\ rtt_ok r.
Proof.
  intros (Hu & h & es & R) Hr Ha.
  destruct (ack_offset h ack Ha) as (d & Hd & ->).
  pose proof (on_ack_rep w h es d sack now (Some rtt) (Some stats) R Hd) as P.
  destruct (rel4u_send_window_on_ack _ _ _ _ _ _) as [[w' rtt'] stats'].
  destruct P as (R' & F & E). split; [split; [by rewrite (sf_unrel _ _ F)|by eexists _, _]|].
  destruct (sampled_rtt_ok now (acked_news d sack es) rtt (Some stats) Hr) as (r' & s' & E' & Hok).
  rewrite E' in E. injection E as -> ->.
  assert (is_Some s') as [s ->]; [|by exists r', s].
  assert (Hsome : forall l r st, is_Some (snd (foldl apply_sample (Some r, Some st) l))).
  { induction l as [|ms l IH]; intros r st; [by eexists|]. apply IH. }
  specialize (Hsome (omap (rtt_sample now) (acked_news d sack es)) rtt stats).
  unfold sampled in E'. by rewrite E' in Hsome.
Qed.

(** ** Retransmission *)

(** Updating an expired slot leaves a window with the same packets. *)
Lemma retransmit_slot_ok w h es k now : send_rep w h es -> 0 <= k < Z.of_nat (length es) -> is_u64 now ->
  exists es', send_rep (send_slot_retransmit w ((h + k) mod sw_capacity w) now) h es' /\
    length es' = length es.
Proof.
  intros R Hk Hn. destruct (lookup_lt_is_Some_2 es (Z.to_nat k)) as [e He]; [lia|].
  eexists. split; [by apply (retransmit_rep w h es k e now R); [lia| |]|]. by rewrite length_insert.
Qed.

(** The slots the scan for expired packets returns are slots in use. *)
Lemma expired_slots w h es now rto max : send_rep w h es -> is_u64 now -> is_u32 rto ->
  exists ks, rel4u_send_window_get_expired w now rto (Z.of_nat max) =
      (fun k => (h + k) mod sw_capacity w) <$> ks /\
    Forall (fun k => 0 <= k < Z.of_nat (length es)) ks.
Proof.
  intros R Hn Hr. exists (take max (expired_from now rto 0 es)).
  rewrite (get_expired_spec w h es now rto max R Hn Hr), fmap_take. split; [done|].
  apply Forall_take. eapply Forall_impl; [apply expired_from_range|]. cbn. lia.
Qed.

(** ** Creation *)

Lemma queue_init_ok mode policy cap bytes mem r q :
  is_u32 cap -> 0 <= bytes < 2 ^ 63 -> (forall l, mem = Some l -> Z.of_nat (length l) = cap) ->
  rel4u_mpmc_init mode policy cap bytes mem = (r, q) -> r = 0 -> queue_ok q.
Proof.
  intros Hc Hb Hm E Hr. destruct mode.
  - destruct mem as [l|]; [|unfold rel4u_mpmc_init in E; destruct (cap <? 2); by injection E as <-].
    destruct (Z.ltb_spec cap 2) as [H2|H2].
    { unfold rel4u_mpmc_init in E. rewrite (proj2 (Z.ltb_lt _ _) H2) in E. by injection E as <-. }
    pose proof (init_fixed_rep policy cap bytes l ltac:(word_unfold; lia) (Hm l eq_refl)) as P.
    rewrite E in P. destruct P as (_ & P & _). by eexists.
  - pose proof (init_dynamic_rep policy cap bytes mem Hb) as P. rewrite E in P.
    destruct P as (_ & P & _). by eexists.
Qed.

Lemma fresh_ready_ok : ready_ok 64 64 (replicate 64 recv_slot_zero) 0.
Proof. constructor; [done|apply Forall_replicate, slot_zero_bound|lia|constructor]. Qed.

Section queues.
Context {allocator : Malloc}.

(** ** The queues *)

Lemma push_front_ok q it : queue_ok q -> item_wf it ->
  queue_ok (snd (fst (rel4u_mpmc_push_front q it))) /\ q_same q (snd (fst (rel4u_mpmc_push_front q it))).
Proof.
  intros [b Hb] Hw. pose proof (push_spec true q b it Hb Hw) as H. unfold rel4u_mpmc_push_front.
  unfold mpmc_push in H. destruct (mpmc_push_front_locked q it) as [ok q'].
  destruct H as (alloc & b' & _ & _ & Hb' & Hs). split; [by exists b'|done].
Qed.

Lemma try_push_ok q it : queue_ok q -> item_wf it ->
  queue_ok (snd (rel4u_mpmc_try_push q it)) /\ q_same q (snd (rel4u_mpmc_try_push q it)).
Proof.
  intros [b Hb] Hw. pose proof (push_spec false q b it Hb Hw) as H. unfold rel4u_mpmc_try_push.
  unfold mpmc_push in H. destruct (mpmc_push_back_locked q it) as [ok q'].
  destruct H as (alloc & b' & _ & _ & Hb' & Hs). split; [by exists b'|done].
Qed.

Lemma try_pop_ok q out : queue_ok q ->
  let '(ok, q', out') := rel4u_mpmc_try_pop q out in
  queue_ok q' /\ q_same q q' /\ (ok = true -> item_sized out' /\ q_count q' < q_count q) /\
  (ok = false -> q_count q = 0 /\ q' = q).
Proof.
  intros [b Hb]. pose proof (pop_spec q b out Hb) as H. unfold rel4u_mpmc_try_pop.
  destruct (mpmc_pop_head_locked q out) as [[ok q'] out'] eqn:E. unfold bq_pop in H.
  pose proof (q_rep_count _ _ Hb) as Hc. destruct (bq_msgs b) as [|m l] eqn:El.
  - destruct H as (-> & -> & ->). split; [by exists b|]. split; [done|]. split; [done|]. intros _. split; [by rewrite Hc|done].
  - destruct H as (-> & _ & Hb' & Hs & Hit). split; [by eexists|]. split; [done|]. split; [|done].
    intros _. split; [done|]. rewrite Hc, (q_rep_count _ _ Hb'). cbn. lia.
Qed.

Lemma queue_count_nonneg q : queue_ok q -> 0 <= q_count q.
Proof. intros [b Hb]. rewrite (q_rep_count _ _ Hb). lia. Qed.

Lemma wake_all_ok q : queue_ok q -> queue_ok (fst (rel4u_mpmc_wake_all q)).
Proof. intros [b Hb]. exists b. by apply wake_all_rep. Qed.

(** The item of a public send. *)
Lemma queued_item_wf id mode data len : 0 <= len <= Z.of_nat (length data) ->
  item_wf (mk_item id (u8 mode) (u16 len) (memcpy [] data len)).
Proof.
  intros Hl. unfold item_wf, memcpy. cbn [it_len it_data].
  rewrite drop_nil, app_nil_r, length_take. word_lia.
Qed.

(** A blocking pop, when the other threads keep the queue well formed. *)
Lemma pop_wait_ok gen timeout wakes : Forall (fun x => queue_ok (snd x)) wakes ->
  forall q out, queue_ok q ->
  match pop_wait_loop gen timeout q out wakes with
  | Blocked q' | Returned _ q' _ => queue_ok q'
  end.
Proof.
  assert (Hpop : forall q out, queue_ok q -> match (let '(ok, q, out) := mpmc_pop_head_locked q out in
    Returned ok q out) with Blocked q' | Returned _ q' _ => queue_ok q' end).
  { intros q out Hq. pose proof (try_pop_ok q out Hq) as P. unfold rel4u_mpmc_try_pop in P.
    destruct (mpmc_pop_head_locked q out) as [[ok q'] out']. apply P. }
  induction 1 as [|[sg q'] wakes Hq' _ IH]; intros q out Hq; cbn [pop_wait_loop];
    (destruct (_ =? _); [|by apply Hpop]); (destruct (timeout =? 0); [done|]); [done|].
  destruct (_ && _); [done|]. by apply IH.
Qed.

(** Reclaiming, whether or not the allocations succeed. *)
Lemma reclaim_loop_ok w h es : send_rep w h es -> forall j q n, (j <= length es)%nat -> queue_ok q ->
  let '(_, q') := reclaim_loop j w q (u32 (h + Z.of_nat j)) n in queue_ok q' /\ q_same q q'.
Proof.
  intros R. pose proof (sr_cap _ _ _ R) as [Hc _]. pose proof (sr_fits _ _ _ R) as Hf.
  induction j as [|j IH]; intros q n Hj Hq; [done|].
  cbn [reclaim_loop]. rewrite (sr_head _ _ _ R), seq_gt_near by (unfold near; lia).
  rewrite (proj2 (Z.ltb_lt _ _)) by lia.
  replace (u32 (u32 (h + Z.of_nat (S j)) - 1)) with (u32 (h + Z.of_nat j)) by word_lia.
  destruct (lookup_lt_is_Some_2 es j) as [e He]; [lia|].
  pose proof (sr_entries _ _ _ R _ _ He) as O. rewrite <- (Nat2Z.id j) in He. cbv zeta.
  rewrite (send_slot_get _ _ _ _ _ R (Nat2Z.is_nonneg j) He).
  destruct (_ && _); [|apply IH; [lia|done]]. destruct (reclaim_item_ok _ _ O) as [Hwf _].
  destruct (push_front_ok q _ Hq Hwf) as [Hq1 Hs1].
  destruct (rel4u_mpmc_push_front q _) as [[ok q1] eff]. cbn [fst snd] in Hq1, Hs1.
  specialize (IH q1 (if ok then n + 1 else n) ltac:(lia) Hq1). destruct (reclaim_loop _ _ _ _ _) as [n' q'].
  destruct IH as [IH1 IH2]. split; [done|by etransitivity].
Qed.

Lemma reclaim_ok w q : send_ok w -> queue_ok q ->
  queue_ok (snd (rel4u_send_window_reclaim_unacked w q)) /\
  q_same q (snd (rel4u_send_window_reclaim_unacked w q)).
Proof.
  intros (_ & h & es & R) Hq. unfold rel4u_send_window_reclaim_unacked.
  destruct (_ =? _)%nat; [done|]. rewrite (send_fuel _ _ _ R), (sr_next _ _ _ R).
  destruct (rel4u_seq_gt _ _); [|done].
  pose proof (reclaim_loop_ok w h es R (length es) q 0 ltac:(done) Hq) as H.
  by destruct (reclaim_loop _ _ _ _ _).
Qed.
End queues.

(** ** Datagrams *)

(** A datagram as [recvfrom] fills the buffer of both workers. *)
Definition datagram_ok (buf : list Z) : Prop :=
  Forall is_u8 buf /\ 0 < Z.of_nat (length buf) <= REL4U_MAX_PAYLOAD_SIZE + REL4U_HEADER_LEN.

(** The header of an accepted datagram is in range and bounds its payload. *)
Lemma decode_ok host buf out hdr : datagram_ok buf ->
  rel4u_packet_decode_header host buf (Z.of_nat (length buf)) out = (0, hdr) ->
  header_wf hdr /\ header_bound hdr (drop 24 buf).
Proof.
  intros [Hb Hl] E. unfold REL4U_MAX_PAYLOAD_SIZE in Hl.
  destruct (Z.ltb_spec (Z.of_nat (length buf)) REL4U_HEADER_LEN) as [Hs|Hs].
  { unfold rel4u_packet_decode_header in E. by rewrite (proj2 (Z.ltb_lt _ _) Hs) in E. }
  rewrite decode_parse in E by (done || lia). injection E as Ec <-. unfold REL4U_HEADER_LEN in *.
  pose proof (parse_bytes_wf buf Hs Hb) as W. split; [done|]. unfold header_check, REL4U_HEADER_LEN in Ec.
  destruct (negb _); [done|]. destruct (negb _); [done|].
  destruct (Z.ltb_spec (Z.of_nat (length buf)) (24 + h_payload_len (parse_bytes buf))); [done|].
  pose proof (wf_payload_len _ W) as [? _]. unfold header_bound, REL4U_MAX_PAYLOAD_SIZE. rewrite length_drop.
  split; [lia|]. split; [lia|]. split; apply W.
Qed.

(** ** Packets on the wire *)

Lemma lor_u32 a b : is_u32 a -> is_u32 b -> is_u32 (Z.lor a b).
Proof.
  intros [Ha0 Ha] [Hb0 Hb]. split; [by apply Z.lor_nonneg|].
  destruct (decide (Z.lor a b = 0)) as [->|Hn]; [lia|].
  assert (0 <= Z.lor a b) by (by apply Z.lor_nonneg).
  apply Z.log2_lt_pow2; [lia|]. rewrite Z.log2_lor by done. apply Z.max_lub_lt.
  - destruct (decide (a = 0)) as [->|]; [done|]. apply Z.log2_lt_pow2; lia.
  - destruct (decide (b = 0)) as [->|]; [done|]. apply Z.log2_lt_pow2; lia.
Qed.

Lemma ack_info_u32 win : is_u32 (fst (rel4u_recv_window_get_ack_info win)) /\
  is_u32 (snd (rel4u_recv_window_get_ack_info win)).
Proof.
  unfold rel4u_recv_window_get_ack_info. cbn [fst snd]. split; [apply u32_range|].
  generalize (seqZ 0 32) as l. intros l. assert (H0 : is_u32 0) by (word_unfold; lia). revert H0.
  generalize 0 as acc. induction l as [|i l IH]; intros acc Ha; [done|]. cbn [foldl]. apply IH.
  destruct (_ && _); [|done]. apply lor_u32; [done|apply u32_range].
Qed.

Lemma make_header_wf type mode session seq len ack sack :
  is_u32 session -> is_u32 seq -> is_u32 ack -> is_u32 sack ->
  header_wf (make_header type mode session seq len ack sack).
Proof. intros. constructor; cbn; try done; apply u8_range || apply u16_range. Qed.

(** The payload part of a packet. *)
Definition packet_body (payload : option (list Z)) (len : Z) : list Z :=
  match payload with Some p => take (Z.to_nat len) p | None => [] end.

Lemma encode_packet_wire {platform : Platform} hdr payload len : header_wf hdr -> 0 <= len ->
  encode_packet hdr payload len = Some (header_bytes hdr ++ packet_body payload len).
Proof.
  intros W Hl. unfold encode_packet.
  assert (E : rel4u_packet_encode_header pf_host hdr (replicate 24 0) (REL4U_MAX_PAYLOAD_SIZE + REL4U_HEADER_LEN)
    = rel4u_packet_encode_header pf_host hdr (replicate 24 0) 24) by done.
  rewrite E, encode_bytes by (done || (unfold REL4U_HEADER_LEN; cbn; lia)). cbn [Z.leb Z.compare REL4U_HEADER_LEN].
  rewrite app_nil_r. f_equal. f_equal. unfold packet_body. destruct payload as [p|]; [|done].
  destruct (Z.gtb_spec len 0); [done|]. by replace len with 0 by lia.
Qed.

Lemma decode_wire host hdr body out : header_wf hdr -> h_magic hdr = REL4U_MAGIC ->
  h_version hdr = REL4U_VERSION -> Forall is_u8 body -> Z.of_nat (length body) = h_payload_len hdr ->
  rel4u_packet_decode_header host (header_bytes hdr ++ body)
    (Z.of_nat (length (header_bytes hdr ++ body))) out = (0, hdr).
Proof.
  intros W Hm Hv Hb Hl. rewrite decode_parse.
  - rewrite parse_header_bytes by done. f_equal. unfold header_check, REL4U_HEADER_LEN.
    rewrite Hm, Hv, !Z.eqb_refl. cbn [negb]. rewrite length_app, header_bytes_length.
    by rewrite (proj2 (Z.ltb_ge _ _)) by lia.
  - unfold REL4U_HEADER_LEN. rewrite length_app, header_bytes_length. lia.
  - apply Forall_app. split; [by apply header_bytes_u8|done].
Qed.

Lemma wire_datagram_ok hdr body : header_wf hdr -> Forall is_u8 body ->
  Z.of_nat (length body) <= REL4U_MAX_PAYLOAD_SIZE -> datagram_ok (header_bytes hdr ++ body).
Proof.
  intros W Hb Hl. split; [apply Forall_app; split; [by apply header_bytes_u8|done]|].
  unfold REL4U_HEADER_LEN. rewrite length_app, header_bytes_length. lia.
Qed.

Lemma wire_body hdr body : drop 24 (header_bytes hdr ++ body) = body.
Proof. by rewrite drop_app_length' by (by rewrite header_bytes_length). Qed.

(** The socket takes every datagram. *)
Definition socket_accepts {platform : Platform} (sock : Z) : Prop :=
  sock <> REL4U_INVALID_SOCKET /\ forall n len, 0 < len -> 0 < pf_sendto n len.

Lemma sendto_accepted {platform : Platform} w sock buf dest : socket_accepts sock -> (0 < length buf)%nat ->
  exists sent w', rel4u_net_sendto w sock buf dest = (sent, w') /\ 0 < sent /\
    wd_sent w' = wd_sent w ++ [(dest, buf)].
Proof.
  intros [Hsock Hsend] Hl. unfold rel4u_net_sendto. rewrite (proj2 (Z.eqb_neq _ _)) by done.
  assert (Hpos : 0 < pf_sendto (wd_calls w) (Z.of_nat (length buf))) by (apply Hsend; lia).
  eexists _, _. split; [done|]. split; [done|]. cbn. by rewrite (proj2 (Z.gtb_lt _ _)) by done.
Qed.

(** ** A sample platform *)

(** A clock that ticks every millisecond and a socket that sends everything. *)
Definition sample_clock (n : nat) : Z := Z.min (1000000000 + 1000000 * Z.of_nat n) (2 ^ 63).
Lemma sample_clock_range n : 0 <= sample_clock n < 2 ^ 64 - 1.
Proof. unfold sample_clock. lia. Qed.
Definition sample_platform : Platform := {|
  pf_host := LittleEndian;
  pf_clock := sample_clock;
  pf_sendto _ len := len;
  pf_clock_range := sample_clock_range
|}.
