(* ===== verification/Client.v ===== *)
(** * Client: definitions

    [src/core/rel4u_client.c]: the public calls and the worker thread of a
    client.  The worker's local variables [state], [now_ns] and
    [last_connect_req_ns] are a record of their own, since the application may
    change [c->state] between the worker's reads.  Each part of the worker's loop
    body is one definition; [client_iteration] puts them together.  The mutexes
    make each call on a queue atomic; clock, socket and allocator are the
    parameters of [Endpoint] and [Mpmc]. *)
From S2P Require Import Prelude Types Packet Rtt Mpmc SendWindow RecvWindow Net Link Endpoint.
From stdpp Require Import base numbers list gmap.
From Stdlib Require String.
Open Scope Z_scope.
Open Scope rel4u_scope.

(** ** Data *)

Record rel4u_client_config := mk_client_config {
  cc_server_address : option String.string;
  cc_server_port : Z;
  cc_bind_address : option String.string;
  cc_bind_port : Z;
  cc_mtu : Z;
  cc_send_queue_capacity : Z;
  cc_recv_queue_capacity : Z;
  cc_window_size : Z;
  cc_heartbeat_interval_ms : Z;
  cc_inactivity_timeout_ms : Z;
  cc_connect_timeout_ms : Z;
  cc_disable_auto_reconnect : bool;
  cc_reconnect_interval_ms : Z;
  cc_memory_mode : rel4u_memory_mode;
  cc_queue_full_policy : rel4u_queue_full_policy;
  cc_max_send_memory_bytes : Z;
  cc_max_recv_memory_bytes : Z
}.

Record rel4u_client := mk_client {
  cl_config : rel4u_client_config;
  cl_sock : Z;
  cl_server_addr : rel4u_net_addr;
  cl_wakeup_pipe : rel4u_wakeup_pipe;
  cl_worker_started : bool;
  cl_running : bool;
  cl_state : rel4u_conn_state;
  cl_session_id : Z;
  cl_rejected : bool;
  cl_send_queue : rel4u_mpmc_queue;
  cl_recv_queue : rel4u_mpmc_queue;
  cl_send_win : rel4u_send_window;
  cl_recv_win : rel4u_recv_window;
  cl_rtt : rel4u_rtt;
  cl_ready_slots : list rel4u_recv_slot;
  cl_last_activity_ns : Z;
  cl_last_heartbeat_sent_ns : Z;
  cl_last_ack_sent_ns : Z;
  cl_ack_pending : bool;
  cl_stats : rel4u_stats
}.
#[export] Instance eta_client : Eta rel4u_client := fun c =>
  mk_client (cl_config c) (cl_sock c) (cl_server_addr c) (cl_wakeup_pipe c) (cl_worker_started c)
    (cl_running c) (cl_state c) (cl_session_id c) (cl_rejected c) (cl_send_queue c) (cl_recv_queue c)
    (cl_send_win c) (cl_recv_win c) (cl_rtt c) (cl_ready_slots c) (cl_last_activity_ns c)
    (cl_last_heartbeat_sent_ns c) (cl_last_ack_sent_ns c) (cl_ack_pending c) (cl_stats c).

(** The worker's local variables. *)
Record client_locals := mk_locals {
  lo_state : rel4u_conn_state;
  lo_now_ns : Z;
  lo_last_connect_req_ns : Z
}.

(** [calloc(1, sizeof(rel4u_client_t))]; [ready_slots] is an array of 64 slots. *)
Definition client_zero (config : rel4u_client_config) : rel4u_client :=
  mk_client config 0 addr_zero (mk_pipe 0 0) false false REL4U_STATE_DISCONNECTED 0 false queue_zero
    queue_zero send_window_zero recv_window_zero (mk_rtt 0 0 0 0 0 false)
    (replicate 64 recv_slot_zero) 0 0 0 false stats_zero.

(** ** Creation *)

(** The defaults [rel4u_client_create] puts in for what the caller left out. *)
Definition client_defaults (c : rel4u_client_config) : rel4u_client_config :=
  let dynamic := bool_decide (cc_memory_mode c = REL4U_MEM_DYNAMIC) in
  mk_client_config (cc_server_address c) (cc_server_port c) (cc_bind_address c) (cc_bind_port c)
    (if cc_mtu c =? 0 then REL4U_DEFAULT_MTU else cc_mtu c)
    (if cc_send_queue_capacity c <? 8 then 128 else cc_send_queue_capacity c)
    (if cc_recv_queue_capacity c <? 8 then 128 else cc_recv_queue_capacity c)
    (if cc_window_size c <? 8 then 64 else cc_window_size c)
    (if cc_heartbeat_interval_ms c =? 0 then 1000 else cc_heartbeat_interval_ms c)
    (if cc_inactivity_timeout_ms c =? 0 then 5000 else cc_inactivity_timeout_ms c)
    (if cc_connect_timeout_ms c =? 0 then 3000 else cc_connect_timeout_ms c)
    (cc_disable_auto_reconnect c)
    (if cc_reconnect_interval_ms c =? 0 then 1000 else cc_reconnect_interval_ms c)
    (cc_memory_mode c) (cc_queue_full_policy c)
    (if dynamic && (cc_max_send_memory_bytes c =? 0) then 1024 * 1024 else cc_max_send_memory_bytes c)
    (if dynamic && (cc_max_recv_memory_bytes c =? 0) then 1024 * 1024 else cc_max_recv_memory_bytes c).

(** What the allocations of a creation return: the object, the item arrays of
    the two queues and the slots of the two windows. *)
Record create_memory := mk_memory {
  cm_object : bool;
  cm_send_items : option (list rel4u_mpmc_item);
  cm_recv_items : option (list rel4u_mpmc_item);
  cm_send_slots : bool;
  cm_recv_slots : bool
}.

Definition rel4u_client_create (config : rel4u_client_config) (mem : create_memory)
  : option rel4u_client :=
  match cc_server_address config with
  | None => None
  | Some _ =>
      if cc_server_port config =? 0 then None else
      if negb (cm_object mem) then None else
      let cfg := client_defaults config in
      let c := (client_zero cfg) <| cl_sock := REL4U_INVALID_SOCKET |>
                 <| cl_state := REL4U_STATE_DISCONNECTED |> <| cl_running := false |> in
      let '(r, send_queue) := rel4u_mpmc_init (cc_memory_mode cfg) (cc_queue_full_policy cfg)
            (cc_send_queue_capacity cfg) (cc_max_send_memory_bytes cfg) (cm_send_items mem) in
      if negb (r =? 0) then None else
      let '(r, recv_queue) := rel4u_mpmc_init (cc_memory_mode cfg) (cc_queue_full_policy cfg)
            (cc_recv_queue_capacity cfg) (cc_max_recv_memory_bytes cfg) (cm_recv_items mem) in
      if negb (r =? 0) then None else
      let '(r, send_win) := rel4u_send_window_init (cl_send_win c) (cc_window_size cfg) 1 (cm_send_slots mem) in
      if negb (r =? 0) then None else
      let '(r, recv_win) := rel4u_recv_window_init (cl_recv_win c) (cc_window_size cfg) 1 (cm_recv_slots mem) in
      if negb (r =? 0) then None else
      Some (c <| cl_send_queue := send_queue |> <| cl_recv_queue := recv_queue |>
              <| cl_send_win := send_win |> <| cl_recv_win := recv_win |>
              <| cl_rtt := rel4u_rtt_init REL4U_RTT_DEFAULT_RTO_MS REL4U_RTT_MIN_RTO_MS REL4U_RTT_MAX_RTO_MS |>)
  end.

(** Both windows, the estimator and the session as [connect], [disconnect] and
    a reconnect reset them. *)
Definition client_reset (c : rel4u_client) : rel4u_client :=
  let c := c <| cl_send_win := snd (rel4u_send_window_reset (cl_send_win c) 1) |> in
  let c := c <| cl_recv_win := snd (rel4u_recv_window_reset (cl_recv_win c) 1) |> in
  let c := c <| cl_rtt := rel4u_rtt_init REL4U_RTT_DEFAULT_RTO_MS REL4U_RTT_MIN_RTO_MS
                            REL4U_RTT_MAX_RTO_MS |> in
  c <| cl_session_id := 0 |> <| cl_ack_pending := false |>.

Section client.
Context {platform : Platform} {allocator : Malloc}.

(** ** Sending packets *)

Definition client_send_packet (c : rel4u_client) (w : world) (type mode seq : Z)
    (payload : option (list Z)) (payload_len : Z) : rel4u_client * world :=
  let '(ack_num, sack_mask) := rel4u_recv_window_get_ack_info (cl_recv_win c) in
  let hdr := make_header type mode (cl_session_id c) seq payload_len ack_num sack_mask in
  match encode_packet hdr payload payload_len with
  | None => (c, w)
  | Some raw_buf =>
      let '(sent, w) := rel4u_net_sendto w (cl_sock c) raw_buf (cl_server_addr c) in
      if sent >? 0 then
        let c := c <| cl_stats := stats_sent (cl_stats c) sent |> in
        let '(now, w) := time_now_ns w in
        (c <| cl_last_ack_sent_ns := now |> <| cl_ack_pending := false |>, w)
      else (c, w)
  end.

(** A packet without payload and sequence number. *)
Definition client_send_control (c : rel4u_client) (w : world) (type : Z) : rel4u_client * world :=
  client_send_packet c w type REL4U_MODE_UNRELIABLE_UNORDERED 0 None 0.

Definition client_trigger_reconnect (c : rel4u_client) (w : world) : rel4u_client * world :=
  if cc_disable_auto_reconnect (cl_config c)
  then (c <| cl_state := REL4U_STATE_DISCONNECTED |>, w) else
  let c := c <| cl_send_queue := snd (rel4u_send_window_reclaim_unacked (cl_send_win c) (cl_send_queue c)) |> in
  let c := client_reset c in
  let '(now, w) := time_now_ns w in
  (c <| cl_last_activity_ns := now |> <| cl_state := REL4U_STATE_CONNECTING |>, w).

(** ** The worker thread *)

(** 1. The handshake: a CONNECT_REQ every [retry_ms] while CONNECTING. *)
Definition client_handshake (c : rel4u_client) (w : world) (lo : client_locals)
  : rel4u_client * world * client_locals :=
  if bool_decide (lo_state lo = REL4U_STATE_CONNECTING) then
    let interval := cc_reconnect_interval_ms (cl_config c) in
    let retry_ms := if (interval >? 0) && (interval <? 200) then interval else 200 in
    let retry_interval_ns := u64 (retry_ms * 1000000) in
    if u64 (lo_now_ns lo - lo_last_connect_req_ns lo) >=? retry_interval_ns then
      let '(c, w) := client_send_control c w REL4U_PKT_CONNECT_REQ in
      (c, w, mk_locals (lo_state lo) (lo_now_ns lo) (lo_now_ns lo))
    else (c, w, lo)
  else (c, w, lo).

(** Which packets pass: REJECT and CONNECT_RESP only while CONNECTING, all
    others only when CONNECTED and of this session. *)
Definition client_accepts (state : rel4u_conn_state) (session_id : Z) (hdr : rel4u_header) : bool :=
  if h_packet_type hdr =? REL4U_PKT_REJECT then bool_decide (state = REL4U_STATE_CONNECTING)
  else if h_packet_type hdr =? REL4U_PKT_CONNECT_RESP then
    bool_decide (state = REL4U_STATE_CONNECTING) && negb (h_session_id hdr =? 0)
  else bool_decide (state = REL4U_STATE_CONNECTED) && (h_session_id hdr =? session_id).

(** The acknowledgement a packet carries. *)
Definition client_on_ack (c : rel4u_client) (hdr : rel4u_header) (now_ns : Z) : rel4u_client :=
  let '(send_win, rtt, stats) := rel4u_send_window_on_ack (cl_send_win c) (h_ack_num hdr) (h_sack_mask hdr)
        now_ns (Some (cl_rtt c)) (Some (cl_stats c)) in
  c <| cl_send_win := send_win |> <| cl_rtt := default (cl_rtt c) rtt |>
    <| cl_stats := default (cl_stats c) stats |>.

(** The data packet [hdr] with the bytes after it. *)
Definition client_on_data (c : rel4u_client) (hdr : rel4u_header) (payload : list Z) : rel4u_client :=
  let '(win, queue, ready, ack) :=
    handle_data 0 (cl_recv_win c) (cl_recv_queue c) (cl_ready_slots c) hdr payload in
  let c := c <| cl_recv_win := win |> <| cl_recv_queue := queue |> <| cl_ready_slots := ready |> in
  if ack then c <| cl_ack_pending := true |> else c.

(** 3. One datagram; the flag says whether the receive loop goes on. *)
Definition client_on_datagram (c : rel4u_client) (w : world) (lo : client_locals)
    (in_buf : list Z) (src_addr : rel4u_net_addr) : rel4u_client * world * client_locals * bool :=
  let bytes_read := Z.of_nat (length in_buf) in
  if negb (rel4u_net_addr_equal src_addr (cl_server_addr c)) then (c, w, lo, true) else
  let '(r, hdr) := rel4u_packet_decode_header pf_host in_buf bytes_read header_zero in
  if negb (r =? 0) then (c, w, lo, true) else
  if negb (client_accepts (lo_state lo) (cl_session_id c) hdr) then (c, w, lo, true) else
  let '(now_ns, w) := time_now_ns w in
  let lo := mk_locals (lo_state lo) now_ns (lo_last_connect_req_ns lo) in
  let c := c <| cl_last_activity_ns := now_ns |> in
  let c := c <| cl_stats := stats_recv (cl_stats c) bytes_read |> in
  let type := h_packet_type hdr in
  if (type =? REL4U_PKT_CONNECT_RESP) && bool_decide (lo_state lo = REL4U_STATE_CONNECTING) then
    let c := c <| cl_session_id := h_session_id hdr |> <| cl_state := REL4U_STATE_CONNECTED |> in
    let '(c, w) := client_send_control c w REL4U_PKT_CONNECT_ACK in
    let c := c <| cl_last_activity_ns := now_ns |> <| cl_last_heartbeat_sent_ns := now_ns |> in
    (c, w, mk_locals REL4U_STATE_CONNECTED now_ns (lo_last_connect_req_ns lo), true)
  else if type =? REL4U_PKT_RESET then
    let '(c, w) := client_trigger_reconnect c w in
    (c, w, mk_locals (cl_state c) now_ns (lo_last_connect_req_ns lo), true)
  else if type =? REL4U_PKT_REJECT then
    (c <| cl_rejected := true |> <| cl_state := REL4U_STATE_DISCONNECTED |> <| cl_running := false |>,
     w, lo, false)
  else if type =? REL4U_PKT_DISCONNECT then
    (c <| cl_state := REL4U_STATE_DISCONNECTED |> <| cl_running := false |>, w, lo, false)
  else
    let c := client_on_ack c hdr now_ns in
    let '(c, w) := if type =? REL4U_PKT_HEARTBEAT
                   then client_send_control c w REL4U_PKT_HEARTBEAT_ACK else (c, w) in
    let c := if type =? REL4U_PKT_DATA then client_on_data c hdr (drop 24 in_buf) else c in
    (c, w, lo, true).

(** The receive loop over the datagrams [recvfrom] returns; an empty datagram
    ends it like an empty socket. *)
Fixpoint client_recv_loop (c : rel4u_client) (w : world) (lo : client_locals)
    (datagrams : list (list Z * rel4u_net_addr)) : rel4u_client * world * client_locals :=
  match datagrams with
  | [] => (c, w, lo)
  | (in_buf, src_addr) :: datagrams =>
      if (length in_buf =? 0)%nat then (c, w, lo) else
      let '(c, w, lo, more) := client_on_datagram c w lo in_buf src_addr in
      if more then client_recv_loop c w lo datagrams else (c, w, lo)
  end.

(** 4. The send queue goes into the window and the socket as long as the window
    has room; a turn takes one message. *)
Fixpoint client_drain (fuel : nat) (c : rel4u_client) (w : world) (now_ns : Z) (item : rel4u_mpmc_item)
  : rel4u_client * world * Z :=
  match fuel with
  | O => (c, w, now_ns)
  | S fuel =>
      if rel4u_send_window_can_send (cl_send_win c) then
        let '(ok, queue, item) := rel4u_mpmc_try_pop (cl_send_queue c) item in
        let c := c <| cl_send_queue := queue |> in
        if ok then
          let '(now_ns, w) := time_now_ns w in
          let '(push_res, send_win, seq) :=
            rel4u_send_window_push (cl_send_win c) (it_mode item) (it_data item) (it_len item) now_ns in
          let c := c <| cl_send_win := send_win |> in
          let '(c, w) :=
            if push_res =? 0
            then client_send_packet c w REL4U_PKT_DATA (it_mode item) (default 0 seq)
                   (Some (it_data item)) (it_len item)
            else (c, w) in
          client_drain fuel c w now_ns item
        else (c, w, now_ns)
      else (c, w, now_ns)
  end.

Definition client_send_pending (c : rel4u_client) (w : world) (lo : client_locals)
  : rel4u_client * world * client_locals :=
  if bool_decide (lo_state lo = REL4U_STATE_CONNECTED) then
    let '(c, w, now_ns) :=
      client_drain (S (Z.to_nat (q_count (cl_send_queue c)))) c w (lo_now_ns lo) item_zero in
    (c, w, mk_locals (lo_state lo) now_ns (lo_last_connect_req_ns lo))
  else (c, w, lo).

(** 5. Timers. *)

(** One expired slot: the time and the counter, then the packet. *)
Definition client_resend (now_ns : Z) (s : rel4u_client * world) (slot_idx : Z) : rel4u_client * world :=
  let '(c, w) := s in
  let c := c <| cl_send_win := send_slot_retransmit (cl_send_win c) slot_idx now_ns |> in
  let slot := sw_slots (cl_send_win c) !. slot_idx in
  client_send_packet c w REL4U_PKT_DATA (ss_delivery_mode slot) (ss_seq_num slot)
    (Some (ss_payload slot)) (ss_payload_len slot).

Definition client_retransmit (c : rel4u_client) (w : world) (now_ns : Z) : rel4u_client * world :=
  let rto_ms := rel4u_rtt_get_rto (Some (cl_rtt c)) in
  let expired := rel4u_send_window_get_expired (cl_send_win c) now_ns rto_ms 16 in
  let exp_count := Z.of_nat (length expired) in
  if exp_count >? 0 then
    let c := c <| cl_rtt := rel4u_rtt_on_timeout (cl_rtt c) |> in
    let stats := cl_stats c in
    let c := c <| cl_stats :=
               stats <| st_packets_retransmitted := u64 (st_packets_retransmitted stats + exp_count) |>
                     <| st_packets_lost := u64 (st_packets_lost stats + exp_count) |> |> in
    foldl (client_resend now_ns) (c, w) expired
  else (c, w).

Definition client_heartbeat (c : rel4u_client) (w : world) (now_ns : Z) : rel4u_client * world :=
  if u64 (now_ns - cl_last_heartbeat_sent_ns c)
       >=? u64 (cc_heartbeat_interval_ms (cl_config c) * 1000000) then
    let '(c, w) := client_send_control c w REL4U_PKT_HEARTBEAT in
    (c <| cl_last_heartbeat_sent_ns := now_ns |>, w)
  else (c, w).

Definition client_inactivity (c : rel4u_client) (w : world) (now_ns : Z) : rel4u_client * world :=
  if u64 (now_ns - cl_last_activity_ns c)
       >=? u64 (cc_inactivity_timeout_ms (cl_config c) * 1000000) then
    if cc_disable_auto_reconnect (cl_config c)
    then (c <| cl_state := REL4U_STATE_DISCONNECTED |>, w)
    else client_trigger_reconnect c w
  else (c, w).

Definition client_timers (c : rel4u_client) (w : world) (lo : client_locals)
  : rel4u_client * world * client_locals :=
  if bool_decide (lo_state lo = REL4U_STATE_CONNECTED) then
    let '(now_ns, w) := time_now_ns w in
    let '(c, w) := client_retransmit c w now_ns in
    let '(c, w) := if cl_ack_pending c then client_send_control c w REL4U_PKT_ACK else (c, w) in
    let '(c, w) := client_heartbeat c w now_ns in
    let '(c, w) := client_inactivity c w now_ns in
    (c, w, mk_locals (lo_state lo) now_ns (lo_last_connect_req_ns lo))
  else (c, w, lo).

(** The body of [while (running)]: [poll] is the system call, [datagrams] what
    the socket has when it is readable. *)
Definition client_iteration (c : rel4u_client) (w : world) (last_connect_req_ns : Z) (poll : poll_fun)
    (datagrams : list (list Z * rel4u_net_addr)) : rel4u_client * world * Z :=
  let '(now_ns, w) := time_now_ns w in
  let lo := mk_locals (cl_state c) now_ns last_connect_req_ns in
  let '(c, w, lo) := client_handshake c w lo in
  let '(_, sock_read, pipe_read) := rel4u_net_poll poll (cl_sock c) (wp_read_fd (cl_wakeup_pipe c)) in
  let w := if pipe_read then rel4u_wakeup_pipe_drain (cl_wakeup_pipe c) w else w in
  let '(c, w, lo) := if sock_read then client_recv_loop c w lo datagrams else (c, w, lo) in
  let '(c, w, lo) := client_send_pending c w lo in
  let '(c, w, lo) := client_timers c w lo in
  (c, w, lo_last_connect_req_ns lo).

(** The worker thread over what the system calls give in each turn. *)
Definition client_worker_start (c : rel4u_client) (w : world) : rel4u_client * world :=
  let '(t1, w) := time_now_ns w in
  let c := c <| cl_last_activity_ns := t1 |> in
  let '(t2, w) := time_now_ns w in
  let c := c <| cl_last_heartbeat_sent_ns := t2 |> in
  let '(t3, w) := time_now_ns w in
  (c <| cl_last_ack_sent_ns := t3 |>, w).

Fixpoint client_worker_loop (c : rel4u_client) (w : world) (last_connect_req_ns : Z)
    (turns : list (poll_fun * list (list Z * rel4u_net_addr))) : rel4u_client * world :=
  match turns with
  | [] => (c, w)
  | (poll, datagrams) :: turns =>
      if cl_running c then
        let '(c, w, last) := client_iteration c w last_connect_req_ns poll datagrams in
        client_worker_loop c w last turns
      else (c, w)
  end.

(** ** The public calls *)

(** [rel4u_client_disconnect] up to the join: nothing to join without a worker. *)
Definition client_disconnect_begin (c : rel4u_client) (w : world) : rel4u_client * world :=
  if cl_running c then
    let c := c <| cl_state := REL4U_STATE_DISCONNECTING |> in
    let w := rel4u_wakeup_pipe_signal (cl_wakeup_pipe c) w in
    let hdr := header_zero <| h_magic := REL4U_MAGIC |> <| h_version := REL4U_VERSION |>
                 <| h_packet_type := REL4U_PKT_DISCONNECT |> <| h_session_id := cl_session_id c |> in
    let buf := snd (rel4u_packet_encode_header pf_host hdr (replicate 24 0) REL4U_HEADER_LEN) in
    let '(_, w) := rel4u_net_sendto w (cl_sock c) buf (cl_server_addr c) in
    let c := c <| cl_running := false |> in
    (c, rel4u_wakeup_pipe_signal (cl_wakeup_pipe c) w)
  else (c, w).

Definition client_disconnect_end (c : rel4u_client) : rel4u_client :=
  let c := c <| cl_worker_started := false |>
             <| cl_wakeup_pipe := fst (rel4u_wakeup_pipe_close (cl_wakeup_pipe c)) |>
             <| cl_sock := REL4U_INVALID_SOCKET |> <| cl_state := REL4U_STATE_DISCONNECTED |> in
  client_reset c.

(** [finish] is what the worker still does until the join. *)
Definition rel4u_client_disconnect (finish : rel4u_client * world -> rel4u_client * world)
    (c : rel4u_client) (w : world) : Z * rel4u_client * world :=
  if negb (cl_worker_started c) then
    (REL4U_OK, c <| cl_sock := REL4U_INVALID_SOCKET |> <| cl_state := REL4U_STATE_DISCONNECTED |>, w)
  else
    let '(c, w) := client_disconnect_begin c w in
    let c := c <| cl_recv_queue := fst (rel4u_mpmc_wake_all (cl_recv_queue c)) |> in
    let '(c, w) := finish (c, w) in
    (REL4U_OK, client_disconnect_end c, w).

(** The bind of a configured address or port: what [rel4u_net_socket_bind]
    answers, if it is called. *)
Definition client_bind (config : rel4u_client_config) (env : system) (sock : Z) : option Z :=
  if bool_decide (is_Some (cc_bind_address config)) || negb (cc_bind_port config =? 0) then
    let '(r, bind_addr) := rel4u_net_addr_from_string (sy_getaddrinfo env)
          (Some (default any_address (cc_bind_address config))) (cc_bind_port config) in
    if r =? 0 then Some (sy_bind env sock bind_addr) else None
  else None.

(** [rel4u_client_connect] up to the start of the worker: an error code, or
    [None] when the worker runs. *)
Definition client_connect_start (finish : rel4u_client * world -> rel4u_client * world)
    (c : rel4u_client) (w : world) (env : system) : option Z * rel4u_client * world :=
  if bool_decide (cl_state c = REL4U_STATE_CONNECTED) then (Some REL4U_OK, c, w) else
  let '(_, c, w) := rel4u_client_disconnect finish c w in
  let '(r, addr) := rel4u_net_addr_from_string (sy_getaddrinfo env) (cc_server_address (cl_config c))
        (cc_server_port (cl_config c)) in
  let c := c <| cl_server_addr := addr |> in
  if negb (r =? 0) then (Some REL4U_ERR_INVALID_PARAM, c, w) else
  let c := client_reset c in
  let c := c <| cl_rejected := false |> in
  let sock := sy_socket env (addr_is_ipv6 addr) in
  let c := c <| cl_sock := sock |> in
  if sock =? REL4U_INVALID_SOCKET then (Some REL4U_ERR_SOCKET, c, w) else
  let _ignored := client_bind (cl_config c) env sock in
  let '(r, pipe) := rel4u_wakeup_pipe_create (cl_wakeup_pipe c) (sy_pipe env) in
  let c := c <| cl_wakeup_pipe := pipe |> in
  if negb (r =? 0) then (Some REL4U_ERR_SYSTEM, c <| cl_sock := REL4U_INVALID_SOCKET |>, w) else
  let c := c <| cl_state := REL4U_STATE_CONNECTING |> <| cl_running := true |> in
  if negb (sy_thread_ok env) then
    (Some REL4U_ERR_SYSTEM,
     c <| cl_running := false |> <| cl_state := REL4U_STATE_DISCONNECTED |>
       <| cl_wakeup_pipe := fst (rel4u_wakeup_pipe_close pipe) |>
       <| cl_sock := REL4U_INVALID_SOCKET |>, w)
  else (None, c <| cl_worker_started := true |>, w).

(** What the waiting loop of [connect] reads in one turn. *)
Record connect_view := mk_view {
  cv_running : bool;
  cv_state : rel4u_conn_state;
  cv_rejected : bool;
  cv_now_ms : Z
}.

(** The result of the waiting loop; every result but [REL4U_OK] is returned
    after a disconnect.  [None]: the loop is still waiting. *)
Fixpoint connect_wait (start_ms connect_timeout_ms : Z) (views : list connect_view) : option Z :=
  match views with
  | [] => None
  | v :: views =>
      let failed := if cv_rejected v then REL4U_ERR_SERVER_FULL else REL4U_ERR_NOT_CONNECTED in
      if negb (cv_running v) then Some failed else
      if bool_decide (cv_state v = REL4U_STATE_CONNECTED) then Some REL4U_OK else
      if bool_decide (cv_state v = REL4U_STATE_DISCONNECTED) then Some failed else
      if u64 (cv_now_ms v - start_ms) >=? connect_timeout_ms then Some REL4U_ERR_TIMEOUT else
      connect_wait start_ms connect_timeout_ms views
  end.

(** The whole call.  [work] is what the worker does while the caller waits,
    [finish] what it still does until it is joined. *)
Definition rel4u_client_connect (work finish : rel4u_client * world -> rel4u_client * world)
    (c : rel4u_client) (w : world) (env : system) (views : list connect_view)
  : option (Z * rel4u_client * world) :=
  match client_connect_start finish c w env with
  | (Some r, c, w) => Some (r, c, w)
  | (None, c, w) =>
      let '(start_ns, w) := time_now_ns w in
      match connect_wait (start_ns / 1000000) (cc_connect_timeout_ms (cl_config c)) views with
      | None => None
      | Some r =>
          let '(c, w) := work (c, w) in
          if r =? REL4U_OK then Some (r, c, w) else
          let '(_, c, w) := rel4u_client_disconnect finish c w in Some (r, c, w)
      end
  end.

(** [None]: the message is copied past the end of [item.data]. *)
Definition rel4u_client_send (c : rel4u_client) (w : world) (mode : Z) (data : list Z) (len : Z)
  : option (Z * rel4u_client * world) :=
  if len >? REL4U_MAX_PAYLOAD (cc_mtu (cl_config c)) then Some (REL4U_ERR_MSG_TOO_LARGE, c, w) else
  if negb (cl_running c) then Some (REL4U_ERR_NOT_CONNECTED, c, w) else
  if negb (bool_decide (cl_state c = REL4U_STATE_CONNECTED)) &&
     (cc_disable_auto_reconnect (cl_config c) || negb (bool_decide (cl_state c = REL4U_STATE_CONNECTING)))
  then Some (REL4U_ERR_NOT_CONNECTED, c, w) else
  match memcpy_into REL4U_MAX_MSG_SIZE data len with
  | None => None
  | Some bytes =>
      let item := mk_item 0 (u8 mode) (u16 len) bytes in
      let '(ok, queue) := rel4u_mpmc_try_push (cl_send_queue c) item in
      let c := c <| cl_send_queue := queue |> in
      if negb ok then
        Some (REL4U_ERR_QUEUE_FULL,
          c <| cl_stats := (cl_stats c) <| st_packets_dropped_queue_full :=
            u64 (rel4u_mpmc_dropped_count (cl_send_queue c) + rel4u_mpmc_dropped_count (cl_recv_queue c)) |> |>, w)
      else Some (REL4U_OK, c, rel4u_wakeup_pipe_signal (cl_wakeup_pipe c) w)
  end.

(** The result code, the bytes copied to the caller's buffer and the client;
    [None] while the call is blocked.  [wakes] as in [rel4u_mpmc_pop_wait]. *)
Definition rel4u_client_recv (c : rel4u_client) (buffer_size timeout_ms : Z)
    (wakes : list (bool * rel4u_mpmc_queue)) : option (Z * list Z * rel4u_client) :=
  if buffer_size =? 0 then Some (REL4U_ERR_INVALID_PARAM, [], c) else
  match rel4u_mpmc_pop_wait (cl_recv_queue c) item_zero timeout_ms wakes with
  | Blocked _ => None
  | Returned false queue _ =>
      Some (if timeout_ms =? 0 then REL4U_ERR_QUEUE_EMPTY else REL4U_ERR_TIMEOUT, [],
            c <| cl_recv_queue := queue |>)
  | Returned true queue item =>
      let copy_len := if it_len item <=? buffer_size then it_len item else buffer_size in
      Some (REL4U_OK, take (Z.to_nat copy_len) (it_data item), c <| cl_recv_queue := queue |>)
  end.

Definition rel4u_client_get_state (c : rel4u_client) : rel4u_conn_state := cl_state c.

Definition rel4u_client_get_stats (c : rel4u_client) : rel4u_stats :=
  (cl_stats c)
    <| st_packets_dropped_queue_full :=
         u64 (rel4u_mpmc_dropped_count (cl_send_queue c) + rel4u_mpmc_dropped_count (cl_recv_queue c)) |>
    <| st_send_queue_occupancy := u32 (rel4u_mpmc_size (cl_send_queue c)) |>
    <| st_recv_queue_occupancy := u32 (rel4u_mpmc_size (cl_recv_queue c)) |>
    <| st_send_queue_bytes := rel4u_mpmc_bytes (cl_send_queue c) |>
    <| st_recv_queue_bytes := rel4u_mpmc_bytes (cl_recv_queue c) |>
    <| st_current_rto_ms := rel4u_rtt_get_rto (Some (cl_rtt c)) |>.

(** The parts [rel4u_client_destroy] takes down before it frees the object. *)
Definition rel4u_client_destroy (finish : rel4u_client * world -> rel4u_client * world)
    (c : rel4u_client) (w : world) : rel4u_client * world :=
  let '(_, c, w) := rel4u_client_disconnect finish c w in
  let c := c <| cl_send_queue := rel4u_mpmc_destroy (cl_send_queue c) |> in
  let c := c <| cl_recv_queue := rel4u_mpmc_destroy (cl_recv_queue c) |> in
  let c := c <| cl_send_win := rel4u_send_window_destroy (cl_send_win c) |> in
  (c <| cl_recv_win := rel4u_recv_window_destroy (cl_recv_win c) |>, w).
End client.
