(* ===== verification/ClientSpec.v ===== *)
(** * Client: what every call keeps

    The invariant of a client and its preservation by each part of the worker
    thread and each public call, whatever the peer sends, the clock reads and
    the allocator and the socket answer. *)
From S2P Require Import Prelude Ring Types Seq Packet Rtt Mpmc MpmcSpec Queue SendWindow SendSpec Send RecvWindow RecvSpec RecvSafe Net Link Endpoint Peer Client.
From stdpp Require Import base numbers list gmap.
Open Scope Z_scope.
Open Scope rel4u_scope.

Record client_ok (c : rel4u_client) : Prop := {
  ck_send_queue : queue_ok (cl_send_queue c);
  ck_recv_queue : queue_ok (cl_recv_queue c);
  ck_send : send_ok (cl_send_win c);
  ck_recv : recv_safe (cl_recv_win c);
  ck_rtt : rtt_ok (cl_rtt c);
  ck_ready : ready_ok 64 64 (cl_ready_slots c) 0;
  ck_session : is_u32 (cl_session_id c);
  ck_connected : cl_state c = REL4U_STATE_CONNECTED -> cl_session_id c <> 0
}.

(** The fields the invariant is about. *)
Definition core (c : rel4u_client) :=
  (cl_send_queue c, cl_recv_queue c, cl_send_win c, cl_recv_win c, cl_rtt c, cl_ready_slots c,
   cl_session_id c, cl_state c).

Lemma client_ok_core c c' : core c' = core c -> client_ok c -> client_ok c'.
Proof. intros [= E1 E2 E3 E4 E5 E6 E7 E8] []. constructor; rewrite ?E1, ?E2, ?E3, ?E4, ?E5, ?E6, ?E7, ?E8; done. Qed.

Lemma set_send_queue_ok c q : client_ok c -> queue_ok q -> client_ok (c <| cl_send_queue := q |>).
Proof. intros [] ?. by constructor. Qed.
Lemma set_recv_queue_ok c q : client_ok c -> queue_ok q -> client_ok (c <| cl_recv_queue := q |>).
Proof. intros [] ?. by constructor. Qed.
Lemma set_send_win_ok c w : client_ok c -> send_ok w -> client_ok (c <| cl_send_win := w |>).
Proof. intros [] ?. by constructor. Qed.
Lemma set_recv_win_ok c w : client_ok c -> recv_safe w -> client_ok (c <| cl_recv_win := w |>).
Proof. intros [] ?. by constructor. Qed.
Lemma set_rtt_ok c r : client_ok c -> rtt_ok r -> client_ok (c <| cl_rtt := r |>).
Proof. intros [] ?. by constructor. Qed.
Lemma set_ready_ok c l : client_ok c -> ready_ok 64 64 l 0 -> client_ok (c <| cl_ready_slots := l |>).
Proof. intros [] ?. by constructor. Qed.
Lemma set_state_ok c s : client_ok c -> (s = REL4U_STATE_CONNECTED -> cl_session_id c <> 0) ->
  client_ok (c <| cl_state := s |>).
Proof. intros [] ?. by constructor. Qed.

(** Everything but the fields above can change freely. *)
Lemma set_sock_ok c v : client_ok c -> client_ok (c <| cl_sock := v |>).
Proof. by apply client_ok_core. Qed.
Lemma set_server_addr_ok c v : client_ok c -> client_ok (c <| cl_server_addr := v |>).
Proof. by apply client_ok_core. Qed.
Lemma set_wakeup_pipe_ok c v : client_ok c -> client_ok (c <| cl_wakeup_pipe := v |>).
Proof. by apply client_ok_core. Qed.
Lemma set_worker_started_ok c v : client_ok c -> client_ok (c <| cl_worker_started := v |>).
Proof. by apply client_ok_core. Qed.
Lemma set_running_ok c v : client_ok c -> client_ok (c <| cl_running := v |>).
Proof. by apply client_ok_core. Qed.
Lemma set_rejected_ok c v : client_ok c -> client_ok (c <| cl_rejected := v |>).
Proof. by apply client_ok_core. Qed.
Lemma set_last_activity_ok c v : client_ok c -> client_ok (c <| cl_last_activity_ns := v |>).
Proof. by apply client_ok_core. Qed.
Lemma set_last_heartbeat_ok c v : client_ok c -> client_ok (c <| cl_last_heartbeat_sent_ns := v |>).
Proof. by apply client_ok_core. Qed.
Lemma set_last_ack_ok c v : client_ok c -> client_ok (c <| cl_last_ack_sent_ns := v |>).
Proof. by apply client_ok_core. Qed.
Lemma set_ack_pending_ok c v : client_ok c -> client_ok (c <| cl_ack_pending := v |>).
Proof. by apply client_ok_core. Qed.
Lemma set_stats_ok c v : client_ok c -> client_ok (c <| cl_stats := v |>).
Proof. by apply client_ok_core. Qed.

Create HintDb client discriminated.
#[export] Hint Resolve set_send_queue_ok set_recv_queue_ok set_send_win_ok set_recv_win_ok set_rtt_ok
  set_ready_ok set_sock_ok set_server_addr_ok set_wakeup_pipe_ok set_worker_started_ok set_running_ok
  set_rejected_ok set_last_activity_ok set_last_heartbeat_ok set_last_ack_ok set_ack_pending_ok
  set_stats_ok : client.

Lemma set_idle_ok c s : client_ok c -> s <> REL4U_STATE_CONNECTED -> client_ok (c <| cl_state := s |>).
Proof. intros K Hs. by apply set_state_ok. Qed.
#[export] Hint Resolve set_idle_ok : client.
#[export] Hint Extern 1 (_ <> REL4U_STATE_CONNECTED) => discriminate : client.

(** Field updates one after the other. *)
Ltac client_tac := cbn [fst snd]; eauto 20 with client.

(** A reset makes both windows fresh and forgets the session. *)
Lemma client_reset_ok c : client_ok c -> cl_state c <> REL4U_STATE_CONNECTED ->
  client_ok (client_reset c).
Proof.
  intros K Hs. unfold client_reset.
  destruct (send_reset_ok (cl_send_win c) 1 (ck_send _ K) ltac:(word_unfold; lia)) as (_ & R & _).
  destruct (recv_reset_safe (cl_recv_win c) 1 (ck_recv _ K) ltac:(word_unfold; lia)) as [_ S].
  destruct K. constructor; cbn -[rel4u_rtt_init]; done.
Qed.

Section client_spec.
Context {platform : Platform} {allocator : Malloc}.

Lemma clock_u64 n : is_u64 (pf_clock n).
Proof. pose proof (pf_clock_range n). word_unfold. lia. Qed.

(** Sending a packet changes nothing but statistics, the time of the last
    acknowledgement and the flag for it. *)
Definition sent_update (c c' : rel4u_client) : Prop := exists st la ap,
  c' = c <| cl_stats := st |> <| cl_last_ack_sent_ns := la |> <| cl_ack_pending := ap |> .

Lemma sent_update_refl c : sent_update c c.
Proof. exists (cl_stats c), (cl_last_ack_sent_ns c), (cl_ack_pending c). by destruct c. Qed.

Lemma send_packet_update c w type mode seq payload len :
  sent_update c (fst (client_send_packet c w type mode seq payload len)).
Proof.
  unfold client_send_packet. destruct (rel4u_recv_window_get_ack_info _) as [a s].
  destruct (encode_packet _ _ _) as [raw|]; [|apply sent_update_refl].
  destruct (rel4u_net_sendto _ _ _ _) as [sent w']. destruct (_ >? _); [|apply sent_update_refl].
  by eexists _, _, _.
Qed.

Lemma sent_update_core c c' : sent_update c c' -> core c' = core c.
Proof. by intros (st & la & ap & ->). Qed.

Lemma send_packet_ok c w type mode seq payload len : client_ok c ->
  client_ok (fst (client_send_packet c w type mode seq payload len)).
Proof. apply client_ok_core, sent_update_core, send_packet_update. Qed.

Lemma maybe_control_ok (b : bool) c w type : client_ok c ->
  client_ok (fst (if b then client_send_control c w type else (c, w))).
Proof. intros K. unfold client_send_control. destruct b; [by apply send_packet_ok|exact K]. Qed.

Lemma trigger_reconnect_ok c w : client_ok c -> client_ok (fst (client_trigger_reconnect c w)).
Proof.
  intros K. unfold client_trigger_reconnect. destruct (cc_disable_auto_reconnect _).
  { by apply set_state_ok. }
  destruct (reclaim_ok (cl_send_win c) (cl_send_queue c) (ck_send _ K) (ck_send_queue _ K)) as [Hq _].
  set (c1 := c <| cl_send_queue := _ |>). assert (K1 : client_ok c1) by (by apply set_send_queue_ok).
  assert (K2 : client_ok (client_reset (c1 <| cl_state := REL4U_STATE_CONNECTING |>))).
  { apply client_reset_ok; [by apply set_state_ok|done]. }
  eapply client_ok_core; [|exact K2]. reflexivity.
Qed.

(** ** The worker's parts *)

Lemma handshake_ok c w lo : client_ok c -> client_ok (fst (fst (client_handshake c w lo))).
Proof.
  intros K. unfold client_handshake. destruct (bool_decide _); [|done]. destruct (_ >=? _); [|done].
  pose proof (send_packet_ok c w REL4U_PKT_CONNECT_REQ REL4U_MODE_UNRELIABLE_UNORDERED 0 None 0 K) as K'.
  unfold client_send_control. by destruct (client_send_packet _ _ _ _ _ _ _).
Qed.

Lemma client_on_ack_ok c hdr now : client_ok c -> header_wf hdr -> client_ok (client_on_ack c hdr now).
Proof.
  intros K W. unfold client_on_ack.
  pose proof (on_ack_ok (cl_send_win c) (h_ack_num hdr) (h_sack_mask hdr) now (cl_rtt c) (cl_stats c)
    (ck_send _ K) (ck_rtt _ K) (wf_ack_num _ W)) as P.
  destruct (rel4u_send_window_on_ack _ _ _ _ _ _) as [[sw rtt] stats]. destruct P as (Hs & r & s & -> & -> & Hr).
  assert (K1 : client_ok (c <| cl_send_win := sw |> <| cl_rtt := r |>)).
  { by apply set_rtt_ok, Hr; apply set_send_win_ok. }
  client_tac.
Qed.

Lemma client_on_data_ok c hdr payload : client_ok c -> header_bound hdr payload ->
  client_ok (client_on_data c hdr payload).
Proof.
  intros K B. unfold client_on_data.
  pose proof (handle_data_ok 0 (cl_recv_win c) (cl_recv_queue c) (cl_ready_slots c) 0 hdr payload
    (ck_recv _ K) (ck_recv_queue _ K) (ck_ready _ K) B) as D.
  destruct (handle_data _ _ _ _ _ _) as [[[win queue] ready] ack]. destruct D as [D1 _ D3 _ D5].
  assert (K1 : client_ok (c <| cl_recv_win := win |> <| cl_recv_queue := queue |> <| cl_ready_slots := ready |>)).
  { apply set_ready_ok, D5. apply set_recv_queue_ok, D3. by apply set_recv_win_ok. }
  destruct ack; [client_tac|done].
Qed.

Lemma on_datagram_ok c w lo buf src : client_ok c -> datagram_ok buf ->
  client_ok (fst (fst (fst (client_on_datagram c w lo buf src)))).
Proof.
  intros K Hbuf. unfold client_on_datagram. destruct (rel4u_net_addr_equal _ _); [|done]. cbn [negb].
  destruct (rel4u_packet_decode_header _ _ _ _) as [r hdr] eqn:E.
  destruct (Z.eqb_spec r 0) as [->|]; [|done]. cbn [negb].
  destruct (decode_ok _ _ _ _ Hbuf E) as [W B].
  destruct (client_accepts _ _ _) eqn:Ha; [|done]. cbn [negb]. unfold time_now_ns. cbn [lo_state].
  set (now := pf_clock _). set (w1 := mk_world _ _ _ _). set (lo1 := mk_locals _ _ _).
  set (c1 := c <| cl_last_activity_ns := _ |> <| cl_stats := _ |>).
  assert (K1 : client_ok c1) by client_tac. clearbody c1.
  destruct (_ && _) eqn:Er.
  { apply andb_true_iff in Er as [Et Es].
    assert (Hid : h_session_id hdr <> 0).
    { unfold client_accepts in Ha. apply Z.eqb_eq in Et. rewrite Et in Ha. cbn in Ha.
      apply andb_true_iff in Ha as [_ Ha]. by destruct (Z.eqb_spec (h_session_id hdr) 0). }
    assert (K2 : client_ok (c1 <| cl_session_id := h_session_id hdr |> <| cl_state := REL4U_STATE_CONNECTED |>)).
    { destruct K1. constructor; try done. apply W. }
    pose proof (send_packet_ok _ w1 REL4U_PKT_CONNECT_ACK REL4U_MODE_UNRELIABLE_UNORDERED 0 None 0 K2) as K3.
    unfold client_send_control. destruct (client_send_packet _ _ _ _ _ _ _) as [c2 w2].
    cbn [fst] in K3 |- *. client_tac. }
  destruct (_ =? REL4U_PKT_RESET).
  { pose proof (trigger_reconnect_ok c1 w1 K1) as K2. by destruct (client_trigger_reconnect c1 w1). }
  destruct (_ =? REL4U_PKT_REJECT).
  { assert (K2 : client_ok (c1 <| cl_state := REL4U_STATE_DISCONNECTED |>)) by (by apply set_state_ok).
    cbn [fst]. client_tac. }
  destruct (_ =? REL4U_PKT_DISCONNECT).
  { assert (K2 : client_ok (c1 <| cl_state := REL4U_STATE_DISCONNECTED |>)) by (by apply set_state_ok).
    cbn [fst]. client_tac. }
  pose proof (client_on_ack_ok c1 hdr now K1 W) as K2.
  set (c2 := client_on_ack c1 hdr now) in *. clearbody c2.
  destruct (if _ =? REL4U_PKT_HEARTBEAT then _ else _) as [c3 w3] eqn:E3.
  pose proof (maybe_control_ok (h_packet_type hdr =? REL4U_PKT_HEARTBEAT) c2 w1 REL4U_PKT_HEARTBEAT_ACK K2) as K3. rewrite E3 in K3.
  cbn [fst]. destruct (_ =? REL4U_PKT_DATA); [by apply client_on_data_ok|done].
Qed.

Lemma recv_loop_ok datagrams : Forall (fun d => datagram_ok (fst d)) datagrams ->
  forall c w lo, client_ok c -> client_ok (fst (fst (client_recv_loop c w lo datagrams))).
Proof.
  induction 1 as [|[buf src] datagrams Hd _ IH]; intros c w lo K; cbn [client_recv_loop]; [done|].
  destruct (_ =? _)%nat; [done|]. pose proof (on_datagram_ok c w lo buf src K Hd) as K1.
  destruct (client_on_datagram c w lo buf src) as [[[c1 w1] lo1] []]; [by apply IH|done].
Qed.

(** The send queue's turns: a popped message fits the window's slots. *)
Lemma drain_ok fuel : forall c w now item, client_ok c ->
  client_ok (fst (fst (client_drain fuel c w now item))).
Proof.
  induction fuel as [|fuel IH]; intros c w now item K; cbn [client_drain]; [done|].
  destruct (rel4u_send_window_can_send _); [|done].
  pose proof (try_pop_ok (cl_send_queue c) item (ck_send_queue _ K)) as P.
  destruct (rel4u_mpmc_try_pop _ _) as [[ok q] it]. destruct P as (Hq & _ & Hit & _).
  set (c1 := c <| cl_send_queue := q |>). assert (K1 : client_ok c1) by (by apply set_send_queue_ok).
  clearbody c1. destruct ok; [|done]. destruct (Hit eq_refl) as [[[Hl _] Hmax] _].
  unfold time_now_ns. cbv beta iota.
  pose proof (send_push_ok (cl_send_win c1) (it_mode it) (it_data it) (it_len it) (pf_clock (wd_ticks w))
    (ck_send _ K1) (clock_u64 _) Hl Hmax) as P.
  destruct (rel4u_send_window_push _ _ _ _ _) as [[r sw] seq]. destruct P as [Hs _].
  set (c2 := c1 <| cl_send_win := sw |>). assert (K2 : client_ok c2) by (by apply set_send_win_ok). clearbody c2.
  set (w1 := mk_world _ _ _ _). destruct (if r =? 0 then _ else _) as [c3 w3] eqn:E3. apply IH.
  destruct (r =? 0); [|congruence].
  pose proof (send_packet_ok c2 w1 REL4U_PKT_DATA (it_mode it) (default 0 seq) (Some (it_data it)) (it_len it) K2) as K3.
  by rewrite E3 in K3.
Qed.

Lemma send_pending_ok c w lo : client_ok c -> client_ok (fst (fst (client_send_pending c w lo))).
Proof.
  intros K. unfold client_send_pending. destruct (bool_decide _); [|done].
  pose proof (drain_ok (S (Z.to_nat (q_count (cl_send_queue c)))) c w (lo_now_ns lo) item_zero K) as H.
  by destruct (client_drain _ _ _ _ _) as [[c' w'] now].
Qed.

(** ** Timers *)

(** The packets of the window are the same before and after a retransmission. *)
Lemma resend_ok now h : is_u64 now -> forall ks c w es, client_ok c -> send_rep (cl_send_win c) h es ->
  Forall (fun k => 0 <= k < Z.of_nat (length es)) ks ->
  client_ok (fst (foldl (client_resend now) (c, w)
    ((fun k => (h + k) mod sw_capacity (cl_send_win c)) <$> ks))).
Proof.
  intros Hn. induction ks as [|k ks IH]; intros c w es K R Hks; [done|].
  apply Forall_cons in Hks as [Hk Hks]. destruct (retransmit_slot_ok _ _ _ k now R Hk Hn) as (es' & R' & Hl).
  cbn [fmap list_fmap foldl]. unfold client_resend at 2.
  set (c1 := c <| cl_send_win := _ |>).
  assert (K1 : client_ok c1).
  { apply set_send_win_ok; [done|]. split; [apply (ck_send _ K)|by exists h, es']. }
  assert (R1 : send_rep (cl_send_win c1) h es') by exact R'.
  assert (Ec : sw_capacity (cl_send_win c1) = sw_capacity (cl_send_win c)) by reflexivity. clearbody c1.
  rewrite <- Ec. cbv zeta. set (slot := sw_slots _ !. _).
  pose proof (send_packet_update c1 w REL4U_PKT_DATA (ss_delivery_mode slot) (ss_seq_num slot)
    (Some (ss_payload slot)) (ss_payload_len slot)) as U.
  destruct (client_send_packet _ _ _ _ _ _ _) as [c2 w2]. cbn [fst] in U.
  pose proof (client_ok_core _ _ (sent_update_core _ _ U) K1) as K2.
  assert (E2 : cl_send_win c2 = cl_send_win c1) by (by destruct U as (st & la & ap & ->)).
  rewrite <- E2. apply (IH c2 w2 es' K2); [by rewrite E2|by rewrite Hl].
Qed.

Lemma rto_u32 r : rtt_ok r -> is_u32 (rel4u_rtt_get_rto (Some r)).
Proof. intros []. unfold rel4u_rtt_get_rto. word_unfold. lia. Qed.

Lemma retransmit_ok c w now : client_ok c -> is_u64 now -> client_ok (fst (client_retransmit c w now)).
Proof.
  intros K Hn. unfold client_retransmit. destruct (ck_send _ K) as (_ & h & es & R).
  destruct (expired_slots _ h es now (rel4u_rtt_get_rto (Some (cl_rtt c))) 16 R Hn (rto_u32 _ (ck_rtt _ K)))
    as (ks & E & Hks). change (Z.of_nat 16) with 16 in E. rewrite E. cbv zeta.
  destruct (_ >? _); [|done]. set (c1 := c <| cl_rtt := _ |>).
  assert (K1 : client_ok c1) by (apply set_rtt_ok; [done|apply rtt_timeout_ok, K]).
  set (c2 := c1 <| cl_stats := _ |>). assert (K2 : client_ok c2) by client_tac.
  assert (E2 : cl_send_win c2 = cl_send_win c) by reflexivity. clearbody c2.
  rewrite <- E2. apply (resend_ok now h Hn ks c2 w es K2); [by rewrite E2|done].
Qed.

Lemma heartbeat_ok c w now : client_ok c -> client_ok (fst (client_heartbeat c w now)).
Proof.
  intros K. unfold client_heartbeat. destruct (_ >=? _); [|done].
  pose proof (maybe_control_ok true c w REL4U_PKT_HEARTBEAT K) as K1. cbn [fst] in K1.
  destruct (client_send_control _ _ _) as [c1 w1]. cbn [fst] in *. client_tac.
Qed.

Lemma inactivity_ok c w now : client_ok c -> client_ok (fst (client_inactivity c w now)).
Proof.
  intros K. unfold client_inactivity. destruct (_ >=? _); [|done].
  destruct (cc_disable_auto_reconnect _); [by apply set_state_ok|by apply trigger_reconnect_ok].
Qed.

Lemma timers_ok c w lo : client_ok c -> client_ok (fst (fst (client_timers c w lo))).
Proof.
  intros K. unfold client_timers. destruct (bool_decide _); [|done]. unfold time_now_ns. cbv beta iota.
  set (now := pf_clock _). assert (Hn : is_u64 now) by apply clock_u64. set (w0 := mk_world _ _ _ _).
  pose proof (retransmit_ok c w0 now K Hn) as K1. destruct (client_retransmit _ _ _) as [c1 w1].
  pose proof (maybe_control_ok (cl_ack_pending c1) c1 w1 REL4U_PKT_ACK K1) as K2.
  destruct (if cl_ack_pending c1 then _ else _) as [c2 w2].
  pose proof (heartbeat_ok c2 w2 now K2) as K3. destruct (client_heartbeat _ _ _) as [c3 w3].
  pose proof (inactivity_ok c3 w3 now K3) as K4. by destruct (client_inactivity _ _ _) as [c4 w4].
Qed.

Lemma iteration_ok c w last poll datagrams : client_ok c ->
  Forall (fun d => datagram_ok (fst d)) datagrams ->
  client_ok (fst (fst (client_iteration c w last poll datagrams))).
Proof.
  intros K Hd. unfold client_iteration. unfold time_now_ns at 1. cbv beta iota. set (w0 := mk_world _ _ _ _).
  pose proof (handshake_ok c w0 (mk_locals (cl_state c) (pf_clock (wd_ticks w)) last) K) as K1.
  destruct (client_handshake _ _ _) as [[c1 w1] lo1].
  destruct (rel4u_net_poll _ _ _) as [[pr sr] pp].
  set (w2 := if pp then _ else _).
  pose proof (recv_loop_ok datagrams Hd c1 w2 lo1 K1) as K2.
  assert (K3 : client_ok (fst (fst (if sr then client_recv_loop c1 w2 lo1 datagrams else (c1, w2, lo1)))))
    by (by destruct sr).
  destruct (if sr then _ else _) as [[c3 w3] lo3].
  pose proof (send_pending_ok c3 w3 lo3 K3) as K4. destruct (client_send_pending _ _ _) as [[c4 w4] lo4].
  pose proof (timers_ok c4 w4 lo4 K4) as K5. by destruct (client_timers _ _ _) as [[c5 w5] lo5].
Qed.

Lemma worker_loop_ok turns : Forall (fun t => Forall (fun d => datagram_ok (fst d)) (snd t)) turns ->
  forall c w last, client_ok c -> client_ok (fst (client_worker_loop c w last turns)).
Proof.
  induction 1 as [|[poll datagrams] turns Hd _ IH]; intros c w last K; cbn [client_worker_loop]; [done|].
  destruct (cl_running c); [|done]. pose proof (iteration_ok c w last poll datagrams K Hd) as K1.
  destruct (client_iteration _ _ _ _ _) as [[c1 w1] last1]. by apply IH.
Qed.

Lemma worker_start_ok c w : client_ok c -> client_ok (fst (client_worker_start c w)).
Proof. intros K. unfold client_worker_start, time_now_ns. cbv beta iota zeta. client_tac. Qed.

(** ** The public calls *)

Lemma client_send_ok c w mode data len : client_ok c -> 0 <= len <= Z.of_nat (length data) ->
  from_option (fun x => client_ok (snd (fst x))) True (rel4u_client_send c w mode data len).
Proof.
  intros K Hl. unfold rel4u_client_send, memcpy_into. destruct (_ >? _); [done|]. destruct (negb (cl_running c)); [done|].
  destruct (_ && _); [done|]. destruct (_ <=? _); [|done].
  destruct (try_push_ok (cl_send_queue c) _ (ck_send_queue _ K) (queued_item_wf 0 mode data len Hl)) as [Hq _].
  destruct (rel4u_mpmc_try_push _ _) as [ok q]. cbn [snd] in Hq.
  assert (K1 : client_ok (c <| cl_send_queue := q |>)) by (by apply set_send_queue_ok).
  destruct ok; cbn [negb fst snd from_option]; [done|]. client_tac.
Qed.

(** With an MTU of at most 9240 no message is copied past the end of its array. *)
Lemma client_send_defined c w mode data len : cc_mtu (cl_config c) <= REL4U_MAX_MSG_SIZE + REL4U_HEADER_SIZE ->
  is_Some (rel4u_client_send c w mode data len).
Proof.
  intros Hm. unfold rel4u_client_send, memcpy_into, REL4U_MAX_PAYLOAD, REL4U_MAX_MSG_SIZE, REL4U_HEADER_SIZE in *.
  destruct (Z.gtb_spec (cc_mtu (cl_config c)) 24), (Z.gtb_spec len (cc_mtu (cl_config c) - 24)); destruct (Z.gtb_spec len 0);
    try done; destruct (negb (cl_running c)); try done; destruct (_ && _); try done; rewrite (proj2 (Z.leb_le len 9216)) by lia;
    destruct (rel4u_mpmc_try_push _ _) as [ok q]; by destruct (negb ok).
Qed.

Lemma client_recv_ok c size timeout wakes r bytes c' : client_ok c ->
  Forall (fun x => queue_ok (snd x)) wakes ->
  rel4u_client_recv c size timeout wakes = Some (r, bytes, c') -> client_ok c'.
Proof.
  intros K Hw. unfold rel4u_client_recv. destruct (_ =? _); [by intros [= <- <- <-]|].
  pose proof (pop_wait_ok (q_wake_generation (cl_recv_queue c)) timeout wakes Hw (cl_recv_queue c) item_zero (ck_recv_queue _ K)) as P.
  unfold rel4u_mpmc_pop_wait. destruct (pop_wait_loop _ _ _ _ _) as [q|[] q item]; intros [= <- <- <-];
    by apply set_recv_queue_ok.
Qed.

Lemma disconnect_begin_ok c w : client_ok c -> client_ok (fst (client_disconnect_begin c w)).
Proof.
  intros K. unfold client_disconnect_begin. destruct (cl_running c); [|done].
  destruct (rel4u_net_sendto _ _ _ _) as [sent w'].
  assert (K1 : client_ok (c <| cl_state := REL4U_STATE_DISCONNECTING |>)) by (by apply set_state_ok).
  cbn [fst]. client_tac.
Qed.

Lemma disconnect_end_ok c : client_ok c -> client_ok (client_disconnect_end c).
Proof.
  intros K. apply client_reset_ok; [|done].
  assert (K1 : client_ok (c <| cl_state := REL4U_STATE_DISCONNECTED |>)) by (by apply set_state_ok).
  client_tac.
Qed.

(** [finish] stands for steps of the worker, which keep the invariant. *)
Definition keeps_ok (f : rel4u_client * world -> rel4u_client * world) : Prop :=
  forall s, client_ok (fst s) -> client_ok (fst (f s)).

Lemma disconnect_ok finish c w : keeps_ok finish -> client_ok c ->
  client_ok (snd (fst (rel4u_client_disconnect finish c w))).
Proof.
  intros Hf K. unfold rel4u_client_disconnect. destruct (negb _).
  { assert (K1 : client_ok (c <| cl_state := REL4U_STATE_DISCONNECTED |>)) by (by apply set_state_ok).
    cbn [fst snd]. client_tac. }
  pose proof (disconnect_begin_ok c w K) as K1. destruct (client_disconnect_begin c w) as [c1 w1].
  set (c2 := c1 <| cl_recv_queue := _ |>).
  assert (K2 : client_ok c2) by (apply set_recv_queue_ok; [done|apply wake_all_ok, K1]).
  pose proof (Hf (c2, w1) K2) as K3. destruct (finish (c2, w1)) as [c3 w3]. by apply disconnect_end_ok.
Qed.

Lemma connect_start_ok finish c w env : keeps_ok finish -> client_ok c ->
  client_ok (snd (fst (client_connect_start finish c w env))).
Proof.
  intros Hf K. unfold client_connect_start. destruct (bool_decide _); [done|].
  pose proof (disconnect_ok finish c w Hf K) as K1.
  assert (Hs : cl_state (snd (fst (rel4u_client_disconnect finish c w))) <> REL4U_STATE_CONNECTED).
  { unfold rel4u_client_disconnect. destruct (negb _); [done|].
    destruct (client_disconnect_begin c w). by destruct (finish _). }
  destruct (rel4u_client_disconnect finish c w) as [[r c1] w1]. cbn [fst snd] in K1, Hs.
  destruct (rel4u_net_addr_from_string _ _ _) as [r0 addr]. cbv zeta.
  destruct (negb (r0 =? 0)); [cbn [fst snd]; client_tac|].
  assert (K2 : client_ok (c1 <| cl_server_addr := addr |>)) by client_tac.
  pose proof (client_reset_ok (c1 <| cl_server_addr := addr |>) K2 Hs) as K3.
  set (c3 := client_reset _) in *. assert (Hs3 : cl_session_id c3 = 0) by reflexivity. clearbody c3. cbv zeta.
  destruct (_ =? REL4U_INVALID_SOCKET); [cbn [fst snd]; client_tac|].
  destruct (rel4u_wakeup_pipe_create _ _) as [r2 pipe].
  destruct (negb (r2 =? 0)); [cbn [fst snd]; client_tac|].
  destruct (negb (sy_thread_ok env)).
  - assert (K4 : client_ok (c3 <| cl_state := REL4U_STATE_DISCONNECTED |>)) by (by apply set_state_ok).
    cbn [fst snd]. client_tac.
  - assert (K4 : client_ok (c3 <| cl_state := REL4U_STATE_CONNECTING |>)) by (by apply set_state_ok).
    cbn [fst snd]. client_tac.
Qed.
End client_spec.

(** ** Creation *)

(** The sizes a caller may ask for: an MTU whose payload fits a message, the
    window below [2^31] slots, and the byte limits of the dynamic mode below
    [2^63]. *)
Record config_ok (cfg : rel4u_client_config) (mem : create_memory) : Prop := {
  cf_mtu : cc_mtu cfg <= REL4U_MAX_MSG_SIZE + REL4U_HEADER_SIZE;
  cf_window : cc_window_size cfg < 2 ^ 31;
  cf_send_cap : is_u32 (cc_send_queue_capacity cfg);
  cf_recv_cap : is_u32 (cc_recv_queue_capacity cfg);
  cf_send_bytes : 0 <= cc_max_send_memory_bytes cfg < 2 ^ 63;
  cf_recv_bytes : 0 <= cc_max_recv_memory_bytes cfg < 2 ^ 63;
  cf_send_items : forall l, cm_send_items mem = Some l ->
    Z.of_nat (length l) = cc_send_queue_capacity (client_defaults cfg);
  cf_recv_items : forall l, cm_recv_items mem = Some l ->
    Z.of_nat (length l) = cc_recv_queue_capacity (client_defaults cfg)
}.

Lemma window_init_ok sw rw cap ok1 ok2 sw' rw' : cap < 2 ^ 31 ->
  rel4u_send_window_init sw cap 1 ok1 = (0, sw') -> rel4u_recv_window_init rw cap 1 ok2 = (0, rw') ->
  send_ok sw' /\ recv_safe rw'.
Proof.
  intros Hc E1 E2.
  assert (Hcap : cap_ok cap /\ ok1 = true).
  { unfold rel4u_send_window_init in E1. destruct (Z.ltb_spec cap 2); [by cbn in E1|].
    destruct (is_pow2 cap) eqn:Ep; [|by cbn in E1]. destruct ok1; [|by cbn in E1]. by split. }
  destruct Hcap as [Hcap ->].
  assert (ok2 = true) as ->.
  { unfold rel4u_recv_window_init in E2. destruct Hcap as [? Hp]. rewrite Hp in E2.
    destruct (Z.ltb_spec cap 2); [lia|]. by destruct ok2. }
  pose proof (send_init_ok sw cap 1 Hcap ltac:(word_unfold; lia)) as (_ & H1 & _).
  pose proof (recv_init_safe rw cap 1 Hcap ltac:(word_unfold; lia)) as [_ H2].
  rewrite E1 in H1. rewrite E2 in H2. done.
Qed.

Lemma client_create_ok cfg mem c : config_ok cfg mem -> rel4u_client_create cfg mem = Some c ->
  client_ok c /\ cl_config c = client_defaults cfg /\ cl_state c = REL4U_STATE_DISCONNECTED /\
  cl_running c = false /\ cl_worker_started c = false /\ cl_sock c = REL4U_INVALID_SOCKET.
Proof.
  intros F E. unfold rel4u_client_create in E. destruct (cc_server_address cfg); [|done].
  destruct (cc_server_port cfg =? 0); [done|]. destruct (negb (cm_object mem)); [done|]. cbv zeta in E.
  set (d := client_defaults cfg) in *.
  destruct (rel4u_mpmc_init _ _ (cc_send_queue_capacity d) _ _) as [r1 q1] eqn:E1.
  destruct (Z.eqb_spec r1 0) as [->|]; [|done]. cbn [negb] in E.
  destruct (rel4u_mpmc_init _ _ (cc_recv_queue_capacity d) _ _) as [r2 q2] eqn:E2.
  destruct (Z.eqb_spec r2 0) as [->|]; [|done]. cbn [negb] in E.
  destruct (rel4u_send_window_init _ _ _ _) as [r3 sw] eqn:E3.
  destruct (Z.eqb_spec r3 0) as [->|]; [|done]. cbn [negb] in E.
  destruct (rel4u_recv_window_init _ _ _ _) as [r4 rw] eqn:E4.
  destruct (Z.eqb_spec r4 0) as [->|]; [|done]. cbn [negb] in E.
  assert (Hw : cc_window_size d < 2 ^ 31).
  { pose proof (cf_window _ _ F). cbn. destruct (_ <? 8); lia. }
  destruct (window_init_ok _ _ _ _ _ _ _ Hw E3 E4) as [H3 H4].
  assert (H1 : queue_ok q1).
  { refine (queue_init_ok _ _ _ _ _ _ _ _ _ (cf_send_items _ _ F) E1 eq_refl).
    - pose proof (cf_send_cap _ _ F). cbn. destruct (_ <? 8); word_unfold; lia.
    - pose proof (cf_send_bytes _ _ F). cbn. destruct (_ && _); lia. }
  assert (H2 : queue_ok q2).
  { refine (queue_init_ok _ _ _ _ _ _ _ _ _ (cf_recv_items _ _ F) E2 eq_refl).
    - pose proof (cf_recv_cap _ _ F). cbn. destruct (_ <? 8); word_unfold; lia.
    - pose proof (cf_recv_bytes _ _ F). cbn. destruct (_ && _); lia. }
  injection E as <-. split; [|done]. constructor; try done.
  apply fresh_ready_ok.
Qed.
