(* ===== verification/ClientRun.v ===== *)
(** * Client: what it guarantees

    The invariant over every interleaving of the worker's steps with the
    application's calls, and the effect of the parts that move messages: the
    drain of the send queue, the reconnect, the public send and the wait for a
    connection. *)
From S2P Require Import Prelude Ring Types Seq Packet Rtt Mpmc MpmcSpec Queue SendWindow SendSpec Send RecvWindow RecvSpec RecvSafe Net Link Endpoint Peer Client ClientSpec.
From stdpp Require Import base numbers list gmap.
Open Scope Z_scope.
Open Scope rel4u_scope.

Section run.
Context {platform : Platform} {allocator : Malloc}.

(** ** The invariant *)

(** The steps of the worker thread and the calls of the application; the calls
    that wait for the worker are split where they wait. *)
Inductive client_event :=
  | EvTurn
  | EvHandshake
  | EvDatagram (in_buf : list Z) (src_addr : rel4u_net_addr)
  | EvSendPending
  | EvTimers
  | EvSend (mode : Z) (data : list Z) (len : Z)
  | EvRecv (buffer_size timeout_ms : Z) (wakes : list (bool * rel4u_mpmc_queue))
  | EvConnectStart (env : system)
  | EvWorkerStart
  | EvDisconnectBegin
  | EvDisconnectEnd
  | EvWake.

Definition event_ok (e : client_event) : Prop :=
  match e with
  | EvDatagram buf _ => datagram_ok buf
  | EvSend _ data len => 0 <= len <= Z.of_nat (length data)
  | EvRecv _ _ wakes => Forall (fun x => queue_ok (snd x)) wakes
  | _ => True
  end.

Definition client_sys : Type := rel4u_client * world * client_locals.

(** One step.  A call of the application that does not return and a copy past
    the end of an array, which [client_invariant] excludes, change nothing. *)
Definition run_event (s : client_sys) (e : client_event) : client_sys :=
  let '(c, w, lo) := s in
  match e with
  | EvTurn =>
      let '(now_ns, w) := time_now_ns w in (c, w, mk_locals (cl_state c) now_ns (lo_last_connect_req_ns lo))
  | EvHandshake => client_handshake c w lo
  | EvDatagram buf src => let '(c, w, lo, _) := client_on_datagram c w lo buf src in (c, w, lo)
  | EvSendPending => client_send_pending c w lo
  | EvTimers => client_timers c w lo
  | EvSend mode data len =>
      match rel4u_client_send c w mode data len with Some (_, c, w) => (c, w, lo) | None => (c, w, lo) end
  | EvRecv size timeout wakes =>
      match rel4u_client_recv c size timeout wakes with Some (_, _, c) => (c, w, lo) | None => (c, w, lo) end
  | EvConnectStart env => let '(_, c, w) := client_connect_start (fun s => s) c w env in (c, w, lo)
  | EvWorkerStart => let '(c, w) := client_worker_start c w in (c, w, lo)
  | EvDisconnectBegin =>
      let '(c, w) := client_disconnect_begin c w in
      (c <| cl_recv_queue := fst (rel4u_mpmc_wake_all (cl_recv_queue c)) |>, w, lo)
  | EvDisconnectEnd => (client_disconnect_end c, w, lo)
  | EvWake => (c, rel4u_wakeup_pipe_drain (cl_wakeup_pipe c) w, lo)
  end.

Lemma run_event_ok s e : client_ok (fst (fst s)) -> event_ok e -> client_ok (fst (fst (run_event s e))).
Proof.
  destruct s as [[c w] lo]. cbn [fst]. intros K Ho. destruct e as [| |buf src| | |mode data len|sz t wk|env| | | |];
    cbn [run_event event_ok] in *.
  - done.
  - by apply handshake_ok.
  - pose proof (on_datagram_ok c w lo buf src K Ho) as P. by destruct (client_on_datagram _ _ _ _ _) as [[[? ?] ?] ?].
  - by apply send_pending_ok.
  - by apply timers_ok.
  - pose proof (client_send_ok c w mode data len K Ho) as P. by destruct (rel4u_client_send _ _ _ _ _) as [[[? ?] ?]|].
  - destruct (rel4u_client_recv c sz t wk) as [[[r bytes] c']|] eqn:E; [|done].
    exact (client_recv_ok _ _ _ _ _ _ _ K Ho E).
  - pose proof (connect_start_ok (fun s => s) c w env ltac:(by intros ?) K) as P.
    by destruct (client_connect_start _ _ _ _) as [[? ?] ?].
  - pose proof (worker_start_ok c w K) as P. by destruct (client_worker_start c w).
  - pose proof (disconnect_begin_ok c w K) as P. destruct (client_disconnect_begin c w) as [c1 w1].
    apply set_recv_queue_ok; [done|apply wake_all_ok, P].
  - by apply disconnect_end_ok.
  - done.
Qed.

Lemma run_events_ok evs : Forall event_ok evs -> forall s, client_ok (fst (fst s)) ->
  client_ok (fst (fst (foldl run_event s evs))).
Proof. induction 1 as [|e evs He _ IH]; intros s K; [done|]. by apply IH, run_event_ok. Qed.

(** *** The configuration stays, and the receive queue but for received data *)

Definition cl_base (c : rel4u_client) : rel4u_client_config * rel4u_mpmc_queue := (cl_config c, cl_recv_queue c).

Lemma send_packet_base c w type mode seq payload len :
  cl_base (fst (client_send_packet c w type mode seq payload len)) = cl_base c.
Proof. by destruct (send_packet_update c w type mode seq payload len) as (st & la & ap & ->). Qed.

Lemma send_control_base c w type : cl_base (fst (client_send_control c w type)) = cl_base c.
Proof. unfold client_send_control. apply send_packet_base. Qed.

Lemma trigger_base c w : cl_base (fst (client_trigger_reconnect c w)) = cl_base c.
Proof. unfold client_trigger_reconnect, time_now_ns. by destruct (cc_disable_auto_reconnect _). Qed.

Lemma handshake_base c w lo : cl_base (fst (fst (client_handshake c w lo))) = cl_base c.
Proof.
  unfold client_handshake. destruct (bool_decide _); [|done]. destruct (_ >=? _); [|done].
  pose proof (send_control_base c w REL4U_PKT_CONNECT_REQ) as E. by destruct (client_send_control _ _ _).
Qed.

Lemma on_data_config c hdr payload : cl_config (client_on_data c hdr payload) = cl_config c.
Proof. unfold client_on_data. by destruct (handle_data _ _ _ _ _ _) as [[[? ?] ?] []]. Qed.

Lemma on_datagram_config c w lo buf src : cl_config (fst (fst (fst (client_on_datagram c w lo buf src)))) = cl_config c.
Proof.
  unfold client_on_datagram, time_now_ns. destruct (negb _); [done|].
  destruct (rel4u_packet_decode_header _ _ _ _) as [r hdr]. destruct (negb _); [done|]. destruct (negb _); [done|].
  destruct (_ && _).
  { set (c1 := _ <| cl_state := _ |>). set (w1 := mk_world _ _ _ _). pose proof (f_equal fst (send_control_base c1 w1 REL4U_PKT_CONNECT_ACK)) as E.
    destruct (client_send_control _ _ _) as [c2 w2]. exact E. }
  destruct (_ =? REL4U_PKT_RESET).
  { set (c1 := _ <| cl_stats := _ |>). set (w1 := mk_world _ _ _ _). pose proof (f_equal fst (trigger_base c1 w1)) as E.
    destruct (client_trigger_reconnect _ _) as [c2 w2]. exact E. }
  destruct (_ =? REL4U_PKT_REJECT); [done|]. destruct (_ =? REL4U_PKT_DISCONNECT); [done|].
  set (c1 := client_on_ack _ _ _). assert (E1 : cl_config c1 = cl_config c).
  { unfold c1, client_on_ack. by destruct (rel4u_send_window_on_ack _ _ _ _ _ _) as [[? ?] ?]. }
  clearbody c1. set (w1 := mk_world _ _ _ _). 
  assert (E2 : cl_config (fst (client_send_control c1 w1 REL4U_PKT_HEARTBEAT_ACK)) = cl_config c1)
    by exact (f_equal fst (send_control_base c1 w1 REL4U_PKT_HEARTBEAT_ACK)).
  destruct (_ =? REL4U_PKT_HEARTBEAT).
  - destruct (client_send_control c1 w1 _) as [c2 w2]. cbn [fst] in *. destruct (_ =? REL4U_PKT_DATA); rewrite ?on_data_config; congruence.
  - destruct (_ =? REL4U_PKT_DATA); cbn [fst]; by rewrite ?on_data_config.
Qed.

Lemma client_drain_base fuel : forall c w now item, cl_base (fst (fst (client_drain fuel c w now item))) = cl_base c.
Proof.
  induction fuel as [|fuel IH]; intros c w now item; cbn [client_drain]; [done|].
  destruct (rel4u_send_window_can_send _); [|done]. destruct (rel4u_mpmc_try_pop _ _) as [[[] q] it]; [|done].
  unfold time_now_ns. destruct (rel4u_send_window_push _ _ _ _ _) as [[r sw] sq].
  set (c1 := _ <| cl_send_win := sw |>). set (w1 := mk_world _ _ _ _).
  pose proof (send_packet_base c1 w1 REL4U_PKT_DATA (it_mode it) (default 0 sq) (Some (it_data it)) (it_len it)) as E.
  destruct (r =? 0); [|by rewrite IH]. destruct (client_send_packet _ _ _ _ _ _ _) as [c2 w2]. by rewrite IH.
Qed.

Lemma client_retransmit_base c w now : cl_base (fst (client_retransmit c w now)) = cl_base c.
Proof.
  unfold client_retransmit. destruct (_ >? 0); [|done]. generalize (rel4u_send_window_get_expired (cl_send_win c) now
    (rel4u_rtt_get_rto (Some (cl_rtt c))) 16) at 3 as l. set (c1 := c <| cl_rtt := _ |> <| cl_stats := _ |>).
  intros l. change (cl_base c) with (cl_base c1). clearbody c1. revert c1 w.
  induction l as [|i l IH]; intros c1 w; [done|]. cbn [foldl client_resend]. set (c2 := c1 <| cl_send_win := _ |>).
  destruct (client_send_packet c2 w _ _ _ _ _) as [c3 w3] eqn:E. rewrite IH. change (cl_base c1) with (cl_base c2).
  rewrite <- (send_packet_base c2 w REL4U_PKT_DATA (ss_delivery_mode (sw_slots (cl_send_win c2) !. i))
    (ss_seq_num (sw_slots (cl_send_win c2) !. i)) (Some (ss_payload (sw_slots (cl_send_win c2) !. i)))
    (ss_payload_len (sw_slots (cl_send_win c2) !. i))). by rewrite E.
Qed.

Lemma client_timers_base c w lo : cl_base (fst (fst (client_timers c w lo))) = cl_base c.
Proof.
  unfold client_timers. destruct (bool_decide _); [|done]. destruct (time_now_ns w) as [now w0].
  pose proof (client_retransmit_base c w0 now) as E1. destruct (client_retransmit c w0 now) as [c1 w1].
  pose proof (send_control_base c1 w1 REL4U_PKT_ACK) as E2.
  assert (E2' : cl_base (fst (if cl_ack_pending c1 then client_send_control c1 w1 REL4U_PKT_ACK else (c1, w1))) = cl_base c1)
    by (by destruct (cl_ack_pending c1)). clear E2. destruct (if cl_ack_pending c1 then _ else _) as [c2 w2].
  assert (E3 : cl_base (fst (client_heartbeat c2 w2 now)) = cl_base c2).
  { unfold client_heartbeat. destruct (_ >=? _); [|done]. pose proof (send_control_base c2 w2 REL4U_PKT_HEARTBEAT) as E.
    by destruct (client_send_control _ _ _). }
  destruct (client_heartbeat c2 w2 now) as [c3 w3].
  assert (E4 : cl_base (fst (client_inactivity c3 w3 now)) = cl_base c3).
  { unfold client_inactivity. destruct (_ >=? _); [|done]. destruct (cc_disable_auto_reconnect _); [done|]. apply trigger_base. }
  destruct (client_inactivity c3 w3 now) as [c4 w4]. cbn [fst] in *. congruence.
Qed.

Lemma disconnect_begin_base c w : cl_base (fst (client_disconnect_begin c w)) = cl_base c.
Proof. unfold client_disconnect_begin. destruct (cl_running c); [|done]. by destruct (rel4u_net_sendto _ _ _ _). Qed.

Lemma connect_start_config c w env : cl_config (snd (fst (client_connect_start (fun s => s) c w env))) = cl_config c.
Proof.
  unfold client_connect_start. destruct (bool_decide _); [done|].
  assert (E : cl_config (snd (fst (rel4u_client_disconnect (fun s => s) c w))) = cl_config c).
  { unfold rel4u_client_disconnect. destruct (negb _); [done|]. pose proof (f_equal fst (disconnect_begin_base c w)) as E.
    by destruct (client_disconnect_begin c w). }
  destruct (rel4u_client_disconnect _ c w) as [[r c1] w1]. destruct (rel4u_net_addr_from_string _ _ _) as [r0 addr].
  destruct (negb _); [exact E|]. destruct (_ =? REL4U_INVALID_SOCKET); [exact E|].
  destruct (rel4u_wakeup_pipe_create _ _) as [r2 pipe]. destruct (negb _); [exact E|]. destruct (negb _); exact E.
Qed.

Lemma run_event_config s e : cl_config (fst (fst (run_event s e))) = cl_config (fst (fst s)).
Proof.
  destruct s as [[c w] lo]. destruct e as [| |buf src| | |mode data len|sz t wk|env| | | |]; cbn [run_event fst].
  - done.
  - exact (f_equal fst (handshake_base c w lo)).
  - pose proof (on_datagram_config c w lo buf src) as E. by destruct (client_on_datagram _ _ _ _ _) as [[[? ?] ?] ?].
  - unfold client_send_pending. destruct (bool_decide _); [|done].
    pose proof (f_equal fst (client_drain_base (S (Z.to_nat (q_count (cl_send_queue c)))) c w (lo_now_ns lo) item_zero)) as E.
    by destruct (client_drain _ _ _ _ _) as [[? ?] ?].
  - exact (f_equal fst (client_timers_base c w lo)).
  - unfold rel4u_client_send. destruct (_ >? _); [done|]. destruct (negb _); [done|]. destruct (_ && _); [done|].
    destruct (memcpy_into _ _ _); [|done]. destruct (rel4u_mpmc_try_push _ _) as [ok q]. by destruct (negb ok).
  - unfold rel4u_client_recv. destruct (_ =? _); [done|]. by destruct (rel4u_mpmc_pop_wait _ _ _ _) as [q|[] q item].
  - pose proof (connect_start_config c w env) as E. by destruct (client_connect_start _ _ _ _) as [[? ?] ?].
  - done.
  - pose proof (f_equal fst (disconnect_begin_base c w)) as E. by destruct (client_disconnect_begin c w).
  - done.
  - done.
Qed.

Lemma run_events_config evs : forall s, cl_config (fst (fst (foldl run_event s evs))) = cl_config (fst (fst s)).
Proof. induction evs as [|e evs IH]; intros s; [done|]. cbn [foldl]. by rewrite IH, run_event_config. Qed.

(** C13. A client whose windows have fewer than [2^31] slots, whose dynamic queues
    hold less than [2^63] bytes and whose MTU is at most 9240 stays well formed
    under every interleaving of its worker's steps with the application's calls,
    whatever arrives on the socket: both queues hold well-formed messages within
    their limits, both windows and the RTT estimator are consistent with their
    arrays, a client that says it is connected has a session, and no call of
    [rel4u_client_send] copies a message past the end of its array. *)
Theorem client_invariant cfg mem c0 w lo evs :
  config_ok cfg mem -> rel4u_client_create cfg mem = Some c0 -> Forall event_ok evs ->
  let '(c, w', _) := foldl run_event (c0, w, lo) evs in
  client_ok c /\ forall mode data len, is_Some (rel4u_client_send c w' mode data len).
Proof.
  intros F E He. destruct (client_create_ok cfg mem c0 F E) as (K & Ec & _).
  pose proof (run_events_ok evs He (c0, w, lo) K) as K'. pose proof (run_events_config evs (c0, w, lo)) as C.
  destruct (foldl run_event (c0, w, lo) evs) as [[c w'] lo']. cbn [fst] in *. split; [done|].
  intros mode data len. apply client_send_defined. rewrite C, Ec. cbn. pose proof (cf_mtu _ _ F).
  destruct (_ =? 0); unfold REL4U_DEFAULT_MTU, REL4U_MAX_MSG_SIZE, REL4U_HEADER_SIZE in *; lia.
Qed.

(** ** Draining the send queue *)

Lemma send_packet_wire c w type mode seq payload len : client_ok c -> is_u32 seq -> 0 <= len ->
  let '(ack, sack) := rel4u_recv_window_get_ack_info (cl_recv_win c) in
  let hdr := make_header type mode (cl_session_id c) seq len ack sack in
  header_wf hdr /\ (socket_accepts (cl_sock c) ->
  wd_sent (snd (client_send_packet c w type mode seq payload len)) =
  wd_sent w ++ [(cl_server_addr c, header_bytes hdr ++ packet_body payload len)]).
Proof.
  intros K Hs Hl. unfold client_send_packet. pose proof (ack_info_u32 (cl_recv_win c)) as [Ha Hk].
  destruct (rel4u_recv_window_get_ack_info _) as [ack sack]. cbn [fst snd] in Ha, Hk. cbv zeta.
  assert (W : header_wf (make_header type mode (cl_session_id c) seq len ack sack)).
  { apply make_header_wf; [apply K|done|done|done]. }
  split; [done|]. intros Hacc. rewrite encode_packet_wire by done.
  destruct (sendto_accepted w (cl_sock c) (header_bytes (make_header type mode (cl_session_id c) seq len ack sack)
    ++ packet_body payload len) (cl_server_addr c) Hacc) as (sent & w1 & E & Hpos & Hw).
  { rewrite length_app, header_bytes_length. lia. }
  rewrite E, (proj2 (Z.gtb_lt _ _)) by done. exact Hw.
Qed.

(** A message of the queue and the datagram it goes out in. *)
Definition carried (addr : rel4u_net_addr) (m : msg) (d : rel4u_net_addr * list Z) : Prop :=
  fst d = addr /\ drop 24 (snd d) = m_data m.

Record drain_result (c : rel4u_client) (w : world) (b : bqueue) (h : Z) (es : list rel4u_send_slot)
    (c' : rel4u_client) (w' : world) (k : nat) (es' : list rel4u_send_slot) : Prop := {
  dn_queue : q_rep (cl_send_queue c') (mk_bqueue (drop k (bq_msgs b)) (bq_dropped b));
  dn_window : send_rep (cl_send_win c') h (es ++ es');
  dn_entries : entry_view <$> es' = msg_view <$> filter reliable_msg (take k (bq_msgs b));
  dn_stop : drop k (bq_msgs b) = [] \/ rel4u_send_window_can_send (cl_send_win c') = false;
  dn_sent : socket_accepts (cl_sock c) -> exists ds, wd_sent w' = wd_sent w ++ ds /\
    Forall2 (carried (cl_server_addr c)) (take k (bq_msgs b)) ds
}.

Lemma drain_stop_result c w b h es : q_rep (cl_send_queue c) b -> send_rep (cl_send_win c) h es ->
  bq_msgs b = [] \/ rel4u_send_window_can_send (cl_send_win c) = false ->
  drain_result c w b h es c w 0 [].
Proof.
  intros Hq R Hs. constructor; rewrite ?drop_0, ?app_nil_r; [by destruct b|done|done|done|].
  intros _. exists []. by rewrite app_nil_r.
Qed.

Lemma client_drain_spec fuel : forall c w now item b h es,
  client_ok c -> q_rep (cl_send_queue c) b -> send_rep (cl_send_win c) h es ->
  (length (bq_msgs b) < fuel)%nat ->
  let '(c', w', _) := client_drain fuel c w now item in
  exists k es', drain_result c w b h es c' w' k es'.
Proof.
  induction fuel as [|fuel IH]; intros c w now item b h es K Hq R Hf; [lia|]. cbn [client_drain].
  destruct (rel4u_send_window_can_send _) eqn:Hcan.
  2: { exists 0%nat, []. apply drain_stop_result; [done|done|by right]. }
  pose proof (pop_spec (cl_send_queue c) b item Hq) as P. unfold rel4u_mpmc_try_pop, bq_pop in *.
  destruct (mpmc_pop_head_locked _ _) as [[ok q] it]. destruct (bq_msgs b) as [|m l] eqn:Eb.
  { destruct P as (-> & -> & ->). exists 0%nat, []. replace (c <| cl_send_queue := cl_send_queue c |>) with c by (by destruct c).
    apply drain_stop_result; [done|done|by left]. }
  destruct P as (-> & Em & Hq1 & _ & Hit). unfold time_now_ns. cbv beta iota. set (now1 := pf_clock _).
  set (w1 := mk_world _ _ _ _). set (c1 := c <| cl_send_queue := q |>).
  assert (K1 : client_ok c1) by (apply set_send_queue_ok; [done|by eexists]).
  rewrite (can_send_spec _ _ _ R) in Hcan. apply Z.ltb_lt in Hcan.
  destruct (push_queued (cl_send_win c) h es it now1 R (proj1 (ck_send _ K)) (clock_u64 _) Hit Hcan)
    as (sw & seq & es1 & Ep & Hseq & R1 & Ev).
  change (cl_send_win c1) with (cl_send_win c). rewrite Ep. cbn [Z.eqb default from_option].
  set (c2 := c1 <| cl_send_win := sw |>).
  assert (Hsok : send_ok sw).
  { pose proof Hit as [[Hl _] Hmax].
    pose proof (send_push_ok (cl_send_win c) (it_mode it) (it_data it) (it_len it) now1 (ck_send _ K) (clock_u64 _) Hl Hmax) as P.
    rewrite Ep in P. apply P. }
  assert (K2 : client_ok c2) by (by apply set_send_win_ok).
  pose proof Hit as [[Hl _] _].
  pose proof (send_packet_wire c2 w1 REL4U_PKT_DATA (it_mode it) seq (Some (it_data it)) (it_len it) K2 Hseq ltac:(lia)) as Hw.
  destruct (rel4u_recv_window_get_ack_info (cl_recv_win c2)) as [ack sack]. destruct Hw as [_ Hw].
  pose proof (send_packet_update c2 w1 REL4U_PKT_DATA (it_mode it) seq (Some (it_data it)) (it_len it)) as U.
  unfold default, id. destruct (client_send_packet c2 w1 _ _ _ _ _) as [c3 w3]. cbn [fst snd] in U, Hw.
  pose proof (client_ok_core _ _ (sent_update_core _ _ U) K2) as K3.
  destruct U as (st & la & ap & ->).
  specialize (IH (c2 <| cl_stats := st |> <| cl_last_ack_sent_ns := la |> <| cl_ack_pending := ap |>) w3 now1 it
    (mk_bqueue l (bq_dropped b)) h (es ++ es1) K3 Hq1 R1 ltac:(cbn in *; lia)).
  destruct (client_drain _ _ _ _ _) as [[c' w'] now']. destruct IH as (k & es2 & [D1 D2 D3 D4 D5]).
  exists (S k), (es1 ++ es2). constructor; rewrite ?Eb; cbn [drop take bq_msgs bq_dropped] in *.
  - done.
  - by rewrite app_assoc.
  - change (m :: take k l) with ([m] ++ take k l). by rewrite filter_app, !fmap_app, <- Em, Ev, D3.
  - done.
  - intros Hacc. destruct (D5 Hacc) as (ds & E & F). rewrite (Hw Hacc) in E. eexists. split.
    + rewrite E, <- app_assoc. reflexivity.
    + constructor; [|exact F]. split; [done|]. cbn [snd]. rewrite wire_body. by rewrite <- Em.
Qed.

(** Draining the send queue is complete and in order: a prefix of the queued
    messages leaves the queue, its reliable messages are appended to the send
    window in the same order, every message goes out in its own datagram to the
    server, also in the same order, and the drain stops only when the queue is
    empty or the window has no room. *)
Theorem client_drain_complete c w lo b h es :
  client_ok c -> q_rep (cl_send_queue c) b -> send_rep (cl_send_win c) h es ->
  lo_state lo = REL4U_STATE_CONNECTED ->
  let '(c', w', _) := client_send_pending c w lo in
  exists k es', drain_result c w b h es c' w' k es'.
Proof.
  intros K Hq R Hs. unfold client_send_pending. rewrite bool_decide_eq_true_2 by done.
  pose proof (client_drain_spec (S (Z.to_nat (q_count (cl_send_queue c)))) c w (lo_now_ns lo) item_zero b h es K Hq R) as P.
  rewrite (q_rep_count _ _ Hq), Nat2Z.id in *. specialize (P ltac:(lia)).
  by destruct (client_drain _ _ _ _ _) as [[c' w'] now].
Qed.

(** ** Reconnecting *)


(** ** The public send *)

(** Whether the connection state lets the application queue a message. *)
Definition can_queue (c : rel4u_client) : Prop :=
  cl_running c = true /\ (cl_state c = REL4U_STATE_CONNECTED \/
    (cl_state c = REL4U_STATE_CONNECTING /\ cc_disable_auto_reconnect (cl_config c) = false)).

Lemma can_queue_test c :
  negb (cl_running c) || (negb (bool_decide (cl_state c = REL4U_STATE_CONNECTED)) &&
   (cc_disable_auto_reconnect (cl_config c) || negb (bool_decide (cl_state c = REL4U_STATE_CONNECTING)))) = false
  <-> can_queue c.
Proof.
  unfold can_queue. destruct (cl_running c), (cc_disable_auto_reconnect (cl_config c)), (cl_state c);
    cbn; intuition discriminate.
Qed.

(** The result of [rel4u_client_send] on every branch, for messages that fit the
    message array: too large for the MTU, not connected, or exactly what pushing
    the message to the bounded send queue answers; the first two leave
    everything as it was. *)
Theorem client_send_codes c w mode data len b :
  q_rep (cl_send_queue c) b -> 0 <= len <= Z.of_nat (length data) -> len <= REL4U_MAX_MSG_SIZE ->
  exists r c' w', rel4u_client_send c w mode data len = Some (r, c', w') /\
  (r = REL4U_ERR_MSG_TOO_LARGE <-> REL4U_MAX_PAYLOAD (cc_mtu (cl_config c)) < len) /\
  (r = REL4U_ERR_NOT_CONNECTED <-> len <= REL4U_MAX_PAYLOAD (cc_mtu (cl_config c)) /\ ~ can_queue c) /\
  (r = REL4U_ERR_MSG_TOO_LARGE \/ r = REL4U_ERR_NOT_CONNECTED -> c' = c /\ w' = w) /\
  (len <= REL4U_MAX_PAYLOAD (cc_mtu (cl_config c)) -> can_queue c -> exists alloc ok b',
    (q_mode (cl_send_queue c) = REL4U_MEM_FIXED \/ (forall hp z, is_Some (malloc hp z)) -> alloc = true) /\
    bq_push (q_cost (cl_send_queue c)) (q_limit (cl_send_queue c)) (q_full_policy (cl_send_queue c)) false alloc
      (mk_msg 0 (u8 mode) (take (Z.to_nat len) data)) b = (ok, b') /\
    r = (if ok then REL4U_OK else REL4U_ERR_QUEUE_FULL) /\ q_rep (cl_send_queue c') b').
Proof.
  intros Hq Hl Hmax. unfold rel4u_client_send, memcpy_into, REL4U_MAX_MSG_SIZE in *.
  destruct (Z.gtb_spec len (REL4U_MAX_PAYLOAD (cc_mtu (cl_config c)))) as [Hbig|Hfit].
  { eexists _, _, _. split; [done|]. split; [done|]. split; [split; [done|lia]|]. split; [done|]. lia. }
  pose proof (can_queue_test c) as Hc. destruct (negb (cl_running c)) eqn:Hr; cbn [orb] in Hc.
  { eexists _, _, _. split; [done|]. split; [split; [done|lia]|]. split; [split; [intros _; split; [lia|by rewrite <- Hc]|done]|].
    split; [done|]. by rewrite <- Hc. }
  destruct (_ && _) eqn:Hs; cbn [andb orb] in Hc.
  { eexists _, _, _. split; [done|]. split; [split; [done|lia]|]. split; [split; [intros _; split; [lia|by rewrite <- Hc]|done]|].
    split; [done|]. by rewrite <- Hc. }
  rewrite (proj2 (Z.leb_le len 9216)) by lia. pose proof (push_spec false (cl_send_queue c) b _ Hq (queued_item_wf 0 mode data len Hl)) as P. unfold mpmc_push in P.
  unfold rel4u_mpmc_try_push. destruct (mpmc_push_back_locked _ _) as [ok q].
  destruct P as (alloc & b' & Ha & Hp & Hq' & _).
  assert (Em : item_msg (mk_item 0 (u8 mode) (u16 len) (memcpy [] data len)) = mk_msg 0 (u8 mode) (take (Z.to_nat len) data)).
  { unfold item_msg, memcpy. cbn [it_client_id it_mode it_len it_data]. f_equal.
    rewrite u16_small, drop_nil, app_nil_r, take_take by (word_unfold; lia). f_equal. lia. }
  rewrite Em in Hp. destruct ok; cbn [negb].
  all: eexists _, _, _; split; [done|]; split; [split; [done|lia]|]; split; [split; [done|intros [_ Hn]; by destruct Hn; apply Hc]|].
  all: split; [by intros [|]|]; intros _ _; exists alloc; eexists _, b'; split; [done|]; split; [exact Hp|done].
Qed.

(** With an MTU above 9240 the length check of [rel4u_client_send] lets messages
    through that do not fit the 9216 bytes of [item.data], into which they are
    copied: the call is undefined. *)
Theorem client_send_oversize c w mode data len :
  can_queue c -> REL4U_MAX_MSG_SIZE < len <= REL4U_MAX_PAYLOAD (cc_mtu (cl_config c)) ->
  rel4u_client_send c w mode data len = None.
Proof.
  intros Hc Hl. unfold rel4u_client_send, memcpy_into.
  destruct (Z.gtb_spec len (REL4U_MAX_PAYLOAD (cc_mtu (cl_config c)))); [lia|].
  apply can_queue_test, orb_false_iff in Hc as [-> ->]. by rewrite (proj2 (Z.leb_gt len REL4U_MAX_MSG_SIZE)) by lia.
Qed.

(** ** Datagrams of others *)

(** A datagram the client may act on: from the server's address, decodable, and
    either of the current session of a connected client or an answer to the
    handshake of a connecting one. *)
Definition authentic (c : rel4u_client) (lo : client_locals) (d : list Z * rel4u_net_addr) : Prop :=
  addr_eq (snd d) (cl_server_addr c) /\
  exists hdr, rel4u_packet_decode_header pf_host (fst d) (Z.of_nat (length (fst d))) header_zero = (0, hdr) /\
    ((lo_state lo = REL4U_STATE_CONNECTED /\ h_session_id hdr = cl_session_id c) \/
     (lo_state lo = REL4U_STATE_CONNECTING /\
      (h_packet_type hdr = REL4U_PKT_REJECT \/
       (h_packet_type hdr = REL4U_PKT_CONNECT_RESP /\ h_session_id hdr <> 0)))).

Lemma accepts_authentic c lo hdr : client_accepts (lo_state lo) (cl_session_id c) hdr = true ->
  (lo_state lo = REL4U_STATE_CONNECTED /\ h_session_id hdr = cl_session_id c) \/
  (lo_state lo = REL4U_STATE_CONNECTING /\
   (h_packet_type hdr = REL4U_PKT_REJECT \/ (h_packet_type hdr = REL4U_PKT_CONNECT_RESP /\ h_session_id hdr <> 0))).
Proof.
  unfold client_accepts. destruct (Z.eqb_spec (h_packet_type hdr) REL4U_PKT_REJECT) as [E|_].
  { intros H%bool_decide_eq_true. right. split; [done|by left]. }
  destruct (Z.eqb_spec (h_packet_type hdr) REL4U_PKT_CONNECT_RESP) as [E|_];
    intros [H1%bool_decide_eq_true H2]%andb_true_iff.
  - right. split; [done|]. right. split; [done|]. by destruct (Z.eqb_spec (h_session_id hdr) 0).
  - left. split; [done|]. by apply Z.eqb_eq.
Qed.

(** C16. Datagrams that are not authentic change nothing at all: whatever an attacker
    who is not at the server's address or does not know the session sends, the
    client's state, what it has sent and the worker's variables stay as they
    are. *)
Theorem client_ignores_strangers c w lo ds :
  Forall (fun d => ~ authentic c lo d) ds -> client_recv_loop c w lo ds = (c, w, lo).
Proof.
  induction 1 as [|[buf src] ds Hn _ IH]; cbn [client_recv_loop]; [done|].
  destruct (_ =? _)%nat; [done|].
  assert (E : client_on_datagram c w lo buf src = (c, w, lo, true)); [|by rewrite E].
  unfold client_on_datagram. destruct (rel4u_net_addr_equal src (cl_server_addr c)) eqn:Ea; [|done]. cbn [negb].
  destruct (rel4u_packet_decode_header _ _ _ _) as [r hdr] eqn:Ed.
  destruct (Z.eqb_spec r 0) as [->|]; [|done]. cbn [negb].
  destruct (client_accepts _ _ _) eqn:Hacc; [|done]. destruct Hn. split; [done|]. exists hdr.
  split; [done|]. by apply accepts_authentic.
Qed.

(** ** Waiting for the connection *)

(** C23. The wait of [rel4u_client_connect] ends: as soon as a turn sees the timeout
    passed there is a result.  It is [REL4U_OK] only if the worker was seen
    connected, SERVER_FULL only after a rejection, TIMEOUT only when the time is
    over, and NOT_CONNECTED only when the worker has stopped or given up. *)
Theorem connect_wait_decides start timeout (views : list connect_view) v :
  v ∈ views -> u64 (cv_now_ms v - start) >= timeout ->
  exists r x, connect_wait start timeout views = Some r /\ x ∈ views /\
    ((r = REL4U_OK /\ cv_running x = true /\ cv_state x = REL4U_STATE_CONNECTED) \/
     (r = REL4U_ERR_TIMEOUT /\ u64 (cv_now_ms x - start) >= timeout /\ cv_state x <> REL4U_STATE_CONNECTED) \/
     (r = REL4U_ERR_SERVER_FULL /\ cv_rejected x = true) \/
     (r = REL4U_ERR_NOT_CONNECTED /\ cv_rejected x = false /\
      (cv_running x = false \/ cv_state x = REL4U_STATE_DISCONNECTED))).
Proof.
  intros Hv Ht. induction views as [|x views IH]; [by apply elem_of_nil in Hv|]. cbn [connect_wait].
  assert (Hx : x ∈ x :: views) by (apply elem_of_cons; by left).
  destruct (cv_running x) eqn:Er; cbn [negb].
  2: { eexists _, x. split; [done|]. split; [done|]. destruct (cv_rejected x); tauto. }
  case_bool_decide as E1; [by exists REL4U_OK, x; tauto|].
  case_bool_decide as E2.
  { eexists _, x. split; [done|]. split; [done|]. destruct (cv_rejected x); tauto. }
  destruct (Z.geb_spec (u64 (cv_now_ms x - start)) timeout) as [Hge|Hlt].
  { exists REL4U_ERR_TIMEOUT, x. split; [done|]. split; [done|]. right. left. split; [done|]. split; [lia|done]. }
  apply elem_of_cons in Hv as [->|Hv]; [lia|]. destruct (IH Hv) as (r & y & E & Hy & H).
  exists r, y. split; [done|]. split; [apply elem_of_cons; by right|done].
Qed.
End run.

(** ** Witnesses *)

#[local] Existing Instance sample_platform.

Definition sample_config : rel4u_client_config :=
  mk_client_config (Some String.EmptyString) 9000 None 0 1400 8 8 8 0 0 0 false 0
    REL4U_MEM_FIXED REL4U_QUEUE_FULL_DROP_NEW 0 0.
Definition sample_memory : create_memory :=
  mk_memory true (Some (replicate 8 item_zero)) (Some (replicate 8 item_zero)) true true.
Definition sample_client0 : rel4u_client := Eval vm_compute in
  default (client_zero sample_config) (rel4u_client_create sample_config sample_memory).
Definition sample_server_addr : rel4u_net_addr := mk_addr (AF_INET 9000 1) 16.

Lemma sample_config_ok : config_ok sample_config sample_memory.
Proof. constructor; cbn; try (word_unfold; lia); try (unfold REL4U_MAX_MSG_SIZE, REL4U_HEADER_SIZE; lia); by intros l [= <-]. Qed.
Lemma sample_create : rel4u_client_create sample_config sample_memory = Some sample_client0.
Proof. vm_compute. reflexivity. Qed.
Lemma sample_client0_ok : client_ok sample_client0.
Proof. exact (proj1 (client_create_ok _ _ _ sample_config_ok sample_create)). Qed.

Definition sample_world : world := mk_world 0 0 [] false.
Definition sample_locals : client_locals := mk_locals REL4U_STATE_DISCONNECTED 0 0.
Definition sample_env : system :=
  mk_system (fun _ _ => Some sample_server_addr) (fun _ => 5) (fun _ _ => 0) (Some (6, 7)) true.

(** The server's answer to the handshake. *)
Definition sample_resp : list Z :=
  header_bytes (make_header REL4U_PKT_CONNECT_RESP 0 77 0 0 0 0).

Definition sample_events : list client_event :=
  [EvConnectStart sample_env; EvWorkerStart; EvTurn; EvHandshake; EvDatagram sample_resp sample_server_addr;
   EvSend 3 [7; 8] 2; EvSend 0 [9] 1].

Lemma sample_events_ok : Forall event_ok sample_events.
Proof.
  repeat apply Forall_cons_2; try done; cbn [event_ok].
  apply (wire_datagram_ok _ []); [|constructor|done]. apply make_header_wf; word_unfold; lia.
Qed.

Definition sample_connected : client_sys := Eval vm_compute in
  foldl run_event (sample_client0, sample_world, sample_locals) sample_events.
Lemma sample_connected_eq :
  foldl run_event (sample_client0, sample_world, sample_locals) sample_events = sample_connected.
Proof. vm_compute. reflexivity. Qed.
Definition sample_client : rel4u_client := Eval vm_compute in fst (fst sample_connected).
Definition sample_w1 : world := Eval vm_compute in snd (fst sample_connected).
Definition sample_lo1 : client_locals := Eval vm_compute in snd sample_connected.

Lemma client_invariant_witness : client_ok sample_client /\ cl_state sample_client = REL4U_STATE_CONNECTED /\
  cl_session_id sample_client = 77.
Proof.
  pose proof (client_invariant sample_config sample_memory sample_client0 sample_world sample_locals sample_events
    sample_config_ok sample_create sample_events_ok) as H.
  rewrite sample_connected_eq in H. split; [exact (proj1 H)|]. split; reflexivity.
Defined.

Lemma sample_client_ok : client_ok sample_client.
Proof.
  pose proof (run_events_ok sample_events sample_events_ok (sample_client0, sample_world, sample_locals)
    sample_client0_ok) as H. rewrite sample_connected_eq in H. exact H.
Qed.

Definition sample_queued : bqueue := mk_bqueue [mk_msg 0 3 [7; 8]; mk_msg 0 0 [9]] 0.
Lemma sample_client_queue_rep : q_rep (cl_send_queue sample_client) sample_queued.
Proof.
  apply q_rep_fixed; [reflexivity|reflexivity|word_unfold; lia|]. split; [|split; [reflexivity|]].
  - constructor; cbn; try lia; reflexivity.
  - change (Forall item_sized [mk_item 0 3 2 [7; 8]; mk_item 0 0 1 [9]]).
    repeat (apply Forall_cons_2; [split; [split; cbn; lia|done]|]). constructor.
Qed.
Lemma sample_send_rep : send_rep (cl_send_win sample_client) 1 [].
Proof. apply (fresh_rep _ 8); [by split; [lia|]|word_unfold; lia|reflexivity]. Qed.
Lemma sample_accepts : socket_accepts (cl_sock sample_client).
Proof. split; [discriminate|]. intros n len H. exact H. Qed.

Lemma client_drain_complete_witness : exists k es' c' w',
  drain_result sample_client sample_w1 sample_queued 1 [] c' w' k es' /\ socket_accepts (cl_sock sample_client).
Proof.
  pose proof (client_drain_complete sample_client sample_w1 sample_lo1 sample_queued 1 [] sample_client_ok
    sample_client_queue_rep sample_send_rep eq_refl) as H.
  destruct (client_send_pending sample_client sample_w1 sample_lo1) as [[c' w'] lo'].
  destruct H as (k & es' & H). exists k, es', c', w'. split; [exact H|exact sample_accepts].
Defined.


Lemma client_send_codes_witness :
  fst <$> (fst <$> rel4u_client_send sample_client sample_w1 2 [1; 2; 3] 3) = Some REL4U_OK.
Proof.
  destruct (client_send_codes sample_client sample_w1 2 [1; 2; 3] 3 sample_queued sample_client_queue_rep
    ltac:(cbn; lia) ltac:(vm_compute; discriminate)) as (r & c' & w' & E & _ & _ & _ & H). rewrite E.
  destruct H as (alloc & ok & b' & Ha & Hp & -> & _).
  - vm_compute; discriminate.
  - split; [reflexivity|left; reflexivity].
  - rewrite Ha in Hp by (left; reflexivity). vm_compute in Hp. injection Hp as <- <-. reflexivity.
Defined.

(** The same client with an MTU of 9600. *)
Definition jumbo_client : rel4u_client := sample_client <| cl_config :=
  mk_client_config (Some String.EmptyString) 9000 None 0 9600 8 8 8 0 0 0 false 0
    REL4U_MEM_FIXED REL4U_QUEUE_FULL_DROP_NEW 0 0 |>.

Lemma client_send_oversize_witness :
  rel4u_client_send jumbo_client sample_w1 0 (replicate (Z.to_nat 9217) 0) 9217 = None.
Proof.
  apply client_send_oversize; [split; [reflexivity|left; reflexivity]|].
  vm_compute. split; [reflexivity|discriminate].
Defined.

Lemma client_ignores_strangers_witness :
  client_recv_loop sample_client sample_w1 sample_lo1
    [(header_bytes (make_header REL4U_PKT_DISCONNECT 0 78 0 0 0 0), sample_server_addr);
     (header_bytes (make_header REL4U_PKT_DISCONNECT 0 77 0 0 0 0), mk_addr (AF_INET 1 1) 16)]
  = (sample_client, sample_w1, sample_lo1).
Proof.
  apply client_ignores_strangers. repeat apply Forall_cons_2; [| |apply Forall_nil_2].
  - intros [_ (hdr & E & H)]. vm_compute in E. injection E as <-.
    destruct H as [[_ H]|[H _]]; vm_compute in H; discriminate H.
  - intros [H _]. vm_compute in H. discriminate H.
Defined.

Lemma connect_wait_decides_witness :
  connect_wait 100 3000 [mk_view true REL4U_STATE_CONNECTING false 150; mk_view true REL4U_STATE_CONNECTING false 3100]
  = Some REL4U_ERR_TIMEOUT.
Proof.
  destruct (connect_wait_decides 100 3000
    [mk_view true REL4U_STATE_CONNECTING false 150; mk_view true REL4U_STATE_CONNECTING false 3100]
    (mk_view true REL4U_STATE_CONNECTING false 3100)) as (r & x & E & Hx & H).
  - apply elem_of_cons. right. apply elem_of_cons. by left.
  - vm_compute. discriminate.
  - rewrite E. f_equal. vm_compute in E. injection E as <-. reflexivity.
Defined.
