(* ===== verification/Server.v ===== *)
(** * Server: definitions

    [src/core/rel4u_server.c]: the public calls and the worker thread of a
    server.  A pointer to a session is its index in the session table; a write
    through it is [session_upd].  The worker holds [table_mutex] while it works
    on a session, as the calls that touch the table do, so each datagram, each
    turn of the drain loop and each scan of the timers is one atomic step. *)
From S2P Require Import Prelude Types Packet Rtt Mpmc SendWindow RecvWindow Net Session Link Endpoint.
From stdpp Require Import base numbers list gmap.
From Stdlib Require String.
Open Scope Z_scope.
Open Scope rel4u_scope.

(** ** Data *)

Record rel4u_server_config := mk_server_config {
  sc_bind_address : option String.string;
  sc_bind_port : Z;
  sc_max_clients : Z;
  sc_full_policy : rel4u_max_clients_policy;
  sc_mtu : Z;
  sc_send_queue_capacity : Z;
  sc_recv_queue_capacity : Z;
  sc_window_size : Z;
  sc_heartbeat_interval_ms : Z;
  sc_inactivity_timeout_ms : Z;
  sc_memory_mode : rel4u_memory_mode;
  sc_queue_full_policy : rel4u_queue_full_policy;
  sc_max_send_memory_bytes : Z;
  sc_max_recv_memory_bytes : Z
}.

Record rel4u_server := mk_server {
  sv_config : rel4u_server_config;
  sv_sock : Z;
  sv_bind_addr : rel4u_net_addr;
  sv_wakeup_pipe : rel4u_wakeup_pipe;
  sv_running : bool;
  sv_send_queue : rel4u_mpmc_queue;
  sv_recv_queue : rel4u_mpmc_queue;
  sv_session_table : rel4u_session_table;
  sv_ready_slots : list rel4u_recv_slot;
  sv_stats : rel4u_stats;
  sv_pending_item : rel4u_mpmc_item;
  sv_has_pending_item : bool
}.
#[export] Instance eta_server : Eta rel4u_server := fun s =>
  mk_server (sv_config s) (sv_sock s) (sv_bind_addr s) (sv_wakeup_pipe s) (sv_running s)
    (sv_send_queue s) (sv_recv_queue s) (sv_session_table s) (sv_ready_slots s) (sv_stats s)
    (sv_pending_item s) (sv_has_pending_item s).

(** [calloc(1, sizeof(rel4u_server_t))]. *)
Definition server_zero (config : rel4u_server_config) : rel4u_server :=
  mk_server config 0 addr_zero (mk_pipe 0 0) false queue_zero queue_zero table_zero
    (replicate 64 recv_slot_zero) stats_zero item_zero false.

(** ** Creation *)

Definition server_defaults (c : rel4u_server_config) : rel4u_server_config :=
  let dynamic := bool_decide (sc_memory_mode c = REL4U_MEM_DYNAMIC) in
  mk_server_config (sc_bind_address c) (sc_bind_port c)
    (if sc_max_clients c =? 0 then 64 else sc_max_clients c) (sc_full_policy c)
    (if sc_mtu c =? 0 then REL4U_DEFAULT_MTU else sc_mtu c)
    (if sc_send_queue_capacity c <? 8 then 256 else sc_send_queue_capacity c)
    (if sc_recv_queue_capacity c <? 8 then 256 else sc_recv_queue_capacity c)
    (if sc_window_size c <? 8 then 64 else sc_window_size c)
    (if sc_heartbeat_interval_ms c =? 0 then 1000 else sc_heartbeat_interval_ms c)
    (if sc_inactivity_timeout_ms c =? 0 then 5000 else sc_inactivity_timeout_ms c)
    (sc_memory_mode c) (sc_queue_full_policy c)
    (if dynamic && (sc_max_send_memory_bytes c =? 0) then 1024 * 1024 else sc_max_send_memory_bytes c)
    (if dynamic && (sc_max_recv_memory_bytes c =? 0) then 1024 * 1024 else sc_max_recv_memory_bytes c).

(** What the allocations of a creation return: the object, the items of the two
    queues, the array of sessions and the windows of each session. *)
Record server_memory := mk_server_memory {
  sm_object : bool;
  sm_send_items : option (list rel4u_mpmc_item);
  sm_recv_items : option (list rel4u_mpmc_item);
  sm_table : bool;
  sm_windows : nat -> bool * bool
}.

Definition rel4u_server_create (config : rel4u_server_config) (mem : server_memory) : option rel4u_server :=
  if sc_bind_port config =? 0 then None else
  if negb (sm_object mem) then None else
  let cfg := server_defaults config in
  let s := (server_zero cfg) <| sv_sock := REL4U_INVALID_SOCKET |> <| sv_running := false |> in
  let '(r, send_queue) := rel4u_mpmc_init (sc_memory_mode cfg) (sc_queue_full_policy cfg)
        (sc_send_queue_capacity cfg) (sc_max_send_memory_bytes cfg) (sm_send_items mem) in
  if negb (r =? 0) then None else
  let '(r, recv_queue) := rel4u_mpmc_init (sc_memory_mode cfg) (sc_queue_full_policy cfg)
        (sc_recv_queue_capacity cfg) (sc_max_recv_memory_bytes cfg) (sm_recv_items mem) in
  if negb (r =? 0) then None else
  let '(r, table) := rel4u_session_table_init (sv_session_table s) (sc_max_clients cfg) (sc_full_policy cfg)
        (sc_window_size cfg) (sm_table mem) (sm_windows mem) in
  if negb (r =? 0) then None else
  Some (s <| sv_send_queue := send_queue |> <| sv_recv_queue := recv_queue |> <| sv_session_table := table |>).

(** Writing through a session pointer. *)
Definition server_upd (s : rel4u_server) (i : nat)
    (f : rel4u_client_session -> rel4u_client_session) : rel4u_server :=
  s <| sv_session_table := session_upd (sv_session_table s) i f |>.

(** The session with index [i]. *)
Definition server_session (s : rel4u_server) (i : nat) : rel4u_client_session :=
  tb_sessions (sv_session_table s) !!! i.

Section server.
Context {platform : Platform} {allocator : Malloc}.

(** ** Sending packets *)

(** What a successful [sendto] writes to the session. *)
Definition session_sent (sent now : Z) (session : rel4u_client_session) : rel4u_client_session :=
  session <| cs_stats := stats_sent (cs_stats session) sent |> <| cs_last_ack_sent_ns := now |>
          <| cs_ack_pending := false |>.

Definition server_send_packet (s : rel4u_server) (w : world) (i : nat) (type mode seq : Z)
    (payload : option (list Z)) (payload_len : Z) : rel4u_server * world :=
  let session := server_session s i in
  let '(ack_num, sack_mask) := rel4u_recv_window_get_ack_info (cs_recv_win session) in
  let hdr := make_header type mode (cs_session_id session) seq payload_len ack_num sack_mask in
  match encode_packet hdr payload payload_len with
  | None => (s, w)
  | Some raw_buf =>
      let '(sent, w) := rel4u_net_sendto w (sv_sock s) raw_buf (cs_addr session) in
      if sent >? 0 then
        let s := s <| sv_stats := stats_sent (sv_stats s) sent |> in
        let '(now, w) := time_now_ns w in
        (server_upd s i (session_sent sent now), w)
      else (s, w)
  end.

Definition server_send_control (s : rel4u_server) (w : world) (i : nat) (type : Z) : rel4u_server * world :=
  server_send_packet s w i type REL4U_MODE_UNRELIABLE_UNORDERED 0 None 0.

(** A bare header sent outside a session: REJECT, RESET and DISCONNECT. *)
Definition server_send_header (s : rel4u_server) (w : world) (hdr : rel4u_header) (addr : rel4u_net_addr) : world :=
  let buf := snd (rel4u_packet_encode_header pf_host hdr (replicate 24 0) REL4U_HEADER_LEN) in
  snd (rel4u_net_sendto w (sv_sock s) buf addr).

Definition control_header (type session_id seq : Z) : rel4u_header :=
  header_zero <| h_magic := REL4U_MAGIC |> <| h_version := REL4U_VERSION |>
    <| h_packet_type := type |> <| h_session_id := session_id |> <| h_seq_num := seq |>.

(** ** The worker thread *)

(** A CONNECT_REQ; [src_ptr] is the address of the worker's [src_addr] variable,
    [ok] whether the windows of a new session can be allocated. *)
Definition server_on_connect (s : rel4u_server) (w : world) (src_addr : rel4u_net_addr) (now_ns src_ptr : Z)
    (ok : bool * bool) : rel4u_server * world :=
  let '(s, session) :=
    match rel4u_session_find_by_addr (sv_session_table s) src_addr with
    | Some i => (s, Some i)
    | None =>
        let new_session_id := u32 (Z.lxor now_ns src_ptr) in
        let new_session_id := if new_session_id =? 0 then 1 else new_session_id in
        let '(session, _, table) := rel4u_session_allocate (sv_session_table s) src_addr new_session_id ok in
        (s <| sv_session_table := table |>, session)
    end in
  match session with
  | None => (s, server_send_header s w (control_header REL4U_PKT_REJECT 0 0) src_addr)
  | Some i =>
      let s := server_upd s i (fun x => x <| cs_last_activity_ns := now_ns |>
                                          <| cs_last_heartbeat_sent_ns := now_ns |>) in
      server_send_control s w i REL4U_PKT_CONNECT_RESP
  end.

(** What any packet of a session writes to it after [rel4u_session_touch_lru]. *)
Definition session_promote (bytes_read : Z) (session : rel4u_client_session) : rel4u_client_session :=
  let session := session <| cs_stats := stats_recv (cs_stats session) bytes_read |> in
  if bool_decide (cs_state session = REL4U_STATE_CONNECTING)
  then session <| cs_state := REL4U_STATE_CONNECTED |> else session.

(** The acknowledgement a packet carries. *)
Definition session_on_ack (hdr : rel4u_header) (now_ns : Z) (session : rel4u_client_session)
  : rel4u_client_session :=
  let '(send_win, rtt, stats) := rel4u_send_window_on_ack (cs_send_win session) (h_ack_num hdr) (h_sack_mask hdr)
        now_ns (Some (cs_rtt session)) (Some (cs_stats session)) in
  session <| cs_send_win := send_win |> <| cs_rtt := default (cs_rtt session) rtt |>
          <| cs_stats := default (cs_stats session) stats |>.

Definition server_on_data (s : rel4u_server) (i : nat) (hdr : rel4u_header) (payload : list Z) : rel4u_server :=
  let session := server_session s i in
  let '(win, queue, ready, ack) :=
    handle_data (cs_client_id session) (cs_recv_win session) (sv_recv_queue s) (sv_ready_slots s) hdr payload in
  let s := s <| sv_recv_queue := queue |> <| sv_ready_slots := ready |> in
  server_upd s i (fun x =>
    let x := x <| cs_recv_win := win |> in if ack then x <| cs_ack_pending := true |> else x).

(** A packet of the session with index [i]. *)
Definition server_on_session (s : rel4u_server) (w : world) (i : nat) (hdr : rel4u_header)
    (in_buf : list Z) (now_ns : Z) : rel4u_server * world :=
  let type := h_packet_type hdr in
  let s := s <| sv_session_table := rel4u_session_touch_lru (sv_session_table s) i now_ns |> in
  let s := server_upd s i (session_promote (Z.of_nat (length in_buf))) in
  if type =? REL4U_PKT_CONNECT_ACK then (s, w)
  else if type =? REL4U_PKT_DISCONNECT
  then (s <| sv_session_table := rel4u_session_free (sv_session_table s) i |>, w)
  else
    let s := server_upd s i (session_on_ack hdr now_ns) in
    let '(s, w) := if type =? REL4U_PKT_HEARTBEAT
                   then server_send_control s w i REL4U_PKT_HEARTBEAT_ACK else (s, w) in
    (if type =? REL4U_PKT_DATA then server_on_data s i hdr (drop 24 in_buf) else s, w).

(** A packet of no session or of another one. *)
Definition server_on_stranger (s : rel4u_server) (w : world) (hdr : rel4u_header) (src_addr : rel4u_net_addr)
  : world :=
  let type := h_packet_type hdr in
  if negb (type =? REL4U_PKT_RESET) && negb (type =? REL4U_PKT_DISCONNECT) && negb (type =? REL4U_PKT_REJECT)
  then server_send_header s w (control_header REL4U_PKT_RESET (h_session_id hdr) (h_seq_num hdr)) src_addr
  else w.

(** 2. One datagram. *)
Definition server_on_datagram (src_ptr : Z) (s : rel4u_server) (w : world) (in_buf : list Z)
    (src_addr : rel4u_net_addr) (ok : bool * bool) : rel4u_server * world :=
  let bytes_read := Z.of_nat (length in_buf) in
  let '(r, hdr) := rel4u_packet_decode_header pf_host in_buf bytes_read header_zero in
  if negb (r =? 0) then (s, w) else
  let '(now_ns, w) := time_now_ns w in
  let s := s <| sv_stats := stats_recv (sv_stats s) bytes_read |> in
  if h_packet_type hdr =? REL4U_PKT_CONNECT_REQ then server_on_connect s w src_addr now_ns src_ptr ok else
  match rel4u_session_find_by_addr (sv_session_table s) src_addr with
  | Some i =>
      if cs_session_id (server_session s i) =? h_session_id hdr
      then server_on_session s w i hdr in_buf now_ns
      else (s, server_on_stranger s w hdr src_addr)
  | None => (s, server_on_stranger s w hdr src_addr)
  end.

(** The receive loop; each datagram comes with the allocation results it meets. *)
Fixpoint server_recv_loop (src_ptr : Z) (s : rel4u_server) (w : world)
    (datagrams : list (list Z * rel4u_net_addr * (bool * bool))) : rel4u_server * world :=
  match datagrams with
  | [] => (s, w)
  | (in_buf, src_addr, ok) :: datagrams =>
      if (length in_buf =? 0)%nat then (s, w) else
      let '(s, w) := server_on_datagram src_ptr s w in_buf src_addr ok in
      server_recv_loop src_ptr s w datagrams
  end.

(** 3. The send queue goes to the sessions' windows.  A message for a session
    whose window is full waits in [pending_item] and stops the drain; one for a
    session that is not connected is dropped. *)
Fixpoint server_drain (fuel : nat) (s : rel4u_server) (w : world) : rel4u_server * world :=
  match fuel with
  | O => (s, w)
  | S fuel =>
      let '(have, s) :=
        if sv_has_pending_item s then (true, s)
        else
          let '(ok, queue, item) := rel4u_mpmc_try_pop (sv_send_queue s) (sv_pending_item s) in
          let s := s <| sv_send_queue := queue |> <| sv_pending_item := item |> in
          (ok, if ok then s <| sv_has_pending_item := true |> else s) in
      if negb have then (s, w) else
      let item := sv_pending_item s in
      match rel4u_session_find_by_id (sv_session_table s) (it_client_id item) with
      | Some i =>
          let session := server_session s i in
          if bool_decide (cs_state session = REL4U_STATE_CONNECTED) then
            if rel4u_send_window_can_send (cs_send_win session) then
              let '(now_ns, w) := time_now_ns w in
              let '(push_res, send_win, seq) :=
                rel4u_send_window_push (cs_send_win session) (it_mode item) (it_data item) (it_len item) now_ns in
              let s := server_upd s i (fun x => x <| cs_send_win := send_win |>) in
              let '(s, w) :=
                if push_res =? 0
                then server_send_packet s w i REL4U_PKT_DATA (it_mode item) (default 0 seq)
                       (Some (it_data item)) (it_len item)
                else (s, w) in
              server_drain fuel (s <| sv_has_pending_item := false |>) w
            else (s, w)
          else server_drain fuel (s <| sv_has_pending_item := false |>) w
      | None => server_drain fuel (s <| sv_has_pending_item := false |>) w
      end
  end.

(** A turn uses up the pending message or one of the queue. *)
Definition server_send_pending (s : rel4u_server) (w : world) : rel4u_server * world :=
  server_drain (S (S (Z.to_nat (q_count (sv_send_queue s))))) s w.

(** 4. Timers. *)

Definition server_resend (now_ns : Z) (i : nat) (sw : rel4u_server * world) (slot_idx : Z)
  : rel4u_server * world :=
  let '(s, w) := sw in
  let s := server_upd s i (fun x => x <| cs_send_win := send_slot_retransmit (cs_send_win x) slot_idx now_ns |>) in
  let slot := sw_slots (cs_send_win (server_session s i)) !. slot_idx in
  server_send_packet s w i REL4U_PKT_DATA (ss_delivery_mode slot) (ss_seq_num slot)
    (Some (ss_payload slot)) (ss_payload_len slot).

(** What an expired packet does to the estimator and the statistics. *)
Definition session_timeout (exp_count : Z) (x : rel4u_client_session) : rel4u_client_session :=
  let x := x <| cs_rtt := rel4u_rtt_on_timeout (cs_rtt x) |> in
  let stats := cs_stats x in
  x <| cs_stats := stats
         <| st_packets_retransmitted := u64 (st_packets_retransmitted stats + exp_count) |>
         <| st_packets_lost := u64 (st_packets_lost stats + exp_count) |> |>.

Definition server_retransmit (s : rel4u_server) (w : world) (i : nat) (now_ns : Z) : rel4u_server * world :=
  let session := server_session s i in
  let rto_ms := rel4u_rtt_get_rto (Some (cs_rtt session)) in
  let expired := rel4u_send_window_get_expired (cs_send_win session) now_ns rto_ms 16 in
  let exp_count := Z.of_nat (length expired) in
  if exp_count >? 0
  then foldl (server_resend now_ns i) (server_upd s i (session_timeout exp_count), w) expired
  else (s, w).

Definition server_heartbeat (s : rel4u_server) (w : world) (i : nat) (now_ns : Z) : rel4u_server * world :=
  if u64 (now_ns - cs_last_heartbeat_sent_ns (server_session s i))
       >=? u64 (sc_heartbeat_interval_ms (sv_config s) * 1000000) then
    let '(s, w) := server_send_control s w i REL4U_PKT_HEARTBEAT in
    (server_upd s i (fun x => x <| cs_last_heartbeat_sent_ns := now_ns |>), w)
  else (s, w).

(** The timers of the session with index [i]. *)
Definition server_timer (now_ns : Z) (sw : rel4u_server * world) (i : nat) : rel4u_server * world :=
  let '(s, w) := sw in
  let session := server_session s i in
  if negb (session_active session) then (s, w) else
  if u64 (now_ns - cs_last_activity_ns session) >=? u64 (sc_inactivity_timeout_ms (sv_config s) * 1000000)
  then (s <| sv_session_table := rel4u_session_free (sv_session_table s) i |>, w) else
  if negb (bool_decide (cs_state session = REL4U_STATE_CONNECTED)) then (s, w) else
  let '(s, w) := server_retransmit s w i now_ns in
  let '(s, w) := if cs_ack_pending (server_session s i)
                 then server_send_control s w i REL4U_PKT_ACK else (s, w) in
  server_heartbeat s w i now_ns.

Definition server_timers (s : rel4u_server) (w : world) : rel4u_server * world :=
  let '(now_ns, w) := time_now_ns w in
  foldl (server_timer now_ns) (s, w) (seq 0 (Z.to_nat (tb_max_clients (sv_session_table s)))).

(** The body of [while (running)]. *)
Definition server_iteration (src_ptr : Z) (s : rel4u_server) (w : world) (poll : poll_fun)
    (datagrams : list (list Z * rel4u_net_addr * (bool * bool))) : rel4u_server * world :=
  let '(_, w) := time_now_ns w in
  let '(_, sock_read, pipe_read) := rel4u_net_poll poll (sv_sock s) (wp_read_fd (sv_wakeup_pipe s)) in
  let w := if pipe_read then rel4u_wakeup_pipe_drain (sv_wakeup_pipe s) w else w in
  let '(s, w) := if sock_read then server_recv_loop src_ptr s w datagrams else (s, w) in
  let '(s, w) := server_send_pending s w in
  server_timers s w.

(** The worker thread over what the system calls give in each turn. *)
Fixpoint server_worker_loop (src_ptr : Z) (s : rel4u_server) (w : world)
    (turns : list (poll_fun * list (list Z * rel4u_net_addr * (bool * bool)))) : rel4u_server * world :=
  match turns with
  | [] => (s, w)
  | (poll, datagrams) :: turns =>
      if sv_running s then
        let '(s, w) := server_iteration src_ptr s w poll datagrams in
        server_worker_loop src_ptr s w turns
      else (s, w)
  end.

(** ** The public calls *)

Definition rel4u_server_start (s : rel4u_server) (env : system) : Z * rel4u_server :=
  if sv_running s then (REL4U_OK, s) else
  let bind_ip := default any_address (sc_bind_address (sv_config s)) in
  let '(r, addr) := rel4u_net_addr_from_string (sy_getaddrinfo env) (Some bind_ip) (sc_bind_port (sv_config s)) in
  let s := s <| sv_bind_addr := addr |> in
  if negb (r =? 0) then (REL4U_ERR_INVALID_PARAM, s) else
  let sock := sy_socket env (addr_is_ipv6 addr) in
  let s := s <| sv_sock := sock |> in
  if sock =? REL4U_INVALID_SOCKET then (REL4U_ERR_SOCKET, s) else
  if negb (sy_bind env sock addr =? 0) then (REL4U_ERR_SOCKET, s <| sv_sock := REL4U_INVALID_SOCKET |>) else
  let '(r, pipe) := rel4u_wakeup_pipe_create (sv_wakeup_pipe s) (sy_pipe env) in
  let s := s <| sv_wakeup_pipe := pipe |> in
  if negb (r =? 0) then (REL4U_ERR_SYSTEM, s <| sv_sock := REL4U_INVALID_SOCKET |>) else
  let s := s <| sv_running := true |> in
  if negb (sy_thread_ok env) then
    (REL4U_ERR_SYSTEM,
     s <| sv_running := false |> <| sv_wakeup_pipe := fst (rel4u_wakeup_pipe_close pipe) |>
       <| sv_sock := REL4U_INVALID_SOCKET |>)
  else (REL4U_OK, s).

(** [while (rel4u_mpmc_try_pop(q, &item)) {}]. *)
Fixpoint pop_all (fuel : nat) (q : rel4u_mpmc_queue) (item : rel4u_mpmc_item) : rel4u_mpmc_queue :=
  match fuel with
  | O => q
  | S fuel =>
      let '(ok, q, item) := rel4u_mpmc_try_pop q item in if ok then pop_all fuel q item else q
  end.

(** [rel4u_server_stop] after the join: every session is freed, both queues are
    emptied and the pending message is forgotten. *)
Definition server_stop_end (s : rel4u_server) : rel4u_server :=
  let s := s <| sv_wakeup_pipe := fst (rel4u_wakeup_pipe_close (sv_wakeup_pipe s)) |>
             <| sv_sock := REL4U_INVALID_SOCKET |> in
  let table := foldl rel4u_session_free (sv_session_table s)
                 (seq 0 (Z.to_nat (tb_max_clients (sv_session_table s)))) in
  let s := s <| sv_session_table := table |> in
  let s := s <| sv_send_queue := pop_all (S (Z.to_nat (q_count (sv_send_queue s)))) (sv_send_queue s) item_zero |> in
  let s := s <| sv_recv_queue := pop_all (S (Z.to_nat (q_count (sv_recv_queue s)))) (sv_recv_queue s) item_zero |> in
  s <| sv_has_pending_item := false |>.

(** [finish] is what the worker still does until the join. *)
Definition rel4u_server_stop (finish : rel4u_server * world -> rel4u_server * world)
    (s : rel4u_server) (w : world) : Z * rel4u_server * world :=
  if negb (sv_running s) then (REL4U_OK, s, w) else
  let s := s <| sv_running := false |> in
  let w := rel4u_wakeup_pipe_signal (sv_wakeup_pipe s) w in
  let s := s <| sv_recv_queue := fst (rel4u_mpmc_wake_all (sv_recv_queue s)) |> in
  let '(s, w) := finish (s, w) in
  (REL4U_OK, server_stop_end s, w).

Definition rel4u_server_destroy (finish : rel4u_server * world -> rel4u_server * world)
    (s : rel4u_server) (w : world) : rel4u_server * world :=
  let '(_, s, w) := rel4u_server_stop finish s w in
  let s := s <| sv_send_queue := rel4u_mpmc_destroy (sv_send_queue s) |> in
  let s := s <| sv_recv_queue := rel4u_mpmc_destroy (sv_recv_queue s) |> in
  (s <| sv_session_table := rel4u_session_table_destroy (sv_session_table s) |>, w).

(** [None]: the message is copied past the end of [item.data]. *)
Definition rel4u_server_send (s : rel4u_server) (w : world) (client_id mode : Z) (data : list Z) (len : Z)
  : option (Z * rel4u_server * world) :=
  if len >? REL4U_MAX_PAYLOAD (sc_mtu (sv_config s)) then Some (REL4U_ERR_MSG_TOO_LARGE, s, w) else
  if negb (sv_running s) then Some (REL4U_ERR_NOT_CONNECTED, s, w) else
  match memcpy_into REL4U_MAX_MSG_SIZE data len with
  | None => None
  | Some bytes =>
      let item := mk_item client_id (u8 mode) (u16 len) bytes in
      let '(ok, queue) := rel4u_mpmc_try_push (sv_send_queue s) item in
      let s := s <| sv_send_queue := queue |> in
      if negb ok then
        Some (REL4U_ERR_QUEUE_FULL,
          s <| sv_stats := (sv_stats s) <| st_packets_dropped_queue_full :=
            u64 (rel4u_mpmc_dropped_count (sv_send_queue s) + rel4u_mpmc_dropped_count (sv_recv_queue s)) |> |>, w)
      else Some (REL4U_OK, s, rel4u_wakeup_pipe_signal (sv_wakeup_pipe s) w)
  end.

(** The result code, [*out_client_id], the bytes copied and the server. *)
Definition rel4u_server_recv (s : rel4u_server) (buffer_size timeout_ms : Z)
    (wakes : list (bool * rel4u_mpmc_queue)) : option (Z * option Z * list Z * rel4u_server) :=
  if buffer_size =? 0 then Some (REL4U_ERR_INVALID_PARAM, None, [], s) else
  match rel4u_mpmc_pop_wait (sv_recv_queue s) item_zero timeout_ms wakes with
  | Blocked _ => None
  | Returned false queue _ =>
      Some (if timeout_ms =? 0 then REL4U_ERR_QUEUE_EMPTY else REL4U_ERR_TIMEOUT, None, [],
            s <| sv_recv_queue := queue |>)
  | Returned true queue item =>
      let copy_len := if it_len item <=? buffer_size then it_len item else buffer_size in
      Some (REL4U_OK, Some (it_client_id item), take (Z.to_nat copy_len) (it_data item),
            s <| sv_recv_queue := queue |>)
  end.

Definition rel4u_server_disconnect_client (s : rel4u_server) (w : world) (client_id : Z)
  : Z * rel4u_server * world :=
  match rel4u_session_find_by_id (sv_session_table s) client_id with
  | None => (REL4U_ERR_CLIENT_NOT_FOUND, s, w)
  | Some i =>
      let session := server_session s i in
      let w := server_send_header s w (control_header REL4U_PKT_DISCONNECT (cs_session_id session) 0) (cs_addr session) in
      (REL4U_OK, s <| sv_session_table := rel4u_session_free (sv_session_table s) i |>, w)
  end.

Definition rel4u_server_get_stats (s : rel4u_server) : rel4u_stats :=
  (sv_stats s)
    <| st_packets_dropped_queue_full :=
         u64 (rel4u_mpmc_dropped_count (sv_send_queue s) + rel4u_mpmc_dropped_count (sv_recv_queue s)) |>
    <| st_active_connections := tb_active_count (sv_session_table s) |>
    <| st_send_queue_occupancy := u32 (rel4u_mpmc_size (sv_send_queue s)) |>
    <| st_recv_queue_occupancy := u32 (rel4u_mpmc_size (sv_recv_queue s)) |>
    <| st_send_queue_bytes := rel4u_mpmc_bytes (sv_send_queue s) |>
    <| st_recv_queue_bytes := rel4u_mpmc_bytes (sv_recv_queue s) |>.

Definition rel4u_server_get_client_stats (s : rel4u_server) (client_id : Z) : Z * option rel4u_stats :=
  match rel4u_session_find_by_id (sv_session_table s) client_id with
  | None => (REL4U_ERR_CLIENT_NOT_FOUND, None)
  | Some i =>
      let session := server_session s i in
      (REL4U_OK, Some ((cs_stats session) <| st_current_rto_ms := rel4u_rtt_get_rto (Some (cs_rtt session)) |>))
  end.
End server.
