(* ===== verification/ServerSpec.v ===== *)
(** * Server: what every call keeps

    The invariant of a server and its preservation by the handling of any
    datagram, the drain of the send queue, the timers and the public calls. *)
From S2P Require Import Prelude Ring Types Seq Packet Rtt Mpmc MpmcSpec Queue SendWindow SendSpec Send RecvWindow RecvSpec RecvSafe Net Session Sessions Link Endpoint Peer Server.
From stdpp Require Import base numbers list gmap.
Open Scope Z_scope.
Open Scope rel4u_scope.

Record server_ok (s : rel4u_server) : Prop := {
  sk_send_queue : queue_ok (sv_send_queue s);
  sk_recv_queue : queue_ok (sv_recv_queue s);
  sk_table : table_inv (sv_session_table s);
  sk_ready : ready_ok 64 64 (sv_ready_slots s) 0;
  sk_pending : sv_has_pending_item s = true -> item_sized (sv_pending_item s)
}.

(** ** Field updates *)

Lemma sset_send_queue_ok s q : server_ok s -> queue_ok q -> server_ok (s <| sv_send_queue := q |>).
Proof. intros [] ?. by constructor. Qed.
Lemma sset_recv_queue_ok s q : server_ok s -> queue_ok q -> server_ok (s <| sv_recv_queue := q |>).
Proof. intros [] ?. by constructor. Qed.
Lemma sset_table_ok s t : server_ok s -> table_inv t -> server_ok (s <| sv_session_table := t |>).
Proof. intros [] ?. by constructor. Qed.
Lemma sset_ready_ok s l : server_ok s -> ready_ok 64 64 l 0 -> server_ok (s <| sv_ready_slots := l |>).
Proof. intros [] ?. by constructor. Qed.
Lemma sset_stats_ok s v : server_ok s -> server_ok (s <| sv_stats := v |>).
Proof. intros []. by constructor. Qed.
Lemma sset_sock_ok s v : server_ok s -> server_ok (s <| sv_sock := v |>).
Proof. intros []. by constructor. Qed.
Lemma sset_bind_addr_ok s v : server_ok s -> server_ok (s <| sv_bind_addr := v |>).
Proof. intros []. by constructor. Qed.
Lemma sset_pipe_ok s v : server_ok s -> server_ok (s <| sv_wakeup_pipe := v |>).
Proof. intros []. by constructor. Qed.
Lemma sset_running_ok s v : server_ok s -> server_ok (s <| sv_running := v |>).
Proof. intros []. by constructor. Qed.
Lemma sset_no_pending_ok s : server_ok s -> server_ok (s <| sv_has_pending_item := false |>).
Proof. intros []. by constructor. Qed.

Create HintDb server discriminated.
#[export] Hint Resolve sset_send_queue_ok sset_recv_queue_ok sset_table_ok sset_ready_ok sset_stats_ok
  sset_sock_ok sset_bind_addr_ok sset_pipe_ok sset_running_ok sset_no_pending_ok : server.
Ltac server_tac := cbn [fst snd]; eauto 20 with server.

(** ** Sessions *)

(** A slot of the table. *)
Definition slots (s : rel4u_server) : nat := length (tb_sessions (sv_session_table s)).
Definition valid (s : rel4u_server) (i : nat) : Prop := (i < slots s)%nat.

(** A change of a session that keeps it well formed, active or not, and its peer's. *)
Definition session_step (i : nat) (f : rel4u_client_session -> rel4u_client_session) : Prop :=
  forall x, session_ok i x -> session_ok i (f x) /\ session_active (f x) = session_active x /\ cs_addr (f x) = cs_addr x.

Lemma server_upd_ok s i f : server_ok s -> session_step i f -> server_ok (server_upd s i f).
Proof.
  intros K Hf. apply sset_table_ok; [done|]. apply session_upd_inv; [apply K|]. intros x _. apply Hf.
Qed.

Lemma server_upd_slots s i f : slots (server_upd s i f) = slots s.
Proof. unfold slots, server_upd, session_upd. cbn. by rewrite length_insert. Qed.
Lemma server_upd_valid s i f j : valid (server_upd s i f) j <-> valid s j.
Proof. unfold valid. by rewrite server_upd_slots. Qed.
Lemma session_free_slots s i : slots (s <| sv_session_table := rel4u_session_free (sv_session_table s) i |>) = slots s.
Proof.
  unfold slots, rel4u_session_free, session_upd. cbn. destruct (negb _); [done|].
  destruct (_ >? _); cbn; by rewrite length_insert.
Qed.

Lemma server_upd_same s i f : valid s i -> server_session (server_upd s i f) i = f (server_session s i).
Proof. intros Hv. unfold server_session, server_upd, session_upd. cbn. by rewrite list_lookup_total_insert_eq. Qed.

Lemma server_upd_other s i f j : j <> i -> server_session (server_upd s i f) j = server_session s j.
Proof. intros Hj. unfold server_session, server_upd, session_upd. cbn. by rewrite list_lookup_total_insert_ne. Qed.

Lemma session_ok_at s i : server_ok s -> valid s i -> session_ok i (server_session s i).
Proof.
  intros K Hv. unfold server_session. apply (ti_sessions _ (sk_table _ K)). by apply list_lookup_lookup_total_lt.
Qed.

Lemma find_valid s addr i : server_ok s -> rel4u_session_find_by_addr (sv_session_table s) addr = Some i ->
  valid s i /\ session_active (server_session s i) = true /\ addr_eq (cs_addr (server_session s i)) addr.
Proof.
  intros K Hf. apply (find_by_addr_spec _ _ _ (sk_table _ K)) in Hf as (x & Hx & Ha & He).
  split; [by eapply lookup_lt_Some|]. unfold server_session. by rewrite (list_lookup_total_correct _ _ _ Hx).
Qed.

Lemma find_id_valid s id i : server_ok s -> rel4u_session_find_by_id (sv_session_table s) id = Some i ->
  valid s i /\ i = Z.to_nat id /\ session_active (server_session s i) = true.
Proof.
  intros K. unfold rel4u_session_find_by_id. destruct (_ =? _)%nat; [done|]. cbn [orb].
  destruct (Z.geb_spec id (tb_max_clients (sv_session_table s))) as [|Hlt]; [done|].
  unfold arr_get. destruct (session_active _) eqn:Ha; [|done]. intros [= <-].
  pose proof (ti_length _ (sk_table _ K)). pose proof (ti_max _ (sk_table _ K)). split; [unfold valid, slots; lia|]. by split.
Qed.

(** The steps the server takes on a session. *)
Lemma sent_step i sent now : session_step i (session_sent sent now).
Proof. intros x []. split; [by constructor|done]. Qed.

Lemma promote_step i n : session_step i (session_promote n).
Proof.
  intros x []. unfold session_promote. case_bool_decide as Es.
  - split; [by constructor|]. split; [|done]. unfold session_active. cbn in Es |- *. by rewrite Es.
  - split; [by constructor|done].
Qed.

Lemma activity_step i now : 0 <= now < UINT64_MAX ->
  session_step i (fun x => x <| cs_last_activity_ns := now |> <| cs_last_heartbeat_sent_ns := now |>).
Proof. intros Hn x []. split; [by constructor|done]. Qed.

Lemma send_win_step i w : send_ok w -> session_step i (fun x => x <| cs_send_win := w |>).
Proof. intros Hw x []. split; [by constructor|done]. Qed.

Lemma recv_win_step i w (ack : bool) : recv_safe w -> session_step i (fun x =>
  let x := x <| cs_recv_win := w |> in if ack then x <| cs_ack_pending := true |> else x).
Proof. intros Hw x []. destruct ack; (split; [by constructor|done]). Qed.

Lemma on_ack_step i hdr now : header_wf hdr -> session_step i (session_on_ack hdr now).
Proof.
  intros W x []. unfold session_on_ack.
  pose proof (on_ack_ok (cs_send_win x) (h_ack_num hdr) (h_sack_mask hdr) now (cs_rtt x) (cs_stats x)
    se_send se_rtt (wf_ack_num _ W)) as P.
  destruct (rel4u_send_window_on_ack _ _ _ _ _ _) as [[sw rtt] st]. destruct P as (Hs & r & s & -> & -> & Hr).
  split; [by constructor|done].
Qed.

Lemma timeout_step i n : session_step i (session_timeout n).
Proof. intros x []. split; [|done]. constructor; try done. by apply rtt_timeout_ok. Qed.

Lemma heartbeat_step i now : session_step i (fun x => x <| cs_last_heartbeat_sent_ns := now |>).
Proof. intros x []. split; [by constructor|done]. Qed.

Section server_spec.
Context {platform : Platform} {allocator : Malloc}.

Lemma clock_time n : 0 <= pf_clock n < UINT64_MAX.
Proof. apply pf_clock_range. Qed.

(** ** Sending *)

(** What sending a packet to session [i] changes: statistics, and the time and
    flag of the acknowledgement of that session. *)
Definition sent_from (s : rel4u_server) (i : nat) (s' : rel4u_server) : Prop :=
  s' = s \/ exists st sent now, s' = server_upd (s <| sv_stats := st |>) i (session_sent sent now).

Lemma server_send_update s w i type mode seq payload len :
  sent_from s i (fst (server_send_packet s w i type mode seq payload len)).
Proof.
  unfold server_send_packet. destruct (rel4u_recv_window_get_ack_info _) as [a k].
  destruct (encode_packet _ _ _); [|by left]. destruct (rel4u_net_sendto _ _ _ _) as [sent w'].
  destruct (_ >? _); [|by left]. right. by eexists _, _, _.
Qed.

Lemma sent_from_ok s i s' : sent_from s i s' -> server_ok s -> server_ok s'.
Proof.
  intros [->|(st & sent & now & ->)] K; [done|]. apply server_upd_ok; [by apply sset_stats_ok|apply sent_step].
Qed.

Lemma sent_from_slots s i s' : sent_from s i s' -> slots s' = slots s.
Proof. intros [->|(st & sent & now & ->)]; [done|]. by rewrite server_upd_slots. Qed.
Lemma sent_from_valid s i s' j : sent_from s i s' -> valid s' j <-> valid s j.
Proof. intros H. unfold valid. by rewrite (sent_from_slots _ _ _ H). Qed.

(** The windows are as before. *)
Lemma sent_from_session s i s' j : sent_from s i s' -> valid s i ->
  cs_send_win (server_session s' j) = cs_send_win (server_session s j) /\
  cs_recv_win (server_session s' j) = cs_recv_win (server_session s j) /\
  cs_state (server_session s' j) = cs_state (server_session s j) /\
  cs_rtt (server_session s' j) = cs_rtt (server_session s j) /\
  cs_session_id (server_session s' j) = cs_session_id (server_session s j) /\
  cs_addr (server_session s' j) = cs_addr (server_session s j).
Proof.
  intros [->|(st & sent & now & ->)] Hv; [done|]. destruct (decide (j = i)) as [->|Hne].
  - by rewrite server_upd_same.
  - by rewrite server_upd_other.
Qed.

Lemma server_send_ok s w i type mode seq payload len : server_ok s ->
  server_ok (fst (server_send_packet s w i type mode seq payload len)).
Proof. eapply sent_from_ok, server_send_update. Qed.

Lemma server_control_ok s w i type : server_ok s -> server_ok (fst (server_send_control s w i type)).
Proof. unfold server_send_control. apply server_send_ok. Qed.

Lemma maybe_send_ok (b : bool) s w i type : server_ok s ->
  server_ok (fst (if b then server_send_control s w i type else (s, w))).
Proof. intros K. destruct b; [by apply server_control_ok|exact K]. Qed.

Lemma maybe_send_slots (b : bool) s w i type :
  slots (fst (if b then server_send_control s w i type else (s, w))) = slots s.
Proof. unfold server_send_control. destruct b; [eapply sent_from_slots, server_send_update|done]. Qed.

(** ** Datagrams *)

Lemma server_on_connect_ok s w src now ptr : server_ok s -> 0 <= now < UINT64_MAX ->
  server_ok (fst (server_on_connect s w src now ptr (true, true))).
Proof.
  intros K Hn. unfold server_on_connect.
  destruct (rel4u_session_find_by_addr _ _) as [i|] eqn:Hf.
  { apply server_control_ok, server_upd_ok; [done|by apply activity_step]. }
  set (sid := if u32 _ =? 0 then _ else _).
  assert (Hsid : is_u32 sid) by (unfold sid; destruct (_ =? _); [word_unfold; lia|apply u32_range]).
  pose proof (allocate_spec (sv_session_table s) src sid (sk_table _ K) Hsid Hf) as A.
  destruct (rel4u_session_allocate _ _ _ _) as [[[i|] ev] t].
  - destruct A as (x & _ & _ & T & _). apply server_control_ok, server_upd_ok; [by apply sset_table_ok|by apply activity_step].
  - destruct A as (-> & _). cbn [fst]. apply sset_table_ok; [done|apply K].
Qed.

Lemma server_on_data_ok s i hdr payload : server_ok s -> valid s i -> header_bound hdr payload ->
  server_ok (server_on_data s i hdr payload).
Proof.
  intros K Hv B. unfold server_on_data. pose proof (session_ok_at s i K Hv) as S.
  pose proof (handle_data_ok (cs_client_id (server_session s i)) (cs_recv_win (server_session s i)) (sv_recv_queue s)
    (sv_ready_slots s) 0 hdr payload (se_recv _ _ S) (sk_recv_queue _ K) (sk_ready _ K) B) as D.
  destruct (handle_data _ _ _ _ _ _) as [[[win queue] ready] ack]. destruct D as [D1 _ D3 _ D5].
  apply server_upd_ok; [server_tac|]. by apply recv_win_step.
Qed.

Lemma server_free_ok s i : server_ok s -> server_ok (s <| sv_session_table := rel4u_session_free (sv_session_table s) i |>).
Proof. intros K. apply sset_table_ok; [done|]. apply session_free_inv, K. Qed.

Lemma server_on_session_ok s w i hdr buf now : server_ok s -> valid s i -> header_wf hdr ->
  header_bound hdr (drop 24 buf) -> 0 <= now < UINT64_MAX ->
  server_ok (fst (server_on_session s w i hdr buf now)).
Proof.
  intros K Hv W B Hn. unfold server_on_session. cbv zeta.
  set (s0 := s <| sv_session_table := _ |>).
  assert (K0 : server_ok s0) by (apply sset_table_ok; [done|]; apply touch_inv; [apply K|done]).
  assert (Hv0 : valid s0 i) by (by apply (server_upd_valid s i)). clearbody s0.
  set (s1 := server_upd s0 i (session_promote _)).
  assert (K1 : server_ok s1) by (apply server_upd_ok; [done|apply promote_step]).
  assert (Hv1 : valid s1 i) by (by apply server_upd_valid). clearbody s1.
  destruct (_ =? REL4U_PKT_CONNECT_ACK); [done|].
  destruct (_ =? REL4U_PKT_DISCONNECT); [by apply server_free_ok|].
  set (s2 := server_upd s1 i (session_on_ack _ _)).
  assert (K2 : server_ok s2) by (apply server_upd_ok; [done|by apply on_ack_step]).
  assert (Hv2 : valid s2 i) by (by apply server_upd_valid). clearbody s2.
  pose proof (maybe_send_ok (h_packet_type hdr =? REL4U_PKT_HEARTBEAT) s2 w i REL4U_PKT_HEARTBEAT_ACK K2) as K3.
  assert (Hv3 : valid (fst (if h_packet_type hdr =? REL4U_PKT_HEARTBEAT then server_send_control s2 w i REL4U_PKT_HEARTBEAT_ACK
    else (s2, w))) i).
  { destruct (h_packet_type hdr =? REL4U_PKT_HEARTBEAT); [|done].
    apply (sent_from_valid _ _ _ _ (server_send_update s2 w i _ _ _ _ _)), Hv2. }
  destruct (if h_packet_type hdr =? REL4U_PKT_HEARTBEAT then _ else _) as [s3 w3]. cbn [fst] in *.
  destruct (_ =? REL4U_PKT_DATA); [by apply server_on_data_ok|done].
Qed.

Lemma server_on_datagram_ok ptr s w buf src : server_ok s -> datagram_ok buf ->
  server_ok (fst (server_on_datagram ptr s w buf src (true, true))).
Proof.
  intros K Hb. unfold server_on_datagram. destruct (rel4u_packet_decode_header _ _ _ _) as [r hdr] eqn:E.
  destruct (Z.eqb_spec r 0) as [->|]; [|done]. cbn [negb]. destruct (decode_ok _ _ _ _ Hb E) as [W B].
  unfold time_now_ns. cbv beta iota. set (now := pf_clock _). assert (Hn : 0 <= now < UINT64_MAX) by apply clock_time.
  set (s1 := s <| sv_stats := _ |>). assert (K1 : server_ok s1) by server_tac.
  assert (Et : sv_session_table s1 = sv_session_table s) by reflexivity. clearbody s1.
  destruct (_ =? REL4U_PKT_CONNECT_REQ); [by apply server_on_connect_ok|].
  destruct (rel4u_session_find_by_addr _ _) as [i|] eqn:Hf; [|done].
  destruct (find_valid _ _ _ K1 Hf) as (Hv & _).
  destruct (_ =? h_session_id hdr); [by apply server_on_session_ok|done].
Qed.

Lemma server_recv_loop_ok ptr ds :
  Forall (fun d => datagram_ok (fst (fst d)) /\ snd d = (true, true)) ds ->
  forall s w, server_ok s -> server_ok (fst (server_recv_loop ptr s w ds)).
Proof.
  induction 1 as [|[[buf src] ok] ds [Hd Ho] _ IH]; intros s w K; cbn [server_recv_loop]; [done|].
  cbn in Ho. subst ok. destruct (_ =? _)%nat; [done|].
  pose proof (server_on_datagram_ok ptr s w buf src K Hd) as K1.
  destruct (server_on_datagram _ _ _ _ _ _) as [s1 w1]. by apply IH.
Qed.

(** ** The send queue *)

Lemma take_pending_ok s : server_ok s -> sv_has_pending_item s = false ->
  let '(ok, queue, item) := rel4u_mpmc_try_pop (sv_send_queue s) (sv_pending_item s) in
  let s1 := s <| sv_send_queue := queue |> <| sv_pending_item := item |> in
  server_ok (if ok then s1 <| sv_has_pending_item := true |> else s1).
Proof.
  intros K Hp. pose proof (try_pop_ok (sv_send_queue s) (sv_pending_item s) (sk_send_queue _ K)) as P.
  destruct (rel4u_mpmc_try_pop _ _) as [[ok q] it]. destruct P as (Hq & _ & Hit & _). cbv zeta.
  destruct K. destruct ok; constructor; cbn; try done.
  - intros _. by apply Hit.
  - by rewrite Hp.
Qed.

Lemma server_drain_ok fuel : forall s w, server_ok s -> server_ok (fst (server_drain fuel s w)).
Proof.
  induction fuel as [|fuel IH]; intros s w K; cbn [server_drain]; [done|].
  destruct (if sv_has_pending_item s then _ else _) as [have s1] eqn:E1.
  assert (K1 : server_ok s1 /\ (have = true -> sv_has_pending_item s1 = true)).
  { destruct (sv_has_pending_item s) eqn:Hp; [injection E1 as <- <-; done|].
    pose proof (take_pending_ok s K Hp) as P. destruct (rel4u_mpmc_try_pop _ _) as [[ok q] it].
    injection E1 as <- <-. split; [exact P|]. by intros ->. }
  clear E1. destruct K1 as [K1 Hhave]. destruct have; cbn [negb]; [|done].
  pose proof (sk_pending _ K1 (Hhave eq_refl)) as [[Hl _] Hmax].
  assert (Knext : server_ok (fst (server_drain fuel (s1 <| sv_has_pending_item := false |>) w)))
    by (by apply IH, sset_no_pending_ok).
  destruct (rel4u_session_find_by_id _ _) as [i|] eqn:Hf; [|done].
  destruct (find_id_valid _ _ _ K1 Hf) as (Hv & _ & _). pose proof (session_ok_at _ _ K1 Hv) as So.
  case_bool_decide; [|done]. destruct (rel4u_send_window_can_send _); [|done].
  unfold time_now_ns. cbv beta iota. set (now := pf_clock _). set (w1 := mk_world _ _ _ _).
  pose proof (send_push_ok (cs_send_win (server_session s1 i)) (it_mode (sv_pending_item s1)) (it_data (sv_pending_item s1))
    (it_len (sv_pending_item s1)) now (se_send _ _ So) ltac:(pose proof (clock_time (wd_ticks w)); word_unfold; unfold UINT64_MAX in *; lia) Hl Hmax) as P.
  destruct (rel4u_send_window_push _ _ _ _ _) as [[r sw] sq]. destruct P as [Hs _].
  set (s2 := server_upd s1 i _). assert (K2 : server_ok s2) by (apply server_upd_ok; [done|by apply send_win_step]).
  pose proof (server_send_ok s2 w1 i REL4U_PKT_DATA (it_mode (sv_pending_item s1)) (default 0 sq)
    (Some (it_data (sv_pending_item s1))) (it_len (sv_pending_item s1)) K2) as K3.
  destruct (r =? 0); [|by apply IH, sset_no_pending_ok].
  destruct (server_send_packet _ _ _ _ _ _ _ _) as [s3 w3]. by apply IH, sset_no_pending_ok.
Qed.

(** ** Timers *)

Lemma server_resend_ok now i h : is_u64 now -> forall ks s w es, server_ok s -> valid s i ->
  send_rep (cs_send_win (server_session s i)) h es -> Forall (fun k => 0 <= k < Z.of_nat (length es)) ks ->
  let s' := fst (foldl (server_resend now i) (s, w)
    ((fun k => (h + k) mod sw_capacity (cs_send_win (server_session s i))) <$> ks)) in
  server_ok s' /\ slots s' = slots s.
Proof.
  intros Hn. induction ks as [|k ks IH]; intros s w es K Hv R Hks; [done|].
  apply Forall_cons in Hks as [Hk Hks]. destruct (retransmit_slot_ok _ _ _ k now R Hk Hn) as (es' & R' & Hl).
  cbn [fmap list_fmap foldl]. unfold server_resend at 2 4.
  set (cap := sw_capacity (cs_send_win (server_session s i))) in *.
  set (f := fun x => x <| cs_send_win := _ |>).
  assert (Kw : send_ok (send_slot_retransmit (cs_send_win (server_session s i)) ((h + k) mod cap) now)).
  { split; [apply (se_send _ _ (session_ok_at _ _ K Hv))|by exists h, es']. }
  assert (K1 : server_ok (server_upd s i f)).
  { apply sset_table_ok; [done|]. apply session_upd_inv; [apply K|]. intros x Hx [].
    assert (x = server_session s i) as -> by (unfold server_session; by rewrite (list_lookup_total_correct _ _ _ Hx)).
    split; [by constructor|done]. }
  assert (Hv1 : valid (server_upd s i f) i) by (by apply server_upd_valid).
  pose proof (server_upd_same s i f Hv) as E1. pose proof (server_upd_slots s i f) as Es1. set (s1 := server_upd s i f) in *. clearbody s1.
  cbv zeta. set (slot := sw_slots _ !. _).
  pose proof (server_send_update s1 w i REL4U_PKT_DATA (ss_delivery_mode slot) (ss_seq_num slot)
    (Some (ss_payload slot)) (ss_payload_len slot)) as U.
  destruct (server_send_packet _ _ _ _ _ _ _ _) as [s2 w2]. cbn [fst] in U.
  destruct (sent_from_session _ _ _ i U Hv1) as (Ew & _).
  assert (Ec : cs_send_win (server_session s2 i) = send_slot_retransmit (cs_send_win (server_session s i)) ((h + k) mod cap) now)
    by (by rewrite Ew, E1).
  assert (Ecap : sw_capacity (cs_send_win (server_session s2 i)) = cap) by (by rewrite Ec).
  assert (Hv2 : valid s2 i) by (by apply (sent_from_valid _ _ _ _ U)).
  destruct (IH s2 w2 es' (sent_from_ok _ _ _ U K1) Hv2 ltac:(by rewrite Ec) ltac:(by rewrite Hl)) as [K3 Es].
  rewrite Ecap in K3, Es. split; [done|]. by rewrite Es, (sent_from_slots _ _ _ U), Es1.
Qed.

Lemma server_retransmit_ok s w i now : server_ok s -> valid s i -> is_u64 now ->
  server_ok (fst (server_retransmit s w i now)) /\ slots (fst (server_retransmit s w i now)) = slots s.
Proof.
  intros K Hv Hn. unfold server_retransmit. pose proof (session_ok_at _ _ K Hv) as So.
  destruct (se_send _ _ So) as (_ & h & es & R). pose proof (se_rtt _ _ So) as Hr.
  destruct (expired_slots _ h es now (rel4u_rtt_get_rto (Some (cs_rtt (server_session s i)))) 16 R Hn
    ltac:(destruct Hr; unfold rel4u_rtt_get_rto; word_unfold; lia)) as (ks & E & Hks).
  change (Z.of_nat 16) with 16 in E. rewrite E. cbv zeta. destruct (_ >? _); [|done].
  set (s1 := server_upd s i (session_timeout _)).
  assert (K1 : server_ok s1) by (apply server_upd_ok; [done|apply timeout_step]).
  assert (Hv1 : valid s1 i) by (by apply server_upd_valid).
  assert (E1 : cs_send_win (server_session s1 i) = cs_send_win (server_session s i)) by (unfold s1; by rewrite server_upd_same).
  assert (Es : slots s1 = slots s) by apply server_upd_slots.
  clearbody s1. rewrite <- E1, <- Es. apply (server_resend_ok now i h Hn ks s1 w es); [done|done|by rewrite E1|done].
Qed.

Lemma server_heartbeat_ok s w i now : server_ok s ->
  server_ok (fst (server_heartbeat s w i now)) /\ slots (fst (server_heartbeat s w i now)) = slots s.
Proof.
  intros K. unfold server_heartbeat. destruct (_ >=? _); [|done].
  pose proof (maybe_send_ok true s w i REL4U_PKT_HEARTBEAT K) as K1. pose proof (maybe_send_slots true s w i REL4U_PKT_HEARTBEAT) as E1.
  cbv iota in K1, E1. destruct (server_send_control _ _ _ _) as [s1 w1]. cbn [fst] in *.
  rewrite server_upd_slots. split; [|done]. apply server_upd_ok; [done|apply heartbeat_step].
Qed.

Lemma server_timer_ok now s w i : server_ok s -> valid s i -> 0 <= now < UINT64_MAX ->
  server_ok (fst (server_timer now (s, w) i)) /\ slots (fst (server_timer now (s, w) i)) = slots s.
Proof.
  intros K Hv Hn. unfold server_timer. destruct (negb (session_active _)); [done|].
  destruct (_ >=? _); [split; [by apply server_free_ok|apply session_free_slots]|]. destruct (negb _); [done|].
  assert (Hu : is_u64 now) by (word_unfold; unfold UINT64_MAX in Hn; lia).
  destruct (server_retransmit_ok s w i now K Hv Hu) as [K1 E1]. destruct (server_retransmit s w i now) as [s1 w1].
  cbn [fst] in *. pose proof (maybe_send_ok (cs_ack_pending (server_session s1 i)) s1 w1 i REL4U_PKT_ACK K1) as K2.
  pose proof (maybe_send_slots (cs_ack_pending (server_session s1 i)) s1 w1 i REL4U_PKT_ACK) as E2.
  destruct (if cs_ack_pending _ then _ else _) as [s2 w2]. cbn [fst] in *.
  destruct (server_heartbeat_ok s2 w2 i now K2) as [K3 E3]. split; [done|congruence].
Qed.

Lemma timer_fold_ok now ids : 0 <= now < UINT64_MAX -> forall s w, server_ok s -> Forall (valid s) ids ->
  server_ok (fst (foldl (server_timer now) (s, w) ids)).
Proof.
  intros Hn. induction ids as [|i ids IH]; intros s w K Hv; [done|]. apply Forall_cons in Hv as [Hi Hv].
  cbn [foldl]. destruct (server_timer_ok now s w i K Hi Hn) as [K1 E1].
  destruct (server_timer now (s, w) i) as [s1 w1]. apply IH; [done|].
  eapply Forall_impl; [exact Hv|]. unfold valid. intros j. cbn [fst] in E1. by rewrite E1.
Qed.

Lemma all_valid s : server_ok s -> Forall (valid s) (seq 0 (Z.to_nat (tb_max_clients (sv_session_table s)))).
Proof.
  intros K. apply Forall_forall. intros i Hi%elem_of_seq. pose proof (ti_length _ (sk_table _ K)).
  unfold valid, slots. lia.
Qed.

Lemma server_timers_ok s w : server_ok s -> server_ok (fst (server_timers s w)).
Proof. intros K. unfold server_timers, time_now_ns. apply timer_fold_ok; [apply clock_time|done|by apply all_valid]. Qed.

Lemma server_iteration_ok ptr s w poll ds : server_ok s ->
  Forall (fun d => datagram_ok (fst (fst d)) /\ snd d = (true, true)) ds ->
  server_ok (fst (server_iteration ptr s w poll ds)).
Proof.
  intros K Hd. unfold server_iteration. unfold time_now_ns at 1. cbv beta iota.
  destruct (rel4u_net_poll _ _ _) as [[pr sr] pp]. set (w1 := if pp then _ else _).
  pose proof (server_recv_loop_ok ptr ds Hd s w1 K) as K1.
  assert (K2 : server_ok (fst (if sr then server_recv_loop ptr s w1 ds else (s, w1)))) by (by destruct sr).
  destruct (if sr then _ else _) as [s2 w2]. cbn [fst] in K2. unfold server_send_pending.
  pose proof (server_drain_ok (S (S (Z.to_nat (q_count (sv_send_queue s2))))) s2 w2 K2) as K3.
  destruct (server_drain _ _ _) as [s3 w3]. by apply server_timers_ok.
Qed.

(** ** The public calls *)

Lemma server_start_ok s env : server_ok s -> server_ok (snd (rel4u_server_start s env)).
Proof.
  intros K. unfold rel4u_server_start. destruct (sv_running s); [done|].
  destruct (rel4u_net_addr_from_string _ _ _) as [r addr]. cbv zeta. destruct (negb (r =? 0)); [server_tac|].
  destruct (_ =? REL4U_INVALID_SOCKET); [server_tac|]. destruct (negb (sy_bind _ _ _ =? 0)); [server_tac|].
  destruct (rel4u_wakeup_pipe_create _ _) as [r1 pipe].
  destruct (negb (r1 =? 0)); [server_tac|]. destruct (negb (sy_thread_ok env)); server_tac.
Qed.

Lemma pop_all_ok fuel : forall q it, queue_ok q -> q_count q < Z.of_nat fuel ->
  queue_ok (pop_all fuel q it) /\ q_count (pop_all fuel q it) = 0.
Proof.
  induction fuel as [|fuel IH]; intros q it Hq Hf; [pose proof (queue_count_nonneg _ Hq); lia|]. cbn [pop_all].
  pose proof (try_pop_ok q it Hq) as P. destruct (rel4u_mpmc_try_pop q it) as [[ok q1] it1].
  destruct P as (Hq1 & _ & Hlt & Hz). destruct ok; [|split; [done|]].
  - apply IH; [done|]. destruct (Hlt eq_refl). lia.
  - by destruct (Hz eq_refl) as [? ->].
Qed.

Lemma server_stop_end_ok s : server_ok s -> server_ok (server_stop_end s).
Proof.
  intros K. unfold server_stop_end. cbv zeta.
  set (s1 := s <| sv_wakeup_pipe := _ |> <| sv_sock := _ |>). assert (K1 : server_ok s1) by server_tac. clearbody s1.
  set (t := foldl _ _ _).
  assert (T : table_inv t).
  { unfold t. generalize (seq 0 (Z.to_nat (tb_max_clients (sv_session_table s1)))) as l. intros l.
    pose proof (sk_table _ K1) as T. revert T. generalize (sv_session_table s1) as u.
    induction l as [|i l IH]; intros u T; [done|]. by apply IH, session_free_inv. }
  clearbody t. set (s2 := s1 <| sv_session_table := t |>). assert (K2 : server_ok s2) by (by apply sset_table_ok). clearbody s2.
  destruct (pop_all_ok (S (Z.to_nat (q_count (sv_send_queue s2)))) (sv_send_queue s2) item_zero (sk_send_queue _ K2)) as [Hq1 _].
  { pose proof (queue_count_nonneg _ (sk_send_queue _ K2)). lia. }
  set (s3 := s2 <| sv_send_queue := _ |>). assert (K3 : server_ok s3) by (by apply sset_send_queue_ok). clearbody s3.
  destruct (pop_all_ok (S (Z.to_nat (q_count (sv_recv_queue s3)))) (sv_recv_queue s3) item_zero (sk_recv_queue _ K3)) as [Hq2 _].
  { pose proof (queue_count_nonneg _ (sk_recv_queue _ K3)). lia. }
  by apply sset_no_pending_ok, sset_recv_queue_ok.
Qed.

Lemma server_send_call_ok s w id mode data len : server_ok s -> 0 <= len <= Z.of_nat (length data) ->
  from_option (fun x => server_ok (snd (fst x))) True (rel4u_server_send s w id mode data len).
Proof.
  intros K Hl. unfold rel4u_server_send, memcpy_into. destruct (_ >? _); [done|]. destruct (negb (sv_running s)); [done|].
  destruct (_ <=? _); [|done].
  destruct (try_push_ok (sv_send_queue s) _ (sk_send_queue _ K) (queued_item_wf id mode data len Hl)) as [Hq _].
  destruct (rel4u_mpmc_try_push _ _) as [ok q]. cbn [snd] in Hq.
  destruct ok; cbn [negb from_option]; server_tac.
Qed.

(** With an MTU of at most 9240 no message is copied past the end of its array. *)
Lemma server_send_defined s w id mode data len : sc_mtu (sv_config s) <= REL4U_MAX_MSG_SIZE + REL4U_HEADER_SIZE ->
  is_Some (rel4u_server_send s w id mode data len).
Proof.
  intros Hm. unfold rel4u_server_send, memcpy_into, REL4U_MAX_PAYLOAD, REL4U_MAX_MSG_SIZE, REL4U_HEADER_SIZE in *.
  destruct (Z.gtb_spec (sc_mtu (sv_config s)) 24), (Z.gtb_spec len (sc_mtu (sv_config s) - 24)); destruct (Z.gtb_spec len 0);
    try done; destruct (negb (sv_running s)); try done; rewrite (proj2 (Z.leb_le len 9216)) by lia;
    destruct (rel4u_mpmc_try_push _ _) as [ok q]; by destruct (negb ok).
Qed.

Lemma server_recv_call_ok s size timeout wakes r id bytes s' : server_ok s ->
  Forall (fun x => queue_ok (snd x)) wakes ->
  rel4u_server_recv s size timeout wakes = Some (r, id, bytes, s') -> server_ok s'.
Proof.
  intros K Hw. unfold rel4u_server_recv. destruct (_ =? _); [by intros [= <- <- <- <-]|].
  pose proof (pop_wait_ok (q_wake_generation (sv_recv_queue s)) timeout wakes Hw (sv_recv_queue s) item_zero (sk_recv_queue _ K)) as P.
  unfold rel4u_mpmc_pop_wait. destruct (pop_wait_loop _ _ _ _ _) as [q|[] q item]; intros [= <- <- <- <-];
    by apply sset_recv_queue_ok.
Qed.

Lemma server_disconnect_ok s w id : server_ok s -> server_ok (snd (fst (rel4u_server_disconnect_client s w id))).
Proof.
  intros K. unfold rel4u_server_disconnect_client. destruct (rel4u_session_find_by_id _ _); [|done].
  by apply server_free_ok.
Qed.
End server_spec.
