(* ===== verification/ServerRun.v ===== *)
(** * Server: the invariant of every run

    Creation, and the invariant over every interleaving of the worker's steps
    with the application's calls. *)
From S2P Require Import Prelude Ring Types Seq Packet Rtt Mpmc MpmcSpec Queue SendWindow SendSpec Send RecvWindow RecvSpec RecvSafe Net Session Sessions Link Endpoint Peer Server ServerSpec.
From stdpp Require Import base numbers list gmap.
Open Scope Z_scope.
Open Scope rel4u_scope.

(** ** Creation *)

(** The sizes a caller may ask for: an MTU whose payload fits a message, fewer
    than [2^31] clients and slots of a window, byte limits below [2^63]; and
    allocations of the windows that succeed. *)
Record server_config_ok (cfg : rel4u_server_config) (mem : server_memory) : Prop := {
  sf_mtu : sc_mtu cfg <= REL4U_MAX_MSG_SIZE + REL4U_HEADER_SIZE;
  sf_clients : 0 <= sc_max_clients cfg < 2 ^ 31;
  sf_window : sc_window_size cfg < 2 ^ 31;
  sf_send_cap : is_u32 (sc_send_queue_capacity cfg);
  sf_recv_cap : is_u32 (sc_recv_queue_capacity cfg);
  sf_send_bytes : 0 <= sc_max_send_memory_bytes cfg < 2 ^ 63;
  sf_recv_bytes : 0 <= sc_max_recv_memory_bytes cfg < 2 ^ 63;
  sf_send_items : forall l, sm_send_items mem = Some l ->
    Z.of_nat (length l) = sc_send_queue_capacity (server_defaults cfg);
  sf_recv_items : forall l, sm_recv_items mem = Some l ->
    Z.of_nat (length l) = sc_recv_queue_capacity (server_defaults cfg);
  sf_windows : sm_windows mem = fun _ => (true, true)
}.

Lemma table_init_ok t n policy c b r t' : 0 < n < 2 ^ 31 -> c < 2 ^ 31 ->
  rel4u_session_table_init t n policy c b (fun _ => (true, true)) = (r, t') -> r = 0 -> table_inv t'.
Proof.
  intros Hn Hc E Hr. unfold rel4u_session_table_init in E.
  destruct (Z.eqb_spec n 0); [lia|]. destruct (Z.ltb_spec c 2); [by injection E as <-|].
  destruct (is_pow2 c) eqn:Hp; [|by injection E as <-]. cbn [orb negb] in E.
  destruct b; [|by injection E as <-].
  assert (Hcap : cap_ok c) by (split; [lia|done]).
  destruct (table_init_inv t n policy c Hn Hcap) as [_ T].
  unfold rel4u_session_table_init in T. rewrite Hp, (proj2 (Z.eqb_neq n 0)), (proj2 (Z.ltb_ge c 2)) in T by lia.
  cbn [orb negb] in T, E. by rewrite E in T.
Qed.

Lemma server_create_ok cfg mem s : server_config_ok cfg mem -> rel4u_server_create cfg mem = Some s -> server_ok s.
Proof.
  intros F E. unfold rel4u_server_create in E. destruct (sc_bind_port cfg =? 0); [done|].
  destruct (negb (sm_object mem)); [done|]. cbv zeta in E. set (d := server_defaults cfg) in *.
  destruct (rel4u_mpmc_init _ _ (sc_send_queue_capacity d) _ _) as [r1 q1] eqn:E1.
  destruct (Z.eqb_spec r1 0) as [->|]; [|done]. cbn [negb] in E.
  destruct (rel4u_mpmc_init _ _ (sc_recv_queue_capacity d) _ _) as [r2 q2] eqn:E2.
  destruct (Z.eqb_spec r2 0) as [->|]; [|done]. cbn [negb] in E. rewrite (sf_windows _ _ F) in E.
  destruct (rel4u_session_table_init _ _ _ _ _ _) as [r3 t] eqn:E3.
  destruct (Z.eqb_spec r3 0) as [->|]; [|done]. cbn [negb] in E.
  assert (T : table_inv t).
  { refine (table_init_ok _ _ _ _ _ _ _ _ _ E3 eq_refl).
    - pose proof (sf_clients _ _ F). cbn. destruct (Z.eqb_spec (sc_max_clients cfg) 0); lia.
    - pose proof (sf_window _ _ F). cbn. destruct (_ <? 8); lia. }
  assert (H1 : queue_ok q1).
  { refine (queue_init_ok _ _ _ _ _ _ _ _ _ (sf_send_items _ _ F) E1 eq_refl).
    - pose proof (sf_send_cap _ _ F). cbn. destruct (_ <? 8); word_unfold; lia.
    - pose proof (sf_send_bytes _ _ F). cbn. destruct (_ && _); lia. }
  assert (H2 : queue_ok q2).
  { refine (queue_init_ok _ _ _ _ _ _ _ _ _ (sf_recv_items _ _ F) E2 eq_refl).
    - pose proof (sf_recv_cap _ _ F). cbn. destruct (_ <? 8); word_unfold; lia.
    - pose proof (sf_recv_bytes _ _ F). cbn. destruct (_ && _); lia. }
  injection E as <-. constructor; try done. apply fresh_ready_ok.
Qed.

Lemma server_create_config cfg mem s : rel4u_server_create cfg mem = Some s -> sv_config s = server_defaults cfg.
Proof.
  intros E. unfold rel4u_server_create in E. destruct (sc_bind_port cfg =? 0); [done|].
  destruct (negb (sm_object mem)); [done|]. cbv zeta in E. set (d := server_defaults cfg) in *.
  destruct (rel4u_mpmc_init _ _ (sc_send_queue_capacity d) _ _) as [r1 q1]. destruct (negb _); [done|].
  destruct (rel4u_mpmc_init _ _ (sc_recv_queue_capacity d) _ _) as [r2 q2]. destruct (negb _); [done|].
  destruct (rel4u_session_table_init _ _ _ _ _ _) as [r3 t]. destruct (negb _); [done|]. by injection E as <-.
Qed.

Section run.
Context {platform : Platform} {allocator : Malloc}.

(** ** The invariant *)

(** The steps of the worker thread, at the grain of [table_mutex], and the calls
    of the application; a stop is split where it waits for the worker. *)
Inductive server_event :=
  | SvDatagram (src_ptr : Z) (in_buf : list Z) (src_addr : rel4u_net_addr) (ok : bool * bool)
  | SvDrainTurn
  | SvTimers
  | SvStart (env : system)
  | SvSend (client_id mode : Z) (data : list Z) (len : Z)
  | SvRecv (buffer_size timeout_ms : Z) (wakes : list (bool * rel4u_mpmc_queue))
  | SvDisconnectClient (client_id : Z)
  | SvStopBegin
  | SvStopEnd
  | SvTurn
  | SvWake.

(** What the events bring: datagrams of bytes that fit the receive buffer, with
    allocations that succeed if they open a session ([rel4u_session_allocate]
    does not check them, and a session without window arrays is used all the
    same), messages of at most the length the caller gives, and queues as the
    other threads leave them to a call that blocks. *)
Definition server_event_ok (e : server_event) : Prop :=
  match e with
  | SvDatagram _ buf _ ok => datagram_ok buf /\ ok = (true, true)
  | SvSend _ _ data len => 0 <= len <= Z.of_nat (length data)
  | SvRecv _ _ wakes => Forall (fun x => queue_ok (snd x)) wakes
  | _ => True
  end.

Definition run_server_event (sw : rel4u_server * world) (e : server_event) : rel4u_server * world :=
  let '(s, w) := sw in
  match e with
  | SvDatagram ptr buf src ok => server_on_datagram ptr s w buf src ok
  | SvDrainTurn => server_drain 1 s w
  | SvTimers => server_timers s w
  | SvStart env => (snd (rel4u_server_start s env), w)
  | SvSend id mode data len =>
      match rel4u_server_send s w id mode data len with Some (_, s, w) => (s, w) | None => (s, w) end
  | SvRecv size timeout wakes =>
      match rel4u_server_recv s size timeout wakes with Some (_, _, _, s) => (s, w) | None => (s, w) end
  | SvDisconnectClient id => let '(_, s, w) := rel4u_server_disconnect_client s w id in (s, w)
  | SvStopBegin =>
      (s <| sv_running := false |> <| sv_recv_queue := fst (rel4u_mpmc_wake_all (sv_recv_queue s)) |>,
       rel4u_wakeup_pipe_signal (sv_wakeup_pipe s) w)
  | SvStopEnd => (server_stop_end s, w)
  | SvTurn => let '(_, w) := time_now_ns w in (s, w)
  | SvWake => (s, rel4u_wakeup_pipe_drain (sv_wakeup_pipe s) w)
  end.

Lemma run_server_event_ok s w e : server_ok s -> server_event_ok e ->
  server_ok (fst (run_server_event (s, w) e)).
Proof.
  intros K He. destruct e as [ptr buf src ok| | |env|id mode data len|sz t wk|id| | | |];
    cbn [run_server_event server_event_ok] in *.
  - destruct He as [He ->]. by apply server_on_datagram_ok.
  - by apply server_drain_ok.
  - by apply server_timers_ok.
  - by apply server_start_ok.
  - pose proof (server_send_call_ok s w id mode data len K He) as P. by destruct (rel4u_server_send _ _ _ _ _ _) as [[[? ?] ?]|].
  - destruct (rel4u_server_recv s sz t wk) as [[[[r id] bytes] s']|] eqn:E; [|done].
    exact (server_recv_call_ok _ _ _ _ _ _ _ _ K He E).
  - pose proof (server_disconnect_ok s w id K) as P. by destruct (rel4u_server_disconnect_client _ _ _) as [[? ?] ?].
  - apply sset_recv_queue_ok; [by apply sset_running_ok|]. apply wake_all_ok, K.
  - by apply server_stop_end_ok.
  - done.
  - done.
Qed.

Lemma run_server_events_ok evs : Forall server_event_ok evs -> forall sw, server_ok (fst sw) ->
  server_ok (fst (foldl run_server_event sw evs)).
Proof. induction 1 as [|e evs He _ IH]; intros [s w] K; [done|]. by apply IH, run_server_event_ok. Qed.

(** *** The configuration stays, and the receive queue but for received data *)

Definition sv_base (s : rel4u_server) : rel4u_server_config * rel4u_mpmc_queue := (sv_config s, sv_recv_queue s).

Lemma server_packet_base s w i type mode seq payload len :
  sv_base (fst (server_send_packet s w i type mode seq payload len)) = sv_base s.
Proof.
  unfold server_send_packet. destruct (rel4u_recv_window_get_ack_info _) as [ack sack]. destruct (encode_packet _ _ _); [|done].
  destruct (rel4u_net_sendto _ _ _ _) as [n w1]. destruct (_ >? _); [|done]. by destruct (time_now_ns w1).
Qed.

Lemma server_control_base s w i type : sv_base (fst (server_send_control s w i type)) = sv_base s.
Proof. unfold server_send_control. apply server_packet_base. Qed.

Lemma server_on_connect_base s w src now ptr ok : sv_base (fst (server_on_connect s w src now ptr ok)) = sv_base s.
Proof.
  unfold server_on_connect. destruct (rel4u_session_find_by_addr _ _); [by rewrite server_control_base|].
  destruct (rel4u_session_allocate _ _ _ _) as [[[i|] id] t]; [by rewrite server_control_base|done].
Qed.

Lemma on_session_config s w i hdr buf now : sv_config (fst (server_on_session s w i hdr buf now)) = sv_config s.
Proof.
  unfold server_on_session. set (s1 := server_upd (s <| sv_session_table := _ |>) i _). change (sv_config s) with (sv_config s1).
  clearbody s1. destruct (_ =? REL4U_PKT_CONNECT_ACK); [done|]. destruct (_ =? REL4U_PKT_DISCONNECT); [done|].
  assert (D : forall s p, sv_config (server_on_data s i hdr p) = sv_config s).
  { intros s2 p. unfold server_on_data. by destruct (handle_data _ _ _ _ _ _) as [[[? ?] ?] ?]. }
  set (s2 := server_upd s1 i _). pose proof (f_equal fst (server_control_base s2 w i REL4U_PKT_HEARTBEAT_ACK)) as E.
  destruct (_ =? REL4U_PKT_HEARTBEAT).
  - destruct (server_send_control s2 w i _) as [s3 w3]. cbn [fst] in *. destruct (_ =? REL4U_PKT_DATA); by rewrite ?D.
  - destruct (_ =? REL4U_PKT_DATA); cbn [fst]; by rewrite ?D.
Qed.

Lemma on_datagram_sconfig ptr s w buf src ok : sv_config (fst (server_on_datagram ptr s w buf src ok)) = sv_config s.
Proof.
  unfold server_on_datagram. destruct (rel4u_packet_decode_header _ _ _ _) as [r hdr]. destruct (negb _); [done|].
  destruct (time_now_ns w) as [now w1]. set (s1 := s <| sv_stats := _ |>). change (sv_config s) with (sv_config s1).
  clearbody s1. destruct (_ =? REL4U_PKT_CONNECT_REQ); [exact (f_equal fst (server_on_connect_base s1 w1 src now ptr ok))|].
  destruct (rel4u_session_find_by_addr _ _); [|done]. destruct (_ =? h_session_id hdr); [apply on_session_config|done].
Qed.

Lemma server_drain_base fuel : forall s w, sv_base (fst (server_drain fuel s w)) = sv_base s.
Proof.
  induction fuel as [|fuel IH]; intros s w; cbn [server_drain]; [done|].
  set (h := if sv_has_pending_item s then _ else _). assert (E : sv_base (snd h) = sv_base s).
  { unfold h. destruct (sv_has_pending_item s); [done|]. by destruct (rel4u_mpmc_try_pop _ _) as [[[] ?] ?]. }
  clearbody h. destruct h as [have s1]. cbn [snd] in E. destruct (negb have); [done|].
  destruct (rel4u_session_find_by_id _ _) as [i|]; [|by rewrite IH]. destruct (bool_decide _); [|by rewrite IH].
  destruct (rel4u_send_window_can_send _); [|done]. destruct (time_now_ns w) as [now w1].
  destruct (rel4u_send_window_push _ _ _ _ _) as [[r sw] sq]. set (s2 := server_upd s1 i _).
  pose proof (server_packet_base s2 w1 i REL4U_PKT_DATA (it_mode (sv_pending_item s1)) (default 0 sq)
    (Some (it_data (sv_pending_item s1))) (it_len (sv_pending_item s1))) as P.
  destruct (r =? 0); [|by rewrite IH]. destruct (server_send_packet _ _ _ _ _ _ _ _) as [s3 w3]. rewrite IH. transitivity (sv_base s3); [done|]. exact (eq_trans P E).
Qed.

Lemma server_retransmit_base s w i now : sv_base (fst (server_retransmit s w i now)) = sv_base s.
Proof.
  unfold server_retransmit. destruct (_ >? 0); [|done]. set (l := rel4u_send_window_get_expired _ _ _ _) at 2. clearbody l.
  set (s1 := server_upd s i _). change (sv_base s) with (sv_base s1). clearbody s1. revert s1 w.
  induction l as [|k l IH]; intros s1 w; [done|]. cbn [foldl server_resend]. set (s2 := server_upd s1 i _).
  destruct (server_send_packet s2 w i _ _ _ _ _) as [s3 w3] eqn:E. rewrite IH. change (sv_base s1) with (sv_base s2).
  set (slot := sw_slots (cs_send_win (server_session s2 i)) !. k) in *.
  rewrite <- (server_packet_base s2 w i REL4U_PKT_DATA (ss_delivery_mode slot) (ss_seq_num slot)
    (Some (ss_payload slot)) (ss_payload_len slot)). by rewrite E.
Qed.

Lemma server_heartbeat_base s w i now : sv_base (fst (server_heartbeat s w i now)) = sv_base s.
Proof.
  unfold server_heartbeat. destruct (_ >=? _); [|done]. pose proof (server_control_base s w i REL4U_PKT_HEARTBEAT) as E.
  destruct (server_send_control s w i _) as [s1 w1]. exact E.
Qed.

Lemma server_timer_base now s w i : sv_base (fst (server_timer now (s, w) i)) = sv_base s.
Proof.
  unfold server_timer. destruct (negb _); [done|]. destruct (_ >=? _); [done|]. destruct (negb _); [done|].
  pose proof (server_retransmit_base s w i now) as E1. destruct (server_retransmit s w i now) as [s1 w1].
  pose proof (server_control_base s1 w1 i REL4U_PKT_ACK) as E2. destruct (cs_ack_pending _).
  - destruct (server_send_control s1 w1 i _) as [s2 w2]. rewrite server_heartbeat_base. exact (eq_trans E2 E1).
  - rewrite server_heartbeat_base. exact E1.
Qed.

Lemma server_timers_base s w : sv_base (fst (server_timers s w)) = sv_base s.
Proof.
  unfold server_timers. destruct (time_now_ns w) as [now w0]. generalize (seq 0 (Z.to_nat (tb_max_clients (sv_session_table s)))).
  intros l. revert s w0. induction l as [|i l IH]; intros s w0; [done|]. cbn [foldl].
  pose proof (server_timer_base now s w0 i) as E. destruct (server_timer now (s, w0) i) as [s1 w1]. by rewrite IH.
Qed.

Lemma run_server_event_config s w e : sv_config (fst (run_server_event (s, w) e)) = sv_config s.
Proof.
  destruct e as [ptr buf src ok| | |env|id mode data len|sz t wk|id| | | |]; cbn [run_server_event].
  - apply on_datagram_sconfig.
  - exact (f_equal fst (server_drain_base 1 s w)).
  - exact (f_equal fst (server_timers_base s w)).
  - unfold rel4u_server_start. destruct (sv_running s); [done|]. destruct (rel4u_net_addr_from_string _ _ _) as [r addr].
    destruct (negb _); [done|]. destruct (_ =? REL4U_INVALID_SOCKET); [done|]. destruct (negb _); [done|].
    destruct (rel4u_wakeup_pipe_create _ _) as [r2 pipe]. destruct (negb _); [done|]. by destruct (negb _).
  - unfold rel4u_server_send. destruct (_ >? _); [done|]. destruct (negb _); [done|]. destruct (memcpy_into _ _ _); [|done].
    destruct (rel4u_mpmc_try_push _ _) as [ok q]. by destruct (negb ok).
  - unfold rel4u_server_recv. destruct (_ =? _); [done|]. by destruct (rel4u_mpmc_pop_wait _ _ _ _) as [q|[] q item].
  - unfold rel4u_server_disconnect_client. by destruct (rel4u_session_find_by_id _ _).
  - done.
  - done.
  - done.
  - done.
Qed.

Lemma run_server_events_config evs : forall sw, sv_config (fst (foldl run_server_event sw evs)) = sv_config (fst sw).
Proof. induction evs as [|e evs IH]; intros [s w]; [done|]. cbn [foldl]. by rewrite IH, run_server_event_config. Qed.

(** C12. A server whose window allocations all succeed (those of its creation and
    that of every session it opens, which the code does not check) and whose MTU
    is at most 9240 stays well formed under every interleaving of its worker's
    steps with the application's calls, whatever any host sends to it: the
    session table counts its active sessions, never holds more than its maximum
    and never two sessions for one address, every session's windows and RTT
    estimator are consistent, both queues hold well-formed messages within their
    limits, a message kept for later fits its buffer, and no call of
    [rel4u_server_send] copies a message past the end of its array. *)
Theorem server_invariant cfg mem s0 w evs :
  server_config_ok cfg mem -> rel4u_server_create cfg mem = Some s0 -> Forall server_event_ok evs ->
  let '(s, w') := foldl run_server_event (s0, w) evs in
  server_ok s /\ forall id mode data len, is_Some (rel4u_server_send s w' id mode data len).
Proof.
  intros F E He. pose proof (run_server_events_ok evs He (s0, w) (server_create_ok cfg mem s0 F E)) as K.
  pose proof (run_server_events_config evs (s0, w)) as C. destruct (foldl run_server_event (s0, w) evs) as [s w'].
  cbn [fst] in *. split; [done|]. intros id mode data len. apply server_send_defined.
  rewrite C, (server_create_config _ _ _ E). cbn. pose proof (sf_mtu _ _ F).
  destruct (_ =? 0); unfold REL4U_DEFAULT_MTU, REL4U_MAX_MSG_SIZE, REL4U_HEADER_SIZE in *; lia.
Qed.
End run.

(** ** A sample run *)

#[local] Existing Instance sample_platform.

(** Two clients, queues of eight messages, windows of eight packets. *)
Definition sample_server_config : rel4u_server_config :=
  mk_server_config None 9000 2 REL4U_MAX_CLIENTS_REJECT 0 8 8 8 0 0
    REL4U_MEM_FIXED REL4U_QUEUE_FULL_DROP_NEW 0 0.
Definition sample_server_memory : server_memory :=
  mk_server_memory true (Some (replicate 8 item_zero)) (Some (replicate 8 item_zero)) true (fun _ => (true, true)).
Definition sample_server0 : rel4u_server := Eval vm_compute in
  default (server_zero sample_server_config) (rel4u_server_create sample_server_config sample_server_memory).

Lemma sample_server_config_ok : server_config_ok sample_server_config sample_server_memory.
Proof. constructor; cbn; try (word_unfold; lia); try (unfold REL4U_MAX_MSG_SIZE, REL4U_HEADER_SIZE; lia); try (by intros l [= <-]); done. Qed.
Lemma sample_server_create : rel4u_server_create sample_server_config sample_server_memory = Some sample_server0.
Proof. vm_compute. reflexivity. Qed.

Definition server_sample_world : world := mk_world 0 0 [] false.
Definition sample_system : system :=
  mk_system (fun _ port => Some (mk_addr (AF_INET port 0) 16)) (fun _ => 5) (fun _ _ => 0) (Some (6, 7)) true.
Definition sample_peer : rel4u_net_addr := mk_addr (AF_INET 4000 16777343) 16.

(** A client connects; the application sends it two messages and one to nobody. *)
Definition sample_request : list Z := header_bytes (make_header REL4U_PKT_CONNECT_REQ 0 0 0 0 0 0).
Definition sample_session_id : Z := 1000000000.
Definition sample_server_events : list server_event :=
  [SvStart sample_system; SvDatagram 0 sample_request sample_peer (true, true);
   SvDatagram 0 (header_bytes (make_header REL4U_PKT_CONNECT_ACK 0 sample_session_id 0 0 0 0)) sample_peer (true, true);
   SvSend 0 3 [7; 8] 2; SvSend 1 3 [1] 1; SvSend 0 1 [9] 1].
Definition sample_server_run : rel4u_server * world := Eval vm_compute in
  foldl run_server_event (sample_server0, server_sample_world) sample_server_events.
Definition sample_server : rel4u_server := Eval vm_compute in fst sample_server_run.
Definition sample_server_world : world := Eval vm_compute in snd sample_server_run.

Lemma sample_server_run_eq :
  foldl run_server_event (sample_server0, server_sample_world) sample_server_events = (sample_server, sample_server_world).
Proof. vm_compute. reflexivity. Qed.
Lemma sample_server_events_ok : Forall server_event_ok sample_server_events.
Proof.
  repeat apply Forall_cons_2; try done; cbn [server_event_ok]; try (cbn; lia).
  all: split; [|done]; apply (wire_datagram_ok _ []); [|constructor|done]; apply make_header_wf; word_unfold; unfold sample_session_id; lia.
Qed.

Lemma server_invariant_witness : server_ok sample_server /\
  cs_state (server_session sample_server 0) = REL4U_STATE_CONNECTED /\
  cs_session_id (server_session sample_server 0) = sample_session_id.
Proof.
  pose proof (server_invariant sample_server_config sample_server_memory sample_server0 server_sample_world
    sample_server_events sample_server_config_ok sample_server_create sample_server_events_ok) as H.
  rewrite sample_server_run_eq in H. split; [exact (proj1 H)|]. split; reflexivity.
Defined.

Lemma sample_server_ok : server_ok sample_server.
Proof.
  pose proof (run_server_events_ok sample_server_events sample_server_events_ok (sample_server0, server_sample_world)
    (server_create_ok _ _ _ sample_server_config_ok sample_server_create)) as H.
  rewrite sample_server_run_eq in H. exact H.
Qed.
