(* ===== verification/ServerDrain.v ===== *)
(** * Server: draining the send queue

    One turn of the loop of [server_worker_thread_func] (484-516) takes the
    message that waits, or the next of the queue, and hands it to the window of
    its client's session.  The loop ends, and what it has taken went, in order,
    to the sessions it was for. *)
From S2P Require Import Prelude Ring Types Seq Packet Rtt Mpmc MpmcSpec Queue SendWindow SendSpec Send RecvWindow RecvSpec RecvSafe Net Session Sessions Link Endpoint Peer Server ServerSpec ServerRun.
From stdpp Require Import base numbers list gmap.
Open Scope Z_scope.
Open Scope rel4u_scope.

Section drain.
Context {platform : Platform} {allocator : Malloc}.

(** ** One turn *)

(** The pending message, fetched from the queue when there is none. *)
Definition drain_fetch (s : rel4u_server) : bool * rel4u_server :=
  if sv_has_pending_item s then (true, s)
  else
    let '(ok, queue, item) := rel4u_mpmc_try_pop (sv_send_queue s) (sv_pending_item s) in
    let s := s <| sv_send_queue := queue |> <| sv_pending_item := item |> in
    (ok, if ok then s <| sv_has_pending_item := true |> else s).

(** The pending message goes to the window of session [i] and to the wire. *)
Definition drain_push (s : rel4u_server) (w : world) (i : nat) : rel4u_server * world :=
  let item := sv_pending_item s in
  let '(now_ns, w) := time_now_ns w in
  let '(push_res, send_win, seq) :=
    rel4u_send_window_push (cs_send_win (server_session s i)) (it_mode item) (it_data item) (it_len item) now_ns in
  let s := server_upd s i (fun x => x <| cs_send_win := send_win |>) in
  if push_res =? 0
  then server_send_packet s w i REL4U_PKT_DATA (it_mode item) (default 0 seq) (Some (it_data item)) (it_len item)
  else (s, w).

(** The session the pending message is for, if it is connected. *)
Definition drain_target (s : rel4u_server) : option nat :=
  match rel4u_session_find_by_id (sv_session_table s) (it_client_id (sv_pending_item s)) with
  | Some i => if bool_decide (cs_state (server_session s i) = REL4U_STATE_CONNECTED) then Some i else None
  | None => None
  end.

(** A turn of the loop: the state, and whether the loop goes on. *)
Definition drain_turn (s : rel4u_server) (w : world) : rel4u_server * world * bool :=
  let '(have, s) := drain_fetch s in
  if negb have then (s, w, false) else
  match drain_target s with
  | Some i =>
      if rel4u_send_window_can_send (cs_send_win (server_session s i)) then
        let '(s, w) := drain_push s w i in (s <| sv_has_pending_item := false |>, w, true)
      else (s, w, false)
  | None => (s <| sv_has_pending_item := false |>, w, true)
  end.

Lemma server_drain_turn fuel s w : server_drain (S fuel) s w =
  let '(s', w', go) := drain_turn s w in if go then server_drain fuel s' w' else (s', w').
Proof.
  cbn [server_drain]. unfold drain_turn. change (if sv_has_pending_item s then _ else _) with (drain_fetch s).
  destruct (drain_fetch s) as [have s1]. destruct have; cbn [negb]; [|done]. unfold drain_target.
  destruct (rel4u_session_find_by_id _ _) as [i|]; [|done]. case_bool_decide; [|done].
  destruct (rel4u_send_window_can_send _); [|done]. unfold drain_push.
  destruct (time_now_ns w) as [now w1]. destruct (rel4u_send_window_push _ _ _ _ _) as [[r sw] sq].
  destruct (r =? 0); [|done]. by destruct (server_send_packet _ _ _ _ _ _ _ _).
Qed.

(** ** What a turn does *)

(** The messages still to go out. *)
Definition backlog (s : rel4u_server) (b : bqueue) : list msg :=
  (if sv_has_pending_item s then [item_msg (sv_pending_item s)] else []) ++ bq_msgs b.

(** A reliable message for session [i], while it is connected. *)
Definition for_session (s : rel4u_server) (i : nat) (m : msg) : Prop :=
  reliable_msg m /\ rel4u_session_find_by_id (sv_session_table s) (m_client_id m) = Some i /\
  cs_state (server_session s i) = REL4U_STATE_CONNECTED.
#[global] Instance for_session_dec s i m : Decision (for_session s i m).
Proof. unfold for_session. apply _. Defined.

(** The sessions differ in nothing the lookups read. *)
Definition same_sessions (s s' : rel4u_server) : Prop :=
  slots s' = slots s /\ tb_max_clients (sv_session_table s') = tb_max_clients (sv_session_table s) /\
  forall i, cs_state (server_session s' i) = cs_state (server_session s i).

#[global] Instance same_sessions_refl : Reflexive same_sessions.
Proof. by intros s. Qed.
#[global] Instance same_sessions_trans : Transitive same_sessions.
Proof. intros s1 s2 s3 (A1 & A2 & A3) (B1 & B2 & B3). split_and!; [congruence|congruence|]. intros i. by rewrite B3. Qed.

Lemma same_find s s' id : same_sessions s s' ->
  rel4u_session_find_by_id (sv_session_table s') id = rel4u_session_find_by_id (sv_session_table s) id.
Proof.
  intros (E1 & E2 & E3). unfold rel4u_session_find_by_id, slots in *. rewrite E1, E2.
  specialize (E3 (Z.to_nat id)). unfold server_session in E3. unfold arr_get, session_active. by rewrite E3.
Qed.

Lemma same_for_session s s' i m : same_sessions s s' -> for_session s' i m <-> for_session s i m.
Proof. intros E. unfold for_session. rewrite (same_find _ _ _ E). destruct E as (_ & _ & E). by rewrite E. Qed.

(** From [s] to [s'] the messages [taken] have left the backlog for the windows. *)
Record handed_on (s : rel4u_server) (b : bqueue) (taken : list msg) (s' : rel4u_server) (b' : bqueue) : Prop := {
  ho_ok : server_ok s';
  ho_queue : q_rep (sv_send_queue s') b';
  ho_backlog : backlog s b = taken ++ backlog s' b';
  ho_same : same_sessions s s';
  ho_windows : forall i h es, valid s i -> send_rep (cs_send_win (server_session s i)) h es ->
    exists es', send_rep (cs_send_win (server_session s' i)) h (es ++ es') /\
      entry_view <$> es' = msg_view <$> filter (for_session s i) taken
}.

Lemma handed_on_trans s b t1 s1 b1 t2 s2 b2 :
  handed_on s b t1 s1 b1 -> handed_on s1 b1 t2 s2 b2 -> handed_on s b (t1 ++ t2) s2 b2.
Proof.
  intros [K1 Q1 B1 S1 W1] [K2 Q2 B2 S2 W2]. constructor; [done|done| | |].
  - by rewrite B1, B2, app_assoc.
  - by etransitivity.
  - intros i h es Hv R. destruct (W1 i h es Hv R) as (e1 & R1 & E1).
    assert (Hv1 : valid s1 i) by (unfold valid; by rewrite (proj1 S1)).
    destruct (W2 i h _ Hv1 R1) as (e2 & R2 & E2). exists (e1 ++ e2). rewrite app_assoc. split; [done|].
    rewrite filter_app, !fmap_app, E1, E2. do 2 f_equal. apply list_filter_iff. intros m. by apply same_for_session.
Qed.

(** Nothing taken, the sessions untouched. *)
Lemma handed_on_nil s b s' b' : server_ok s' -> q_rep (sv_send_queue s') b' -> backlog s' b' = backlog s b ->
  sv_session_table s' = sv_session_table s -> handed_on s b [] s' b'.
Proof.
  intros K Q B T. constructor; [done|done|by rewrite B| |].
  - unfold same_sessions, slots, server_session. by rewrite T.
  - intros i h es _ R. exists []. rewrite app_nil_r. unfold server_session in *. by rewrite T.
Qed.

Lemma drain_fetch_spec s b : server_ok s -> q_rep (sv_send_queue s) b ->
  let '(have, s') := drain_fetch s in
  exists b', handed_on s b [] s' b' /\ sv_has_pending_item s' = have /\ (have = false -> backlog s b = []).
Proof.
  intros K Hq. unfold drain_fetch. destruct (sv_has_pending_item s) eqn:Hp.
  { exists b. split; [by apply handed_on_nil|done]. }
  pose proof (pop_spec (sv_send_queue s) b (sv_pending_item s) Hq) as P.
  pose proof (take_pending_ok s K Hp) as T. unfold rel4u_mpmc_try_pop, bq_pop in *.
  destruct (mpmc_pop_head_locked _ _) as [[ok q] it]. destruct (bq_msgs b) as [|m l] eqn:Eb.
  - destruct P as (-> & -> & ->). exists b. split; [|split; [done|intros _; unfold backlog; by rewrite Hp, Eb]].
    apply handed_on_nil; [exact T|done|done|done].
  - destruct P as (-> & Em & Hq1 & _ & Hit). eexists. split; [|done].
    apply handed_on_nil; [exact T|exact Hq1| |done]. unfold backlog. cbn. by rewrite Hp, Eb, Em.
Qed.

(** The pending message was taken; only the window of its session has changed. *)
Lemma handed_on_pending s b s' : server_ok s' -> q_rep (sv_send_queue s) b -> sv_send_queue s' = sv_send_queue s ->
  sv_has_pending_item s = true -> sv_has_pending_item s' = false -> same_sessions s s' ->
  (forall i h es, valid s i -> send_rep (cs_send_win (server_session s i)) h es ->
    exists es', send_rep (cs_send_win (server_session s' i)) h (es ++ es') /\
      entry_view <$> es' = msg_view <$> filter (for_session s i) [item_msg (sv_pending_item s)]) ->
  handed_on s b [item_msg (sv_pending_item s)] s' b.
Proof.
  intros K Q E Hp Hp' S W. constructor; try done; [by rewrite E|]. unfold backlog. by rewrite Hp, Hp'.
Qed.

(** A packet sent leaves the queue and the windows alone. *)
Lemma sent_from_frame s i s' : sent_from s i s' -> valid s i ->
  sv_send_queue s' = sv_send_queue s /\ same_sessions s s' /\
  forall j, cs_send_win (server_session s' j) = cs_send_win (server_session s j).
Proof.
  intros U Hv. split; [by destruct U as [->|(? & ? & ? & ->)]|].
  split; [split; [by eapply sent_from_slots|]; split; [by destruct U as [->|(? & ? & ? & ->)]|]|].
  all: intros j; by apply (sent_from_session _ _ _ j U Hv).
Qed.

Lemma drain_target_spec s i : server_ok s -> drain_target s = Some i ->
  valid s i /\ rel4u_session_find_by_id (sv_session_table s) (it_client_id (sv_pending_item s)) = Some i /\
  cs_state (server_session s i) = REL4U_STATE_CONNECTED.
Proof.
  intros K. unfold drain_target. destruct (rel4u_session_find_by_id _ _) as [j|] eqn:Hf; [|done].
  case_bool_decide; [|done]. intros [= ->]. by destruct (find_id_valid _ _ _ K Hf) as (? & _).
Qed.

Lemma drain_push_spec s w b i : server_ok s -> q_rep (sv_send_queue s) b -> sv_has_pending_item s = true ->
  drain_target s = Some i -> rel4u_send_window_can_send (cs_send_win (server_session s i)) = true ->
  handed_on s b [item_msg (sv_pending_item s)] ((fst (drain_push s w i)) <| sv_has_pending_item := false |>) b.
Proof.
  intros K Q Hp Ht Hcan. destruct (drain_target_spec s i K Ht) as (Hv & Hf & Hst).
  pose proof (session_ok_at _ _ K Hv) as So. pose proof (sk_pending _ K Hp) as Hit. pose proof Hit as [[Hl _] Hmax].
  unfold drain_push, time_now_ns. cbv beta iota. set (now := pf_clock _).
  assert (Hn : is_u64 now) by (pose proof (clock_time (wd_ticks w)); unfold now; word_unfold; unfold UINT64_MAX in *; lia).
  pose proof (send_push_ok (cs_send_win (server_session s i)) (it_mode (sv_pending_item s)) (it_data (sv_pending_item s))
    (it_len (sv_pending_item s)) now (se_send _ _ So) Hn Hl Hmax) as P.
  assert (Hpush : forall h es, send_rep (cs_send_win (server_session s i)) h es -> exists sw' seq es',
    rel4u_send_window_push (cs_send_win (server_session s i)) (it_mode (sv_pending_item s)) (it_data (sv_pending_item s))
      (it_len (sv_pending_item s)) now = (0, sw', Some seq) /\ send_rep sw' h (es ++ es') /\
    entry_view <$> es' = msg_view <$> filter reliable_msg [item_msg (sv_pending_item s)]).
  { intros h es R. assert (Hroom := Hcan). rewrite (can_send_spec _ _ _ R) in Hroom. apply Z.ltb_lt in Hroom.
    destruct (push_queued _ h es _ now R (proj1 (se_send _ _ So)) Hn Hit Hroom) as (sw' & seq & es' & E & _ & R' & Ev).
    by exists sw', seq, es'. }
  destruct (se_send _ _ So) as (_ & h0 & es0 & R0).
  destruct (Hpush h0 es0 R0) as (sw1 & seq1 & _ & Ep & _). clear R0 h0 es0. rewrite Ep in *.
  destruct P as [Hsok _]. cbn [Z.eqb default from_option].
  set (s1 := server_upd s i _). assert (K1 : server_ok s1) by (apply server_upd_ok; [done|by apply send_win_step]).
  assert (Hv1 : valid s1 i) by (by apply server_upd_valid).
  assert (F : sv_send_queue s1 = sv_send_queue s /\ same_sessions s s1 /\
    cs_send_win (server_session s1 i) = sw1 /\
    forall j, j <> i -> cs_send_win (server_session s1 j) = cs_send_win (server_session s j)).
  { split; [done|]. split; [split; [apply server_upd_slots|split; [done|]]|split].
    - intros j. destruct (decide (j = i)) as [->|]; [by unfold s1; rewrite server_upd_same|by unfold s1; rewrite server_upd_other].
    - unfold s1. by rewrite server_upd_same.
    - intros j Hj. unfold s1. by rewrite server_upd_other. }
  destruct F as (Fq & Fs & Fi & Fj). unfold default, id.
  set (w1 := mk_world _ _ _ _). clearbody s1 w1.
  pose proof (server_send_update s1 w1 i REL4U_PKT_DATA (it_mode (sv_pending_item s)) seq1
    (Some (it_data (sv_pending_item s))) (it_len (sv_pending_item s))) as U.
  destruct (server_send_packet s1 w1 i _ _ _ _ _) as [s2 w2]. cbn [fst] in *.
  destruct (sent_from_frame _ _ _ U Hv1) as (Gq & Gs & Gw).
  apply handed_on_pending; [apply sset_no_pending_ok, (sent_from_ok _ _ _ U K1)|done|cbn; congruence|done|done| |].
  { etransitivity; [exact Fs|]. exact Gs. }
  intros j h es Hvj R. change (server_session (s2 <| sv_has_pending_item := false |>) j) with (server_session s2 j).
  rewrite (Gw j). destruct (decide (j = i)) as [->|Hji].
  - destruct (Hpush h es R) as (sw' & seq & es' & E & R' & Ev). injection E as <- <-. exists es'. rewrite Fi.
    split; [done|]. rewrite Ev, !filter_cons, !filter_nil. by repeat case_decide; unfold for_session in *; naive_solver.
  - exists []. rewrite app_nil_r, (Fj j Hji). split; [done|].
    rewrite filter_cons_False; [done|]. intros (_ & Hx & _). cbn in Hx. congruence.
Qed.

(** Why the loop stops. *)
Definition drain_stopped (s : rel4u_server) : Prop :=
  (sv_has_pending_item s = false /\ q_count (sv_send_queue s) = 0) \/
  (sv_has_pending_item s = true /\ exists i, drain_target s = Some i /\
   rel4u_send_window_can_send (cs_send_win (server_session s i)) = false).

Lemma drain_turn_spec s w b : server_ok s -> q_rep (sv_send_queue s) b ->
  let '(s', w', go) := drain_turn s w in
  exists b' taken, handed_on s b taken s' b' /\ (go = true -> length taken = 1%nat) /\ (go = false -> drain_stopped s').
Proof.
  intros K Q. unfold drain_turn. pose proof (drain_fetch_spec s b K Q) as F.
  destruct (drain_fetch s) as [have s1]. destruct F as (b1 & D1 & Hp & Hnone).
  destruct have; cbn [negb].
  2: { exists b1, []. split; [done|]. split; [done|]. intros _. left. split; [done|].
       pose proof (ho_backlog _ _ _ _ _ D1) as B. rewrite (Hnone eq_refl) in B. cbn [app] in B. unfold backlog in B.
       rewrite Hp in B. cbn [app] in B. by rewrite (q_rep_count _ _ (ho_queue _ _ _ _ _ D1)), <- B. }
  pose proof (ho_ok _ _ _ _ _ D1) as K1. pose proof (ho_queue _ _ _ _ _ D1) as Q1.
  destruct (drain_target s1) as [i|] eqn:Ht.
  - destruct (rel4u_send_window_can_send _) eqn:Hcan.
    + pose proof (drain_push_spec s1 w b1 i K1 Q1 Hp Ht Hcan) as D2. destruct (drain_push s1 w i) as [s2 w2].
      cbn [fst] in D2. exists b1, [item_msg (sv_pending_item s1)]. split; [exact (handed_on_trans _ _ _ _ _ _ _ _ D1 D2)|done].
    + exists b1, []. split; [done|]. split; [done|]. intros _. right. split; [done|]. by exists i.
  - exists b1, [item_msg (sv_pending_item s1)]. split; [|done]. apply (handed_on_trans s b [] s1 b1 [_]); [exact D1|].
    apply handed_on_pending; try done; [by apply sset_no_pending_ok|].
    intros j h es Hv R. exists []. rewrite app_nil_r. split; [done|]. rewrite filter_cons_False; [done|].
    unfold for_session, drain_target in *. intros (_ & Hf & Hst). cbn [item_msg m_client_id] in Hf. rewrite Hf in Ht.
    by rewrite bool_decide_eq_true_2 in Ht.
Qed.

(** ** The loop *)

Lemma server_drain_spec fuel : forall s w b, server_ok s -> q_rep (sv_send_queue s) b ->
  (length (backlog s b) < fuel)%nat ->
  let '(s', w') := server_drain fuel s w in
  (exists b' taken, handed_on s b taken s' b') /\ drain_stopped s' /\
  forall fuel', (fuel <= fuel')%nat -> server_drain fuel' s w = (s', w').
Proof.
  induction fuel as [|fuel IH]; intros s w b K Q Hf; [lia|]. rewrite server_drain_turn.
  pose proof (drain_turn_spec s w b K Q) as T. destruct (drain_turn s w) as [[s1 w1] go] eqn:E.
  destruct T as (b1 & t1 & D1 & Hgo & Hstop). destruct go.
  - assert (Hf1 : (length (backlog s1 b1) < fuel)%nat).
    { pose proof (ho_backlog _ _ _ _ _ D1) as B. rewrite B, length_app, (Hgo eq_refl) in Hf. lia. }
    specialize (IH s1 w1 b1 (ho_ok _ _ _ _ _ D1) (ho_queue _ _ _ _ _ D1) Hf1).
    destruct (server_drain fuel s1 w1) as [s' w']. destruct IH as ((b' & t2 & D2) & Hs & Hmore).
    split; [exists b', (t1 ++ t2); exact (handed_on_trans _ _ _ _ _ _ _ _ D1 D2)|]. split; [done|].
    intros [|fuel'] Hle; [lia|]. rewrite server_drain_turn, E. apply Hmore. lia.
  - split; [by exists b1, t1|]. split; [by apply Hstop|].
    intros [|fuel'] Hle; [lia|]. by rewrite server_drain_turn, E.
Qed.

Lemma backlog_length s b : q_rep (sv_send_queue s) b ->
  (length (backlog s b) < S (S (Z.to_nat (q_count (sv_send_queue s)))))%nat.
Proof.
  intros Q. pose proof (q_rep_count _ _ Q). unfold backlog. rewrite length_app.
  destruct (sv_has_pending_item s); cbn [length]; lia.
Qed.

(** A well-formed server is drained as far as its windows allow, and stays so. *)
Lemma backlog_drained s w : server_ok s ->
  drain_stopped (fst (server_send_pending s w)) /\ server_ok (fst (server_send_pending s w)).
Proof.
  intros K. destruct (sk_send_queue _ K) as [b Q].
  pose proof (server_drain_spec _ s w b K Q (backlog_length s b Q)) as D. unfold server_send_pending.
  destruct (server_drain _ s w) as [s' w']. destruct D as ((b' & taken & D) & Hs & _). split; [done|apply D].
Qed.

(** C17. The drain of the server's send queue hands messages on in order and loses
    none: what left the backlog are its first messages, each session that is
    connected has got exactly its reliable ones appended to its send window, in
    order, and no other session's window has changed.  It stops only when there
    is nothing left or when the next message is for a session whose window is
    full, and then it keeps that message. *)
Theorem server_drain_complete s w b : server_ok s -> q_rep (sv_send_queue s) b ->
  let '(s', w') := server_send_pending s w in
  exists b' taken, handed_on s b taken s' b' /\ drain_stopped s'.
Proof.
  intros K Q. pose proof (server_drain_spec _ s w b K Q (backlog_length s b Q)) as D. unfold server_send_pending.
  destruct (server_drain _ s w) as [s' w']. destruct D as ((b' & taken & D) & Hs & _). by exists b', taken.
Qed.

(** C18. The drain loop of the server terminates: with one turn for the message that
    waits, one for each message of the queue and one that finds it empty it has
    stopped, and any number of turns beyond that gives the same result. *)
Theorem server_drain_terminates s w fuel : server_ok s -> q_count (sv_send_queue s) + 2 <= Z.of_nat fuel ->
  server_drain fuel s w = server_send_pending s w /\ drain_stopped (fst (server_drain fuel s w)).
Proof.
  intros K Hf. destruct (sk_send_queue _ K) as [b Q]. pose proof (queue_count_nonneg _ (sk_send_queue _ K)).
  pose proof (server_drain_spec _ s w b K Q (backlog_length s b Q)) as D. unfold server_send_pending.
  destruct (server_drain (S _) s w) as [s' w']. destruct D as (_ & Hs & Hmore). rewrite (Hmore fuel) by lia. done.
Qed.
End drain.

#[local] Existing Instance sample_platform.

(** The queue of the sample server: one message for nobody between two for the
    client. *)
Definition sample_backlog : bqueue := mk_bqueue [mk_msg 0 3 [7; 8]; mk_msg 1 3 [1]; mk_msg 0 1 [9]] 0.
Lemma sample_backlog_rep : q_rep (sv_send_queue sample_server) sample_backlog.
Proof.
  apply q_rep_fixed; [reflexivity|reflexivity|word_unfold; lia|]. split; [|split; [reflexivity|]].
  - constructor; cbn; try lia; reflexivity.
  - change (Forall item_sized [mk_item 0 3 2 [7; 8]; mk_item 1 3 1 [1]; mk_item 0 1 1 [9]]).
    repeat (apply Forall_cons_2; [split; [split; cbn; lia|done]|]). constructor.
Qed.

Lemma server_drain_complete_witness : exists s' w' b' taken,
  server_send_pending sample_server sample_server_world = (s', w') /\
  handed_on sample_server sample_backlog taken s' b' /\ drain_stopped s'.
Proof.
  pose proof (server_drain_complete sample_server sample_server_world sample_backlog sample_server_ok sample_backlog_rep) as H.
  destruct (server_send_pending sample_server sample_server_world) as [s' w'].
  destruct H as (b' & taken & H). exists s', w', b', taken. split; [reflexivity|exact H].
Defined.

Lemma server_drain_terminates_witness :
  server_drain 100 sample_server sample_server_world = server_send_pending sample_server sample_server_world /\
  drain_stopped (fst (server_drain 100 sample_server sample_server_world)).
Proof. apply server_drain_terminates; [apply sample_server_ok|]. vm_compute. discriminate. Defined.
