(* ===== verification/ServerTable.v ===== *)
(** * Server: which sessions a step can touch

    Each timer and each datagram works on one session and leaves the others as
    they are.  From that follow the exact effect of the timers on the set of
    active sessions, the isolation of clients from each other, the answer to
    datagrams that belong to no session, and what a stop leaves behind. *)
From S2P Require Import Prelude Ring Types Seq Packet Rtt Mpmc MpmcSpec Queue SendWindow SendSpec Send RecvWindow RecvSpec RecvSafe Net Session Sessions Link Endpoint Peer Server ServerSpec ServerRun.
From stdpp Require Import base numbers list gmap.
Open Scope Z_scope.
Open Scope rel4u_scope.

(** ** Frames *)

(** Only session [i] may differ. *)
Record frame (i : nat) (s s' : rel4u_server) : Prop := {
  fr_config : sv_config s' = sv_config s;
  fr_max : tb_max_clients (sv_session_table s') = tb_max_clients (sv_session_table s);
  fr_slots : slots s' = slots s;
  fr_others : forall j, j <> i -> server_session s' j = server_session s j
}.

(** What sending, acknowledging and retransmitting leave of a session. *)
Record kept (x x' : rel4u_client_session) : Prop := {
  kp_client : cs_client_id x' = cs_client_id x;
  kp_session : cs_session_id x' = cs_session_id x;
  kp_addr : cs_addr x' = cs_addr x;
  kp_state : cs_state x' = cs_state x;
  kp_recv : cs_recv_win x' = cs_recv_win x
}.

(** A step on session [i] that keeps its identity and its receive window. *)
Definition mild (i : nat) (s s' : rel4u_server) : Prop :=
  frame i s s' /\ kept (server_session s i) (server_session s' i).

#[export] Instance frame_refl i : Reflexive (frame i).
Proof. by intros s. Qed.
#[export] Instance frame_trans i : Transitive (frame i).
Proof. intros s1 s2 s3 [] []. constructor; try congruence. intros j Hj. rewrite fr_others1, fr_others0; done. Qed.
#[export] Instance kept_refl : Reflexive kept.
Proof. by intros x. Qed.
#[export] Instance kept_trans : Transitive kept.
Proof. intros x1 x2 x3 [] []. constructor; congruence. Qed.
#[export] Instance mild_refl i : Reflexive (mild i).
Proof. by intros s. Qed.
#[export] Instance mild_trans i : Transitive (mild i).
Proof. intros s1 s2 s3 [] []. split; by etransitivity. Qed.

Lemma kept_active x x' : kept x x' -> session_active x' = session_active x.
Proof. intros H. unfold session_active. by rewrite (kp_state _ _ H). Qed.

Lemma frame_upd s i f : frame i s (server_upd s i f).
Proof. constructor; [done|done|apply server_upd_slots|]. intros j Hj. by apply server_upd_other. Qed.

Lemma frame_stats s st i : frame i s (s <| sv_stats := st |>).
Proof. done. Qed.

Lemma mild_upd s i f : valid s i -> (forall x, kept x (f x)) -> mild i s (server_upd s i f).
Proof. intros Hv Hk. split; [apply frame_upd|]. rewrite server_upd_same by done. apply Hk. Qed.

Lemma free_session t i j : (i < length (tb_sessions t))%nat ->
  tb_sessions (rel4u_session_free t i) !!! j =
  if decide (j = i) then
    if session_active (tb_sessions t !!! i)
    then (tb_sessions t !!! i) <| cs_state := REL4U_STATE_DISCONNECTED |> <| cs_session_id := 0 |>
    else tb_sessions t !!! i
  else tb_sessions t !!! j.
Proof.
  intros Hi. unfold rel4u_session_free, session_upd. destruct (session_active (tb_sessions t !!! i)); cbn [negb].
  - destruct (_ >? _); cbn; (case_decide; [subst; by rewrite list_lookup_total_insert_eq|by rewrite list_lookup_total_insert_ne]).
  - by case_decide; subst.
Qed.

Lemma frame_free s i : valid s i -> frame i s (s <| sv_session_table := rel4u_session_free (sv_session_table s) i |>).
Proof.
  intros Hv. constructor; [done| |apply session_free_slots|].
  - unfold rel4u_session_free. cbn. destruct (negb _); [done|]. by destruct (_ >? _).
  - intros j Hj. unfold server_session. cbn. rewrite free_session by done. by rewrite decide_False.
Qed.

Lemma free_inactive t i : (i < length (tb_sessions t))%nat ->
  session_active (tb_sessions (rel4u_session_free t i) !!! i) = false.
Proof.
  intros Hi. rewrite free_session, decide_True by done. by destruct (session_active (tb_sessions t !!! i)) eqn:E.
Qed.

Lemma allocate_length t addr sid ok :
  length (tb_sessions (snd (rel4u_session_allocate t addr sid ok))) = length (tb_sessions t).
Proof.
  unfold rel4u_session_allocate. destruct (_ =? _)%nat; [done|]. destruct (session_pick t) as [[[i|] ev] count]; [|done].
  cbn. by rewrite length_insert.
Qed.

Section table.
Context {platform : Platform} {allocator : Malloc}.

Lemma mild_sent s i s' : sent_from s i s' -> valid s i -> mild i s s'.
Proof.
  intros [->|(st & sent & now & ->)] Hv; [done|]. split; [etransitivity; [apply (frame_stats s st)|apply frame_upd]|].
  rewrite server_upd_same by done. done.
Qed.

Lemma mild_control s w i type : valid s i -> mild i s (fst (server_send_control s w i type)).
Proof. intros Hv. unfold server_send_control. eapply mild_sent; [apply server_send_update|done]. Qed.

Lemma frame_valid i s s' j : frame i s s' -> valid s j -> valid s' j.
Proof. intros F. unfold valid. by rewrite (fr_slots _ _ _ F). Qed.

(** ** Timers *)

Lemma mild_resend now i l : forall s w, valid s i -> mild i s (fst (foldl (server_resend now i) (s, w) l)).
Proof.
  induction l as [|k l IH]; intros s w Hv; [done|]. cbn [foldl]. unfold server_resend at 2.
  set (s1 := server_upd s i _). assert (M1 : mild i s s1) by (by apply mild_upd).
  assert (Hv1 : valid s1 i) by (by eapply frame_valid; [apply M1|]). clearbody s1. cbv zeta.
  set (slot := sw_slots _ !. k).
  pose proof (server_send_update s1 w i REL4U_PKT_DATA (ss_delivery_mode slot) (ss_seq_num slot)
    (Some (ss_payload slot)) (ss_payload_len slot)) as U.
  destruct (server_send_packet _ _ _ _ _ _ _ _) as [s2 w2]. cbn [fst] in U.
  pose proof (mild_sent _ _ _ U Hv1) as M2. etransitivity; [exact M1|]. etransitivity; [exact M2|].
  apply IH. by eapply frame_valid; [apply M2|].
Qed.

Lemma mild_retransmit s w i now : valid s i -> mild i s (fst (server_retransmit s w i now)).
Proof.
  intros Hv. unfold server_retransmit. cbv zeta. destruct (_ >? _); [|done].
  assert (M : mild i s (server_upd s i (session_timeout
    (Z.of_nat (length (rel4u_send_window_get_expired (cs_send_win (server_session s i)) now
       (rel4u_rtt_get_rto (Some (cs_rtt (server_session s i)))) 16)))))) by (by apply mild_upd).
  etransitivity; [exact M|]. apply mild_resend. by eapply frame_valid; [apply M|].
Qed.

Lemma mild_heartbeat s w i now : valid s i -> mild i s (fst (server_heartbeat s w i now)).
Proof.
  intros Hv. unfold server_heartbeat. destruct (_ >=? _); [|done].
  pose proof (mild_control s w i REL4U_PKT_HEARTBEAT Hv) as M. destruct (server_send_control _ _ _ _) as [s1 w1].
  cbn [fst] in *. etransitivity; [exact M|]. apply mild_upd; [|done]. by eapply frame_valid; [apply M|].
Qed.

(** No packet of the session for the inactivity timeout. *)
Definition idle (s : rel4u_server) (now_ns : Z) (i : nat) : bool :=
  u64 (now_ns - cs_last_activity_ns (server_session s i))
    >=? u64 (sc_inactivity_timeout_ms (sv_config s) * 1000000).

(** What the timers do to session [i]: freed if it was idle, else kept. *)
Definition timed (s : rel4u_server) (now_ns : Z) (i : nat) (x' : rel4u_client_session) : Prop :=
  let x := server_session s i in
  if session_active x && idle s now_ns i
  then x' = x <| cs_state := REL4U_STATE_DISCONNECTED |> <| cs_session_id := 0 |>
  else kept x x'.

Lemma server_timer_spec now s w i : valid s i ->
  let s' := fst (server_timer now (s, w) i) in frame i s s' /\ timed s now i (server_session s' i).
Proof.
  intros Hv. cbv zeta. unfold server_timer, timed. destruct (session_active (server_session s i)) eqn:Ha; cbn [negb andb].
  2: by split.
  change (u64 (now - _) >=? _) with (idle s now i). destruct (idle s now i).
  { split; [by apply frame_free|]. cbn [fst]. unfold server_session in *. cbn. by rewrite free_session, decide_True, Ha by done. }
  enough (M : mild i s (fst (if negb (bool_decide (cs_state (server_session s i) = REL4U_STATE_CONNECTED)) then (s, w) else
    let '(s, w) := server_retransmit s w i now in
    let '(s, w) := if cs_ack_pending (server_session s i) then server_send_control s w i REL4U_PKT_ACK else (s, w) in
    server_heartbeat s w i now))) by exact M.
  destruct (negb _); [done|]. pose proof (mild_retransmit s w i now Hv) as M1.
  destruct (server_retransmit s w i now) as [s1 w1]. cbn [fst] in M1.
  assert (Hv1 : valid s1 i) by (by eapply frame_valid; [apply M1|]).
  assert (M2 : mild i s1 (fst (if cs_ack_pending (server_session s1 i) then server_send_control s1 w1 i REL4U_PKT_ACK else (s1, w1)))).
  { destruct (cs_ack_pending _); [by apply mild_control|done]. }
  destruct (if cs_ack_pending _ then _ else _) as [s2 w2]. cbn [fst] in M2.
  etransitivity; [exact M1|]. etransitivity; [exact M2|]. apply mild_heartbeat. by eapply frame_valid; [apply M2|].
Qed.

Lemma timed_frame s s' now i j x : frame i s s' -> j <> i -> timed s' now j x -> timed s now j x.
Proof. intros F Hj. unfold timed, idle. by rewrite (fr_others _ _ _ F j Hj), (fr_config _ _ _ F). Qed.

(** The scan over distinct sessions. *)
Lemma timer_fold_spec now l : NoDup l -> forall s w, Forall (valid s) l ->
  let s' := fst (foldl (server_timer now) (s, w) l) in
  slots s' = slots s /\ (forall j, j ∉ l -> server_session s' j = server_session s j) /\
  (forall i, i ∈ l -> timed s now i (server_session s' i)).
Proof.
  induction 1 as [|i l Hni _ IH]; intros s w Hv; cbv zeta; cbn [foldl].
  { split; [done|]. split; [done|]. by intros i Hi%elem_of_nil. }
  apply Forall_cons in Hv as [Hi Hv]. destruct (server_timer_spec now s w i Hi) as [F T].
  destruct (server_timer now (s, w) i) as [s1 w1]. cbn [fst] in F, T.
  destruct (IH s1 w1) as (E1 & E2 & E3).
  { eapply Forall_impl; [exact Hv|]. intros j. by apply (frame_valid i). }
  split; [by rewrite E1, (fr_slots _ _ _ F)|]. split.
  - intros j Hj%not_elem_of_cons. destruct Hj as [Hji Hjl]. by rewrite E2, (fr_others _ _ _ F).
  - intros j Hj%elem_of_cons. destruct (decide (j = i)) as [->|Hji]; [by rewrite E2|].
    destruct Hj as [->|Hj]; [done|]. eapply timed_frame; [done|done|by apply E3].
Qed.

Lemma timers_timed s w i : server_ok s -> valid s i ->
  timed s (pf_clock (wd_ticks w)) i (server_session (fst (server_timers s w)) i).
Proof.
  intros K Hv. unfold server_timers, time_now_ns.
  destruct (timer_fold_spec (pf_clock (wd_ticks w)) _ (NoDup_seq 0 (Z.to_nat (tb_max_clients (sv_session_table s)))) s
    (mk_world (S (wd_ticks w)) (wd_calls w) (wd_sent w) (wd_wakeup w)) (all_valid s K)) as (_ & _ & E).
  apply E, elem_of_seq. pose proof (ti_length _ (sk_table _ K)). unfold valid, slots in Hv. lia.
Qed.

(** C20. A scan of the timers frees exactly the sessions from which nothing has come
    for the inactivity timeout: a session is active afterwards if and only if it
    was and was not idle; a freed one has lost its session number, and every
    other keeps its client, session number, address, state and receive window. *)
Theorem server_timers_exact s w i : server_ok s -> valid s i ->
  let now := pf_clock (wd_ticks w) in
  let x' := server_session (fst (server_timers s w)) i in
  timed s now i x' /\ session_active x' = session_active (server_session s i) && negb (idle s now i).
Proof.
  intros K Hv. cbv zeta. pose proof (timers_timed s w i K Hv) as T. split; [done|]. unfold timed in T.
  destruct (session_active (server_session s i)) eqn:Ha, (idle s _ i); cbn [andb negb] in *.
  - by rewrite T.
  - by rewrite (kept_active _ _ T).
  - by rewrite (kept_active _ _ T).
  - by rewrite (kept_active _ _ T).
Qed.

(** ** Isolation *)

Lemma frame_on_data s i hdr payload : frame i s (server_on_data s i hdr payload).
Proof.
  unfold server_on_data. destruct (handle_data _ _ _ _ _ _) as [[[win queue] ready] ack].
  set (s1 := s <| sv_recv_queue := queue |> <| sv_ready_slots := ready |>).
  assert (F : frame i s s1) by done. clearbody s1. etransitivity; [exact F|]. apply frame_upd.
Qed.

Lemma frame_on_session s w i hdr buf now : valid s i -> frame i s (fst (server_on_session s w i hdr buf now)).
Proof.
  intros Hv. unfold server_on_session. cbv zeta.
  set (s0 := s <| sv_session_table := _ |>). assert (F0 : frame i s s0) by apply (frame_upd s i). clearbody s0.
  set (s1 := server_upd s0 i _). assert (F1 : frame i s s1) by (etransitivity; [exact F0|apply frame_upd]). clearbody s1.
  assert (Hv1 : valid s1 i) by (by eapply frame_valid).
  destruct (_ =? REL4U_PKT_CONNECT_ACK); [done|].
  destruct (_ =? REL4U_PKT_DISCONNECT); [etransitivity; [exact F1|by apply frame_free]|].
  set (s2 := server_upd s1 i _). assert (F2 : frame i s s2) by (etransitivity; [exact F1|apply frame_upd]). clearbody s2.
  assert (Hv2 : valid s2 i) by (by eapply frame_valid).
  assert (F3 : frame i s (fst (if h_packet_type hdr =? REL4U_PKT_HEARTBEAT
    then server_send_control s2 w i REL4U_PKT_HEARTBEAT_ACK else (s2, w)))).
  { destruct (_ =? REL4U_PKT_HEARTBEAT); [|done]. etransitivity; [exact F2|]. by apply mild_control. }
  destruct (if _ =? REL4U_PKT_HEARTBEAT then _ else _) as [s3 w3]. cbn [fst] in *.
  destruct (_ =? REL4U_PKT_DATA); [|done]. etransitivity; [exact F3|apply frame_on_data].
Qed.

Definition table_full (s : rel4u_server) : Prop :=
  tb_active_count (sv_session_table s) = tb_max_clients (sv_session_table s) /\
  tb_full_policy (sv_session_table s) = REL4U_MAX_CLIENTS_DROP_OLD.

Lemma on_connect_others s w src now ptr j : server_ok s -> valid s j -> session_active (server_session s j) = true ->
  server_session (fst (server_on_connect s w src now ptr (true, true))) j = server_session s j \/
  addr_eq (cs_addr (server_session s j)) src \/
  (table_full s /\ forall k, valid s k -> session_active (server_session s k) = true ->
    cs_last_activity_ns (server_session s j) <= cs_last_activity_ns (server_session s k)).
Proof.
  intros K Hv Ha. unfold server_on_connect. destruct (rel4u_session_find_by_addr _ _) as [i|] eqn:Hf.
  { destruct (find_valid _ _ _ K Hf) as (Hvi & _ & He). destruct (decide (j = i)) as [->|Hj]; [by right; left|left].
    set (s1 := server_upd s i _). assert (F1 : frame i s s1) by apply frame_upd. clearbody s1.
    pose proof (mild_control s1 w i REL4U_PKT_CONNECT_RESP (frame_valid _ _ _ _ F1 Hvi)) as [F2 _].
    by rewrite (fr_others _ _ _ F2), (fr_others _ _ _ F1). }
  set (sid := if u32 _ =? 0 then _ else _).
  assert (Hsid : is_u32 sid) by (unfold sid; destruct (_ =? _); [word_unfold; lia|apply u32_range]).
  pose proof (allocate_spec (sv_session_table s) src sid (sk_table _ K) Hsid Hf) as A.
  pose proof (allocate_length (sv_session_table s) src sid (true, true)) as El.
  destruct (rel4u_session_allocate _ _ _ _) as [[[i|] ev] t].
  - destruct A as (x & Hx & -> & T & _ & Ho & _ & Hev). destruct (decide (j = i)) as [->|Hj].
    + right; right. assert (E : server_session s i = x) by (unfold server_session; by apply list_lookup_total_correct).
      rewrite E in Ha. destruct (Hev Ha) as (? & ? & Hold). split; [done|]. intros k Hk Hak. rewrite E.
      apply (Hold k); [by apply list_lookup_lookup_total_lt|done].
    + left. set (s0 := s <| sv_session_table := t |>).
      assert (E0 : server_session s0 j = server_session s j).
      { unfold server_session, s0. cbn. by rewrite !list_lookup_total_alt, Ho. }
      assert (Hvi : valid s0 i).
      { unfold valid, slots, s0. cbn. cbn [snd] in El. rewrite El. by eapply lookup_lt_Some. }
      clearbody s0. set (s1 := server_upd s0 i _). assert (F1 : frame i s0 s1) by apply frame_upd. clearbody s1.
      pose proof (mild_control s1 w i REL4U_PKT_CONNECT_RESP (frame_valid _ _ _ _ F1 Hvi)) as [F2 _].
      by rewrite (fr_others _ _ _ F2), (fr_others _ _ _ F1).
  - destruct A as (-> & _). by left.
Qed.

(** C15. Clients are isolated from each other: whatever datagram comes from whatever
    host, an active session is exactly as before, unless the datagram came from
    the session's own address and either carries its session number or asks for
    a connection, or it asks for a connection while the table is full under the
    drop-oldest policy and the session is the least recently active one. *)
Theorem server_isolation ptr s w buf src j : server_ok s -> valid s j -> session_active (server_session s j) = true ->
  let s' := fst (server_on_datagram ptr s w buf src (true, true)) in
  server_session s' j = server_session s j \/
  exists hdr, rel4u_packet_decode_header pf_host buf (Z.of_nat (length buf)) header_zero = (0, hdr) /\
    ((addr_eq (cs_addr (server_session s j)) src /\
      (h_packet_type hdr = REL4U_PKT_CONNECT_REQ \/ h_session_id hdr = cs_session_id (server_session s j))) \/
     (h_packet_type hdr = REL4U_PKT_CONNECT_REQ /\ table_full s /\
      forall k, valid s k -> session_active (server_session s k) = true ->
        cs_last_activity_ns (server_session s j) <= cs_last_activity_ns (server_session s k))).
Proof.
  intros K Hv Ha. cbv zeta. unfold server_on_datagram.
  destruct (rel4u_packet_decode_header _ _ _ _) as [r hdr] eqn:E. destruct (Z.eqb_spec r 0) as [->|]; [|by left]. cbn [negb].
  unfold time_now_ns. cbv beta iota. set (s1 := s <| sv_stats := _ |>). assert (K1 : server_ok s1) by server_tac.
  assert (Es : forall k, server_session s1 k = server_session s k) by done.
  assert (Ev : forall k, valid s1 k <-> valid s k) by done. assert (Ef : table_full s1 <-> table_full s) by done.
  assert (Et : sv_session_table s1 = sv_session_table s) by done.
  clearbody s1. set (w1 := mk_world _ _ _ _). destruct (Z.eqb_spec (h_packet_type hdr) REL4U_PKT_CONNECT_REQ) as [Ht|Ht].
  - destruct (on_connect_others s1 w1 src (pf_clock (wd_ticks w)) ptr j K1) as [H|[H|[H1 H2]]];
      [by apply Ev|by rewrite Es|left; by rewrite H|right; exists hdr..].
    + split; [done|]. left. rewrite Es in H. split; [done|by left].
    + split; [done|]. right. split; [done|]. split; [by apply Ef|]. intros k Hk Hak. rewrite <- !Es. apply H2; [by apply Ev|by rewrite Es].
  - destruct (rel4u_session_find_by_addr _ _) as [i|] eqn:Hf; [|left; apply Es].
    destruct (find_valid s1 src i K1 Hf) as (Hvi & _ & He).
    destruct (Z.eqb_spec (cs_session_id (server_session s1 i)) (h_session_id hdr)) as [Hid|]; [|left; apply Es].
    destruct (decide (j = i)) as [->|Hj].
    + right. exists hdr. split; [done|]. left. rewrite <- Es. split; [done|by right].
    + left. by rewrite (fr_others _ _ _ (frame_on_session s1 w1 i hdr buf _ Hvi) j Hj).
Qed.

(** ** Datagrams of no session *)

(** A header without payload on the wire. *)
Lemma send_header_wire s w hdr addr : header_wf hdr -> socket_accepts (sv_sock s) ->
  wd_sent (server_send_header s w hdr addr) = wd_sent w ++ [(addr, header_bytes hdr)].
Proof.
  intros W Hacc. unfold server_send_header.
  rewrite encode_bytes by (done || (unfold REL4U_HEADER_LEN; cbn; lia)). cbn [snd].
  change (drop (Z.to_nat REL4U_HEADER_LEN) (replicate 24 0)) with (@nil Z). rewrite app_nil_r.
  destruct (sendto_accepted w (sv_sock s) (header_bytes hdr) addr Hacc) as (sent & w' & -> & _ & E); [|done].
  rewrite header_bytes_length. lia.
Qed.

Lemma control_header_wf type sid seq : is_u8 type -> is_u32 sid -> is_u32 seq -> header_wf (control_header type sid seq).
Proof. intros. constructor; cbn; try done; word_unfold; lia. Qed.

(** No session of the server is at the sender's address with that number. *)
Definition unknown_session (s : rel4u_server) (src : rel4u_net_addr) (hdr : rel4u_header) : Prop :=
  forall i, valid s i -> session_active (server_session s i) = true ->
    addr_eq (cs_addr (server_session s i)) src -> cs_session_id (server_session s i) <> h_session_id hdr.

(** C21. A packet of a session the server does not have, or has with another number,
    changes nothing but the count of received packets.  It is answered with
    exactly one RESET that echoes its session and sequence numbers, so that the
    sender can tell it is about its own packet; a RESET, DISCONNECT or REJECT is
    not answered, so two peers never answer each other's resets. *)
Theorem server_stranger_reset ptr s w buf src hdr ok : server_ok s -> datagram_ok buf ->
  rel4u_packet_decode_header pf_host buf (Z.of_nat (length buf)) header_zero = (0, hdr) ->
  h_packet_type hdr <> REL4U_PKT_CONNECT_REQ -> unknown_session s src hdr ->
  let '(s', w') := server_on_datagram ptr s w buf src ok in
  s' = s <| sv_stats := stats_recv (sv_stats s) (Z.of_nat (length buf)) |> /\
  (socket_accepts (sv_sock s) -> wd_sent w' = wd_sent w ++
     if decide (h_packet_type hdr ∈ [REL4U_PKT_RESET; REL4U_PKT_DISCONNECT; REL4U_PKT_REJECT]) then []
     else [(src, header_bytes (control_header REL4U_PKT_RESET (h_session_id hdr) (h_seq_num hdr)))]).
Proof.
  intros K Hb E Ht Hun. destruct (decode_ok _ _ _ _ Hb E) as [W _]. unfold server_on_datagram. rewrite E. cbn [Z.eqb negb].
  unfold time_now_ns. cbv beta iota. rewrite (proj2 (Z.eqb_neq _ _) Ht).
  set (s1 := s <| sv_stats := _ |>). set (w1 := mk_world _ _ _ _). assert (Ew : wd_sent w1 = wd_sent w) by done.
  assert (Esock : sv_sock s1 = sv_sock s) by done. assert (Es : forall i, server_session s1 i = server_session s i) by done.
  assert (Et : sv_session_table s1 = sv_session_table s) by done. rewrite <- Ew, <- Esock.
  assert (R : (s1, server_on_stranger s1 w1 hdr src) =
    match rel4u_session_find_by_addr (sv_session_table s1) src with
    | Some i => if cs_session_id (server_session s1 i) =? h_session_id hdr
                then server_on_session s1 w1 i hdr buf (pf_clock (wd_ticks w)) else (s1, server_on_stranger s1 w1 hdr src)
    | None => (s1, server_on_stranger s1 w1 hdr src)
    end).
  { destruct (rel4u_session_find_by_addr _ _) as [i|] eqn:Hf; [|done]. rewrite Et in Hf.
    destruct (find_valid s src i K Hf) as (Hv & Ha & He). by rewrite Es, (proj2 (Z.eqb_neq _ _) (Hun i Hv Ha He)). }
  rewrite <- R. split; [done|]. intros Hacc. unfold server_on_stranger. clear R.
  assert (Hw : header_wf (control_header REL4U_PKT_RESET (h_session_id hdr) (h_seq_num hdr))).
  { apply control_header_wf; [done|apply W|apply W]. }
  destruct (Z.eqb_spec (h_packet_type hdr) REL4U_PKT_RESET), (Z.eqb_spec (h_packet_type hdr) REL4U_PKT_DISCONNECT),
    (Z.eqb_spec (h_packet_type hdr) REL4U_PKT_REJECT); cbn [negb andb];
    case_decide as Hin; rewrite !elem_of_cons, elem_of_nil in Hin; try tauto; rewrite ?app_nil_r; try done.
  by apply send_header_wire.
Qed.

(** ** Stop *)

Lemma free_fold_inactive l : forall t, table_inv t ->
  let t' := foldl rel4u_session_free t l in
  length (tb_sessions t') = length (tb_sessions t) /\
  (forall j, (j < length (tb_sessions t))%nat -> j ∈ l \/ session_active (tb_sessions t !!! j) = false ->
     session_active (tb_sessions t' !!! j) = false).
Proof.
  induction l as [|i l IH]; intros t T; cbv zeta; cbn [foldl].
  { split; [done|]. intros j Hj [H%elem_of_nil|H]; done. }
  destruct (IH (rel4u_session_free t i) (session_free_inv t i T)) as [E1 E2].
  assert (El : length (tb_sessions (rel4u_session_free t i)) = length (tb_sessions t)).
  { unfold rel4u_session_free, session_upd. destruct (negb _); [done|]. destruct (_ >? _); cbn; by rewrite length_insert. }
  split; [congruence|]. intros j Hj Hor. apply E2; [by rewrite El|].
  destruct (decide (j = i)) as [->|Hji]; [right; by apply free_inactive|].
  destruct Hor as [[->|H]%elem_of_cons|H]; [done|by left|]. right.
  destruct (decide (i < length (tb_sessions t))%nat) as [Hi|Hi]; [by rewrite free_session, decide_False|].
  unfold rel4u_session_free. rewrite (list_lookup_total_alt (tb_sessions t) i), lookup_ge_None_2 by lia. done.
Qed.

Lemma none_active l : (forall j, (j < length l)%nat -> session_active (l !!! j) = false) -> active_count l = 0.
Proof.
  intros H. unfold active_count.
  assert (filter (fun x => session_active x = true) l = []) as ->; [|done].
  apply elem_of_nil_inv. intros x [Hx Hin]%list_elem_of_filter. apply list_elem_of_lookup in Hin as [j Hj].
  specialize (H j (lookup_lt_Some _ _ _ Hj)). rewrite (list_lookup_total_correct _ _ _ Hj) in H. congruence.
Qed.

(** Nothing of the run is left. *)
Record clean (s : rel4u_server) : Prop := {
  cn_ok : server_ok s;
  cn_sessions : forall i, valid s i -> session_active (server_session s i) = false;
  cn_count : tb_active_count (sv_session_table s) = 0;
  cn_send : q_count (sv_send_queue s) = 0;
  cn_recv : q_count (sv_recv_queue s) = 0;
  cn_pending : sv_has_pending_item s = false;
  cn_sock : sv_sock s = REL4U_INVALID_SOCKET
}.

Lemma stop_end_clean s : server_ok s -> clean (server_stop_end s).
Proof.
  intros K. pose proof (server_stop_end_ok s K) as K'.
  assert (Hs : forall i, valid (server_stop_end s) i -> session_active (server_session (server_stop_end s) i) = false).
  { intros i Hv. destruct (free_fold_inactive (seq 0 (Z.to_nat (tb_max_clients (sv_session_table s)))) _ (sk_table _ K)) as [El Ei].
    unfold valid, slots, server_session, server_stop_end in *. cbn in *. rewrite El in Hv. apply Ei; [done|]. left.
    apply elem_of_seq. pose proof (ti_length _ (sk_table _ K)). lia. }
  pose proof (queue_count_nonneg _ (sk_send_queue _ K)). pose proof (queue_count_nonneg _ (sk_recv_queue _ K)).
  constructor; try done.
  - rewrite (ti_count _ (sk_table _ K')). by apply none_active.
  - apply (pop_all_ok (S (Z.to_nat (q_count (sv_send_queue s)))) (sv_send_queue s) item_zero); [apply K|lia].
  - apply (pop_all_ok (S (Z.to_nat (q_count (sv_recv_queue s)))) (sv_recv_queue s) item_zero); [apply K|lia].
Qed.

(** C22. Stopping a running server leaves nothing of the run, whatever the worker
    still does before it is joined: no session is active, both queues are empty
    (the loops that empty them end), no message waits and the socket is closed;
    so a later start begins afresh. *)
Theorem server_stop_clean finish s w : sv_running s = true -> server_ok s ->
  (forall sw, server_ok (fst sw) -> server_ok (fst (finish sw))) ->
  let '(r, s', w') := rel4u_server_stop finish s w in r = REL4U_OK /\ clean s'.
Proof.
  intros Hr K Hf. unfold rel4u_server_stop. rewrite Hr. cbn [negb]. set (s1 := s <| sv_running := false |>).
  assert (K1 : server_ok s1) by (by apply sset_running_ok). clearbody s1.
  set (s2 := s1 <| sv_recv_queue := _ |>). assert (K2 : server_ok s2).
  { apply sset_recv_queue_ok; [done|]. apply wake_all_ok, K1. }
  clearbody s2. set (w1 := rel4u_wakeup_pipe_signal _ _). pose proof (Hf (s2, w1) K2) as K3.
  destruct (finish (s2, w1)) as [s3 w3]. split; [done|]. by apply stop_end_clean.
Qed.
End table.

(** ** Witnesses *)

#[local] Existing Instance sample_platform.

Lemma server_timers_exact_witness :
  session_active (server_session (fst (server_timers sample_server (mk_world 5004 0 [] false))) 0) = false /\
  session_active (server_session (fst (server_timers sample_server (mk_world 4000 0 [] false))) 0) = true.
Proof.
  split.
  - exact (proj2 (server_timers_exact sample_server (mk_world 5004 0 [] false) 0 sample_server_ok ltac:(vm_compute; lia))).
  - exact (proj2 (server_timers_exact sample_server (mk_world 4000 0 [] false) 0 sample_server_ok ltac:(vm_compute; lia))).
Defined.

(** A DISCONNECT with the number of the sample session from another address. *)
Definition forged_disconnect : list Z :=
  header_bytes (make_header REL4U_PKT_DISCONNECT 0 sample_session_id 0 0 0 0).
Definition other_peer : rel4u_net_addr := mk_addr (AF_INET 4001 16777343) 16.

Lemma server_isolation_witness :
  server_session (fst (server_on_datagram 0 sample_server sample_server_world forged_disconnect other_peer (true, true))) 0
  = server_session sample_server 0.
Proof.
  destruct (server_isolation 0 sample_server sample_server_world forged_disconnect other_peer 0 sample_server_ok
    ltac:(vm_compute; lia) eq_refl) as [H|(hdr & E & [[H _]|[H _]])]; [exact H|vm_compute in H; discriminate H|].
  vm_compute in E. injection E as <-. vm_compute in H. discriminate H.
Defined.

Definition stray_data : list Z := header_bytes (make_header REL4U_PKT_DATA 3 5 9 0 0 0).

Lemma server_stranger_reset_witness :
  wd_sent (snd (server_on_datagram 0 sample_server sample_server_world stray_data other_peer (true, true))) =
  wd_sent sample_server_world ++ [(other_peer, header_bytes (control_header REL4U_PKT_RESET 5 9))].
Proof.
  pose proof (server_stranger_reset 0 sample_server sample_server_world stray_data other_peer
    (make_header REL4U_PKT_DATA 3 5 9 0 0 0) (true, true) sample_server_ok) as H.
  destruct (server_on_datagram 0 sample_server sample_server_world stray_data other_peer (true, true)) as [s' w'].
  destruct H as [_ H].
  - apply (wire_datagram_ok _ []); [|constructor|done]. apply make_header_wf; word_unfold; lia.
  - vm_compute. reflexivity.
  - vm_compute. discriminate.
  - intros i Hi Ha He. exfalso. destruct i as [|[|i]]; [vm_compute in He; discriminate He|vm_compute in Ha; discriminate Ha|].
    unfold valid in Hi. vm_compute in Hi. lia.
  - cbn [snd]. apply H. split; [vm_compute; discriminate|]. intros n len Hl. exact Hl.
Defined.

Lemma server_stop_clean_witness : exists s' w',
  rel4u_server_stop (fun sw => sw) sample_server sample_server_world = (REL4U_OK, s', w') /\ clean s'.
Proof.
  pose proof (server_stop_clean (fun sw => sw) sample_server sample_server_world eq_refl sample_server_ok
    ltac:(intros sw H; exact H)) as H.
  destruct (rel4u_server_stop (fun sw => sw) sample_server sample_server_world) as [[r s'] w'].
  destruct H as [-> H]. exists s', w'. split; [reflexivity|exact H].
Defined.
