(* ===== verification/Worker.v ===== *)
(** * The worker threads as sequences of steps

    [ClientRun], [ServerRun] and the files on connections describe an endpoint by
    atomic steps that may interleave in any way.  Here the loops of
    [client_worker_thread_func] and [server_worker_thread_func] are shown to be
    such sequences: every turn of a worker is a run of its steps, which reads the
    socket dry if [poll] reports it readable and drains the send queue until it is
    empty or a window is full. *)
From S2P Require Import Prelude Ring Types Seq Packet Rtt Mpmc MpmcSpec Queue SendWindow SendSpec Send RecvWindow RecvSpec Recv RecvSafe Net Session Sessions Link Endpoint Peer Client ClientSpec ClientRun Server ServerSpec ServerRun ServerDrain.
From stdpp Require Import base numbers list gmap.
Open Scope Z_scope.
Open Scope rel4u_scope.

(** ** Runs of a loop *)

(** [while (running)] over the turns [ts] that the system calls allow: the flag is
    read before every turn, and the loop ends with the turns or when it is down. *)
Inductive worker_run {S T : Type} (running : S -> bool) (turn : S -> T -> S -> Prop) : S -> list T -> S -> Prop :=
  | run_over s : worker_run running turn s [] s
  | run_down s t ts : running s = false -> worker_run running turn s (t :: ts) s
  | run_turn s t s1 ts s2 : running s = true -> turn s t s1 -> worker_run running turn s1 ts s2 ->
      worker_run running turn s (t :: ts) s2.

(** The first [k] datagrams of the socket are the ones a receive loop handles:
    none of them is empty, and it leaves none but after an empty one, which it
    takes for the end, or when [stop] holds. *)
Definition reads_until {A} (bytes : A -> list Z) (k : nat) (ds : list A) (stop : Prop) : Prop :=
  (k <= length ds)%nat /\ Forall (fun d => bytes d <> []) (take k ds) /\
  (k = length ds \/ (exists d, ds !! k = Some d /\ bytes d = []) \/ stop).

Lemma reads_none {A} (bytes : A -> list Z) stop : reads_until bytes 0 [] stop.
Proof. split; [done|]. split; [constructor|by left]. Qed.
Lemma reads_empty {A} (bytes : A -> list Z) d ds stop : bytes d = [] -> reads_until bytes 0 (d :: ds) stop.
Proof. intros E. split; [lia|]. split; [constructor|]. right. left. by exists d. Qed.
Lemma reads_stop {A} (bytes : A -> list Z) d ds (stop : Prop) : bytes d <> [] -> stop -> reads_until bytes 1 (d :: ds) stop.
Proof. intros E Hs. split; [cbn; lia|]. rewrite firstn_cons, take_0. split; [by repeat constructor|]. by right; right. Qed.
Lemma reads_cons {A} (bytes : A -> list Z) d k ds stop : bytes d <> [] -> reads_until bytes k ds stop ->
  reads_until bytes (S k) (d :: ds) stop.
Proof.
  intros E (Hk & Hf & Hend). split; [cbn; lia|]. split; [by constructor|].
  destruct Hend as [->|[(d' & Ed & E')|Hs]]; [by left|right; left; by exists d'|by right; right].
Qed.

Section worker.
Context {platform : Platform} {allocator : Malloc}.

(** ** The client *)

#[local] Abbreviation client_datagram := (fun d : list Z * rel4u_net_addr => EvDatagram (fst d) (snd d)).

(** One turn: the clock, the handshake, the wakeup channel exactly if poll reports
    it readable, the datagrams of the socket if it is readable, the send queue and
    the timers.  Datagrams are left behind only when one of them has told the
    client to stop. *)
Definition client_turn (s : client_sys) (t : poll_fun * list (list Z * rel4u_net_addr)) (s' : client_sys) : Prop :=
  let c := fst (fst s) in
  let '(_, sock_read, pipe_read) := rel4u_net_poll (fst t) (cl_sock c) (wp_read_fd (cl_wakeup_pipe c)) in
  exists k s1, s1 = foldl run_event s ([EvTurn; EvHandshake] ++ (if pipe_read then [EvWake] else []) ++
      (client_datagram <$> take k (snd t))) /\
    (if sock_read then reads_until fst k (snd t) (cl_running (fst (fst s1)) = false) else k = 0%nat) /\
    s' = foldl run_event s1 [EvSendPending; EvTimers].

(** Only a client that has been told to stop leaves its receive loop early. *)
Lemma on_datagram_stops c w lo buf src c' w' lo' : client_on_datagram c w lo buf src = (c', w', lo', false) ->
  cl_running c' = false.
Proof.
  unfold client_on_datagram. destruct (negb _); [done|]. destruct (rel4u_packet_decode_header _ _ _ _) as [r hdr].
  destruct (negb _); [done|]. destruct (negb _); [done|]. destruct (time_now_ns w) as [now w1].
  destruct (_ && _); [by destruct (client_send_control _ _ _)|].
  destruct (_ =? REL4U_PKT_RESET); [by destruct (client_trigger_reconnect _ _)|].
  destruct (_ =? REL4U_PKT_REJECT); [by intros [= <- _ _]|]. destruct (_ =? REL4U_PKT_DISCONNECT); [by intros [= <- _ _]|].
  by destruct (if _ =? REL4U_PKT_HEARTBEAT then _ else _).
Qed.

Lemma client_recv_steps ds : forall c w lo, exists k,
  foldl run_event (c, w, lo) (client_datagram <$> take k ds) = client_recv_loop c w lo ds /\
  reads_until fst k ds (cl_running (fst (fst (client_recv_loop c w lo ds))) = false).
Proof.
  induction ds as [|[buf src] ds IH]; intros c w lo; cbn [client_recv_loop].
  { exists 0%nat. split; [done|apply reads_none]. }
  destruct (Nat.eqb_spec (length buf) 0) as [Hb|Hb].
  { exists 0%nat. split; [done|]. apply reads_empty. by apply length_zero_iff_nil. }
  assert (Hne : fst (buf, src) <> []) by (intros E; cbn in E; by subst buf).
  destruct (client_on_datagram c w lo buf src) as [[[c' w'] lo'] more] eqn:E. destruct more.
  - destruct (IH c' w' lo') as (k & Hk & Hr). exists (S k). cbn [take fmap list_fmap foldl run_event fst snd]. rewrite E.
    split; [done|]. by apply reads_cons.
  - exists 1%nat. cbn [take fmap list_fmap foldl run_event fst snd]. rewrite E, take_0. split; [done|].
    apply reads_stop; [done|]. by apply (on_datagram_stops _ _ _ _ _ _ _ _ E).
Qed.

Lemma handshake_io c w lo : cl_sock (fst (fst (client_handshake c w lo))) = cl_sock c /\
  cl_wakeup_pipe (fst (fst (client_handshake c w lo))) = cl_wakeup_pipe c.
Proof.
  unfold client_handshake. destruct (bool_decide _); [|done]. destruct (_ >=? _); [|done]. unfold client_send_control.
  pose proof (send_packet_update c w REL4U_PKT_CONNECT_REQ REL4U_MODE_UNRELIABLE_UNORDERED 0 None 0) as (st & la & ap & E).
  destruct (client_send_packet _ _ _ _ _ _ _) as [c' w']. cbn [fst] in *. by subst c'.
Qed.

Lemma client_iteration_turn c w lo poll ds :
  let '(c', w', last) := client_iteration c w (lo_last_connect_req_ns lo) poll ds in
  exists lo', client_turn (c, w, lo) (poll, ds) (c', w', lo') /\ lo_last_connect_req_ns lo' = last.
Proof.
  unfold client_iteration. destruct (time_now_ns w) as [now w1] eqn:Et. set (lo1 := mk_locals _ _ _).
  pose proof (handshake_io c w1 lo1) as [Es Ep]. destruct (client_handshake c w1 lo1) as [[c2 w2] lo2] eqn:Eh.
  cbn [fst] in Es, Ep. unfold client_turn. cbn [fst snd]. rewrite Es, Ep.
  destruct (rel4u_net_poll _ _ _) as [[pr sock_read] pipe_read]. set (w3 := if pipe_read then _ else w2).
  assert (Ew : foldl run_event (c2, w2, lo2) (if pipe_read then [EvWake] else []) = (c2, w3, lo2))
    by (unfold w3; rewrite <- Ep; by destruct pipe_read).
  clearbody w3. set (s4 := if sock_read then _ else _).
  assert (exists k, foldl run_event (c2, w3, lo2) (client_datagram <$> take k ds) = s4 /\
    (if sock_read then reads_until fst k ds (cl_running (fst (fst s4)) = false) else k = 0%nat)) as (k & Hk & Hr).
  { unfold s4. destruct sock_read; [apply client_recv_steps|by exists 0%nat]. }
  clearbody s4. destruct s4 as [[c4 w4] lo4]. destruct (client_send_pending c4 w4 lo4) as [[c5 w5] lo5] eqn:E5.
  destruct (client_timers c5 w5 lo5) as [[c6 w6] lo6] eqn:E6. exists lo6. split; [|done]. exists k, (c4, w4, lo4).
  assert (E1 : run_event (c, w, lo) EvTurn = (c, w1, lo1)) by (cbn [run_event]; by rewrite Et).
  assert (E2 : run_event (c, w1, lo1) EvHandshake = (c2, w2, lo2)) by exact Eh.
  split; [|split; [exact Hr|]].
  - rewrite !foldl_app. cbn [foldl]. by rewrite E1, E2, Ew, Hk.
  - cbn [foldl run_event]. rewrite E5. by symmetry.
Qed.

Lemma client_loop_run turns : forall c w lo,
  let '(c', w') := client_worker_loop c w (lo_last_connect_req_ns lo) turns in
  exists lo', worker_run (fun s => cl_running (fst (fst s))) client_turn (c, w, lo) turns (c', w', lo').
Proof.
  induction turns as [|[poll ds] turns IH]; intros c w lo; cbn [client_worker_loop]; [exists lo; constructor|].
  destruct (cl_running c) eqn:Hrun; [|exists lo; by constructor].
  pose proof (client_iteration_turn c w lo poll ds) as T.
  destruct (client_iteration c w _ poll ds) as [[c1 w1] last]. destruct T as (lo1 & T & <-).
  specialize (IH c1 w1 lo1). destruct (client_worker_loop _ _ _ _) as [c' w']. destruct IH as [lo' R]. exists lo'.
  by eapply run_turn.
Qed.

(** ** The server *)

#[local] Abbreviation datagram_event ptr := (fun d : list Z * rel4u_net_addr * (bool * bool) =>
  SvDatagram ptr (fst (fst d)) (snd (fst d)) (snd d)).

(** One turn: the clock, the wakeup channel exactly if poll reports it readable, all
    datagrams of the socket up to an empty one if it is readable, turns of the
    drain until it has to stop, and the timers. *)
Definition server_turn (ptr : Z) (sw : rel4u_server * world) (t : poll_fun * list (list Z * rel4u_net_addr * (bool * bool)))
    (sw' : rel4u_server * world) : Prop :=
  let s := fst sw in
  let '(_, sock_read, pipe_read) := rel4u_net_poll (fst t) (sv_sock s) (wp_read_fd (sv_wakeup_pipe s)) in
  exists k n s2, s2 = foldl run_server_event sw ([SvTurn] ++ (if pipe_read then [SvWake] else []) ++
      (datagram_event ptr <$> take k (snd t)) ++ replicate n SvDrainTurn) /\
    (if sock_read then reads_until (fun d => fst (fst d)) k (snd t) False else k = 0%nat) /\
    drain_stopped (fst s2) /\ sw' = run_server_event s2 SvTimers.

Lemma server_recv_steps ptr ds : forall s w, exists k,
  foldl run_server_event (s, w) (datagram_event ptr <$> take k ds) = server_recv_loop ptr s w ds /\
  reads_until (fun d => fst (fst d)) k ds False.
Proof.
  induction ds as [|[[buf src] ok] ds IH]; intros s w; cbn [server_recv_loop].
  { exists 0%nat. split; [done|apply reads_none]. }
  destruct (Nat.eqb_spec (length buf) 0) as [Hb|Hb].
  { exists 0%nat. split; [done|]. apply reads_empty. by apply length_zero_iff_nil. }
  destruct (server_on_datagram ptr s w buf src ok) as [s' w'] eqn:E.
  destruct (IH s' w') as (k & Hk & Hr). exists (S k). cbn [take fmap list_fmap foldl run_server_event fst snd]. rewrite E.
  split; [done|]. apply reads_cons; [|done]. intros Eb. cbn in Eb. by subst buf.
Qed.

(** The drain is a number of turns. *)
Lemma server_drain_steps fuel : forall s w, exists n,
  foldl run_server_event (s, w) (replicate n SvDrainTurn) = server_drain fuel s w.
Proof.
  induction fuel as [|fuel IH]; intros s w; [by exists 0%nat|]. rewrite server_drain_turn.
  pose proof (server_drain_turn 0 s w) as E1. destruct (drain_turn s w) as [[s' w'] []].
  - destruct (IH s' w') as [n Hn]. exists (S n). cbn [replicate foldl run_server_event]. rewrite E1. exact Hn.
  - exists 1%nat. cbn [replicate foldl run_server_event]. by rewrite E1.
Qed.

(** The datagrams a server may find in its socket. *)
Definition turn_ok (t : poll_fun * list (list Z * rel4u_net_addr * (bool * bool))) : Prop :=
  Forall (fun d => datagram_ok (fst (fst d)) /\ snd d = (true, true)) (snd t).

Lemma server_recv_ok ptr ds : Forall (fun d => datagram_ok (fst (fst d)) /\ snd d = (true, true)) ds ->
  forall s w, server_ok s -> server_ok (fst (server_recv_loop ptr s w ds)).
Proof.
  induction 1 as [|[[buf src] ok] ds [Hd Hok] _ IH]; intros s w K; cbn [server_recv_loop fst snd] in *; [done|].
  destruct (length buf =? 0)%nat; [done|]. subst ok. pose proof (server_on_datagram_ok ptr s w buf src K Hd) as K'.
  destruct (server_on_datagram _ _ _ _ _ _) as [s' w']. by apply IH.
Qed.

Lemma server_iteration_turn ptr s w poll ds : server_ok s -> turn_ok (poll, ds) ->
  server_turn ptr (s, w) (poll, ds) (server_iteration ptr s w poll ds) /\
  server_ok (fst (server_iteration ptr s w poll ds)).
Proof.
  intros K Hok. unfold server_iteration, server_turn. destruct (time_now_ns w) as [now w1] eqn:Et. cbn [fst snd].
  destruct (rel4u_net_poll _ _ _) as [[pr sock_read] pipe_read]. set (w2 := if pipe_read then _ else w1).
  assert (Ew : foldl run_server_event (s, w1) (if pipe_read then [SvWake] else []) = (s, w2)) by (unfold w2; by destruct pipe_read).
  clearbody w2. set (s3 := if sock_read then _ else _).
  assert (exists k, foldl run_server_event (s, w2) (datagram_event ptr <$> take k ds) = s3 /\
    (if sock_read then reads_until (fun d => fst (fst d)) k ds False else k = 0%nat)) as (k & Hk & Hr).
  { unfold s3. destruct sock_read; [apply server_recv_steps|by exists 0%nat]. }
  assert (K3 : server_ok (fst s3)) by (unfold s3; destruct sock_read; [by apply server_recv_ok|done]).
  clearbody s3. destruct s3 as [s3 w3]. cbn [fst] in K3.
  pose proof (backlog_drained s3 w3 K3) as [Hs K4]. unfold server_send_pending in *.
  destruct (server_drain_steps (S (S (Z.to_nat (q_count (sv_send_queue s3))))) s3 w3) as [n Hn].
  destruct (server_drain _ s3 w3) as [s4 w4]. cbn [fst] in *. split; [|by apply server_timers_ok].
  exists k, n, (s4, w4). split; [|done]. rewrite !foldl_app. cbn [foldl snd].
  assert (E1 : run_server_event (s, w) SvTurn = (s, w1)) by (cbn [run_server_event]; by rewrite Et).
  by rewrite E1, Ew, Hk, Hn.
Qed.

Lemma server_loop_run ptr turns : Forall turn_ok turns -> forall s w, server_ok s ->
  worker_run (fun sw => sv_running (fst sw)) (server_turn ptr) (s, w) turns (server_worker_loop ptr s w turns).
Proof.
  induction 1 as [|[poll ds] turns Hok _ IH]; intros s w K; cbn [server_worker_loop]; [constructor|].
  destruct (sv_running s) eqn:Hrun; [|by constructor].
  destruct (server_iteration_turn ptr s w poll ds K Hok) as [T K1].
  destruct (server_iteration ptr s w poll ds) as [s1 w1]. eapply run_turn; [exact Hrun|exact T|]. by apply IH.
Qed.

(** C14. The worker threads refine the atomic steps.  Whatever [poll] reports and the
    sockets hold, the client's and the server's worker loop run turn after turn as
    long as they are not told to stop, and a turn is a sequence of the steps in the
    order of the loop's body: the wakeup channel is emptied exactly when poll
    reports it readable, a readable socket is read until it is empty, an empty
    datagram is met or, in the client, a datagram stops the thread, and the server
    drains its send queue until it is empty or the next message's window is full.
    Of the server: it starts well formed, its datagrams fit the receive buffer and
    the allocations of new sessions succeed. *)
Theorem workers_refine_steps c w lo turns ptr s ws server_turns :
  server_ok s -> Forall turn_ok server_turns ->
  (let '(c', w') := client_worker_loop c w (lo_last_connect_req_ns lo) turns in
   exists lo', worker_run (fun s => cl_running (fst (fst s))) client_turn (c, w, lo) turns (c', w', lo')) /\
  worker_run (fun sw => sv_running (fst sw)) (server_turn ptr) (s, ws) server_turns
    (server_worker_loop ptr s ws server_turns).
Proof. intros K Hok. split; [apply client_loop_run|by apply server_loop_run]. Qed.
End worker.

(** ** Witness *)

#[local] Existing Instance sample_platform.

(** Two turns of the running server: in the first one the socket has the client's
    request once more, and the queue two messages for it. *)
Definition poll_socket : poll_fun := fun fds => (1, POLLIN :: replicate (length fds - 1) 0).
Definition sample_turns : list (poll_fun * list (list Z * rel4u_net_addr * (bool * bool))) :=
  [(poll_socket, [(sample_request, sample_peer, (true, true))]); (fun fds => (0, replicate (length fds) 0), [])].

Lemma workers_refine_steps_witness : length (wd_sent (snd (server_worker_loop 0 sample_server sample_server_world sample_turns))) = 4%nat /\
  worker_run (fun sw => sv_running (fst sw)) (server_turn 0) (sample_server, sample_server_world) sample_turns
    (server_worker_loop 0 sample_server sample_server_world sample_turns).
Proof.
  split; [vm_compute; reflexivity|].
  refine (proj2 (workers_refine_steps sample_client sample_server_world (mk_locals REL4U_STATE_CONNECTED 0 0) [] 0 sample_server
    sample_server_world sample_turns sample_server_ok _)).
  apply Forall_cons_2; [|apply Forall_cons_2; [by constructor|constructor]].
  apply Forall_cons_2; [|constructor]. split; [|done]. cbn [fst]. apply (wire_datagram_ok _ []); [|constructor|done].
  apply make_header_wf; word_unfold; lia.
Defined.
