(* ===== verification/Connection.v ===== *)
(** * A client and a server

    The two endpoints composed: the datagrams one sends are what the other
    receives.  The hosts may have different byte orders, clocks and sockets, so
    each side runs on a platform of its own. *)
From S2P Require Import Prelude Ring Types Seq Packet Rtt Mpmc MpmcSpec Queue SendWindow SendSpec Send RecvWindow RecvSpec Recv RecvSafe Net Session Sessions Link Endpoint Peer Client ClientSpec ClientRun Server ServerSpec ServerRun ServerTable.
From stdpp Require Import base numbers list gmap.
Open Scope Z_scope.
Open Scope rel4u_scope.

(** ** Packets between them *)

(** A control packet: a header whose payload is empty. *)
Definition control_packet (type session ack sack : Z) : rel4u_header :=
  make_header type REL4U_MODE_UNRELIABLE_UNORDERED session 0 0 ack sack.

(** What a host reads from a control packet of the other. *)
Lemma decode_control host type session ack sack : is_u8 type -> is_u32 session -> is_u32 ack -> is_u32 sack ->
  let d := header_bytes (control_packet type session ack sack) in
  datagram_ok d /\ length d = 24%nat /\
  rel4u_packet_decode_header host d (Z.of_nat (length d)) header_zero = (0, control_packet type session ack sack) /\
  h_packet_type (control_packet type session ack sack) = type.
Proof.
  intros Ht Hs Ha Hk. cbv zeta.
  assert (W : header_wf (control_packet type session ack sack)) by (apply make_header_wf; [done|word_unfold; lia|done|done]).
  split; [rewrite <- (app_nil_r (header_bytes _)); by apply wire_datagram_ok|]. split; [apply header_bytes_length|].
  split; [|by apply u8_small]. rewrite <- (app_nil_r (header_bytes _)). by apply decode_wire.
Qed.

Section sides.
Context {platform : Platform} {allocator : Malloc}.

(** ** The client's part of the handshake *)

Lemma client_control_wire c w type : client_ok c -> socket_accepts (cl_sock c) ->
  exists ack sack, is_u32 ack /\ is_u32 sack /\
  wd_sent (snd (client_send_control c w type)) =
    wd_sent w ++ [(cl_server_addr c, header_bytes (control_packet type (cl_session_id c) ack sack))].
Proof.
  intros K Hacc. unfold client_send_control.
  pose proof (send_packet_wire c w type REL4U_MODE_UNRELIABLE_UNORDERED 0 None 0 K ltac:(word_unfold; lia) ltac:(lia)) as P.
  pose proof (ack_info_u32 (cl_recv_win c)) as [Ha Hk]. destruct (rel4u_recv_window_get_ack_info _) as [ack sack].
  exists ack, sack. split; [done|]. split; [done|]. destruct P as [_ P]. rewrite (P Hacc). cbn [packet_body]. by rewrite app_nil_r.
Qed.

(** The next request is due. *)
Definition request_due (c : rel4u_client) (lo : client_locals) : Prop :=
  let interval := cc_reconnect_interval_ms (cl_config c) in
  let retry_ms := if (interval >? 0) && (interval <? 200) then interval else 200 in
  u64 (retry_ms * 1000000) <= u64 (lo_now_ns lo - lo_last_connect_req_ns lo).

Lemma handshake_request c w lo : client_ok c -> socket_accepts (cl_sock c) ->
  lo_state lo = REL4U_STATE_CONNECTING -> request_due c lo ->
  let '(c', w', lo') := client_handshake c w lo in
  sent_update c c' /\ lo_state lo' = REL4U_STATE_CONNECTING /\
  exists ack sack, is_u32 ack /\ is_u32 sack /\ wd_sent w' = wd_sent w ++
    [(cl_server_addr c, header_bytes (control_packet REL4U_PKT_CONNECT_REQ (cl_session_id c) ack sack))].
Proof.
  intros K Hacc Hlo Hdue. unfold client_handshake. rewrite bool_decide_eq_true_2 by done. cbv zeta.
  rewrite (proj2 (Z.geb_le _ _) Hdue). pose proof (client_control_wire c w REL4U_PKT_CONNECT_REQ K Hacc) as P.
  pose proof (send_packet_update c w REL4U_PKT_CONNECT_REQ REL4U_MODE_UNRELIABLE_UNORDERED 0 None 0) as U.
  unfold client_send_control in *. by destruct (client_send_packet c w _ _ _ _ _) as [c' w'].
Qed.

Lemma client_gets_response c w lo sid ack sack src : client_ok c -> socket_accepts (cl_sock c) ->
  lo_state lo = REL4U_STATE_CONNECTING -> addr_eq src (cl_server_addr c) ->
  is_u32 sid -> sid <> 0 -> is_u32 ack -> is_u32 sack ->
  let '(c', w', lo', more) :=
    client_on_datagram c w lo (header_bytes (control_packet REL4U_PKT_CONNECT_RESP sid ack sack)) src in
  client_ok c' /\ cl_state c' = REL4U_STATE_CONNECTED /\ lo_state lo' = REL4U_STATE_CONNECTED /\ more = true /\
  cl_session_id c' = sid /\ cl_send_win c' = cl_send_win c /\ cl_recv_win c' = cl_recv_win c /\
  cl_send_queue c' = cl_send_queue c /\ cl_recv_queue c' = cl_recv_queue c /\
  exists ack' sack', is_u32 ack' /\ is_u32 sack' /\ wd_sent w' = wd_sent w ++
    [(cl_server_addr c, header_bytes (control_packet REL4U_PKT_CONNECT_ACK sid ack' sack'))].
Proof.
  intros K Hacc Hlo He Hs Hn Ha Hk.
  destruct (decode_control pf_host REL4U_PKT_CONNECT_RESP sid ack sack ltac:(done) Hs Ha Hk) as (Hd & Hl & Ed & Et).
  set (d := header_bytes _) in *. pose proof (on_datagram_ok c w lo d src K Hd) as Kd. revert Kd.
  unfold client_on_datagram. unfold addr_eq in He. rewrite He. cbn [negb]. rewrite Ed. cbn [Z.eqb negb].
  assert (Hacc' : client_accepts (lo_state lo) (cl_session_id c) (control_packet REL4U_PKT_CONNECT_RESP sid ack sack) = true).
  { unfold client_accepts. rewrite Et. cbn [Z.eqb REL4U_PKT_CONNECT_RESP REL4U_PKT_REJECT Pos.eqb].
    rewrite bool_decide_eq_true_2 by done. change (h_session_id _) with sid. by rewrite (proj2 (Z.eqb_neq _ _) Hn). }
  rewrite Hacc'. cbn [negb]. unfold time_now_ns at 1 2. cbv beta iota. cbn [lo_state]. rewrite Et, Z.eqb_refl.
  rewrite bool_decide_eq_true_2 by done. cbn [andb].
  change (h_session_id (control_packet REL4U_PKT_CONNECT_RESP sid ack sack)) with sid.
  set (w1 := mk_world _ _ _ _). assert (Ew : wd_sent w1 = wd_sent w) by done. clearbody w1.
  set (now := pf_clock _). set (c1 := c <| cl_last_activity_ns := now |>).
  assert (K1 : client_ok c1) by client_tac. set (c2 := c1 <| cl_stats := _ |>).
  assert (K2 : client_ok c2) by client_tac. set (c3 := c2 <| cl_session_id := sid |> <| cl_state := REL4U_STATE_CONNECTED |>).
  assert (K3 : client_ok c3) by (destruct K2; by constructor).
  assert (F3 : cl_session_id c3 = sid /\ cl_state c3 = REL4U_STATE_CONNECTED /\ cl_sock c3 = cl_sock c /\
    cl_server_addr c3 = cl_server_addr c /\ cl_send_win c3 = cl_send_win c /\ cl_recv_win c3 = cl_recv_win c /\
    cl_send_queue c3 = cl_send_queue c /\ cl_recv_queue c3 = cl_recv_queue c) by done.
  clearbody c3. destruct F3 as (F1 & F2 & F4 & F5 & F6 & F7 & F8 & F9).
  destruct (client_control_wire c3 w1 REL4U_PKT_CONNECT_ACK K3 ltac:(by rewrite F4)) as (a' & k' & Ha' & Hk' & Hw).
  pose proof (send_packet_update c3 w1 REL4U_PKT_CONNECT_ACK REL4U_MODE_UNRELIABLE_UNORDERED 0 None 0) as U.
  unfold client_send_control in *. destruct (client_send_packet c3 w1 _ _ _ _ _) as [c4 w4]. cbn [fst snd] in *.
  destruct U as (st & la & ap & ->). intros Kf. split; [exact Kf|]. rewrite F1, F5, Ew in Hw.
  cbn [lo_state cl_state cl_session_id cl_send_win cl_recv_win cl_send_queue cl_recv_queue].
  split_and!; try done. by exists a', k'.
Qed.

(** ** The server's part of the handshake *)

Lemma server_send_wire s w i type mode seq payload len : server_ok s -> valid s i -> is_u32 seq -> 0 <= len ->
  socket_accepts (sv_sock s) ->
  exists ack sack, is_u32 ack /\ is_u32 sack /\ wd_sent (snd (server_send_packet s w i type mode seq payload len)) = wd_sent w ++
    [(cs_addr (server_session s i),
      header_bytes (make_header type mode (cs_session_id (server_session s i)) seq len ack sack) ++ packet_body payload len)].
Proof.
  intros K Hv Hs Hl Hacc. unfold server_send_packet. pose proof (ack_info_u32 (cs_recv_win (server_session s i))) as [Ha Hk].
  destruct (rel4u_recv_window_get_ack_info _) as [ack sack]. exists ack, sack. cbn [fst snd] in *. split; [done|]. split; [done|].
  pose proof (session_ok_at _ _ K Hv) as So. set (hdr := make_header _ _ _ _ _ _ _).
  assert (W : header_wf hdr) by (apply make_header_wf; [apply So|done|done|done]).
  rewrite encode_packet_wire by done.
  destruct (sendto_accepted w (sv_sock s) (header_bytes hdr ++ packet_body payload len) (cs_addr (server_session s i)) Hacc)
    as (sent & w1 & E & Hpos & Hw); [rewrite length_app, header_bytes_length; lia|].
  rewrite E, (proj2 (Z.gtb_lt _ _)) by done. exact Hw.
Qed.

(** A session ready for its first packets. *)
Record session_open (src : rel4u_net_addr) (sid : Z) (state : rel4u_conn_state) (x : rel4u_client_session) : Prop := {
  so_id : cs_session_id x = sid;
  so_addr : cs_addr x = src;
  so_state : cs_state x = state;
  so_send : send_rep (cs_send_win x) 1 [];
  so_expected : rw_expected_seq (cs_recv_win x) = 1;
  so_empty : Forall (fun y => rs_received y = false) (rw_slots (cs_recv_win x))
}.

Lemma server_gets_request ptr s w sid0 ack sack src : server_ok s -> socket_accepts (sv_sock s) -> ip_addr src ->
  is_u32 sid0 -> is_u32 ack -> is_u32 sack ->
  rel4u_session_find_by_addr (sv_session_table s) src = None ->
  tb_active_count (sv_session_table s) < tb_max_clients (sv_session_table s) ->
  let '(s', w') := server_on_datagram ptr s w
    (header_bytes (control_packet REL4U_PKT_CONNECT_REQ sid0 ack sack)) src (true, true) in
  server_ok s' /\ exists i sid, rel4u_session_find_by_addr (sv_session_table s') src = Some i /\
    sid <> 0 /\ is_u32 sid /\ session_open src sid REL4U_STATE_CONNECTING (server_session s' i) /\
    exists ack' sack', is_u32 ack' /\ is_u32 sack' /\ wd_sent w' = wd_sent w ++
      [(src, header_bytes (control_packet REL4U_PKT_CONNECT_RESP sid ack' sack'))].
Proof.
  intros K Hacc Hip Hs0 Ha Hk Hf Hroom.
  destruct (decode_control pf_host REL4U_PKT_CONNECT_REQ sid0 ack sack ltac:(done) Hs0 Ha Hk) as (Hd & Hl & Ed & Et).
  set (d := header_bytes _) in *. pose proof (server_on_datagram_ok ptr s w d src K Hd) as Kd. revert Kd.
  unfold server_on_datagram. rewrite Ed. cbn [Z.eqb negb]. unfold time_now_ns. cbv beta iota. rewrite Et, Z.eqb_refl.
  set (s1 := s <| sv_stats := _ |>). assert (K1 : server_ok s1) by server_tac.
  assert (F1 : sv_session_table s1 = sv_session_table s /\ sv_sock s1 = sv_sock s) by done. clearbody s1.
  destruct F1 as [Ft Fs]. rewrite <- Ft in *. rewrite <- Fs in Hacc. clear Ft Fs K s.
  set (now := pf_clock _). assert (Hnow : 0 <= now < UINT64_MAX) by apply clock_time.
  set (w1 := mk_world _ _ _ _). assert (Ew : wd_sent w1 = wd_sent w) by done. clearbody w1. unfold server_on_connect.
  rewrite Hf. cbv zeta. set (sid := if u32 _ =? 0 then _ else _).
  assert (Hsid : is_u32 sid /\ sid <> 0).
  { unfold sid. destruct (Z.eqb_spec (u32 (Z.lxor now ptr)) 0); split; try done; apply u32_range. }
  destruct Hsid as [Hsid Hnz]. clearbody sid.
  pose proof (allocate_spec (sv_session_table s1) src sid (sk_table _ K1) Hsid Hf) as A.
  pose proof (allocate_length (sv_session_table s1) src sid (true, true)) as El.
  destruct (rel4u_session_allocate _ _ _ _) as [[[i|] ev] t]; [|destruct A as (_ & _ & A & _); lia].
  destruct A as (x & Hx & _ & T & Hfr & _). cbn [snd] in El.
  set (s2 := s1 <| sv_session_table := t |>). assert (K2 : server_ok s2) by (by apply sset_table_ok).
  assert (Hv2 : valid s2 i) by (unfold valid, slots, s2; cbn; rewrite El; by eapply lookup_lt_Some).
  assert (E2 : server_session s2 i = tb_sessions t !!! i) by done. assert (Es : sv_sock s2 = sv_sock s1) by done. clearbody s2.
  set (f := fun x : rel4u_client_session => x <| cs_last_activity_ns := now |> <| cs_last_heartbeat_sent_ns := now |>).
  set (s3 := server_upd s2 i f). assert (K3 : server_ok s3) by (apply server_upd_ok; [done|by apply activity_step]).
  assert (Hv3 : valid s3 i) by (by apply server_upd_valid). assert (Es3 : sv_sock s3 = sv_sock s2) by done.
  assert (E3 : server_session s3 i = f (tb_sessions t !!! i)) by (unfold s3; by rewrite server_upd_same, E2). clearbody s3.
  assert (So : session_open src sid REL4U_STATE_CONNECTING (server_session s3 i)) by (rewrite E3; destruct Hfr; by constructor).
  clear Hfr E3.
  destruct (server_send_wire s3 w1 i REL4U_PKT_CONNECT_RESP REL4U_MODE_UNRELIABLE_UNORDERED 0 None 0 K3 Hv3
    ltac:(word_unfold; lia) ltac:(lia) ltac:(by rewrite Es3, Es)) as (a' & k' & Ha' & Hk' & Hw).
  pose proof (server_send_update s3 w1 i REL4U_PKT_CONNECT_RESP REL4U_MODE_UNRELIABLE_UNORDERED 0 None 0) as U.
  unfold server_send_control. destruct (server_send_packet s3 w1 i _ _ _ _ _) as [s4 w4]. cbn [fst snd] in *.
  intros K4. split; [done|]. destruct (sent_from_session _ _ _ i U Hv3) as (G1 & G2 & G3 & _ & G5 & G6).
  assert (So4 : session_open src sid REL4U_STATE_CONNECTING (server_session s4 i)).
  { destruct So. constructor; congruence. }
  exists i, sid. split_and!; try done.
  - apply (find_by_addr_spec _ _ _ (sk_table _ K4)). exists (server_session s4 i).
    split; [apply list_lookup_lookup_total_lt, (sent_from_valid _ _ _ _ U), Hv3|].
    split; [unfold session_active; by rewrite (so_state _ _ _ _ So4)|]. rewrite (so_addr _ _ _ _ So4). by apply addr_eq_refl.
  - exists a', k'. split; [done|]. split; [done|]. rewrite Hw, Ew. cbn [packet_body]. rewrite app_nil_r.
    by rewrite (so_addr _ _ _ _ So), (so_id _ _ _ _ So).
Qed.

Lemma server_gets_ack ptr s w i sid ack sack src ok : server_ok s -> is_u32 sid -> is_u32 ack -> is_u32 sack ->
  rel4u_session_find_by_addr (sv_session_table s) src = Some i ->
  session_open src sid REL4U_STATE_CONNECTING (server_session s i) ->
  let '(s', w') := server_on_datagram ptr s w
    (header_bytes (control_packet REL4U_PKT_CONNECT_ACK sid ack sack)) src ok in
  session_open src sid REL4U_STATE_CONNECTED (server_session s' i) /\ valid s' i /\ wd_sent w' = wd_sent w.
Proof.
  intros K Hs Ha Hk Hf So.
  destruct (decode_control pf_host REL4U_PKT_CONNECT_ACK sid ack sack ltac:(done) Hs Ha Hk) as (Hd & Hl & Ed & Et).
  unfold server_on_datagram. rewrite Ed. cbn [Z.eqb negb]. unfold time_now_ns. cbv beta iota. rewrite Et.
  rewrite (proj2 (Z.eqb_neq REL4U_PKT_CONNECT_ACK REL4U_PKT_CONNECT_REQ)) by done.
  set (s1 := s <| sv_stats := _ |>). assert (K1 : server_ok s1) by server_tac.
  assert (Ft : sv_session_table s1 = sv_session_table s) by done. assert (Es : server_session s1 i = server_session s i) by done.
  clearbody s1. rewrite Ft, Hf. rewrite <- Ft in Hf. destruct (find_valid s1 src i K1 Hf) as (Hv & _ & _).
  rewrite <- Es in So. rewrite (so_id _ _ _ _ So). change (h_session_id (control_packet _ sid _ _)) with sid.
  rewrite Z.eqb_refl. unfold server_on_session. rewrite Et, Z.eqb_refl.
  set (now := pf_clock _). change (s1 <| sv_session_table := rel4u_session_touch_lru (sv_session_table s1) i now |>)
    with (server_upd s1 i (fun x => x <| cs_last_activity_ns := now |>)).
  set (f1 := fun x : rel4u_client_session => _). set (f2 := session_promote _).
  assert (Hv1 : valid (server_upd s1 i f1) i) by (by apply server_upd_valid).
  split; [|split; [by apply server_upd_valid|done]]. rewrite !server_upd_same by done.
  destruct So. unfold f2, session_promote, f1. rewrite bool_decide_eq_true_2 by done. by constructor.
Qed.
End sides.

(** ** The handshake *)

(** The client [c] and session [i] of the server [s] are two ends of one
    connection. *)
Record connected (c : rel4u_client) (lo : client_locals) (s : rel4u_server) (i : nat) (client_addr : rel4u_net_addr)
  : Prop := {
  cx_client : client_ok c;
  cx_server : server_ok s;
  cx_state : cl_state c = REL4U_STATE_CONNECTED;
  cx_local : lo_state lo = REL4U_STATE_CONNECTED;
  cx_lookup : rel4u_session_find_by_addr (sv_session_table s) client_addr = Some i;
  cx_session_state : cs_state (server_session s i) = REL4U_STATE_CONNECTED;
  cx_number : cs_session_id (server_session s i) = cl_session_id c;
  cx_nonzero : cl_session_id c <> 0
}.

Section handshake.
Context {allocator : Malloc}.
(** The hosts of the client and of the server. *)
Variables host_c host_s : Platform.
(** The addresses under which the server sees the client, and the client the server. *)
Variables client_addr server_addr : rel4u_net_addr.

Lemma find_open s i sid state : server_ok s -> valid s i -> ip_addr client_addr -> state <> REL4U_STATE_DISCONNECTED ->
  session_open client_addr sid state (server_session s i) ->
  rel4u_session_find_by_addr (sv_session_table s) client_addr = Some i.
Proof.
  intros K Hv Hip Hst So. apply (find_by_addr_spec _ _ _ (sk_table _ K)). exists (server_session s i).
  split; [by apply list_lookup_lookup_total_lt|]. split.
  - unfold session_active. by rewrite (so_state _ _ _ _ So), bool_decide_eq_false_2.
  - rewrite (so_addr _ _ _ _ So). by apply addr_eq_refl.
Qed.

(** C5. A client that is connecting and a server with room for it are connected
    after one exchange of the three handshake packets, whatever the byte orders
    of the two hosts: the request makes a session for the client's address, the
    response carries its nonzero number to the client, and the client's
    acknowledgement makes the session connected.  Both directions then start at
    sequence number 1 with nothing outstanding on the server, and the client's
    windows and queues are those it started with. *)
Theorem handshake_connects c wc lo s ws ptr ptr' :
  client_ok c -> server_ok s ->
  @socket_accepts host_c (cl_sock c) -> @socket_accepts host_s (sv_sock s) ->
  lo_state lo = REL4U_STATE_CONNECTING -> request_due c lo ->
  addr_eq server_addr (cl_server_addr c) -> ip_addr client_addr ->
  rel4u_session_find_by_addr (sv_session_table s) client_addr = None ->
  tb_active_count (sv_session_table s) < tb_max_clients (sv_session_table s) ->
  let '(c1, wc1, lo1) := @client_handshake host_c c wc lo in
  exists request, wd_sent wc1 = wd_sent wc ++ [(cl_server_addr c, request)] /\
  let '(s1, ws1) := @server_on_datagram host_s _ ptr s ws request client_addr (true, true) in
  exists response, wd_sent ws1 = wd_sent ws ++ [(client_addr, response)] /\
  let '(c2, wc2, lo2, more) := @client_on_datagram host_c _ c1 wc1 lo1 response server_addr in
  exists ack, wd_sent wc2 = wd_sent wc1 ++ [(cl_server_addr c, ack)] /\
  let '(s2, ws2) := @server_on_datagram host_s _ ptr' s1 ws1 ack client_addr (true, true) in
  exists i, connected c2 lo2 s2 i client_addr /\
    session_open client_addr (cl_session_id c2) REL4U_STATE_CONNECTED (server_session s2 i) /\
    cl_send_win c2 = cl_send_win c /\ cl_recv_win c2 = cl_recv_win c /\ cl_send_queue c2 = cl_send_queue c.
Proof.
  intros Kc Ks Ac As Hlo Hdue He Hip Hf Hroom.
  pose proof (@handshake_request host_c c wc lo Kc Ac Hlo Hdue) as R1.
  destruct (@client_handshake host_c c wc lo) as [[c1 wc1] lo1]. destruct R1 as (U & Hlo1 & a1 & k1 & Ha1 & Hk1 & Hw1).
  eexists. split; [exact Hw1|].
  assert (Kc1 : client_ok c1) by (eapply client_ok_core; [by apply sent_update_core|done]).
  assert (G : cl_sock c1 = cl_sock c /\ cl_server_addr c1 = cl_server_addr c /\ cl_send_win c1 = cl_send_win c /\
    cl_recv_win c1 = cl_recv_win c /\ cl_send_queue c1 = cl_send_queue c) by (by destruct U as (? & ? & ? & ->)).
  destruct G as (G1 & G2 & G3 & G4 & G5).
  pose proof (@server_gets_request host_s _ ptr s ws (cl_session_id c) a1 k1 client_addr Ks As Hip (ck_session _ Kc) Ha1 Hk1 Hf Hroom) as R2.
  destruct (@server_on_datagram host_s _ ptr s ws _ client_addr (true, true)) as [s1 ws1].
  destruct R2 as (Ks1 & i & sid & Hf1 & Hnz & Hsid & So1 & a2 & k2 & Ha2 & Hk2 & Hw2).
  eexists. split; [exact Hw2|].
  pose proof (@client_gets_response host_c _ c1 wc1 lo1 sid a2 k2 server_addr Kc1 ltac:(by rewrite G1) Hlo1
    ltac:(by rewrite G2) Hsid Hnz Ha2 Hk2) as R3.
  destruct (@client_on_datagram host_c _ c1 wc1 lo1 _ server_addr) as [[[c2 wc2] lo2] more].
  destruct R3 as (Kc2 & Hst & Hlo2 & _ & Hid & Hsw & Hrw & Hsq & _ & a3 & k3 & Ha3 & Hk3 & Hw3).
  eexists. split; [rewrite <- G2; exact Hw3|].
  pose proof (@server_gets_ack host_s _ ptr' s1 ws1 i sid a3 k3 client_addr (true, true) Ks1 Hsid Ha3 Hk3 Hf1 So1) as R4.
  destruct (decode_control LittleEndian REL4U_PKT_CONNECT_ACK sid a3 k3 ltac:(done) Hsid Ha3 Hk3) as (Hd & _).
  pose proof (@server_on_datagram_ok host_s _ ptr' s1 ws1 _ client_addr Ks1 Hd) as Ks2.
  destruct (@server_on_datagram host_s _ ptr' s1 ws1 _ client_addr (true, true)) as [s2 ws2]. destruct R4 as (So2 & Hv2 & _).
  exists i. rewrite Hid. split; [|split_and!; [done|congruence..]].
  constructor; try done; rewrite ?Hid; [|apply So2|apply So2|done]. by apply (find_open s2 i sid REL4U_STATE_CONNECTED).
Qed.
End handshake.

(** ** A message *)

Section message_sides.
Context {platform : Platform} {allocator : Malloc}.

(** One turn of the client's drain, with a reliable message at the head of the
    queue and room in the window: the packet has the next sequence number. *)
Lemma client_sends_next c w now item m rest n h es : client_ok c -> socket_accepts (cl_sock c) ->
  q_rep (cl_send_queue c) (mk_bqueue (m :: rest) n) -> reliable_msg m -> send_rep (cl_send_win c) h es ->
  Z.of_nat (length es) < sw_capacity (cl_send_win c) ->
  let '(c', w', _) := client_drain 1 c w now item in
  exists ack sack, is_u32 ack /\ is_u32 sack /\ m_len m <= REL4U_MAX_PAYLOAD_SIZE /\
    wd_sent w' = wd_sent w ++ [(cl_server_addr c,
      header_bytes (make_header REL4U_PKT_DATA (m_mode m) (cl_session_id c) (u32 (h + Z.of_nat (length es)))
        (m_len m) ack sack) ++ m_data m)].
Proof.
  intros K Hacc Hq Hm R Hroom. cbn [client_drain]. rewrite (can_send_spec _ _ _ R), (proj2 (Z.ltb_lt _ _) Hroom).
  pose proof (pop_spec (cl_send_queue c) _ item Hq) as P. unfold rel4u_mpmc_try_pop, bq_pop in *. cbn [bq_msgs] in P.
  destruct (mpmc_pop_head_locked _ _) as [[ok q] it]. destruct P as (-> & Em & Hq1 & _ & Hit).
  set (c1 := c <| cl_send_queue := q |>). assert (K1 : client_ok c1) by (apply set_send_queue_ok; [done|by eexists]).
  assert (G1 : cl_sock c1 = cl_sock c /\ cl_server_addr c1 = cl_server_addr c /\ cl_session_id c1 = cl_session_id c /\
    cl_send_win c1 = cl_send_win c) by done. clearbody c1. destruct G1 as (G1 & G2 & G3 & G4).
  unfold time_now_ns. cbv beta iota. set (now1 := pf_clock _). set (w1 := mk_world _ _ _ _).
  assert (Ew : wd_sent w1 = wd_sent w) by done. clearbody w1. pose proof Hit as [Hwf Hmax]. pose proof Hwf as [Hl _].
  assert (Hm' : mode_reliable (it_mode it) = true) by (by rewrite <- Em in Hm).
  pose proof (push_reliable (cl_send_win c1) h es (it_mode it) (it_data it) (it_len it) now1 ltac:(by rewrite G4) Hm'
    (clock_u64 _) Hl Hmax) as P.
  pose proof (send_push_ok (cl_send_win c1) (it_mode it) (it_data it) (it_len it) now1 (ck_send _ K1) (clock_u64 _) Hl Hmax) as Ok.
  cbv zeta in P. rewrite G4, (proj2 (Z.ltb_lt _ _) Hroom), <- G4 in P.
  destruct P as (sw & payload & E & _). rewrite E in Ok |- *. destruct Ok as [Hsok _].
  cbn [Z.eqb default from_option]. unfold id.
  set (c2 := c1 <| cl_send_win := sw |>). assert (K2 : client_ok c2) by (by apply set_send_win_ok).
  assert (G2' : cl_sock c2 = cl_sock c1 /\ cl_server_addr c2 = cl_server_addr c1 /\ cl_session_id c2 = cl_session_id c1) by done.
  clearbody c2. destruct G2' as (G5 & G6 & G7).
  pose proof (send_packet_wire c2 w1 REL4U_PKT_DATA (it_mode it) (u32 (h + Z.of_nat (length es))) (Some (it_data it)) (it_len it)
    K2 (u32_range _) ltac:(lia)) as Hw.
  pose proof (ack_info_u32 (cl_recv_win c2)) as [Ha Hk].
  destruct (rel4u_recv_window_get_ack_info (cl_recv_win c2)) as [ack sack]. destruct Hw as [_ Hw].
  specialize (Hw ltac:(by rewrite G5, G1)). destruct (client_send_packet c2 w1 _ _ _ _ _) as [c3 w3]. cbn [snd] in Hw.
  exists ack, sack. split; [done|]. split; [done|]. rewrite <- Em, item_msg_len by done. split; [done|].
  rewrite Hw, Ew, G6, G2, G7, G3. done.
Qed.

(** A data packet of its stream reaches a session. *)
Lemma server_gets_data content p0 ptr s w i sid hdr body src ok p ds q : server_ok s ->
  rel4u_session_find_by_addr (sv_session_table s) src = Some i -> cs_session_id (server_session s i) = sid ->
  header_wf hdr -> h_magic hdr = REL4U_MAGIC -> h_version hdr = REL4U_VERSION -> h_packet_type hdr = REL4U_PKT_DATA ->
  h_session_id hdr = sid -> Forall is_u8 body -> Z.of_nat (length body) = h_payload_len hdr ->
  recv_hist content p0 (cs_recv_win (server_session s i)) p ds -> carries content hdr body q -> near q p ->
  let '(s', w') := server_on_datagram ptr s w (header_bytes hdr ++ body) src ok in
  exists p' ds' items, recv_hist content p0 (cs_recv_win (server_session s' i)) p' (ds ++ ds') /\ p <= p' /\
    sv_recv_queue s' = push_all (sv_recv_queue s) items /\
    item_msg <$> items = queue_msg content (Z.of_nat i) <$> ds' /\
    (q < p + rw_capacity (cs_recv_win (server_session s i)) ->
     arrived (cs_recv_win (server_session s' i)) p' q /\ cs_ack_pending (server_session s' i) = true /\
     ~ held (cs_recv_win (server_session s' i)) p' p').
Proof.
  intros K Hf Hid W Hmg Hvs Hty Hsid Hb Hl H C Hn. unfold server_on_datagram.
  rewrite (decode_wire pf_host hdr body header_zero W Hmg Hvs Hb Hl). cbn [Z.eqb negb]. unfold time_now_ns. cbv beta iota.
  rewrite Hty, (proj2 (Z.eqb_neq REL4U_PKT_DATA REL4U_PKT_CONNECT_REQ)) by done.
  set (s1 := s <| sv_stats := _ |>). assert (K1 : server_ok s1) by server_tac.
  assert (F1 : sv_session_table s1 = sv_session_table s /\ sv_recv_queue s1 = sv_recv_queue s /\
    server_session s1 i = server_session s i) by done. clearbody s1. destruct F1 as (Ft & Fq & Fs).
  rewrite Ft, Hf, Fs, Hid, Hsid, Z.eqb_refl. rewrite <- Ft in Hf. destruct (find_valid s1 src i K1 Hf) as (Hv & _).
  unfold server_on_session. rewrite Hty.
  rewrite (proj2 (Z.eqb_neq REL4U_PKT_DATA REL4U_PKT_CONNECT_ACK)), (proj2 (Z.eqb_neq REL4U_PKT_DATA REL4U_PKT_DISCONNECT)),
    (proj2 (Z.eqb_neq REL4U_PKT_DATA REL4U_PKT_HEARTBEAT)), Z.eqb_refl, wire_body by done.
  cbv zeta. set (now := pf_clock _).
  change (s1 <| sv_session_table := rel4u_session_touch_lru (sv_session_table s1) i now |>)
    with (server_upd s1 i (fun x => x <| cs_last_activity_ns := now |>)).
  set (f1 := fun x : rel4u_client_session => _). set (s2 := server_upd s1 i f1).
  assert (F2 : server_session s2 i = f1 (server_session s i)) by (unfold s2; by rewrite server_upd_same, Fs).
  assert (Q2 : sv_recv_queue s2 = sv_recv_queue s1 /\ sv_ready_slots s2 = sv_ready_slots s1) by done.
  assert (Hv2 : valid s2 i) by (by apply server_upd_valid). clearbody s2.
  set (f2 := session_promote _). set (s3 := server_upd s2 i f2).
  assert (F3 : server_session s3 i = f2 (f1 (server_session s i))) by (unfold s3; by rewrite server_upd_same, F2).
  assert (Q3 : sv_recv_queue s3 = sv_recv_queue s1 /\ sv_ready_slots s3 = sv_ready_slots s1) by exact Q2.
  assert (Hv3 : valid s3 i) by (by apply server_upd_valid). clearbody s3.
  set (f3 := session_on_ack _ _). set (s4 := server_upd s3 i f3).
  assert (F4 : server_session s4 i = f3 (f2 (f1 (server_session s i)))) by (unfold s4; by rewrite server_upd_same, F3).
  assert (Q4 : sv_recv_queue s4 = sv_recv_queue s1 /\ sv_ready_slots s4 = sv_ready_slots s1) by exact Q3.
  assert (Hv4 : valid s4 i) by (by apply server_upd_valid). clearbody s4. clear F2 F3 Q2 Q3 s2 s3 Hv2 Hv3.
  assert (Gw : cs_recv_win (server_session s4 i) = cs_recv_win (server_session s i) /\
    cs_client_id (server_session s4 i) = cs_client_id (server_session s i)).
  { rewrite F4. unfold f3, session_on_ack. destruct (rel4u_send_window_on_ack _ _ _ _ _ _) as [[sw rtt] st]. cbn.
    unfold f2, session_promote. by case_bool_decide. }
  destruct Gw as [Gw Gi]. destruct Q4 as [Qr Qy]. clear F4. unfold server_on_data. rewrite Gw, Gi, Qr, Fq, Qy.
  assert (Hci : cs_client_id (server_session s i) = Z.of_nat i).
  { rewrite <- Fs. apply (se_id _ _ (session_ok_at s1 i K1 Hv)). }
  pose proof (handle_data_rep content p0 (cs_client_id (server_session s i)) (cs_recv_win (server_session s i)) p ds
    (sv_recv_queue s) (sv_ready_slots s1) q hdr body H C Hn (ry_length _ _ _ _ (sk_ready _ K1))) as D.
  destruct (handle_data _ _ _ _ _ _) as [[[win queue] ready] ackd]. destruct D as (p' & ds' & items & D1 & D2 & -> & D3 & _ & D5 & D6 & D7).
  exists p', ds', items. rewrite server_upd_same by done. cbv beta zeta. set (x5 := if ackd then _ else _).
  assert (Er : cs_recv_win x5 = win) by (unfold x5; by destruct ackd).
  assert (Ea : ackd = true -> cs_ack_pending x5 = true) by (unfold x5; by intros ->). clearbody x5. rewrite Er.
  split; [done|]. split; [done|]. split; [done|]. split; [by rewrite <- Hci|].
  intros Hin%D6. split; [apply D5; by right|]. split; [by apply Ea|by apply D7].
Qed.
End message_sides.

(** A fresh window has delivered and holds nothing. *)
Lemma fresh_hist content w : recv_safe w -> rw_expected_seq w = 1 ->
  Forall (fun x => rs_received x = false) (rw_slots w) ->
  recv_hist content 1 w 1 [] /\ forall q, ~ held w 1 q.
Proof.
  intros [Hc Hl _] He Hn. assert (Hnone : forall q, ~ held w 1 q).
  { intros q [_ Hr]. rewrite Forall_forall in Hn. unfold ring_at, arr_get in Hr.
    rewrite list_lookup_total_alt in Hr. destruct (_ !! _) as [y|] eqn:Ey; [|done].
    cbn in Hr. rewrite (Hn y) in Hr; [done|]. by eapply list_elem_of_lookup_2. }
  split; [|done]. constructor; [|done|constructor|done|].
  - constructor; [done|done|by rewrite He|]. intros q Hq Hr. by destruct (Hnone q).
  - intros q Hq. rewrite elem_of_nil. split; [done|]. intros [?|Hh]; [lia|]. by apply (Hnone q).
Qed.

(** A session that has just been opened has delivered nothing. *)
Lemma open_hist content i src sid state x : session_ok i x -> session_open src sid state x ->
  recv_hist content 1 (cs_recv_win x) 1 [].
Proof. intros So []. by apply fresh_hist; [apply So| |]. Qed.

(** The expected position is delivered once it has arrived. *)
Lemma expected_delivered content p0 w p ds w' p' ds' : recv_hist content p0 w p ds -> recv_hist content p0 w' p' (ds ++ ds') ->
  p <= p' -> arrived w' p' p -> ~ held w' p' p' -> p ∈ ds ++ ds'.
Proof.
  intros H H' Hp Ha Hn. assert (Hlt : p < p').
  { destruct Ha as [?|Hh]; [done|]. assert (p' <= p) by apply Hh. assert (p' = p) as -> by lia. done. }
  pose proof (rh_from _ _ _ _ _ H). destruct (decide (mode_of content p = REL4U_MODE_RELIABLE_ORDERED)) as [Ho|Ho].
  - assert (Hin : p ∈ filter (ordered content) (ds ++ ds')); [|by apply list_elem_of_filter in Hin as [_ ?]].
    rewrite (rh_ordered _ _ _ _ _ H'). apply elem_of_ordered_run. split; [done|lia].
  - apply (rh_unordered _ _ _ _ _ H'); [done|]. left. lia.
Qed.

Section message.
Context {allocator : Malloc}.
Variables host_c host_s : Platform.
Variables client_addr : rel4u_net_addr.

(** The next message of a connected client crosses to the server: one turn of the
    client's drain puts it in a single datagram to the server, under the next
    sequence number of the stream; when the server gets that datagram, the
    client's session still delivers its stream exactly once and in order, what
    it newly delivers is in the application's queue under the client's number
    and with the bytes the client sent, and if the packet is within the
    receive window it has arrived, is acknowledged, and, when it is the one the
    session expects, has been delivered. *)
Theorem message_crosses content p0 c wc lo now item m rest n h es s ws i ptr ok p ds :
  connected c lo s i client_addr -> @socket_accepts host_c (cl_sock c) ->
  q_rep (cl_send_queue c) (mk_bqueue (m :: rest) n) -> reliable_msg m -> Forall is_u8 (m_data m) ->
  send_rep (cl_send_win c) h es -> Z.of_nat (length es) < sw_capacity (cl_send_win c) ->
  let q := h + Z.of_nat (length es) in
  content q = msg_view m -> recv_hist content p0 (cs_recv_win (server_session s i)) p ds -> near q p ->
  let '(c1, wc1, _) := @client_drain host_c 1 c wc now item in
  exists d, wd_sent wc1 = wd_sent wc ++ [(cl_server_addr c, d)] /\
  let '(s1, ws1) := @server_on_datagram host_s _ ptr s ws d client_addr ok in
  exists p' ds' items, recv_hist content p0 (cs_recv_win (server_session s1 i)) p' (ds ++ ds') /\
    sv_recv_queue s1 = push_all (sv_recv_queue s) items /\
    item_msg <$> items = queue_msg content (Z.of_nat i) <$> ds' /\
    (q < p + rw_capacity (cs_recv_win (server_session s i)) ->
     arrived (cs_recv_win (server_session s1 i)) p' q /\ cs_ack_pending (server_session s1 i) = true /\
     (q = p -> q ∈ ds ++ ds')).
Proof.
  intros Cx Acc Hq Hm Hb R Hroom q Ec H Hn.
  pose proof (client_sends_next (platform:=host_c) c wc now item m rest n h es (cx_client _ _ _ _ _ Cx) Acc Hq Hm R Hroom) as S.
  destruct (@client_drain host_c 1 c wc now item) as [[c1 wc1] now1].
  destruct S as (ack & sack & Ha & Hk & Hlen & Hw). fold q in Hw. eexists. split; [exact Hw|].
  set (hdr := make_header _ _ _ _ _ _ _). pose proof (ck_session _ (cx_client _ _ _ _ _ Cx)) as Hid.
  assert (Hm8 : u8 (m_mode m) = m_mode m) by (by apply mode_reliable_true in Hm as [->| ->]).
  assert (Hl16 : u16 (m_len m) = m_len m).
  { apply u16_small. unfold m_len, REL4U_MAX_PAYLOAD_SIZE in *. word_unfold. lia. }
  assert (C : carries content hdr (m_data m) q).
  { constructor; unfold hdr, make_header, mode_of, data_of; rewrite ?Ec; cbn [h_seq_num h_delivery_mode h_payload_len msg_view fst snd];
      [done|done|done|exact Hl16|apply firstn_all]. }
  assert (W : header_wf hdr) by (apply make_header_wf; [done|apply u32_range|done|done]).
  pose proof (@server_gets_data host_s _ content p0 ptr s ws i (cl_session_id c) hdr (m_data m) client_addr ok p ds q
    (cx_server _ _ _ _ _ Cx) (cx_lookup _ _ _ _ _ Cx) (cx_number _ _ _ _ _ Cx) W eq_refl eq_refl eq_refl eq_refl Hb
    (eq_sym Hl16) H C Hn) as D.
  destruct (@server_on_datagram host_s _ ptr s ws _ client_addr ok) as [s1 ws1].
  destruct D as (p' & ds' & items & D1 & D2 & D3 & D4 & D5). exists p', ds', items. split; [done|]. split; [done|]. split; [done|].
  intros Hin. destruct (D5 Hin) as (E1 & E2 & E3). split; [done|]. split; [done|]. intros Hqp. rewrite Hqp in *.
  by eapply (expected_delivered content p0).
Qed.
End message.

(** ** Witnesses *)

(** The server's host has the other byte order. *)
Definition big_platform : Platform := {|
  pf_host := BigEndian;
  pf_clock := sample_clock;
  pf_sendto _ len := len;
  pf_clock_range := sample_clock_range
|}.

Definition connecting_events : list client_event := [EvConnectStart sample_env; EvWorkerStart; EvTurn].
Definition connecting : client_sys := Eval vm_compute in
  foldl (@run_event sample_platform _) (sample_client0, sample_world, sample_locals) connecting_events.
Definition connecting_client : rel4u_client := Eval vm_compute in fst (fst connecting).
Definition connecting_world : world := Eval vm_compute in snd (fst connecting).
Definition connecting_locals : client_locals := Eval vm_compute in snd connecting.
Lemma connecting_eq : foldl (@run_event sample_platform _) (sample_client0, sample_world, sample_locals) connecting_events
  = (connecting_client, connecting_world, connecting_locals).
Proof. vm_compute. reflexivity. Qed.
Lemma connecting_ok : client_ok connecting_client.
Proof.
  pose proof (@run_events_ok sample_platform _ connecting_events ltac:(repeat constructor)
    (sample_client0, sample_world, sample_locals) sample_client0_ok) as H. rewrite connecting_eq in H. exact H.
Qed.

Definition started_server : rel4u_server := Eval vm_compute in snd (rel4u_server_start sample_server0 sample_system).
Lemma started_eq : snd (rel4u_server_start sample_server0 sample_system) = started_server.
Proof. vm_compute. reflexivity. Qed.
Lemma started_ok : server_ok started_server.
Proof.
  rewrite <- started_eq. apply server_start_ok.
  exact (server_create_ok _ _ _ sample_server_config_ok sample_server_create).
Qed.

Lemma sample_socket sock : sock <> REL4U_INVALID_SOCKET ->
  @socket_accepts sample_platform sock /\ @socket_accepts big_platform sock.
Proof. intros H. by split; (split; [done|]; intros n len Hl; exact Hl). Qed.

Lemma handshake_connects_witness : exists c lo s i, connected c lo s i sample_peer.
Proof.
  pose proof (handshake_connects sample_platform big_platform sample_peer sample_server_addr connecting_client
    connecting_world connecting_locals started_server (mk_world 0 0 [] false) 12345 54321 connecting_ok started_ok
    (proj1 (sample_socket (cl_sock connecting_client) ltac:(vm_compute; discriminate)))
    (proj2 (sample_socket (sv_sock started_server) ltac:(vm_compute; discriminate)))
    eq_refl ltac:(vm_compute; discriminate) eq_refl I eq_refl ltac:(vm_compute; reflexivity)) as H.
  destruct (@client_handshake sample_platform connecting_client connecting_world connecting_locals) as [[c1 wc1] lo1].
  destruct H as (req & _ & H). destruct (@server_on_datagram big_platform _ _ _ _ _ _ _) as [s1 ws1].
  destruct H as (resp & _ & H). destruct (@client_on_datagram sample_platform _ _ _ _ _ _) as [[[c2 wc2] lo2] more].
  destruct H as (ack & _ & H). destruct (@server_on_datagram big_platform _ _ _ _ _ _ _) as [s2 ws2].
  destruct H as (i & H & _). exists c2, lo2, s2, i. exact H.
Defined.

(** The same exchange as a run: the three packets, and a message queued. *)
Definition last_sent (w : world) : list Z := from_option snd [] (last (wd_sent w)).
Definition run_request : list Z := Eval vm_compute in
  last_sent (snd (fst (@run_event sample_platform _ (connecting_client, connecting_world, connecting_locals) EvHandshake))).
Definition run_response : list Z := Eval vm_compute in
  last_sent (snd (@server_on_datagram big_platform _ 12345 started_server (mk_world 0 0 [] false) run_request sample_peer (true, true))).
Definition run_client_events : list client_event :=
  [EvHandshake; EvDatagram run_response sample_server_addr; EvSend 3 [7; 8] 2].
Definition run_client : client_sys := Eval vm_compute in
  foldl (@run_event sample_platform _) (connecting_client, connecting_world, connecting_locals) run_client_events.
Definition run_ack : list Z := Eval vm_compute in last_sent (snd (fst run_client)).
Definition run_server_events : list server_event := [SvDatagram 12345 run_request sample_peer (true, true); SvDatagram 0 run_ack sample_peer (true, true)].
Definition run_server : rel4u_server := Eval vm_compute in
  fst (foldl (@run_server_event big_platform _) (started_server, mk_world 0 0 [] false) run_server_events).

Lemma small_bytes (l : list Z) : forallb (fun b => (0 <=? b) && (b <? 256)) l = true -> Forall is_u8 l.
Proof.
  intros H. apply Forall_forall. intros b Hb. rewrite forallb_forall in H. apply list_elem_of_In in Hb.
  specialize (H b Hb). apply andb_true_iff in H as [?%Z.leb_le ?%Z.ltb_lt]. word_unfold. lia.
Qed.
Lemma run_datagram_ok l : forallb (fun b => (0 <=? b) && (b <? 256)) l = true -> length l = 24%nat -> datagram_ok l.
Proof. intros H Hl. split; [by apply small_bytes|]. rewrite Hl. unfold REL4U_MAX_PAYLOAD_SIZE, REL4U_HEADER_LEN. lia. Qed.

Lemma run_client_ok : client_ok (fst (fst run_client)).
Proof.
  assert (He : Forall event_ok run_client_events).
  { repeat apply Forall_cons_2; try done; cbn [event_ok]. apply run_datagram_ok; reflexivity. }
  pose proof (@run_events_ok sample_platform _ run_client_events He (connecting_client, connecting_world, connecting_locals)
    connecting_ok) as H.
  assert (E : foldl (@run_event sample_platform _) (connecting_client, connecting_world, connecting_locals) run_client_events
    = run_client) by (vm_compute; reflexivity).
  rewrite E in H. exact H.
Qed.
Lemma run_server_ok : server_ok run_server.
Proof.
  assert (He : Forall server_event_ok run_server_events).
  { repeat apply Forall_cons_2; try done; cbn [server_event_ok]; (split; [|done]); apply run_datagram_ok; reflexivity. }
  pose proof (@run_server_events_ok big_platform _ run_server_events He (started_server, mk_world 0 0 [] false) started_ok) as H.
  assert (E : fst (foldl (@run_server_event big_platform _) (started_server, mk_world 0 0 [] false) run_server_events)
    = run_server) by (vm_compute; reflexivity).
  rewrite E in H. exact H.
Qed.

Lemma run_connected : connected (fst (fst run_client)) (snd run_client) run_server 0 sample_peer.
Proof. constructor; [exact run_client_ok|exact run_server_ok|..]; vm_compute; first [reflexivity|discriminate]. Qed.

Definition run_msg : msg := mk_msg 0 3 [7; 8].
Lemma run_queue : q_rep (cl_send_queue (fst (fst run_client))) (mk_bqueue [run_msg] 0).
Proof.
  apply q_rep_fixed; [reflexivity|reflexivity|word_unfold; lia|]. split; [|split; [reflexivity|]].
  - constructor; cbn; try lia; reflexivity.
  - change (Forall item_sized [mk_item 0 3 2 [7; 8]]). repeat (apply Forall_cons_2; [split; [split; cbn; lia|done]|]). constructor.
Qed.
Lemma run_open : session_open sample_peer (cl_session_id (fst (fst run_client))) REL4U_STATE_CONNECTED (server_session run_server 0).
Proof.
  constructor; try (vm_compute; reflexivity); [|repeat constructor].
  apply (fresh_rep _ 8); [by split; [lia|]|word_unfold; lia|reflexivity].
Qed.

Lemma message_crosses_witness : exists s1 p' ds' items,
  recv_hist (fun _ => (3, [7; 8])) 1 (cs_recv_win (server_session s1 0)) p' ds' /\ 1 ∈ ds' /\
  sv_recv_queue s1 = push_all (sv_recv_queue run_server) items /\
  item_msg <$> items = queue_msg (fun _ => (3, [7; 8])) 0 <$> ds'.
Proof.
  pose proof (message_crosses sample_platform big_platform sample_peer (fun _ => (3, [7; 8])) 1 (fst (fst run_client))
    (snd (fst run_client)) (snd run_client) 0 item_zero run_msg [] 0 1 [] run_server (mk_world 9 0 [] false) 0 0 (true, true) 1 []
    run_connected (proj1 (sample_socket (cl_sock (fst (fst run_client))) ltac:(vm_compute; discriminate))) run_queue eq_refl
    ltac:(apply small_bytes; reflexivity)
    ltac:(apply (fresh_rep _ 8); [by split; [lia|]|word_unfold; lia|reflexivity])
    ltac:(vm_compute; reflexivity) eq_refl
    (open_hist _ 0 _ _ _ _ (session_ok_at run_server 0 run_server_ok ltac:(vm_compute; lia)) run_open)
    ltac:(unfold near; cbn; lia)) as H. cbv zeta in H.
  destruct (@client_drain sample_platform 1 _ _ _ _) as [[c1 wc1] now1]. destruct H as (d & _ & H).
  destruct (@server_on_datagram big_platform _ _ _ _ _ _ _) as [s1 ws1].
  destruct H as (p' & ds' & items & H1 & H2 & H3 & H4). exists s1, p', ds', items.
  split; [exact H1|]. split; [|split; [exact H2|exact H3]].
  destruct H4 as (_ & _ & H4); [vm_compute; reflexivity|]. exact (H4 eq_refl).
Defined.
