(* ===== verification/Stale.v ===== *)
(** * A reconnect that meets an old session

    A client that reconnects because its inactivity timer has fired resets its
    windows to sequence number 1 and asks for a connection again.  If the server
    still has a session for the client's address, it answers with that session as
    it is ([rel4u_server.c] 352-379): its windows are not reset. *)
From S2P Require Import Prelude Ring Types Seq Packet Rtt Mpmc MpmcSpec Queue SendWindow SendSpec Send RecvWindow RecvSpec Recv RecvSafe Net Session Sessions Link Endpoint Peer Client ClientSpec ClientRun Server ServerSpec ServerRun ServerTable Connection.
From stdpp Require Import base numbers list gmap.
Open Scope Z_scope.
Open Scope rel4u_scope.

Section stale.
Context {platform : Platform} {allocator : Malloc}.

(** C31. A request from an address that has a session is answered with the number of
    that session, whose windows, estimator and state stay as they were: the
    session resumes where it was, not at sequence number 1. *)
Theorem stale_session_resumes ptr s w i sid0 ack sack src ok : server_ok s -> socket_accepts (sv_sock s) ->
  is_u32 sid0 -> is_u32 ack -> is_u32 sack -> rel4u_session_find_by_addr (sv_session_table s) src = Some i ->
  let x := server_session s i in
  let '(s', w') := server_on_datagram ptr s w (header_bytes (control_packet REL4U_PKT_CONNECT_REQ sid0 ack sack)) src ok in
  let x' := server_session s' i in
  cs_send_win x' = cs_send_win x /\ cs_recv_win x' = cs_recv_win x /\ cs_rtt x' = cs_rtt x /\
  cs_state x' = cs_state x /\ cs_session_id x' = cs_session_id x /\
  exists ack' sack', wd_sent w' = wd_sent w ++
    [(cs_addr x, header_bytes (control_packet REL4U_PKT_CONNECT_RESP (cs_session_id x) ack' sack'))].
Proof.
  intros K Hacc Hs Ha Hk Hf. cbv zeta.
  destruct (decode_control pf_host REL4U_PKT_CONNECT_REQ sid0 ack sack ltac:(done) Hs Ha Hk) as (_ & _ & Ed & Et).
  unfold server_on_datagram. rewrite Ed. cbn [Z.eqb negb]. unfold time_now_ns. cbv beta iota. rewrite Et, Z.eqb_refl.
  set (s1 := s <| sv_stats := _ |>). assert (K1 : server_ok s1) by server_tac.
  assert (F1 : sv_session_table s1 = sv_session_table s /\ sv_sock s1 = sv_sock s /\ server_session s1 i = server_session s i) by done.
  clearbody s1. destruct F1 as (Ft & Fs & Fx). rewrite <- Ft in Hf. rewrite <- Fs in Hacc. rewrite <- Fx.
  set (now := pf_clock _). assert (Hnow : 0 <= now < UINT64_MAX) by apply clock_time.
  set (w1 := mk_world _ _ _ _). assert (Ew : wd_sent w1 = wd_sent w) by done. clearbody w1.
  unfold server_on_connect. rewrite Hf. destruct (find_valid s1 src i K1 Hf) as (Hv & _).
  set (f := fun x : rel4u_client_session => _). set (s2 := server_upd s1 i f).
  assert (K2 : server_ok s2) by (apply server_upd_ok; [done|by apply activity_step]).
  assert (E2 : server_session s2 i = f (server_session s1 i)) by (unfold s2; by rewrite server_upd_same).
  assert (Hv2 : valid s2 i) by (by apply server_upd_valid). assert (Es : sv_sock s2 = sv_sock s1) by done. clearbody s2.
  destruct (server_send_wire s2 w1 i REL4U_PKT_CONNECT_RESP REL4U_MODE_UNRELIABLE_UNORDERED 0 None 0 K2 Hv2
    ltac:(word_unfold; lia) ltac:(lia) ltac:(by rewrite Es)) as (a' & k' & _ & _ & Hw).
  pose proof (server_send_update s2 w1 i REL4U_PKT_CONNECT_RESP REL4U_MODE_UNRELIABLE_UNORDERED 0 None 0) as U.
  unfold server_send_control. destruct (server_send_packet s2 w1 i _ _ _ _ _) as [s3 w3]. cbn [fst snd] in *.
  destruct (sent_from_session _ _ _ i U Hv2) as (G1 & G2 & G3 & G4 & G5 & _).
  rewrite G1, G2, G3, G4, G5, E2. split_and!; try done. exists a', k'. rewrite Hw, Ew, E2. cbn [packet_body]. by rewrite app_nil_r.
Qed.
End stale.

(** ** What that costs *)

Abbreviation client_step := (@run_event sample_platform _).
Abbreviation server_step := (@run_server_event big_platform _).

(** The first message arrives and is acknowledged. *)
Definition stale_c1 : client_sys := Eval vm_compute in client_step run_client EvSendPending.
Definition stale_s1 : rel4u_server * world := Eval vm_compute in
  foldl server_step (run_server, mk_world 20 0 [] false)
    [SvDatagram 0 (last_sent (snd (fst stale_c1))) sample_peer (true, true); SvTimers].
Definition stale_c2 : client_sys := Eval vm_compute in
  client_step stale_c1 (EvDatagram (last_sent (snd stale_s1)) sample_server_addr).

(** Six seconds pass in which the client hears nothing: its inactivity timer
    makes it reconnect while the server still has its session. *)
Definition stale_c3 : client_sys := Eval vm_compute in
  let '(c, w, lo) := stale_c2 in
  foldl client_step (c, mk_world (wd_ticks w + 6000) (wd_calls w) (wd_sent w) (wd_wakeup w), lo)
    [EvTurn; EvTimers; EvTurn; EvHandshake].
Definition stale_s3 : rel4u_server * world := Eval vm_compute in
  server_step stale_s1 (SvDatagram 0 (last_sent (snd (fst stale_c3))) sample_peer (true, true)).

(** It sends another message, the server acknowledges it. *)
Definition stale_c4 : client_sys := Eval vm_compute in
  foldl client_step stale_c3 [EvDatagram (last_sent (snd stale_s3)) sample_server_addr; EvSend 3 [9; 9; 9] 3; EvSendPending].
Definition stale_s4 : rel4u_server * world := Eval vm_compute in
  foldl server_step stale_s3 [SvDatagram 0 (last_sent (snd (fst stale_c4))) sample_peer (true, true); SvTimers].
Definition stale_c5 : client_sys := Eval vm_compute in
  client_step stale_c4 (EvDatagram (last_sent (snd stale_s4)) sample_server_addr).

(** A message accepted after such a reconnect is lost although both ends work as
    they should: the client has sent it reliably and considers it acknowledged,
    but the server took its sequence number for a duplicate and has delivered
    only the first message. *)
Example stale_session_loses :
  cl_state (fst (fst stale_c5)) = REL4U_STATE_CONNECTED /\
  q_count (cl_send_queue (fst (fst stale_c5))) = 0 /\ sw_in_flight (cl_send_win (fst (fst stale_c5))) = 0 /\
  sw_next_seq (cl_send_win (fst (fst stale_c5))) = 2 /\ sw_head_seq (cl_send_win (fst (fst stale_c5))) = 2 /\
  q_count (sv_recv_queue (fst stale_s4)) = 1 /\
  take 2 (it_data (q_items (sv_recv_queue (fst stale_s4)) !!! 0%nat)) = [7; 8].
Proof. vm_compute. done. Qed.

Lemma stale_session_resumes_witness :
  cs_recv_win (server_session (fst (@server_on_datagram big_platform _ 0 run_server (mk_world 20 0 [] false)
    (header_bytes (control_packet REL4U_PKT_CONNECT_REQ 0 0 0)) sample_peer (true, true))) 0) =
  cs_recv_win (server_session run_server 0).
Proof.
  pose proof (@stale_session_resumes big_platform _ 0 run_server (mk_world 20 0 [] false) 0 0 0 0 sample_peer (true, true)
    run_server_ok (proj2 (sample_socket (sv_sock run_server) ltac:(vm_compute; discriminate)))
    ltac:(word_unfold; lia) ltac:(word_unfold; lia) ltac:(word_unfold; lia) eq_refl) as H. cbv zeta in H.
  destruct (@server_on_datagram big_platform _ _ _ _ _ _ _) as [s' w']. exact (proj1 (proj2 H)).
Defined.
