(* ===== verification/Emit.v ===== *)
(** * What the server puts on the wire

    Every datagram that a step of the server sends to a client's address carries
    the acknowledgement of that client's session as it is before the step, or
    ends the session.  With it, the exact effect of every step on one session's
    receive window and on what it hands to the application. *)
From S2P Require Import Prelude Ring Types Seq Packet Rtt Mpmc MpmcSpec Queue SendWindow SendSpec Send RecvWindow RecvSpec Recv RecvSafe Net Session Sessions Link Endpoint Peer Server ServerSpec ServerRun ServerDrain ServerTable.
From stdpp Require Import base numbers list gmap.
Open Scope Z_scope.
Open Scope rel4u_scope.

(** ** Datagrams *)

(** The world [w'] follows [w], and every datagram sent in between has [P]. *)
Definition emits (P : rel4u_net_addr * list Z -> Prop) (w w' : world) : Prop :=
  exists l, wd_sent w' = wd_sent w ++ l /\ Forall P l.

#[export] Instance emits_refl P : Reflexive (emits P).
Proof. intros w. exists []. by rewrite app_nil_r. Qed.
#[export] Instance emits_trans P : Transitive (emits P).
Proof.
  intros w1 w2 w3 (l1 & E1 & F1) (l2 & E2 & F2). exists (l1 ++ l2).
  by rewrite E2, E1, app_assoc, Forall_app.
Qed.

Lemma emits_same P w w' : wd_sent w' = wd_sent w -> emits P w w'.
Proof. intros E. exists []. by rewrite E, app_nil_r. Qed.

Lemma emits_impl (P Q : rel4u_net_addr * list Z -> Prop) w w' : (forall d, P d -> Q d) -> emits P w w' -> emits Q w w'.
Proof. intros H (l & E & F). exists l. split; [done|]. by eapply Forall_impl. Qed.

(** A host that gets the bytes [d] reads the header [hdr]. *)
Definition reads (host : endianness) (d : list Z) (hdr : rel4u_header) : Prop :=
  datagram_ok d /\ rel4u_packet_decode_header host d (Z.of_nat (length d)) header_zero = (0, hdr).

Lemma reads_wire host hdr body h : header_wf hdr -> reads host (header_bytes hdr ++ body) h -> h = hdr.
Proof.
  intros W [[Hb _] E]. rewrite decode_parse in E; [|unfold REL4U_HEADER_LEN; rewrite length_app, header_bytes_length; lia|done].
  rewrite parse_header_bytes in E by done. congruence.
Qed.

(** A slot in use is a packet that can be encoded. *)
Lemma window_slot w h es k : send_rep w h es -> 0 <= k < Z.of_nat (length es) ->
  exists e, es !! Z.to_nat k = Some e /\ sw_slots w !. ((h + k) mod sw_capacity w) = e /\ entry_ok (h + k) e.
Proof.
  intros R Hk. destruct (lookup_lt_is_Some_2 es (Z.to_nat k)) as [e He]; [lia|]. exists e. split; [done|].
  pose proof (send_slot_get w h es k e R ltac:(lia) He) as G. rewrite send_slot_idx_mod in G by apply R.
  split; [exact G|]. pose proof (sr_entries _ _ _ R _ _ He) as O. by rewrite Z2Nat.id in O by lia.
Qed.

Section sends.
Context {platform : Platform}.

Lemma emits_tick P w : emits P w (snd (time_now_ns w)).
Proof. by apply emits_same. Qed.

Lemma emits_sendto (P : rel4u_net_addr * list Z -> Prop) w sock buf dest : P (dest, buf) ->
  emits P w (snd (rel4u_net_sendto w sock buf dest)).
Proof.
  intros H. unfold rel4u_net_sendto. destruct (_ =? _); [done|]. cbn [snd]. destruct (_ >? _); [|by apply emits_same].
  exists [(dest, buf)]. by repeat constructor.
Qed.
End sends.

Lemma emits_signal P pipe w : emits P w (rel4u_wakeup_pipe_signal pipe w).
Proof. unfold rel4u_wakeup_pipe_signal. destruct (_ =? _); [done|by apply emits_same]. Qed.

Lemma emits_drain P pipe w : emits P w (rel4u_wakeup_pipe_drain pipe w).
Proof. unfold rel4u_wakeup_pipe_drain. destruct (_ =? _); [done|by apply emits_same]. Qed.

(** ** The server's datagrams to one client *)

Section server.
Context {platform : Platform} {allocator : Malloc}.
Context (client_addr : rel4u_net_addr) (sid : Z) (rv : rel4u_recv_window).

(** A datagram for the client with session number [sid] carries the
    acknowledgement of the receive window [rv], or ends the session. *)
Definition acknowledges (d : rel4u_net_addr * list Z) : Prop :=
  addr_eq (fst d) client_addr -> forall host hdr, reads host (snd d) hdr -> h_session_id hdr = sid ->
  h_packet_type hdr ∈ [REL4U_PKT_RESET; REL4U_PKT_DISCONNECT; REL4U_PKT_REJECT] \/
  (h_ack_num hdr, h_sack_mask hdr) = rel4u_recv_window_get_ack_info rv.

(** The active session at the client's address, if any, is that session. *)
Definition sole (s : rel4u_server) : Prop := forall i, valid s i -> session_active (server_session s i) = true ->
  addr_eq (cs_addr (server_session s i)) client_addr ->
  cs_session_id (server_session s i) = sid /\ cs_recv_win (server_session s i) = rv.

Lemma sole_session s j : server_ok s -> valid s j -> session_active (server_session s j) = true ->
  cs_addr (server_session s j) = client_addr -> cs_session_id (server_session s j) = sid ->
  cs_recv_win (server_session s j) = rv -> sole s.
Proof.
  intros K Hv Ha Ead Esid Erv i Hi Hai Hadd. assert (i = j) as ->; [|done].
  rewrite <- Ead in Hadd. refine (ti_distinct _ (sk_table _ K) i j _ _ _ _ Hai Ha Hadd);
    unfold server_session; by apply list_lookup_lookup_total_lt.
Qed.

Lemma sole_mild i s s' : mild i s s' -> sole s -> sole s'.
Proof.
  intros [F M] H k Hk Ha Hadd. assert (Hv : valid s k) by (unfold valid in *; by rewrite <- (fr_slots _ _ _ F)).
  destruct (decide (k = i)) as [->|Hne].
  - rewrite (kept_active _ _ M) in Ha. rewrite (kp_addr _ _ M) in Hadd.
    rewrite (kp_session _ _ M), (kp_recv _ _ M). by apply H.
  - rewrite (fr_others _ _ _ F k Hne) in *. by apply H.
Qed.

Lemma sole_free s i : valid s i -> sole s -> sole (s <| sv_session_table := rel4u_session_free (sv_session_table s) i |>).
Proof.
  intros Hi H k Hk Ha Hadd. pose proof (frame_free s i Hi) as F.
  assert (Hv : valid s k) by (unfold valid in *; by rewrite <- (fr_slots _ _ _ F)).
  destruct (decide (k = i)) as [->|Hne]; [|rewrite (fr_others _ _ _ F k Hne) in *; by apply H].
  unfold server_session in Ha. cbn in Ha. rewrite free_inactive in Ha by exact Hi. done.
Qed.

Lemma emit_send s w i type mode seq payload len : server_ok s -> valid s i ->
  session_active (server_session s i) = true -> sole s -> is_u32 seq -> 0 <= len ->
  emits acknowledges w (snd (server_send_packet s w i type mode seq payload len)).
Proof.
  intros K Hv Ha H Hs Hl. unfold server_send_packet.
  pose proof (ack_info_u32 (cs_recv_win (server_session s i))) as [Hk1 Hk2].
  destruct (rel4u_recv_window_get_ack_info _) as [ack sack] eqn:Ei. cbn [fst snd] in Hk1, Hk2.
  set (hdr := make_header _ _ _ _ _ _ _).
  assert (W : header_wf hdr) by (apply make_header_wf; [apply (session_ok_at _ _ K Hv)|done|done|done]).
  rewrite encode_packet_wire by done.
  assert (P : acknowledges (cs_addr (server_session s i), header_bytes hdr ++ packet_body payload len)).
  { intros Hadd host h Hr Hsid. cbn [fst snd] in *. apply (reads_wire _ _ _ _ W) in Hr as ->. right.
    destruct (H i Hv Ha Hadd) as [_ <-]. cbn. done. }
  pose proof (emits_sendto _ w (sv_sock s) _ _ P) as E. destruct (rel4u_net_sendto _ _ _ _) as [sent w1].
  destruct (_ >? _); [|exact E]. etransitivity; [exact E|]. by apply emits_same.
Qed.

Lemma emit_control s w i type : server_ok s -> valid s i -> session_active (server_session s i) = true -> sole s ->
  emits acknowledges w (snd (server_send_control s w i type)).
Proof. intros K Hv Ha H. unfold server_send_control. apply emit_send; try done. Qed.

(** A bare header that ends a session. *)
Lemma emit_header s w type session seq addr :
  type ∈ [REL4U_PKT_RESET; REL4U_PKT_DISCONNECT; REL4U_PKT_REJECT] -> is_u32 session -> is_u32 seq ->
  emits acknowledges w (server_send_header s w (control_header type session seq) addr).
Proof.
  intros Ht Hs Hq. unfold server_send_header.
  assert (W : header_wf (control_header type session seq)).
  { apply control_header_wf; [|done|done]. rewrite !elem_of_cons, elem_of_nil in Ht.
    destruct Ht as [->|[->|[->|[]]]]; done. }
  rewrite encode_bytes by (done || (unfold REL4U_HEADER_LEN; cbn; lia)). cbn [snd].
  apply emits_sendto. intros _ host h Hr _. cbn [snd] in Hr. apply (reads_wire _ _ _ _ W) in Hr as ->. by left.
Qed.

(** ** The timers *)

Lemma mild_active i s s' j : mild i s s' -> session_active (server_session s' j) = session_active (server_session s j).
Proof.
  intros [F M]. destruct (decide (j = i)) as [->|Hne]; [by apply kept_active|by rewrite (fr_others _ _ _ F)].
Qed.

Lemma mild_valid i s s' j : mild i s s' -> valid s j -> valid s' j.
Proof. intros [F _]. by apply (frame_valid _ _ _ _ F). Qed.

Lemma emit_resend now i h : is_u64 now -> forall ks s w es, server_ok s -> valid s i ->
  session_active (server_session s i) = true -> sole s ->
  send_rep (cs_send_win (server_session s i)) h es -> Forall (fun k => 0 <= k < Z.of_nat (length es)) ks ->
  emits acknowledges w (snd (foldl (server_resend now i) (s, w)
    ((fun k => (h + k) mod sw_capacity (cs_send_win (server_session s i))) <$> ks))).
Proof.
  intros Hn. induction ks as [|k ks IH]; intros s w es K Hv Ha H R Hks; [done|].
  apply Forall_cons in Hks as [Hk Hks]. destruct (retransmit_slot_ok _ _ _ k now R Hk Hn) as (es' & R' & Hl).
  pose proof (proj1 (server_resend_ok now i h Hn [k] s w es K Hv R ltac:(by constructor))) as K2. cbn [fmap list_fmap foldl] in *.
  set (cap := sw_capacity (cs_send_win (server_session s i))) in *.
  unfold server_resend at 2. unfold server_resend in K2. set (f := fun x => x <| cs_send_win := _ |>) in *.
  assert (K1 : server_ok (server_upd s i f)).
  { apply sset_table_ok; [done|]. apply session_upd_inv; [apply K|]. intros x Hx [].
    assert (x = server_session s i) as -> by (unfold server_session; by rewrite (list_lookup_total_correct _ _ _ Hx)).
    split; [constructor; try done; split; [apply se_send|by exists h, es']|done]. }
  assert (M1 : mild i s (server_upd s i f)) by (by apply mild_upd).
  pose proof (server_upd_same s i f Hv) as E1. set (s1 := server_upd s i f) in *. clearbody s1. cbv zeta in *.
  assert (R1 : send_rep (cs_send_win (server_session s1 i)) h es') by (by rewrite E1).
  assert (Ecap : sw_capacity (cs_send_win (server_session s1 i)) = cap) by (by rewrite E1).
  destruct (window_slot _ _ _ k R1 ltac:(lia)) as (e & _ & Es & O). rewrite Ecap in Es. rewrite Es in *.
  pose proof (mild_valid _ _ _ _ M1 Hv) as Hv1. pose proof (sole_mild _ _ _ M1 H) as H1.
  pose proof (emit_send s1 w i REL4U_PKT_DATA (ss_delivery_mode e) (ss_seq_num e) (Some (ss_payload e)) (ss_payload_len e)
    K1 Hv1 ltac:(by rewrite (mild_active _ _ _ i M1)) H1 ltac:(rewrite (eo_seq _ _ O); apply u32_range) ltac:(apply O)) as Em.
  pose proof (server_send_update s1 w i REL4U_PKT_DATA (ss_delivery_mode e) (ss_seq_num e)
    (Some (ss_payload e)) (ss_payload_len e)) as U.
  destruct (server_send_packet _ _ _ _ _ _ _ _) as [s2 w2]. cbn [fst snd] in *.
  pose proof (mild_sent _ _ _ U Hv1) as M2. destruct (sent_from_session _ _ _ i U Hv1) as (Ew & _).
  etransitivity; [exact Em|]. rewrite <- Ecap, <- Ew. apply (IH s2 w2 es'); [done|by eapply mild_valid| | |by rewrite Ew|by rewrite Hl].
  - by rewrite (mild_active _ _ _ i M2), (mild_active _ _ _ i M1).
  - by eapply sole_mild.
Qed.

Lemma emit_retransmit s w i now : server_ok s -> valid s i -> session_active (server_session s i) = true -> sole s ->
  is_u64 now -> emits acknowledges w (snd (server_retransmit s w i now)).
Proof.
  intros K Hv Ha H Hn. unfold server_retransmit. pose proof (session_ok_at _ _ K Hv) as So.
  destruct (se_send _ _ So) as (_ & h & es & R). pose proof (se_rtt _ _ So) as Hr.
  destruct (expired_slots _ h es now (rel4u_rtt_get_rto (Some (cs_rtt (server_session s i)))) 16 R Hn
    ltac:(destruct Hr; unfold rel4u_rtt_get_rto; word_unfold; lia)) as (ks & E & Hks).
  change (Z.of_nat 16) with 16 in E. rewrite E. cbv zeta. destruct (_ >? _); [|done].
  set (s1 := server_upd s i (session_timeout _)).
  assert (K1 : server_ok s1) by (apply server_upd_ok; [done|apply timeout_step]).
  assert (M1 : mild i s s1) by (by apply mild_upd).
  assert (E1 : cs_send_win (server_session s1 i) = cs_send_win (server_session s i)) by (unfold s1; by rewrite server_upd_same).
  clearbody s1. rewrite <- E1. apply (emit_resend now i h Hn ks s1 w es); [done|by eapply mild_valid|by rewrite (mild_active _ _ _ i M1)|by eapply sole_mild|by rewrite E1|done].
Qed.

Lemma emit_heartbeat s w i now : server_ok s -> valid s i -> session_active (server_session s i) = true -> sole s ->
  emits acknowledges w (snd (server_heartbeat s w i now)).
Proof.
  intros K Hv Ha H. unfold server_heartbeat. destruct (_ >=? _); [|done].
  pose proof (emit_control s w i REL4U_PKT_HEARTBEAT K Hv Ha H) as E. by destruct (server_send_control _ _ _ _).
Qed.

Lemma emit_timer now s w i : server_ok s -> valid s i -> 0 <= now < UINT64_MAX -> sole s ->
  let '(s', w') := server_timer now (s, w) i in sole s' /\ emits acknowledges w w'.
Proof.
  intros K Hv Hn H. unfold server_timer. destruct (session_active (server_session s i)) eqn:Ha; [|done]. cbn [negb].
  destruct (_ >=? _); [split; [by apply sole_free|done]|]. destruct (negb _); [done|].
  assert (Hu : is_u64 now) by (word_unfold; unfold UINT64_MAX in Hn; lia).
  pose proof (proj1 (server_retransmit_ok s w i now K Hv Hu)) as K1. pose proof (mild_retransmit s w i now Hv) as M1.
  pose proof (emit_retransmit s w i now K Hv Ha H Hu) as E1. destruct (server_retransmit s w i now) as [s1 w1]. cbn [fst snd] in *.
  pose proof (mild_valid _ _ _ i M1 Hv) as Hv1. pose proof (sole_mild _ _ _ M1 H) as H1.
  assert (Ha1 : session_active (server_session s1 i) = true) by (by rewrite (mild_active _ _ _ i M1)).
  assert (A : mild i s1 (fst (if cs_ack_pending (server_session s1 i) then server_send_control s1 w1 i REL4U_PKT_ACK else (s1, w1))) /\
    emits acknowledges w1 (snd (if cs_ack_pending (server_session s1 i) then server_send_control s1 w1 i REL4U_PKT_ACK else (s1, w1)))).
  { destruct (cs_ack_pending _); [|done]. split; [by apply mild_control|by apply emit_control]. }
  pose proof (maybe_send_ok (cs_ack_pending (server_session s1 i)) s1 w1 i REL4U_PKT_ACK K1) as K2.
  destruct (if cs_ack_pending _ then _ else _) as [s2 w2]. cbn [fst snd] in *. destruct A as [M2 E2].
  pose proof (mild_valid _ _ _ i M2 Hv1) as Hv2. pose proof (sole_mild _ _ _ M2 H1) as H2.
  pose proof (emit_heartbeat s2 w2 i now K2 Hv2 ltac:(by rewrite (mild_active _ _ _ i M2)) H2) as E3.
  pose proof (mild_heartbeat s2 w2 i now Hv2) as M3. destruct (server_heartbeat _ _ _ _) as [s3 w3]. cbn [fst snd] in *.
  split; [by eapply sole_mild|]. by repeat (etransitivity; [eassumption|]).
Qed.

Lemma emit_timers s w : server_ok s -> sole s -> emits acknowledges w (snd (server_timers s w)).
Proof.
  intros K H. unfold server_timers, time_now_ns. set (now := pf_clock _). assert (Hn : 0 <= now < UINT64_MAX) by apply clock_time.
  pose proof (all_valid s K) as Hv. set (w0 := mk_world _ _ _ _). assert (E0 : emits acknowledges w w0) by (by apply emits_same).
  clearbody now w0. revert Hv. generalize (seq 0 (Z.to_nat (tb_max_clients (sv_session_table s)))) as l. intros l Hv.
  revert s w0 K H Hv E0. induction l as [|i l IH]; intros s w0 K H Hv E0; [done|]. apply Forall_cons in Hv as [Hi Hv]. cbn [foldl].
  destruct (server_timer_ok now s w0 i K Hi Hn) as [K1 El]. pose proof (emit_timer now s w0 i K Hi Hn H) as P.
  destruct (server_timer now (s, w0) i) as [s1 w1]. cbn [fst] in *. destruct P as [H1 E1].
  apply IH; [done|done| |by etransitivity]. eapply Forall_impl; [exact Hv|]. intros j. unfold valid. by rewrite El.
Qed.

(** ** A turn of the drain *)

Lemma drain_fetch_table s : sv_session_table (snd (drain_fetch s)) = sv_session_table s.
Proof.
  unfold drain_fetch. destruct (sv_has_pending_item s); [done|]. by destruct (rel4u_mpmc_try_pop _ _) as [[[] ?] ?].
Qed.

Lemma drain_fetch_ok s : server_ok s -> server_ok (snd (drain_fetch s)) /\
  (fst (drain_fetch s) = true -> sv_has_pending_item (snd (drain_fetch s)) = true).
Proof.
  intros K. unfold drain_fetch. destruct (sv_has_pending_item s) eqn:Hp; [done|].
  pose proof (take_pending_ok s K Hp) as P. destruct (rel4u_mpmc_try_pop _ _) as [[[] q] it]; by split.
Qed.

Lemma mild_table i s s' : sv_config s' = sv_config s -> sv_session_table s' = sv_session_table s -> mild i s s'.
Proof.
  intros Ec Et. split; [constructor|]; unfold slots, server_session; by rewrite ?Et.
Qed.

Lemma drain_push_mild s w i : server_ok s -> valid s i -> mild i s (fst (drain_push s w i)).
Proof.
  intros K Hv. unfold drain_push. destruct (time_now_ns w) as [now w1]. destruct (rel4u_send_window_push _ _ _ _ _) as [[r sw] sq].
  set (s1 := server_upd s i _). assert (M1 : mild i s s1) by (by apply mild_upd). clearbody s1.
  destruct (r =? 0); [|exact M1]. etransitivity; [exact M1|].
  eapply mild_sent; [apply server_send_update|by eapply mild_valid].
Qed.

Lemma emit_push s w i : server_ok s -> valid s i -> session_active (server_session s i) = true -> sole s ->
  item_sized (sv_pending_item s) -> emits acknowledges w (snd (drain_push s w i)).
Proof.
  intros K Hv Ha H Hit. pose proof Hit as [[Hl _] Hmax]. unfold drain_push, time_now_ns.
  pose proof (session_ok_at _ _ K Hv) as So. set (now := pf_clock _).
  assert (Hn : is_u64 now) by (pose proof (clock_time (wd_ticks w)); unfold now; word_unfold; unfold UINT64_MAX in *; lia).
  pose proof (send_push_ok (cs_send_win (server_session s i)) (it_mode (sv_pending_item s)) (it_data (sv_pending_item s))
    (it_len (sv_pending_item s)) now (se_send _ _ So) Hn Hl Hmax) as P.
  assert (Hseq : is_u32 (default 0 (snd (rel4u_send_window_push (cs_send_win (server_session s i)) (it_mode (sv_pending_item s))
    (it_data (sv_pending_item s)) (it_len (sv_pending_item s)) now)))).
  { unfold rel4u_send_window_push. destruct (_ >? _); [done|]. destruct (mode_reliable _).
    - destruct (_ || _); [done|]. cbn. destruct (se_send _ _ So) as (_ & h & es & R). rewrite (sr_next _ _ _ R). apply u32_range.
    - cbn. apply So. }
  destruct (rel4u_send_window_push _ _ _ _ _) as [[r sw] sq]. destruct P as [Hs _]. cbn [snd] in Hseq.
  set (w1 := mk_world _ _ _ _). assert (E1 : emits acknowledges w w1) by (by apply emits_same). clearbody w1.
  set (s1 := server_upd s i _). assert (K1 : server_ok s1) by (apply server_upd_ok; [done|by apply send_win_step]).
  assert (M1 : mild i s s1) by (by apply mild_upd). clearbody s1. destruct (r =? 0); [|exact E1].
  etransitivity; [exact E1|]. apply emit_send; [done|by eapply mild_valid|by rewrite (mild_active _ _ _ i M1)|by eapply sole_mild|done|lia].
Qed.

Lemma drain_turn_mild s w : server_ok s -> exists i, mild i s (fst (fst (drain_turn s w))).
Proof.
  intros K. unfold drain_turn. pose proof (drain_fetch_table s) as Et. destruct (drain_fetch_ok s K) as [K1 _].
  assert (Ec : sv_config (snd (drain_fetch s)) = sv_config s).
  { unfold drain_fetch. destruct (sv_has_pending_item s); [done|]. by destruct (rel4u_mpmc_try_pop _ _) as [[[] ?] ?]. }
  destruct (drain_fetch s) as [have s1]. cbn [fst snd] in *. destruct have; cbn [negb fst]; [|exists 0%nat; by apply mild_table].
  destruct (drain_target s1) as [i|] eqn:Ht; [|exists 0%nat; by apply mild_table].
  destruct (drain_target_spec s1 i K1 Ht) as (Hv & _). exists i. assert (M0 : mild i s s1) by (by apply mild_table).
  destruct (rel4u_send_window_can_send _); [|exact M0]. pose proof (drain_push_mild s1 w i K1 Hv) as M1.
  destruct (drain_push _ _ _) as [s2 w2]. cbn [fst] in *. etransitivity; [exact M0|]. etransitivity; [exact M1|]. by apply mild_table.
Qed.

Lemma emit_drain_turn s w : server_ok s -> sole s -> emits acknowledges w (snd (fst (drain_turn s w))).
Proof.
  intros K H. unfold drain_turn. pose proof (drain_fetch_table s) as Et. destruct (drain_fetch_ok s K) as [K1 Hp].
  destruct (drain_fetch s) as [have s1]. cbn [fst snd] in *. destruct have; cbn [negb fst]; [|done].
  destruct (drain_target s1) as [i|] eqn:Ht; [|done]. destruct (drain_target_spec s1 i K1 Ht) as (Hv & _ & Hst).
  destruct (rel4u_send_window_can_send _); [|done].
  assert (H1 : sole s1) by (unfold sole, valid, slots, server_session in *; by rewrite Et).
  pose proof (emit_push s1 w i K1 Hv ltac:(unfold session_active; by rewrite Hst) H1 (sk_pending _ K1 (Hp eq_refl))) as E.
  by destruct (drain_push _ _ _) as [s2 w2].
Qed.

(** ** Datagrams *)

Lemma sole_upd s i f : (forall x, session_active (f x) = session_active x /\ cs_addr (f x) = cs_addr x /\
    cs_session_id (f x) = cs_session_id x /\ cs_recv_win (f x) = cs_recv_win x) ->
  sole s -> sole (server_upd s i f).
Proof.
  intros Hf H k Hk Ha Hadd. apply server_upd_valid in Hk. destruct (decide (k = i)) as [->|Hne].
  - rewrite server_upd_same in * by done. destruct (Hf (server_session s i)) as (Ea & Ead & Es & Er).
    rewrite Ea in Ha. rewrite Ead in Hadd. rewrite Es, Er. by apply H.
  - rewrite server_upd_other in * by done. by apply H.
Qed.

(** There is a session at the client's address. *)
Definition present (s : rel4u_server) : Prop := exists j, valid s j /\ session_active (server_session s j) = true /\
  addr_eq (cs_addr (server_session s j)) client_addr.

Lemma emit_on_connect s w src now ptr : server_ok s -> 0 <= now < UINT64_MAX -> sole s -> present s ->
  emits acknowledges w (snd (server_on_connect s w src now ptr (true, true))).
Proof.
  intros K Hn H (j & Hvj & Haj & Hadj). unfold server_on_connect. destruct (rel4u_session_find_by_addr _ _) as [i|] eqn:Hf.
  { destruct (find_valid _ _ _ K Hf) as (Hv & Ha & _).
    set (s1 := server_upd s i _). assert (K1 : server_ok s1) by (apply server_upd_ok; [done|by apply activity_step]).
    assert (M1 : mild i s s1) by (by apply mild_upd). clearbody s1.
    apply emit_control; [done|by eapply mild_valid|by rewrite (mild_active _ _ _ i M1)|by eapply sole_mild]. }
  assert (Hne : ~ addr_eq src client_addr).
  { intros Hsrc. refine (Sessions.find_none _ _ Hf j (server_session s j) _ Haj _).
    - unfold server_session. by apply list_lookup_lookup_total_lt.
    - etransitivity; [exact Hadj|by symmetry]. }
  set (sid0 := if u32 _ =? 0 then _ else _).
  assert (Hsid : is_u32 sid0) by (unfold sid0; destruct (_ =? _); [word_unfold; lia|apply u32_range]).
  pose proof (allocate_spec (sv_session_table s) src sid0 (sk_table _ K) Hsid Hf) as A.
  pose proof (allocate_length (sv_session_table s) src sid0 (true, true)) as El.
  destruct (rel4u_session_allocate _ _ _ _) as [[[i|] ev] t].
  2: { apply emit_header; [rewrite !elem_of_cons; tauto|done|done]. }
  destruct A as (x & Hx & -> & T & Fr & Ho & _). cbn [snd] in El.
  set (s0 := s <| sv_session_table := t |>). assert (K0 : server_ok s0) by (by apply sset_table_ok).
  assert (Hv0 : valid s0 i) by (unfold valid, slots, s0; cbn; rewrite El; by eapply lookup_lt_Some).
  assert (E0 : forall k, server_session s0 k = tb_sessions t !!! k) by done.
  assert (Ev : forall k, valid s0 k -> valid s k) by (intros k; unfold valid, slots, s0; cbn; by rewrite El). clearbody s0.
  assert (H0 : sole s0).
  { intros k Hk Ha Hadd. rewrite E0 in *. destruct (decide (k = i)) as [->|Hki].
    - rewrite (sf_addr _ _ _ Fr) in Hadd. done.
    - assert (Ek : tb_sessions t !!! k = server_session s k) by (unfold server_session; by rewrite !list_lookup_total_alt, Ho).
      rewrite Ek in *. by apply H; [apply Ev| |]. }
  set (f := fun y : rel4u_client_session => y <| cs_last_activity_ns := now |> <| cs_last_heartbeat_sent_ns := now |>).
  set (s1 := server_upd s0 i f). assert (K1 : server_ok s1) by (apply server_upd_ok; [done|by apply activity_step]).
  assert (M1 : mild i s0 s1) by (by apply mild_upd). clearbody s1.
  apply emit_control; [done|by eapply mild_valid| |by eapply sole_mild].
  rewrite (mild_active _ _ _ i M1), E0. unfold session_active. by rewrite (sf_state _ _ _ Fr).
Qed.

Lemma promote_same n x : session_active (session_promote n x) = session_active x /\ cs_addr (session_promote n x) = cs_addr x /\
  cs_session_id (session_promote n x) = cs_session_id x /\ cs_recv_win (session_promote n x) = cs_recv_win x /\
  cs_client_id (session_promote n x) = cs_client_id x.
Proof.
  unfold session_promote, session_active. destruct (bool_decide (_ = REL4U_STATE_CONNECTING)) eqn:E; [|done].
  apply bool_decide_eq_true in E. cbn in E |- *. by rewrite E.
Qed.

Lemma on_ack_same hdr now x : kept x (session_on_ack hdr now x).
Proof. unfold session_on_ack. by destruct (rel4u_send_window_on_ack _ _ _ _ _ _) as [[? ?] ?]. Qed.

(** The part of [server_on_session] before the packet's own work. *)
Definition session_entered (s : rel4u_server) (i : nat) (n now : Z) : rel4u_server :=
  server_upd (s <| sv_session_table := rel4u_session_touch_lru (sv_session_table s) i now |>) i (session_promote n).

Lemma session_entered_sole s i n now : sole s -> sole (session_entered s i n now).
Proof.
  intros H. apply sole_upd; [intros x; by destruct (promote_same n x) as (? & ? & ? & ? & _)|].
  by apply (sole_upd s i (fun x => x <| cs_last_activity_ns := now |>)).
Qed.

Lemma session_entered_ok s i n now : server_ok s -> 0 <= now < UINT64_MAX -> server_ok (session_entered s i n now).
Proof.
  intros K Hn. apply server_upd_ok; [|apply promote_step]. apply sset_table_ok; [done|]. apply touch_inv; [apply K|done].
Qed.

Lemma session_entered_frame s i n now : frame i s (session_entered s i n now).
Proof. etransitivity; [apply (frame_upd s i (fun x => x <| cs_last_activity_ns := now |>))|apply frame_upd]. Qed.

Lemma session_entered_at s i n now : valid s i ->
  server_session (session_entered s i n now) i = session_promote n ((server_session s i) <| cs_last_activity_ns := now |>).
Proof.
  intros Hv. unfold session_entered. rewrite server_upd_same.
  - f_equal. exact (server_upd_same s i (fun x => x <| cs_last_activity_ns := now |>) Hv).
  - by apply (server_upd_valid s i (fun x => x <| cs_last_activity_ns := now |>)).
Qed.

Lemma emit_on_session s w i hdr buf now : server_ok s -> valid s i -> session_active (server_session s i) = true ->
  sole s -> header_wf hdr -> 0 <= now < UINT64_MAX ->
  emits acknowledges w (snd (server_on_session s w i hdr buf now)).
Proof.
  intros K Hv Ha H W Hn. unfold server_on_session. fold (session_entered s i (Z.of_nat (length buf)) now).
  pose proof (session_entered_ok s i (Z.of_nat (length buf)) now K Hn) as K1.
  pose proof (session_entered_sole s i (Z.of_nat (length buf)) now H) as H1.
  pose proof (frame_valid _ _ _ i (session_entered_frame s i (Z.of_nat (length buf)) now) Hv) as Hv1.
  pose proof (session_entered_at s i (Z.of_nat (length buf)) now Hv) as E1. set (s1 := session_entered _ _ _ _) in *.
  assert (Ha1 : session_active (server_session s1 i) = true).
  { rewrite E1. destruct (promote_same (Z.of_nat (length buf)) ((server_session s i) <| cs_last_activity_ns := now |>)) as [-> _]. exact Ha. }
  clearbody s1. destruct (_ =? REL4U_PKT_CONNECT_ACK); [done|]. destruct (_ =? REL4U_PKT_DISCONNECT); [done|].
  set (s2 := server_upd s1 i _). assert (K2 : server_ok s2) by (apply server_upd_ok; [done|by apply on_ack_step]).
  assert (M2 : mild i s1 s2) by (apply mild_upd; [done|apply on_ack_same]). clearbody s2.
  destruct (_ =? REL4U_PKT_HEARTBEAT); [|done].
  pose proof (emit_control s2 w i REL4U_PKT_HEARTBEAT_ACK K2 (mild_valid _ _ _ _ M2 Hv1)
    ltac:(by rewrite (mild_active _ _ _ i M2)) (sole_mild _ _ _ M2 H1)) as E.
  by destruct (server_send_control _ _ _ _).
Qed.

Lemma emit_on_datagram ptr s w buf src : server_ok s -> datagram_ok buf -> sole s -> present s ->
  emits acknowledges w (snd (server_on_datagram ptr s w buf src (true, true))).
Proof.
  intros K Hb H Hp. unfold server_on_datagram. destruct (rel4u_packet_decode_header _ _ _ _) as [r hdr] eqn:E.
  destruct (Z.eqb_spec r 0) as [->|]; [|done]. cbn [negb]. destruct (decode_ok _ _ _ _ Hb E) as [W _].
  unfold time_now_ns. cbv beta iota. set (w1 := mk_world _ _ _ _). set (now := pf_clock _).
  assert (Hn : 0 <= now < UINT64_MAX) by apply clock_time. transitivity w1; [by apply emits_same|]. clearbody w1 now.
  set (s1 := s <| sv_stats := _ |>). assert (K1 : server_ok s1) by server_tac. assert (H1 : sole s1) by exact H.
  assert (Hp1 : present s1) by exact Hp. clearbody s1.
  destruct (_ =? REL4U_PKT_CONNECT_REQ); [by apply emit_on_connect|].
  assert (Hst : emits acknowledges w1 (server_on_stranger s1 w1 hdr src)).
  { unfold server_on_stranger. destruct (_ && _); [|done]. apply emit_header; [rewrite !elem_of_cons; tauto|apply W|apply W]. }
  destruct (rel4u_session_find_by_addr _ _) as [i|] eqn:Hf; [|exact Hst].
  destruct (find_valid _ _ _ K1 Hf) as (Hv & Ha & _). destruct (_ =? h_session_id hdr); [|exact Hst].
  by apply emit_on_session.
Qed.

(** Every step. *)
Lemma emit_event s w e : server_ok s -> server_event_ok e -> sole s -> present s ->
  emits acknowledges w (snd (run_server_event (s, w) e)).
Proof.
  intros K He H Hp. destruct e as [ptr buf src ok| | |env|id mode data len|sz t wk|id| | | |]; cbn [run_server_event server_event_ok] in *.
  - destruct He as [He ->]. by apply emit_on_datagram.
  - rewrite server_drain_turn. pose proof (emit_drain_turn s w K H) as E. destruct (drain_turn s w) as [[s' w'] []]; exact E.
  - by apply emit_timers.
  - done.
  - unfold rel4u_server_send. destruct (_ >? _); [done|]. destruct (negb (sv_running s)); [done|].
    destruct (memcpy_into _ _ _); [|done].
    destruct (rel4u_mpmc_try_push _ _) as [ok q]. destruct (negb ok); [done|]. apply emits_signal.
  - by destruct (rel4u_server_recv s sz t wk) as [[[[r id] bytes] s']|].
  - unfold rel4u_server_disconnect_client. destruct (rel4u_session_find_by_id _ _) as [i|] eqn:Hf; [|done].
    destruct (find_id_valid _ _ _ K Hf) as (Hv & _). apply emit_header; [rewrite !elem_of_cons; tauto|apply (session_ok_at _ _ K Hv)|done].
  - apply emits_signal.
  - done.
  - by apply emits_same.
  - apply emits_drain.
Qed.
End server.

(** ** One session's receive window *)

Section window.
Context {platform : Platform} {allocator : Malloc}.

(** The slots that a step hands to the application for session [j]. *)
Definition session_log (s : rel4u_server) (j : nat) (e : server_event) : list rel4u_recv_slot :=
  match e with
  | SvDatagram _ buf src _ =>
      let '(r, hdr) := rel4u_packet_decode_header pf_host buf (Z.of_nat (length buf)) header_zero in
      if (r =? 0) && (h_packet_type hdr =? REL4U_PKT_DATA) then
        match rel4u_session_find_by_addr (sv_session_table s) src with
        | Some i =>
            if (i =? j)%nat && (cs_session_id (server_session s j) =? h_session_id hdr)
            then data_log (cs_recv_win (server_session s j)) (sv_ready_slots s) hdr (drop 24 buf) else []
        | None => []
        end
      else []
  | _ => []
  end.

(** The receive window of session [j] after a data packet of the session. *)
Definition data_window (s : rel4u_server) (j : nat) (hdr : rel4u_header) (payload : list Z) : rel4u_recv_window :=
  fst (fst (fst (handle_data (cs_client_id (server_session s j)) (cs_recv_win (server_session s j)) (sv_recv_queue s)
    (sv_ready_slots s) hdr payload))).

(** A data packet of session [j], the window it leaves and what it hands over. *)
Definition data_step (s : rel4u_server) (j : nat) (e : server_event) (s' : rel4u_server) : Prop :=
  exists ptr buf src ok hdr, e = SvDatagram ptr buf src ok /\ reads pf_host buf hdr /\
    h_packet_type hdr = REL4U_PKT_DATA /\ h_session_id hdr = cs_session_id (server_session s j) /\
    addr_eq (cs_addr (server_session s j)) src /\
    cs_recv_win (server_session s' j) = data_window s j hdr (drop 24 buf) /\
    session_log s j e = data_log (cs_recv_win (server_session s j)) (sv_ready_slots s) hdr (drop 24 buf) /\
    sv_recv_queue s' = push_all (sv_recv_queue s) (ready_item (cs_client_id (server_session s j)) <$> session_log s j e).

(** A field of a session that neither activity nor sending touches is kept by a
    request for a connection, unless the session is taken over. *)
Section keeps.
Context {A : Type} (g : rel4u_client_session -> A).
Hypothesis g_activity : forall x now, g (x <| cs_last_activity_ns := now |> <| cs_last_heartbeat_sent_ns := now |>) = g x.
Hypothesis g_sent : forall x sent now, g (session_sent sent now x) = g x.

Lemma upd_keeps s i f j : valid s i -> (forall x, g (f x) = g x) ->
  g (server_session (server_upd s i f) j) = g (server_session s j).
Proof.
  intros Hv Hf. destruct (decide (j = i)) as [->|Hne]; [by rewrite server_upd_same|by rewrite server_upd_other].
Qed.

Lemma control_keeps s w i type j : valid s i ->
  g (server_session (fst (server_send_control s w i type)) j) = g (server_session s j).
Proof.
  intros Hv. unfold server_send_control. destruct (server_send_update s w i type REL4U_MODE_UNRELIABLE_UNORDERED 0 None 0)
    as [->|(st & sent & now & ->)]; [done|]. rewrite upd_keeps; [done|exact Hv|done].
Qed.

Lemma connect_keeps s w src now ptr j : server_ok s -> valid s j -> session_active (server_session s j) = true ->
  ip_addr (cs_addr (server_session s j)) ->
  let s' := fst (server_on_connect s w src now ptr (true, true)) in
  cs_addr (server_session s' j) = cs_addr (server_session s j) ->
  g (server_session s' j) = g (server_session s j).
Proof.
  intros K Hv Ha Hip. cbv zeta. unfold server_on_connect. destruct (rel4u_session_find_by_addr _ _) as [i|] eqn:Hf.
  { destruct (find_valid _ _ _ K Hf) as (Hvi & _). intros _. rewrite control_keeps by (by apply server_upd_valid).
    by apply upd_keeps. }
  set (sid0 := if u32 _ =? 0 then _ else _).
  assert (Hsid : is_u32 sid0) by (unfold sid0; destruct (_ =? _); [word_unfold; lia|apply u32_range]).
  pose proof (allocate_spec (sv_session_table s) src sid0 (sk_table _ K) Hsid Hf) as Al.
  pose proof (allocate_length (sv_session_table s) src sid0 (true, true)) as El.
  destruct (rel4u_session_allocate _ _ _ _) as [[[i|] ev] t]; [|by destruct Al as (-> & _)].
  destruct Al as (x & Hx & -> & T & Fr & Ho & _). cbn [snd] in El. set (s0 := s <| sv_session_table := t |>).
  assert (Hv0 : valid s0 i) by (unfold valid, slots, s0; cbn; rewrite El; by eapply lookup_lt_Some).
  assert (E0 : forall k, server_session s0 k = tb_sessions t !!! k) by done. clearbody s0.
  set (s1 := server_upd s0 i _). assert (E1 : g (server_session s1 j) = g (server_session s0 j)) by (by apply upd_keeps).
  assert (M1 : mild i s0 s1) by (by apply mild_upd). clearbody s1. pose proof (mild_valid _ _ _ _ M1 Hv0) as Hv1.
  rewrite control_keeps by done. destruct (decide (j = i)) as [->|Hne].
  - pose proof (mild_control s1 w i REL4U_PKT_CONNECT_RESP Hv1) as M2.
    rewrite (kp_addr _ _ (proj2 M2)), (kp_addr _ _ (proj2 M1)), E0, (sf_addr _ _ _ Fr). intros Esrc. exfalso.
    refine (Sessions.find_none _ _ Hf i (server_session s i) _ Ha _).
    + unfold server_session. by apply list_lookup_lookup_total_lt.
    + rewrite Esrc. by apply addr_eq_refl.
  - intros _. rewrite E1, E0. unfold server_session. by rewrite !list_lookup_total_alt, Ho.
Qed.
End keeps.

Lemma on_data_window s i hdr payload : valid s i ->
  cs_recv_win (server_session (server_on_data s i hdr payload) i) = data_window s i hdr payload /\
  sv_recv_queue (server_on_data s i hdr payload) = push_all (sv_recv_queue s)
    (ready_item (cs_client_id (server_session s i)) <$> data_log (cs_recv_win (server_session s i)) (sv_ready_slots s) hdr payload).
Proof.
  intros Hv. unfold data_window, server_on_data.
  pose proof (handle_data_queue (cs_client_id (server_session s i)) (cs_recv_win (server_session s i)) (sv_recv_queue s)
    (sv_ready_slots s) hdr payload) as Q.
  destruct (handle_data _ _ _ _ _ _) as [[[win queue] ready] ack]. cbn [fst snd] in *. rewrite server_upd_same by exact Hv.
  split; [by destruct ack|exact Q].
Qed.

(** A packet of the session itself. *)
Lemma on_session_window s w j hdr buf now : valid s j ->
  let s' := fst (server_on_session s w j hdr buf now) in
  session_active (server_session s' j) = true ->
  if h_packet_type hdr =? REL4U_PKT_DATA
  then cs_recv_win (server_session s' j) = data_window s j hdr (drop 24 buf) /\
       sv_recv_queue s' = push_all (sv_recv_queue s) (ready_item (cs_client_id (server_session s j)) <$>
         data_log (cs_recv_win (server_session s j)) (sv_ready_slots s) hdr (drop 24 buf))
  else cs_recv_win (server_session s' j) = cs_recv_win (server_session s j).
Proof.
  intros Hv. cbv zeta. unfold server_on_session. fold (session_entered s j (Z.of_nat (length buf)) now).
  pose proof (frame_valid _ _ _ j (session_entered_frame s j (Z.of_nat (length buf)) now) Hv) as Hv1.
  assert (Eg : sv_recv_queue (session_entered s j (Z.of_nat (length buf)) now) = sv_recv_queue s /\
    sv_ready_slots (session_entered s j (Z.of_nat (length buf)) now) = sv_ready_slots s) by done.
  pose proof (session_entered_at s j (Z.of_nat (length buf)) now Hv) as E1.
  destruct (promote_same (Z.of_nat (length buf)) ((server_session s j) <| cs_last_activity_ns := now |>)) as (_ & _ & _ & Er & Ec).
  rewrite <- E1 in Er, Ec. set (s1 := session_entered _ _ _ _) in *. clearbody s1. clear E1. cbn in Er, Ec.
  destruct Eg as [Eq Es].
  destruct (Z.eqb_spec (h_packet_type hdr) REL4U_PKT_CONNECT_ACK) as [->|_]; [done|].
  destruct (Z.eqb_spec (h_packet_type hdr) REL4U_PKT_DISCONNECT) as [->|_].
  { cbn [fst]. unfold server_session at 1. cbn. rewrite free_inactive by exact Hv1. done. }
  set (s2 := server_upd s1 j _). assert (M2 : mild j s1 s2) by (apply mild_upd; [done|apply on_ack_same]).
  assert (Eg2 : sv_recv_queue s2 = sv_recv_queue s /\ sv_ready_slots s2 = sv_ready_slots s) by done. clearbody s2.
  pose proof (mild_valid _ _ _ _ M2 Hv1) as Hv2.
  destruct (Z.eqb_spec (h_packet_type hdr) REL4U_PKT_HEARTBEAT) as [->|Hh].
  { pose proof (mild_control s2 w j REL4U_PKT_HEARTBEAT_ACK Hv2) as M3. destruct (server_send_control _ _ _ _) as [s3 w3].
    cbn [fst Z.eqb Pos.eqb REL4U_PKT_HEARTBEAT REL4U_PKT_DATA] in *. intros _.
    by rewrite (kp_recv _ _ (proj2 M3)), (kp_recv _ _ (proj2 M2)). }
  destruct Eg2 as [Eq2 Es2]. pose proof (kp_recv _ _ (proj2 M2)) as Er2. pose proof (kp_client _ _ (proj2 M2)) as Ec2.
  cbn [fst]. destruct (Z.eqb_spec (h_packet_type hdr) REL4U_PKT_DATA) as [Hd|Hd]; intros _; [|congruence].
  destruct (on_data_window s2 j hdr (drop 24 buf) Hv2) as [W Q]. rewrite Q, W. unfold data_window.
  by rewrite Eq2, Es2, Er2, Ec2, Er, Ec.
Qed.

Lemma datagram_window ptr s w buf src j : server_ok s -> datagram_ok buf -> valid s j ->
  session_active (server_session s j) = true -> ip_addr (cs_addr (server_session s j)) ->
  let s' := fst (server_on_datagram ptr s w buf src (true, true)) in
  session_active (server_session s' j) = true -> cs_addr (server_session s' j) = cs_addr (server_session s j) ->
  (cs_recv_win (server_session s' j) = cs_recv_win (server_session s j) /\
   session_log s j (SvDatagram ptr buf src (true, true)) = []) \/ data_step s j (SvDatagram ptr buf src (true, true)) s'.
Proof.
  intros K Hb Hv Ha Hip. cbv zeta. unfold server_on_datagram, data_step, session_log.
  destruct (rel4u_packet_decode_header _ _ _ _) as [r hdr] eqn:E. destruct (Z.eqb_spec r 0) as [->|]; [|by left]. cbn [negb andb].
  unfold time_now_ns. cbv beta iota. set (w1 := mk_world _ _ _ _). set (now := pf_clock _).
  set (s1 := s <| sv_stats := _ |>). assert (K1 : server_ok s1) by server_tac.
  assert (F1 : (forall k, server_session s1 k = server_session s k) /\ sv_session_table s1 = sv_session_table s /\
    sv_recv_queue s1 = sv_recv_queue s /\ sv_ready_slots s1 = sv_ready_slots s) by done. clearbody s1 w1 now.
  destruct F1 as (Es & Et & Eq & Er). assert (Hv1 : valid s1 j) by (unfold valid, slots in *; by rewrite Et).
  destruct (Z.eqb_spec (h_packet_type hdr) REL4U_PKT_CONNECT_REQ) as [Hc|Hc].
  { intros _ Had. left. rewrite (proj2 (Z.eqb_neq _ _)) by (rewrite Hc; done). split; [|done].
    rewrite <- !Es in *. by apply (connect_keeps cs_recv_win). }
  rewrite Et. destruct (rel4u_session_find_by_addr _ _) as [i|] eqn:Hf.
  2: { intros _ _. left. cbn [fst]. rewrite Es. split; [done|]. by destruct (_ =? _). }
  rewrite <- Et in Hf. destruct (find_valid _ _ _ K1 Hf) as (Hvi & _ & He).
  destruct (Nat.eqb_spec i j) as [->|Hij]; cbn [andb].
  2: { intros _ _. left. split; [|by destruct (_ =? _)]. destruct (_ =? h_session_id hdr); [|cbn [fst]; by rewrite Es].
       by rewrite (fr_others _ _ _ (frame_on_session s1 w1 i hdr buf now Hvi) j), Es by done. }
  rewrite Es in *. destruct (Z.eqb_spec (cs_session_id (server_session s j)) (h_session_id hdr)) as [Hid|Hid].
  2: { intros _ _. left. cbn [fst]. rewrite Es. split; [done|]. by destruct (_ =? _). }
  intros Ha' Had. pose proof (on_session_window s1 w1 j hdr buf now Hv1 Ha') as P. rewrite Es in P.
  destruct (Z.eqb_spec (h_packet_type hdr) REL4U_PKT_DATA) as [Hd|Hd]; [|by left].
  right. exists ptr, buf, src, (true, true), hdr. destruct P as [P1 P2]. rewrite Eq, Er in P2. unfold data_window in *. rewrite Eq, Er, Es in P1.
  split; [done|]. split; [done|]. split; [done|]. split; [done|]. split; [done|]. split; [exact P1|]. split; [done|exact P2].
Qed.

(** Starting touches neither the sessions nor the messages that wait. *)
Lemma start_same s env : let s' := snd (rel4u_server_start s env) in
  sv_config s' = sv_config s /\ sv_session_table s' = sv_session_table s /\ sv_send_queue s' = sv_send_queue s /\
  sv_has_pending_item s' = sv_has_pending_item s /\ sv_pending_item s' = sv_pending_item s.
Proof.
  cbv zeta. unfold rel4u_server_start. destruct (sv_running s); [done|].
  destruct (rel4u_net_addr_from_string _ _ _). destruct (negb _); [done|]. cbv zeta. destruct (_ =? REL4U_INVALID_SOCKET); [done|].
  destruct (negb _); [done|]. destruct (rel4u_wakeup_pipe_create _ _). destruct (negb _); [done|]. by destruct (negb _).
Qed.

(** Every step, on a session that is still there after it. *)
Lemma event_window s w e j : server_ok s -> server_event_ok e -> valid s j ->
  session_active (server_session s j) = true -> ip_addr (cs_addr (server_session s j)) ->
  let s' := fst (run_server_event (s, w) e) in
  session_active (server_session s' j) = true -> cs_addr (server_session s' j) = cs_addr (server_session s j) ->
  (cs_recv_win (server_session s' j) = cs_recv_win (server_session s j) /\ session_log s j e = []) \/ data_step s j e s'.
Proof.
  intros K He Hv Ha Hip. cbv zeta.
  assert (Hm : forall i s', mild i s s' -> cs_recv_win (server_session s' j) = cs_recv_win (server_session s j)).
  { intros i s' [F M]. destruct (decide (j = i)) as [->|Hne]; [apply M|by rewrite (fr_others _ _ _ F)]. }
  destruct e as [ptr buf src ok| | |env|id mode data len|sz t wk|id| | | |]; cbn [run_server_event server_event_ok session_log] in *.
  1: { destruct He as [He ->]. by apply datagram_window. }
  all: intros Ha' Had; left; split; [|done].
  - rewrite server_drain_turn in *. destruct (drain_turn_mild s w K) as [i M].
    destruct (drain_turn s w) as [[s' w'] []]; by apply (Hm i).
  - pose proof (timers_timed s w j K Hv) as T. unfold timed in T. rewrite Ha in T. cbn [andb] in T.
    destruct (idle s _ j); [by rewrite T in Ha'|apply T].
  - destruct (start_same s env) as (Ec & Et & _). by apply (Hm 0%nat), mild_table.
  - apply (Hm 0%nat), mild_table; unfold rel4u_server_send; destruct (_ >? _); try done; destruct (negb (sv_running s)); try done;
      destruct (memcpy_into _ _ _); try done; destruct (rel4u_mpmc_try_push _ _) as [ok q]; by destruct (negb ok).
  - apply (Hm 0%nat), mild_table; unfold rel4u_server_recv; destruct (_ =? _); try done;
      by destruct (rel4u_mpmc_pop_wait _ _ _ _) as [q|[] q item].
  - revert Ha' Had. unfold rel4u_server_disconnect_client. destruct (rel4u_session_find_by_id _ _) as [i|] eqn:Hf; [|done].
    destruct (find_id_valid _ _ _ K Hf) as (Hvi & _). cbn [fst]. intros Ha' Had.
    destruct (decide (j = i)) as [->|Hne]; [|by rewrite (fr_others _ _ _ (frame_free s i Hvi) j Hne)].
    unfold server_session in Ha' at 1. cbn in Ha'. rewrite free_inactive in Ha' by exact Hv. done.
  - by apply (Hm 0%nat), mild_table.
  - pose proof (cn_sessions _ (stop_end_clean s K) j) as Hc. cbn [fst] in Ha'. rewrite Hc in Ha'; [done|].
    pose proof (ti_length _ (sk_table _ (server_stop_end_ok s K))) as E1. pose proof (ti_length _ (sk_table _ K)) as E2.
    unfold valid, slots in *. destruct (free_fold_inactive (seq 0 (Z.to_nat (tb_max_clients (sv_session_table s)))) _ (sk_table _ K)) as [El _].
    unfold server_stop_end. cbn. by rewrite El.
  - done.
  - done.
Qed.
End window.
