(* ===== verification/ClientWire.v ===== *)
(** * What the client puts on the wire

    Every data packet of a reliable mode that a step of a connected client sends
    is an entry of its send window, and every datagram carries the acknowledgement
    of its receive window; draining appends entries, retransmitting leaves the
    entries the same packets, an acknowledgement is handed to the send window and a
    data packet to the receive window as it came. *)
From S2P Require Import Prelude Ring Types Seq Packet Rtt Mpmc MpmcSpec Queue SendWindow SendSpec Send RecvWindow RecvSpec RecvSafe Net Link Endpoint Peer Client ClientSpec ClientRun Server ServerSpec ServerRun ServerDrain ServerTable Emit.
From stdpp Require Import base numbers list gmap.
Open Scope Z_scope.
Open Scope rel4u_scope.

(** ** Packets and entries *)

(** A packet with the message of the entry [e]. *)
Record entry_packet (e : rel4u_send_slot) (hdr : rel4u_header) (payload : list Z) : Prop := {
  ep_seq : h_seq_num hdr = ss_seq_num e;
  ep_mode : h_delivery_mode hdr = ss_delivery_mode e;
  ep_len : h_payload_len hdr = ss_payload_len e;
  ep_data : take (Z.to_nat (ss_payload_len e)) payload = take (Z.to_nat (ss_payload_len e)) (ss_payload e)
}.

(** A datagram is no data packet, an unreliable one or that of an entry of [es]. *)
Definition entry_wire (es : list rel4u_send_slot) (d : rel4u_net_addr * list Z) : Prop :=
  forall host hdr, reads host (snd d) hdr -> h_packet_type hdr = REL4U_PKT_DATA ->
  mode_reliable (h_delivery_mode hdr) = false \/
  exists i e, es !! i = Some e /\ entry_packet e hdr (drop 24 (snd d)).

Lemma entry_wire_app es es' d : entry_wire es d -> entry_wire (es ++ es') d.
Proof.
  intros H host hdr Hr Ht. destruct (H host hdr Hr Ht) as [?|(i & e & He & Hp)]; [by left|right].
  exists i, e. split; [by apply lookup_app_l_Some|done].
Qed.

Lemma entry_wire_same es es' d : Forall2 same_packet es es' -> entry_wire es d -> entry_wire es' d.
Proof.
  intros Hs H host hdr Hr Ht. destruct (H host hdr Hr Ht) as [?|(i & e & He & [])]; [by left|right].
  destruct (Forall2_lookup_l _ _ _ _ _ Hs He) as (e' & He' & []). exists i, e'. split; [done|].
  constructor; congruence.
Qed.

(** Every packet of a client carries the acknowledgement of its receive window. *)
Definition carries_ack (rv : rel4u_recv_window) (d : rel4u_net_addr * list Z) : Prop :=
  forall host hdr, reads host (snd d) hdr -> (h_ack_num hdr, h_sack_mask hdr) = rel4u_recv_window_get_ack_info rv.

Definition client_wire (es : list rel4u_send_slot) (rv : rel4u_recv_window) (d : rel4u_net_addr * list Z) : Prop :=
  entry_wire es d /\ carries_ack rv d.

Lemma wire_control es addr type mode session seq len ack sack body :
  header_wf (make_header type mode session seq len ack sack) -> u8 type <> REL4U_PKT_DATA ->
  entry_wire es (addr, header_bytes (make_header type mode session seq len ack sack) ++ body).
Proof. intros W Ht host hdr Hr Hd. apply (reads_wire _ _ _ _ W) in Hr as ->. done. Qed.

Lemma wire_unreliable es addr mode session seq len ack sack body :
  header_wf (make_header REL4U_PKT_DATA mode session seq len ack sack) -> mode_reliable (u8 mode) = false ->
  entry_wire es (addr, header_bytes (make_header REL4U_PKT_DATA mode session seq len ack sack) ++ body).
Proof. intros W Hm host hdr Hr Hd. apply (reads_wire _ _ _ _ W) in Hr as ->. by left. Qed.

Lemma wire_entry es i e p addr session ack sack data :
  let hdr := make_header REL4U_PKT_DATA (ss_delivery_mode e) session (ss_seq_num e) (ss_payload_len e) ack sack in
  header_wf hdr -> es !! i = Some e -> entry_ok p e ->
  take (Z.to_nat (ss_payload_len e)) data = take (Z.to_nat (ss_payload_len e)) (ss_payload e) ->
  entry_wire es (addr, header_bytes hdr ++ packet_body (Some data) (ss_payload_len e)).
Proof.
  intros hdr W He O Hd host h Hr Ht. apply (reads_wire _ _ _ _ W) in Hr as ->. right. exists i, e. split; [done|].
  cbn [snd]. rewrite wire_body. pose proof (eo_len _ _ O) as Hlen. unfold REL4U_MAX_PAYLOAD_SIZE in Hlen.
  constructor; cbn; [done| |by apply u16_small; word_unfold; lia|by rewrite take_take, Nat.min_id].
  pose proof (eo_mode _ _ O) as Hm. by apply mode_reliable_true in Hm as [->| ->].
Qed.

(** A message that is pushed goes out as the entry it has become. *)
Lemma push_wire win it now h es addr session : send_rep win h es ->
  rel4u_send_window_can_send win = true -> is_u8 (it_mode it) -> item_sized it -> is_u64 now ->
  let pushed := rel4u_send_window_push win (it_mode it) (it_data it) (it_len it) now in
  exists new, send_rep (snd (fst pushed)) h (es ++ new) /\ Forall (fun e => ss_acked e = false) new /\
    forall sq, snd pushed = Some sq -> forall ack sack,
      let hdr := make_header REL4U_PKT_DATA (it_mode it) session sq (it_len it) ack sack in header_wf hdr ->
      entry_wire (es ++ new) (addr, header_bytes hdr ++ packet_body (Some (it_data it)) (it_len it)).
Proof.
  intros R Hcan Hm8 [[Hl _] Hmax] Hn. cbv zeta. rewrite (can_send_spec _ _ _ R) in Hcan.
  destruct (mode_reliable (it_mode it)) eqn:Hm.
  - pose proof (push_reliable _ h es (it_mode it) (it_data it) (it_len it) now R Hm Hn Hl Hmax) as Pr. cbv zeta in Pr.
    rewrite Hcan in Pr. destruct Pr as (w1 & payload & -> & R1 & Ht & _). cbn [fst snd]. eexists. split; [exact R1|].
    split; [by repeat constructor|]. intros sq [= <-] ack sack W. set (e := pushed_entry _ _ _ _ _) in *.
    apply (wire_entry (es ++ [e]) (length es) e (h + Z.of_nat (length es)) _ _ _ _ (it_data it) W).
    + by rewrite lookup_app_r, Nat.sub_diag by lia.
    + apply (sr_entries _ _ _ R1). by rewrite lookup_app_r, Nat.sub_diag by lia.
    + symmetry. exact Ht.
  - unfold rel4u_send_window_push. rewrite Hm.
    destruct (Z.gtb_spec (it_len it) REL4U_MAX_PAYLOAD_SIZE) as [?|_]; [unfold REL4U_MAX_PAYLOAD_SIZE, REL4U_MAX_MSG_SIZE in *; lia|].
    exists []. rewrite app_nil_r. cbn [fst snd]. split; [destruct R; by constructor|]. split; [constructor|].
    intros sq _ ack sack W. apply wire_unreliable; [done|by rewrite u8_small].
Qed.

(** ** The messages that entered a window *)

(** The entries from the next sequence number of [w] to that of [w']. *)
Definition window_new (w w' : rel4u_send_window) : list (Z * list Z) :=
  (fun k => entry_view (sw_slots w' !. send_slot_idx w' (u32 (sw_next_seq w + k)))) <$>
    seqZ 0 (u32 (sw_next_seq w' - sw_next_seq w)).

Lemma window_new_none w w' : sw_next_seq w' = sw_next_seq w -> window_new w w' = [].
Proof. intros E. unfold window_new. by rewrite E, Z.sub_diag. Qed.

Lemma window_new_spec w w' h es new : send_rep w h es -> send_rep w' h (es ++ new) ->
  window_new w w' = entry_view <$> new.
Proof.
  intros R R'. pose proof (sr_cap _ _ _ R') as [Hc _]. pose proof (sr_fits _ _ _ R') as Hf. rewrite length_app in Hf.
  assert (En : u32 (sw_next_seq w' - sw_next_seq w) = Z.of_nat (length new)).
  { rewrite (sr_next _ _ _ R), (sr_next _ _ _ R'), length_app. autorewrite with rel4u. rewrite u32_small; [lia|word_unfold; lia]. }
  unfold window_new. rewrite En. apply list_eq. intros i. rewrite !list_lookup_fmap.
  destruct (decide (i < length new)%nat) as [Hi|Hi].
  - rewrite lookup_seqZ_lt by lia. destruct (lookup_lt_is_Some_2 new i Hi) as [e He]. rewrite He. cbn [fmap option_fmap option_map].
    do 2 f_equal. rewrite (sr_next _ _ _ R). autorewrite with rel4u.
    replace (h + Z.of_nat (length es) + (0 + Z.of_nat i)) with (h + Z.of_nat (length es + i)) by lia.
    apply (send_slot_get _ _ _ _ _ R'); [lia|]. rewrite Nat2Z.id. rewrite lookup_app_r by lia.
    by replace (length es + i - length es)%nat with i by lia.
  - rewrite lookup_seqZ_ge by lia. by rewrite lookup_ge_None_2 by lia.
Qed.

Lemma entries_ok w h es new : send_rep w h (es ++ new) -> Forall (fun x => exists p, entry_ok p x) new.
Proof.
  intros R. apply Forall_forall. intros x [i Hi]%list_elem_of_lookup. eexists. apply (sr_entries _ _ _ R (length es + i)).
  rewrite lookup_app_r by lia. by replace (length es + i - length es)%nat with i by lia.
Qed.

(** An acknowledgement adds nothing. *)
Lemma on_ack_next w h es ack sack now rtt st w' rtt' st' : send_rep w h es -> is_u32 ack ->
  rel4u_send_window_on_ack w ack sack now rtt st = (w', rtt', st') -> sw_next_seq w' = sw_next_seq w.
Proof.
  intros R Ha Ew. assert (exists d, - 2 ^ 31 < d - 1 <= 2 ^ 31 /\ ack = u32 (h + d - 1)) as (d & Hd & Ed) by (by apply ack_offset).
  pose proof (on_ack_rep _ h es d sack now rtt st R Hd) as P. rewrite <- Ed, Ew in P. destruct P as (_ & F & _). apply F.
Qed.

Section wire.
Context {platform : Platform} {allocator : Malloc}.

(** ** Sending *)

Lemma emit_client (P : rel4u_net_addr * list Z -> Prop) c w type mode seq payload len :
  client_ok c -> is_u32 seq -> 0 <= len ->
  (forall ack sack, header_wf (make_header type mode (cl_session_id c) seq len ack sack) ->
    P (cl_server_addr c, header_bytes (make_header type mode (cl_session_id c) seq len ack sack) ++ packet_body payload len)) ->
  emits (fun d => P d /\ carries_ack (cl_recv_win c) d) w (snd (client_send_packet c w type mode seq payload len)).
Proof.
  intros K Hs Hl HP. unfold client_send_packet. pose proof (ack_info_u32 (cl_recv_win c)) as [Ha Hk].
  destruct (rel4u_recv_window_get_ack_info _) as [ack sack] eqn:Ei. cbn [fst snd] in Ha, Hk.
  assert (W : header_wf (make_header type mode (cl_session_id c) seq len ack sack)).
  { apply make_header_wf; [apply K|done|done|done]. }
  rewrite encode_packet_wire by done.
  assert (HC : carries_ack (cl_recv_win c) (cl_server_addr c,
    header_bytes (make_header type mode (cl_session_id c) seq len ack sack) ++ packet_body payload len)).
  { intros host hdr Hr. apply (reads_wire _ _ _ _ W) in Hr as ->. by rewrite Ei. }
  pose proof (emits_sendto (fun d => P d /\ carries_ack (cl_recv_win c) d) w (cl_sock c) _ _ (conj (HP ack sack W) HC)) as E.
  destruct (rel4u_net_sendto _ _ _ _) as [sent w1]. destruct (_ >? _); [|exact E]. etransitivity; [exact E|]. by apply emits_same.
Qed.

Lemma emit_client_control es c w type : client_ok c -> u8 type <> REL4U_PKT_DATA ->
  emits (client_wire es (cl_recv_win c)) w (snd (client_send_control c w type)).
Proof. intros K Ht. unfold client_send_control. apply (emit_client (entry_wire es)); try done. intros ack sack W. by apply wire_control. Qed.

(** What a step of the worker leaves of a client. *)
Definition same_peer (c c' : rel4u_client) : Prop :=
  cl_state c' = cl_state c /\ cl_session_id c' = cl_session_id c /\ cl_server_addr c' = cl_server_addr c.

#[export] Instance same_peer_trans : Transitive same_peer.
Proof. intros c1 c2 c3 (? & ? & ?) (? & ? & ?). split_and!; congruence. Qed.

(** The modes of queued messages fit the byte they are sent in. *)
Definition byte_modes (q : rel4u_mpmc_queue) : Prop :=
  exists b, q_rep q b /\ Forall (fun m => is_u8 (m_mode m)) (bq_msgs b).

Lemma byte_modes_push q it : byte_modes q -> item_wf it -> is_u8 (it_mode it) -> byte_modes (snd (rel4u_mpmc_try_push q it)).
Proof.
  intros (b & Hb & Hm) Hw Hi. pose proof (push_spec false q b it Hb Hw) as P. unfold rel4u_mpmc_try_push, mpmc_push in *.
  destruct (mpmc_push_back_locked q it) as [ok q']. destruct P as (alloc & b' & _ & E & Hb' & _). exists b'. split; [done|].
  assert (Hev : forall need l, Forall (fun m => is_u8 (m_mode m)) l ->
    Forall (fun m => is_u8 (m_mode m)) (bq_evict (q_cost q) (q_limit q) need l)).
  { intros need l Hl. induction Hl; cbn [bq_evict]; destruct (_ <=? _); try done; by constructor. }
  unfold bq_push in E. revert E. destruct (_ >? _); [by intros [= _ <-]|]. destruct (_ >? _); [by intros [= _ <-]|].
  assert (Hfin : forall l d, Forall (fun m => is_u8 (m_mode m)) l ->
    (if alloc then (true, mk_bqueue (l ++ [item_msg it]) d) else (false, mk_bqueue l (u64 (d + 1)))) = (ok, b') ->
    Forall (fun m => is_u8 (m_mode m)) (bq_msgs b')).
  { intros l d Hl. destruct alloc; intros [= _ <-]; cbn; [|done]. apply Forall_app. split; [done|by constructor]. }
  destruct (_ <=? _); [by apply Hfin|]. destruct (q_full_policy q); [by intros [= _ <-]|]. by apply Hfin, Hev.
Qed.

Lemma byte_modes_pop q it : byte_modes q ->
  let '(ok, q', it') := rel4u_mpmc_try_pop q it in byte_modes q' /\ (ok = true -> is_u8 (it_mode it') /\ item_sized it').
Proof.
  intros (b & Hb & Hm). pose proof (pop_spec q b it Hb) as P. unfold rel4u_mpmc_try_pop, bq_pop in *.
  destruct (mpmc_pop_head_locked q it) as [[ok q'] it']. destruct (bq_msgs b) as [|m l] eqn:El.
  - destruct P as (-> & -> & ->). split; [|done]. exists b. by rewrite El.
  - destruct P as (-> & Em & Hb' & _ & Hs). apply Forall_cons in Hm as [Hm Hl]. split; [by eexists|]. intros _.
    split; [|done]. by rewrite <- Em in Hm.
Qed.

Lemma byte_modes_pop_all fuel : forall q it, byte_modes q -> byte_modes (pop_all fuel q it).
Proof.
  induction fuel as [|fuel IH]; intros q it H; [done|]. cbn [pop_all]. pose proof (byte_modes_pop q it H) as P.
  destruct (rel4u_mpmc_try_pop q it) as [[[] q'] it']; destruct P as [H' _]; [by apply IH|done].
Qed.

(** ** Draining the queue *)

(** The window has grown by [new], and what was sent is in it. *)
Record grown (h : Z) (es new : list rel4u_send_slot) (c : rel4u_client) (w : world) (c' : rel4u_client) (w' : world) : Prop := {
  gw_window : send_rep (cl_send_win c') h (es ++ new);
  gw_fresh : Forall (fun e => ss_acked e = false) new;
  gw_wire : emits (client_wire (es ++ new) (cl_recv_win c)) w w';
  gw_peer : same_peer c c';
  gw_rtt : cl_rtt c' = cl_rtt c;
  gw_recv : cl_recv_win c' = cl_recv_win c;
  gw_modes : byte_modes (cl_send_queue c')
}.

Lemma grown_refl h es c w : send_rep (cl_send_win c) h es -> byte_modes (cl_send_queue c) -> grown h es [] c w c w.
Proof. intros R Q. constructor; rewrite ?app_nil_r; done. Qed.

Lemma grown_trans h es new1 new2 c w c1 w1 c2 w2 : grown h es new1 c w c1 w1 ->
  grown h (es ++ new1) new2 c1 w1 c2 w2 -> grown h es (new1 ++ new2) c w c2 w2.
Proof.
  intros [] []. constructor; rewrite ?app_assoc; try done.
  - by apply Forall_app.
  - rewrite gw_recv0 in gw_wire1. etransitivity; [|exact gw_wire1]. eapply emits_impl; [|exact gw_wire0].
    intros d [H ?]. split; [by apply entry_wire_app|done].
  - by etransitivity.
  - congruence.
  - congruence.
Qed.

(** One message: pushed and sent. *)
Lemma push_grown c w it now h es : client_ok c -> send_rep (cl_send_win c) h es -> byte_modes (cl_send_queue c) ->
  rel4u_send_window_can_send (cl_send_win c) = true -> is_u8 (it_mode it) -> item_sized it -> is_u64 now ->
  let '(r, sw, seq) := rel4u_send_window_push (cl_send_win c) (it_mode it) (it_data it) (it_len it) now in
  let c1 := c <| cl_send_win := sw |> in
  r = 0 /\ client_ok c1 /\
  let '(c', w') := client_send_packet c1 w REL4U_PKT_DATA (it_mode it) (default 0 seq) (Some (it_data it)) (it_len it) in
  client_ok c' /\ exists new, grown h es new c w c' w'.
Proof.
  intros K R Q Hcan Hm8 Hit Hn. pose proof Hit as [[Hl _] Hmax].
  pose proof (send_push_ok (cl_send_win c) (it_mode it) (it_data it) (it_len it) now (ck_send _ K) Hn Hl Hmax) as P.
  pose proof (push_wire (cl_send_win c) it now h es (cl_server_addr c) (cl_session_id c) R Hcan Hm8 Hit Hn) as G. cbv zeta in G.
  destruct (rel4u_send_window_push _ _ _ _ _) as [[r sw] seq]. destruct P as [Hs Hr]. destruct (Hr Hcan) as (-> & sq & -> & Hsq).
  cbn [fst snd] in G. destruct G as (new & R1 & Hf & Hw). cbv zeta. split; [done|].
  set (c1 := c <| cl_send_win := sw |>). assert (K1 : client_ok c1) by (by apply set_send_win_ok). split; [done|].
  unfold default, id. pose proof (emit_client (entry_wire (es ++ new)) c1 w REL4U_PKT_DATA (it_mode it) sq (Some (it_data it)) (it_len it) K1 Hsq
    ltac:(lia) (Hw sq eq_refl)) as E.
  pose proof (send_packet_update c1 w REL4U_PKT_DATA (it_mode it) sq (Some (it_data it)) (it_len it)) as U.
  destruct (client_send_packet c1 w _ _ _ _ _) as [c' w']. cbn [fst snd] in *.
  split; [by apply (client_ok_core _ _ (sent_update_core _ _ U))|]. exists new. destruct U as (st & la & ap & ->). by constructor.
Qed.

Lemma client_drain_grown fuel : forall c w now item h es, client_ok c -> send_rep (cl_send_win c) h es ->
  byte_modes (cl_send_queue c) ->
  let '(c', w', _) := client_drain fuel c w now item in exists new, grown h es new c w c' w'.
Proof.
  induction fuel as [|fuel IH]; intros c w now item h es K R Q; cbn [client_drain]; [exists []; by apply grown_refl|].
  destruct (rel4u_send_window_can_send _) eqn:Hcan; [|exists []; by apply grown_refl].
  pose proof (try_pop_ok (cl_send_queue c) item (ck_send_queue _ K)) as P. pose proof (byte_modes_pop (cl_send_queue c) item Q) as Q1.
  destruct (rel4u_mpmc_try_pop _ _) as [[ok q] it]. destruct P as (Hq & _). destruct Q1 as [Q1 Hit].
  set (c1 := c <| cl_send_queue := q |>). assert (K1 : client_ok c1) by (by apply set_send_queue_ok).
  assert (G1 : forall w, grown h es [] c w c1 w) by (intros w0; constructor; rewrite ?app_nil_r; done).
  assert (R1 : send_rep (cl_send_win c1) h es) by exact R. assert (Hcan1 : rel4u_send_window_can_send (cl_send_win c1) = true) by exact Hcan.
  assert (Q2 : byte_modes (cl_send_queue c1)) by exact Q1. clearbody c1. destruct ok; [|exists []; apply G1].
  destruct (Hit eq_refl) as [Hm8 Hsz]. unfold time_now_ns. cbv beta iota. set (w1 := mk_world _ _ _ _).
  pose proof (push_grown c1 w1 it (pf_clock (wd_ticks w)) h es K1 R1 Q2 Hcan1 Hm8 Hsz (clock_u64 _)) as P.
  destruct (rel4u_send_window_push _ _ _ _ _) as [[r sw] seq]. cbv zeta in P. destruct P as (-> & _ & P). cbn [Z.eqb].
  destruct (client_send_packet _ _ _ _ _ _ _) as [c2 w2]. destruct P as (K2 & new & G2).
  specialize (IH c2 w2 (pf_clock (wd_ticks w)) it h (es ++ new) K2 (gw_window _ _ _ _ _ _ _ G2) (gw_modes _ _ _ _ _ _ _ G2)).
  destruct (client_drain _ _ _ _ _) as [[c3 w3] now3]. destruct IH as (new2 & G3). exists (new ++ new2).
  eapply grown_trans; [|exact G3]. change new with ([] ++ new). eapply grown_trans; [|rewrite app_nil_r; exact G2].
  destruct (G1 w1). by constructor.
Qed.

(** ** Timers *)

(** The window has the same packets as before, and what was sent is in it. *)
Record resent (h : Z) (es es' : list rel4u_send_slot) (c : rel4u_client) (w : world) (c' : rel4u_client) (w' : world) : Prop := {
  rs_ok : client_ok c';
  rs_window : send_rep (cl_send_win c') h es';
  rs_same : Forall2 same_packet es es';
  rs_wire : emits (client_wire es' (cl_recv_win c)) w w';
  rs_peer : same_peer c c';
  rs_recv : cl_recv_win c' = cl_recv_win c;
  rs_queue : cl_send_queue c' = cl_send_queue c
}.

Lemma resent_trans h es1 es2 es3 c w c1 w1 c2 w2 : resent h es1 es2 c w c1 w1 -> resent h es2 es3 c1 w1 c2 w2 ->
  resent h es1 es3 c w c2 w2.
Proof.
  intros [] []. constructor; try done.
  - by etransitivity.
  - rewrite rs_recv0 in rs_wire1. etransitivity; [|exact rs_wire1]. eapply emits_impl; [|exact rs_wire0].
    intros d [H ?]. split; [by eapply entry_wire_same|done].
  - by etransitivity.
  - congruence.
  - congruence.
Qed.

Lemma resent_refl h es c w : client_ok c -> send_rep (cl_send_win c) h es -> resent h es es c w c w.
Proof. intros K R. by constructor. Qed.

(** A packet sent from a window with the entries [es]. *)
Lemma resent_send h es c w c' w' : client_ok c -> send_rep (cl_send_win c) h es -> sent_update c c' ->
  emits (client_wire es (cl_recv_win c)) w w' -> resent h es es c w c' w'.
Proof.
  intros K R U E. pose proof (client_ok_core _ _ (sent_update_core _ _ U) K) as K'. destruct U as (st & la & ap & ->). by constructor.
Qed.

Lemma resent_control h es c w type : client_ok c -> send_rep (cl_send_win c) h es -> u8 type <> REL4U_PKT_DATA ->
  resent h es es c w (fst (client_send_control c w type)) (snd (client_send_control c w type)).
Proof.
  intros K R Ht. apply resent_send; [done|done| |by apply emit_client_control].
  unfold client_send_control. apply send_packet_update.
Qed.

Lemma resend_wire now h : is_u64 now -> forall ks c w es, client_ok c -> send_rep (cl_send_win c) h es ->
  Forall (fun k => 0 <= k < Z.of_nat (length es)) ks ->
  let '(c', w') := foldl (client_resend now) (c, w) ((fun k => (h + k) mod sw_capacity (cl_send_win c)) <$> ks) in
  exists es', resent h es es' c w c' w'.
Proof.
  intros Hn. induction ks as [|k ks IH]; intros c w es K R Hks; [exists es; by apply resent_refl|].
  apply Forall_cons in Hks as [Hk Hks]. destruct (window_slot _ _ _ k R Hk) as (e0 & He0 & _ & _).
  pose proof (retransmit_rep _ _ _ k e0 now R ltac:(lia) He0 Hn) as R'. set (es1 := <[Z.to_nat k := _]> es) in R'.
  assert (Hs1 : Forall2 same_packet es es1).
  { unfold es1. rewrite <- (list_insert_id es (Z.to_nat k) e0 He0) at 1. apply Forall2_insert; [reflexivity|apply retransmit_same]. }
  assert (Hl : length es1 = length es) by (unfold es1; by rewrite length_insert). clearbody es1.
  cbn [fmap list_fmap foldl]. unfold client_resend at 2. set (c1 := c <| cl_send_win := _ |>).
  assert (K1 : client_ok c1).
  { apply set_send_win_ok; [done|]. split; [apply (ck_send _ K)|by exists h, es1]. }
  assert (G1 : resent h es es1 c w c1 w) by (by constructor).
  assert (R1 : send_rep (cl_send_win c1) h es1) by exact R'.
  assert (Ec : sw_capacity (cl_send_win c1) = sw_capacity (cl_send_win c)) by reflexivity. clearbody c1. rewrite <- Ec. cbv zeta.
  destruct (window_slot _ _ _ k R1 ltac:(lia)) as (e & He & -> & O).
  pose proof (emit_client (entry_wire es1) c1 w REL4U_PKT_DATA (ss_delivery_mode e) (ss_seq_num e) (Some (ss_payload e)) (ss_payload_len e)
    K1 ltac:(rewrite (eo_seq _ _ O); apply u32_range) ltac:(apply O)
    (fun ack sack W => wire_entry es1 _ e _ _ _ _ _ (ss_payload e) W He O eq_refl)) as E.
  pose proof (send_packet_update c1 w REL4U_PKT_DATA (ss_delivery_mode e) (ss_seq_num e) (Some (ss_payload e)) (ss_payload_len e)) as U.
  destruct (client_send_packet _ _ _ _ _ _ _) as [c2 w2]. cbn [fst snd] in *.
  pose proof (resent_send h es1 c1 w c2 w2 K1 R1 U E) as G2.
  assert (E2 : cl_send_win c2 = cl_send_win c1) by (by destruct U as (st & la & ap & ->)). rewrite <- E2.
  specialize (IH c2 w2 es1 (rs_ok _ _ _ _ _ _ _ G2) (rs_window _ _ _ _ _ _ _ G2) ltac:(by rewrite Hl)).
  destruct (foldl _ _ _) as [c3 w3]. destruct IH as (es3 & G3). exists es3.
  eapply resent_trans; [exact G1|]. by eapply resent_trans.
Qed.

Lemma retransmit_wire c w now h es : client_ok c -> is_u64 now -> send_rep (cl_send_win c) h es ->
  let '(c', w') := client_retransmit c w now in exists es', resent h es es' c w c' w'.
Proof.
  intros K Hn R. unfold client_retransmit.
  destruct (expired_slots _ h es now (rel4u_rtt_get_rto (Some (cl_rtt c))) 16 R Hn (rto_u32 _ (ck_rtt _ K)))
    as (ks & E & Hks). change (Z.of_nat 16) with 16 in E. rewrite E. cbv zeta.
  destruct (_ >? _); [|exists es; by apply resent_refl]. set (c1 := c <| cl_rtt := _ |>).
  assert (K1 : client_ok c1) by (apply set_rtt_ok; [done|apply rtt_timeout_ok, K]).
  set (c2 := c1 <| cl_stats := _ |>). assert (K2 : client_ok c2) by client_tac.
  assert (G : resent h es es c w c2 w) by (by constructor).
  assert (E2 : cl_send_win c2 = cl_send_win c) by reflexivity. clearbody c2. rewrite <- E2.
  pose proof (resend_wire now h Hn ks c2 w es K2 ltac:(by rewrite E2) Hks) as P. destruct (foldl _ _ _) as [c3 w3].
  destruct P as (es3 & G3). exists es3. by eapply resent_trans.
Qed.

(** A reconnect leaves the connected state. *)
Lemma trigger_reconnect_state c w : cl_state (fst (client_trigger_reconnect c w)) <> REL4U_STATE_CONNECTED.
Proof. unfold client_trigger_reconnect. by destruct (cc_disable_auto_reconnect _). Qed.

Lemma timers_wire c w lo h es : client_ok c -> send_rep (cl_send_win c) h es ->
  let '(c', w', lo') := client_timers c w lo in
  cl_state c' = REL4U_STATE_CONNECTED -> exists es', resent h es es' c w c' w'.
Proof.
  intros K R. unfold client_timers. destruct (bool_decide _); [|intros _; exists es; by apply resent_refl].
  unfold time_now_ns. cbv beta iota. set (now := pf_clock _). assert (Hn : is_u64 now) by apply clock_u64.
  set (w0 := mk_world _ _ _ _). pose proof (retransmit_wire c w0 now h es K Hn R) as P1.
  destruct (client_retransmit _ _ _) as [c1 w1]. destruct P1 as (es1 & G1).
  assert (G2 : resent h es1 es1 c1 w1 (fst (if cl_ack_pending c1 then client_send_control c1 w1 REL4U_PKT_ACK else (c1, w1)))
    (snd (if cl_ack_pending c1 then client_send_control c1 w1 REL4U_PKT_ACK else (c1, w1)))).
  { destruct (cl_ack_pending c1); [apply resent_control; [apply G1|apply G1|done]|apply resent_refl; apply G1]. }
  destruct (if cl_ack_pending c1 then _ else _) as [c2 w2]. cbn [fst snd] in G2.
  assert (G3 : resent h es1 es1 c2 w2 (fst (client_heartbeat c2 w2 now)) (snd (client_heartbeat c2 w2 now))).
  { unfold client_heartbeat. destruct (_ >=? _); [|apply resent_refl; apply G2].
    pose proof (resent_control h es1 c2 w2 REL4U_PKT_HEARTBEAT (rs_ok _ _ _ _ _ _ _ G2) (rs_window _ _ _ _ _ _ _ G2) ltac:(done)) as G.
    destruct (client_send_control _ _ _) as [c3 w3]. cbn [fst snd] in *. destruct G. constructor; try done. client_tac. }
  destruct (client_heartbeat _ _ _) as [c3 w3]. cbn [fst snd] in G3.
  assert (Gt : resent h es es1 c w c3 w3).
  { assert (G0 : resent h es es1 c w c1 w1) by (destruct G1; by constructor).
    eapply resent_trans; [exact G0|]. by eapply resent_trans. }
  destruct (client_inactivity c3 w3 now) as [c4 w4] eqn:E4. intros Hst. unfold client_inactivity in E4.
  destruct (_ >=? _); [|injection E4 as <- <-; by exists es1]. exfalso. revert Hst.
  destruct (cc_disable_auto_reconnect _); [by injection E4 as <- <-|].
  pose proof (trigger_reconnect_state c3 w3) as Hs. rewrite E4 in Hs. exact Hs.
Qed.

(** ** Datagrams *)

(** The slots that a step hands to the application. *)
Definition client_log (c : rel4u_client) (lo : client_locals) (e : client_event) : list rel4u_recv_slot :=
  match e with
  | EvDatagram buf src =>
      let '(r, hdr) := rel4u_packet_decode_header pf_host buf (Z.of_nat (length buf)) header_zero in
      if rel4u_net_addr_equal src (cl_server_addr c) && (r =? 0) && client_accepts (lo_state lo) (cl_session_id c) hdr &&
         (h_packet_type hdr =? REL4U_PKT_DATA)
      then data_log (cl_recv_win c) (cl_ready_slots c) hdr (drop 24 buf) else []
  | _ => []
  end.

(** The receive window after a data packet. *)
Definition client_data_window (c : rel4u_client) (hdr : rel4u_header) (payload : list Z) : rel4u_recv_window :=
  fst (fst (fst (handle_data 0 (cl_recv_win c) (cl_recv_queue c) (cl_ready_slots c) hdr payload))).

(** An accepted packet of the session. *)
Record ack_taken (src : rel4u_net_addr) (buf : list Z) (c : rel4u_client) (w : world)
    (c' : rel4u_client) (w' : world) (hdr : rel4u_header) (now : Z) (st st' : option rel4u_stats) : Prop := {
  at_reads : reads pf_host buf hdr;
  at_src : addr_eq src (cl_server_addr c);
  at_session : h_session_id hdr = cl_session_id c;
  at_type : ~ h_packet_type hdr ∈ [REL4U_PKT_RESET; REL4U_PKT_DISCONNECT; REL4U_PKT_REJECT];
  at_resp : h_packet_type hdr <> REL4U_PKT_CONNECT_RESP;
  at_window : rel4u_send_window_on_ack (cl_send_win c) (h_ack_num hdr) (h_sack_mask hdr) now (Some (cl_rtt c)) st =
    (cl_send_win c', Some (cl_rtt c'), st');
  at_wire : emits (client_wire [] (cl_recv_win c)) w w';
  at_peer : same_peer c c';
  at_recv : cl_recv_win c' =
    if h_packet_type hdr =? REL4U_PKT_DATA then client_data_window c hdr (drop 24 buf) else cl_recv_win c;
  at_queue : cl_send_queue c' = cl_send_queue c
}.

Lemma on_ack_taken c hdr now : client_ok c -> header_wf hdr ->
  let c' := client_on_ack c hdr now in client_ok c' /\ same_peer c c' /\ cl_send_queue c' = cl_send_queue c /\
  (cl_recv_win c' = cl_recv_win c /\ cl_recv_queue c' = cl_recv_queue c /\ cl_ready_slots c' = cl_ready_slots c) /\
  exists st', rel4u_send_window_on_ack (cl_send_win c) (h_ack_num hdr) (h_sack_mask hdr) now (Some (cl_rtt c)) (Some (cl_stats c)) =
    (cl_send_win c', Some (cl_rtt c'), st').
Proof.
  intros K W. cbv zeta. pose proof (client_on_ack_ok c hdr now K W) as K'. revert K'. unfold client_on_ack.
  pose proof (on_ack_ok (cl_send_win c) (h_ack_num hdr) (h_sack_mask hdr) now (cl_rtt c) (cl_stats c)
    (ck_send _ K) (ck_rtt _ K) (wf_ack_num _ W)) as P.
  destruct (rel4u_send_window_on_ack _ _ _ _ _ _) as [[sw rtt] stats]. destruct P as (_ & r & s & -> & -> & _).
  intros K'. split; [exact K'|]. do 3 (split; [done|]). by exists (Some s).
Qed.

Lemma on_data_same c hdr payload : let c' := client_on_data c hdr payload in
  same_peer c c' /\ cl_send_queue c' = cl_send_queue c /\ cl_send_win c' = cl_send_win c /\ cl_rtt c' = cl_rtt c /\
  cl_recv_win c' = client_data_window c hdr payload.
Proof.
  cbv zeta. unfold client_on_data, client_data_window. destruct (handle_data _ _ _ _ _ _) as [[[win queue] ready] []]; done.
Qed.

Lemma datagram_wire c w lo buf src : client_ok c -> datagram_ok buf ->
  lo_state lo = REL4U_STATE_CONNECTED ->
  let '(c', w', lo', _) := client_on_datagram c w lo buf src in
  cl_state c' = REL4U_STATE_CONNECTED ->
  (c' = c /\ w' = w /\ client_log c lo (EvDatagram buf src) = []) \/
  exists hdr now st st', ack_taken src buf c w c' w' hdr now st st' /\
    client_log c lo (EvDatagram buf src) =
      if h_packet_type hdr =? REL4U_PKT_DATA then data_log (cl_recv_win c) (cl_ready_slots c) hdr (drop 24 buf) else [].
Proof.
  intros K Hb Hlo. unfold client_on_datagram, client_log.
  destruct (rel4u_packet_decode_header _ _ _ _) as [r hdr] eqn:E.
  destruct (rel4u_net_addr_equal _ _) eqn:Ead; [|by left]. cbn [negb andb].
  destruct (Z.eqb_spec r 0) as [->|]; [|by left]. cbn [negb andb].
  destruct (decode_ok _ _ _ _ Hb E) as [W B]. destruct (client_accepts _ _ _) eqn:Hacc; [|by left]. cbn [negb andb].
  unfold time_now_ns. cbn [lo_state]. rewrite Hlo in *. rewrite bool_decide_eq_false_2, andb_false_r by done.
  set (now := pf_clock _). set (w1 := mk_world _ _ _ _).
  assert (E1 : emits (client_wire [] (cl_recv_win c)) w w1) by (by apply emits_same). clearbody w1.
  set (c1 := c <| cl_last_activity_ns := _ |> <| cl_stats := _ |>). assert (K1 : client_ok c1) by client_tac.
  assert (S1 : same_peer c c1 /\ cl_send_queue c1 = cl_send_queue c /\ cl_send_win c1 = cl_send_win c /\ cl_rtt c1 = cl_rtt c) by done.
  assert (D1 : cl_recv_win c1 = cl_recv_win c /\ cl_recv_queue c1 = cl_recv_queue c /\ cl_ready_slots c1 = cl_ready_slots c) by done.
  clearbody c1. destruct S1 as (Sp & Sq & Sw & Sr).
  destruct (Z.eqb_spec (h_packet_type hdr) REL4U_PKT_RESET) as [|Hreset].
  { pose proof (trigger_reconnect_state c1 w1). by destruct (client_trigger_reconnect c1 w1). }
  destruct (Z.eqb_spec (h_packet_type hdr) REL4U_PKT_REJECT) as [|Hreject]; [done|].
  destruct (Z.eqb_spec (h_packet_type hdr) REL4U_PKT_DISCONNECT) as [|Hdisc]; [done|].
  assert (Hid : h_session_id hdr = cl_session_id c /\ h_packet_type hdr <> REL4U_PKT_CONNECT_RESP).
  { unfold client_accepts in Hacc. rewrite (proj2 (Z.eqb_neq _ _) Hreject) in Hacc.
    destruct (Z.eqb_spec (h_packet_type hdr) REL4U_PKT_CONNECT_RESP); [done|]. by apply andb_true_iff in Hacc as [_ ?%Z.eqb_eq]. }
  destruct Hid as [Hid Hresp].
  destruct (on_ack_taken c1 hdr now K1 W) as (K2 & Sp2 & Sq2 & D2 & st' & Eack). set (c2 := client_on_ack c1 hdr now) in *. clearbody c2.
  rewrite Sw, Sr in Eack. destruct D1 as (Dw1 & Dq1 & Dr1). rewrite Dw1, Dq1, Dr1 in D2. destruct D2 as (Dw & Dq & Dr).
  destruct (if _ =? REL4U_PKT_HEARTBEAT then _ else _) as [c3 w3] eqn:E3.
  assert (S3 : sent_update c2 c3 /\ emits (client_wire [] (cl_recv_win c)) w1 w3).
  { destruct (_ =? REL4U_PKT_HEARTBEAT).
    - pose proof (emit_client_control [] c2 w1 REL4U_PKT_HEARTBEAT_ACK K2 ltac:(done)) as Ee.
      pose proof (send_packet_update c2 w1 REL4U_PKT_HEARTBEAT_ACK REL4U_MODE_UNRELIABLE_UNORDERED 0 None 0) as U.
      unfold client_send_control in *. rewrite E3, ?Dw in *. done.
    - injection E3 as <- <-. split; [apply sent_update_refl|done]. }
  destruct S3 as [U3 Ew]. intros _. right. exists hdr, now, (Some (cl_stats c1)), st'. split; [|done].
  assert (D3 : client_data_window c3 hdr (drop 24 buf) = client_data_window c hdr (drop 24 buf) /\ cl_recv_win c3 = cl_recv_win c).
  { assert (cl_recv_win c3 = cl_recv_win c2 /\ cl_recv_queue c3 = cl_recv_queue c2 /\ cl_ready_slots c3 = cl_ready_slots c2)
      as (-> & Eq3 & Er3) by (by destruct U3 as (sa & la & ap & ->)).
    unfold client_data_window. rewrite Eq3, Er3, Dw, Dq, Dr. split; [|done]. do 4 f_equal.
    by destruct U3 as (sa & la & ap & ->). }
  set (c4 := if _ =? REL4U_PKT_DATA then _ else _).
  assert (S4 : same_peer c3 c4 /\ cl_send_queue c4 = cl_send_queue c3 /\ cl_send_win c4 = cl_send_win c3 /\ cl_rtt c4 = cl_rtt c3 /\
    cl_recv_win c4 = if h_packet_type hdr =? REL4U_PKT_DATA then client_data_window c hdr (drop 24 buf) else cl_recv_win c).
  { destruct D3 as [<- <-]. unfold c4. destruct (_ =? REL4U_PKT_DATA); [apply on_data_same|done]. }
  clearbody c4. destruct S4 as (Sp4 & Sq4 & Sw4 & Sr4 & Sv4).
  destruct U3 as (sa & la & ap & ->). cbn [cl_send_queue cl_send_win cl_rtt] in *. constructor; try done.
  - rewrite !elem_of_cons, elem_of_nil. tauto.
  - rewrite Sw4, Sr4. exact Eack.
  - by etransitivity.
  - etransitivity; [exact Sp|]. etransitivity; [exact Sp2|]. exact Sp4.
  - by rewrite Sq4, <- Sq, <- Sq2.
Qed.

(** ** Every step of a connected client *)

(** What a step does to the windows of a client that is connected before and after
    it: it appends messages, resends some, or takes an acknowledgement and with it
    perhaps a data packet. *)
Inductive client_effect (h : Z) (es : list rel4u_send_slot) (e : client_event) (c : rel4u_client) (w : world)
    (lo : client_locals) (c' : rel4u_client) (w' : world) : Prop :=
  | effect_grown new : grown h es new c w c' w' -> client_log c lo e = [] -> client_effect h es e c w lo c' w'
  | effect_resent es' : resent h es es' c w c' w' -> client_log c lo e = [] -> client_effect h es e c w lo c' w'
  | effect_acked buf src hdr now st st' : e = EvDatagram buf src ->
      ack_taken src buf c w c' w' hdr now st st' ->
      client_log c lo e =
        (if h_packet_type hdr =? REL4U_PKT_DATA then data_log (cl_recv_win c) (cl_ready_slots c) hdr (drop 24 buf) else []) ->
      client_effect h es e c w lo c' w'.

Lemma effect_quiet h es e c w lo c' w' : send_rep (cl_send_win c) h es -> byte_modes (cl_send_queue c') ->
  cl_send_win c' = cl_send_win c -> cl_rtt c' = cl_rtt c -> cl_recv_win c' = cl_recv_win c -> same_peer c c' ->
  client_log c lo e = [] -> emits (client_wire es (cl_recv_win c)) w w' -> client_effect h es e c w lo c' w'.
Proof.
  intros R Q Ew Er Ev Sp El Em. apply (effect_grown _ _ _ _ _ _ _ _ []); [|done].
  constructor; rewrite ?app_nil_r, ?Ew; done.
Qed.

Lemma client_event_effect c w lo e h es : client_ok c -> event_ok e -> send_rep (cl_send_win c) h es ->
  byte_modes (cl_send_queue c) -> cl_state c = REL4U_STATE_CONNECTED -> lo_state lo = REL4U_STATE_CONNECTED ->
  let '(c', w', lo') := run_event (c, w, lo) e in
  cl_state c' = REL4U_STATE_CONNECTED -> client_effect h es e c w lo c' w'.
Proof.
  intros K He R Q Hst Hlo. assert (Sp : same_peer c c) by done.
  destruct e as [| |buf src| | |mode data len|sz t wk|env| | | |]; cbn [run_event event_ok] in *.
  - unfold time_now_ns. intros _. by apply effect_quiet; [..|apply emits_same].
  - unfold client_handshake. rewrite bool_decide_eq_false_2 by congruence. intros _. by apply effect_quiet.
  - pose proof (datagram_wire c w lo buf src K He Hlo) as P.
    destruct (client_on_datagram _ _ _ _ _) as [[[c' w'] lo'] more]. intros Hs'.
    destruct (P Hs') as [(-> & -> & El)|(hdr & now & st & st' & A & El)]; [by apply effect_quiet|]. by eapply effect_acked.
  - unfold client_send_pending. destruct (bool_decide _); [|intros _; by apply effect_quiet].
    pose proof (client_drain_grown (S (Z.to_nat (q_count (cl_send_queue c)))) c w (lo_now_ns lo) item_zero h es K R Q) as P.
    destruct (client_drain _ _ _ _ _) as [[c' w'] now]. destruct P as [new G]. intros _. by eapply effect_grown.
  - pose proof (timers_wire c w lo h es K R) as P. destruct (client_timers c w lo) as [[c' w'] lo'].
    intros Hs'. destruct (P Hs') as [es' G]. by eapply effect_resent.
  - unfold rel4u_client_send. destruct (_ >? _); [intros _; by apply effect_quiet|].
    destruct (negb (cl_running c)); [intros _; by apply effect_quiet|]. destruct (_ && _); [intros _; by apply effect_quiet|].
    unfold memcpy_into. destruct (_ <=? _); [|intros _; by apply effect_quiet].
    pose proof (byte_modes_push (cl_send_queue c) _ Q (queued_item_wf 0 mode data len He) (u8_range mode)) as Q'.
    destruct (rel4u_mpmc_try_push _ _) as [ok q]. cbn [snd] in Q'. destruct (negb ok); intros _; apply effect_quiet; try done.
    apply emits_signal.
  - unfold rel4u_client_recv. destruct (_ =? _); [intros _; by apply effect_quiet|].
    destruct (rel4u_mpmc_pop_wait _ _ _ _) as [q|[] q item]; intros _; by apply effect_quiet.
  - unfold client_connect_start. rewrite bool_decide_eq_true_2 by done. intros _. by apply effect_quiet.
  - unfold client_worker_start, time_now_ns. intros _. by apply effect_quiet; [..|apply emits_same].
  - unfold client_disconnect_begin. destruct (cl_running c); [|intros _; by apply effect_quiet].
    by destruct (rel4u_net_sendto _ _ _ _).
  - done.
  - intros _. apply effect_quiet; try done. apply emits_drain.
Qed.

(** The next sequence number grows only with new entries. *)
Lemma effect_new h es e c w lo c' w' : client_ok c -> event_ok e -> send_rep (cl_send_win c) h es ->
  client_effect h es e c w lo c' w' ->
  exists new, window_new (cl_send_win c) (cl_send_win c') = entry_view <$> new /\
    Forall (fun x => exists p, entry_ok p x) new.
Proof.
  intros K He R [new G _|es' G _|buf src hdr now st st' -> A _].
  - exists new. split; [by apply (window_new_spec _ _ h es), G|]. exact (entries_ok _ h es new (gw_window _ _ _ _ _ _ _ G)).
  - exists []. split; [|done]. apply window_new_none.
    by rewrite (sr_next _ _ _ R), (sr_next _ _ _ (rs_window _ _ _ _ _ _ _ G)), (Forall2_length _ _ _ (rs_same _ _ _ _ _ _ _ G)).
  - exists []. split; [|done]. apply window_new_none. destruct (at_reads _ _ _ _ _ _ _ _ _ _ A) as [Hb E].
    destruct (decode_ok _ _ _ _ Hb E) as [W _]. exact (on_ack_next _ _ _ _ _ _ _ _ _ _ _ R (wf_ack_num _ W) (at_window _ _ _ _ _ _ _ _ _ _ A)).
Qed.
End wire.
