(* ===== verification/Pipe.v ===== *)
(** * One direction between two endpoints

    What both directions of a connection share.  The sender's window, the
    receiver's window and the datagrams of both endpoints form a reachable pair of
    [Link] as long as each step sends, resends, acknowledges or receives as
    [ClientWire], [ServerWire] and [Emit] say the endpoints do.  Which datagrams
    belong to the connection is a parameter, because it differs by direction. *)
From S2P Require Import Prelude Ring Types Seq Packet Rtt Mpmc MpmcSpec Queue SendWindow SendSpec Send RecvWindow RecvSpec Recv RecvSafe Net Link Endpoint Peer Connection Emit ClientWire.
From stdpp Require Import base numbers list gmap.
Open Scope Z_scope.
Open Scope rel4u_scope.

(** The sender's window and estimator, the receiver's window, how many reliable
    messages have entered the former, what the receiver has handed to its
    application, and the datagrams that the sender and the receiver have sent. *)
Record pipe := mk_pipe {
  pp_send : rel4u_send_window;
  pp_rtt : rel4u_rtt;
  pp_recv : rel4u_recv_window;
  pp_count : Z;
  pp_got : list msg;
  pp_data : list (rel4u_net_addr * list Z);
  pp_acks : list (rel4u_net_addr * list Z)
}.

Ltac pipe_fields := cbn [pp_send pp_rtt pp_recv pp_count pp_got pp_data pp_acks lk_send lk_rtt lk_recv lk_data
  lk_acks lk_delivered lk_head lk_next lk_expected] in *.

Section pipe.
Context {allocator : Malloc} (content : Z -> Z * list Z).
Hypothesis content_ok : forall q, mode_reliable (fst (content q)) = true /\
  Z.of_nat (length (snd (content q))) <= REL4U_MAX_PAYLOAD_SIZE.
(** The number the receiver queues messages under, and the packets it takes from
    the sender and the sender from it. *)
Context (id : Z) (of_data of_ack : rel4u_net_addr * list Z -> rel4u_header -> Prop).

(** A datagram of the sender: a reliable data packet has a message of the stream. *)
Definition data_sound (next : Z) (d : rel4u_net_addr * list Z) : Prop :=
  forall host hdr, reads host (snd d) hdr -> of_data d hdr -> h_packet_type hdr = REL4U_PKT_DATA ->
  mode_reliable (h_delivery_mode hdr) = false \/
  exists q, 1 <= q < next /\ carries content hdr (drop 24 (snd d)) q.

(** A datagram of the receiver: it has an acknowledgement the receiver has made. *)
Definition ack_honest (acks : list ack_packet) (d : rel4u_net_addr * list Z) : Prop :=
  forall host hdr, reads host (snd d) hdr -> of_ack d hdr ->
  exists a, a ∈ acks /\ h_ack_num hdr = ap_ack a /\ h_sack_mask hdr = ap_sack a.

(** What a step may send: entries of the window, the acknowledgement of [rv]. *)
Definition sends (es : list rel4u_send_slot) (d : rel4u_net_addr * list Z) : Prop :=
  forall hdr, of_data d hdr -> entry_wire es d.
Definition answers (rv : rel4u_recv_window) (d : rel4u_net_addr * list Z) : Prop :=
  forall host hdr, reads host (snd d) hdr -> of_ack d hdr ->
  (h_ack_num hdr, h_sack_mask hdr) = rel4u_recv_window_get_ack_info rv.

Record pipe_inv (p : pipe) (l : link) (es : list rel4u_send_slot) (dl : list Z) : Prop := {
  pi_link : link_inv content 1 l es dl;
  pi_send : lk_send l = pp_send p;
  pi_rtt : lk_rtt l = pp_rtt p;
  pi_recv : lk_recv l = pp_recv p;
  pi_head : 1 <= lk_head l;
  pi_next : lk_next l = 1 + pp_count p;
  pi_ack_pos : forall a, a ∈ lk_acks l -> 1 <= ap_pos a;
  pi_got : filter reliable_msg (pp_got p) = queue_msg content id <$> dl;
  pi_drained : ~ held (lk_recv l) (lk_expected l) (lk_expected l);
  pi_data : Forall (data_sound (lk_next l)) (pp_data p);
  pi_acks : Forall (ack_honest (lk_acks l)) (pp_acks p)
}.

Lemma pipe_start sw rtt rv data acks :
  send_rep sw 1 [] -> rtt_ok rtt -> recv_safe rv -> rw_expected_seq rv = 1 ->
  Forall (fun x => rs_received x = false) (rw_slots rv) ->
  Forall (fun d => forall host hdr, reads host (snd d) hdr -> of_data d hdr -> h_packet_type hdr <> REL4U_PKT_DATA) data ->
  Forall (fun d => forall host hdr, reads host (snd d) hdr -> ~ of_ack d hdr) acks ->
  pipe_inv (mk_pipe sw rtt rv 0 [] data acks) (mk_link sw rtt rv [] [] [] 1 1 1) [] [].
Proof.
  intros R Hr Sr Hexp Hemp Hd Ha. destruct (fresh_hist content _ Sr Hexp Hemp) as [Hh Hn].
  constructor; pipe_fields; try done.
  - constructor; pipe_fields; try done; try lia.
    + intros q Hq [?|Hh']; [lia|]. by apply Hn in Hh'.
    + by intros d ?%elem_of_nil.
    + by intros d ?%elem_of_nil.
  - by intros a ?%elem_of_nil.
  - eapply Forall_impl; [exact Hd|]. intros d H host hdr Hrd Hof Ht. by destruct (H host hdr Hrd Hof).
  - eapply Forall_impl; [exact Ha|]. intros d H host hdr Hrd Hof. by destruct (H host hdr Hrd).
Qed.

(** ** Steps of the sender *)

(** An entry of the window goes out as a packet of the stream. *)
Lemma sends_sound l es dl d : link_inv content 1 l es dl -> 1 <= lk_head l -> sends es d -> data_sound (lk_next l) d.
Proof.
  intros I Hh Hw host hdr Hr Hof Ht. destruct (Hw hdr Hof host hdr Hr Ht) as [?|(i & e & He & [])]; [by left|right].
  pose proof (li_content _ _ _ _ _ I i e He) as []. pose proof (sr_entries _ _ _ (li_send _ _ _ _ _ I) i e He) as O.
  pose proof (li_next _ _ _ _ _ I). assert (i < length es)%nat by eauto using lookup_lt_Some.
  exists (lk_head l + Z.of_nat i). split; [lia|]. constructor.
  - by rewrite ep_seq, (eo_seq _ _ O).
  - congruence.
  - by rewrite <- ec_mode, (eo_mode _ _ O).
  - congruence.
  - rewrite ec_len, Nat2Z.id in ep_data, ec_data. congruence.
Qed.

Lemma data_sound_mono n n' d : n <= n' -> data_sound n d -> data_sound n' d.
Proof.
  intros Hn H host hdr Hr Hof Ht. destruct (H host hdr Hr Hof Ht) as [?|(q & Hq & Hc)]; [by left|right].
  exists q. split; [lia|done].
Qed.

(** A step that leaves the link at [l'] and sends entries of its window. *)
Lemma pipe_sender p l es dl l' es' n ds : pipe_inv p l es dl ->
  link_inv content 1 l' es' dl -> lk_recv l' = lk_recv l -> lk_expected l' = lk_expected l -> lk_acks l' = lk_acks l ->
  1 <= lk_head l' -> lk_next l' = lk_next l + n -> 0 <= n -> Forall (sends es') ds ->
  pipe_inv (mk_pipe (lk_send l') (lk_rtt l') (pp_recv p) (pp_count p + n) (pp_got p) (pp_data p ++ ds) (pp_acks p)) l' es' dl.
Proof.
  intros [] I' Erv Ee Ea Hh En Hn Hs. constructor; pipe_fields; try done; try congruence.
  - lia.
  - by rewrite Ea.
  - apply Forall_app. split.
    + eapply Forall_impl; [exact pi_data0|]. intros d. apply data_sound_mono. lia.
    + eapply Forall_impl; [exact Hs|]. intros d. by eapply sends_sound.
Qed.

Lemma entry_content_view q p e : entry_ok p e -> content q = entry_view e -> entry_content content q e.
Proof.
  intros O E. unfold entry_view in E. pose proof (eo_len _ _ O). pose proof (eo_data _ _ O).
  constructor; unfold mode_of, data_of; rewrite E; cbn; [done| |done]. rewrite length_take. lia.
Qed.

(** New messages enter the window and go out. *)
Lemma pipe_grown p l es dl sw new ds : pipe_inv p l es dl -> send_rep sw (lk_head l) (es ++ new) ->
  Forall (fun e => ss_acked e = false) new ->
  (forall i x, new !! i = Some x -> content (1 + pp_count p + Z.of_nat i) = entry_view x) ->
  Forall (sends (es ++ new)) ds ->
  exists l', pipe_inv (mk_pipe sw (pp_rtt p) (pp_recv p) (pp_count p + Z.of_nat (length new)) (pp_got p)
    (pp_data p ++ ds) (pp_acks p)) l' (es ++ new) dl.
Proof.
  intros V R' Hf Hc Hs. pose proof (pi_link _ _ _ _ V) as I. pose proof (pi_next _ _ _ _ V) as En.
  assert (I' : link_inv content 1 (mk_link sw (lk_rtt l) (lk_recv l) (lk_data l) (lk_acks l) (lk_delivered l) (lk_head l)
    (lk_next l + Z.of_nat (length new)) (lk_expected l)) (es ++ new) dl).
  { apply (inv_append _ _ _ _ _ _ new I R' Hf). intros i x Hx.
    assert (Hl : (es ++ new) !! (length es + i)%nat = Some x).
    { rewrite lookup_app_r by lia. by replace (length es + i - length es)%nat with i by lia. }
    apply (entry_content_view _ _ _ (sr_entries _ _ _ R' _ _ Hl)). rewrite En. by apply Hc. }
  eexists. rewrite <- (pi_rtt _ _ _ _ V).
  apply (pipe_sender p l es dl _ (es ++ new) _ ds V I'); pipe_fields; try done; [apply V|lia].
Qed.

(** Packets go out again. *)
Lemma pipe_resent p l es dl sw rtt es' ds : pipe_inv p l es dl -> send_rep sw (lk_head l) es' ->
  Forall2 same_packet es es' -> rtt_ok rtt -> Forall (sends es') ds ->
  exists l', pipe_inv (mk_pipe sw rtt (pp_recv p) (pp_count p) (pp_got p) (pp_data p ++ ds) (pp_acks p)) l' es' dl.
Proof.
  intros V R' Hsame Hr Hs. pose proof (pi_link _ _ _ _ V) as I.
  pose proof (inv_entries content 1 l es dl sw rtt es' I R' Hsame Hr) as I'. eexists. rewrite <- (Z.add_0_r (pp_count p)).
  apply (pipe_sender p l es dl _ es' 0 ds V I'); pipe_fields; try done; [apply V|lia].
Qed.

(** An acknowledgement of the receiver arrives. *)
Lemma pipe_acked p l es dl d host hdr now st sw rtt st' ds : pipe_inv p l es dl -> pp_count p < 2 ^ 31 - 1 ->
  d ∈ pp_acks p -> reads host (snd d) hdr -> of_ack d hdr ->
  rel4u_send_window_on_ack (pp_send p) (h_ack_num hdr) (h_sack_mask hdr) now (Some (pp_rtt p)) st = (sw, Some rtt, st') ->
  Forall (sends []) ds ->
  sw_next_seq sw = sw_next_seq (pp_send p) /\
  exists l' es', pipe_inv (mk_pipe sw rtt (pp_recv p) (pp_count p) (pp_got p) (pp_data p ++ ds) (pp_acks p)) l' es' dl.
Proof.
  intros V Hlen Hin Hr Hof Ew Hs. pose proof (pi_link _ _ _ _ V) as I. pose proof (pi_acks _ _ _ _ V) as Hacks.
  rewrite Forall_forall in Hacks. destruct (Hacks d Hin host hdr Hr Hof) as (a & Ha & Ea & Es).
  rewrite Ea, Es, <- (pi_send _ _ _ _ V), <- (pi_rtt _ _ _ _ V) in Ew.
  destruct (li_acks _ _ _ _ _ I a Ha) as (_ & Hle & _). pose proof (pi_ack_pos _ _ _ _ V a Ha) as Hpos.
  pose proof (pi_head _ _ _ _ V) as Hh. pose proof (li_ahead _ _ _ _ _ I). pose proof (li_behind _ _ _ _ _ I).
  pose proof (pi_next _ _ _ _ V). assert (Hnear : near (lk_head l) (ap_pos a - 1)) by (unfold near; lia).
  destruct (inv_ack_arrives content 1 l es dl a now st sw rtt st' I Ha Hnear Ew) as (es' & I').
  pose proof (li_send _ _ _ _ _ I) as R. pose proof (sr_next _ _ _ (li_send _ _ _ _ _ I')) as S'.
  pose proof (li_next _ _ _ _ _ I') as N'. pose proof (li_next _ _ _ _ _ I) as N. pipe_fields. split.
  - rewrite <- (pi_send _ _ _ _ V), (sr_next _ _ _ R), S'. f_equal. lia.
  - eexists _, es'. rewrite <- (Z.add_0_r (pp_count p)).
    apply (pipe_sender p l es dl _ es' 0 ds V I'); pipe_fields; try done; [|lia|].
    + pose proof (u32_range (sw_head_seq sw - sw_head_seq (lk_send l))). word_unfold. lia.
    + eapply Forall_impl; [exact Hs|]. intros x Hx h Hox. apply (entry_wire_app [] es'). by apply (Hx h).
Qed.

(** ** Steps of the receiver *)

(** The acknowledgement the receiver's packets carry before a step. *)
Definition ack_of (l : link) : ack_packet :=
  mk_ack (lk_expected l) (fst (rel4u_recv_window_get_ack_info (lk_recv l))) (snd (rel4u_recv_window_get_ack_info (lk_recv l))).

Lemma ack_honest_mono a acks d : ack_honest acks d -> ack_honest (a :: acks) d.
Proof. intros H host hdr Hr Hof. destruct (H host hdr Hr Hof) as (x & Hx & ?). exists x. split; [by right|done]. Qed.

Lemma answers_honest l acks d : answers (lk_recv l) d -> ack_honest (ack_of l :: acks) d.
Proof.
  intros H host hdr Hr Hof. specialize (H host hdr Hr Hof). exists (ack_of l). split; [by left|].
  unfold ack_of. by rewrite <- H.
Qed.

(** A step that leaves the link at [l'] and answers with the window before it. *)
Lemma pipe_receiver p l es dl l' dl' got ds : pipe_inv p l es dl ->
  link_inv content 1 l' es dl' -> lk_send l' = lk_send l -> lk_rtt l' = lk_rtt l -> lk_head l' = lk_head l ->
  lk_next l' = lk_next l -> lk_acks l' = ack_of l :: lk_acks l ->
  ~ held (lk_recv l') (lk_expected l') (lk_expected l') ->
  filter reliable_msg got = queue_msg content id <$> dl' -> Forall (answers (pp_recv p)) ds ->
  pipe_inv (mk_pipe (pp_send p) (pp_rtt p) (lk_recv l') (pp_count p) got (pp_data p) (pp_acks p ++ ds)) l' es dl'.
Proof.
  intros V I' Es Er Eh En Ea Hd Hg Hans. pose proof (pi_link _ _ _ _ V) as I. destruct V.
  constructor; pipe_fields; try done; try congruence.
  - rewrite Ea. intros a [->|Ha]%elem_of_cons; [|by apply pi_ack_pos0]. cbn.
    apply (rh_from _ _ _ _ _ (li_recv _ _ _ _ _ I)).
  - rewrite Ea. apply Forall_app. split.
    + eapply Forall_impl; [exact pi_acks0|]. intros d. apply ack_honest_mono.
    + eapply Forall_impl; [exact Hans|]. intros d. rewrite <- pi_recv0. apply answers_honest.
Qed.

Lemma pipe_answers p l es dl ds : pipe_inv p l es dl -> Forall (answers (pp_recv p)) ds ->
  exists l', pipe_inv (mk_pipe (pp_send p) (pp_rtt p) (pp_recv p) (pp_count p) (pp_got p) (pp_data p) (pp_acks p ++ ds)) l' es dl.
Proof.
  intros V Hans. pose proof (inv_acknowledge content 1 l es dl (pi_link _ _ _ _ V)) as I1. fold (ack_of l) in I1.
  eexists. rewrite <- (pi_recv _ _ _ _ V). apply (pipe_receiver p l es dl _ dl _ ds V I1); pipe_fields; try done; apply V.
Qed.

Lemma reliable_stream (dl : list Z) : filter reliable_msg (queue_msg content id <$> dl) = queue_msg content id <$> dl.
Proof.
  induction dl as [|q dl IH]; [done|]. cbn [fmap list_fmap]. rewrite filter_cons_True, IH; [done|].
  apply (content_ok q).
Qed.

Lemma unreliable_none l : Forall (fun m => ~ reliable_msg m) l -> filter reliable_msg l = [].
Proof. induction 1; [done|]. by rewrite filter_cons_False. Qed.

(** The messages of the slots a data packet hands over. *)
Definition handed_over (rv : rel4u_recv_window) (ready : list rel4u_recv_slot) (hdr : rel4u_header) (payload : list Z) : list msg :=
  (fun x => item_msg (ready_item id x)) <$> data_log rv ready hdr payload.

(** A data packet of the sender arrives. *)
Lemma pipe_received p l es dl d host hdr queue ready ds : pipe_inv p l es dl -> pp_count p < 2 ^ 31 - 1 ->
  d ∈ pp_data p -> reads host (snd d) hdr -> of_data d hdr -> h_packet_type hdr = REL4U_PKT_DATA ->
  length ready = 64%nat -> Forall (answers (pp_recv p)) ds ->
  exists l' dl', pipe_inv (mk_pipe (pp_send p) (pp_rtt p)
    (fst (fst (fst (handle_data id (pp_recv p) queue ready hdr (drop 24 (snd d)))))) (pp_count p)
    (pp_got p ++ handed_over (pp_recv p) ready hdr (drop 24 (snd d))) (pp_data p) (pp_acks p ++ ds)) l' es dl'.
Proof.
  intros V Hlen Hin Hr Hof Ht Hrl Hans. pose proof (pi_link _ _ _ _ V) as I. pose proof (pi_data _ _ _ _ V) as Hdata.
  rewrite Forall_forall in Hdata. pose proof (pi_recv _ _ _ _ V) as Erv.
  pose proof (inv_acknowledge content 1 l es dl I) as I1. fold (ack_of l) in I1.
  pose proof (li_recv _ _ _ _ _ I) as Hh. pose proof (pi_drained _ _ _ _ V) as Hnh. rewrite Erv in Hh, Hnh.
  pose proof (pi_got _ _ _ _ V) as Hg. unfold handed_over.
  destruct (Hdata d Hin host hdr Hr Hof Ht) as [Hm|(q & Hq & C)].
  - destruct Hr as [Hb Ed]. destruct (decode_ok _ _ _ _ Hb Ed) as [W _].
    pose proof (handle_data_unreliable content 1 id _ _ dl queue ready hdr (drop 24 (snd d))
      Hh Hnh Hrl Hm (wf_delivery_mode _ W)) as D.
    destruct (handle_data _ _ _ _ _ _) as [[[win' queue'] ready'] ack]. cbn [fst]. destruct D as (Hh' & Hheld & _ & Hlog).
    assert (I2 : link_inv content 1 (mk_link (lk_send l) (lk_rtt l) win' (lk_data l) (ack_of l :: lk_acks l)
      (lk_delivered l ++ []) (lk_head l) (lk_next l) (lk_expected l)) es (dl ++ [])).
    { apply (inv_receiver content 1 _ es dl win' (lk_expected l) [] [] I1); rewrite ?app_nil_r; try done.
      - intros x. pipe_fields. rewrite Erv. unfold arrived. by rewrite Hheld.
      - intros x. pipe_fields. rewrite Erv. unfold arrived. rewrite Hheld. by left. }
    eexists _, (dl ++ []). apply (pipe_receiver p l es dl _ (dl ++ []) _ ds V I2); pipe_fields; try done.
    + by rewrite Hheld.
    + rewrite filter_app, Hg, app_nil_r. rewrite unreliable_none, app_nil_r; [done|].
      apply Forall_fmap. eapply Forall_impl; [exact Hlog|]. intros x Hx. by unfold reliable_msg; cbn; rewrite Hx.
  - pose proof (rh_from _ _ _ _ _ Hh). pose proof (li_ahead _ _ _ _ _ I). pose proof (pi_next _ _ _ _ V) as En.
    pose proof (handle_data_log content 1 id _ _ dl queue ready q hdr (drop 24 (snd d))
      Hh C ltac:(unfold near; lia) Hrl) as D.
    destruct (handle_data _ _ _ _ _ _) as [[[win' queue'] ready'] ack]. cbn [fst].
    destruct D as (p' & ds' & Hh' & Hp & Hlog & _ & Harr & _ & Hdr & Hno).
    assert (I2 : link_inv content 1 (mk_link (lk_send l) (lk_rtt l) win' (lk_data l) (ack_of l :: lk_acks l)
      (lk_delivered l ++ (pkt content <$> ds')) (lk_head l) (lk_next l) p') es (dl ++ ds')).
    { apply (inv_receiver content 1 _ es dl win' p' ds' (pkt content <$> ds') I1); try done.
      - intros x. pipe_fields. rewrite Erv. intros Hx. apply Harr. by left.
      - intros x. pipe_fields. rewrite Erv. intros [?|[_ ->]]%Harr; [by left|right; lia]. }
    eexists _, (dl ++ ds'). apply (pipe_receiver p l es dl _ (dl ++ ds') _ ds V I2); pipe_fields; try done.
    + destruct ack; [by apply Hdr|]. by destruct (Hno eq_refl) as [-> ->].
    + rewrite filter_app, Hg, fmap_app. f_equal. rewrite <- (reliable_stream ds'). f_equal.
      rewrite <- (ready_items_msgs content id _ _ Hlog). by rewrite <- list_fmap_compose.
Qed.
End pipe.

(** ** What the application is given *)

Definition sent_ok (m : Z * list Z) : Prop :=
  mode_reliable (fst m) = true /\ Z.of_nat (length (snd m)) <= REL4U_MAX_PAYLOAD_SIZE.

Lemma entry_view_ok p e : entry_ok p e -> sent_ok (entry_view e).
Proof.
  intros O. split; [apply O|]. cbn. rewrite length_take. pose proof (eo_len _ _ O). pose proof (eo_data _ _ O). lia.
Qed.

(** The stream has the messages [sent] from position 1 on. *)
Definition agrees (content : Z -> Z * list Z) (sent : list (Z * list Z)) : Prop :=
  forall i m, sent !! i = Some m -> content (1 + Z.of_nat i) = m.

Lemma agrees_prefix content sent new : agrees content (sent ++ new) -> agrees content sent.
Proof. intros H i m Hi. apply H. by apply lookup_app_l_Some. Qed.

(** The new entries of a window are the next messages of the stream. *)
Lemma agrees_new content sent (new : list rel4u_send_slot) i x : agrees content (sent ++ (entry_view <$> new)) ->
  new !! i = Some x -> content (1 + Z.of_nat (length sent) + Z.of_nat i) = entry_view x.
Proof.
  intros H Hx. replace (1 + Z.of_nat (length sent) + Z.of_nat i) with (1 + Z.of_nat (length sent + i)) by lia. apply H.
  rewrite lookup_app_r by lia. replace (length sent + i - length sent)%nat with i by lia. by rewrite list_lookup_fmap, Hx.
Qed.

(** The stream that starts with the messages [sent]. *)
Definition content_of (sent : list (Z * list Z)) (q : Z) : Z * list Z :=
  default (REL4U_MODE_RELIABLE_ORDERED, []) (sent !! Z.to_nat (q - 1)).

Lemma content_of_agrees sent : agrees (content_of sent) sent.
Proof. intros i m Hi. unfold content_of. replace (Z.to_nat _) with i by lia. by rewrite Hi. Qed.

Lemma content_of_ok sent : Forall sent_ok sent -> forall q, mode_reliable (fst (content_of sent q)) = true /\
  Z.of_nat (length (snd (content_of sent q))) <= REL4U_MAX_PAYLOAD_SIZE.
Proof.
  intros Hs q. unfold content_of. destruct (sent !! _) as [m|] eqn:Em; [|done].
  rewrite Forall_lookup in Hs. exact (Hs _ _ Em).
Qed.

Lemma content_of_run sent n : 0 <= n <= Z.of_nat (length sent) -> content_of sent <$> seqZ 1 n = take (Z.to_nat n) sent.
Proof.
  intros Hn. apply list_eq. intros i. rewrite list_lookup_fmap. destruct (decide (i < Z.to_nat n)%nat) as [Hi|Hi].
  - rewrite lookup_seqZ_lt, lookup_take_lt by lia. cbn [fmap option_fmap option_map]. unfold content_of.
    replace (Z.to_nat _) with i by lia. destruct (lookup_lt_is_Some_2 sent i) as [m Hm]; [lia|]. by rewrite Hm.
  - rewrite lookup_seqZ_ge, lookup_take_ge by lia. done.
Qed.

(** The reliable ones of the messages handed to an application. *)
Definition reliable_view (got : list msg) : list (Z * list Z) := msg_view <$> filter reliable_msg got.

Definition ordered_msg (m : Z * list Z) : Prop := fst m = REL4U_MODE_RELIABLE_ORDERED.
#[export] Instance ordered_msg_dec m : Decision (ordered_msg m).
Proof. unfold ordered_msg. apply _. Defined.

Section delivered.
Context (sent : list (Z * list Z)) (id : Z) (of_data of_ack : rel4u_net_addr * list Z -> rel4u_header -> Prop).
Context (p : pipe) (l : link) (es : list rel4u_send_slot) (dl : list Z).
Hypothesis V : pipe_inv (content_of sent) id of_data of_ack p l es dl.
Hypothesis Hcount : pp_count p = Z.of_nat (length sent).

Lemma pipe_got : reliable_view (pp_got p) = content_of sent <$> dl /\
  filter ordered_msg (reliable_view (pp_got p)) = content_of sent <$> filter (ordered (content_of sent)) dl.
Proof.
  assert (E : reliable_view (pp_got p) = content_of sent <$> dl).
  { unfold reliable_view. rewrite (pi_got _ _ _ _ _ _ _ _ V), <- list_fmap_compose. apply list_fmap_ext. intros i q _.
    unfold compose, msg_view, queue_msg, mode_of, data_of. cbn [m_mode m_data]. by destruct (content_of _ q). }
  split; [done|]. rewrite E. by apply filter_fmap.
Qed.

(** Distinct messages of those sent, the ordered ones a prefix of the ordered. *)
Lemma pipe_exactly_once :
  (exists idx, NoDup idx /\ Forall (fun i => (i < length sent)%nat) idx /\
     reliable_view (pp_got p) = (fun i => sent !!! i) <$> idx) /\
  filter ordered_msg (reliable_view (pp_got p)) `prefix_of` filter ordered_msg sent.
Proof.
  destruct pipe_got as [E Eo]. pose proof (pi_next _ _ _ _ _ _ _ _ V) as En.
  destruct (inv_safety _ _ _ _ _ (pi_link _ _ _ _ _ _ _ _ V)) as (Hnd & Hf & Ho & Hp). split.
  - exists ((fun q => Z.to_nat (q - 1)) <$> dl). rewrite Forall_forall in Hf. split; [|split].
    + apply NoDup_fmap_2_strong; [|done]. intros x y Hx Hy Hxy. apply Hf in Hx, Hy. lia.
    + apply Forall_fmap, Forall_forall. intros q Hq. apply Hf in Hq. cbn. lia.
    + rewrite E, <- list_fmap_compose. apply list_fmap_ext. intros i q Hq.
      assert (Hin : q ∈ dl) by (by eapply list_elem_of_lookup_2). apply Hf in Hin. cbn. unfold content_of.
      destruct (lookup_lt_is_Some_2 sent (Z.to_nat (q - 1))) as [m Hm]; [lia|].
      by rewrite Hm, (list_lookup_total_correct _ _ _ Hm).
  - rewrite Eo, Ho. rewrite <- (filter_fmap _ ordered_msg) by done. rewrite content_of_run by lia.
    exists (filter ordered_msg (drop (Z.to_nat (lk_expected l - 1)) sent)). by rewrite <- filter_app, take_drop.
Qed.

(** All of them when nothing is in flight. *)
Lemma pipe_complete : sw_in_flight (pp_send p) = 0 ->
  reliable_view (pp_got p) ≡ₚ sent /\ filter ordered_msg (reliable_view (pp_got p)) = filter ordered_msg sent.
Proof.
  intros Hfl. destruct pipe_got as [E Eo]. rewrite <- (pi_send _ _ _ _ _ _ _ _ V) in Hfl.
  destruct (inv_no_loss _ _ _ _ _ (pi_link _ _ _ _ _ _ _ _ V) Hfl (pi_drained _ _ _ _ _ _ _ _ V)) as [Ho Hp].
  pose proof (pi_next _ _ _ _ _ _ _ _ V) as En. replace (lk_next l - 1) with (Z.of_nat (length sent)) in * by lia.
  assert (Er : content_of sent <$> seqZ 1 (Z.of_nat (length sent)) = sent).
  { rewrite content_of_run by lia. by rewrite Nat2Z.id, take_ge. }
  split.
  - rewrite E, Hp, Er. done.
  - rewrite Eo, Ho. rewrite <- (filter_fmap _ ordered_msg) by done. by rewrite Er.
Qed.
End delivered.
