(* ===== verification/ServerWire.v ===== *)
(** * What the server puts on the wire for one client

    The other half of [Emit]: every data packet of a reliable mode that a step of
    the server sends to the address of a client is an entry of the send window of
    that client's session.  The drain appends entries to it, the timers resend
    some, an acknowledgement of the client is handed to the window as it came, and
    every other step leaves the window alone. *)
From S2P Require Import Prelude Ring Types Seq Packet Rtt Mpmc MpmcSpec Queue SendWindow SendSpec Send RecvWindow RecvSpec Recv RecvSafe Net Session Sessions Link Endpoint Peer Server ServerSpec ServerRun ServerDrain ServerTable Emit ClientWire.
From stdpp Require Import base numbers list gmap.
Open Scope Z_scope.
Open Scope rel4u_scope.

Section wire.
Context {platform : Platform} {allocator : Malloc}.
Context (client_addr : rel4u_net_addr) (j : nat).

(** ** Datagrams to the client *)

Definition server_wire (es : list rel4u_send_slot) (d : rel4u_net_addr * list Z) : Prop :=
  addr_eq (fst d) client_addr -> entry_wire es d.

Lemma server_wire_app es es' d : server_wire es d -> server_wire (es ++ es') d.
Proof. intros H Ha. by apply entry_wire_app, H. Qed.
Lemma server_wire_same es es' d : Forall2 same_packet es es' -> server_wire es d -> server_wire es' d.
Proof. intros Hs H Ha. by eapply entry_wire_same, H. Qed.

(** No other active session has the client's address. *)
Definition only (s : rel4u_server) : Prop := forall i, valid s i -> session_active (server_session s i) = true ->
  addr_eq (cs_addr (server_session s i)) client_addr -> i = j.

Lemma only_session s : server_ok s -> valid s j -> session_active (server_session s j) = true ->
  addr_eq (cs_addr (server_session s j)) client_addr -> only s.
Proof.
  intros K Hv Ha Ead i Hi Hai Hadd. assert (He : addr_eq (cs_addr (server_session s i)) (cs_addr (server_session s j))).
  { etransitivity; [exact Hadd|by symmetry]. }
  refine (ti_distinct _ (sk_table _ K) i j _ _ _ _ Hai Ha He); unfold server_session; by apply list_lookup_lookup_total_lt.
Qed.

Lemma only_mild i s s' : mild i s s' -> only s -> only s'.
Proof.
  intros M H k Hk Ha Hadd. rewrite (mild_active _ _ _ k M) in Ha. destruct M as [F M].
  assert (Hv : valid s k) by (unfold valid in *; by rewrite <- (fr_slots _ _ _ F)). apply H; [done|done|].
  destruct (decide (k = i)) as [->|Hne]; [by rewrite <- (kp_addr _ _ M)|by rewrite <- (fr_others _ _ _ F k Hne)].
Qed.

Lemma only_free s i : valid s i -> only s -> only (s <| sv_session_table := rel4u_session_free (sv_session_table s) i |>).
Proof.
  intros Hi H k Hk Ha Hadd. pose proof (frame_free s i Hi) as F.
  assert (Hv : valid s k) by (unfold valid in *; by rewrite <- (fr_slots _ _ _ F)).
  destruct (decide (k = i)) as [->|Hne]; [|rewrite (fr_others _ _ _ F k Hne) in *; by apply H].
  unfold server_session in Ha. cbn in Ha. rewrite free_inactive in Ha by exact Hi. done.
Qed.

(** A packet of a session. *)
Lemma emit_session (P : rel4u_net_addr * list Z -> Prop) s w i type mode seq payload len :
  server_ok s -> valid s i -> is_u32 seq -> 0 <= len ->
  (forall ack sack, header_wf (make_header type mode (cs_session_id (server_session s i)) seq len ack sack) ->
    P (cs_addr (server_session s i),
       header_bytes (make_header type mode (cs_session_id (server_session s i)) seq len ack sack) ++ packet_body payload len)) ->
  emits P w (snd (server_send_packet s w i type mode seq payload len)).
Proof.
  intros K Hv Hs Hl HP. unfold server_send_packet.
  pose proof (ack_info_u32 (cs_recv_win (server_session s i))) as [Hk1 Hk2].
  destruct (rel4u_recv_window_get_ack_info _) as [ack sack]. cbn [fst snd] in Hk1, Hk2.
  assert (W : header_wf (make_header type mode (cs_session_id (server_session s i)) seq len ack sack)).
  { apply make_header_wf; [apply (session_ok_at _ _ K Hv)|done|done|done]. }
  rewrite encode_packet_wire by done. pose proof (emits_sendto _ w (sv_sock s) _ _ (HP ack sack W)) as E.
  destruct (rel4u_net_sendto _ _ _ _) as [sent w1]. destruct (_ >? _); [|exact E]. etransitivity; [exact E|]. by apply emits_same.
Qed.

Lemma wire_control_packet es s w i type : server_ok s -> valid s i -> u8 type <> REL4U_PKT_DATA ->
  emits (server_wire es) w (snd (server_send_control s w i type)).
Proof.
  intros K Hv Ht. unfold server_send_control. apply emit_session; try done. intros ack sack W _. by apply wire_control.
Qed.

(** A packet of a session at another address. *)
Lemma wire_elsewhere es s w i type mode seq payload len : ~ addr_eq (cs_addr (server_session s i)) client_addr ->
  emits (server_wire es) w (snd (server_send_packet s w i type mode seq payload len)).
Proof.
  intros Hne. unfold server_send_packet. destruct (rel4u_recv_window_get_ack_info _) as [ack sack].
  destruct (encode_packet _ _ _) as [buf|]; [|done].
  pose proof (emits_sendto (server_wire es) w (sv_sock s) buf (cs_addr (server_session s i)) ltac:(intros Ha; by destruct Hne)) as E.
  destruct (rel4u_net_sendto _ _ _ _) as [sent w1]. destruct (_ >? _); [|exact E]. etransitivity; [exact E|]. by apply emits_same.
Qed.

(** A bare header. *)
Lemma wire_header es s w type session seq addr : is_u8 type -> type <> REL4U_PKT_DATA -> is_u32 session -> is_u32 seq ->
  emits (server_wire es) w (server_send_header s w (control_header type session seq) addr).
Proof.
  intros H8 Ht Hs Hq. unfold server_send_header.
  assert (W : header_wf (control_header type session seq)) by (by apply control_header_wf).
  rewrite encode_bytes by (done || (unfold REL4U_HEADER_LEN; cbn; lia)). cbn [snd].
  apply emits_sendto. intros _ host h Hr Hd. cbn [snd] in Hr. apply (reads_wire _ _ _ _ W) in Hr as ->. by destruct Ht.
Qed.

(** ** Timers *)

(** The window of the session has the same packets as before, and what was sent to
    the client is in it. *)
Record resent_for (h : Z) (es es' : list rel4u_send_slot) (s : rel4u_server) (w : world) (s' : rel4u_server) (w' : world) : Prop := {
  rf_window : send_rep (cs_send_win (server_session s' j)) h es';
  rf_same : Forall2 same_packet es es';
  rf_wire : emits (server_wire es') w w'
}.

Lemma resent_for_trans h es1 es2 es3 s w s1 w1 s2 w2 : resent_for h es1 es2 s w s1 w1 -> resent_for h es2 es3 s1 w1 s2 w2 ->
  resent_for h es1 es3 s w s2 w2.
Proof.
  intros [] []. constructor; [done|by etransitivity|]. etransitivity; [|exact rf_wire1].
  eapply emits_impl; [|exact rf_wire0]. intros d. by apply server_wire_same.
Qed.

(** The window is untouched. *)
Lemma resent_for_quiet h es s w s' w' : send_rep (cs_send_win (server_session s j)) h es ->
  cs_send_win (server_session s' j) = cs_send_win (server_session s j) -> emits (server_wire es) w w' ->
  resent_for h es es s w s' w'.
Proof. intros R E Em. constructor; [by rewrite E|done|done]. Qed.

Lemma resend_for now h : is_u64 now -> forall ks s w es, server_ok s -> valid s j ->
  send_rep (cs_send_win (server_session s j)) h es -> Forall (fun k => 0 <= k < Z.of_nat (length es)) ks ->
  let '(s', w') := foldl (server_resend now j) (s, w)
    ((fun k => (h + k) mod sw_capacity (cs_send_win (server_session s j))) <$> ks) in
  exists es', resent_for h es es' s w s' w'.
Proof.
  intros Hn. induction ks as [|k ks IH]; intros s w es K Hv R Hks; [exists es; by apply resent_for_quiet|].
  apply Forall_cons in Hks as [Hk Hks]. destruct (window_slot _ _ _ k R Hk) as (e0 & He0 & _ & _).
  pose proof (retransmit_rep _ _ _ k e0 now R ltac:(lia) He0 Hn) as R'. set (es1 := <[Z.to_nat k := _]> es) in R'.
  assert (Hs1 : Forall2 same_packet es es1).
  { unfold es1. rewrite <- (list_insert_id es (Z.to_nat k) e0 He0) at 1. apply Forall2_insert; [reflexivity|apply retransmit_same]. }
  assert (Hl : length es1 = length es) by (unfold es1; by rewrite length_insert). clearbody es1.
  pose proof (proj1 (server_resend_ok now j h Hn [k] s w es K Hv R ltac:(by constructor))) as K2. cbn [fmap list_fmap foldl] in *.
  set (cap := sw_capacity (cs_send_win (server_session s j))) in *.
  unfold server_resend at 2. unfold server_resend in K2. set (f := fun x => x <| cs_send_win := _ |>) in *.
  assert (K1 : server_ok (server_upd s j f)).
  { apply sset_table_ok; [done|]. apply session_upd_inv; [apply K|]. intros x Hx [].
    assert (x = server_session s j) as -> by (unfold server_session; by rewrite (list_lookup_total_correct _ _ _ Hx)).
    split; [constructor; try done; split; [apply se_send|by exists h, es1]|done]. }
  assert (Hv1 : valid (server_upd s j f) j) by (by apply server_upd_valid).
  pose proof (server_upd_same s j f Hv) as E1. set (s1 := server_upd s j f) in *. clearbody s1. cbv zeta in *.
  assert (R1 : send_rep (cs_send_win (server_session s1 j)) h es1) by (by rewrite E1).
  assert (Ecap : sw_capacity (cs_send_win (server_session s1 j)) = cap) by (by rewrite E1).
  assert (G1 : resent_for h es es1 s w s1 w) by (by constructor).
  destruct (window_slot _ _ _ k R1 ltac:(lia)) as (e & He & Es & O). rewrite Ecap in Es. rewrite Es in *.
  pose proof (emit_session (server_wire es1) s1 w j REL4U_PKT_DATA (ss_delivery_mode e) (ss_seq_num e) (Some (ss_payload e)) (ss_payload_len e)
    K1 Hv1 ltac:(rewrite (eo_seq _ _ O); apply u32_range) ltac:(apply O)
    (fun ack sack W _ => wire_entry es1 _ e _ _ _ _ _ (ss_payload e) W He O eq_refl)) as Em.
  pose proof (server_send_update s1 w j REL4U_PKT_DATA (ss_delivery_mode e) (ss_seq_num e) (Some (ss_payload e)) (ss_payload_len e)) as U.
  destruct (server_send_packet _ _ _ _ _ _ _ _) as [s2 w2]. cbn [fst snd] in *.
  destruct (sent_from_session _ _ _ j U Hv1) as (Ew & _).
  assert (G2 : resent_for h es1 es1 s1 w s2 w2) by (by apply resent_for_quiet).
  rewrite <- Ecap, <- Ew. specialize (IH s2 w2 es1 K2 ltac:(by apply (sent_from_valid _ _ _ _ U)) ltac:(by rewrite Ew) ltac:(by rewrite Hl)).
  destruct (foldl _ _ _) as [s3 w3]. destruct IH as (es3 & G3). exists es3.
  eapply resent_for_trans; [exact G1|]. by eapply resent_for_trans.
Qed.

Lemma retransmit_for s w now h es : server_ok s -> valid s j -> is_u64 now ->
  send_rep (cs_send_win (server_session s j)) h es ->
  let '(s', w') := server_retransmit s w j now in exists es', resent_for h es es' s w s' w'.
Proof.
  intros K Hv Hn R. unfold server_retransmit. pose proof (se_rtt _ _ (session_ok_at _ _ K Hv)) as Hr.
  destruct (expired_slots _ h es now (rel4u_rtt_get_rto (Some (cs_rtt (server_session s j)))) 16 R Hn
    ltac:(destruct Hr; unfold rel4u_rtt_get_rto; word_unfold; lia)) as (ks & E & Hks).
  change (Z.of_nat 16) with 16 in E. rewrite E. cbv zeta. destruct (_ >? _); [|exists es; by apply resent_for_quiet].
  set (s1 := server_upd s j (session_timeout _)).
  assert (K1 : server_ok s1) by (apply server_upd_ok; [done|apply timeout_step]).
  assert (Hv1 : valid s1 j) by (by apply server_upd_valid).
  assert (E1 : cs_send_win (server_session s1 j) = cs_send_win (server_session s j)) by (unfold s1; by rewrite server_upd_same).
  clearbody s1. rewrite <- E1. pose proof (resend_for now h Hn ks s1 w es K1 Hv1 ltac:(by rewrite E1) Hks) as P.
  destruct (foldl _ _ _) as [s2 w2]. destruct P as (es2 & G). exists es2. destruct G. by constructor.
Qed.

(** The timers of a session at another address. *)
Lemma resend_elsewhere es now i l : forall s w, valid s i -> ~ addr_eq (cs_addr (server_session s i)) client_addr ->
  emits (server_wire es) w (snd (foldl (server_resend now i) (s, w) l)).
Proof.
  induction l as [|k l IH]; intros s w Hv Hne; [done|]. cbn [foldl]. unfold server_resend at 2.
  set (s1 := server_upd s i _). assert (M1 : mild i s s1) by (by apply mild_upd). clearbody s1. cbv zeta.
  pose proof (mild_valid _ _ _ _ M1 Hv) as Hv1. set (slot := sw_slots _ !. k).
  pose proof (wire_elsewhere es s1 w i REL4U_PKT_DATA (ss_delivery_mode slot) (ss_seq_num slot) (Some (ss_payload slot))
    (ss_payload_len slot) ltac:(by rewrite (kp_addr _ _ (proj2 M1)))) as Em.
  pose proof (server_send_update s1 w i REL4U_PKT_DATA (ss_delivery_mode slot) (ss_seq_num slot)
    (Some (ss_payload slot)) (ss_payload_len slot)) as U.
  destruct (server_send_packet _ _ _ _ _ _ _ _) as [s2 w2]. cbn [fst snd] in *.
  pose proof (mild_sent _ _ _ U Hv1) as M2. etransitivity; [exact Em|].
  apply IH; [by eapply mild_valid|]. by rewrite (kp_addr _ _ (proj2 M2)), (kp_addr _ _ (proj2 M1)).
Qed.

Lemma retransmit_elsewhere es s w i now : valid s i -> ~ addr_eq (cs_addr (server_session s i)) client_addr ->
  emits (server_wire es) w (snd (server_retransmit s w i now)).
Proof.
  intros Hv Hne. unfold server_retransmit. cbv zeta. destruct (_ >? _); [|done].
  apply resend_elsewhere; [by apply server_upd_valid|by rewrite server_upd_same].
Qed.

Lemma retransmit_wire_for s w i now h es : server_ok s -> valid s i -> valid s j -> session_active (server_session s i) = true ->
  is_u64 now -> only s -> send_rep (cs_send_win (server_session s j)) h es ->
  let '(s', w') := server_retransmit s w i now in exists es', resent_for h es es' s w s' w'.
Proof.
  intros K Hv Hvj Ha Hn Ho R. destruct (decide (i = j)) as [->|Hne]; [by apply retransmit_for|].
  assert (Hnot : ~ addr_eq (cs_addr (server_session s i)) client_addr) by (intros Hx; by apply Hne, Ho).
  pose proof (retransmit_elsewhere es s w i now Hv Hnot) as Em. pose proof (mild_retransmit s w i now Hv) as [F _].
  destruct (server_retransmit _ _ _ _) as [s1 w1]. cbn [fst snd] in *. exists es. apply resent_for_quiet; [done| |done].
  by rewrite (fr_others _ _ _ F) by done.
Qed.

(** A control packet of any session. *)
Lemma control_for h es s w i type : server_ok s -> valid s i -> valid s j -> u8 type <> REL4U_PKT_DATA ->
  send_rep (cs_send_win (server_session s j)) h es ->
  resent_for h es es s w (fst (server_send_control s w i type)) (snd (server_send_control s w i type)).
Proof.
  intros K Hv Hvj Ht R. apply resent_for_quiet; [done| |by apply wire_control_packet]. unfold server_send_control.
  by apply (sent_from_session _ _ _ j (server_send_update s w i type REL4U_MODE_UNRELIABLE_UNORDERED 0 None 0) Hv).
Qed.

Lemma heartbeat_for h es s w i now : server_ok s -> valid s i -> valid s j ->
  send_rep (cs_send_win (server_session s j)) h es ->
  resent_for h es es s w (fst (server_heartbeat s w i now)) (snd (server_heartbeat s w i now)).
Proof.
  intros K Hv Hvj R. unfold server_heartbeat. destruct (_ >=? _); [|by apply resent_for_quiet].
  pose proof (control_for h es s w i REL4U_PKT_HEARTBEAT K Hv Hvj ltac:(done) R) as G.
  pose proof (mild_control s w i REL4U_PKT_HEARTBEAT Hv) as M. destruct (server_send_control _ _ _ _) as [s1 w1]. cbn [fst snd] in *.
  destruct G. constructor; [|done|done]. destruct (decide (j = i)) as [->|Hne].
  - by rewrite server_upd_same by (by eapply mild_valid).
  - by rewrite server_upd_other.
Qed.

Lemma timer_for now s w i h es : server_ok s -> valid s i -> valid s j -> 0 <= now < UINT64_MAX -> only s ->
  send_rep (cs_send_win (server_session s j)) h es ->
  let '(s', w') := server_timer now (s, w) i in only s' /\ exists es', resent_for h es es' s w s' w'.
Proof.
  intros K Hv Hvj Hn Ho R. unfold server_timer. destruct (session_active (server_session s i)) eqn:Ha; cbn [negb].
  2: { split; [done|]. exists es. by apply resent_for_quiet. }
  destruct (_ >=? _).
  { split; [by apply only_free|]. exists es. apply resent_for_quiet; [done| |done]. unfold server_session in *. cbn.
    rewrite free_session by done. case_decide; subst; [by rewrite Ha|done]. }
  destruct (negb _); [split; [done|exists es; by apply resent_for_quiet]|].
  assert (Hu : is_u64 now) by (word_unfold; unfold UINT64_MAX in Hn; lia).
  pose proof (proj1 (server_retransmit_ok s w i now K Hv Hu)) as K1. pose proof (mild_retransmit s w i now Hv) as M1.
  pose proof (retransmit_wire_for s w i now h es K Hv Hvj Ha Hu Ho R) as G1. destruct (server_retransmit s w i now) as [s1 w1]. cbn [fst snd] in *.
  destruct G1 as (es1 & G1). pose proof (mild_valid _ _ _ i M1 Hv) as Hv1. pose proof (mild_valid _ _ _ j M1 Hvj) as Hvj1.
  assert (A : mild i s1 (fst (if cs_ack_pending (server_session s1 i) then server_send_control s1 w1 i REL4U_PKT_ACK else (s1, w1))) /\
    resent_for h es1 es1 s1 w1 (fst (if cs_ack_pending (server_session s1 i) then server_send_control s1 w1 i REL4U_PKT_ACK else (s1, w1)))
      (snd (if cs_ack_pending (server_session s1 i) then server_send_control s1 w1 i REL4U_PKT_ACK else (s1, w1)))).
  { destruct (cs_ack_pending _); [|split; [done|apply resent_for_quiet; [apply G1|done|done]]].
    split; [by apply mild_control|apply control_for; [done|done|done|done|apply G1]]. }
  pose proof (maybe_send_ok (cs_ack_pending (server_session s1 i)) s1 w1 i REL4U_PKT_ACK K1) as K2.
  destruct (if cs_ack_pending _ then _ else _) as [s2 w2]. cbn [fst snd] in *. destruct A as [M2 G2].
  pose proof (mild_valid _ _ _ i M2 Hv1) as Hv2. pose proof (mild_valid _ _ _ j M2 Hvj1) as Hvj2.
  pose proof (heartbeat_for h es1 s2 w2 i now K2 Hv2 Hvj2 (rf_window _ _ _ _ _ _ _ G2)) as G3.
  pose proof (mild_heartbeat s2 w2 i now Hv2) as M3. destruct (server_heartbeat _ _ _ _) as [s3 w3]. cbn [fst snd] in *. split.
  - do 3 (eapply only_mild; [eassumption|]). done.
  - exists es1. eapply resent_for_trans; [exact G1|]. by eapply resent_for_trans.
Qed.

Lemma timers_for s w h es : server_ok s -> valid s j -> only s -> send_rep (cs_send_win (server_session s j)) h es ->
  exists es', resent_for h es es' s w (fst (server_timers s w)) (snd (server_timers s w)).
Proof.
  intros K Hvj Ho R. unfold server_timers, time_now_ns. set (now := pf_clock _). assert (Hn : 0 <= now < UINT64_MAX) by apply clock_time.
  pose proof (all_valid s K) as Hv. set (w0 := mk_world _ _ _ _).
  assert (G0 : resent_for h es es s w s w0) by (apply resent_for_quiet; [done|done|by apply emits_same]).
  clearbody now w0. revert Hv. generalize (seq 0 (Z.to_nat (tb_max_clients (sv_session_table s)))) as l. intros l Hv.
  enough (exists es', resent_for h es es' s w0 (fst (foldl (server_timer now) (s, w0) l)) (snd (foldl (server_timer now) (s, w0) l)))
    as (es' & G) by (exists es'; by eapply resent_for_trans). clear G0.
  revert s w0 es K Hvj Ho R Hv. induction l as [|i l IH]; intros s w0 es K Hvj Ho R Hv; [exists es; by apply resent_for_quiet|].
  apply Forall_cons in Hv as [Hi Hv]. cbn [foldl].
  destruct (server_timer_ok now s w0 i K Hi Hn) as [K1 El]. pose proof (timer_for now s w0 i h es K Hi Hvj Hn Ho R) as P.
  destruct (server_timer now (s, w0) i) as [s1 w1]. cbn [fst] in *. destruct P as (Ho1 & es1 & G1).
  assert (Ev : forall k, valid s k -> valid s1 k) by (intros k; unfold valid; by rewrite El).
  destruct (IH s1 w1 es1 K1 (Ev j Hvj) Ho1 (rf_window _ _ _ _ _ _ _ G1)) as (es2 & G2).
  { eapply Forall_impl; [exact Hv|]. exact Ev. }
  exists es2. by eapply resent_for_trans.
Qed.

(** ** Draining the queue *)

(** The messages that wait to be sent have modes that fit their byte. *)
Definition server_modes (s : rel4u_server) : Prop :=
  byte_modes (sv_send_queue s) /\ (sv_has_pending_item s = true -> is_u8 (it_mode (sv_pending_item s))).

Definition same_backlog (s s' : rel4u_server) : Prop :=
  sv_send_queue s' = sv_send_queue s /\ sv_has_pending_item s' = sv_has_pending_item s /\
  sv_pending_item s' = sv_pending_item s.

#[export] Instance same_backlog_refl : Reflexive same_backlog.
Proof. by intros s. Qed.
#[export] Instance same_backlog_trans : Transitive same_backlog.
Proof. intros s1 s2 s3 (? & ? & ?) (? & ? & ?). split_and!; congruence. Qed.

Lemma modes_backlog s s' : same_backlog s s' -> server_modes s -> server_modes s'.
Proof. intros (E1 & E2 & E3). unfold server_modes. by rewrite E1, E2, E3. Qed.

Lemma backlog_sent s w i type mode seq payload len :
  same_backlog s (fst (server_send_packet s w i type mode seq payload len)).
Proof. by destruct (server_send_update s w i type mode seq payload len) as [->|(? & ? & ? & ->)]. Qed.

Lemma modes_fetch s : server_modes s -> server_modes (snd (drain_fetch s)) /\
  (fst (drain_fetch s) = true -> is_u8 (it_mode (sv_pending_item (snd (drain_fetch s))))).
Proof.
  intros [Hq Hp]. unfold drain_fetch. destruct (sv_has_pending_item s) eqn:E; [split; [exact (conj Hq (fun _ => Hp eq_refl))|intros _; exact (Hp eq_refl)]|].
  pose proof (byte_modes_pop (sv_send_queue s) (sv_pending_item s) Hq) as P.
  destruct (rel4u_mpmc_try_pop _ _) as [[[] q] it]; destruct P as [Hq1 Hit]; cbn.
  - destruct (Hit eq_refl) as [Hm _]. done.
  - split; [|done]. split; [done|]. cbn. by rewrite E.
Qed.

(** The window of the session has grown by [new], and what was sent to the client
    is in it. *)
Record grown_for (h : Z) (es new : list rel4u_send_slot) (s : rel4u_server) (w : world) (s' : rel4u_server) (w' : world) : Prop := {
  gf_window : send_rep (cs_send_win (server_session s' j)) h (es ++ new);
  gf_fresh : Forall (fun e => ss_acked e = false) new;
  gf_wire : emits (server_wire (es ++ new)) w w';
  gf_rtt : cs_rtt (server_session s' j) = cs_rtt (server_session s j)
}.

Lemma push_for s w h es : server_ok s -> valid s j -> send_rep (cs_send_win (server_session s j)) h es ->
  rel4u_send_window_can_send (cs_send_win (server_session s j)) = true ->
  item_sized (sv_pending_item s) -> is_u8 (it_mode (sv_pending_item s)) ->
  exists new, grown_for h es new s w (fst (drain_push s w j)) (snd (drain_push s w j)).
Proof.
  intros K Hv R Hcan Hit Hm8. pose proof Hit as [[Hl _] Hmax]. unfold drain_push, time_now_ns.
  pose proof (session_ok_at _ _ K Hv) as So. set (now := pf_clock _).
  assert (Hn : is_u64 now) by (pose proof (clock_time (wd_ticks w)); unfold now; word_unfold; unfold UINT64_MAX in *; lia).
  pose proof (send_push_ok (cs_send_win (server_session s j)) (it_mode (sv_pending_item s)) (it_data (sv_pending_item s))
    (it_len (sv_pending_item s)) now (se_send _ _ So) Hn Hl Hmax) as P.
  pose proof (push_wire (cs_send_win (server_session s j)) (sv_pending_item s) now h es (cs_addr (server_session s j))
    (cs_session_id (server_session s j)) R Hcan Hm8 Hit Hn) as G. cbv zeta in G.
  destruct (rel4u_send_window_push _ _ _ _ _) as [[r sw] sq]. destruct P as [Hs Hr]. destruct (Hr Hcan) as (-> & q & -> & Hq).
  cbn [fst snd] in G. destruct G as (new & R1 & Hf & Hw). cbn [Z.eqb]. exists new.
  set (w1 := mk_world _ _ _ _). assert (E1 : emits (server_wire (es ++ new)) w w1) by (by apply emits_same). clearbody w1.
  set (s1 := server_upd s j _). assert (K1 : server_ok s1) by (apply server_upd_ok; [done|by apply send_win_step]).
  assert (Hv1 : valid s1 j) by (by apply server_upd_valid).
  assert (F1 : server_session s1 j = (server_session s j) <| cs_send_win := sw |>) by (unfold s1; by rewrite server_upd_same).
  clearbody s1. unfold default, id.
  pose proof (emit_session (server_wire (es ++ new)) s1 w1 j REL4U_PKT_DATA (it_mode (sv_pending_item s)) q
    (Some (it_data (sv_pending_item s))) (it_len (sv_pending_item s)) K1 Hv1 Hq ltac:(lia)) as Em.
  pose proof (server_send_update s1 w1 j REL4U_PKT_DATA (it_mode (sv_pending_item s)) q
    (Some (it_data (sv_pending_item s))) (it_len (sv_pending_item s))) as U.
  destruct (server_send_packet s1 w1 j _ _ _ _ _) as [s2 w2]. cbn [fst snd] in *.
  destruct (sent_from_session _ _ _ j U Hv1) as (Ew & _ & _ & Er & _). constructor.
  - by rewrite Ew, F1.
  - done.
  - etransitivity; [exact E1|]. apply Em. intros ack sack W _. rewrite F1 in *. by apply Hw.
  - by rewrite Er, F1.
Qed.

Lemma push_elsewhere es s w i : valid s i -> ~ addr_eq (cs_addr (server_session s i)) client_addr ->
  emits (server_wire es) w (snd (drain_push s w i)).
Proof.
  intros Hv Hne. unfold drain_push, time_now_ns. destruct (rel4u_send_window_push _ _ _ _ _) as [[r sw] sq].
  set (w1 := mk_world _ _ _ _). assert (E1 : emits (server_wire es) w w1) by (by apply emits_same). clearbody w1.
  set (s1 := server_upd s i _). assert (F1 : cs_addr (server_session s1 i) = cs_addr (server_session s i)) by (unfold s1; by rewrite server_upd_same).
  clearbody s1. destruct (r =? 0); [|exact E1]. etransitivity; [exact E1|]. apply wire_elsewhere. by rewrite F1.
Qed.

Lemma backlog_push s w i : same_backlog s (fst (drain_push s w i)).
Proof.
  unfold drain_push. destruct (time_now_ns w) as [now w1]. destruct (rel4u_send_window_push _ _ _ _ _) as [[r sw] sq].
  set (s1 := server_upd s i _). assert (B1 : same_backlog s s1) by done. clearbody s1. destruct (r =? 0); [|exact B1].
  etransitivity; [exact B1|apply backlog_sent].
Qed.

Lemma grown_for_quiet h es s w s' w' : send_rep (cs_send_win (server_session s j)) h es ->
  server_session s' j = server_session s j -> emits (server_wire es) w w' -> grown_for h es [] s w s' w'.
Proof. intros R E Em. constructor; rewrite ?app_nil_r, ?E; done. Qed.

Lemma drain_turn_modes s w : server_modes s -> server_modes (fst (fst (drain_turn s w))).
Proof.
  intros Hmod. unfold drain_turn. destruct (modes_fetch s Hmod) as [Hmod1 _]. destruct (drain_fetch s) as [have s1]. cbn [fst snd] in *.
  destruct have; [|exact Hmod1]. cbn [negb]. destruct (drain_target s1) as [i|]; [|by destruct Hmod1].
  destruct (rel4u_send_window_can_send _); [|exact Hmod1]. pose proof (backlog_push s1 w i) as (B1 & _ & _).
  destruct (drain_push s1 w i) as [s2 w2]. cbn [fst] in *. destruct Hmod1. split; [cbn; by rewrite B1|done].
Qed.

Lemma drain_turn_for s w h es : server_ok s -> valid s j -> only s -> server_modes s ->
  send_rep (cs_send_win (server_session s j)) h es ->
  let '(s', w', _) := drain_turn s w in exists new, grown_for h es new s w s' w'.
Proof.
  intros K Hvj Ho Hmod R. unfold drain_turn. pose proof (drain_fetch_table s) as Et. destruct (drain_fetch_ok s K) as [K1 Hp].
  destruct (modes_fetch s Hmod) as [_ Hm8]. destruct (drain_fetch s) as [have s1]. cbn [fst snd] in *.
  assert (Es : forall i, server_session s1 i = server_session s i) by (intros i; unfold server_session; by rewrite Et).
  assert (Hvj1 : valid s1 j) by (unfold valid, slots in *; by rewrite Et). rewrite <- Es in R.
  assert (Ho1 : only s1) by (unfold only, valid, slots in *; rewrite Et; intros i; rewrite Es; apply Ho).
  assert (G0 : forall s', server_session s' j = server_session s1 j -> grown_for h es [] s w s' w).
  { intros s' E. apply grown_for_quiet; [by rewrite <- Es|by rewrite <- Es|done]. }
  destruct have; cbn [negb]; [|exists []; by apply G0].
  destruct (drain_target s1) as [i|] eqn:Ht; [|exists []; by apply G0].
  destruct (drain_target_spec s1 i K1 Ht) as (Hv & _ & Hst).
  destruct (rel4u_send_window_can_send _) eqn:Hcan; [|exists []; by apply G0].
  assert (G : exists new, grown_for h es new s1 w (fst (drain_push s1 w i)) (snd (drain_push s1 w i))).
  { destruct (decide (i = j)) as [->|Hne]; [by apply push_for; [..|apply sk_pending, Hp|apply Hm8]|]. exists [].
    pose proof (drain_push_mild s1 w i K1 Hv) as [F _]. apply grown_for_quiet; [done|by apply F|]. apply push_elsewhere; [done|].
    intros Hx. apply Hne, Ho1; [done|unfold session_active; by rewrite Hst|done]. }
  destruct (drain_push _ _ _) as [s2 w2]. cbn [fst snd] in *. destruct G as (new & []).
  exists new. constructor; try done. rewrite <- Es. exact gf_rtt0.
Qed.

(** ** Datagrams *)

Lemma backlog_table s t : same_backlog s (s <| sv_session_table := t |>).
Proof. split_and!; reflexivity. Qed.

Lemma backlog_upd s i f : same_backlog s (server_upd s i f).
Proof. apply backlog_table. Qed.

Lemma backlog_on_data s i hdr payload : same_backlog s (server_on_data s i hdr payload).
Proof. unfold server_on_data. destruct (handle_data _ _ _ _ _ _) as [[[win queue] ready] ack]. split_and!; reflexivity. Qed.

Lemma backlog_on_session s w i hdr buf now : same_backlog s (fst (server_on_session s w i hdr buf now)).
Proof.
  unfold server_on_session. fold (session_entered s i (Z.of_nat (length buf)) now).
  assert (B1 : same_backlog s (session_entered s i (Z.of_nat (length buf)) now)).
  { unfold session_entered. etransitivity; [|apply backlog_upd]. apply backlog_table. }
  set (s1 := session_entered _ _ _ _) in *. clearbody s1.
  destruct (_ =? REL4U_PKT_CONNECT_ACK); [exact B1|].
  destruct (_ =? REL4U_PKT_DISCONNECT); [etransitivity; [exact B1|apply backlog_table]|].
  pose proof (backlog_upd s1 i (session_on_ack hdr now)) as B2. set (s2 := server_upd _ i _) in *. clearbody s2.
  assert (B3 : same_backlog s2 (fst (if h_packet_type hdr =? REL4U_PKT_HEARTBEAT
    then server_send_control s2 w i REL4U_PKT_HEARTBEAT_ACK else (s2, w)))).
  { destruct (_ =? REL4U_PKT_HEARTBEAT); [unfold server_send_control; apply backlog_sent|reflexivity]. }
  destruct (if _ =? REL4U_PKT_HEARTBEAT then _ else _) as [s3 w3]. cbn [fst] in *.
  etransitivity; [exact B1|]. etransitivity; [exact B2|]. etransitivity; [exact B3|].
  destruct (_ =? REL4U_PKT_DATA); [apply backlog_on_data|reflexivity].
Qed.

Lemma backlog_on_connect s w src now ptr ok : same_backlog s (fst (server_on_connect s w src now ptr ok)).
Proof.
  unfold server_on_connect. destruct (match rel4u_session_find_by_addr _ _ with Some _ => _ | None => _ end) as [s1 session] eqn:E.
  assert (B1 : same_backlog s s1).
  { destruct (rel4u_session_find_by_addr _ _); [injection E as <- _; reflexivity|].
    destruct (rel4u_session_allocate _ _ _ _) as [[x ev] t]. injection E as <- _. apply backlog_table. }
  destruct session as [i|]; [|exact B1]. etransitivity; [exact B1|].
  unfold server_send_control. etransitivity; [apply backlog_upd|apply backlog_sent].
Qed.

Lemma backlog_on_datagram ptr s w buf src ok : same_backlog s (fst (server_on_datagram ptr s w buf src ok)).
Proof.
  unfold server_on_datagram. destruct (rel4u_packet_decode_header _ _ _ _) as [r hdr]. destruct (negb _); [done|].
  destruct (time_now_ns w) as [now w1]. set (s1 := s <| sv_stats := _ |>). assert (B1 : same_backlog s s1) by done. clearbody s1.
  destruct (_ =? REL4U_PKT_CONNECT_REQ); [etransitivity; [exact B1|apply backlog_on_connect]|].
  destruct (rel4u_session_find_by_addr _ _) as [i|]; [|done]. destruct (_ =? h_session_id hdr); [|done].
  etransitivity; [exact B1|apply backlog_on_session].
Qed.

(** A packet of the session's client. *)
Record acked_for (src : rel4u_net_addr) (buf : list Z) (s : rel4u_server) (w : world) (s' : rel4u_server) (w' : world)
    (hdr : rel4u_header) (now : Z) (st st' : option rel4u_stats) : Prop := {
  af_reads : reads pf_host buf hdr;
  af_src : addr_eq (cs_addr (server_session s j)) src;
  af_session : h_session_id hdr = cs_session_id (server_session s j);
  af_type : ~ h_packet_type hdr ∈ [REL4U_PKT_CONNECT_REQ; REL4U_PKT_CONNECT_ACK; REL4U_PKT_DISCONNECT];
  af_window : rel4u_send_window_on_ack (cs_send_win (server_session s j)) (h_ack_num hdr) (h_sack_mask hdr) now
    (Some (cs_rtt (server_session s j))) st = (cs_send_win (server_session s' j), Some (cs_rtt (server_session s' j)), st');
  af_wire : emits (server_wire []) w w'
}.

Lemma on_connect_for h es s w src now ptr : server_ok s -> valid s j -> session_active (server_session s j) = true ->
  ip_addr (cs_addr (server_session s j)) -> 0 <= now < UINT64_MAX -> send_rep (cs_send_win (server_session s j)) h es ->
  let s' := fst (server_on_connect s w src now ptr (true, true)) in
  cs_addr (server_session s' j) = cs_addr (server_session s j) ->
  resent_for h es es s w s' (snd (server_on_connect s w src now ptr (true, true))).
Proof.
  intros K Hv Ha Hip Hn R. cbv zeta. intros Had. apply resent_for_quiet; [done|by apply (connect_keeps cs_send_win)|]. clear Had.
  unfold server_on_connect. destruct (rel4u_session_find_by_addr _ _) as [i|] eqn:Hf.
  { destruct (find_valid _ _ _ K Hf) as (Hvi & _). apply wire_control_packet; [|by apply server_upd_valid|done].
    apply server_upd_ok; [done|by apply activity_step]. }
  set (sid0 := if u32 _ =? 0 then _ else _).
  assert (Hsid : is_u32 sid0) by (unfold sid0; destruct (_ =? _); [word_unfold; lia|apply u32_range]).
  pose proof (allocate_spec (sv_session_table s) src sid0 (sk_table _ K) Hsid Hf) as A.
  pose proof (allocate_length (sv_session_table s) src sid0 (true, true)) as El.
  destruct (rel4u_session_allocate _ _ _ _) as [[[i|] ev] t]; [|apply wire_header; done].
  destruct A as (x & Hx & -> & T & _). cbn [snd] in El. set (s0 := s <| sv_session_table := t |>).
  assert (Hv0 : valid s0 i) by (unfold valid, slots, s0; cbn; rewrite El; by eapply lookup_lt_Some).
  assert (K0 : server_ok s0) by (by apply sset_table_ok). clearbody s0.
  apply wire_control_packet; [|by apply server_upd_valid|done]. apply server_upd_ok; [done|by apply activity_step].
Qed.

Lemma promote_windows n x : cs_send_win (session_promote n x) = cs_send_win x /\ cs_rtt (session_promote n x) = cs_rtt x.
Proof. unfold session_promote. by destruct (bool_decide _). Qed.

Lemma on_data_send s i hdr payload k : valid s i ->
  cs_send_win (server_session (server_on_data s i hdr payload) k) = cs_send_win (server_session s k) /\
  cs_rtt (server_session (server_on_data s i hdr payload) k) = cs_rtt (server_session s k).
Proof.
  intros Hv. unfold server_on_data. destruct (handle_data _ _ _ _ _ _) as [[[win queue] ready] ack].
  destruct (decide (k = i)) as [->|Hne]; [rewrite server_upd_same by exact Hv; by destruct ack|by rewrite server_upd_other].
Qed.

Lemma on_session_for h es s w hdr buf now : server_ok s -> valid s j -> header_wf hdr -> 0 <= now < UINT64_MAX ->
  send_rep (cs_send_win (server_session s j)) h es ->
  let '(s', w') := server_on_session s w j hdr buf now in
  session_active (server_session s' j) = true ->
  resent_for h es es s w s' w' \/
  (~ h_packet_type hdr ∈ [REL4U_PKT_CONNECT_ACK; REL4U_PKT_DISCONNECT] /\ emits (server_wire []) w w' /\
   exists st st', rel4u_send_window_on_ack (cs_send_win (server_session s j)) (h_ack_num hdr) (h_sack_mask hdr) now
    (Some (cs_rtt (server_session s j))) st = (cs_send_win (server_session s' j), Some (cs_rtt (server_session s' j)), st')).
Proof.
  intros K Hv W Hn R. unfold server_on_session. fold (session_entered s j (Z.of_nat (length buf)) now).
  pose proof (session_entered_ok s j (Z.of_nat (length buf)) now K Hn) as K1.
  pose proof (frame_valid _ _ _ j (session_entered_frame s j (Z.of_nat (length buf)) now) Hv) as Hv1.
  pose proof (session_entered_at s j (Z.of_nat (length buf)) now Hv) as E1.
  destruct (promote_windows (Z.of_nat (length buf)) ((server_session s j) <| cs_last_activity_ns := now |>)) as [Ew Er].
  rewrite <- E1 in Ew, Er. set (s1 := session_entered _ _ _ _) in *. clearbody s1. clear E1. cbn in Ew, Er.
  destruct (Z.eqb_spec (h_packet_type hdr) REL4U_PKT_CONNECT_ACK) as [_|Hca]; [intros _; left; by apply resent_for_quiet|].
  destruct (Z.eqb_spec (h_packet_type hdr) REL4U_PKT_DISCONNECT) as [_|Hdc].
  { unfold server_session at 1. cbn. by rewrite free_inactive by exact Hv1. }
  pose proof (on_ack_ok (cs_send_win (server_session s1 j)) (h_ack_num hdr) (h_sack_mask hdr) now (cs_rtt (server_session s1 j))
    (cs_stats (server_session s1 j)) (se_send _ _ (session_ok_at _ _ K1 Hv1)) (se_rtt _ _ (session_ok_at _ _ K1 Hv1)) (wf_ack_num _ W)) as A.
  set (s2 := server_upd s1 j _). assert (K2 : server_ok s2) by (apply server_upd_ok; [done|by apply on_ack_step]).
  assert (Hv2 : valid s2 j) by (by apply server_upd_valid).
  assert (E2 : server_session s2 j = session_on_ack hdr now (server_session s1 j)) by (unfold s2; by rewrite server_upd_same).
  clearbody s2. unfold session_on_ack in E2. rewrite Ew, Er in *.
  destruct (rel4u_send_window_on_ack _ _ _ _ _ _) as [[sw rtt] st'] eqn:Eack. destruct A as (_ & r & stt & -> & -> & _).
  cbn [default] in E2. set (p := if _ =? REL4U_PKT_HEARTBEAT then _ else _).
  assert (S3 : cs_send_win (server_session (fst p) j) = sw /\ cs_rtt (server_session (fst p) j) = r /\ valid (fst p) j /\
    emits (server_wire []) w (snd p)).
  { unfold p. destruct (_ =? REL4U_PKT_HEARTBEAT); [|cbn [fst snd]; by rewrite E2].
    unfold server_send_control. pose proof (server_send_update s2 w j REL4U_PKT_HEARTBEAT_ACK REL4U_MODE_UNRELIABLE_UNORDERED 0 None 0) as U.
    destruct (sent_from_session _ _ _ j U Hv2) as (-> & _ & _ & -> & _). rewrite E2. split; [done|]. split; [done|].
    split; [by apply (sent_from_valid _ _ _ _ U)|]. by apply wire_control_packet. }
  clearbody p. destruct p as [s3 w3]. cbn [fst snd] in S3. destruct S3 as (Ew3 & Er3 & Hv3 & Em). intros _. right.
  split; [rewrite !elem_of_cons, elem_of_nil; tauto|]. split; [done|]. exists (Some (cs_stats (server_session s1 j))), (Some stt).
  destruct (_ =? REL4U_PKT_DATA); [|by rewrite Ew3, Er3, Eack].
  destruct (on_data_send s3 j hdr (drop 24 buf) j Hv3) as [-> ->]. by rewrite Ew3, Er3, Eack.
Qed.

(** ** Every step *)

(** What a step does to the send window of a session that is still there after it:
    it appends messages, resends some, or takes an acknowledgement. *)
Inductive server_effect (h : Z) (es : list rel4u_send_slot) (e : server_event) (s : rel4u_server) (w : world)
    (s' : rel4u_server) (w' : world) : Prop :=
  | served_grown new : grown_for h es new s w s' w' -> server_effect h es e s w s' w'
  | served_resent es' : resent_for h es es' s w s' w' -> server_effect h es e s w s' w'
  | served_acked ptr buf src ok hdr now st st' : e = SvDatagram ptr buf src ok ->
      acked_for src buf s w s' w' hdr now st st' -> server_effect h es e s w s' w'.

Lemma datagram_for h es ptr s w buf src : server_ok s -> datagram_ok buf -> valid s j ->
  session_active (server_session s j) = true -> ip_addr (cs_addr (server_session s j)) ->
  send_rep (cs_send_win (server_session s j)) h es ->
  let '(s', w') := server_on_datagram ptr s w buf src (true, true) in
  session_active (server_session s' j) = true -> cs_addr (server_session s' j) = cs_addr (server_session s j) ->
  server_effect h es (SvDatagram ptr buf src (true, true)) s w s' w'.
Proof.
  intros K Hb Hv Ha Hip R. unfold server_on_datagram.
  destruct (rel4u_packet_decode_header _ _ _ _) as [r hdr] eqn:E.
  destruct (Z.eqb_spec r 0) as [->|]; [|intros _ _; eapply served_resent; by apply resent_for_quiet]. cbn [negb].
  destruct (decode_ok _ _ _ _ Hb E) as [W _].
  unfold time_now_ns. cbv beta iota. set (w1 := mk_world _ _ _ _). set (now := pf_clock _).
  assert (Hn : 0 <= now < UINT64_MAX) by apply clock_time. set (s1 := s <| sv_stats := _ |>).
  assert (K1 : server_ok s1) by server_tac. assert (Es : forall k, server_session s1 k = server_session s k) by done.
  assert (Et : sv_session_table s1 = sv_session_table s) by done. assert (Hv1 : valid s1 j) by exact Hv.
  assert (Ew : forall P, emits P w w1) by (intros P; by apply emits_same). clearbody s1 w1 now.
  assert (G1 : resent_for h es es s w s1 w1) by (apply resent_for_quiet; [done|by rewrite Es|done]).
  assert (R1 : send_rep (cs_send_win (server_session s1 j)) h es) by (by rewrite Es).
  assert (Hst : resent_for h es es s w s1 (server_on_stranger s1 w1 hdr src)).
  { eapply resent_for_trans; [exact G1|]. apply resent_for_quiet; [done|done|]. unfold server_on_stranger.
    destruct (_ && _); [|done]. apply wire_header; [done|done|apply W|apply W]. }
  destruct (Z.eqb_spec (h_packet_type hdr) REL4U_PKT_CONNECT_REQ) as [Hc|Hc].
  { pose proof (on_connect_for h es s1 w1 src now ptr K1 Hv1 ltac:(by rewrite Es) ltac:(by rewrite Es) Hn R1) as G. cbv zeta in G.
    destruct (server_on_connect _ _ _ _ _ _) as [s2 w2]. cbn [fst snd] in G. intros _ Had. rewrite Es in G.
    eapply served_resent, resent_for_trans; [exact G1|by apply G]. }
  destruct (rel4u_session_find_by_addr _ _) as [i|] eqn:Hf; [|intros _ _; by eapply served_resent].
  destruct (find_valid _ _ _ K1 Hf) as (Hvi & _ & He).
  destruct (Z.eqb_spec (cs_session_id (server_session s1 i)) (h_session_id hdr)) as [Hid|Hid]; [|intros _ _; by eapply served_resent].
  destruct (decide (i = j)) as [->|Hij].
  - pose proof (on_session_for h es s1 w1 hdr buf now K1 Hv1 W Hn R1) as P. destruct (server_on_session _ _ _ _ _ _) as [s2 w2].
    intros Ha' _. destruct (P Ha') as [G|(Ht & Em & st & st' & Eack)]; [eapply served_resent, resent_for_trans; [exact G1|exact G]|].
    rewrite Es in *. eapply served_acked; [reflexivity|]. constructor; try done.
    + rewrite !elem_of_cons, elem_of_nil in *. tauto.
    + etransitivity; [apply Ew|exact Em].
  - pose proof (frame_on_session s1 w1 i hdr buf now Hvi) as F.
    assert (Em : emits (server_wire es) w1 (snd (server_on_session s1 w1 i hdr buf now))).
    { unfold server_on_session. fold (session_entered s1 i (Z.of_nat (length buf)) now).
      pose proof (session_entered_ok s1 i (Z.of_nat (length buf)) now K1 Hn) as K2.
      pose proof (frame_valid _ _ _ i (session_entered_frame s1 i (Z.of_nat (length buf)) now) Hvi) as Hv2.
      set (s2 := session_entered _ _ _ _) in *. clearbody s2. destruct (_ =? REL4U_PKT_CONNECT_ACK); [done|].
      destruct (_ =? REL4U_PKT_DISCONNECT); [done|]. set (s3 := server_upd s2 i _).
      assert (K3 : server_ok s3) by (apply server_upd_ok; [done|by apply on_ack_step]).
      assert (Hv3 : valid s3 i) by (by apply server_upd_valid). clearbody s3. destruct (_ =? REL4U_PKT_HEARTBEAT); [|done].
      pose proof (wire_control_packet es s3 w1 i REL4U_PKT_HEARTBEAT_ACK K3 Hv3 ltac:(done)) as Em.
      by destruct (server_send_control _ _ _ _). }
    destruct (server_on_session _ _ _ _ _ _) as [s2 w2]. cbn [fst snd] in *. intros _ _.
    eapply served_resent, resent_for_trans; [exact G1|]. apply resent_for_quiet; [done|by rewrite (fr_others _ _ _ F) by done|done].
Qed.

(** ** The backlog *)

Lemma backlog_resend now i l : forall s w, same_backlog s (fst (foldl (server_resend now i) (s, w) l)).
Proof.
  induction l as [|k l IH]; intros s w; [reflexivity|]. cbn [foldl]. unfold server_resend at 2. cbv zeta.
  pose proof (backlog_upd s i (fun x => x <| cs_send_win := send_slot_retransmit (cs_send_win x) k now |>)) as B1.
  set (s1 := server_upd s i _) in *. clearbody s1. set (slot := sw_slots _ !. k).
  pose proof (backlog_sent s1 w i REL4U_PKT_DATA (ss_delivery_mode slot) (ss_seq_num slot) (Some (ss_payload slot)) (ss_payload_len slot)) as B2.
  destruct (server_send_packet _ _ _ _ _ _ _ _) as [s2 w2]. cbn [fst] in B2.
  etransitivity; [exact B1|]. etransitivity; [exact B2|apply IH].
Qed.

Lemma backlog_timer now s w i : same_backlog s (fst (server_timer now (s, w) i)).
Proof.
  unfold server_timer. destruct (negb _); [reflexivity|]. destruct (_ >=? _); [apply backlog_table|]. destruct (negb _); [reflexivity|].
  assert (B1 : same_backlog s (fst (server_retransmit s w i now))).
  { unfold server_retransmit. cbv zeta. destruct (_ >? _); [|reflexivity]. etransitivity; [apply backlog_upd|apply backlog_resend]. }
  destruct (server_retransmit s w i now) as [s1 w1]. cbn [fst] in B1.
  assert (B2 : same_backlog s1 (fst (if cs_ack_pending (server_session s1 i) then server_send_control s1 w1 i REL4U_PKT_ACK else (s1, w1)))).
  { destruct (cs_ack_pending _); [unfold server_send_control; apply backlog_sent|reflexivity]. }
  destruct (if cs_ack_pending _ then _ else _) as [s2 w2]. cbn [fst] in B2.
  etransitivity; [exact B1|]. etransitivity; [exact B2|]. unfold server_heartbeat. destruct (_ >=? _); [|reflexivity].
  unfold server_send_control.
  pose proof (backlog_sent s2 w2 i REL4U_PKT_HEARTBEAT REL4U_MODE_UNRELIABLE_UNORDERED 0 None 0) as B3.
  destruct (server_send_packet _ _ _ _ _ _ _ _) as [s3 w3]. cbn [fst] in *. etransitivity; [exact B3|apply backlog_upd].
Qed.

Lemma backlog_timers s w : same_backlog s (fst (server_timers s w)).
Proof.
  unfold server_timers. destruct (time_now_ns w) as [now w0]. generalize (seq 0 (Z.to_nat (tb_max_clients (sv_session_table s)))).
  intros l. revert s w0. induction l as [|i l IH]; intros s w0; [reflexivity|]. cbn [foldl].
  pose proof (backlog_timer now s w0 i) as B. destruct (server_timer now (s, w0) i) as [s1 w1]. etransitivity; [exact B|apply IH].
Qed.

(** A call of the application that does not touch the sessions. *)
Lemma event_table s w e :
  match e with SvStart _ | SvSend _ _ _ _ | SvRecv _ _ _ | SvStopBegin | SvTurn | SvWake => True | _ => False end ->
  sv_session_table (fst (run_server_event (s, w) e)) = sv_session_table s /\
  forall P, emits P w (snd (run_server_event (s, w) e)).
Proof.
  destruct e as [ptr buf src ok| | |env|id mode data len|sz t wk|id| | | |]; try done; intros _; cbn [run_server_event].
  - split; [apply (start_same s env)|by intros P].
  - unfold rel4u_server_send; destruct (_ >? _); try done; destruct (negb (sv_running s)); try done;
      destruct (memcpy_into _ _ _); try done; destruct (rel4u_mpmc_try_push _ _) as [ok q]. destruct (negb ok); [done|]. split; [done|intros P; apply emits_signal].
  - unfold rel4u_server_recv; destruct (_ =? _); try done; by destruct (rel4u_mpmc_pop_wait _ _ _ _) as [q|[] q item].
  - split; [done|intros P; apply emits_signal].
  - split; [done|intros P; by apply emits_same].
  - split; [done|intros P; apply emits_drain].
Qed.

Lemma event_modes s w e : server_ok s -> server_event_ok e -> server_modes s -> server_modes (fst (run_server_event (s, w) e)).
Proof.
  intros K He Hm. destruct e as [ptr buf src ok| | |env|id mode data len|sz t wk|id| | | |]; cbn [run_server_event server_event_ok] in *.
  - eapply modes_backlog; [apply backlog_on_datagram|done].
  - rewrite server_drain_turn. pose proof (drain_turn_modes s w Hm) as P.
    destruct (drain_turn s w) as [[s' w'] []]; exact P.
  - eapply modes_backlog; [apply backlog_timers|done].
  - eapply modes_backlog; [|exact Hm]. apply (start_same s env).
  - unfold rel4u_server_send. destruct (_ >? _); [exact Hm|]. destruct (negb (sv_running s)); [exact Hm|].
    unfold memcpy_into. destruct (_ <=? _); [|exact Hm]. destruct Hm as [Hq Hp].
    pose proof (byte_modes_push (sv_send_queue s) _ Hq (queued_item_wf id mode data len He) (u8_range mode)) as Q'.
    destruct (rel4u_mpmc_try_push _ _) as [ok q]. cbn [snd] in Q'. by destruct (negb ok).
  - eapply modes_backlog; [|exact Hm]. unfold rel4u_server_recv. destruct (_ =? _); [done|].
    by destruct (rel4u_mpmc_pop_wait _ _ _ _) as [q|[] q item].
  - eapply modes_backlog; [|exact Hm]. unfold rel4u_server_disconnect_client. destruct (rel4u_session_find_by_id _ _); [|done].
    apply backlog_table.
  - done.
  - destruct Hm as [Hq _]. split; [|done]. exact (byte_modes_pop_all (S (Z.to_nat (q_count (sv_send_queue s)))) (sv_send_queue s) item_zero Hq).
  - done.
  - done.
Qed.

(** Every step, on a session that is still there after it. *)
Lemma server_event_effect s w e h es : server_ok s -> server_event_ok e -> valid s j ->
  session_active (server_session s j) = true -> ip_addr (cs_addr (server_session s j)) ->
  addr_eq (cs_addr (server_session s j)) client_addr -> server_modes s ->
  send_rep (cs_send_win (server_session s j)) h es ->
  let '(s', w') := run_server_event (s, w) e in
  session_active (server_session s' j) = true -> cs_addr (server_session s' j) = cs_addr (server_session s j) ->
  server_effect h es e s w s' w'.
Proof.
  intros K He Hv Ha Hip Hadd Hmod R. pose proof (only_session s K Hv Ha Hadd) as Ho.
  pose proof (event_table s w e) as Ht.
  assert (Hq : forall s' w', sv_session_table s' = sv_session_table s -> (forall P, emits P w w') -> server_effect h es e s w s' w').
  { intros s' w' Et Em. apply (served_resent _ _ _ _ _ _ _ es), resent_for_quiet; [done| |apply Em]. unfold server_session. by rewrite Et. }
  destruct e as [ptr buf src ok| | |env|id mode data len|sz t wk|id| | | |]; cbn [server_event_ok] in *.
  1: { destruct He as [He ->]. by apply datagram_for. }
  3, 4, 5, 7, 9, 10: destruct (run_server_event _ _) as [s' w']; intros _ _; destruct (Ht I) as [Et Em]; by apply Hq.
  all: cbn [run_server_event].
  - rewrite server_drain_turn. pose proof (drain_turn_for s w h es K Hv Ho Hmod R) as P.
    destruct (drain_turn s w) as [[s' w'] []]; destruct P as (new & G); intros _ _; by apply (served_grown _ _ _ _ _ _ _ new).
  - destruct (timers_for s w h es K Hv Ho R) as (es' & G). destruct (server_timers s w) as [s' w']. intros _ _.
    by apply (served_resent _ _ _ _ _ _ _ es').
  - unfold rel4u_server_disconnect_client. destruct (rel4u_session_find_by_id _ _) as [i|] eqn:Hf; [|intros _ _; by apply Hq].
    destruct (find_id_valid _ _ _ K Hf) as (Hvi & _). intros Ha' _. destruct (decide (j = i)) as [->|Hne].
    + unfold server_session in Ha' at 1. cbn in Ha'. rewrite free_inactive in Ha' by exact Hv. done.
    + apply (served_resent _ _ _ _ _ _ _ es), resent_for_quiet; [done|by rewrite (fr_others _ _ _ (frame_free s i Hvi) j Hne)|].
      apply wire_header; [done|done|apply (session_ok_at _ _ K Hvi)|done].
  - intros Ha' _. pose proof (cn_sessions _ (stop_end_clean s K) j) as Hc. rewrite Hc in Ha'; [done|].
    unfold valid, slots in *. destruct (free_fold_inactive (seq 0 (Z.to_nat (tb_max_clients (sv_session_table s)))) _ (sk_table _ K)) as [El _].
    unfold server_stop_end. cbn. by rewrite El.
Qed.

(** The next sequence number grows only with new entries. *)
Lemma served_new h es e s w s' w' : send_rep (cs_send_win (server_session s j)) h es ->
  server_effect h es e s w s' w' ->
  exists new, window_new (cs_send_win (server_session s j)) (cs_send_win (server_session s' j)) = entry_view <$> new /\
    Forall (fun x => exists p, entry_ok p x) new.
Proof.
  intros R [new G|es' G|ptr buf src ok hdr now st st' -> A].
  - exists new. split; [by apply (window_new_spec _ _ h es), G|]. exact (entries_ok _ h es new (gf_window _ _ _ _ _ _ _ G)).
  - exists []. split; [|done]. apply window_new_none.
    by rewrite (sr_next _ _ _ R), (sr_next _ _ _ (rf_window _ _ _ _ _ _ _ G)), (Forall2_length _ _ _ (rf_same _ _ _ _ _ _ _ G)).
  - exists []. split; [|done]. apply window_new_none. destruct (af_reads _ _ _ _ _ _ _ _ _ _ A) as [Hb E].
    destruct (decode_ok _ _ _ _ Hb E) as [W _]. exact (on_ack_next _ _ _ _ _ _ _ _ _ _ _ R (wf_ack_num _ W) (af_window _ _ _ _ _ _ _ _ _ _ A)).
Qed.
End wire.
