(* ===== verification/Inbox.v ===== *)
(** * Between the worker and the application: the receive queue

    A worker pushes what it has received to the receive queue and ignores whether
    the queue takes it ([rel4u_server.c] 447, [rel4u_client.c] 482); the
    application takes messages out with the blocking receive calls.  Here is what
    is between the two: no message is made up, doubled or moved, and when one is
    refused or evicted the queue's own counter of dropped messages moves. *)
From S2P Require Import Prelude Ring Types Seq Packet Rtt Mpmc MpmcSpec Queue SendWindow SendSpec Send RecvWindow RecvSpec Recv RecvSafe Net Session Sessions Link Endpoint Peer Client ClientSpec ClientRun Server ServerSpec ServerRun ServerDrain ServerTable Connection Emit ClientWire Pipe.
From stdpp Require Import base numbers list gmap.
Open Scope Z_scope.
Open Scope rel4u_scope.

(** ** Sublists *)

Lemma filter_sublist {A} (P : A -> Prop) `{!forall x, Decision (P x)} (l k : list A) :
  l `sublist_of` k -> filter P l `sublist_of` filter P k.
Proof.
  induction 1 as [|x l k Hs IH|x l k Hs IH]; [done|..]; rewrite ?filter_cons;
    destruct (decide (P x)); [by constructor|done|by constructor|done].
Qed.

Lemma sublist_fmap_inv {A B} (f : A -> B) (l : list B) (k : list A) : l `sublist_of` (f <$> k) ->
  exists k', k' `sublist_of` k /\ l = f <$> k'.
Proof.
  revert l. induction k as [|x k IH]; intros l H; cbn [fmap list_fmap] in H.
  - apply sublist_nil_r in H as ->. exists []. by split.
  - inversion H as [|y l' k' H' E1|y l' k' H' E1]; subst.
    + destruct (IH _ H') as (k1 & Hk & ->). exists (x :: k1). split; [by constructor|done].
    + destruct (IH _ H') as (k1 & Hk & ->). exists k1. split; [by constructor|done].
Qed.

Lemma sublist_same_length {A} (l k : list A) : l `sublist_of` k -> length l = length k -> l = k.
Proof.
  induction 1 as [|x l k H IH|x l k H IH]; intros E; [done|f_equal; apply IH; cbn in E; lia|].
  apply sublist_length in H. cbn in E. lia.
Qed.

(** ** What a queue still holds *)

(** The messages that taking one after the other from the queue gives. *)
Fixpoint pop_messages (fuel : nat) (q : rel4u_mpmc_queue) : list msg :=
  match fuel with
  | O => []
  | S fuel =>
      let '(ok, q, item) := rel4u_mpmc_try_pop q item_zero in
      if ok then item_msg item :: pop_messages fuel q else []
  end.

Definition unread (q : rel4u_mpmc_queue) : list msg := pop_messages (Z.to_nat (q_count q)) q.

Section inbox.
Context {allocator : Malloc}.

Lemma pop_messages_rep fuel : forall q b, q_rep q b -> (length (bq_msgs b) <= fuel)%nat -> pop_messages fuel q = bq_msgs b.
Proof.
  induction fuel as [|fuel IH]; intros q b Hq Hf; cbn [pop_messages]; [by apply symmetry, length_zero_iff_nil; lia|].
  pose proof (pop_spec q b item_zero Hq) as P. unfold rel4u_mpmc_try_pop, bq_pop in *.
  destruct (mpmc_pop_head_locked q item_zero) as [[ok q'] it]. destruct (bq_msgs b) as [|m l]; [by destruct P as (-> & _)|].
  destruct P as (-> & -> & Hq' & _). f_equal. apply (IH _ _ Hq'). cbn in Hf |- *. lia.
Qed.

Lemma unread_rep q b : q_rep q b -> unread q = bq_msgs b.
Proof. intros Hq. apply pop_messages_rep; [done|]. rewrite (q_rep_count _ _ Hq). lia. Qed.

(** ** Pushing *)

(** A push conserves messages: what is dropped is counted, and the rest is there,
    in order. *)
Lemma bq_push_conserves cost limit policy alloc m b ok b' : is_u64 (bq_dropped b) -> m_len m <= REL4U_MAX_MSG_SIZE ->
  bq_push cost limit policy false alloc m b = (ok, b') ->
  exists k, bq_dropped b' = u64 (bq_dropped b + Z.of_nat k) /\
    (k + length (bq_msgs b') = length (bq_msgs b) + 1)%nat /\ bq_msgs b' `sublist_of` bq_msgs b ++ [m].
Proof.
  intros Hu Hm. unfold bq_push. destruct (Z.gtb_spec (m_len m) REL4U_MAX_MSG_SIZE); [lia|].
  assert (H0 : bq_dropped b = u64 (bq_dropped b + Z.of_nat 0)) by (rewrite Z.add_0_r; by rewrite u64_small).
  assert (Hs : forall l, l `sublist_of` bq_msgs b -> l `sublist_of` bq_msgs b ++ [m]) by (intros l Hl; by apply sublist_inserts_r).
  destruct (Z.gtb_spec (cost m) limit) as [|Hc].
  { intros [= <- <-]. exists 1%nat. cbn. split; [done|]. split; [lia|by apply Hs]. }
  destruct (_ <=? _).
  - destruct alloc; intros [= <- <-]; cbn.
    + exists 0%nat. split; [done|]. split; [rewrite length_app; cbn; lia|done].
    + exists 1%nat. split; [done|]. split; [lia|by apply Hs].
  - destruct policy; [intros [= <- <-]; exists 1%nat; cbn; split; [done|]; split; [lia|by apply Hs]|].
    destruct (bq_evict_spec cost limit (cost m) (bq_msgs b) Hc) as [_ [i Ei]].
    pose proof (bq_evict_length cost limit (cost m) (bq_msgs b)) as Hl. set (l := bq_evict _ _ _ _) in *.
    assert (Hsub : l `sublist_of` bq_msgs b) by (rewrite Ei; apply sublist_drop). clearbody l.
    destruct alloc; intros [= <- <-]; cbn.
    + exists (length (bq_msgs b) - length l)%nat. split; [done|]. split; [rewrite length_app; cbn; lia|by apply sublist_app].
    + exists (length (bq_msgs b) - length l + 1)%nat. split; [rewrite u64_add; f_equal; lia|]. split; [lia|by apply Hs].
Qed.

Lemma push_all_conserves items : forall q b, q_rep q b -> Forall item_sized items ->
  exists k b', q_rep (push_all q items) b' /\ q_same q (push_all q items) /\
    bq_dropped b' = u64 (bq_dropped b + Z.of_nat k) /\
    (k + length (bq_msgs b') = length (bq_msgs b) + length items)%nat /\
    bq_msgs b' `sublist_of` bq_msgs b ++ (item_msg <$> items).
Proof.
  induction items as [|it items IH]; intros q b Hq Hf.
  { exists 0%nat, b. destruct Hq as (Hd & Hu & Hr). rewrite Z.add_0_r, app_nil_r, u64_small by (by rewrite Hd).
    split; [done|]. split; [done|]. split; [done|]. split; [cbn; lia|done]. }
  apply Forall_cons in Hf as [[Hw Hmax] Hf]. pose proof (push_spec false q b it Hq Hw) as P. unfold mpmc_push in P.
  change (push_all q (it :: items)) with (push_all (snd (fst (rel4u_mpmc_push_notify q it))) items).
  unfold rel4u_mpmc_push_notify. destruct (mpmc_push_back_locked q it) as [ok q1]. cbn [fst snd].
  destruct P as (alloc & b1 & _ & Hp & Hq1 & Hs1). pose proof Hq as (Hd & Hu & _). rewrite <- Hd in Hu.
  apply bq_push_conserves in Hp as (k1 & Ed & Ek & Hsub); [|done|by rewrite item_msg_len].
  destruct (IH q1 b1 Hq1 Hf) as (k2 & b2 & Hq2 & Hs2 & Ed2 & Ek2 & Hsub2). exists (k1 + k2)%nat, b2.
  split; [done|]. split; [by etransitivity|]. split; [rewrite Ed2, Ed, u64_add; f_equal; lia|]. split; [cbn [length]; lia|].
  etransitivity; [exact Hsub2|]. change (item_msg <$> it :: items) with ([item_msg it] ++ (item_msg <$> items)).
  rewrite app_assoc. by apply sublist_app.
Qed.

(** The length of a queue whose capacity is a [uint32_t]. *)
Lemma q_rep_length q b : q_rep q b -> q_capacity q < 2 ^ 32 -> Z.of_nat (length (bq_msgs b)) < 2 ^ 63.
Proof.
  intros (_ & _ & H) Hc. destruct (q_mode q).
  - pose proof (fixed_rep_length _ _ H) as El. pose proof (fx_count _ (proj1 H)). lia.
  - destruct H as (ls & nds & _ & _ & _ & _ & Hb & Hmax). rewrite Hb in Hmax.
    assert (Hl : forall l, Z.of_nat (length l) <= cost_sum (fun m => sizeof_node + m_len m) l).
    { induction l as [|m l IH]; cbn [length cost_sum]; [lia|]. unfold sizeof_node, m_len in *. lia. }
    specialize (Hl (bq_msgs b)). lia.
Qed.

(** ** Steps of the queue *)

(** What a step of an endpoint does to its receive queue: [pushed] are the items
    the worker pushes, [took] the message the application takes. *)
Inductive inbox_step (q : rel4u_mpmc_queue) : list rel4u_mpmc_item -> list msg -> rel4u_mpmc_queue -> Prop :=
  | inbox_same : inbox_step q [] [] q
  | inbox_wake : inbox_step q [] [] (fst (rel4u_mpmc_wake_all q))
  | inbox_pushed items : Forall item_sized items -> Z.of_nat (length items) < 2 ^ 40 ->
      inbox_step q items [] (push_all q items)
  | inbox_took q' item : rel4u_mpmc_try_pop q item_zero = (true, q', item) -> inbox_step q [] [item_msg item] q'.

(** What was there and what is pushed is taken or there afterwards, in order and
    without gaps unless the counter of dropped messages has moved. *)
Lemma inbox_step_conserves q pushed took q' : inbox_step q pushed took q' -> queue_ok q -> q_capacity q < 2 ^ 32 ->
  queue_ok q' /\ q_capacity q' = q_capacity q /\
  took ++ unread q' `sublist_of` unread q ++ (item_msg <$> pushed) /\
  (q_dropped_count q' = q_dropped_count q -> took ++ unread q' = unread q ++ (item_msg <$> pushed)).
Proof.
  intros St [b Hq] Hc. rewrite (unread_rep _ _ Hq). destruct St as [| |items Hf Hn|q' item E].
  - rewrite (unread_rep _ _ Hq), app_nil_r. split; [by exists b|]. done.
  - pose proof (wake_all_rep _ _ Hq) as Hq'. rewrite (unread_rep _ _ Hq'), app_nil_r. split; [by exists b|]. done.
  - destruct (push_all_conserves items q b Hq Hf) as (k & b' & Hq' & Hs & Ed & Ek & Hsub).
    rewrite (unread_rep _ _ Hq'). split; [by exists b'|]. split; [apply Hs|]. split; [done|]. intros E.
    apply sublist_same_length; [exact Hsub|]. cbn [app]. rewrite length_app, length_fmap.
    pose proof (q_rep_length _ _ Hq Hc). destruct Hq as (Hd & Hu & _), Hq' as (Hd' & _ & _).
    rewrite <- Hd, <- Hd', Ed in E. unfold u64, is_u64 in *.
    assert (k = 0%nat); [|lia]. rewrite Hd in *.
    assert (Hk : Z.of_nat k < 2 ^ 64) by lia.
    destruct (decide (k = 0%nat)); [done|]. exfalso. clear - E Hk Hu n.
    pose proof (Z.div_mod (q_dropped_count q + Z.of_nat k) (2 ^ 64) ltac:(lia)). nia.
  - pose proof (pop_spec q b item_zero Hq) as P. unfold rel4u_mpmc_try_pop in E. rewrite E in P. unfold bq_pop in P.
    destruct (bq_msgs b) as [|m l]; [by destruct P|]. destruct P as (_ & -> & Hq' & Hs & _).
    rewrite (unread_rep _ _ Hq'), app_nil_r. split; [by eexists|]. split; [apply Hs|]. done.
Qed.

(** The blocking receive, once it takes its message: as [rel4u_mpmc_try_pop]. *)
Lemma pop_wait_now q timeout :
  match rel4u_mpmc_pop_wait q item_zero timeout [] with
  | Returned true q' item => rel4u_mpmc_try_pop q item_zero = (true, q', item)
  | Returned false q' _ => q' = q
  | Blocked _ => True
  end.
Proof.
  unfold rel4u_mpmc_pop_wait. cbn [pop_wait_loop]. destruct (q_count q =? 0) eqn:Ec; [by destruct (timeout =? 0)|].
  unfold rel4u_mpmc_try_pop. destruct (mpmc_pop_head_locked q item_zero) as [[ok q'] it] eqn:E. destruct ok; [done|].
  unfold mpmc_pop_head_locked in E. rewrite Ec in E. destruct (q_mode q); [by injection E|].
  destruct (mpmc_unlink_head q) as [[? ?]|]; [done|]. by injection E.
Qed.

(** ** What a data packet pushes *)

Lemma ready_items_sized id ready rc : ready_ok 64 64 ready rc ->
  Forall item_sized (ready_item id <$> take (Z.to_nat rc) ready) /\ (length (take (Z.to_nat rc) ready) <= 64)%nat.
Proof.
  intros [Hl Hb _ Hf]. split; [|rewrite length_take; lia]. apply Forall_fmap.
  eapply Forall_impl; [apply Forall_and; split; [exact Hf|exact (Forall_take _ _ _ Hb)]|].
  intros s [? Hs]. split; [by apply ready_item_wf|]. destruct Hs as ([_ Hmax] & _). exact Hmax.
Qed.

#[local] Abbreviation sized := (fun (id : Z) (l : list rel4u_recv_slot) (n : nat) =>
  Forall item_sized (ready_item id <$> l) /\ (length l <= n)%nat).

Lemma sized_app id l1 l2 n1 n2 : sized id l1 n1 -> sized id l2 n2 -> sized id (l1 ++ l2) (n1 + n2)%nat.
Proof. intros [H1 L1] [H2 L2]. rewrite fmap_app, length_app. split; [by apply Forall_app|lia]. Qed.

Lemma drain_full_sized id fuel : forall win ready rc0 rc, recv_safe win -> ready_ok 64 64 ready rc ->
  sized id (drain_full_log fuel win ready rc0) (64 * fuel)%nat.
Proof.
  induction fuel as [|fuel IH]; intros win ready rc0 rc S Ho; cbn [drain_full_log]; [by split; [constructor|]|].
  destruct (_ =? _); [|split; [constructor|cbn; lia]]. pose proof (pop_ready_safe win 64 64 ready rc rc0 S Ho ltac:(lia)) as H.
  destruct (rel4u_recv_window_pop_ready _ _ _ _) as [[[r win1] ready1] rc1]. destruct H as (_ & S1 & _ & Ho1).
  destruct (_ && _); [|split; [constructor|cbn; lia]].
  replace (64 * Datatypes.S fuel)%nat with (64 + 64 * fuel)%nat by lia. apply sized_app; [by apply ready_items_sized|by eapply IH].
Qed.

Lemma drain_any_sized id fuel : forall win ready rc0 rc, recv_safe win -> ready_ok 64 64 ready rc ->
  sized id (drain_any_log fuel win ready rc0) (64 * fuel)%nat.
Proof.
  induction fuel as [|fuel IH]; intros win ready rc0 rc S Ho; cbn [drain_any_log]; [by split; [constructor|]|].
  pose proof (pop_ready_safe win 64 64 ready rc rc0 S Ho ltac:(lia)) as H.
  destruct (rel4u_recv_window_pop_ready _ _ _ _) as [[[r win1] ready1] rc1]. destruct H as (_ & S1 & _ & Ho1).
  destruct (_ && _); [|split; [constructor|cbn; lia]].
  replace (64 * Datatypes.S fuel)%nat with (64 + 64 * fuel)%nat by lia. apply sized_app; [by apply ready_items_sized|by eapply IH].
Qed.

Lemma data_log_sized id win ready rc hdr payload : recv_safe win -> ready_ok 64 64 ready rc -> header_bound hdr payload ->
  Forall item_sized (ready_item id <$> data_log win ready hdr payload) /\
  Z.of_nat (length (data_log win ready hdr payload)) < 2 ^ 40.
Proof.
  intros S Ho Hh. cut (sized id (data_log win ready hdr payload) (64 + 64 * Datatypes.S (length (rw_slots win)))%nat).
  { intros [H1 H2]. split; [done|]. pose proof (rv_len _ S). pose proof (rv_cap _ S) as [? _]. lia. }
  unfold data_log. pose proof (on_packet_safe win hdr payload 64 64 ready rc 0 S Hh Ho ltac:(lia)) as H.
  destruct (rel4u_recv_window_on_packet _ _ _ _ _ _) as [[[r win1] ready1] rc1]. destruct H as (S1 & Hc1 & Ho1).
  assert (El : length (rw_slots win1) = length (rw_slots win)).
  { pose proof (rv_len _ S). pose proof (rv_len _ S1). lia. }
  rewrite El. destruct (r =? 0).
  - apply sized_app; [by apply ready_items_sized|by eapply drain_full_sized].
  - destruct (r =? 1); [|split; [constructor|cbn; lia]].
    destruct (drain_any_sized id (Datatypes.S (length (rw_slots win))) win1 ready1 rc1 rc1 S1 Ho1) as [H1 H2]. split; [done|lia].
Qed.
End inbox.

(** ** The server's receive queue *)

Section server.
Context {platform : Platform} {allocator : Malloc}.

(** The message a call of [rel4u_server_recv] takes out of the queue. *)
Definition server_taken (s : rel4u_server) (e : server_event) : list msg :=
  match e with
  | SvRecv size timeout wakes =>
      if size =? 0 then [] else
      match rel4u_mpmc_pop_wait (sv_recv_queue s) item_zero timeout wakes with
      | Returned true _ item => [item_msg item]
      | _ => []
      end
  | _ => []
  end.

(** It is what the call gives the application: the sender and as many bytes as
    the buffer has room for, and nothing with any other result. *)
Lemma server_recv_taken s size timeout wakes : 0 <= size ->
  match rel4u_server_recv s size timeout wakes with
  | Some (r, id, bytes, _) =>
      if r =? REL4U_OK then exists m, server_taken s (SvRecv size timeout wakes) = [m] /\
        id = Some (m_client_id m) /\ bytes = take (Z.to_nat size) (m_data m)
      else server_taken s (SvRecv size timeout wakes) = []
  | None => server_taken s (SvRecv size timeout wakes) = []
  end.
Proof.
  intros Hs. unfold rel4u_server_recv, server_taken. destruct (size =? 0); [done|].
  destruct (rel4u_mpmc_pop_wait _ _ _ _) as [q|[] q item]; [done| |by destruct (timeout =? 0)].
  cbn [Z.eqb REL4U_OK]. eexists. split; [done|]. split; [done|]. unfold item_msg. cbn [m_data]. rewrite take_take. f_equal.
  destruct (Z.leb_spec (it_len item) size); lia.
Qed.

(** A receive call that finds a message gives it to the application. *)
Definition server_recv_gives (s : rel4u_server) : Prop := forall size timeout, 0 <= size ->
  match rel4u_server_recv s size timeout [] with
  | Some (r, id, bytes, _) =>
      if r =? REL4U_OK then exists m, server_taken s (SvRecv size timeout []) = [m] /\
        id = Some (m_client_id m) /\ bytes = take (Z.to_nat size) (m_data m)
      else server_taken s (SvRecv size timeout []) = []
  | None => server_taken s (SvRecv size timeout []) = []
  end.
Lemma server_gives s : server_recv_gives s.
Proof. intros size timeout. apply server_recv_taken. Qed.

(** The messages for one client. *)
Definition from_client (id : Z) (m : msg) : Prop := m_client_id m = id.
#[export] Instance from_client_dec id m : Decision (from_client id m).
Proof. unfold from_client. apply _. Defined.

Lemma from_client_items id id' log : filter (from_client id) (item_msg <$> (ready_item id' <$> log)) =
  if decide (id' = id) then (fun x => item_msg (ready_item id x)) <$> log else [].
Proof.
  destruct (decide (id' = id)) as [->|Hne]; (induction log as [|x log IH]; [done|]); cbn [fmap list_fmap].
  - rewrite filter_cons_True by done. by f_equal.
  - rewrite filter_cons_False by (unfold from_client; cbn; congruence). exact IH.
Qed.

Lemma on_session_inbox s w i hdr buf now : valid s i ->
  sv_recv_queue (fst (server_on_session s w i hdr buf now)) =
  if h_packet_type hdr =? REL4U_PKT_DATA
  then push_all (sv_recv_queue s) (ready_item (cs_client_id (server_session s i)) <$>
         data_log (cs_recv_win (server_session s i)) (sv_ready_slots s) hdr (drop 24 buf))
  else sv_recv_queue s.
Proof.
  intros Hv. unfold server_on_session. fold (session_entered s i (Z.of_nat (length buf)) now).
  pose proof (frame_valid _ _ _ i (session_entered_frame s i (Z.of_nat (length buf)) now) Hv) as Hv1.
  assert (Eg : sv_recv_queue (session_entered s i (Z.of_nat (length buf)) now) = sv_recv_queue s /\
    sv_ready_slots (session_entered s i (Z.of_nat (length buf)) now) = sv_ready_slots s) by done.
  pose proof (session_entered_at s i (Z.of_nat (length buf)) now Hv) as E1.
  destruct (promote_same (Z.of_nat (length buf)) ((server_session s i) <| cs_last_activity_ns := now |>)) as (_ & _ & _ & Er & Ec).
  rewrite <- E1 in Er, Ec. set (s1 := session_entered _ _ _ _) in *. clearbody s1. clear E1. cbn in Er, Ec.
  destruct Eg as [Eq Es].
  destruct (Z.eqb_spec (h_packet_type hdr) REL4U_PKT_CONNECT_ACK) as [->|_]; [exact Eq|].
  destruct (Z.eqb_spec (h_packet_type hdr) REL4U_PKT_DISCONNECT) as [->|_]; [exact Eq|].
  set (s2 := server_upd s1 i _). assert (M2 : mild i s1 s2) by (apply mild_upd; [done|apply on_ack_same]).
  assert (Eg2 : sv_recv_queue s2 = sv_recv_queue s /\ sv_ready_slots s2 = sv_ready_slots s) by done. clearbody s2.
  pose proof (mild_valid _ _ _ _ M2 Hv1) as Hv2. destruct Eg2 as [Eq2 Es2].
  destruct (Z.eqb_spec (h_packet_type hdr) REL4U_PKT_HEARTBEAT) as [->|Hh].
  { pose proof (f_equal snd (server_control_base s2 w i REL4U_PKT_HEARTBEAT_ACK)) as B.
    destruct (server_send_control _ _ _ _) as [s3 w3]. cbn in B |- *. congruence. }
  pose proof (kp_recv _ _ (proj2 M2)) as Er2. pose proof (kp_client _ _ (proj2 M2)) as Ec2.
  cbn [fst]. destruct (h_packet_type hdr =? REL4U_PKT_DATA); [|congruence].
  destruct (on_data_window s2 i hdr (drop 24 buf) Hv2) as [_ Q]. rewrite Q.
  by rewrite Eq2, Es2, Er2, Ec2, Er, Ec.
Qed.

#[local] Abbreviation pushes s j e pushed := (filter (from_client (Z.of_nat j)) (item_msg <$> pushed) =
  (fun x => item_msg (ready_item (Z.of_nat j) x)) <$> session_log s j e).

Lemma datagram_inbox ptr s w buf src ok j : server_ok s -> datagram_ok buf ->
  let e := SvDatagram ptr buf src ok in
  exists pushed, inbox_step (sv_recv_queue s) pushed [] (sv_recv_queue (fst (server_on_datagram ptr s w buf src ok))) /\
    pushes s j e pushed.
Proof.
  intros K Hb. cbv zeta. unfold server_on_datagram, session_log.
  destruct (rel4u_packet_decode_header _ _ _ _) as [r hdr] eqn:E.
  destruct (Z.eqb_spec r 0) as [->|]; [|exists []; split; [apply inbox_same|done]]. cbn [negb andb].
  destruct (decode_ok _ _ _ _ Hb E) as [W B]. destruct (time_now_ns w) as [now w1].
  set (s1 := s <| sv_stats := _ |>). assert (K1 : server_ok s1) by server_tac.
  assert (F1 : (forall k, server_session s1 k = server_session s k) /\ sv_session_table s1 = sv_session_table s /\
    sv_recv_queue s1 = sv_recv_queue s /\ sv_ready_slots s1 = sv_ready_slots s) by done. clearbody s1.
  destruct F1 as (Es & Et & Eq & Er). rewrite <- Eq, <- Et, <- Er.
  destruct (Z.eqb_spec (h_packet_type hdr) REL4U_PKT_CONNECT_REQ) as [Hc|Hc].
  { exists []. rewrite (proj2 (Z.eqb_neq (h_packet_type hdr) REL4U_PKT_DATA)) by (rewrite Hc; done). split; [|done].
    pose proof (f_equal snd (server_on_connect_base s1 w1 src now ptr ok)) as Q. cbn [snd sv_base] in Q. rewrite Q. apply inbox_same. }
  destruct (rel4u_session_find_by_addr (sv_session_table s1) src) as [i|] eqn:Hf.
  2: { exists []. split; [apply inbox_same|]. by destruct (_ =? REL4U_PKT_DATA). }
  destruct (find_valid _ _ _ K1 Hf) as (Hv & _ & _). rewrite Es.
  destruct (Z.eqb_spec (cs_session_id (server_session s i)) (h_session_id hdr)) as [Hid|Hid].
  2: { exists []. split; [apply inbox_same|]. destruct (_ =? REL4U_PKT_DATA); [|done].
       destruct (Nat.eqb_spec i j) as [->|]; [|done]. by rewrite (proj2 (Z.eqb_neq _ _) Hid). }
  rewrite (on_session_inbox s1 w1 i hdr buf now Hv). rewrite Es. destruct (h_packet_type hdr =? REL4U_PKT_DATA).
  2: { exists []. split; [apply inbox_same|done]. }
  pose proof (session_ok_at _ _ K1 Hv) as So. rewrite Es in So. rewrite (se_id _ _ So).
  destruct (data_log_sized (Z.of_nat i) (cs_recv_win (server_session s i)) (sv_ready_slots s1) 0 hdr (drop 24 buf) (se_recv _ _ So)
    (sk_ready _ K1) B) as [Hz Hn].
  eexists. split; [apply inbox_pushed; [exact Hz|by rewrite length_fmap]|]. rewrite from_client_items.
  destruct (Nat.eqb_spec i j) as [->|Hij]; cbn [andb].
  - rewrite decide_True by done. by rewrite (proj2 (Z.eqb_eq _ _) Hid).
  - rewrite decide_False by lia. done.
Qed.

(** Every step, with a receive call at the moment at which it takes its message. *)
Definition recv_now (e : server_event) : Prop := match e with SvRecv _ _ wakes => wakes = [] | _ => True end.

Lemma server_event_inbox s w e j : server_ok s -> server_event_ok e -> recv_now e -> valid s j ->
  let s' := fst (run_server_event (s, w) e) in session_active (server_session s' j) = true ->
  exists pushed, inbox_step (sv_recv_queue s) pushed (server_taken s e) (sv_recv_queue s') /\ pushes s j e pushed.
Proof.
  intros K He Hw Hv. cbv zeta.
  assert (Hq : forall s', sv_recv_queue s' = sv_recv_queue s ->
    exists pushed, inbox_step (sv_recv_queue s) pushed [] (sv_recv_queue s') /\ filter (from_client (Z.of_nat j)) (item_msg <$> pushed) = []).
  { intros s' ->. exists []. split; [apply inbox_same|done]. }
  destruct e as [ptr buf src ok| | |env|id mode data len|sz t wk|id| | | |];
    cbn [run_server_event server_event_ok server_taken session_log recv_now] in *; intros Ha'.
  - by apply (datagram_inbox ptr s w buf src ok j K (proj1 He)).
  - apply Hq. exact (f_equal snd (server_drain_base 1 s w)).
  - apply Hq. exact (f_equal snd (server_timers_base s w)).
  - apply Hq. unfold rel4u_server_start. destruct (sv_running s); [done|]. destruct (rel4u_net_addr_from_string _ _ _) as [r addr].
    destruct (negb _); [done|]. destruct (_ =? REL4U_INVALID_SOCKET); [done|]. destruct (negb _); [done|].
    destruct (rel4u_wakeup_pipe_create _ _) as [r2 pipe]. destruct (negb _); [done|]. by destruct (negb _).
  - apply Hq. unfold rel4u_server_send. destruct (_ >? _); [done|]. destruct (negb _); [done|]. destruct (memcpy_into _ _ _); [|done].
    destruct (rel4u_mpmc_try_push _ _) as [ok q]. by destruct (negb ok).
  - subst wk. clear Hq. unfold rel4u_server_recv. exists []. split; [|done]. destruct (sz =? 0); [apply inbox_same|].
    pose proof (pop_wait_now (sv_recv_queue s) t) as P. destruct (rel4u_mpmc_pop_wait _ _ _ _) as [q|[] q item]; cbn [fst].
    + apply inbox_same.
    + by apply inbox_took.
    + subst q. apply inbox_same.
  - apply Hq. unfold rel4u_server_disconnect_client. by destruct (rel4u_session_find_by_id _ _).
  - exists []. split; [apply inbox_wake|done].
  - pose proof (cn_sessions _ (stop_end_clean s K) j) as Hc. cbn [fst] in Ha'. rewrite Hc in Ha'; [done|].
    unfold valid, slots in *. destruct (free_fold_inactive (seq 0 (Z.to_nat (tb_max_clients (sv_session_table s)))) _ (sk_table _ K)) as [El _].
    unfold server_stop_end. cbn. by rewrite El.
  - by apply Hq.
  - by apply Hq.
Qed.
End server.

(** ** The client's receive queue *)

Section client.
Context {platform : Platform} {allocator : Malloc}.

(** The message a call of [rel4u_client_recv] takes out of the queue. *)
Definition client_taken (c : rel4u_client) (e : client_event) : list msg :=
  match e with
  | EvRecv size timeout wakes =>
      if size =? 0 then [] else
      match rel4u_mpmc_pop_wait (cl_recv_queue c) item_zero timeout wakes with
      | Returned true _ item => [item_msg item]
      | _ => []
      end
  | _ => []
  end.

Lemma client_recv_taken c size timeout wakes : 0 <= size ->
  match rel4u_client_recv c size timeout wakes with
  | Some (r, bytes, _) =>
      if r =? REL4U_OK then exists m, client_taken c (EvRecv size timeout wakes) = [m] /\ bytes = take (Z.to_nat size) (m_data m)
      else client_taken c (EvRecv size timeout wakes) = []
  | None => client_taken c (EvRecv size timeout wakes) = []
  end.
Proof.
  intros Hs. unfold rel4u_client_recv, client_taken. destruct (size =? 0); [done|].
  destruct (rel4u_mpmc_pop_wait _ _ _ _) as [q|[] q item]; [done| |by destruct (timeout =? 0)].
  cbn [Z.eqb REL4U_OK]. eexists. split; [done|]. unfold item_msg. cbn [m_data]. rewrite take_take. f_equal.
  destruct (Z.leb_spec (it_len item) size); lia.
Qed.

Definition client_recv_gives (c : rel4u_client) : Prop := forall size timeout, 0 <= size ->
  match rel4u_client_recv c size timeout [] with
  | Some (r, bytes, _) =>
      if r =? REL4U_OK then exists m, client_taken c (EvRecv size timeout []) = [m] /\
        bytes = take (Z.to_nat size) (m_data m)
      else client_taken c (EvRecv size timeout []) = []
  | None => client_taken c (EvRecv size timeout []) = []
  end.
Lemma client_gives c : client_recv_gives c.
Proof. intros size timeout. apply client_recv_taken. Qed.

Lemma on_data_inbox c hdr payload : cl_recv_queue (client_on_data c hdr payload) =
  push_all (cl_recv_queue c) (ready_item 0 <$> data_log (cl_recv_win c) (cl_ready_slots c) hdr payload).
Proof.
  unfold client_on_data. pose proof (handle_data_queue 0 (cl_recv_win c) (cl_recv_queue c) (cl_ready_slots c) hdr payload) as Q.
  destruct (handle_data _ _ _ _ _ _) as [[[win queue] ready] []]; exact Q.
Qed.

Lemma client_datagram_inbox c w lo buf src : client_ok c -> datagram_ok buf ->
  inbox_step (cl_recv_queue c) (ready_item 0 <$> client_log c lo (EvDatagram buf src)) []
    (cl_recv_queue (fst (fst (fst (client_on_datagram c w lo buf src))))).
Proof.
  intros K Hb. unfold client_on_datagram, client_log. destruct (rel4u_packet_decode_header _ _ _ _) as [r hdr] eqn:E.
  destruct (rel4u_net_addr_equal _ _); [|apply inbox_same]. cbn [negb andb].
  destruct (Z.eqb_spec r 0) as [->|]; [|apply inbox_same]. cbn [negb andb].
  destruct (decode_ok _ _ _ _ Hb E) as [W B]. destruct (client_accepts _ _ _); [|apply inbox_same]. cbn [negb andb].
  destruct (time_now_ns w) as [now w1]. set (c1 := c <| cl_last_activity_ns := _ |> <| cl_stats := _ |>).
  assert (K1 : client_ok c1) by client_tac. assert (D1 : cl_recv_queue c1 = cl_recv_queue c /\ cl_recv_win c1 = cl_recv_win c /\
    cl_ready_slots c1 = cl_ready_slots c) by done. clearbody c1. destruct D1 as (<- & <- & <-). cbn [lo_state].
  destruct (Z.eqb_spec (h_packet_type hdr) REL4U_PKT_CONNECT_RESP) as [Et|Et]; cbn [andb].
  { rewrite (proj2 (Z.eqb_neq (h_packet_type hdr) REL4U_PKT_DATA)) by (rewrite Et; done). destruct (bool_decide _).
    { set (c2 := c1 <| cl_session_id := _ |> <| cl_state := _ |>). pose proof (f_equal snd (send_control_base c2 w1 REL4U_PKT_CONNECT_ACK)) as Q.
      destruct (client_send_control c2 w1 _) as [c3 w3]. cbn [fst snd cl_base] in Q.
      change (inbox_step (cl_recv_queue c2) [] [] (cl_recv_queue c3)). rewrite Q. apply inbox_same. }
    rewrite Et. cbn [Z.eqb Pos.eqb REL4U_PKT_CONNECT_RESP REL4U_PKT_RESET REL4U_PKT_REJECT REL4U_PKT_DISCONNECT REL4U_PKT_HEARTBEAT REL4U_PKT_DATA].
    unfold client_on_ack. destruct (rel4u_send_window_on_ack _ _ _ _ _ _) as [[? ?] ?]. apply inbox_same. }
  destruct (Z.eqb_spec (h_packet_type hdr) REL4U_PKT_RESET) as [Er|_].
  { rewrite Er. pose proof (f_equal snd (trigger_base c1 w1)) as Q. destruct (client_trigger_reconnect c1 w1) as [c3 w3].
    cbn [fst snd cl_base] in Q |- *. rewrite Q. apply inbox_same. }
  destruct (Z.eqb_spec (h_packet_type hdr) REL4U_PKT_REJECT) as [Er|_]; [rewrite Er; apply inbox_same|].
  destruct (Z.eqb_spec (h_packet_type hdr) REL4U_PKT_DISCONNECT) as [Er|_]; [rewrite Er; apply inbox_same|].
  assert (D2 : cl_recv_queue (client_on_ack c1 hdr now) = cl_recv_queue c1 /\ cl_recv_win (client_on_ack c1 hdr now) = cl_recv_win c1 /\
    cl_ready_slots (client_on_ack c1 hdr now) = cl_ready_slots c1).
  { unfold client_on_ack. by destruct (rel4u_send_window_on_ack _ _ _ _ _ _) as [[? ?] ?]. }
  set (c2 := client_on_ack c1 hdr now) in *. clearbody c2. destruct D2 as (Eq & Ew & Es).
  destruct (Z.eqb_spec (h_packet_type hdr) REL4U_PKT_HEARTBEAT) as [Eh|_].
  { rewrite Eh. cbn [Z.eqb Pos.eqb REL4U_PKT_HEARTBEAT REL4U_PKT_DATA].
    pose proof (f_equal snd (send_control_base c2 w1 REL4U_PKT_HEARTBEAT_ACK)) as Q.
    destruct (client_send_control c2 w1 _) as [c3 w3]. cbn [fst snd cl_base] in Q |- *. rewrite Q, Eq. apply inbox_same. }
  cbn [fst]. destruct (h_packet_type hdr =? REL4U_PKT_DATA); [|rewrite Eq; apply inbox_same].
  rewrite on_data_inbox, Eq, Ew, Es.
  destruct (data_log_sized 0 (cl_recv_win c1) (cl_ready_slots c1) 0 hdr (drop 24 buf) (ck_recv _ K1) (ck_ready _ K1) B) as [Hz Hn].
  apply inbox_pushed; [exact Hz|by rewrite length_fmap].
Qed.

Definition client_recv_now (e : client_event) : Prop := match e with EvRecv _ _ wakes => wakes = [] | _ => True end.

Lemma client_event_inbox c w lo e : client_ok c -> event_ok e -> client_recv_now e ->
  cl_state c = REL4U_STATE_CONNECTED ->
  inbox_step (cl_recv_queue c) (ready_item 0 <$> client_log c lo e) (client_taken c e)
    (cl_recv_queue (fst (fst (run_event (c, w, lo) e)))).
Proof.
  intros K He Hw Hst.
  assert (Hq : forall c', cl_base c' = cl_base c -> inbox_step (cl_recv_queue c) [] [] (cl_recv_queue c')).
  { intros c' E. injection E as _ ->. apply inbox_same. }
  destruct e as [| |buf src| | |mode data len|sz t wk|env| | | |]; cbn [run_event event_ok client_log client_taken client_recv_now fmap list_fmap] in *.
  - apply inbox_same.
  - apply Hq, handshake_base.
  - pose proof (client_datagram_inbox c w lo buf src K He) as P. by destruct (client_on_datagram _ _ _ _ _) as [[[? ?] ?] ?].
  - apply Hq. unfold client_send_pending. destruct (bool_decide _); [|done].
    pose proof (client_drain_base (S (Z.to_nat (q_count (cl_send_queue c)))) c w (lo_now_ns lo) item_zero) as E.
    by destruct (client_drain _ _ _ _ _) as [[? ?] ?].
  - apply Hq, client_timers_base.
  - apply Hq. unfold rel4u_client_send. destruct (_ >? _); [done|]. destruct (negb _); [done|]. destruct (_ && _); [done|].
    destruct (memcpy_into _ _ _); [|done]. destruct (rel4u_mpmc_try_push _ _) as [ok q]. by destruct (negb ok).
  - subst wk. unfold rel4u_client_recv. destruct (sz =? 0); [apply inbox_same|].
    pose proof (pop_wait_now (cl_recv_queue c) t) as P. destruct (rel4u_mpmc_pop_wait _ _ _ _) as [q|[] q item]; cbn [fst].
    + apply inbox_same.
    + by apply inbox_took.
    + subst q. apply inbox_same.
  - unfold client_connect_start. rewrite bool_decide_eq_true_2 by done. apply inbox_same.
  - apply inbox_same.
  - pose proof (disconnect_begin_base c w) as E. destruct (client_disconnect_begin c w) as [c' w']. cbn [fst] in *.
    injection E as _ E. cbn. rewrite E. apply inbox_wake.
  - apply inbox_same.
  - apply inbox_same.
Qed.
End client.

(** ** What has been received *)

(** The messages of one client that the application has taken or that wait for it. *)
Definition received (id : Z) (taken : list msg) (q : rel4u_mpmc_queue) : list msg :=
  filter (from_client id) (taken ++ unread q).

(** Whether a step has moved the queue's counter of dropped messages. *)
Definition queue_dropped (q q' : rel4u_mpmc_queue) : bool := negb (q_dropped_count q' =? q_dropped_count q).

(** Against what the worker has handed over: nothing else is received, in no other
    order, and everything as long as the counter has not moved. *)
Record inbox_inv (id : Z) (taken : list msg) (q : rel4u_mpmc_queue) (dropped : bool) (handed : list msg) : Prop := {
  iv_cap : q_capacity q < 2 ^ 32;
  iv_sub : received id taken q `sublist_of` handed;
  iv_all : dropped = false -> received id taken q = handed
}.

Section received.
Context {allocator : Malloc}.

Lemma inbox_inv_step id taken q dropped handed pushed took q' : inbox_inv id taken q dropped handed -> queue_ok q ->
  inbox_step q pushed took q' ->
  inbox_inv id (taken ++ took) q' (dropped || queue_dropped q q') (handed ++ filter (from_client id) (item_msg <$> pushed)).
Proof.
  intros [Hc Hs Ha] Hq St. destruct (inbox_step_conserves _ _ _ _ St Hq Hc) as (_ & Ec & Hs' & Ha'). unfold received in *.
  constructor; [by rewrite Ec|..]; unfold received; rewrite <- app_assoc, filter_app.
  - rewrite filter_app in Hs. etransitivity.
    + apply sublist_app; [reflexivity|]. exact (filter_sublist _ _ _ Hs').
    + rewrite filter_app, app_assoc. by apply sublist_app.
  - intros [Hd Hn]%orb_false_iff. unfold queue_dropped in Hn. apply negb_false_iff, Z.eqb_eq in Hn.
    rewrite (Ha' Hn), <- (Ha Hd), !filter_app. by rewrite app_assoc.
Qed.

Lemma inbox_inv_start id q : queue_ok q -> q_capacity q < 2 ^ 32 -> filter (from_client id) (unread q) = [] ->
  inbox_inv id [] q false [].
Proof. intros Hq Hc He. constructor; [done|..]; unfold received; cbn [app]; by rewrite He. Qed.

Lemma reliable_view_sublist l k : l `sublist_of` k -> reliable_view l `sublist_of` reliable_view k.
Proof. intros H. unfold reliable_view. by apply fmap_sublist, filter_sublist. Qed.

(** What holds of the messages handed over holds of those received. *)
Lemma received_once (sent : list (Z * list Z)) id taken q dropped handed : inbox_inv id taken q dropped handed ->
  (exists idx, NoDup idx /\ Forall (fun i => (i < length sent)%nat) idx /\
     reliable_view handed = (fun i => sent !!! i) <$> idx) /\
  filter ordered_msg (reliable_view handed) `prefix_of` filter ordered_msg sent ->
  (exists idx, NoDup idx /\ Forall (fun i => (i < length sent)%nat) idx /\
     reliable_view (received id taken q) = (fun i => sent !!! i) <$> idx) /\
  filter ordered_msg (reliable_view (received id taken q)) `sublist_of` filter ordered_msg sent /\
  (dropped = false -> filter ordered_msg (reliable_view (received id taken q)) `prefix_of` filter ordered_msg sent).
Proof.
  intros [_ Hs Ha] [(idx & Hnd & Hf & E) [rest Hp]]. pose proof (reliable_view_sublist _ _ Hs) as Hv. split; [|split].
  - rewrite E in Hv. apply sublist_fmap_inv in Hv as (idx' & Hi & E'). exists idx'.
    split; [by eapply sublist_NoDup|]. split; [|done]. rewrite Forall_forall in *. intros i Hin. apply Hf. eapply elem_of_submseteq; [exact Hin|by apply sublist_submseteq].
  - etransitivity; [exact (filter_sublist _ _ _ Hv)|]. rewrite Hp. by apply sublist_inserts_r.
  - intros Hd. rewrite (Ha Hd). by exists rest.
Qed.
End received.
