(* ===== verification/Stream.v ===== *)
(** * The messages of a connection

    A client and a server of which the client has a session, over a network that
    loses, duplicates, delays and reorders datagrams, among other clients and
    strangers.  Both endpoints run whole: every step of either worker and every
    call of either application may happen at any time.  As long as the connection
    lasts, what the worker hands over of the client's reliable messages is what
    [Link] proves of two windows, and [Inbox] says what of it the application
    gets: with the calls of [rel4u_server_recv] it has made, and in the receive
    queue for the next ones. *)
From S2P Require Import Prelude Ring Types Seq Packet Rtt Mpmc MpmcSpec Queue SendWindow SendSpec Send RecvWindow RecvSpec Recv RecvSafe Net Session Sessions Link Endpoint Peer Client ClientSpec ClientRun Server ServerSpec ServerRun ServerDrain ServerTable Connection Emit ClientWire Pipe Inbox.
From stdpp Require Import base numbers list gmap.
Open Scope Z_scope.
Open Scope rel4u_scope.

(** ** Runs *)

(** The two endpoints with their worlds, the reliable messages that have entered
    the client's send window, the messages that the server's application has taken
    with [rel4u_server_recv], both in order, and whether the counter of dropped
    messages of the server's receive queue has moved. *)
Record talk := mk_talk {
  tk_client : client_sys;
  tk_server : rel4u_server * world;
  tk_sent : list (Z * list Z);
  tk_taken : list msg;
  tk_dropped : bool
}.

Section talk.
Context {allocator : Malloc}.
Variables host_c host_s : Platform.
(** The address of the client as the server sees it, the index of its session and
    the session's number. *)
Variables (client_addr : rel4u_net_addr) (j : nat) (sid : Z).

(** The connection is up at both ends. *)
Record live (t : talk) : Prop := {
  lv_state : cl_state (fst (fst (tk_client t))) = REL4U_STATE_CONNECTED;
  lv_local : lo_state (snd (tk_client t)) = REL4U_STATE_CONNECTED;
  lv_number : cl_session_id (fst (fst (tk_client t))) = sid;
  lv_valid : valid (fst (tk_server t)) j;
  lv_active : session_active (server_session (fst (tk_server t)) j) = true;
  lv_session : cs_session_id (server_session (fst (tk_server t)) j) = sid;
  lv_addr : cs_addr (server_session (fst (tk_server t)) j) = client_addr
}.

(** What the network may deliver to the client: anything from elsewhere, and from
    the server's address only what the server has sent to the client.  A receive
    call is the step at which it takes its message or gives up. *)
Definition client_input (ws : world) (c : rel4u_client) (e : client_event) : Prop :=
  match e with
  | EvDatagram buf src => addr_eq src (cl_server_addr c) ->
      exists dst, addr_eq dst client_addr /\ (dst, buf) ∈ wd_sent ws
  | EvRecv _ _ wakes => wakes = []
  | _ => True
  end.

(** What it may deliver to the server: anything from elsewhere, and from the
    client's address only what the client has sent. *)
Definition server_input (wc : world) (e : server_event) : Prop :=
  match e with
  | SvDatagram _ buf src _ => addr_eq src client_addr -> exists dst, (dst, buf) ∈ wd_sent wc
  | SvRecv _ _ wakes => wakes = []
  | _ => True
  end.

(** The messages that a step of the worker pushes to the receive queue for session
    [j], whether the queue takes them or not. *)
Definition handed (s : rel4u_server) (e : server_event) : list msg :=
  (fun x => item_msg (ready_item (Z.of_nat j) x)) <$> session_log (platform := host_s) s j e.

Inductive talk_step : talk -> talk -> Prop :=
  | talk_client c wc lo s ws sent taken dropped e c' wc' lo' :
      event_ok e -> client_input ws c e -> run_event (platform := host_c) (c, wc, lo) e = (c', wc', lo') ->
      talk_step (mk_talk (c, wc, lo) (s, ws) sent taken dropped)
        (mk_talk (c', wc', lo') (s, ws) (sent ++ window_new (cl_send_win c) (cl_send_win c')) taken dropped)
  | talk_server c wc lo s ws sent taken dropped e s' ws' :
      server_event_ok e -> server_input wc e -> run_server_event (platform := host_s) (s, ws) e = (s', ws') ->
      talk_step (mk_talk (c, wc, lo) (s, ws) sent taken dropped)
        (mk_talk (c, wc, lo) (s', ws') sent (taken ++ server_taken s e)
          (dropped || queue_dropped (sv_recv_queue s) (sv_recv_queue s'))).

(** A connection that has just been made: both directions are fresh, of what was
    sent before nothing is a data packet or an acknowledgement of it, and nothing
    waits in the server's receive queue under the client's number.  The capacity
    of the queue is a [uint32_t], and the messages of both sides fit their array. *)
Record talk_start (t : talk) : Prop := {
  ts_live : live t;
  ts_client : client_ok (fst (fst (tk_client t)));
  ts_server : server_ok (fst (tk_server t));
  ts_addr : ip_addr client_addr;
  ts_modes : byte_modes (cl_send_queue (fst (fst (tk_client t))));
  ts_send : send_rep (cl_send_win (fst (fst (tk_client t)))) 1 [];
  ts_recv : rw_expected_seq (cs_recv_win (server_session (fst (tk_server t)) j)) = 1;
  ts_empty : Forall (fun x => rs_received x = false) (rw_slots (cs_recv_win (server_session (fst (tk_server t)) j)));
  ts_sent : tk_sent t = [];
  ts_taken : tk_taken t = [];
  ts_dropped : tk_dropped t = false;
  ts_unread : filter (from_client (Z.of_nat j)) (unread (sv_recv_queue (fst (tk_server t)))) = [];
  ts_capacity : q_capacity (sv_recv_queue (fst (tk_server t))) < 2 ^ 32;
  ts_mtu : cc_mtu (cl_config (fst (fst (tk_client t)))) <= REL4U_MAX_MSG_SIZE + REL4U_HEADER_SIZE /\
    sc_mtu (sv_config (fst (tk_server t))) <= REL4U_MAX_MSG_SIZE + REL4U_HEADER_SIZE;
  ts_up : Forall (fun d => forall host hdr, reads host (snd d) hdr -> h_packet_type hdr = REL4U_PKT_DATA ->
    h_session_id hdr <> sid) (wd_sent (snd (fst (tk_client t))));
  ts_down : Forall (fun d => addr_eq (fst d) client_addr -> forall host hdr, reads host (snd d) hdr ->
    h_session_id hdr = sid -> h_packet_type hdr = REL4U_PKT_CONNECT_RESP) (wd_sent (snd (tk_server t)))
}.

Inductive talk_reach : talk -> Prop :=
  | reach_start t : talk_start t -> talk_reach t
  | reach_step t t' : talk_reach t -> talk_step t t' -> live t' -> talk_reach t'.

(** ** What holds whatever is sent *)

Record talk_base (t : talk) : Prop := {
  tb_live : live t;
  tb_client : client_ok (fst (fst (tk_client t)));
  tb_server : server_ok (fst (tk_server t));
  tb_addr : ip_addr client_addr;
  tb_modes : byte_modes (cl_send_queue (fst (fst (tk_client t))));
  tb_sent : Forall sent_ok (tk_sent t)
}.

Lemma effect_modes {platform : Platform} h es e c w lo c' w' : client_effect h es e c w lo c' w' -> byte_modes (cl_send_queue c) ->
  byte_modes (cl_send_queue c').
Proof.
  intros [new G _|es' G _|buf src hdr now st st' -> A _] Q.
  - apply G.
  - by rewrite (rs_queue _ _ _ _ _ _ _ G).
  - by rewrite (at_queue _ _ _ _ _ _ _ _ _ _ A).
Qed.

Lemma talk_reach_base t : talk_reach t -> talk_base t.
Proof.
  induction 1 as [t []|t t' _ [L Kc Ks Ha Q Hs] St L']; [constructor; try done; rewrite ts_sent0; constructor|].
  destruct St as [c wc lo s ws sent taken dropped e c' wc' lo' He Hin E|c wc lo s ws sent taken dropped e s' ws' He Hin E];
    cbn [fst snd tk_client tk_server tk_sent] in *.
  - pose proof (run_event_ok (platform := host_c) (c, wc, lo) e Kc He) as K'. destruct (ck_send _ Kc) as (_ & h & es & R).
    pose proof (client_event_effect (platform := host_c) c wc lo e h es Kc He R Q (lv_state _ L) (lv_local _ L)) as P.
    rewrite E in K', P. specialize (P (lv_state _ L')). destruct (effect_new _ _ _ _ _ _ _ _ Kc He R P) as (new & En & Hn).
    constructor; cbn [fst snd tk_client tk_server tk_sent]; try done; [exact (effect_modes _ _ _ _ _ _ _ _ P Q)|].
    rewrite En. apply Forall_app. split; [done|]. apply Forall_fmap. eapply Forall_impl; [exact Hn|].
    intros x [p Hp]. by apply (entry_view_ok p).
  - pose proof (run_server_event_ok (platform := host_s) s ws e Ks He) as K'. rewrite E in K'. by constructor.
Qed.

(** ** The invariant *)

(** The client's packets of the session, and the server's that acknowledge. *)
Definition up_data (d : rel4u_net_addr * list Z) (hdr : rel4u_header) : Prop := h_session_id hdr = sid.
Definition down_ack (d : rel4u_net_addr * list Z) (hdr : rel4u_header) : Prop :=
  addr_eq (fst d) client_addr /\ h_session_id hdr = sid /\
  ~ h_packet_type hdr ∈ [REL4U_PKT_CONNECT_RESP; REL4U_PKT_RESET; REL4U_PKT_DISCONNECT; REL4U_PKT_REJECT].

(** The direction from the client to the server; [got] is all that the worker has
    handed over. *)
Definition talk_pipe (got : list msg) (t : talk) : pipe :=
  mk_pipe (cl_send_win (fst (fst (tk_client t)))) (cl_rtt (fst (fst (tk_client t))))
    (cs_recv_win (server_session (fst (tk_server t)) j)) (Z.of_nat (length (tk_sent t))) got
    (wd_sent (snd (fst (tk_client t)))) (wd_sent (snd (tk_server t))).

Ltac talk_fields := cbn [fst snd tk_client tk_server tk_sent tk_taken tk_dropped talk_pipe pp_send pp_rtt pp_recv pp_count pp_got pp_data pp_acks] in *.

Section content.
Context (content : Z -> Z * list Z).
Hypothesis content_ok : forall q, mode_reliable (fst (content q)) = true /\
  Z.of_nat (length (snd (content q))) <= REL4U_MAX_PAYLOAD_SIZE.

#[local] Abbreviation stream_inv := (fun got t => pipe_inv content (Z.of_nat j) up_data down_ack (talk_pipe got t)).
#[local] Abbreviation inbox got t := (inbox_inv (Z.of_nat j) (tk_taken t) (sv_recv_queue (fst (tk_server t))) (tk_dropped t) got).

Lemma inv_start t : talk_start t -> exists got l es dl, stream_inv got t l es dl /\ inbox got t.
Proof.
  intros [L Kc Ks Ha Q R Hexp Hemp Hs Hg Hdr Hun Hcap _ Hup Hdown]. eexists [], _, _, _. unfold talk_pipe. rewrite Hs, Hg, Hdr.
  split; [|apply inbox_inv_start; [apply Ks|done|done]].
  apply pipe_start; [done|apply Kc|apply (session_ok_at _ _ Ks (lv_valid _ L))|done|done| |].
  - eapply Forall_impl; [exact Hup|]. intros d Hd host hdr Hr Hid Ht. by apply (Hd host hdr).
  - eapply Forall_impl; [exact Hdown|]. intros d Hd host hdr Hr (Hadd & Hid & Ht). apply Ht.
    rewrite (Hd Hadd host hdr Hr Hid). by left.
Qed.

Lemma wire_sends es rv ds : Forall (client_wire es rv) ds -> Forall (sends up_data es) ds.
Proof. intros H. eapply Forall_impl; [exact H|]. by intros d [? _] hdr _. Qed.

Lemma inv_client_step c wc lo s ws sent taken dropped got e c' wc' lo' l es dl :
  stream_inv got (mk_talk (c, wc, lo) (s, ws) sent taken dropped) l es dl -> client_input ws c e ->
  cl_session_id c = sid -> client_effect (platform := host_c) (lk_head l) es e c wc lo c' wc' -> client_ok c' ->
  Z.of_nat (length sent) < 2 ^ 31 - 1 ->
  agrees content (sent ++ window_new (cl_send_win c) (cl_send_win c')) ->
  exists l' es', stream_inv got (mk_talk (c', wc', lo') (s, ws) (sent ++ window_new (cl_send_win c) (cl_send_win c')) taken dropped) l' es' dl.
Proof.
  intros V Hin Hid P K' Hlen Hagr. pose proof (li_send _ _ _ _ _ (pi_link _ _ _ _ _ _ _ _ V)) as R.
  rewrite (pi_send _ _ _ _ _ _ _ _ V) in R. unfold talk_pipe in *. talk_fields.
  destruct P as [new G _|es' G _|buf src hdr now st st' -> A _].
  - destruct (gw_wire _ _ _ _ _ _ _ G) as (ds & -> & Hds). pose proof (gw_window _ _ _ _ _ _ _ G) as R'.
    rewrite (window_new_spec _ _ _ _ _ R R') in *. rewrite length_app, length_fmap, Nat2Z.inj_add, (gw_rtt _ _ _ _ _ _ _ G).
    destruct (pipe_grown _ _ _ _ _ _ _ _ (cl_send_win c') new ds V R' (gw_fresh _ _ _ _ _ _ _ G)) as [l' V'];
      [intros i x; by apply agrees_new|by eapply wire_sends|]. by exists l', (es ++ new).
  - destruct (rs_wire _ _ _ _ _ _ _ G) as (ds & -> & Hds). pose proof (rs_window _ _ _ _ _ _ _ G) as R'.
    rewrite window_new_none, app_nil_r.
    2: { by rewrite (sr_next _ _ _ R), (sr_next _ _ _ R'), (Forall2_length _ _ _ (rs_same _ _ _ _ _ _ _ G)). }
    destruct (pipe_resent _ _ _ _ _ _ _ _ (cl_send_win c') (cl_rtt c') es' ds V R' (rs_same _ _ _ _ _ _ _ G) (ck_rtt _ K')) as [l' V'];
      [by eapply wire_sends|]. by exists l', es'.
  - destruct (at_wire _ _ _ _ _ _ _ _ _ _ A) as (ds & -> & Hds).
    destruct (Hin (at_src _ _ _ _ _ _ _ _ _ _ A)) as (dst & Hdst & Hmem). pose proof (at_type _ _ _ _ _ _ _ _ _ _ A) as Ht.
    destruct (pipe_acked _ _ _ _ _ _ _ _ (dst, buf) _ hdr now st (cl_send_win c') (cl_rtt c') st' ds V ltac:(talk_fields; lia) Hmem
      (at_reads _ _ _ _ _ _ _ _ _ _ A)) as (En & l' & es' & V').
    + split; [done|]. split; [by rewrite (at_session _ _ _ _ _ _ _ _ _ _ A)|].
      pose proof (at_resp _ _ _ _ _ _ _ _ _ _ A). rewrite !elem_of_cons, elem_of_nil in *. tauto.
    + apply A.
    + by eapply wire_sends.
    + rewrite window_new_none, app_nil_r by exact En. by exists l', es'.
Qed.

(** ** Steps of the server *)

Lemma acknowledges_answers rv ds : Forall (acknowledges client_addr sid rv) ds -> Forall (answers down_ack rv) ds.
Proof.
  intros H. eapply Forall_impl; [exact H|]. intros d Hd host hdr Hr (Hadd & Hs & Ht).
  destruct (Hd Hadd host hdr Hr Hs) as [Hx|E]; [|done]. destruct Ht. by right.
Qed.

Lemma inv_server_step c wc lo s ws sent taken dropped taken' dropped' got e s' ws' l es dl :
  stream_inv got (mk_talk (c, wc, lo) (s, ws) sent taken dropped) l es dl -> talk_base (mk_talk (c, wc, lo) (s, ws) sent taken dropped) ->
  server_event_ok e -> server_input wc e -> run_server_event (platform := host_s) (s, ws) e = (s', ws') ->
  live (mk_talk (c, wc, lo) (s', ws') sent taken' dropped') -> Z.of_nat (length sent) < 2 ^ 31 - 1 ->
  exists l' dl', stream_inv (got ++ handed s e) (mk_talk (c, wc, lo) (s', ws') sent taken' dropped') l' es dl'.
Proof.
  intros V [[_ _ _ Hv Ha Hsid Had] _ K Hip _ _] He Hin E [_ _ _ _ Ha' _ Had'] Hlen. talk_fields.
  assert (Hadd : addr_eq (cs_addr (server_session s j)) client_addr) by (rewrite Had; by apply addr_eq_refl).
  pose proof (emit_event (platform := host_s) client_addr sid (cs_recv_win (server_session s j)) s ws e K He
    (sole_session _ _ _ s j K Hv Ha Had Hsid eq_refl) ltac:(by exists j)) as Em.
  pose proof (event_window (platform := host_s) s ws e j K He Hv Ha ltac:(by rewrite Had)) as P.
  rewrite E in Em, P. cbn [fst snd] in Em, P. unfold talk_pipe in *. talk_fields. destruct Em as (ds & -> & Hds).
  apply acknowledges_answers in Hds. destruct (P Ha' ltac:(congruence)) as [[-> El]|D].
  - unfold handed. rewrite El, app_nil_r. destruct (pipe_answers _ _ _ _ _ _ _ _ ds V Hds) as [l' V']. by exists l', dl.
  - destruct D as (ptr & buf & src & ok & hdr & -> & Hr & Ht & Hid & Hsrc & Ew & El & _).
    assert (exists dst, (dst, buf) ∈ wd_sent wc) as [dst Hmem].
    { apply Hin. etransitivity; [symmetry; exact Hsrc|exact Hadd]. }
    pose proof (se_id _ _ (session_ok_at _ _ K Hv)) as Ecid. pose proof (ry_length _ _ _ _ (sk_ready _ K)) as Hrl.
    destruct (pipe_received _ content_ok _ _ _ _ _ _ _ (dst, buf) _ hdr (sv_recv_queue s) (sv_ready_slots s) ds V
      ltac:(talk_fields; lia) Hmem Hr ltac:(unfold up_data; congruence) Ht Hrl Hds) as (l' & dl' & V').
    exists l', dl'. unfold handed. rewrite El, Ew. unfold data_window. rewrite Ecid. exact V'.
Qed.

(** The queue that the worker fills and the application empties. *)
Lemma inbox_server_step c wc lo s ws sent taken dropped got e s' ws' :
  inbox got (mk_talk (c, wc, lo) (s, ws) sent taken dropped) -> server_ok s -> valid s j -> server_event_ok e -> server_input wc e ->
  run_server_event (platform := host_s) (s, ws) e = (s', ws') -> session_active (server_session s' j) = true ->
  inbox (got ++ handed s e) (mk_talk (c, wc, lo) (s', ws') sent (taken ++ server_taken s e)
    (dropped || queue_dropped (sv_recv_queue s) (sv_recv_queue s'))).
Proof.
  intros B K Hv He Hin E Ha'. talk_fields. pose proof (server_event_inbox (platform := host_s) s ws e j K He) as P. rewrite E in P.
  destruct P as (pushed & St & Ep); [by destruct e|done|done|]. cbn [fst] in St. unfold handed. rewrite <- Ep.
  exact (inbox_inv_step _ _ _ _ _ _ _ _ B (sk_recv_queue _ K) St).
Qed.

(** Every reachable state. *)
Lemma talk_reach_inv t : talk_reach t -> Z.of_nat (length (tk_sent t)) < 2 ^ 31 - 1 -> agrees content (tk_sent t) ->
  exists got l es dl, stream_inv got t l es dl /\ inbox got t.
Proof.
  intros Hr. pose proof Hr as Hr0. induction Hr as [t S|t t' Hr IH St L']; intros Hlen Hagr; [by apply inv_start|].
  specialize (IH Hr). pose proof (talk_reach_base _ Hr) as B. pose proof (talk_reach_base _ Hr0) as B'.
  destruct St as [c wc lo s ws sent taken dropped e c' wc' lo' He Hin E|c wc lo s ws sent taken dropped e s' ws' He Hin E];
    cbn [fst snd tk_client tk_server tk_sent] in *.
  - rewrite length_app in Hlen. destruct IH as (got & l & es & dl & V & B0); [lia|by eapply agrees_prefix|].
    pose proof (li_send _ _ _ _ _ (pi_link _ _ _ _ _ _ _ _ V)) as R. rewrite (pi_send _ _ _ _ _ _ _ _ V) in R. talk_fields.
    pose proof (client_event_effect (platform := host_c) c wc lo e (lk_head l) es (tb_client _ B) He R (tb_modes _ B)
      (lv_state _ (tb_live _ B)) (lv_local _ (tb_live _ B))) as P. rewrite E in P. specialize (P (lv_state _ L')).
    destruct (inv_client_step c wc lo s ws sent taken dropped got e c' wc' lo' l es dl V Hin (lv_number _ (tb_live _ B)) P (tb_client _ B')
      ltac:(lia) Hagr) as (l' & es' & V'). exists got, l', es', dl. by split.
  - destruct (IH Hlen Hagr) as (got & l & es & dl & V & B0).
    pose proof (inbox_server_step c wc lo s ws sent taken dropped got e s' ws' B0 (tb_server _ B) (lv_valid _ (tb_live _ B)) He Hin E (lv_active _ L')) as B1.
    destruct (inv_server_step _ _ _ _ _ _ _ _ _ _ _ _ _ _ _ _ _ V B He Hin E L' Hlen) as (l' & dl' & V').
    exists (got ++ handed s e), l', es, dl'. by split.
Qed.
End content.

(** ** What the application gets *)

(** The reliable messages of the client that the server's application has taken
    from the receive queue or finds in it. *)
Definition got_reliable (t : talk) : list (Z * list Z) :=
  reliable_view (received (Z.of_nat j) (tk_taken t) (sv_recv_queue (fst (tk_server t)))).

(** The link behind a reachable state. *)
Lemma talk_link t : talk_reach t -> Z.of_nat (length (tk_sent t)) < 2 ^ 31 - 1 ->
  exists got l es dl, pipe_inv (content_of (tk_sent t)) (Z.of_nat j) up_data down_ack (talk_pipe got t) l es dl /\
    inbox_inv (Z.of_nat j) (tk_taken t) (sv_recv_queue (fst (tk_server t))) (tk_dropped t) got.
Proof.
  intros Hr Hlen. pose proof (tb_sent _ (talk_reach_base _ Hr)) as Hs.
  exact (talk_reach_inv (content_of (tk_sent t)) (content_of_ok _ Hs) t Hr Hlen (content_of_agrees _)).
Qed.

(** A quiet client has lost nothing. *)
Lemma talk_complete t : talk_reach t -> Z.of_nat (length (tk_sent t)) < 2 ^ 31 - 1 ->
  sw_in_flight (cl_send_win (fst (fst (tk_client t)))) = 0 -> tk_dropped t = false ->
  got_reliable t ≡ₚ tk_sent t /\ filter ordered_msg (got_reliable t) = filter ordered_msg (tk_sent t).
Proof.
  intros Hr Hlen Hfl Hd. destruct (talk_link t Hr Hlen) as (got & l & es & dl & V & B).
  unfold got_reliable. rewrite (iv_all _ _ _ _ _ B Hd). by apply (pipe_complete _ _ _ _ _ _ _ _ V).
Qed.

(** C2. Over a network that loses, duplicates, delays and reorders, among other
    clients and strangers, in any interleaving of the steps of both endpoints,
    while the connection lasts: the reliable messages of this client that the
    server's application has taken from the receive queue or that wait there are
    distinct messages that entered the client's send window, each once and with
    its bytes.  The ordered ones are in the order of sending; as long as the
    receive queue's counter of dropped messages has not moved since the start they
    are a prefix of the ordered ones sent, and otherwise there may be gaps, where
    the queue was full.  A message counts as taken when [rel4u_server_recv] answers
    with OK, and the call then gives its sender's id and its bytes, as many as the
    buffer has room for. *)
Theorem stream_exactly_once t : talk_reach t -> Z.of_nat (length (tk_sent t)) < 2 ^ 31 - 1 ->
  (exists idx, NoDup idx /\ Forall (fun i => (i < length (tk_sent t))%nat) idx /\
     got_reliable t = (fun i => tk_sent t !!! i) <$> idx) /\
  filter ordered_msg (got_reliable t) `sublist_of` filter ordered_msg (tk_sent t) /\
  (tk_dropped t = false -> filter ordered_msg (got_reliable t) `prefix_of` filter ordered_msg (tk_sent t)) /\
  server_recv_gives (fst (tk_server t)).
Proof.
  intros Hr Hlen. destruct (talk_link t Hr Hlen) as (got & l & es & dl & V & B).
  edestruct (received_once) as (H1 & H2 & H3); [exact B|by apply (pipe_exactly_once _ _ _ _ _ _ _ _ V)|].
  split; [exact H1|]. split; [exact H2|]. split; [exact H3|apply server_gives].
Qed.

(** C1. Nothing is lost but by a full receive queue, and that is counted: when the
    client has no packet in flight and the counter of dropped messages of the
    server's receive queue has not moved, every reliable message that ever entered
    the client's send window has been taken by the server's application or waits
    in the receive queue, each exactly once, the ordered ones in the order of
    sending. *)
Theorem stream_no_loss t : talk_reach t -> Z.of_nat (length (tk_sent t)) < 2 ^ 31 - 1 ->
  sw_in_flight (cl_send_win (fst (fst (tk_client t)))) = 0 -> tk_dropped t = false ->
  got_reliable t ≡ₚ tk_sent t /\ filter ordered_msg (got_reliable t) = filter ordered_msg (tk_sent t).
Proof. apply talk_complete. Qed.

(** ** Running *)

(** The state after an event of either side. *)
Definition talk_next (t : talk) (e : client_event + server_event) : talk :=
  match e with
  | inl e =>
      let c' := run_event (platform := host_c) (tk_client t) e in
      mk_talk c' (tk_server t)
        (tk_sent t ++ window_new (cl_send_win (fst (fst (tk_client t)))) (cl_send_win (fst (fst c')))) (tk_taken t) (tk_dropped t)
  | inr e =>
      let s' := run_server_event (platform := host_s) (tk_server t) e in
      mk_talk (tk_client t) s' (tk_sent t) (tk_taken t ++ server_taken (fst (tk_server t)) e)
        (tk_dropped t || queue_dropped (sv_recv_queue (fst (tk_server t))) (sv_recv_queue (fst s')))
  end.

Lemma talk_next_reach t e : talk_reach t ->
  match e with
  | inl e => event_ok e /\ client_input (snd (tk_server t)) (fst (fst (tk_client t))) e
  | inr e => server_event_ok e /\ server_input (snd (fst (tk_client t))) e
  end -> live (talk_next t e) -> talk_reach (talk_next t e).
Proof.
  intros Hr He L. apply (reach_step t); [done| |done]. destruct t as [[[c wc] lo] [s ws] sent taken dropped].
  destruct e as [e|e]; destruct He as [He Hin]; cbn [talk_next tk_client tk_server tk_sent tk_taken tk_dropped fst snd] in *.
  - destruct (run_event (c, wc, lo) e) as [[c' wc'] lo'] eqn:E. by apply (talk_client _ _ _ _ _ _ _ _ e).
  - destruct (run_server_event (s, ws) e) as [s' ws'] eqn:E. by apply talk_server.
Qed.
End talk.

(** ** Witnesses *)

(** The connection of [Connection] with two messages, one ordered and one not:
    the second packet comes first and twice, the server's application takes it,
    then comes the first; the server's timer acknowledges both. *)
Definition run_server_world : world := Eval vm_compute in
  snd (foldl (@run_server_event big_platform _) (started_server, mk_world 0 0 [] false) run_server_events).
Definition talk0 : talk := mk_talk run_client (run_server, run_server_world) [] [] false.
Definition talk_sid : Z := Eval vm_compute in cl_session_id (fst (fst run_client)).
Definition sample_next : talk -> client_event + server_event -> talk := talk_next sample_platform big_platform.
Definition nth_sent (w : world) (n : nat) : list Z := from_option snd [] (wd_sent w !! n).

Definition talk1 : talk := Eval vm_compute in sample_next talk0 (inl (EvSend 2 [9] 1)).
Definition talk2 : talk := Eval vm_compute in sample_next talk1 (inl EvSendPending).
Definition talk_packet1 : list Z := Eval vm_compute in nth_sent (snd (fst (tk_client talk2))) 2.
Definition talk_packet2 : list Z := Eval vm_compute in nth_sent (snd (fst (tk_client talk2))) 3.
Definition talk3 : talk := Eval vm_compute in sample_next talk2 (inr (SvDatagram 0 talk_packet2 sample_peer (true, true))).
Definition talk4 : talk := Eval vm_compute in sample_next talk3 (inr (SvDatagram 0 talk_packet2 sample_peer (true, true))).
Definition talk_read : talk := Eval vm_compute in sample_next talk4 (inr (SvRecv 100 0 [])).
Definition talk5 : talk := Eval vm_compute in sample_next talk_read (inr (SvDatagram 0 talk_packet1 sample_peer (true, true))).
Definition talk6 : talk := Eval vm_compute in sample_next talk5 (inr SvTimers).
Definition talk_ack : list Z := Eval vm_compute in last_sent (snd (tk_server talk6)).
Definition talk7 : talk := Eval vm_compute in sample_next talk6 (inl (EvDatagram talk_ack sample_server_addr)).

#[local] Abbreviation sample_reach := (talk_reach sample_platform big_platform sample_peer 0 talk_sid).

Lemma talk0_start : talk_start sample_peer 0 talk_sid talk0.
Proof.
  constructor; [constructor; vm_compute; first [reflexivity|lia]|exact run_client_ok|exact run_server_ok|exact I| | |
    reflexivity|repeat constructor|reflexivity|reflexivity|reflexivity|vm_compute; reflexivity|vm_compute; reflexivity|
    split; vm_compute; discriminate| |].
  - eexists. split; [exact run_queue|]. constructor; [word_unfold; cbn; lia|constructor].
  - apply (fresh_rep _ 8); [by split; [lia|]|word_unfold; lia|reflexivity].
  - repeat apply Forall_cons_2; try apply Forall_nil_2; intros [] hdr [_ E] Ht; vm_compute in E; injection E as <-; discriminate Ht.
  - repeat apply Forall_cons_2; try apply Forall_nil_2; intros _ [] hdr [_ E] _; vm_compute in E; injection E as <-; reflexivity.
Qed.

(** A step of the sample run, by evaluation. *)
Lemma sample_step t e t' : sample_reach t -> sample_next t e = t' ->
  match e with
  | inl e => event_ok e /\ client_input sample_peer (snd (tk_server t)) (fst (fst (tk_client t))) e
  | inr e => server_event_ok e /\ server_input sample_peer (snd (fst (tk_client t))) e
  end -> live sample_peer 0 talk_sid t' -> sample_reach t'.
Proof. intros Hr <- He L. by apply talk_next_reach. Qed.

Lemma bytes_datagram_ok l : forallb (fun b => (0 <=? b) && (b <? 256)) l = true -> (0 < length l < 100)%nat -> datagram_ok l.
Proof. intros H Hl. split; [by apply small_bytes|]. unfold REL4U_MAX_PAYLOAD_SIZE, REL4U_HEADER_LEN. lia. Qed.

Ltac sample_live := constructor; vm_compute; first [reflexivity|lia].
Ltac sample_packet n := split; [split; [apply bytes_datagram_ok; [reflexivity|cbn; lia]|done]|];
  intros _; eexists; apply (list_elem_of_lookup_2 _ n); reflexivity.

Lemma talk7_reach : sample_reach talk7.
Proof.
  assert (R1 : sample_reach talk1).
  { apply (sample_step talk0 (inl (EvSend 2 [9] 1))); [by apply reach_start, talk0_start|vm_compute; reflexivity| |sample_live].
    split; [cbn; lia|exact I]. }
  assert (R2 : sample_reach talk2).
  { apply (sample_step talk1 (inl EvSendPending)); [exact R1|vm_compute; reflexivity|by split|sample_live]. }
  assert (R3 : sample_reach talk3).
  { apply (sample_step talk2 (inr (SvDatagram 0 talk_packet2 sample_peer (true, true)))); [exact R2|vm_compute; reflexivity| |sample_live].
    sample_packet 3%nat. }
  assert (R4 : sample_reach talk4).
  { apply (sample_step talk3 (inr (SvDatagram 0 talk_packet2 sample_peer (true, true)))); [exact R3|vm_compute; reflexivity| |sample_live].
    sample_packet 3%nat. }
  assert (Rr : sample_reach talk_read).
  { apply (sample_step talk4 (inr (SvRecv 100 0 []))); [exact R4|vm_compute; reflexivity|by split; [constructor|]|sample_live]. }
  assert (R5 : sample_reach talk5).
  { apply (sample_step talk_read (inr (SvDatagram 0 talk_packet1 sample_peer (true, true)))); [exact Rr|vm_compute; reflexivity| |sample_live].
    sample_packet 2%nat. }
  assert (R6 : sample_reach talk6).
  { apply (sample_step talk5 (inr SvTimers)); [exact R5|vm_compute; reflexivity|by split|sample_live]. }
  apply (sample_step talk6 (inl (EvDatagram talk_ack sample_server_addr))); [exact R6|vm_compute; reflexivity| |sample_live].
  split; [apply bytes_datagram_ok; [reflexivity|cbn; lia]|]. intros _. exists sample_peer. split; [reflexivity|].
  apply (list_elem_of_lookup_2 _ 1). reflexivity.
Qed.

Lemma stream_exactly_once_witness : tk_taken talk7 = [mk_msg 0 2 [9]] /\ tk_dropped talk7 = false /\
  filter ordered_msg (got_reliable 0 talk7) = [(3, [7; 8])] /\
  filter ordered_msg (got_reliable 0 talk7) `prefix_of` filter ordered_msg (tk_sent talk7).
Proof.
  split; [reflexivity|]. split; [reflexivity|]. split; [vm_compute; reflexivity|].
  exact (proj1 (proj2 (proj2 (stream_exactly_once sample_platform big_platform sample_peer 0 talk_sid talk7 talk7_reach
    ltac:(vm_compute; reflexivity)))) eq_refl).
Defined.

Lemma stream_no_loss_witness : got_reliable 0 talk7 ≡ₚ [(3, [7; 8]); (2, [9])].
Proof.
  exact (proj1 (stream_no_loss sample_platform big_platform sample_peer 0 talk_sid talk7 talk7_reach ltac:(vm_compute; reflexivity)
    eq_refl eq_refl)).
Defined.
