(* ===== verification/Duplex.v ===== *)
(** * Both directions of a connection

    The system of [Stream] with the messages of the server as well: what the
    server's application sends to the client's session crosses the same network
    back, its data packets carry acknowledgements for the other direction and the
    client's packets acknowledge them.  The client's worker hands over what [Pipe]
    proves of one direction, and its application gets it as [Inbox] says. *)
From S2P Require Import Prelude Ring Types Seq Packet Rtt Mpmc MpmcSpec Queue SendWindow SendSpec Send RecvWindow RecvSpec Recv RecvSafe Net Session Sessions Link Endpoint Peer Client ClientSpec ClientRun Server ServerSpec ServerRun ServerDrain ServerTable Connection Emit ClientWire Pipe ServerWire Inbox Stream.
From stdpp Require Import base numbers list gmap.
Open Scope Z_scope.
Open Scope rel4u_scope.

(** ** Runs *)

(** A connection with the reliable messages that have entered the send window of
    the client's session at the server, the messages that the client's application
    has taken with [rel4u_client_recv], both in order, and whether the counter of
    dropped messages of the client's receive queue has moved. *)
Record duplex := mk_duplex {
  dx_talk : talk;
  dx_sent : list (Z * list Z);
  dx_taken : list msg;
  dx_dropped : bool
}.

Section duplex.
Context {allocator : Malloc}.
Variables host_c host_s : Platform.
Variables (client_addr : rel4u_net_addr) (j : nat) (sid : Z).

#[local] Abbreviation the_client t := (fst (fst (tk_client t))).
#[local] Abbreviation the_session t := (server_session (fst (tk_server t)) j).

(** The messages that a step of the client's worker pushes to the receive queue,
    whether the queue takes them or not. *)
Definition client_handed (c : rel4u_client) (lo : client_locals) (e : client_event) : list msg :=
  (fun x => item_msg (ready_item 0 x)) <$> client_log (platform := host_c) c lo e.

Inductive duplex_step : duplex -> duplex -> Prop :=
  | duplex_client t down taken dropped e t' c wc lo c' wc' lo' :
      event_ok e -> client_input client_addr (snd (tk_server t)) c e -> tk_client t = (c, wc, lo) ->
      run_event (platform := host_c) (c, wc, lo) e = (c', wc', lo') ->
      t' = mk_talk (c', wc', lo') (tk_server t) (tk_sent t ++ window_new (cl_send_win c) (cl_send_win c')) (tk_taken t) (tk_dropped t) ->
      duplex_step (mk_duplex t down taken dropped)
        (mk_duplex t' down (taken ++ client_taken c e) (dropped || queue_dropped (cl_recv_queue c) (cl_recv_queue c')))
  | duplex_server t down taken dropped e t' s ws s' ws' :
      server_event_ok e -> server_input client_addr (snd (fst (tk_client t))) e -> tk_server t = (s, ws) ->
      run_server_event (platform := host_s) (s, ws) e = (s', ws') ->
      t' = mk_talk (tk_client t) (s', ws') (tk_sent t) (tk_taken t ++ server_taken s e)
             (tk_dropped t || queue_dropped (sv_recv_queue s) (sv_recv_queue s')) ->
      duplex_step (mk_duplex t down taken dropped)
        (mk_duplex t' (down ++ window_new (cs_send_win (server_session s j)) (cs_send_win (server_session s' j))) taken dropped).

(** A connection that has just been made: the server's direction is fresh too. *)
Record duplex_start (d : duplex) : Prop := {
  dst_talk : talk_start client_addr j sid (dx_talk d);
  dst_modes : server_modes (fst (tk_server (dx_talk d)));
  dst_send : send_rep (cs_send_win (the_session (dx_talk d))) 1 [];
  dst_recv : rw_expected_seq (cl_recv_win (the_client (dx_talk d))) = 1;
  dst_empty : Forall (fun x => rs_received x = false) (rw_slots (cl_recv_win (the_client (dx_talk d))));
  dst_sent : dx_sent d = [];
  dst_taken : dx_taken d = [];
  dst_dropped : dx_dropped d = false;
  dst_unread : filter (from_client 0) (unread (cl_recv_queue (the_client (dx_talk d)))) = [];
  dst_capacity : q_capacity (cl_recv_queue (the_client (dx_talk d))) < 2 ^ 32;
  dst_up : Forall (fun x => forall host hdr, reads host (snd x) hdr -> h_session_id hdr = sid ->
    h_packet_type hdr ∈ [REL4U_PKT_CONNECT_REQ; REL4U_PKT_CONNECT_ACK; REL4U_PKT_DISCONNECT]) (wd_sent (snd (fst (tk_client (dx_talk d)))))
}.

Inductive duplex_reach : duplex -> Prop :=
  | duplex_reach_start d : duplex_start d -> duplex_reach d
  | duplex_reach_step d d' : duplex_reach d -> duplex_step d d' -> live client_addr j sid (dx_talk d') -> duplex_reach d'.

(** It is a run of the connection. *)
Lemma duplex_talk d : duplex_reach d -> talk_reach host_c host_s client_addr j sid (dx_talk d).
Proof.
  induction 1 as [d []|d d' _ IH St L]; [by apply reach_start|]. eapply reach_step; [exact IH| |done].
  destruct St as [t down taken dropped e t' c wc lo c' wc' lo' He Hin Ec E ->|t down taken dropped e t' s ws s' ws' He Hin Es E ->];
    cbn [dx_talk] in *; destruct t as [tc ts sent taken' dropped']; cbn [tk_client tk_server tk_sent tk_taken tk_dropped] in *; subst.
  - destruct ts as [s ws]. by econstructor.
  - destruct tc as [[c wc] lo]. by econstructor.
Qed.

Record duplex_base (d : duplex) : Prop := {
  db_talk : talk_base client_addr j sid (dx_talk d);
  db_modes : server_modes (fst (tk_server (dx_talk d)));
  db_sent : Forall sent_ok (dx_sent d)
}.

Lemma duplex_reach_base d : duplex_reach d -> duplex_base d.
Proof.
  intros Hr. induction Hr as [d S|d d' Hr IH St L].
  - constructor; [eapply talk_reach_base, reach_start, S|apply S|rewrite (dst_sent _ S); constructor].
  - pose proof (talk_reach_base _ _ _ _ _ _ (duplex_talk _ (duplex_reach_step _ _ Hr St L))) as B'. destruct IH as [B Q Hs].
    constructor; [done|..]; clear B'; destruct St as [t down taken dropped e t' c wc lo c' wc' lo' He Hin Ec E ->|t down taken dropped e t' s ws s' ws' He Hin Es E ->];
      cbn [fst snd dx_talk dx_sent tk_server] in *; try done; destruct t as [tc ts up gup gdr]; cbn [tk_server] in Es; subst ts; destruct B as [[_ _ _ Hv Ha Hsid Had] _ K Hip _ _];
      cbn [fst snd tk_server] in *.
    + pose proof (event_modes (platform := host_s) s ws e K He Q) as Q'. by rewrite E in Q'.
    + destruct (se_send _ _ (session_ok_at _ _ K Hv)) as (_ & h & es & R).
      pose proof (server_event_effect (platform := host_s) client_addr j s ws e h es K He Hv Ha ltac:(by rewrite Had)
        ltac:(rewrite Had; by apply addr_eq_refl) Q R) as P. rewrite E in P. destruct L as [_ _ _ _ Ha' _ Had']. cbn [fst snd dx_talk tk_server] in *.
      destruct (served_new _ _ _ _ _ _ _ _ _ R (P Ha' ltac:(congruence))) as (new & -> & Hn).
      apply Forall_app. split; [done|]. apply Forall_fmap. eapply Forall_impl; [exact Hn|]. intros x [p Hp]. by apply (entry_view_ok p).
Qed.

(** ** The invariant *)

(** The server's packets for the client's session, and the client's that
    acknowledge. *)
Definition down_data (d : rel4u_net_addr * list Z) (hdr : rel4u_header) : Prop :=
  addr_eq (fst d) client_addr /\ h_session_id hdr = sid.
Definition up_ack (d : rel4u_net_addr * list Z) (hdr : rel4u_header) : Prop :=
  h_session_id hdr = sid /\ ~ h_packet_type hdr ∈ [REL4U_PKT_CONNECT_REQ; REL4U_PKT_CONNECT_ACK; REL4U_PKT_DISCONNECT].

(** The direction from the server to the client; [got] is all that the worker has
    handed over. *)
Definition reply_pipe (got : list msg) (d : duplex) : pipe :=
  mk_pipe (cs_send_win (the_session (dx_talk d))) (cs_rtt (the_session (dx_talk d)))
    (cl_recv_win (the_client (dx_talk d))) (Z.of_nat (length (dx_sent d))) got
    (wd_sent (snd (tk_server (dx_talk d)))) (wd_sent (snd (fst (tk_client (dx_talk d))))).

Ltac duplex_fields := cbn [fst snd dx_talk dx_sent dx_taken dx_dropped tk_client tk_server tk_sent tk_taken tk_dropped reply_pipe
  pp_send pp_rtt pp_recv pp_count pp_got pp_data pp_acks] in *.

Section content.
Context (content : Z -> Z * list Z).
Hypothesis content_ok : forall q, mode_reliable (fst (content q)) = true /\
  Z.of_nat (length (snd (content q))) <= REL4U_MAX_PAYLOAD_SIZE.

#[local] Abbreviation reply_inv := (fun got d => pipe_inv content 0 down_data up_ack (reply_pipe got d)).
#[local] Abbreviation client_inbox got d :=
  (inbox_inv 0 (dx_taken d) (cl_recv_queue (the_client (dx_talk d))) (dx_dropped d) got).

Lemma reply_start d : duplex_start d -> exists got l es dl, reply_inv got d l es dl /\ client_inbox got d.
Proof.
  intros [T Q R Hexp Hemp Hs Hg Hdr Hun Hcap Hup]. eexists [], _, _, _. unfold reply_pipe. rewrite Hs, Hg, Hdr.
  split; [|apply inbox_inv_start; [apply (ts_client _ _ _ _ T)|done|done]].
  pose proof (session_ok_at _ _ (ts_server _ _ _ _ T) (lv_valid _ _ _ _ (ts_live _ _ _ _ T))) as So.
  apply pipe_start; [done|apply So|apply (ts_client _ _ _ _ T)|done|done| |].
  - eapply Forall_impl; [exact (ts_down _ _ _ _ T)|]. intros x Hx host hdr Hr [Hadd Hid] Ht.
    rewrite (Hx Hadd host hdr Hr Hid) in Ht. done.
  - eapply Forall_impl; [exact Hup|]. intros x Hx host hdr Hr [Hid Ht]. by apply Ht, (Hx host hdr).
Qed.

(** ** Steps of the client *)

Lemma wire_answers es rv ds : Forall (client_wire es rv) ds -> Forall (answers up_ack rv) ds.
Proof. intros H. eapply Forall_impl; [exact H|]. intros d [_ Hc] host hdr Hr _. by apply (Hc host). Qed.

Lemma reply_client_step c wc lo s ws up gup gdr down taken dropped taken' dropped' got e c' wc' lo' up' l es dl h es0 :
  reply_inv got (mk_duplex (mk_talk (c, wc, lo) (s, ws) up gup gdr) down taken dropped) l es dl -> client_input client_addr ws c e ->
  client_ok c -> cl_session_id c = sid -> client_effect (platform := host_c) h es0 e c wc lo c' wc' ->
  Z.of_nat (length down) < 2 ^ 31 - 1 ->
  exists l' dl', reply_inv (got ++ client_handed c lo e)
    (mk_duplex (mk_talk (c', wc', lo') (s, ws) up' gup gdr) down taken' dropped') l' es dl'.
Proof.
  intros V Hin K Hid P Hlen. unfold reply_pipe, client_handed in *. duplex_fields.
  destruct P as [new G El|es' G El|buf src hdr now st st' -> A El]; rewrite El.
  - destruct (gw_wire _ _ _ _ _ _ _ G) as (ds & -> & Hds). rewrite (gw_recv _ _ _ _ _ _ _ G), app_nil_r.
    destruct (pipe_answers _ _ _ _ _ _ _ _ ds V ltac:(by eapply wire_answers)) as [l' V']. by exists l', dl.
  - destruct (rs_wire _ _ _ _ _ _ _ G) as (ds & -> & Hds). rewrite (rs_recv _ _ _ _ _ _ _ G), app_nil_r.
    destruct (pipe_answers _ _ _ _ _ _ _ _ ds V ltac:(by eapply wire_answers)) as [l' V']. by exists l', dl.
  - destruct (at_wire _ _ _ _ _ _ _ _ _ _ A) as (ds & -> & Hds). apply wire_answers in Hds.
    rewrite (at_recv _ _ _ _ _ _ _ _ _ _ A).
    destruct (Z.eqb_spec (h_packet_type hdr) REL4U_PKT_DATA) as [Ht|_].
    + destruct (Hin (at_src _ _ _ _ _ _ _ _ _ _ A)) as (dst & Hdst & Hmem).
      destruct (pipe_received _ content_ok _ _ _ _ _ _ _ (dst, buf) _ hdr (cl_recv_queue c) (cl_ready_slots c) ds V
        ltac:(duplex_fields; lia) Hmem (at_reads _ _ _ _ _ _ _ _ _ _ A)
        ltac:(split; [done|]; rewrite (at_session _ _ _ _ _ _ _ _ _ _ A); exact Hid) Ht (ry_length _ _ _ _ (ck_ready _ K)) Hds) as (l' & dl' & V').
      exists l', dl'. exact V'.
    + rewrite app_nil_r. destruct (pipe_answers _ _ _ _ _ _ _ _ ds V Hds) as [l' V']. by exists l', dl.
Qed.

(** ** Steps of the server *)

Lemma server_sends es ds : Forall (server_wire client_addr es) ds -> Forall (sends down_data es) ds.
Proof. intros H. eapply Forall_impl; [exact H|]. intros d Hd hdr [Hadd _]. by apply Hd. Qed.

Lemma reply_server_step c wc lo s ws up gup gdr down taken dropped got e s' ws' gup' gdr' l es dl :
  reply_inv got (mk_duplex (mk_talk (c, wc, lo) (s, ws) up gup gdr) down taken dropped) l es dl -> server_input client_addr wc e ->
  server_ok s' -> valid s' j -> cs_addr (server_session s j) = client_addr -> ip_addr client_addr ->
  cs_session_id (server_session s j) = sid ->
  server_effect (platform := host_s) client_addr j (lk_head l) es e s ws s' ws' -> Z.of_nat (length down) < 2 ^ 31 - 1 ->
  agrees content (down ++ window_new (cs_send_win (server_session s j)) (cs_send_win (server_session s' j))) ->
  exists l' es', reply_inv got (mk_duplex (mk_talk (c, wc, lo) (s', ws') up gup' gdr')
    (down ++ window_new (cs_send_win (server_session s j)) (cs_send_win (server_session s' j))) taken dropped) l' es' dl.
Proof.
  intros V Hin K' Hv' Had Hip Hid P Hlen Hagr. pose proof (li_send _ _ _ _ _ (pi_link _ _ _ _ _ _ _ _ V)) as R.
  rewrite (pi_send _ _ _ _ _ _ _ _ V) in R. unfold reply_pipe in *. duplex_fields.
  destruct P as [new G|es' G|ptr buf src ok hdr now st st' -> A].
  - destruct (gf_wire _ _ _ _ _ _ _ _ _ G) as (ds & -> & Hds). pose proof (gf_window _ _ _ _ _ _ _ _ _ G) as R'.
    rewrite (window_new_spec _ _ _ _ _ R R') in *. rewrite length_app, length_fmap, Nat2Z.inj_add, (gf_rtt _ _ _ _ _ _ _ _ _ G).
    destruct (pipe_grown _ _ _ _ _ _ _ _ (cs_send_win (server_session s' j)) new ds V R' (gf_fresh _ _ _ _ _ _ _ _ _ G)) as [l' V'];
      [intros i x; by apply agrees_new|by apply server_sends|]. by exists l', (es ++ new).
  - destruct (rf_wire _ _ _ _ _ _ _ _ _ G) as (ds & -> & Hds). pose proof (rf_window _ _ _ _ _ _ _ _ _ G) as R'.
    rewrite window_new_none, app_nil_r.
    2: { by rewrite (sr_next _ _ _ R), (sr_next _ _ _ R'), (Forall2_length _ _ _ (rf_same _ _ _ _ _ _ _ _ _ G)). }
    destruct (pipe_resent _ _ _ _ _ _ _ _ (cs_send_win (server_session s' j)) (cs_rtt (server_session s' j)) es' ds V R'
      (rf_same _ _ _ _ _ _ _ _ _ G) (se_rtt _ _ (session_ok_at _ _ K' Hv'))) as [l' V']; [by apply server_sends|]. by exists l', es'.
  - destruct (af_wire _ _ _ _ _ _ _ _ _ _ _ _ A) as (ds & -> & Hds).
    assert (exists dst, (dst, buf) ∈ wd_sent wc) as [dst Hmem].
    { apply Hin. rewrite <- Had. symmetry. apply A. }
    destruct (pipe_acked _ _ _ _ _ _ _ _ (dst, buf) _ hdr now st (cs_send_win (server_session s' j)) (cs_rtt (server_session s' j)) st' ds V
      ltac:(duplex_fields; lia) Hmem (af_reads _ _ _ _ _ _ _ _ _ _ _ _ A)) as (En & l' & es' & V').
    + split; [by rewrite (af_session _ _ _ _ _ _ _ _ _ _ _ _ A)|apply A].
    + apply A.
    + by apply server_sends.
    + rewrite window_new_none, app_nil_r by exact En. by exists l', es'.
Qed.

(** The queue that the worker fills and the application empties. *)
Lemma inbox_client_step t down taken dropped got e c wc lo c' wc' lo' t' :
  client_inbox got (mk_duplex t down taken dropped) -> tk_client t = (c, wc, lo) -> client_ok c -> cl_state c = REL4U_STATE_CONNECTED ->
  event_ok e -> client_input client_addr (snd (tk_server t)) c e -> run_event (platform := host_c) (c, wc, lo) e = (c', wc', lo') ->
  the_client t' = c' ->
  client_inbox (got ++ client_handed c lo e)
    (mk_duplex t' down (taken ++ client_taken c e) (dropped || queue_dropped (cl_recv_queue c) (cl_recv_queue c'))).
Proof.
  intros B Et K Hst He Hin E Et'. duplex_fields. rewrite Et in B. rewrite Et'. duplex_fields.
  pose proof (client_event_inbox (platform := host_c) c wc lo e K He) as P. rewrite E in P.
  pose proof (inbox_inv_step _ _ _ _ _ _ _ _ B (ck_recv_queue _ K) (P ltac:(by destruct e) Hst)) as B'.
  rewrite from_client_items, decide_True in B' by done. exact B'.
Qed.

(** Every reachable state. *)
Lemma duplex_reach_inv d : duplex_reach d -> Z.of_nat (length (dx_sent d)) < 2 ^ 31 - 1 -> agrees content (dx_sent d) ->
  exists got l es dl, reply_inv got d l es dl /\ client_inbox got d.
Proof.
  intros Hr. pose proof Hr as Hr0. induction Hr as [d S|d d' Hr IH St L']; intros Hlen Hagr; [by apply reply_start|].
  specialize (IH Hr). pose proof (duplex_reach_base _ Hr) as [B Q _]. pose proof (duplex_reach_base _ Hr0) as [B' _ _].
  destruct St as [t down taken dropped e t' c wc lo c' wc' lo' He Hin Ec E Et|t down taken dropped e t' s ws s' ws' He Hin Es E Et]; duplex_fields.
  - destruct (IH Hlen Hagr) as (got & l & es & dl & V & B0).
    pose proof (tb_client _ _ _ _ B) as K. pose proof (tb_live _ _ _ _ B) as L. rewrite Ec in K. duplex_fields.
    pose proof (lv_state _ _ _ _ L) as Hst. pose proof (lv_local _ _ _ _ L) as Hlo. pose proof (lv_number _ _ _ _ L) as Hnum.
    pose proof (tb_modes _ _ _ _ B) as Hmod. rewrite Ec in Hst, Hlo, Hnum, Hmod. duplex_fields.
    destruct (ck_send _ K) as (_ & h & es0 & R).
    pose proof (client_event_effect (platform := host_c) c wc lo e h es0 K He R Hmod Hst Hlo) as P. rewrite E in P.
    pose proof (lv_state _ _ _ _ L') as Hst'. rewrite Et in Hst'. specialize (P Hst').
    exists (got ++ client_handed c lo e). pose proof (inbox_client_step t down taken dropped got e c wc lo c' wc' lo' t' B0 Ec K Hst He Hin E
      ltac:(by rewrite Et)) as B1.
    destruct t as [tc [s ws] up gup gdr]. duplex_fields. subst tc t'.
    destruct (reply_client_step _ _ _ _ _ _ gup gdr _ _ _ (taken ++ client_taken c e)
      (dropped || queue_dropped (cl_recv_queue c) (cl_recv_queue c')) _ _ _ _ lo' (up ++ window_new (cl_send_win c) (cl_send_win c')) _ _ _ _ _ V Hin
      K Hnum P Hlen) as (l' & dl' & V'). exists l', es, dl'. by split.
  - rewrite length_app in Hlen. destruct IH as (got & l & es & dl & V & B0); [lia|by eapply agrees_prefix|].
    destruct t as [[[c wc] lo] ts up gup gdr]. duplex_fields. subst ts t'.
    pose proof (li_send _ _ _ _ _ (pi_link _ _ _ _ _ _ _ _ V)) as R. rewrite (pi_send _ _ _ _ _ _ _ _ V) in R. duplex_fields.
    destruct B as [[_ _ _ Hv Ha Hsid Had] _ K Hip _ _]. destruct L' as [_ _ _ Hv' Ha' _ Had']. duplex_fields.
    pose proof (server_event_effect (platform := host_s) client_addr j s ws e _ es K He Hv Ha ltac:(by rewrite Had)
      ltac:(rewrite Had; by apply addr_eq_refl) Q R) as P. rewrite E in P. specialize (P Ha' ltac:(congruence)).
    destruct (reply_server_step c wc lo s ws up gup gdr down taken dropped got e s' ws' (gup ++ server_taken s e)
      (gdr || queue_dropped (sv_recv_queue s) (sv_recv_queue s')) l es dl V Hin (tb_server _ _ _ _ B') Hv' Had Hip Hsid P
      ltac:(lia) Hagr) as (l' & es' & V'). exists got, l', es', dl. by split.
Qed.
End content.

(** ** What the applications get *)

(** The reliable messages that the client's application has taken from the receive
    queue or finds in it. *)
Definition reply_reliable (d : duplex) : list (Z * list Z) :=
  reliable_view (received 0 (dx_taken d) (cl_recv_queue (the_client (dx_talk d)))).

Lemma duplex_link d : duplex_reach d -> Z.of_nat (length (dx_sent d)) < 2 ^ 31 - 1 ->
  exists got l es dl, pipe_inv (content_of (dx_sent d)) 0 down_data up_ack (reply_pipe got d) l es dl /\
    inbox_inv 0 (dx_taken d) (cl_recv_queue (the_client (dx_talk d))) (dx_dropped d) got.
Proof.
  intros Hr Hlen. pose proof (db_sent _ (duplex_reach_base _ Hr)) as Hs.
  exact (duplex_reach_inv (content_of (dx_sent d)) (content_of_ok _ Hs) d Hr Hlen (content_of_agrees _)).
Qed.

(** C4. Replies: over the same network and in any interleaving of the steps of both
    endpoints, while the connection lasts, the reliable messages that the client's
    application has taken from its receive queue or that wait there are distinct
    messages that entered the send window of its session at the server, each once
    and with its bytes.  The ordered ones are in the order of sending, and a prefix
    of the ordered ones sent as long as the counter of dropped messages of the
    client's receive queue has not moved.  A message counts as taken when
    [rel4u_client_recv] answers with OK, and the call then gives its bytes, as many
    as the buffer has room for. *)
Theorem reply_exactly_once d : duplex_reach d -> Z.of_nat (length (dx_sent d)) < 2 ^ 31 - 1 ->
  (exists idx, NoDup idx /\ Forall (fun i => (i < length (dx_sent d))%nat) idx /\
     reply_reliable d = (fun i => dx_sent d !!! i) <$> idx) /\
  filter ordered_msg (reply_reliable d) `sublist_of` filter ordered_msg (dx_sent d) /\
  (dx_dropped d = false -> filter ordered_msg (reply_reliable d) `prefix_of` filter ordered_msg (dx_sent d)) /\
  client_recv_gives (the_client (dx_talk d)).
Proof.
  intros Hr Hlen. destruct (duplex_link d Hr Hlen) as (got & l & es & dl & V & B).
  edestruct (received_once) as (H1 & H2 & H3); [exact B|by apply (pipe_exactly_once _ _ _ _ _ _ _ _ V)|].
  split; [exact H1|]. split; [exact H2|]. split; [exact H3|apply client_gives].
Qed.

(** C3. A quiet connection has lost nothing in either direction but what its receive
    queues have counted as dropped: when neither the client nor its session at the
    server has a packet in flight and neither receive queue's counter has moved,
    each application has taken or finds in its receive queue every reliable message
    that ever entered the other side's send window, each exactly once, the ordered
    ones in the order of sending. *)
Theorem duplex_no_loss d : duplex_reach d ->
  Z.of_nat (length (tk_sent (dx_talk d))) < 2 ^ 31 - 1 -> Z.of_nat (length (dx_sent d)) < 2 ^ 31 - 1 ->
  sw_in_flight (cl_send_win (the_client (dx_talk d))) = 0 -> sw_in_flight (cs_send_win (the_session (dx_talk d))) = 0 ->
  tk_dropped (dx_talk d) = false -> dx_dropped d = false ->
  (got_reliable j (dx_talk d) ≡ₚ tk_sent (dx_talk d) /\
   filter ordered_msg (got_reliable j (dx_talk d)) = filter ordered_msg (tk_sent (dx_talk d))) /\
  (reply_reliable d ≡ₚ dx_sent d /\ filter ordered_msg (reply_reliable d) = filter ordered_msg (dx_sent d)).
Proof.
  intros Hr Hup Hdown Hfc Hfs Hdc Hds. destruct (duplex_link d Hr Hdown) as (got & l & es & dl & V & B).
  split; [by apply (talk_complete _ _ _ _ _ _ (duplex_talk _ Hr))|].
  unfold reply_reliable. rewrite (iv_all _ _ _ _ _ B Hds). by apply (pipe_complete _ _ _ _ _ _ _ _ V).
Qed.

(** ** Running *)

(** What may happen next: a call of an application, a step of a worker, or the
    arrival of the [n]-th datagram the other side has sent, which the network may
    deliver in any order and any number of times. *)
Inductive duplex_op :=
  | ClientCall (mode : Z) (data : list Z)
  | ClientRecv
  | ClientDrain
  | ClientTimers
  | ToClient (n : nat)
  | ServerCall (client_id mode : Z) (data : list Z)
  | ServerRecv
  | ServerDrain
  | ServerTimers
  | ToServer (n : nat).

Definition op_event (t : talk) (o : duplex_op) : client_event + server_event :=
  match o with
  | ClientCall mode data => inl (EvSend mode data (Z.of_nat (length data)))
  | ClientRecv => inl (EvRecv REL4U_MAX_MSG_SIZE 0 [])
  | ClientDrain => inl EvSendPending
  | ClientTimers => inl EvTimers
  | ToClient n => inl (EvDatagram (nth_sent (snd (tk_server t)) n) (cl_server_addr (the_client t)))
  | ServerCall id mode data => inr (SvSend id mode data (Z.of_nat (length data)))
  | ServerRecv => inr (SvRecv REL4U_MAX_MSG_SIZE 0 [])
  | ServerDrain => inr SvDrainTurn
  | ServerTimers => inr SvTimers
  | ToServer n => inr (SvDatagram 0 (nth_sent (snd (fst (tk_client t))) n) client_addr (true, true))
  end.

(** The state after it. *)
Definition duplex_next (d : duplex) (o : duplex_op) : duplex :=
  let t := dx_talk d in
  let e := op_event t o in
  let t' := talk_next host_c host_s t e in
  match e with
  | inl e => mk_duplex t' (dx_sent d) (dx_taken d ++ client_taken (the_client t) e)
      (dx_dropped d || queue_dropped (cl_recv_queue (the_client t)) (cl_recv_queue (the_client t')))
  | inr _ => mk_duplex t' (dx_sent d ++ window_new (cs_send_win (the_session t)) (cs_send_win (the_session t')))
      (dx_taken d) (dx_dropped d)
  end.

Definition datagram_check (buf : list Z) : bool :=
  forallb (fun b => (0 <=? b) && (b <? 256)) buf && (0 <? Z.of_nat (length buf)) &&
  (Z.of_nat (length buf) <=? REL4U_MAX_PAYLOAD_SIZE + REL4U_HEADER_LEN).

Definition op_check (t : talk) (o : duplex_op) : bool :=
  match o with
  | ToClient n =>
      match wd_sent (snd (tk_server t)) !! n with
      | Some (dst, buf) => rel4u_net_addr_equal dst client_addr && datagram_check buf
      | None => false
      end
  | ToServer n => match wd_sent (snd (fst (tk_client t))) !! n with Some (_, buf) => datagram_check buf | None => false end
  | _ => true
  end.

Definition live_check (t : talk) : bool :=
  bool_decide (cl_state (the_client t) = REL4U_STATE_CONNECTED) && bool_decide (lo_state (snd (tk_client t)) = REL4U_STATE_CONNECTED) &&
  (cl_session_id (the_client t) =? sid) && (j <? slots (fst (tk_server t)))%nat && session_active (the_session t) &&
  (cs_session_id (the_session t) =? sid) && bool_decide (cs_addr (the_session t) = client_addr).

(** Each step is possible and leaves the connection up. *)
Fixpoint run_check (d : duplex) (os : list duplex_op) : bool :=
  match os with
  | [] => true
  | o :: os => let d' := duplex_next d o in op_check (dx_talk d) o && live_check (dx_talk d') && run_check d' os
  end.

Lemma datagram_check_ok buf : datagram_check buf = true -> datagram_ok buf.
Proof.
  intros [[H ?%Z.ltb_lt]%andb_true_iff ?%Z.leb_le]%andb_true_iff. split; [by apply small_bytes|lia].
Qed.

Lemma live_check_ok t : live_check t = true -> live client_addr j sid t.
Proof.
  unfold live_check. intros H. rewrite !andb_true_iff, !bool_decide_eq_true, !Z.eqb_eq, Nat.ltb_lt in H.
  destruct H as ((((((? & ?) & ?) & ?) & ?) & ?) & ?). by constructor.
Qed.

Lemma op_step d o : op_check (dx_talk d) o = true -> duplex_step d (duplex_next d o).
Proof.
  intros H. unfold duplex_next. destruct d as [t down taken dropped]. cbn [dx_talk dx_sent dx_taken dx_dropped] in *.
  assert (He : match op_event t o with
    | inl e => event_ok e /\ client_input client_addr (snd (tk_server t)) (the_client t) e
    | inr e => server_event_ok e /\ server_input client_addr (snd (fst (tk_client t))) e end).
  { destruct o as [mode data| | | |n|id mode data| | | |n]; cbn -[nth_sent] in *; try (split; [lia|done]); try (by split; [constructor|]); try done; unfold nth_sent.
    - destruct (wd_sent _ !! n) as [[dst buf]|] eqn:E; [|done]. apply andb_true_iff in H as [Hd ?%datagram_check_ok]. split; [done|].
      intros _. exists dst. split; [done|]. by eapply list_elem_of_lookup_2.
    - destruct (wd_sent _ !! n) as [[dst buf]|] eqn:E; [|done]. apply datagram_check_ok in H. split; [done|].
      intros _. exists dst. by eapply list_elem_of_lookup_2. }
  destruct t as [[[c wc] lo] [s ws] up gup gdr].
  destruct (op_event _ o) as [e|e]; destruct He as [He Hin]; cbn [talk_next tk_client tk_server tk_sent tk_taken tk_dropped fst snd] in *.
  - destruct (run_event (c, wc, lo) e) as [[c' wc'] lo'] eqn:E. cbn [fst snd]. by eapply duplex_client.
  - destruct (run_server_event (s, ws) e) as [s' ws'] eqn:E. cbn [fst snd]. by eapply duplex_server.
Qed.

Lemma run_reach os : forall d, duplex_reach d -> run_check d os = true -> duplex_reach (foldl duplex_next d os).
Proof.
  induction os as [|o os IH]; intros d Hr H; [done|]. cbn [run_check foldl] in *. cbv zeta in H.
  apply andb_true_iff in H as [[Ho Hl]%andb_true_iff H]. apply IH; [|done].
  eapply duplex_reach_step; [exact Hr|by apply op_step|by apply live_check_ok].
Qed.
End duplex.

(** ** Witnesses *)

(** The connection of [Stream]: both sides send two messages, one ordered and one
    not.  The server's second packet comes first and twice and is taken by the
    client's application; the client's come in the other order, and the server's
    application takes both; the timers acknowledge both directions. *)
Definition duplex0 : duplex := mk_duplex talk0 [] [] false.
Definition duplex_ops : list duplex_op :=
  [ClientCall 2 [9]; ClientDrain; ServerCall 0 3 [5; 6]; ServerCall 0 2 [4]; ServerDrain; ServerDrain;
   ToClient 2; ToClient 2; ClientRecv; ToClient 1; ToServer 3; ToServer 2; ServerRecv; ServerRecv; ServerRecv;
   ClientTimers; ToServer 4; ServerTimers; ToClient 3].
Definition duplex_state (n : nat) : duplex :=
  foldl (duplex_next sample_platform big_platform sample_peer 0) duplex0 (take n duplex_ops).
Definition duplex_mid : duplex := Eval vm_compute in duplex_state 10.
Definition duplex_end : duplex := Eval vm_compute in duplex_state 19.

#[local] Abbreviation sample_duplex := (duplex_reach sample_platform big_platform sample_peer 0 talk_sid).

Lemma run_server_queue : q_rep (sv_send_queue run_server) (mk_bqueue [] 0).
Proof.
  apply q_rep_fixed; [reflexivity|reflexivity|word_unfold; lia|]. split; [|split; [reflexivity|constructor]].
  constructor; cbn; try lia; reflexivity.
Qed.

Lemma duplex0_start : duplex_start sample_peer 0 talk_sid duplex0.
Proof.
  constructor; [exact talk0_start| | |reflexivity|repeat constructor|reflexivity|reflexivity|reflexivity|vm_compute; reflexivity|
    vm_compute; reflexivity|].
  - split; [|done]. eexists. split; [exact run_server_queue|constructor].
  - apply (fresh_rep _ 8); [by split; [lia|]|word_unfold; lia|reflexivity].
  - repeat apply Forall_cons_2; try apply Forall_nil_2; intros [] hdr [_ E] _; vm_compute in E; injection E as <-; cbn;
      rewrite !elem_of_cons; tauto.
Qed.

Lemma duplex_sample os d : foldl (duplex_next sample_platform big_platform sample_peer 0) duplex0 os = d ->
  run_check sample_platform big_platform sample_peer 0 talk_sid duplex0 os = true -> sample_duplex d.
Proof. intros <- H. apply run_reach; [by apply duplex_reach_start, duplex0_start|done]. Qed.

Lemma reply_exactly_once_witness : dx_taken duplex_mid = [mk_msg 0 2 [4]] /\ dx_dropped duplex_mid = false /\
  reply_reliable duplex_mid = [(2, [4]); (3, [5; 6])] /\
  filter ordered_msg (reply_reliable duplex_mid) `prefix_of` filter ordered_msg (dx_sent duplex_mid).
Proof.
  split; [reflexivity|]. split; [reflexivity|]. split; [vm_compute; reflexivity|].
  exact (proj1 (proj2 (proj2 (reply_exactly_once sample_platform big_platform sample_peer 0 talk_sid duplex_mid
    (duplex_sample (take 10 duplex_ops) duplex_mid ltac:(vm_compute; reflexivity) ltac:(vm_compute; reflexivity))
    ltac:(vm_compute; reflexivity)))) eq_refl).
Defined.

Lemma duplex_no_loss_witness : got_reliable 0 (dx_talk duplex_end) ≡ₚ [(3, [7; 8]); (2, [9])] /\
  reply_reliable duplex_end ≡ₚ [(3, [5; 6]); (2, [4])].
Proof.
  destruct (duplex_no_loss sample_platform big_platform sample_peer 0 talk_sid duplex_end
    (duplex_sample (take 19 duplex_ops) duplex_end ltac:(vm_compute; reflexivity) ltac:(vm_compute; reflexivity))
    ltac:(vm_compute; reflexivity) ltac:(vm_compute; reflexivity) eq_refl eq_refl eq_refl eq_refl) as [[Hup _] [Hdown _]].
  exact (conj Hup Hdown).
Defined.

(** ** A full receive queue *)


