(* ===== verification/Examples.v ===== *)
(** * The example programs

    [examples/server_echo.c] and [examples/client_bench.c] as functions over the
    public calls.  Between two calls the worker thread does what it likes: that is
    an argument, and so is how each wait for a message goes.  The output on the
    terminal is left out. *)
From S2P Require Import Prelude Text Packet Ring Types Mpmc MpmcSpec Queue Net Session Endpoint Peer Client Server.
From Stdlib Require Import Ascii String.
From stdpp Require Import base numbers list gmap.
Open Scope Z_scope.
Open Scope rel4u_scope.

(** What [sleep_ms] gives to [nanosleep]: seconds and nanoseconds. *)
Definition sleep_ms (ms : Z) : Z * Z := (ms / 1000, (ms mod 1000) * 1000000).

Section examples.
Context {platform : Platform} {allocator : Malloc}.

(** ** The echo server *)

(** [ee_running]: the readings of [g_keep_running], which the signal handler
    clears; [ee_worker]: what the worker does before each call; [ee_wakes]: how
    the wait of each call goes. *)
Record echo_env := mk_echo_env {
  ee_running : nat -> bool;
  ee_worker : nat -> rel4u_server * world -> rel4u_server * world;
  ee_wakes : nat -> list (bool * rel4u_mpmc_queue)
}.

(** The signal handler sets the flag to 0 and nothing sets it back. *)
Definition sigint_handler (g_keep_running : bool) : bool := false.
Definition flag_falls (env : echo_env) : Prop :=
  forall n, ee_running env n = false -> ee_running env (S n) = false.

(** The variables of [main], and how many readings and calls there were. *)
Record echo := mk_echo {
  ec_server : rel4u_server;
  ec_world : world;
  ec_count : Z;
  ec_reads : nat;
  ec_calls : nat
}.

Definition echo_read (e : echo) : echo :=
  mk_echo (ec_server e) (ec_world e) (ec_count e) (S (ec_reads e)) (ec_calls e).

(** [while (g_keep_running && rel4u_server_send(...) != REL4U_OK) sleep_ms(1);]. *)
Fixpoint echo_send (env : echo_env) (fuel : nat) (client_id : Z) (buffer : list Z) (e : echo) : option echo :=
  match fuel with
  | O => None
  | S fuel =>
      let keep_running := ee_running env (ec_reads e) in
      let e := echo_read e in
      if negb keep_running then Some e else
      let '(s, w) := ee_worker env (ec_calls e) (ec_server e, ec_world e) in
      match rel4u_server_send s w client_id REL4U_MODE_RELIABLE_ORDERED buffer (Z.of_nat (length buffer)) with
      | None => None
      | Some (res, s, w) =>
          let e := mk_echo s w (ec_count e) (ec_reads e) (S (ec_calls e)) in
          if res =? REL4U_OK then Some e else echo_send env fuel client_id buffer e
      end
  end.

(** [while (g_keep_running) { ... }]. *)
Fixpoint echo_loop (env : echo_env) (fuel : nat) (e : echo) : option echo :=
  match fuel with
  | O => None
  | S fuel =>
      let keep_running := ee_running env (ec_reads e) in
      let e := echo_read e in
      if negb keep_running then Some e else
      let '(s, w) := ee_worker env (ec_calls e) (ec_server e, ec_world e) in
      match rel4u_server_recv s REL4U_DEFAULT_MTU 100 (ee_wakes env (ec_calls e)) with
      | None => None
      | Some (res, out_client_id, buffer, s) =>
          let e := mk_echo s w (ec_count e) (ec_reads e) (S (ec_calls e)) in
          if res =? REL4U_OK then
            let client_id := default 0 out_client_id in
            let e := mk_echo s w (u64 (ec_count e + 1)) (ec_reads e) (ec_calls e) in
            match echo_send env fuel client_id buffer e with
            | None => None
            | Some e => echo_loop env fuel e
            end
          else echo_loop env fuel e
      end
  end.

Definition echo_config (port : Z) : rel4u_server_config :=
  mk_server_config (Some "0.0.0.0"%string) port 64 REL4U_MAX_CLIENTS_DROP_OLD REL4U_DEFAULT_MTU 512 512 0 0 0
    REL4U_MEM_FIXED REL4U_QUEUE_FULL_DROP_NEW 0 0.

Definition echo_port (argv : list string) : Z :=
  match argv with _ :: arg :: _ => u16 (atoi arg) | _ => 9000 end.

(** The exit code and the final state; [None] while it runs. *)
Definition echo_main (argv : list string) (mem : server_memory) (sys : system)
    (finish : rel4u_server * world -> rel4u_server * world) (env : echo_env) (fuel : nat) (w : world)
  : option (Z * option echo) :=
  let port := echo_port argv in
  match rel4u_server_create (echo_config port) mem with
  | None => Some (1, None)
  | Some s =>
      let '(r, s) := rel4u_server_start s sys in
      if negb (r =? REL4U_OK) then
        let '(s, w) := rel4u_server_destroy finish s w in
        Some (1, Some (mk_echo s w 0 0 0))
      else
        match echo_loop env fuel (mk_echo s w 0 0 0) with
        | None => None
        | Some e =>
            let '(s, w) := rel4u_server_destroy finish (ec_server e) (ec_world e) in
            Some (0, Some (mk_echo s w (ec_count e) (ec_reads e) (ec_calls e)))
        end
  end.

(** ** The benchmark *)

Record bench_env := mk_bench_env {
  be_worker : nat -> rel4u_client * world -> rel4u_client * world;
  be_wakes : nat -> list (bool * rel4u_mpmc_queue)
}.

(** [bn_sent]: the messages that [rel4u_client_send] has answered with
    [REL4U_OK]. *)
Record bench := mk_bench {
  bn_client : rel4u_client;
  bn_world : world;
  bn_calls : nat;
  bn_received : Z;
  bn_sent : list (list Z)
}.

Definition string_bytes (s : string) : list Z := (fun c => Z.of_nat (nat_of_ascii c)) <$> list_ascii_of_string s.

(** [snprintf(send_buf, sizeof(send_buf), "BENCHMARK_MSG_%06d", i)]. *)
Definition bench_text (i : Z) : string := snprintf 128 ("BENCHMARK_MSG_" ++ print_06d i).

(** [while (rel4u_client_send(...) != REL4U_OK) sleep_ms(1);]. *)
Fixpoint bench_send (env : bench_env) (fuel : nat) (msg : list Z) (b : bench) : option bench :=
  match fuel with
  | O => None
  | S fuel =>
      let '(c, w) := be_worker env (bn_calls b) (bn_client b, bn_world b) in
      match rel4u_client_send c w REL4U_MODE_RELIABLE_ORDERED msg (Z.of_nat (length msg)) with
      | None => None
      | Some (res, c, w) =>
          let sent := if res =? REL4U_OK then bn_sent b ++ [msg] else bn_sent b in
          let b := mk_bench c w (S (bn_calls b)) (bn_received b) sent in
          if res =? REL4U_OK then Some b else bench_send env fuel msg b
      end
  end.

(** One call of [rel4u_client_recv]: whether it returned a message. *)
Definition bench_recv (env : bench_env) (timeout_ms : Z) (b : bench) : option (bool * bench) :=
  let '(c, w) := be_worker env (bn_calls b) (bn_client b, bn_world b) in
  match rel4u_client_recv c REL4U_DEFAULT_MTU timeout_ms (be_wakes env (bn_calls b)) with
  | None => None
  | Some (res, _, c) =>
      let ok := res =? REL4U_OK in
      Some (ok, mk_bench c w (S (bn_calls b)) (if ok then bn_received b + 1 else bn_received b) (bn_sent b))
  end.

(** [while (rel4u_client_recv(..., 0) == REL4U_OK) received_count++;]. *)
Fixpoint bench_drain (env : bench_env) (fuel : nat) (b : bench) : option bench :=
  match fuel with
  | O => None
  | S fuel =>
      match bench_recv env 0 b with
      | None => None
      | Some (true, b) => bench_drain env fuel b
      | Some (false, b) => Some b
      end
  end.

(** [for (int i = 1; i <= num_messages; i++) { ... }], from [i] on with [todo]
    turns to go. *)
Fixpoint bench_loop (env : bench_env) (fuel todo : nat) (i : Z) (b : bench) : option bench :=
  match todo with
  | O => Some b
  | S todo =>
      match bench_send env fuel (string_bytes (bench_text i)) b with
      | None => None
      | Some b =>
          match bench_drain env fuel b with
          | None => None
          | Some b => bench_loop env fuel todo (i + 1) b
          end
      end
  end.

(** [while (received_count < num_messages) { ... }]. *)
Fixpoint bench_wait (env : bench_env) (fuel : nat) (num_messages : Z) (b : bench) : option bench :=
  if bn_received b <? num_messages then
    match fuel with
    | O => None
    | S fuel =>
        match bench_recv env 1000 b with
        | None => None
        | Some (true, b) => bench_wait env fuel num_messages b
        | Some (false, b) => Some b
        end
    end
  else Some b.

Definition bench_config (server_ip : string) (port : Z) : rel4u_client_config :=
  mk_client_config (Some server_ip) port None 0 REL4U_DEFAULT_MTU 1024 1024 128 0 0 3000 false 0
    REL4U_MEM_FIXED REL4U_QUEUE_FULL_DROP_NEW 0 0.

Definition bench_args (argv : list string) : string * Z * Z :=
  (default "127.0.0.1"%string (argv !! 1%nat),
   match argv !! 2%nat with Some p => u16 (atoi p) | None => 9000 end,
   match argv !! 3%nat with Some n => atoi n | None => 1000 end).

Definition bench_main (argv : list string) (mem : create_memory) (sys : system)
    (work finish : rel4u_client * world -> rel4u_client * world) (views : list connect_view)
    (env : bench_env) (fuel : nat) (w : world) : option (Z * option bench) :=
  let '(server_ip, port, num_messages) := bench_args argv in
  match rel4u_client_create (bench_config server_ip port) mem with
  | None => Some (1, None)
  | Some c =>
      match rel4u_client_connect work finish c w sys views with
      | None => None
      | Some (r, c, w) =>
          if negb (r =? REL4U_OK) then
            let '(c, w) := rel4u_client_destroy finish c w in
            Some (1, Some (mk_bench c w 0 0 []))
          else
            match bench_loop env fuel (Z.to_nat num_messages) 1 (mk_bench c w 0 0 []) with
            | None => None
            | Some b =>
                match bench_wait env fuel num_messages b with
                | None => None
                | Some b =>
                    let '(c, w) := rel4u_client_destroy finish (bn_client b) (bn_world b) in
                    Some (if bn_received b =? num_messages then 0 else 1,
                          Some (mk_bench c w (bn_calls b) (bn_received b) (bn_sent b)))
                end
            end
      end
  end.

(** ** The echo server echoes *)

(** What the receive call of the loop does when a message waits. *)
Lemma echo_recv s wakes m rest d : q_rep (sv_recv_queue s) (mk_bqueue (m :: rest) d) -> m_len m <= REL4U_DEFAULT_MTU ->
  exists q, rel4u_server_recv s REL4U_DEFAULT_MTU 100 wakes = Some (REL4U_OK, Some (m_client_id m), m_data m, s <| sv_recv_queue := q |>) /\
    q_rep q (mk_bqueue rest d).
Proof.
  intros Hq Hm. unfold rel4u_server_recv. change (REL4U_DEFAULT_MTU =? 0) with false. cbv iota.
  pose proof (q_rep_count _ _ Hq) as Hc. pose proof (pop_spec (sv_recv_queue s) _ item_zero Hq) as P.
  assert (E : rel4u_mpmc_pop_wait (sv_recv_queue s) item_zero 100 wakes =
    let '(ok, q, it) := mpmc_pop_head_locked (sv_recv_queue s) item_zero in Returned ok q it).
  { unfold rel4u_mpmc_pop_wait. destruct wakes; cbn [pop_wait_loop]; by rewrite (proj2 (Z.eqb_neq _ _)) by (cbn in Hc; lia). }
  rewrite E. destruct (mpmc_pop_head_locked _ _) as [[ok q] it]. destruct P as (-> & Em & Hq' & _ & [Hw _]). exists q. split; [|done].
  pose proof (item_msg_len _ Hw) as El. rewrite Em in El. subst m. unfold item_msg in *. cbn [m_client_id m_data] in *.
  by rewrite (proj2 (Z.leb_le _ _)) by lia.
Qed.

(** What the send call does when there is room. *)
Lemma echo_sends s w id data bs : sv_running s = true -> Z.of_nat (length data) <= REL4U_MAX_PAYLOAD (sc_mtu (sv_config s)) ->
  Z.of_nat (length data) <= REL4U_MAX_MSG_SIZE -> q_rep (sv_send_queue s) bs ->
  (q_mode (sv_send_queue s) = REL4U_MEM_FIXED \/ (forall h n, is_Some (malloc h n))) ->
  cost_sum (q_cost (sv_send_queue s)) (bq_msgs bs ++ [mk_msg id REL4U_MODE_RELIABLE_ORDERED data]) <= q_limit (sv_send_queue s) ->
  exists q w', rel4u_server_send s w id REL4U_MODE_RELIABLE_ORDERED data (Z.of_nat (length data)) =
      Some (REL4U_OK, s <| sv_send_queue := q |>, w') /\
    q_rep q (mk_bqueue (bq_msgs bs ++ [mk_msg id REL4U_MODE_RELIABLE_ORDERED data]) (bq_dropped bs)).
Proof.
  intros Hr Hl Hmax Hq Ha Hfit. unfold rel4u_server_send, memcpy_into. destruct (Z.gtb_spec (Z.of_nat (length data)) (REL4U_MAX_PAYLOAD (sc_mtu (sv_config s)))); [lia|].
  rewrite Hr, (proj2 (Z.leb_le _ _)) by done. cbn [negb].
  pose proof (push_spec false (sv_send_queue s) bs _ Hq
    (queued_item_wf id REL4U_MODE_RELIABLE_ORDERED data (Z.of_nat (length data)) ltac:(lia))) as P. unfold mpmc_push in P.
  unfold rel4u_mpmc_try_push. destruct (mpmc_push_back_locked _ _) as [ok q]. destruct P as (alloc & b' & Hal & Hp & Hq' & _).
  assert (Em : item_msg (mk_item id (u8 REL4U_MODE_RELIABLE_ORDERED) (u16 (Z.of_nat (length data))) (memcpy [] data (Z.of_nat (length data)))) =
    mk_msg id REL4U_MODE_RELIABLE_ORDERED data).
  { unfold item_msg, memcpy, REL4U_MAX_MSG_SIZE in *. cbn [it_client_id it_mode it_len it_data]. f_equal.
    rewrite u16_small, drop_nil, app_nil_r, Nat2Z.id, !take_ge; [done|lia|rewrite take_ge; lia|word_unfold; lia]. }
  rewrite Em, (Hal Ha) in Hp. unfold bq_push in Hp. rewrite total_app in Hfit. cbn [cost_sum] in Hfit.
  set (m := mk_msg id REL4U_MODE_RELIABLE_ORDERED data) in *.
  assert (Hpos : 0 <= cost_sum (q_cost (sv_send_queue s)) (bq_msgs bs)).
  { generalize (bq_msgs bs) as l. unfold q_cost. destruct (q_mode _); induction l as [|x l IH]; cbn [cost_sum]; try lia.
    unfold sizeof_node, m_len in *. lia. }
  destruct (Z.gtb_spec (m_len m) REL4U_MAX_MSG_SIZE) as [Hbig|_]; [unfold m_len, m in Hbig; cbn [m_data] in Hbig; lia|].
  destruct (Z.gtb_spec (q_cost (sv_send_queue s) m) (q_limit (sv_send_queue s))); [lia|].
  rewrite (proj2 (Z.leb_le _ _)) in Hp by lia. injection Hp as <- <-. eexists q, _. cbn [negb]. split; [reflexivity|exact Hq'].
Qed.

(** C38. The echo server echoes what it reads.  When a message that fits a packet
    waits in its receive queue and its send queue has room, one turn of its loop,
    if it is not interrupted, takes the message out of the receive queue, with
    what the worker does before the call, and puts the same bytes for the same
    client, reliable and ordered, at the end of the send queue as the worker has
    left it then; nothing else changes in either queue, one echo more is counted
    and the loop goes on. *)
Theorem echo_turn_echoes env fuel e s w m rest d :
  ee_running env (ec_reads e) = true -> ee_running env (S (ec_reads e)) = true ->
  ee_worker env (ec_calls e) (ec_server e, ec_world e) = (s, w) ->
  q_rep (sv_recv_queue s) (mk_bqueue (m :: rest) d) -> m_len m <= REL4U_MAX_PAYLOAD REL4U_DEFAULT_MTU ->
  exists q, q_rep q (mk_bqueue rest d) /\
  forall s2 w2 bs, ee_worker env (S (ec_calls e)) (s <| sv_recv_queue := q |>, w) = (s2, w2) ->
    sv_running s2 = true -> sc_mtu (sv_config s2) = REL4U_DEFAULT_MTU -> q_rep (sv_send_queue s2) bs ->
    (q_mode (sv_send_queue s2) = REL4U_MEM_FIXED \/ (forall h n, is_Some (malloc h n))) ->
    cost_sum (q_cost (sv_send_queue s2)) (bq_msgs bs ++ [mk_msg (m_client_id m) REL4U_MODE_RELIABLE_ORDERED (m_data m)])
      <= q_limit (sv_send_queue s2) ->
    exists e', echo_loop env (S (S fuel)) e = echo_loop env (S fuel) e' /\
      q_rep (sv_send_queue (ec_server e'))
        (mk_bqueue (bq_msgs bs ++ [mk_msg (m_client_id m) REL4U_MODE_RELIABLE_ORDERED (m_data m)]) (bq_dropped bs)) /\
      sv_recv_queue (ec_server e') = sv_recv_queue s2 /\ ec_count e' = u64 (ec_count e + 1).
Proof.
  intros R1 R2 Ew Hq Hm. assert (Hm' : m_len m <= REL4U_DEFAULT_MTU).
  { unfold REL4U_MAX_PAYLOAD, REL4U_DEFAULT_MTU, REL4U_HEADER_SIZE in *. cbn in Hm. lia. }
  destruct (echo_recv s (ee_wakes env (ec_calls e)) m rest d Hq Hm') as (q & Er & Hq'). exists q. split; [done|].
  intros s2 w2 bs Ew2 Hrun Hmtu Hs Ha Hfit.
  destruct (echo_sends s2 w2 (m_client_id m) (m_data m) bs Hrun) as (q2 & w3 & Es & Hq2); try done.
  { by rewrite Hmtu. }
  { unfold m_len, REL4U_MAX_PAYLOAD, REL4U_DEFAULT_MTU, REL4U_HEADER_SIZE, REL4U_MAX_MSG_SIZE in *. cbn in Hm. lia. }
  exists (mk_echo (s2 <| sv_send_queue := q2 |>) w3 (u64 (ec_count e + 1)) (S (S (ec_reads e))) (S (S (ec_calls e)))).
  split; [|done]. change (echo_loop env (S (S fuel)) e) with (
    let keep_running := ee_running env (ec_reads e) in
    let e := echo_read e in
    if negb keep_running then Some e else
    let '(s, w) := ee_worker env (ec_calls e) (ec_server e, ec_world e) in
    match rel4u_server_recv s REL4U_DEFAULT_MTU 100 (ee_wakes env (ec_calls e)) with
    | None => None
    | Some (res, out_client_id, buffer, s) =>
        let e := mk_echo s w (ec_count e) (ec_reads e) (S (ec_calls e)) in
        if res =? REL4U_OK then
          let client_id := default 0 out_client_id in
          let e := mk_echo s w (u64 (ec_count e + 1)) (ec_reads e) (ec_calls e) in
          match echo_send env (S fuel) client_id buffer e with
          | None => None
          | Some e => echo_loop env (S fuel) e
          end
        else echo_loop env (S fuel) e
    end).
  cbv zeta. rewrite R1. cbn [negb echo_read ec_server ec_world ec_calls ec_reads ec_count]. rewrite Ew, Er.
  cbn [Z.eqb REL4U_OK default from_option]. cbn [echo_send ec_reads]. rewrite R2.
  cbn [negb echo_read ec_server ec_world ec_calls ec_reads ec_count]. unfold default, id. rewrite Ew2, Es. reflexivity.
Qed.

(** A message that does not fit a packet blocks the echo server: the send call
    answers that it is too large each time, and the loop around it, meant for a
    send queue that is full for a moment, goes on as long as the program is not
    interrupted. *)
Theorem echo_server_stuck env fuel id data e : (forall n, ee_running env n = true) ->
  (forall n s w, sc_mtu (sv_config (fst (ee_worker env n (s, w)))) = sc_mtu (sv_config s)) ->
  sc_mtu (sv_config (ec_server e)) = REL4U_DEFAULT_MTU -> REL4U_MAX_PAYLOAD REL4U_DEFAULT_MTU < Z.of_nat (length data) ->
  echo_send env fuel id data e = None.
Proof.
  intros Hr Hw Hm Hl. revert e Hm. induction fuel as [|fuel IH]; intros e Hm; cbn [echo_send]; [done|].
  rewrite Hr. cbn [negb]. pose proof (Hw (ec_calls (echo_read e)) (ec_server (echo_read e)) (ec_world (echo_read e))) as H.
  destruct (ee_worker env _ _) as [s w]. cbn [fst] in H. change (ec_server (echo_read e)) with (ec_server e) in H.
  unfold rel4u_server_send. rewrite H, Hm, (proj2 (Z.gtb_lt _ _)) by done. change (REL4U_ERR_MSG_TOO_LARGE =? REL4U_OK) with false.
  cbv iota zeta. apply IH. cbn [ec_server]. congruence.
Qed.

(** *** It stops *)

(** A wait that ends with the timeout at the latest returns. *)
Lemma pop_wait_times_out gen timeout q out wakes : 0 < timeout ->
  (exists q', (false, q') ∈ wakes) -> forall q0, pop_wait_loop gen timeout q out wakes <> Blocked q0.
Proof.
  intros Ht. revert q. induction wakes as [|[sg q1] wakes IH]; intros q [q' Hin] q0.
  { by apply elem_of_nil in Hin. }
  cbn [pop_wait_loop]. destruct (q_count q =? 0); [|by destruct (mpmc_pop_head_locked q out) as [[? ?] ?]].
  rewrite (proj2 (Z.eqb_neq timeout 0)), (proj2 (Z.ltb_ge timeout 0)) by lia.
  apply elem_of_cons in Hin as [[= <- ->]|Hin].
  - cbn [negb orb]. rewrite andb_true_r. destruct (q_count q1 =? 0) eqn:E1; [done|].
    destruct wakes; cbn [pop_wait_loop]; rewrite E1; by destruct (mpmc_pop_head_locked q1 out) as [[? ?] ?].
  - destruct ((q_count q1 =? 0) && _); [done|]. apply IH. by exists q'.
Qed.

Definition waits_end (env : echo_env) : Prop := forall n, exists q, (false, q) ∈ ee_wakes env n.

Lemma flag_stays env k n : flag_falls env -> ee_running env k = false -> (k <= n)%nat -> ee_running env n = false.
Proof. intros Hf Hk Hn. induction Hn as [|n Hn IH]; [done|by apply Hf]. Qed.

(** The copy of the call stays within its array for a message of its size. *)
Lemma server_send_fits s w id mode data len : len <= REL4U_MAX_MSG_SIZE -> is_Some (rel4u_server_send s w id mode data len).
Proof.
  intros Hl. unfold rel4u_server_send, memcpy_into. destruct (_ >? _); [done|]. destruct (negb _); [done|].
  rewrite (proj2 (Z.leb_le _ _)) by done. destruct (rel4u_mpmc_try_push _ _) as [ok q]. by destruct (negb ok).
Qed.

(** The flag is read once per turn of either loop, so as many turns are enough as
    there are readings before it is false. *)
Lemma echo_send_returns env k fuel id buf e : ee_running env k = false -> flag_falls env ->
  (ec_reads e <= k)%nat -> (k < ec_reads e + fuel)%nat -> Z.of_nat (length buf) <= REL4U_MAX_MSG_SIZE ->
  exists e', echo_send env fuel id buf e = Some e' /\ (ec_reads e < ec_reads e')%nat.
Proof.
  intros Hk Hf. revert e. induction fuel as [|fuel IH]; intros e Hle Hlt Hl; cbn [echo_send]; [lia|].
  destruct (ee_running env (ec_reads e)) eqn:Er; cbn [negb].
  - assert (ec_reads e <> k) by congruence.
    destruct (ee_worker env _ _) as [s w].
    pose proof (server_send_fits s w id REL4U_MODE_RELIABLE_ORDERED buf (Z.of_nat (length buf)) Hl) as [[[res s'] w'] ->].
    destruct (res =? REL4U_OK); [eexists; split; [reflexivity|]; simpl; lia|].
    edestruct IH as (e' & -> & Hr); [| | |exists e'; split; [done|]]; simpl in *; lia.
  - eexists. split; [reflexivity|]. simpl. lia.
Qed.

(** The echo server stops: once the flag is cleared before its [k]-th reading, and
    when every wait ends with the timeout at the latest, its loop ends within
    [k + 1] turns, whatever the worker does, also when the send queue stays full. *)
Theorem echo_server_stops env k fuel e :
  ee_running env k = false -> flag_falls env -> waits_end env ->
  (0 < fuel)%nat -> (k < ec_reads e + fuel)%nat ->
  exists e', echo_loop env fuel e = Some e'.
Proof.
  intros Hk Hf Hw. revert e. induction fuel as [|fuel IH]; intros e Hpos Hlt; [lia|]. cbn [echo_loop].
  destruct (ee_running env (ec_reads e)) eqn:Er; cbn [negb]; [|eauto].
  assert (Hr : (ec_reads e < k)%nat).
  { destruct (decide (k <= ec_reads e)%nat); [|lia]. by rewrite (flag_stays env k) in Er. }
  destruct (ee_worker env _ _) as [s w]. unfold rel4u_server_recv. change (REL4U_DEFAULT_MTU =? 0) with false.
  cbv iota. unfold rel4u_mpmc_pop_wait.
  pose proof (pop_wait_times_out (q_wake_generation (sv_recv_queue s)) 100 (sv_recv_queue s) item_zero
    (ee_wakes env (ec_calls (echo_read e))) ltac:(lia) (Hw _)) as Hb.
  destruct (pop_wait_loop _ _ _ _ _) as [q0|[] q' item]; [by destruct (Hb q0)| |].
  - cbn [Z.eqb REL4U_OK]. edestruct echo_send_returns as (e1 & -> & Hr1); [exact Hk|exact Hf| | | |];
      [simpl; lia|simpl; lia| |simpl in Hr1; apply IH; lia].
    rewrite length_take. unfold REL4U_MAX_MSG_SIZE, REL4U_DEFAULT_MTU. destruct (Z.leb_spec (it_len item) 1400); lia.
  - change (_ =? REL4U_OK) with false at 1. apply IH; simpl; lia.
Qed.

(** ** The benchmark *)

Lemma bench_send_spec env fuel msg b b' : bench_send env fuel msg b = Some b' ->
  bn_sent b' = bn_sent b ++ [msg] /\ bn_received b' = bn_received b.
Proof.
  revert b. induction fuel as [|fuel IH]; intros b E; cbn [bench_send] in E; [done|].
  destruct (be_worker env _ _) as [c w]. destruct (rel4u_client_send _ _ _ _ _) as [[[res c'] w']|]; [|done].
  destruct (res =? REL4U_OK); [by injection E as <-|by apply IH in E].
Qed.

Lemma bench_recv_spec env timeout b ok b' : bench_recv env timeout b = Some (ok, b') ->
  bn_sent b' = bn_sent b /\ bn_received b' = bn_received b + (if ok then 1 else 0).
Proof.
  unfold bench_recv. destruct (be_worker env _ _) as [c w].
  destruct (rel4u_client_recv _ _ _ _) as [[[res buf] c']|]; [|done]. intros [= <- <-]. simpl.
  split; [done|]. destruct (res =? REL4U_OK); lia.
Qed.

Lemma bench_drain_spec env fuel b b' : bench_drain env fuel b = Some b' ->
  bn_sent b' = bn_sent b /\ bn_received b <= bn_received b'.
Proof.
  revert b. induction fuel as [|fuel IH]; intros b E; cbn [bench_drain] in E; [done|].
  destruct (bench_recv env 0 b) as [[[] b1]|] eqn:Er; [| |done]; apply bench_recv_spec in Er as [E1 E2].
  - apply IH in E as [E3 E4]. split; [congruence|lia].
  - injection E as <-. split; [done|lia].
Qed.

Lemma bench_wait_spec env fuel num b b' : bench_wait env fuel num b = Some b' ->
  bn_sent b' = bn_sent b /\ bn_received b <= bn_received b' <= Z.max (bn_received b) num.
Proof.
  revert b. induction fuel as [|fuel IH]; intros b E; cbn [bench_wait] in E;
    (destruct (Z.ltb_spec (bn_received b) num); [|injection E as <-; split; [done|lia]]); [done|].
  destruct (bench_recv env 1000 b) as [[[] b1]|] eqn:Er; [| |done]; apply bench_recv_spec in Er as [E1 E2].
  - apply IH in E as [E3 E4]. split; [congruence|lia].
  - injection E as <-. split; [done|lia].
Qed.

(** The messages of the turns from [i] on. *)
Fixpoint bench_texts (todo : nat) (i : Z) : list (list Z) :=
  match todo with O => [] | S todo => string_bytes (bench_text i) :: bench_texts todo (i + 1) end.

Lemma bench_loop_spec env fuel todo i b b' : bench_loop env fuel todo i b = Some b' ->
  bn_sent b' = bn_sent b ++ bench_texts todo i /\ bn_received b <= bn_received b'.
Proof.
  revert i b. induction todo as [|todo IH]; intros i b E; cbn [bench_loop bench_texts] in *.
  { injection E as <-. rewrite app_nil_r. split; [done|lia]. }
  destruct (bench_send env fuel _ b) as [b1|] eqn:E1; [|done]. apply bench_send_spec in E1 as [E1 R1].
  destruct (bench_drain env fuel b1) as [b2|] eqn:E2; [|done]. apply bench_drain_spec in E2 as [E2 R2].
  apply IH in E as [E R]. split; [|lia]. rewrite E, E2, E1, <- app_assoc. done.
Qed.

Lemma string_bytes_inj s1 s2 : string_bytes s1 = string_bytes s2 -> s1 = s2.
Proof.
  intros H. rewrite <- (string_of_list_ascii_of_string s1), <- (string_of_list_ascii_of_string s2). f_equal.
  unfold string_bytes in H. revert H. apply list_fmap_eq_inj.
  intros c1 c2 Hc. rewrite <- (ascii_nat_embedding c1), <- (ascii_nat_embedding c2). f_equal. lia.
Qed.

Lemma string_bytes_length s : length (string_bytes s) = String.length s.
Proof. unfold string_bytes. rewrite length_fmap. induction s; simpl; congruence. Qed.

(** The text is not cut, and a number has one text. *)
Lemma bench_text_whole i : 0 <= i < 2 ^ 31 ->
  bench_text i = ("BENCHMARK_MSG_" ++ print_06d i)%string /\ (20 <= String.length (bench_text i) <= 24)%nat.
Proof.
  intros Hi. assert (Hl : (20 <= String.length ("BENCHMARK_MSG_" ++ print_06d i) <= 24)%nat).
  { change (String.length ("BENCHMARK_MSG_" ++ print_06d i)) with (14 + String.length (print_06d i))%nat.
    unfold print_06d. rewrite (proj2 (Z.ltb_ge i 0)), zeros_length by lia. pose proof (print_u_length i 9 ltac:(simpl; lia) ltac:(lia)). lia. }
  unfold bench_text. rewrite snprintf_fits by lia. done.
Qed.

Lemma bench_text_inj i j : 0 <= i < 2 ^ 31 -> 0 <= j < 2 ^ 31 -> bench_text i = bench_text j -> i = j.
Proof.
  intros Hi Hj. rewrite (proj1 (bench_text_whole i Hi)), (proj1 (bench_text_whole j Hj)). intros H.
  injection H as H. change (print_06d i = print_06d j) in H.
  rewrite <- (atoi_print_06d i), <- (atoi_print_06d j), H by lia. done.
Qed.

Lemma bench_texts_elem todo i m : m ∈ bench_texts todo i <->
  exists j, i <= j < i + Z.of_nat todo /\ m = string_bytes (bench_text j).
Proof.
  revert i. induction todo as [|todo IH]; intros i; cbn [bench_texts].
  - split; [by intros ?%elem_of_nil|intros (j & Hj & _); lia].
  - rewrite elem_of_cons, IH. split.
    + intros [->|(j & Hj & ->)]; [exists i; split; [lia|done]|exists j; split; [lia|done]].
    + intros (j & Hj & ->). destruct (decide (j = i)) as [->|]; [by left|right]. exists j. split; [lia|done].
Qed.

Lemma bench_texts_distinct todo i : 0 <= i -> i + Z.of_nat todo <= 2 ^ 31 -> NoDup (bench_texts todo i).
Proof.
  revert i. induction todo as [|todo IH]; intros i Hi Hb; cbn [bench_texts]; constructor; [|apply IH; lia].
  rewrite bench_texts_elem. intros (j & Hj & E%string_bytes_inj). apply bench_text_inj in E; lia.
Qed.

(** The benchmark sends what it says.  Whatever the worker does and however the
    waits go: a program that has connected and ends has handed over exactly the
    [num_messages] numbered messages, in order and pairwise different, none of
    them cut by the buffer or too large for the default MTU, and its exit code is
    0 exactly when as many echoes came back; otherwise it ends with code 1 and has
    sent nothing. *)
Theorem bench_sends_all argv mem sys work finish views env fuel w code ob :
  let '(_, _, num_messages) := bench_args argv in
  num_messages < 2 ^ 31 ->
  bench_main argv mem sys work finish views env fuel w = Some (code, ob) ->
  (code = 1 /\ forall b, ob = Some b -> bn_sent b = []) \/
  (exists b, ob = Some b /\ bn_sent b = bench_texts (Z.to_nat num_messages) 1 /\ NoDup (bn_sent b) /\
   Forall (fun m => 20 <= Z.of_nat (length m) <= 24) (bn_sent b) /\
   code = (if bn_received b =? num_messages then 0 else 1)).
Proof.
  unfold bench_main. destruct (bench_args argv) as [[server_ip port] num]. intros Hn E.
  destruct (rel4u_client_create _ mem) as [c|]; [|injection E as <- <-; by left].
  destruct (rel4u_client_connect _ _ _ _ _ _) as [[[r c1] w1]|]; [|done].
  destruct (negb (r =? REL4U_OK)).
  { destruct (rel4u_client_destroy _ _ _) as [c2 w2]. injection E as <- <-. left. split; [done|]. by intros b [= <-]. }
  destruct (bench_loop env fuel _ _ _) as [b1|] eqn:El; [|done]. apply bench_loop_spec in El as [El _].
  destruct (bench_wait env fuel num b1) as [b2|] eqn:Ew; [|done]. apply bench_wait_spec in Ew as [Ew _].
  destruct (rel4u_client_destroy _ _ _) as [c2 w2]. injection E as <- <-. right. eexists. split; [reflexivity|].
  cbn [bn_sent bn_received app] in *. assert (Es : bn_sent b2 = bench_texts (Z.to_nat num) 1) by congruence.
  rewrite Es. split; [done|]. split; [apply bench_texts_distinct; lia|]. split; [|done].
  apply Forall_forall. intros m (j & Hj & ->)%bench_texts_elem. rewrite string_bytes_length.
  pose proof (proj2 (bench_text_whole j ltac:(lia))). lia.
Qed.
End examples.

(** ** Witnesses *)

#[local] Existing Instance sample_platform.

Definition example_system : system :=
  mk_system (fun _ port => Some (mk_addr (AF_INET port 0) 16)) (fun _ => 5) (fun _ _ => 0) (Some (6, 7)) true.
Definition example_world : world := mk_world 0 0 [] false.

(** The server of the sample run, started and with one message from client 9. *)
Definition echo_sample_server : rel4u_server := Eval vm_compute in
  let s := default (server_zero (echo_config 9001)) (rel4u_server_create (echo_config 9001)
    (mk_server_memory true (Some (replicate 8 item_zero)) (Some (replicate 8 item_zero)) true (fun _ => (true, true)))) in
  (snd (rel4u_server_start s example_system))
    <| sv_send_queue := snd (rel4u_mpmc_init REL4U_MEM_FIXED REL4U_QUEUE_FULL_DROP_NEW 8 0 (Some (replicate 8 item_zero))) |>
    <| sv_recv_queue := snd (fst (rel4u_mpmc_push_notify
         (snd (rel4u_mpmc_init REL4U_MEM_FIXED REL4U_QUEUE_FULL_DROP_NEW 8 0 (Some (replicate 8 item_zero)))) (sample_item 9))) |>.
Definition echo_idle_env : echo_env := mk_echo_env (fun n => (n <? 2)%nat) (fun _ x => x) (fun _ => [(false, queue_zero)]).
Definition echo_sample_start : echo := mk_echo echo_sample_server example_world 0 0 0.

Lemma echo_sample_falls : flag_falls echo_idle_env.
Proof. intros n. cbn [ee_running echo_idle_env]. rewrite !Nat.ltb_ge. lia. Qed.

Lemma echo_sample_recv : q_rep (sv_recv_queue echo_sample_server) (mk_bqueue [mk_msg 9 3 [9; 10]] 0).
Proof.
  apply q_rep_fixed; [reflexivity|reflexivity|word_unfold; lia|]. split; [|split; [vm_compute; reflexivity|]].
  - constructor; cbn; try lia; reflexivity.
  - change (Forall item_sized [sample_item 9]). constructor; [|constructor]. split; [apply sample_item_wf|done].
Qed.

Lemma echo_turn_echoes_witness : exists e',
  echo_loop echo_idle_env 3 echo_sample_start = echo_loop echo_idle_env 2 e' /\
  q_rep (sv_send_queue (ec_server e')) (mk_bqueue [mk_msg 9 3 [9; 10]] 0) /\ ec_count e' = 1.
Proof.
  destruct (echo_turn_echoes echo_idle_env 1 echo_sample_start echo_sample_server example_world (mk_msg 9 3 [9; 10]) [] 0
    eq_refl eq_refl eq_refl echo_sample_recv ltac:(vm_compute; discriminate)) as (q & Hq & T).
  destruct (T (echo_sample_server <| sv_recv_queue := q |>) example_world (mk_bqueue [] 0) eq_refl eq_refl eq_refl) as (e' & E & Hs & _ & Hc).
  - apply q_rep_fixed; [reflexivity|reflexivity|word_unfold; lia|]. split; [|split; [reflexivity|constructor]].
    constructor; cbn; try lia; reflexivity.
  - left. reflexivity.
  - vm_compute. discriminate.
  - exists e'. split; [exact E|]. split; [exact Hs|exact Hc].
Defined.

Lemma echo_server_stuck_witness : echo_send (mk_echo_env (fun _ => true) (fun _ x => x) (fun _ => [])) 1000 9 (replicate 1377 0)
  echo_sample_start = None.
Proof. apply echo_server_stuck; [done|done|reflexivity|vm_compute; reflexivity]. Defined.

Lemma echo_server_stops_witness : exists e',
  echo_loop echo_idle_env 3 (mk_echo (server_zero (echo_config 9001)) example_world 0 0 0) = Some e'.
Proof.
  apply (echo_server_stops echo_idle_env 2 3);
    [reflexivity|exact echo_sample_falls| |apply Nat.lt_0_succ|apply Nat.lt_succ_diag_r].
  intros n. exists queue_zero. left.
Defined.

Definition bench_sample_env : bench_env :=
  mk_bench_env
    (fun n '(c, w) =>
       (if (n =? 1)%nat || (n =? 4)%nat
        then c <| cl_recv_queue := snd (fst (rel4u_mpmc_push_notify (cl_recv_queue c) (sample_item 0))) |>
        else c, w))
    (fun _ => []).
Definition bench_sample_memory : create_memory :=
  mk_memory true (Some (replicate 1024 item_zero)) (Some (replicate 1024 item_zero)) true true.
Definition bench_sample_argv : list string := ["bench"; "127.0.0.1"; "9001"; "2"]%string.
Definition bench_sample_work (x : rel4u_client * world) : rel4u_client * world :=
  ((fst x) <| cl_state := REL4U_STATE_CONNECTED |>, snd x).
#[local] Abbreviation bench_sample_run :=
  (bench_main bench_sample_argv bench_sample_memory example_system bench_sample_work (fun x => x)
    [mk_view true REL4U_STATE_CONNECTED false 0] bench_sample_env 4 example_world).

Lemma bench_sends_all_witness :
  exists b, bench_sample_run = Some (0, Some b) /\ bn_received b = 2 /\ bn_sent b = bench_texts 2 1 /\
  NoDup (bn_sent b).
Proof.
  assert (V : option_map (fun r => (fst r, option_map bn_received (snd r))) bench_sample_run = Some (0, Some 2))
    by (vm_compute; reflexivity).
  pose proof (bench_sends_all bench_sample_argv bench_sample_memory example_system
    bench_sample_work (fun x => x) [mk_view true REL4U_STATE_CONNECTED false 0] bench_sample_env 4
    example_world) as T.
  destruct bench_sample_run as [[code ob]|]; [|discriminate V].
  specialize (T code ob). change (bench_args bench_sample_argv) with ("127.0.0.1"%string, 9001, 2) in T.
  destruct (T ltac:(lia) eq_refl) as [(-> & _)|(b & -> & Es & Hd & _ & ->)]; [discriminate V|].
  exists b. injection V as V1 V2. rewrite V2. split; [reflexivity|]. split; [reflexivity|]. split; [exact Es|exact Hd].
Defined.
